(* ===== verification/_CoqProject ===== *)
-Q . S2P
Prelude.v
RingBuffer.v
Packed.v
Avr.v
Digital.v
Timer.v
Interrupts.v
ShiftPulse.v
Twi.v
TwiSafety.v
TwiMaster.v
Wire.v
HidParser.v
HidSafety.v
HidItems.v
ConfigDescriptors.v
Bootloader.v
BootloaderProtocol.v
BootloaderApi.v
Usb.v
UsbConfigure.v
UsbController.v
UsbStream.v
UsbAccess.v
UsbTransfer.v
UsbPacket.v
UsbUnits.v
UsbControlRead.v
UsbDevice.v
UsbAnswer.v
UsbDescriptors.v
CdcDevice.v
SerialDevice.v
BootloaderUsb.v
MassStorage.v
UsbTyped.v
HidDevice.v
Enumeration.v
SerialPort.v
Formatting.v
MidiDevice.v
AudioDevice.v
RndisDevice.v
RndisPackets.v
