(* ===== verification/Prelude.v ===== *)
(** * Arduino core for AT90USB: verification library

    The repository is an Arduino core for the AT90USB646/647/1286/1287 micro-controllers: the C
    core that sketches call (pins, time, interrupts, shift registers, the two-wire bus), the USB
    serial port, which is an application of the LUFA library the core carries a copy of, and the
    USB boot loader that programs the chip. This library models that C code and proves what makes
    it correct. Paths below are relative to src/hardware/DynamicPerception/avr/; LUFA/ is
    cores/AT90USB/LUFA/Drivers/.

    ** The parts and how they interact

    A sketch calls the pin functions (Digital), which shift registers and pulse measurement
    (ShiftPulse), the two-wire driver (Twi) under the Wire class (Wire) and the external
    interrupts (Interrupts) use; they all
    work on the registers of the chip (Avr). The time functions (Timer) rest on the overflow
    handler of timer 0. The ring buffer (RingBuffer) carries bytes from an interrupt handler to
    the main program.

    On the USB side, the endpoint driver (Usb, UsbConfigure) moves bytes in and out of the
    controller's banks; the streams (UsbStream, UsbTransfer, UsbControlRead) move whole buffers
    with it; the device requests (UsbDevice) answer the host on endpoint 0 and call the
    application; the serial device (UsbDescriptors, CdcDevice, SerialDevice)
    under the port of the sketches (SerialPort, Formatting), the boot loader
    (Bootloader, BootloaderProtocol, BootloaderApi, BootloaderUsb) and the drivers for mass
    storage, HID, MIDI, audio and network devices (MassStorage, HidDevice, MidiDevice,
    AudioDevice, RndisDevice, RndisPackets) are applications. The parsers of the descriptors a
    host reads (ConfigDescriptors, HidParser) stand alone; the first also checks the serial
    device's own descriptors.

    ** Files

    - Prelude: record update, machine integers and bits, arrays, results ([res]), the tactics and
      hints of the library.
    - RingBuffer: LUFA/Misc/RingBuffer.h. [RingBuffer_t] with pointers as indices; every function,
      with the memory accesses of [RingBuffer_Insert] and [RingBuffer_Remove] as separate steps.
    - Packed: little-endian integers, C strings and packed structures in memory.
    - Avr: the registers, as a total map from names to bytes.
    - Digital: wiring_digital.c, wiring_analog.c, [init] of wiring.c and the pin tables of
      variants/at90usb128X/pins_arduino.h.
    - Timer: the rest of wiring.c. Interrupts: WInterrupts.c. ShiftPulse: wiring_shift.c,
      wiring_pulse.c.
    - Twi, TwiSafety, TwiMaster: libraries/Wire/utility/twi.c. Twi holds the driver's variables,
      every function and the interrupt handler [TWI_vect]; TwiSafety the bus hardware
      ([hw_legal]), the promise of its clients ([SlaveCallbacks]) and the buffer invariant;
      TwiMaster whole transfers. Wire: the class [TwoWire] of libraries/Wire/Wire.cpp, which keeps
      the promise.
    - HidParser, HidSafety, HidItems: LUFA/USB/Class/Common/HIDParser.c; HIDReportData.h for the
      descriptors that are well formed.
    - ConfigDescriptors: the searches of LUFA/USB/Core/ConfigDescriptors.c.
    - Bootloader, BootloaderProtocol: the AVR910 interpreter of
      bootloaders/AT90usb128X/CDC/BootloaderCDC.c over its two endpoints; avr-libc's
      self-programming functions are the class [Nvm], with their documented behaviour in
      [NvmLaws] and a chip that satisfies it. BootloaderApi: BootloaderAPI.c. BootloaderUsb: the
      handlers of USB events in BootloaderCDC.c. The source for the 64 KB parts is the same.
    - Usb: LUFA/USB/Core/AVR8/Endpoint_AVR8.h and .c, Device_AVR8.h, and the device part of
      USBInterrupt_AVR8.c, over the controller's banks. UsbConfigure: what
      [Endpoint_ConfigureEndpoint] leaves behind. UsbController: USBController_AVR8.c, the controls of
      USBController_AVR8.h and Host_AVR8.h that it uses, and the host and ID part of the interrupt.
      UsbAccess: the accessors of endpoints and device that the drivers do not use, remote wake-up.
    - UsbStream: EndpointStream_AVR8.c and its three templates, and control writes. UsbTransfer:
      the wait for a bank and the data streams. UsbPacket: streams that stay within one bank, and
      streams that nothing disturbs. UsbUnits: events and samples, which two endpoints carry in
      packets of whole units. UsbControlRead: control reads.
    - UsbDevice: LUFA/USB/Core/DeviceStandardReq.c and the device task of USBTask.c. UsbAnswer:
      requests answered with one packet, for the applications. UsbTyped: the invariant of the
      device's state that all of this code keeps, over an invariant of the application's.
    - UsbDescriptors: USBSerialDescriptors.c of the core and Descriptors.c of the boot loader.
    - CdcDevice: LUFA/USB/Class/Device/CDCClassDevice.c with the interface and the handlers of
      USBSerialClass.cpp. SerialDevice: the composition of all of these when a host configures
      the device. Enumeration: the life of the serial device from [USB_Init] on. SerialPort:
      the class [USBSerial_] of USBSerialClass.cpp that sketches call, and [Print::write] of Print.cpp.
      Formatting: the printing of integers in Print.cpp over it.
    - MassStorage: LUFA/USB/Class/Device/MassStorageClassDevice.c, with the structures of
      MassStorageClassCommon.h as bytes. HidDevice, MidiDevice, AudioDevice:
      HIDClassDevice.c, MIDIClassDevice.c and AudioClassDevice.c of the same directory, with
      their headers. RndisDevice:
      RNDISClassDevice.c, its messages as bytes, and what they mean ([decode], [handle]);
      RndisPackets: the theorems on its network packets.
      [app] of the device's state is the driver's structure; the callbacks are parameters.

    ** How the code is modelled

    A C integer of width [w] is a [Z] that is reduced where the code stores or converts it; [int]
    has 16 bits, as on AVR. A pointer is an index into its array, and an access outside the array
    is a [Fault]: a theorem that gives an [Ok] result includes memory safety. A busy-wait loop
    takes the list of what the hardware does meanwhile (bus events, readings of a timer or a pin);
    a loop that still waits when the list ends is a [Hang]. So termination is a statement about
    the list: enough progress of the hardware gives [Ok]. Interrupt handlers run between two turns
    of a loop, where C allows them. Loops over data are structural, or take fuel that the theorems
    show to be enough: a search through a descriptor of [n] bytes needs [n] turns, a stream the
    bytes and the events together; the theorems are stated for that fuel or for any larger one.
    The state of the USB device is threaded through a monad of the events ([M]) and one without
    waiting ([Op]). Three fields of it only record: the packets that the host has collected from an
    endpoint ([taken]), the address register at each of its requests for a packet ([tokens]), and
    the calls of the application's event handlers ([callbacks]).

    Hardware and code outside the repository are parameters: the [UsbChip] class (which endpoint
    configurations the controller accepts), [NvmLaws] (self-programming), [hw_legal] (the status
    codes of the two-wire hardware), the handlers and callbacks of applications. Each theorem with
    such a hypothesis is followed by an instance where it holds.

    ** What the theorems show

    - RingBuffer: it refines a queue; with one reader and one writer every interleaving of their
      memory accesses is safe and keeps the order.
    - Digital, Timer, Interrupts, ShiftPulse: each function changes exactly the bits it should and
      returns the documented value; [millis] and [micros] do not drift; waits end.
    - Twi and Wire: no bus behaviour takes the handler out of its buffers, whatever a sketch does
      in its handlers, as long as reads ask for at least one byte and the set-up of a transfer is
      not interrupted; a read of no bytes leaves them, and so does a [write] of the class
      interrupted by a handler that fills the buffer. Transfers deliver their data or the documented error, from
      the calls of a sketch to the bytes on the bus and back.
    - HID parser and descriptor walker: total and in bounds on well-formed descriptors, with the
      meaning of what they compute; and what happens on malformed ones.
    - Boot loader: what is programmed is what is read back; erasing spares the loader; responses
      end in a short packet.
    - USB: endpoints are configured as asked; streams neither lose, repeat nor reorder bytes,
      whatever the host does but for a bus reset (and, for the data streams, a control request),
      and return in bounded time; requests are answered or stalled; the address is enabled
      after the status packet has been collected, as the log of the host's requests for packets
      shows; descriptors arrive as they are; the serial device, once configured, transmits and
      receives in order, and a flush hands everything over to the controller. The interface is
      initialised from any state, with the PLL off where the library runs it, and from there power, a bus reset and two
      requests of the host take the serial device to the state in which it transmits and receives.
      Over it, the port that sketches use behaves as an abstract port in every session of calls
      without resets; and what its peeking does wrong. To print an integer there is to write
      its text, which reads back as the integer, in every base.
    - Mass storage: a command is read, executed and answered with its status; a malformed one is
      refused with stalls, which a reset ends.
    - HID: input reports are sent when they are forced, new or due, at exactly the idle rate;
      output reports arrive as they were sent; no behaviour of bus and host leaves the type of the
      state.
    - MIDI: from its configuration on the device behaves as an abstract one that sends and
      receives whole events. Audio: the same for samples of each width, once the host has switched
      the stream on, and which values are read for them: the documented ones at 8 and 16 bits, others
      at 24; the properties that the host sets and gets are the application's.
    - RNDIS: the processing of control messages in place is that of an adapter that reads a message and
      then answers it, also over the packets of endpoint 0; network packets are sent, handed over
      and read in order, in bounded time and within the caller's buffer, and completely if nothing
      disturbs them; bus resets and control requests during a packet are left out.

    Some theorems describe what the code does where that is not what it means to do (the PWM of
    pin 15, two-wire reads of no bytes, HID descriptors with PUSH, the rest of a refused packet in
    the mass storage driver, packets for the MIDI driver that are not whole events, samples of 24
    bits, the queries whose answers do not fit the buffer of the RNDIS driver, a second peek at the
    serial port); examples show others on concrete inputs (item access off byte boundaries, HID
    descriptors with truncated items, a refused block that is executed twice).

    ** Not modelled

    - USB host mode and the host class drivers of LUFA, and [USB_Host_GetDeviceConfigDescriptor]
      with them: the boards are devices, and no application of the repository uses them.
    - The set-up of pins and interrupt vectors in the boot loader's [main], and its watchdog reset.
    - The C++ classes on top of the C core, other than the serial port, Wire and the printing of
      integers: streams, strings, floating point numbers and the other libraries.
    - The UC3 and XMEGA ports of LUFA and the separate LUFA distribution with its demos: not
      compiled for these boards.

    ** This file

    Record update, machine integers, bits, arrays, results. *)

From stdpp Require Export base numbers list option.
From Stdlib Require Import Lia ZArith Bool.

#[local] Open Scope Z_scope.

(** ** Functional record update *)

(** [Eta R] exposes a record as its constructor applied to its projections; a [Setter]
    for one projection is derived from it by abstracting that projection. *)
Class Eta (R : Type) := { eta : R -> R; eta_id : forall r, eta r = r }.

Class Setter {R T : Type} (proj : R -> T) := set_field : (T -> T) -> R -> R.
Arguments set_field {R T} proj {_} _ _.

Ltac derive_setter :=
  match goal with
  | |- @Setter ?R ?T ?proj =>
      let upd := fresh "upd" in
      let rcd := fresh "rcd" in
      red; intros upd rcd;
      let e := eval hnf in (@eta R _) in
      let e := eval cbv beta in (e rcd) in
      match eval pattern (proj rcd) in e with
      | ?g _ => let r := eval cbv beta in (g (upd (proj rcd))) in exact r
      end
  end.
#[export] Hint Extern 1 (Setter _) => derive_setter : typeclass_instances.

Declare Scope record_scope.
#[warnings="-postfix-notation-not-level-1"]
Notation "r <| proj ::= f |>" := (set_field proj f r)
  (at level 12, proj at level 8, f at level 99, left associativity) : record_scope.
#[warnings="-postfix-notation-not-level-1"]
Notation "r <| proj := v |>" := (set_field proj (fun _ => v) r)
  (at level 12, proj at level 8, v at level 99, left associativity) : record_scope.
Open Scope record_scope.

(** ** Machine integers *)

(** A [w]-bit C integer is a [Z]; [u8], [u16] and [u32] are the conversions to the unsigned
    types of AVR C, [i8] and [i16] those to its signed [char] and its 16-bit [int] (two's
    complement). *)
Definition u8 (x : Z) : Z := x mod 256.
Definition u16 (x : Z) : Z := x mod 65536.
Definition u32 (x : Z) : Z := x mod 4294967296.
Definition i8 (x : Z) : Z := (x + 128) mod 256 - 128.
Definition i16 (x : Z) : Z := (x + 32768) mod 65536 - 32768.

Definition is_u8 (x : Z) : Prop := 0 <= x < 256.
Definition is_u16 (x : Z) : Prop := 0 <= x < 65536.
Definition is_u32 (x : Z) : Prop := 0 <= x < 4294967296.

#[export] Instance is_u8_dec x : Decision (is_u8 x).
Proof. unfold is_u8. apply _. Defined.
#[export] Instance is_u16_dec x : Decision (is_u16 x).
Proof. unfold is_u16. apply _. Defined.
#[export] Instance is_u32_dec x : Decision (is_u32 x).
Proof. unfold is_u32. apply _. Defined.

(** Linear arithmetic with the wrap-around operators unfolded. *)
Ltac words :=
  unfold is_u8, is_u16, is_u32, u8, u16, u32, i8, i16 in *;
  Z.div_mod_to_equations; lia.

Create HintDb words.

Lemma u8_range x : is_u8 (u8 x).
Proof. words. Qed.
Lemma u16_range x : is_u16 (u16 x).
Proof. words. Qed.
Lemma u32_range x : is_u32 (u32 x).
Proof. words. Qed.
Lemma u8_small x : is_u8 x -> u8 x = x.
Proof. words. Qed.
Lemma u16_small x : is_u16 x -> u16 x = x.
Proof. words. Qed.
Lemma u32_small x : is_u32 x -> u32 x = x.
Proof. words. Qed.
Lemma i16_small x : -32768 <= x < 32768 -> i16 x = x.
Proof. words. Qed.
#[export] Hint Resolve u8_range u16_range u32_range : words.

(** ** Bits *)

(** [_BV(n)], and the [sbi]/[cbi] macros on a special function register. *)
Definition BV (n : Z) : Z := Z.shiftl 1 n.
Definition sbi (r n : Z) : Z := Z.lor r (BV n).
Definition cbi (r n : Z) : Z := Z.land r (Z.lnot (BV n)).

#[global] Arguments Z.testbit : simpl never.
#[global] Arguments Z.eqb : simpl never.
#[global] Arguments Z.ltb : simpl never.
#[global] Arguments Z.leb : simpl never.
Arguments u8 : simpl never.
Arguments u16 : simpl never.
Arguments u32 : simpl never.
Arguments i16 : simpl never.
Arguments BV : simpl never.
Arguments sbi : simpl never.
Arguments cbi : simpl never.

Lemma BV_testbit n m : 0 <= n -> Z.testbit (BV n) m = (m =? n).
Proof.
  intros Hn. unfold BV. rewrite Z.shiftl_1_l. rewrite Z.pow2_bits_eqb by done.
  apply Z.eqb_sym.
Qed.

Lemma sbi_testbit r n m : 0 <= n -> Z.testbit (sbi r n) m = (m =? n) || Z.testbit r m.
Proof. intros Hn. unfold sbi. by rewrite Z.lor_spec, BV_testbit, orb_comm. Qed.

Lemma cbi_testbit r n m :
  0 <= n -> 0 <= m -> Z.testbit (cbi r n) m = negb (m =? n) && Z.testbit r m.
Proof.
  intros Hn Hm. unfold cbi. by rewrite Z.land_spec, Z.lnot_spec, BV_testbit, andb_comm.
Qed.

(** Bits of a [w]-bit value above [w] are clear, and conversely. *)
Lemma testbit_high x w i : 0 <= x < 2 ^ w -> w <= i -> Z.testbit x i = false.
Proof.
  intros Hx Hi. destruct (decide (x = 0)) as [->|]; [apply Z.testbit_0_l|].
  apply Z.bits_above_log2; [lia|].
  assert (Z.log2 x < w); [|lia]. apply Z.log2_lt_pow2; lia.
Qed.

Lemma testbit_bound x w :
  0 <= w -> 0 <= x -> (forall i, w <= i -> Z.testbit x i = false) -> x < 2 ^ w.
Proof.
  intros Hw Hx Hb. destruct (decide (x = 0)) as [->|Hn]; [lia|].
  apply Z.log2_lt_pow2; [lia|].
  destruct (Z_lt_le_dec (Z.log2 x) w) as [|Hge]; [done|].
  specialize (Hb (Z.log2 x) Hge). rewrite Z.bit_log2 in Hb by lia. done.
Qed.

Lemma lor_bound a b w : 0 <= w -> 0 <= a < 2 ^ w -> 0 <= b < 2 ^ w -> 0 <= Z.lor a b < 2 ^ w.
Proof.
  intros Hw Ha Hb. split; [apply Z.lor_nonneg; lia|].
  apply testbit_bound; [done|apply Z.lor_nonneg; lia|].
  intros i Hi. by rewrite Z.lor_spec, (testbit_high a w), (testbit_high b w).
Qed.

Lemma land_bound a b w : 0 <= w -> 0 <= a < 2 ^ w -> 0 <= Z.land a b < 2 ^ w.
Proof.
  intros Hw Ha. split; [apply Z.land_nonneg; lia|].
  apply testbit_bound; [done|apply Z.land_nonneg; lia|].
  intros i Hi. by rewrite Z.land_spec, (testbit_high a w).
Qed.

Lemma BV_u8 n : 0 <= n < 8 -> is_u8 (BV n).
Proof.
  intros Hn. unfold is_u8, BV. rewrite Z.shiftl_1_l. change 256 with (2 ^ 8).
  split; [lia|]. apply Z.pow_lt_mono_r; lia.
Qed.
Lemma sbi_u8 r n : is_u8 r -> 0 <= n < 8 -> is_u8 (sbi r n).
Proof. intros Hr Hn. apply (lor_bound _ _ 8); [lia|done|by apply BV_u8]. Qed.
Lemma cbi_u8 r n : is_u8 r -> is_u8 (cbi r n).
Proof. intros Hr. by apply (land_bound _ _ 8). Qed.
#[export] Hint Resolve BV_u8 sbi_u8 cbi_u8 : words.

(** [u8 x] keeps the low eight bits, [u32] the low thirty-two. *)
Lemma u8_testbit x i : 0 <= i -> Z.testbit (u8 x) i = (i <? 8) && Z.testbit x i.
Proof.
  intros Hi. unfold u8. change 256 with (2 ^ 8). destruct (Z.ltb_spec i 8).
  - by rewrite Z.mod_pow2_bits_low.
  - by rewrite Z.mod_pow2_bits_high.
Qed.
Lemma u32_testbit x i : 0 <= i -> Z.testbit (u32 x) i = (i <? 32) && Z.testbit x i.
Proof.
  intros Hi. unfold u32. change 4294967296 with (2 ^ 32). destruct (Z.ltb_spec i 32).
  - by rewrite Z.mod_pow2_bits_low.
  - by rewrite Z.mod_pow2_bits_high.
Qed.

(** [(h << n) | l] is concatenation when [l] has [n] bits. *)
Lemma lor_shiftl_add h l n : 0 <= n -> 0 <= l < 2 ^ n -> Z.lor (Z.shiftl h n) l = h * 2 ^ n + l.
Proof.
  intros Hn Hl. rewrite <- Z.shiftl_mul_pow2 by done.
  assert (Z.land (Z.shiftl h n) l = 0) as H0.
  { apply Z.bits_inj'. intros i Hi. rewrite Z.land_spec, Z.testbit_0_l.
    destruct (Z.lt_ge_cases i n).
    - by rewrite Z.shiftl_spec_low.
    - by rewrite (testbit_high l n), andb_false_r. }
  pose proof (Z.add_lor_land (Z.shiftl h n) l). lia.
Qed.

(** ** Arrays *)

(** A C array is a list; an access out of its range is undefined behaviour and is [None]. *)
Definition aget {A} (l : list A) (i : Z) : option A :=
  if 0 <=? i then l !! Z.to_nat i else None.
Definition aset {A} (l : list A) (i : Z) (v : A) : option (list A) :=
  if (0 <=? i) && (i <? Z.of_nat (length l)) then Some (<[Z.to_nat i := v]> l) else None.

Section Arrays.
Context {A : Type}.
Implicit Types (l : list A) (v : A).

Lemma aget_nat l (n : nat) : aget l (Z.of_nat n) = l !! n.
Proof. unfold aget. by rewrite (proj2 (Z.leb_le _ _)), Nat2Z.id by lia. Qed.

Lemma aset_nat l (n : nat) v :
  (n < length l)%nat -> aset l (Z.of_nat n) v = Some (<[n := v]> l).
Proof.
  intros Hn. unfold aset. rewrite (proj2 (Z.leb_le _ _)) by lia.
  rewrite (proj2 (Z.ltb_lt _ _)) by lia. simpl. by rewrite Nat2Z.id.
Qed.

Lemma aget_Some l i : 0 <= i < Z.of_nat (length l) -> exists v, aget l i = Some v.
Proof.
  intros Hi. unfold aget. rewrite (proj2 (Z.leb_le _ _)) by lia.
  apply lookup_lt_is_Some. lia.
Qed.

Lemma aget_Some_range l i v : aget l i = Some v -> 0 <= i < Z.of_nat (length l).
Proof.
  unfold aget. destruct (Z.leb_spec 0 i); [|done].
  intros Hl%lookup_lt_Some. lia.
Qed.

Lemma aget_None l i : ~ (0 <= i < Z.of_nat (length l)) -> aget l i = None.
Proof.
  intros Hi. destruct (aget l i) eqn:E; [|done]. by apply aget_Some_range in E.
Qed.

Lemma aset_Some l i v :
  0 <= i < Z.of_nat (length l) -> aset l i v = Some (<[Z.to_nat i := v]> l).
Proof.
  intros Hi. unfold aset. rewrite (proj2 (Z.leb_le _ _)) by lia.
  by rewrite (proj2 (Z.ltb_lt _ _)) by lia.
Qed.

Lemma aset_None l i v : ~ (0 <= i < Z.of_nat (length l)) -> aset l i v = None.
Proof.
  intros Hi. unfold aset. destruct (Z.leb_spec 0 i); [|done].
  destruct (Z.ltb_spec i (Z.of_nat (length l))); [lia|done].
Qed.

Lemma aset_inv l i v l' :
  aset l i v = Some l' -> 0 <= i < Z.of_nat (length l) /\ l' = <[Z.to_nat i := v]> l.
Proof.
  unfold aset. destruct (Z.leb_spec 0 i); [|done].
  destruct (Z.ltb_spec i (Z.of_nat (length l))); [|done]. intros [= <-]. split; [lia|done].
Qed.

Lemma aset_length l i v l' : aset l i v = Some l' -> length l' = length l.
Proof. intros [_ ->]%aset_inv. apply length_insert. Qed.

Lemma aget_aset_eq l i v l' : aset l i v = Some l' -> aget l' i = Some v.
Proof.
  intros [Hi ->]%aset_inv. unfold aget. rewrite (proj2 (Z.leb_le _ _)) by lia.
  apply list_lookup_insert_eq. lia.
Qed.

Lemma aget_aset_ne l i j v l' : aset l i v = Some l' -> i <> j -> aget l' j = aget l j.
Proof.
  intros [Hi ->]%aset_inv Hij. unfold aget. destruct (Z.leb_spec 0 j); [|done].
  apply list_lookup_insert_ne. lia.
Qed.

(** [for (i = 0; i < n; ++i) dst[i] = src[i];] *)
Fixpoint copy_from (i n : nat) (dst src : list A) : option (list A) :=
  match n with
  | O => Some dst
  | S n' =>
      x ← aget src (Z.of_nat i);
      dst' ← aset dst (Z.of_nat i) x;
      copy_from (S i) n' dst' src
  end.
Definition copy_loop (n : nat) (dst src : list A) : option (list A) := copy_from 0 n dst src.

Lemma copy_from_spec n : forall i dst src,
  (i + n <= length dst)%nat -> (i + n <= length src)%nat ->
  copy_from i n dst src = Some (take i dst ++ take n (drop i src) ++ drop (i + n) dst).
Proof.
  induction n as [|n IH]; intros i dst src Hd Hs; simpl.
  { by rewrite Nat.add_0_r, take_drop. }
  rewrite aget_nat. destruct (lookup_lt_is_Some_2 src i) as [x Hx]; [lia|].
  rewrite Hx. simpl. rewrite aset_nat by lia. simpl.
  rewrite IH by (rewrite ?length_insert; lia). f_equal.
  rewrite (drop_S src x i Hx). simpl.
  rewrite (take_S_r _ i x) by (apply list_lookup_insert_eq; lia).
  rewrite take_insert_ge by lia. rewrite drop_insert_lt by lia.
  rewrite <- app_assoc. simpl. by rewrite <- Nat.add_succ_comm.
Qed.

Lemma copy_loop_length n dst src dst' : copy_loop n dst src = Some dst' -> length dst' = length dst.
Proof.
  unfold copy_loop. generalize 0%nat. revert dst. induction n as [|n IH]; simpl; intros dst i H.
  { by injection H as <-. }
  destruct (aget _ _) as [x|]; [|done]. simpl in H.
  destruct (aset _ _ _) as [d|] eqn:Hd; [|done]. simpl in H.
  rewrite (IH d _ H). by apply aset_length in Hd.
Qed.

Lemma copy_loop_spec n dst src :
  (n <= length dst)%nat -> (n <= length src)%nat ->
  copy_loop n dst src = Some (take n src ++ drop n dst).
Proof.
  intros. unfold copy_loop. rewrite copy_from_spec by lia. by rewrite drop_0.
Qed.
End Arrays.

(** ** Results of stateful code *)

(** [Fault] is undefined behaviour (an access outside an object), [Hang] a busy-wait loop
    whose exit condition the environment's inputs do not establish. *)
Inductive res (A : Type) := Ok (a : A) | Fault | Hang.
Arguments Ok {A} a.
Arguments Fault {A}.
Arguments Hang {A}.

#[export] Instance res_ret : MRet res := fun A a => Ok a.
#[export] Instance res_bind : MBind res := fun A B f m =>
  match m with Ok a => f a | Fault => Fault | Hang => Hang end.

(** An array access inside stateful code. *)
Definition lift {A} (o : option A) : res A := match o with Some a => Ok a | None => Fault end.

Lemma res_bind_Ok {A B} (f : A -> res B) m b :
  m ≫= f = Ok b -> exists a, m = Ok a /\ f a = Ok b.
Proof. destruct m; [|done..]. by exists a. Qed.

Ltac res_inv H :=
  let x := fresh "x" in let Hx := fresh "Hx" in
  apply res_bind_Ok in H; destruct H as (x & Hx & H).

(** ** Options *)

(** Destructs the first [option] bind of a hypothesis that equates it with [Some]. *)
Ltac opt_inv H :=
  let x := fresh "x" in let Hx := fresh "Hx" in
  apply bind_Some in H; destruct H as (x & Hx & H).

(** Case analysis on the condition of an [if] in the goal. *)
Ltac case_if :=
  match goal with |- context [if ?c then _ else _] => destruct c eqn:? end.

(** Turns a local definition into an equation. *)
Ltac open_let m E :=
  let v := eval unfold m in m in assert (m = v) as E by reflexivity; clearbody m.

(** Decides the comparisons of constants in the goal. *)
Ltac eqbs :=
  repeat match goal with
  | |- context [?a =? ?b] =>
      let v := eval vm_compute in (a =? b) in
      first [constr_eq v true | constr_eq v false]; change (a =? b) with v
  end; cbn [orb andb negb]; cbv iota.
