(* ===== verification/RingBuffer.v ===== *)
(** * Ring buffer (LUFA/Drivers/Misc/RingBuffer.h)

    The byte FIFO that connects an interrupt handler with the main program. Pointers into the
    storage array are indices relative to [DataPtr]; a store outside the array is [None]. The
    three parts of [RingBuffer_Insert] and [RingBuffer_Remove] (access the cell, advance the
    pointer, adjust the count with interrupts off) are separate definitions: their composition
    is the sequential operation, their interleaving the two-thread use the header documents. *)

From S2P Require Import Prelude.
From stdpp Require Import relations.
From Stdlib Require Import Lia ZArith.

#[local] Open Scope Z_scope.

Module RingBuffer.

(** [RingBuffer_t], the storage array behind its pointers and the global interrupt enable. *)
Record RingBuffer_t := mkRingBuffer {
  In_ : Z; Out_ : Z; Start_ : Z; End_ : Z; Size : Z; Count : Z;
  Storage : list Z; IntMask : Z }.
#[export] Instance eta_RingBuffer : Eta RingBuffer_t :=
  {| eta r := mkRingBuffer (In_ r) (Out_ r) (Start_ r) (End_ r) (Size r) (Count r)
                           (Storage r) (IntMask r);
     eta_id := ltac:(by intros []) |}.

(** [GetGlobalInterruptMask] / [GlobalInterruptDisable] / [SetGlobalInterruptMask] around [f]:
    bit 7 of SREG is cleared while [f] runs and SREG is restored afterwards. *)
Definition atomic (f : RingBuffer_t -> RingBuffer_t) (Buffer : RingBuffer_t) : RingBuffer_t :=
  let CurrentGlobalInt := IntMask Buffer in
  let Buffer := f (Buffer <| IntMask := cbi (IntMask Buffer) 7 |>) in
  Buffer <| IntMask := CurrentGlobalInt |>.

Definition RingBuffer_InitBuffer (Buffer : RingBuffer_t) (DataPtr : list Z) (size : Z)
  : RingBuffer_t :=
  atomic (fun b => b <| Storage := DataPtr |> <| In_ := 0 |> <| Out_ := 0 |> <| Start_ := 0 |>
                     <| End_ := size |> <| Size := size |> <| Count := 0 |>) Buffer.

Definition RingBuffer_GetCount (Buffer : RingBuffer_t) : Z := Count Buffer.
Definition RingBuffer_GetFreeCount (Buffer : RingBuffer_t) : Z :=
  u16 (Size Buffer - RingBuffer_GetCount Buffer).
Definition RingBuffer_IsEmpty (Buffer : RingBuffer_t) : bool := RingBuffer_GetCount Buffer =? 0.
Definition RingBuffer_IsFull (Buffer : RingBuffer_t) : bool :=
  RingBuffer_GetCount Buffer =? Size Buffer.

Definition advance (Buffer : RingBuffer_t) (p : Z) : Z :=
  if p + 1 =? End_ Buffer then Start_ Buffer else p + 1.

Definition insert_store (Buffer : RingBuffer_t) (Data : Z) : option RingBuffer_t :=
  st ← aset (Storage Buffer) (In_ Buffer) Data; Some (Buffer <| Storage := st |>).
Definition insert_advance (Buffer : RingBuffer_t) : RingBuffer_t :=
  Buffer <| In_ := advance Buffer (In_ Buffer) |>.
Definition insert_count (Buffer : RingBuffer_t) : RingBuffer_t :=
  atomic (fun b => b <| Count := u16 (Count b + 1) |>) Buffer.

Definition RingBuffer_Insert (Buffer : RingBuffer_t) (Data : Z) : option RingBuffer_t :=
  b ← insert_store Buffer Data; Some (insert_count (insert_advance b)).

Definition remove_load (Buffer : RingBuffer_t) : option Z := aget (Storage Buffer) (Out_ Buffer).
Definition remove_advance (Buffer : RingBuffer_t) : RingBuffer_t :=
  Buffer <| Out_ := advance Buffer (Out_ Buffer) |>.
Definition remove_count (Buffer : RingBuffer_t) : RingBuffer_t :=
  atomic (fun b => b <| Count := u16 (Count b - 1) |>) Buffer.

Definition RingBuffer_Remove (Buffer : RingBuffer_t) : option (RingBuffer_t * Z) :=
  Data ← remove_load Buffer; Some (remove_count (remove_advance Buffer), Data).

Definition RingBuffer_Peek (Buffer : RingBuffer_t) : option Z :=
  aget (Storage Buffer) (Out_ Buffer).

(** ** The abstract queue and the refinement relation *)

(** Pointers and count are inside the storage, and [In_] is [Count] cells ahead of [Out_]. *)
Definition wf (b : RingBuffer_t) : Prop :=
  0 < Size b < 65536 /\ Start_ b = 0 /\ End_ b = Size b /\
  Size b <= Z.of_nat (length (Storage b)) /\
  0 <= Out_ b < Size b /\ 0 <= Count b <= Size b /\
  In_ b = (Out_ b + Count b) mod Size b.

(** Cell [k] of the queue is the storage cell [k] places after [Out_], modulo the size. *)
Definition holds (b : RingBuffer_t) (q : list Z) : Prop :=
  Count b = Z.of_nat (length q) /\
  forall k x, q !! k = Some x -> aget (Storage b) ((Out_ b + Z.of_nat k) mod Size b) = Some x.

Definition abs (b : RingBuffer_t) (q : list Z) : Prop := wf b /\ holds b q.

(** The operations a client can issue and what each returns. *)
Inductive op := OInsert (Data : Z) | ORemove | OPeek | OCount | OFree | OEmpty | OFull.
Inductive out := Unit | Byte (x : Z) | Num (n : Z) | Flag (f : bool).

Definition run_op (b : RingBuffer_t) (o : op) : option (RingBuffer_t * out) :=
  match o with
  | OInsert d => b' ← RingBuffer_Insert b d; Some (b', Unit)
  | ORemove => '(b', x) ← RingBuffer_Remove b; Some (b', Byte x)
  | OPeek => x ← RingBuffer_Peek b; Some (b, Byte x)
  | OCount => Some (b, Num (RingBuffer_GetCount b))
  | OFree => Some (b, Num (RingBuffer_GetFreeCount b))
  | OEmpty => Some (b, Flag (RingBuffer_IsEmpty b))
  | OFull => Some (b, Flag (RingBuffer_IsFull b))
  end.

(** A FIFO of capacity [cap]; [None] where the client breaks the documented discipline. *)
Definition spec_op (cap : Z) (q : list Z) (o : op) : option (list Z * out) :=
  match o, q with
  | OInsert d, _ => if Z.of_nat (length q) <? cap then Some (q ++ [d], Unit) else None
  | ORemove, x :: q' => Some (q', Byte x)
  | OPeek, x :: _ => Some (q, Byte x)
  | (ORemove | OPeek), [] => None
  | OCount, _ => Some (q, Num (Z.of_nat (length q)))
  | OFree, _ => Some (q, Num (cap - Z.of_nat (length q)))
  | OEmpty, _ => Some (q, Flag (Z.of_nat (length q) =? 0))
  | OFull, _ => Some (q, Flag (Z.of_nat (length q) =? cap))
  end.

Fixpoint run {S} (step : S -> op -> option (S * out)) (s : S) (os : list op)
  : option (S * list out) :=
  match os with
  | [] => Some (s, [])
  | o :: os' => '(s1, r) ← step s o; '(s2, rs) ← run step s1 os'; Some (s2, r :: rs)
  end.

(** ** One operation *)

Lemma wf_In_range b : wf b -> 0 <= In_ b < Size b.
Proof. intros (? & _ & _ & _ & _ & _ & ->). apply Z.mod_pos_bound. lia. Qed.

(** Advancing a pointer is the successor modulo the size. *)
Lemma advance_mod b p :
  Start_ b = 0 -> End_ b = Size b -> 0 <= p < Size b -> advance b p = (p + 1) mod Size b.
Proof.
  intros Hs He Hp. unfold advance. rewrite Hs, He. destruct (Z.eqb_spec (p + 1) (Size b)) as [->|].
  - by rewrite Z.mod_same by lia.
  - rewrite Z.mod_small; lia.
Qed.

(** Two offsets below the size denote different cells. *)
Lemma cells_distinct n o i j :
  0 < n -> 0 <= i < n -> 0 <= j < n -> i <> j -> (o + i) mod n <> (o + j) mod n.
Proof.
  intros Hn Hi Hj Hij E.
  assert ((i - j) mod n = 0) as H0.
  { replace (i - j) with ((o + i) - (o + j)) by lia. rewrite Zminus_mod, E, Z.sub_diag.
    apply Z.mod_0_l. lia. }
  apply Z.mod_divide in H0; [|lia]. destruct H0 as [z Hz].
  assert (z = 0) by nia. nia.
Qed.

Lemma init_abs Buffer DataPtr size :
  0 < size < 65536 -> size <= Z.of_nat (length DataPtr) ->
  abs (RingBuffer_InitBuffer Buffer DataPtr size) [].
Proof.
  intros. split; [|split; [done|by intros k x; rewrite lookup_nil]].
  repeat split; simpl; lia || (by rewrite Z.mod_0_l by lia).
Qed.

Lemma insert_abs b q d :
  abs b q -> Z.of_nat (length q) < Size b ->
  exists b', RingBuffer_Insert b d = Some b' /\ abs b' (q ++ [d]) /\ Size b' = Size b.
Proof.
  intros [Hwf [Hc Hq]] Hlt. pose proof (wf_In_range b Hwf) as HIn.
  destruct Hwf as (Hsz & Hs & He & Hst & Ho & Hcr & HI).
  unfold RingBuffer_Insert, insert_store. rewrite aset_Some by lia. simpl.
  eexists. split; [done|]. split; [|done]. split.
  - unfold wf; simpl. rewrite length_insert. repeat split; try lia; [words|words|].
    rewrite (advance_mod _ (In_ b)) by (simpl; lia). simpl. rewrite HI.
    rewrite Zplus_mod_idemp_l, u16_small by (unfold is_u16; lia). f_equal. lia.
  - split; simpl; [rewrite u16_small by (unfold is_u16; lia); rewrite length_app; simpl; lia|].
    intros k x Hk. destruct (decide (k < length q)%nat) as [Hlk|Hge].
    + rewrite lookup_app_l in Hk by done. rewrite (aget_aset_ne (Storage b) (In_ b) _ d).
      * by apply Hq.
      * apply aset_Some. lia.
      * rewrite HI. apply cells_distinct; lia.
    + rewrite lookup_app_r in Hk by lia. apply list_lookup_singleton_Some in Hk as [Hk <-].
      replace (Z.of_nat k) with (Count b) by lia. rewrite <- HI.
      apply (aget_aset_eq (Storage b)). apply aset_Some. lia.
Qed.

Lemma remove_abs b x q :
  abs b (x :: q) ->
  exists b', RingBuffer_Remove b = Some (b', x) /\ abs b' q /\ Size b' = Size b.
Proof.
  intros [(Hsz & Hs & He & Hst & Ho & Hcr & HI) [Hc Hq]]. simpl in Hc.
  unfold RingBuffer_Remove, remove_load.
  pose proof (Hq 0%nat x eq_refl) as H0. rewrite Z.add_0_r, Z.mod_small in H0 by lia.
  rewrite H0. simpl. eexists. split; [done|]. split; [|done].
  assert (Hadv : advance b (Out_ b) = (Out_ b + 1) mod Size b) by (apply advance_mod; lia).
  assert (Hu : u16 (Count b - 1) = Count b - 1) by (apply u16_small; unfold is_u16; lia).
  split.
  - unfold wf; simpl. change (advance b (Out_ b)) with (advance b (Out_ b)).
    rewrite Hadv, Hu. pose proof (Z.mod_pos_bound (Out_ b + 1) (Size b)).
    repeat split; try lia. rewrite Zplus_mod_idemp_l, HI. f_equal. lia.
  - split; simpl; [rewrite Hu; lia|]. intros k y Hk. rewrite Hadv, Zplus_mod_idemp_l.
    rewrite <- (Hq (S k) y Hk). f_equal. f_equal. lia.
Qed.

Lemma peek_abs b x q : abs b (x :: q) -> RingBuffer_Peek b = Some x.
Proof.
  intros [(Hsz & _ & _ & _ & Ho & _) [_ Hq]]. pose proof (Hq 0%nat x eq_refl) as H0.
  by rewrite Z.add_0_r, Z.mod_small in H0 by lia.
Qed.

Lemma free_abs b q : abs b q -> RingBuffer_GetFreeCount b = Size b - Z.of_nat (length q).
Proof.
  intros [(Hsz & _ & _ & _ & _ & Hc & _) [He _]]. unfold RingBuffer_GetFreeCount,
    RingBuffer_GetCount. rewrite u16_small; [lia|unfold is_u16; lia].
Qed.

(** Every operation the specification allows is simulated, with the same result. *)
Lemma op_refines b q o q' r :
  abs b q -> spec_op (Size b) q o = Some (q', r) ->
  exists b', run_op b o = Some (b', r) /\ abs b' q' /\ Size b' = Size b.
Proof.
  intros Hab Hs. pose proof Hab as [_ [Hc _]].
  destruct o, q as [|y q]; simpl in Hs; simplify_eq; simpl;
    unfold RingBuffer_IsEmpty, RingBuffer_IsFull, RingBuffer_GetCount.
  1,2: case_match eqn:Hlt; simplify_eq; apply Z.ltb_lt in Hlt;
    destruct (insert_abs b _ Data Hab Hlt) as (b' & -> & ? & ?); by exists b'.
  { destruct (remove_abs b y q' Hab) as (b' & -> & ? & ?). by exists b'. }
  { rewrite (peek_abs b y q Hab). by exists b. }
  all: rewrite ?(free_abs b _ Hab), ?Hc; by exists b.
Qed.

(** ** One producer, one consumer *)

(** Where each thread stands between two accesses to the shared buffer: the free-space (data)
    test done, the byte stored (loaded), the pointer advanced. *)
Inductive producer := PIdle | PReady | PStored (d : Z) | PAdvanced (d : Z).
Inductive consumer := CIdle | CReady | CLoaded (x : Z) | CAdvanced (x : Z).

(** [sent] and [got] record the bytes of the completed calls. *)
Record sys := mkSys {
  buf : RingBuffer_t; prod : producer; cons_ : consumer; sent : list Z; got : list Z }.
#[export] Instance eta_sys : Eta sys :=
  {| eta s := mkSys (buf s) (prod s) (cons_ s) (sent s) (got s); eta_id := ltac:(by intros []) |}.

(** Any interleaving of the parts of the two calls; the count updates are atomic. *)
Inductive step : sys -> sys -> Prop :=
| P_test s : prod s = PIdle -> RingBuffer_IsFull (buf s) = false ->
    step s (s <| prod := PReady |>)
| P_store s d b : prod s = PReady -> insert_store (buf s) d = Some b ->
    step s (s <| buf := b |> <| prod := PStored d |>)
| P_advance s d : prod s = PStored d ->
    step s (s <| buf := insert_advance (buf s) |> <| prod := PAdvanced d |>)
| P_count s d : prod s = PAdvanced d ->
    step s (s <| buf := insert_count (buf s) |> <| prod := PIdle |> <| sent ::= fun l => l ++ [d] |>)
| C_test s : cons_ s = CIdle -> RingBuffer_IsEmpty (buf s) = false ->
    step s (s <| cons_ := CReady |>)
| C_load s x : cons_ s = CReady -> remove_load (buf s) = Some x ->
    step s (s <| cons_ := CLoaded x |>)
| C_advance s x : cons_ s = CLoaded x ->
    step s (s <| buf := remove_advance (buf s) |> <| cons_ := CAdvanced x |>)
| C_count s x : cons_ s = CAdvanced x ->
    step s (s <| buf := remove_count (buf s) |> <| cons_ := CIdle |> <| got ::= fun l => l ++ [x] |>).

Definition start (b : RingBuffer_t) : sys := mkSys b PIdle CIdle [] [].

(** A schedule as a list of moves, so that a run can be evaluated. *)
Inductive move := MP (d : Z) | MC.
Definition play1 (s : sys) (m : move) : option sys :=
  match m with
  | MP d =>
      match prod s with
      | PIdle => if RingBuffer_IsFull (buf s) then None else Some (s <| prod := PReady |>)
      | PReady => b ← insert_store (buf s) d; Some (s <| buf := b |> <| prod := PStored d |>)
      | PStored d' => Some (s <| buf := insert_advance (buf s) |> <| prod := PAdvanced d' |>)
      | PAdvanced d' => Some (s <| buf := insert_count (buf s) |> <| prod := PIdle |>
                                <| sent ::= fun l => l ++ [d'] |>)
      end
  | MC =>
      match cons_ s with
      | CIdle => if RingBuffer_IsEmpty (buf s) then None else Some (s <| cons_ := CReady |>)
      | CReady => x ← remove_load (buf s); Some (s <| cons_ := CLoaded x |>)
      | CLoaded x => Some (s <| buf := remove_advance (buf s) |> <| cons_ := CAdvanced x |>)
      | CAdvanced x => Some (s <| buf := remove_count (buf s) |> <| cons_ := CIdle |>
                               <| got ::= fun l => l ++ [x] |>)
      end
  end.
Fixpoint play (s : sys) (ms : list move) : option sys :=
  match ms with [] => Some s | m :: ms' => s1 ← play1 s m; play s1 ms' end.

Lemma play_rtc ms : forall s s', play s ms = Some s' -> rtc step s s'.
Proof.
  induction ms as [|m ms IH]; intros s s' Hp; simpl in Hp; [simplify_eq; apply rtc_refl|].
  opt_inv Hp. eapply rtc_l; [|by apply IH]. clear Hp.
  destruct m as [d|]; simpl in Hx; [destruct (prod s) eqn:E|destruct (cons_ s) eqn:E].
  1,5: case_match eqn:Hf; simplify_eq; by constructor.
  all: try (opt_inv Hx); simplify_eq; by econstructor.
Qed.

Definition p_ahead (s : sys) : Z := match prod s with PAdvanced _ => 1 | _ => 0 end.
Definition c_ahead (s : sys) : Z := match cons_ s with CAdvanced _ => 1 | _ => 0 end.
Definition p_val (s : sys) : option Z :=
  match prod s with PStored d | PAdvanced d => Some d | _ => None end.
Definition c_val (s : sys) : option Z :=
  match cons_ s with CLoaded x | CAdvanced x => Some x | _ => None end.

Record spsc_inv (s : sys) : Prop := {
  inv_size : 0 < Size (buf s) < 65536;
  inv_start : Start_ (buf s) = 0;
  inv_end : End_ (buf s) = Size (buf s);
  inv_storage : Size (buf s) <= Z.of_nat (length (Storage (buf s)));
  inv_in : In_ (buf s) = (Z.of_nat (length (sent s)) + p_ahead s) mod Size (buf s);
  inv_out : Out_ (buf s) = (Z.of_nat (length (got s)) + c_ahead s) mod Size (buf s);
  inv_count : Count (buf s) = Z.of_nat (length (sent s)) - Z.of_nat (length (got s));
  inv_bounds : 0 <= Count (buf s) <= Size (buf s);
  inv_free : prod s <> PIdle -> Count (buf s) < Size (buf s);
  inv_data : cons_ s <> CIdle -> 0 < Count (buf s);
  inv_live : forall k, (length (got s) <= k < length (sent s))%nat ->
    aget (Storage (buf s)) (Z.of_nat k mod Size (buf s)) = sent s !! k;
  inv_pending : forall d, p_val s = Some d ->
    aget (Storage (buf s)) (Z.of_nat (length (sent s)) mod Size (buf s)) = Some d;
  inv_taken : forall x, c_val s = Some x -> sent s !! length (got s) = Some x;
  inv_fifo : got s = take (length (got s)) (sent s) }.

Lemma start_inv Buffer DataPtr size :
  0 < size < 65536 -> size <= Z.of_nat (length DataPtr) ->
  spsc_inv (start (RingBuffer_InitBuffer Buffer DataPtr size)).
Proof.
  intros. split; simpl; try done; try lia.
  all: unfold p_ahead, c_ahead, p_val, c_val; simpl; (done || by rewrite ?Z.mod_0_l by lia).
Qed.

(** The cell being filled is none of the cells that hold data. *)
Lemma free_cell s k :
  spsc_inv s -> Count (buf s) < Size (buf s) ->
  (length (got s) <= k < length (sent s))%nat ->
  Z.of_nat (length (sent s)) mod Size (buf s) <> Z.of_nat k mod Size (buf s).
Proof.
  intros [] Hlt Hk.
  pose proof (cells_distinct (Size (buf s)) (Z.of_nat (length (got s))) (Count (buf s))
    (Z.of_nat k - Z.of_nat (length (got s)))) as H.
  rewrite inv_count0 in *.
  replace (Z.of_nat (length (got s)) + (Z.of_nat (length (sent s)) - Z.of_nat (length (got s))))
    with (Z.of_nat (length (sent s))) in H by lia.
  replace (Z.of_nat (length (got s)) + (Z.of_nat k - Z.of_nat (length (got s))))
    with (Z.of_nat k) in H by lia.
  apply H; lia.
Qed.

(** In the ready states the pointer is inside the storage, so the access is defined. *)
Lemma ready_access s :
  spsc_inv s ->
  (prod s = PReady -> 0 <= In_ (buf s) < Z.of_nat (length (Storage (buf s)))
     /\ In_ (buf s) = Z.of_nat (length (sent s)) mod Size (buf s)) /\
  (cons_ s = CReady -> remove_load (buf s) = sent s !! length (got s)
     /\ (length (got s) < length (sent s))%nat).
Proof.
  intros Hinv. pose proof Hinv as []. split; intros Hpc.
  - unfold p_ahead in inv_in0. rewrite Hpc, Z.add_0_r in inv_in0. split; [|done].
    rewrite inv_in0. pose proof (Z.mod_pos_bound (Z.of_nat (length (sent s))) (Size (buf s))). lia.
  - assert (0 < Count (buf s)) by (apply inv_data0; by rewrite Hpc).
    split; [|lia]. unfold remove_load, c_ahead in *. rewrite inv_out0, Hpc, Z.add_0_r.
    apply inv_live0. lia.
Qed.

Ltac spsc_simpl :=
  unfold p_ahead, c_ahead, p_val, c_val in *; simpl in *;
  repeat match goal with
  | H : prod ?s = _ |- _ => rewrite H in *; clear H
  | H : cons_ ?s = _ |- _ => rewrite H in *; clear H
  end.

Lemma step_inv s s' : spsc_inv s -> step s s' -> spsc_inv s'.
Proof.
  intros Hinv Hstep. pose proof (ready_access s Hinv) as [HrP HrC].
  pose proof (free_cell s) as Hfree. pose proof Hinv as [].
  destruct Hstep as [s Hp Hf|s d b Hp Hb|s d Hp|s d Hp|s Hc Hf|s x Hc Hx|s x Hc|s x Hc].
  - unfold RingBuffer_IsFull, RingBuffer_GetCount in Hf. apply Z.eqb_neq in Hf.
    spsc_simpl. split; spsc_simpl; (done || lia).
  - destruct (HrP Hp) as [Hr HI]. assert (Count (buf s) < Size (buf s)) as Hlt
      by (apply inv_free0; by rewrite Hp).
    unfold insert_store in Hb. rewrite aset_Some in Hb by done. simpl in Hb. simplify_eq.
    pose proof (aset_Some (Storage (buf s)) (In_ (buf s)) d Hr) as Hset.
    spsc_simpl. split; spsc_simpl; rewrite ?length_insert; try (done || lia).
    + intros k Hk. rewrite (aget_aset_ne _ _ _ _ _ Hset); [by apply inv_live0|].
      rewrite HI. by apply Hfree.
    + intros d' [= <-]. rewrite <- HI. by apply (aget_aset_eq _ _ _ _ Hset).
  - assert (Count (buf s) < Size (buf s)) by (apply inv_free0; by rewrite Hp).
    spsc_simpl. split; spsc_simpl; try (done || lia).
    rewrite Z.add_0_r in inv_in0. rewrite inv_in0, advance_mod; [|done|done|].
    + by rewrite Zplus_mod_idemp_l.
    + apply Z.mod_pos_bound. lia.
  - assert (Count (buf s) < Size (buf s)) by (apply inv_free0; by rewrite Hp).
    spsc_simpl. split; spsc_simpl; rewrite ?length_app, ?u16_small by (unfold is_u16; lia);
      simpl; try (done || lia).
    + rewrite inv_in0. f_equal. lia.
    + intros k Hk. destruct (decide (k < length (sent s))%nat).
      * rewrite lookup_app_l by done. apply inv_live0. lia.
      * replace k with (length (sent s)) by lia. rewrite list_lookup_middle by done.
        by apply inv_pending0.
    + intros x Hx. apply lookup_app_l_Some. by apply inv_taken0.
    + rewrite take_app_le by lia. done.
  - unfold RingBuffer_IsEmpty, RingBuffer_GetCount in Hf. apply Z.eqb_neq in Hf.
    spsc_simpl. split; spsc_simpl; (done || lia).
  - destruct (HrC Hc) as [Hl Hlt]. rewrite Hx in Hl. spsc_simpl.
    split; spsc_simpl; try (done || lia). by intros y [= <-].
  - assert (0 < Count (buf s)) by (apply inv_data0; by rewrite Hc).
    spsc_simpl. split; spsc_simpl; try (done || lia).
    rewrite Z.add_0_r in inv_out0. rewrite inv_out0, advance_mod; [|done|done|].
    + by rewrite Zplus_mod_idemp_l.
    + apply Z.mod_pos_bound. lia.
  - assert (0 < Count (buf s)) by (apply inv_data0; by rewrite Hc).
    spsc_simpl. split; spsc_simpl; rewrite ?length_app, ?u16_small by (unfold is_u16; lia);
      simpl; try (done || lia).
    + rewrite inv_out0. f_equal. lia.
    + intros k Hk. apply inv_live0. lia.
    + rewrite Nat.add_1_r, (take_S_r _ _ x) by (by apply inv_taken0). by rewrite <- inv_fifo0.
Qed.

(** ** Properties *)

(** C1: an initialised buffer is a FIFO of capacity [Size]: any sequence of operations that
    respects the documented discipline (insert only with free space, remove and peek only when
    not empty) runs without leaving the storage array and returns exactly what the abstract
    queue returns. *)
Theorem ring_refines_fifo (Buffer : RingBuffer_t) (DataPtr : list Z) (size : Z)
    (os : list op) (q : list Z) (rs : list out) :
  0 < size < 65536 -> size <= Z.of_nat (length DataPtr) ->
  run (spec_op size) [] os = Some (q, rs) ->
  exists b, run run_op (RingBuffer_InitBuffer Buffer DataPtr size) os = Some (b, rs) /\ abs b q.
Proof.
  intros Hs Hd Hrun.
  pose proof (init_abs Buffer DataPtr size Hs Hd) as Hab.
  assert (Size (RingBuffer_InitBuffer Buffer DataPtr size) = size) as Hsz by done.
  revert Hab Hsz Hrun. generalize (RingBuffer_InitBuffer Buffer DataPtr size) as b.
  generalize (@nil Z) as q0. revert q rs.
  induction os as [|o os IH]; intros q rs q0 b Hab Hsz Hrun; simpl in *.
  { simplify_eq. by exists b. }
  opt_inv Hrun. destruct x as [q1 r]. opt_inv Hrun. destruct x as [q2 rs2]. simplify_eq.
  destruct (op_refines b q0 o q1 r Hab Hx) as (b1 & -> & Hab1 & Hs1). simpl.
  destruct (IH _ _ q1 b1 Hab1 Hs1 Hx0) as (b2 & -> & Hab2). simpl. by exists b2.
Qed.

Lemma ring_refines_fifo_witness :
  exists b, run run_op (RingBuffer_InitBuffer (mkRingBuffer 0 0 0 0 0 0 [] 128) [0; 0] 2)
              [OInsert 7; OInsert 8; OFull; ORemove; OInsert 9; ORemove; ORemove; OEmpty]
            = Some (b, [Unit; Unit; Flag true; Byte 7; Unit; Byte 8; Byte 9; Flag true])
            /\ abs b [].
Proof. apply ring_refines_fifo; [lia|simpl; lia|reflexivity]. Defined.


(** C2: with one inserting and one removing thread (an ISR and the main program), each testing
    for space or data before its call, every interleaving of the parts of the two calls keeps
    the buffer a FIFO: the bytes removed are the bytes inserted, in order and without loss, the
    count is exact, never exceeds the size, and no access leaves the storage array. *)
Theorem spsc_interleaving_safe (Buffer : RingBuffer_t) (DataPtr : list Z) (size : Z) (s : sys) :
  0 < size < 65536 -> size <= Z.of_nat (length DataPtr) ->
  rtc step (start (RingBuffer_InitBuffer Buffer DataPtr size)) s ->
  got s = take (length (got s)) (sent s) /\
  RingBuffer_GetCount (buf s) = Z.of_nat (length (sent s)) - Z.of_nat (length (got s)) /\
  0 <= RingBuffer_GetCount (buf s) <= Size (buf s) /\
  (prod s = PReady -> forall d, is_Some (insert_store (buf s) d)) /\
  (cons_ s = CReady -> is_Some (remove_load (buf s))).
Proof.
  intros Hs Hd Hreach.
  assert (spsc_inv s) as Hinv.
  { remember (start _) as s0 eqn:E. assert (spsc_inv s0) as H0 by (subst; by apply start_inv).
    clear E. induction Hreach; eauto using step_inv. }
  pose proof (ready_access s Hinv) as [HP HC]. destruct Hinv.
  unfold RingBuffer_GetCount. repeat split; try done; try lia.
  - intros Hp d. destruct (HP Hp) as [? _]. unfold insert_store. rewrite aset_Some by done.
    by eexists.
  - intros Hc. destruct (HC Hc) as [-> ?]. by apply lookup_lt_is_Some.
Qed.

(** A run in which the producer inserts while the consumer is between load and count. *)
Definition sample_schedule : list move :=
  [MP 0; MP 7; MP 0; MP 0; MC; MC; MP 0; MP 8; MP 0; MP 0; MC; MC].

Lemma spsc_interleaving_safe_witness :
  exists s, play (start (RingBuffer_InitBuffer (mkRingBuffer 0 0 0 0 0 0 [] 128) [0; 0] 2))
              sample_schedule = Some s /\
    sent s = [7; 8] /\ got s = [7] /\ got s = take (length (got s)) (sent s).
Proof.
  eexists. split; [vm_compute; reflexivity|]. split; [done|]. split; [done|].
  apply (spsc_interleaving_safe (mkRingBuffer 0 0 0 0 0 0 [] 128) [0; 0] 2); [lia|simpl; lia|].
  apply (play_rtc sample_schedule). vm_compute. reflexivity.
Defined.

End RingBuffer.
