(* ===== verification/Packed.v ===== *)
(** * Packed structures

    Little-endian integers and C strings in memory, and structures that are accessed by the offsets
    of their members, as the class drivers do with their messages. An access beyond the memory is a
    [Fault]. *)

From S2P Require Import Prelude.
From Stdlib Require Import Lia ZArith.

#[local] Open Scope Z_scope.

Module Packed.

(** Little-endian integers. *)
Fixpoint le (bytes : list Z) : Z := match bytes with [] => 0 | b :: rest => b + 256 * le rest end.
Definition le32 (x : Z) : list Z := [u8 x; u8 (x / 256); u8 (x / 65536); u8 (x / 16777216)].

Lemma le32_le l : Forall is_u8 l -> length l = 4%nat -> le32 (le l) = l.
Proof.
  intros Hl H4. destruct l as [|a [|b [|c [|d [|]]]]]; try done.
  apply Forall_cons_1 in Hl as [Ha Hl]. apply Forall_cons_1 in Hl as [Hb Hl]. apply Forall_cons_1 in Hl as [Hc Hl].
  apply Forall_cons_1 in Hl as [Hd _]. unfold le32. cbn [le]. repeat (apply f_equal2; [words|]). done.
Qed.
Lemma le_nonneg l : Forall is_u8 l -> 0 <= le l.
Proof. induction 1 as [|b l Hb _ IH]; cbn [le]; unfold is_u8 in *; lia. Qed.
Lemma le_le32 x : is_u32 x -> le (le32 x) = x.
Proof. intros Hx. unfold le32. cbn [le]. words. Qed.
Lemma le32_length x : length (le32 x) = 4%nat.
Proof. done. Qed.
Lemma le32_u8 x : Forall is_u8 (le32 x).
Proof. repeat (constructor; [apply u8_range|]). constructor. Qed.

(** [strlen]: the bytes before the first zero. *)
Fixpoint strlen (String : list Z) : option Z :=
  match String with
  | [] => None
  | c :: rest => if c =? 0 then Some 0 else n ← strlen rest; Some (n + 1)
  end.

Lemma strlen_bound : forall String n, strlen String = Some n -> 0 <= n < Z.of_nat (length String).
Proof.
  induction String as [|c rest IH]; intros n Hn; [done|]. cbn [strlen length] in *. destruct (c =? 0); [injection Hn as <-; lia|].
  destruct (strlen rest) as [k|]; [|done]. specialize (IH k eq_refl). injection Hn as <-. lia.
Qed.

(** [memcpy] to an offset of the memory, and 32-bit members. *)
Definition put (offset : nat) (bytes mem : list Z) : res (list Z) :=
  if (offset + length bytes <=? length mem)%nat
  then Ok (take offset mem ++ bytes ++ drop (offset + length bytes) mem) else Fault.
Definition put32 (offset : nat) (x : Z) (mem : list Z) : res (list Z) := put offset (le32 x) mem.
Definition get32 (offset : nat) (mem : list Z) : res Z :=
  if (offset + 4 <=? length mem)%nat then Ok (le (take 4 (drop offset mem))) else Fault.
(** A member at an index that was computed. *)
Definition get32_at (index : Z) (mem : list Z) : res Z :=
  if index <? Z.of_nat (length mem) then get32 (Z.to_nat index) mem else Fault.

Lemma get32_at_ext n index mem mem' : Z.of_nat n <= index -> length mem = length mem' -> drop n mem = drop n mem' ->
  get32_at index mem = get32_at index mem'.
Proof.
  intros Hn Hl Hd. unfold get32_at, get32. rewrite Hl. destruct (index <? _); [|done]. destruct (_ <=? _)%nat; [|done].
  replace (Z.to_nat index) with (n + (Z.to_nat index - n))%nat by lia. by rewrite <- !drop_drop, Hd.
Qed.

(** ** Memory as words *)

Definition all_words (ws : list (list Z)) : Prop := Forall (fun w => length w = 4%nat) ws.

Lemma words_length ws : all_words ws -> length (concat ws) = (4 * length ws)%nat.
Proof. induction 1 as [|w ws Hw _ IH]; [done|]. simpl. rewrite length_app, Hw, IH. lia. Qed.
Lemma split_words k : forall mem, (4 * k <= length mem)%nat ->
  exists ws tail, mem = concat ws ++ tail /\ all_words ws /\ length ws = k.
Proof.
  induction k as [|k IH]; intros mem Hm.
  { exists [], mem. split; [done|]. split; [constructor|done]. }
  destruct (IH (drop 4 mem)) as (ws & tail & Heq & Hw & Hl); [rewrite length_drop; lia|].
  exists (take 4 mem :: ws), tail. simpl. rewrite <- app_assoc, <- Heq, take_drop. split; [done|]. split; [|by rewrite Hl].
  constructor; [rewrite length_take; lia|done].
Qed.
Lemma drop_words ws tail k : all_words ws -> drop (4 * k) (concat ws ++ tail) = concat (drop k ws) ++ drop (4 * (k - length ws)) tail.
Proof.
  intros Hw. revert k. induction Hw as [|w ws Hw _ IH]; intros k.
  { rewrite drop_nil. simpl length. by rewrite Nat.sub_0_r. }
  destruct k as [|k]; [done|]. simpl concat. simpl drop at 2. replace (4 * S k)%nat with (length w + 4 * k)%nat by lia.
  by rewrite <- app_assoc, <- drop_drop, drop_app_length, IH.
Qed.
Lemma take_words ws tail k : all_words ws -> (k <= length ws)%nat -> take (4 * k) (concat ws ++ tail) = concat (take k ws).
Proof.
  intros Hw. revert k. induction Hw as [|w ws Hw _ IH]; intros [|k] Hk; simpl in Hk; try done; [lia|].
  simpl concat. simpl take at 2. replace (4 * S k)%nat with (length w + 4 * k)%nat by lia.
  rewrite <- app_assoc, firstn_app_2. by rewrite IH by lia.
Qed.
Lemma word_at ws tail i w : all_words ws -> ws !! i = Some w -> take 4 (drop (4 * i) (concat ws ++ tail)) = w.
Proof.
  intros Hw Hi. rewrite drop_words by done. apply list_elem_of_split_length in Hi as (l1 & l2 & -> & ->).
  rewrite drop_app_length. simpl. assert (length w = 4%nat) as Hl by (apply Forall_app in Hw as [_ Hw]; by apply Forall_cons_1 in Hw as [? _]).
  by rewrite <- !app_assoc, <- Hl, take_app_length.
Qed.
Lemma get32_word ws tail i w : all_words ws -> ws !! i = Some w -> get32 (4 * i) (concat ws ++ tail) = Ok (le w).
Proof.
  intros Hw Hi. unfold get32. rewrite (word_at ws tail i w) by done. pose proof (lookup_lt_Some _ _ _ Hi).
  rewrite (proj2 (Nat.leb_le _ _)); [done|]. rewrite length_app, words_length by done. lia.
Qed.
Lemma put32_word ws tail i x : all_words ws -> (i < length ws)%nat ->
  put32 (4 * i) x (concat ws ++ tail) = Ok (concat (<[i:=le32 x]> ws) ++ tail).
Proof.
  intros Hw Hi. unfold put32, put. rewrite le32_length, (proj2 (Nat.leb_le _ _)) by (rewrite length_app, words_length by done; lia).
  f_equal. replace (4 * i + 4)%nat with (4 * S i)%nat by lia. rewrite take_words, drop_words by (done || lia).
  rewrite insert_take_drop, concat_app by done. simpl. rewrite <- !app_assoc.
  replace (S i - length ws)%nat with 0%nat by lia. done.
Qed.
Lemma all_words_insert ws i x : all_words ws -> all_words (<[i:=le32 x]> ws).
Proof. intros Hw. by apply Forall_insert. Qed.
End Packed.
