(* ===== verification/Avr.v ===== *)
(** * AT90USB64x/128x registers

    The special function registers the Arduino core writes, as a total map from register names
    to values. Only the registers of this device family occur: [TCCR4A], [TCCR2] and the like,
    guarded by [#if defined] in the core, do not exist here. *)

From S2P Require Import Prelude.
From Stdlib Require Import Lia ZArith.

#[local] Open Scope Z_scope.

Inductive port := PA | PB | PC | PD | PE | PF.
Inductive reg :=
| DDR (p : port) | PORT (p : port) | PIN (p : port) | SREG
| TCCR0A | TCCR0B | TCCR1A | TCCR1B | TCCR2A | TCCR2B | TCCR3A | TCCR3B | TIMSK0
| OCR0B | OCR1A | OCR1B | OCR1C | OCR2A | OCR2B | OCR3A | OCR3B | OCR3C
| ADCSRA | ADMUX | DIDR0 | EICRA | EICRB | EIMSK.

#[export] Instance port_eq_dec : EqDecision port.
Proof. solve_decision. Defined.
#[export] Instance reg_eq_dec : EqDecision reg.
Proof. solve_decision. Defined.

Definition regfile := reg -> Z.

Definition rset (r : reg) (v : Z) (R : regfile) : regfile :=
  fun r' => if decide (r' = r) then v else R r'.

(** [sbi(r, n)], [cbi(r, n)] on the register file. *)
Definition rsbi (r : reg) (n : Z) (R : regfile) : regfile := rset r (sbi (R r) n) R.
Definition rcbi (r : reg) (n : Z) (R : regfile) : regfile := rset r (cbi (R r) n) R.

(** [uint8_t oldSREG = SREG; cli(); ...; SREG = oldSREG;] *)
Definition with_cli (f : regfile -> regfile) (R : regfile) : regfile :=
  let oldSREG := R SREG in
  let R := f (rcbi SREG 7 R) in
  rset SREG oldSREG R.

Arguments rset : simpl never.
Arguments rsbi : simpl never.
Arguments rcbi : simpl never.
Arguments with_cli : simpl never.

Lemma rset_eq r v R : rset r v R r = v.
Proof. unfold rset. by rewrite decide_True. Qed.
Lemma rset_ne r r' v R : r' <> r -> rset r v R r' = R r'.
Proof. intros H. unfold rset. by rewrite decide_False. Qed.

Lemma with_cli_other f R r :
  r <> SREG -> with_cli f R r = f (rcbi SREG 7 R) r.
Proof. intros H. unfold with_cli. by rewrite rset_ne. Qed.
Lemma with_cli_SREG f R : with_cli f R SREG = R SREG.
Proof. unfold with_cli. apply rset_eq. Qed.

(** Reads a register through the updates made to the file. *)
Ltac regs :=
  repeat first
    [ rewrite with_cli_SREG
    | rewrite with_cli_other by congruence
    | progress unfold rsbi, rcbi
    | rewrite rset_eq
    | rewrite rset_ne by congruence ].

(** Every register holds a byte, the compare registers of timers 1 and 3 sixteen bits. *)
Definition wide (r : reg) : bool :=
  match r with OCR1A | OCR1B | OCR1C | OCR3A | OCR3B | OCR3C => true | _ => false end.
Definition regs_ok (R : regfile) : Prop :=
  forall r, if wide r then is_u16 (R r) else is_u8 (R r).

Lemma regs_ok_rset r v R :
  regs_ok R -> (if wide r then is_u16 v else is_u8 v) -> regs_ok (rset r v R).
Proof.
  intros HR Hv r'. unfold rset. case_decide as E; [by subst|]. apply HR.
Qed.
Lemma regs_ok_rsbi r n R : regs_ok R -> wide r = false -> 0 <= n < 8 -> regs_ok (rsbi r n R).
Proof.
  intros HR Hw Hn. apply regs_ok_rset; [done|]. specialize (HR r). rewrite Hw in *.
  auto with words.
Qed.
Lemma regs_ok_rcbi r n R : regs_ok R -> wide r = false -> regs_ok (rcbi r n R).
Proof.
  intros HR Hw. apply regs_ok_rset; [done|]. specialize (HR r). rewrite Hw in *.
  auto with words.
Qed.
Lemma regs_ok_with_cli f R :
  (forall R', regs_ok R' -> regs_ok (f R')) -> regs_ok R -> regs_ok (with_cli f R).
Proof.
  intros Hf HR. apply regs_ok_rset; [|apply (HR SREG)]. apply Hf. by apply regs_ok_rcbi.
Qed.
#[export] Hint Resolve regs_ok_rset regs_ok_rsbi regs_ok_rcbi regs_ok_with_cli : words.

(** [while (REG & (1 << BIT)) ;] : each element of [reads] tells whether the bit was still set
    when the register was polled. *)
Fixpoint poll (reads : list bool) : res unit :=
  match reads with
  | [] => Hang
  | true :: reads' => poll reads'
  | false :: _ => Ok tt
  end.

(** The hardware clears the polled bit eventually. *)
Definition clears (reads : list bool) : Prop := false ∈ reads.

Lemma poll_ok reads : clears reads <-> poll reads = Ok tt.
Proof.
  unfold clears. induction reads as [|[] reads IH]; simpl.
  - split; [|done]. intros H. by apply not_elem_of_nil in H.
  - rewrite elem_of_cons, <- IH. split; [intros [|]; done|by right].
  - split; [done|]. intros _. apply elem_of_cons. by left.
Qed.
