(* ===== verification/Digital.v ===== *)
(** * Digital and analogue pins

    [wiring_digital.c], [wiring_analog.c], [init()] of [wiring.c] and the pin tables of the
    at90usb128X variant. The core runs the same code on the 64x parts. *)

From S2P Require Import Prelude.
From S2P Require Import Avr.
From stdpp Require Import sets list_numbers.
From Stdlib Require Import Lia ZArith.

#[local] Open Scope Z_scope.

Module Digital.

(** ** Constants of Arduino.h *)

Definition LOW := 0.
Definition HIGH := 1.
Definition INPUT := 0.
Definition OUTPUT := 1.
Definition INPUT_PULLUP := 2.
Definition NOT_A_PIN := 0.
Definition NOT_ON_TIMER := 0.
Definition TIMER0A := 1.
Definition TIMER0B := 2.
Definition TIMER1A := 3.
Definition TIMER1B := 4.
Definition TIMER2A := 7.
Definition TIMER2B := 8.
Definition TIMER3A := 9.
Definition TIMER3B := 10.
Definition TIMER3C := 11.

(** ** Pin tables of pins_arduino.h *)

Definition port_to_mode_PGM : list (option reg) :=
  [None; Some (DDR PA); Some (DDR PB); Some (DDR PC); Some (DDR PD); Some (DDR PE); Some (DDR PF)].
Definition port_to_output_PGM : list (option reg) :=
  [None; Some (PORT PA); Some (PORT PB); Some (PORT PC); Some (PORT PD); Some (PORT PE);
   Some (PORT PF)].
Definition port_to_input_PGM : list (option reg) :=
  [None; Some (PIN PA); Some (PIN PB); Some (PIN PC); Some (PIN PD); Some (PIN PE); Some (PIN PF)].

Definition digital_pin_to_port_PGM : list Z :=
  [1; 1; 1; 1; 1; 1; 1; 1;
   2; 2; 2; 2; 2; 2; 2; 2;
   3; 3; 3; 3; 3; 3; 3; 3;
   4; 4; 4; 4; 4; 4; 4; 4;
   5; 5; 5; 5; 5; 5; 5; 5;
   6; 6; 6; 6; 6; 6; 6; 6].
Definition digital_pin_to_bit_mask_PGM : list Z :=
  [BV 0; BV 1; BV 2; BV 3; BV 4; BV 5; BV 6; BV 7;
   BV 0; BV 1; BV 2; BV 3; BV 4; BV 5; BV 6; BV 7;
   BV 0; BV 1; BV 2; BV 3; BV 4; BV 5; BV 6; BV 7;
   BV 0; BV 1; BV 2; BV 3; BV 4; BV 5; BV 6; BV 7;
   BV 0; BV 1; BV 2; BV 3; BV 4; BV 5; BV 6; BV 7;
   BV 0; BV 1; BV 2; BV 3; BV 4; BV 5; BV 6; BV 7].
Definition digital_pin_to_timer_PGM : list Z :=
  [0; 0; 0; 0; 0; 0; 0; 0;
   0; 0; 0; 0; TIMER2A; TIMER1A; TIMER1B; TIMER0A;
   0; 0; 0; 0; TIMER3C; TIMER3B; TIMER3A; 0;
   TIMER0B; TIMER2B; 0; 0; 0; 0; 0; 0;
   0; 0; 0; 0; 0; 0; 0; 0;
   0; 0; 0; 0; 0; 0; 0; 0].

Definition digitalPinToPort (P : Z) : option Z := aget digital_pin_to_port_PGM P.
Definition digitalPinToBitMask (P : Z) : option Z := aget digital_pin_to_bit_mask_PGM P.
Definition digitalPinToTimer (P : Z) : option Z := aget digital_pin_to_timer_PGM P.
Definition portModeRegister (P : Z) : option reg := mjoin (aget port_to_mode_PGM P).
Definition portOutputRegister (P : Z) : option reg := mjoin (aget port_to_output_PGM P).
Definition portInputRegister (P : Z) : option reg := mjoin (aget port_to_input_PGM P).

(** ** wiring_digital.c *)

(** [*r &= ~bit] and [*r |= bit] *)
Definition and_not (r : reg) (bit : Z) (R : regfile) : regfile :=
  rset r (u8 (Z.land (R r) (Z.lnot bit))) R.
Definition or_ (r : reg) (bit : Z) (R : regfile) : regfile := rset r (u8 (Z.lor (R r) bit)) R.

Definition pinMode (pin mode : Z) (R : regfile) : option regfile :=
  bit ← digitalPinToBitMask pin;
  p ← digitalPinToPort pin;
  if p =? NOT_A_PIN then Some R else
  r ← portModeRegister p;
  out ← portOutputRegister p;
  Some
    (if mode =? INPUT then with_cli (fun R => and_not out bit (and_not r bit R)) R
     else if mode =? INPUT_PULLUP then with_cli (fun R => or_ out bit (and_not r bit R)) R
     else with_cli (or_ r bit) R).

Definition turnOffPWM (timer : Z) (R : regfile) : regfile :=
  if timer =? TIMER1A then rcbi TCCR1A 7 R
  else if timer =? TIMER1B then rcbi TCCR1A 5 R
  else if timer =? TIMER0A then rcbi TCCR0A 7 R
  else if timer =? TIMER0B then rcbi TCCR0A 5 R
  else if timer =? TIMER2A then rcbi TCCR2A 7 R
  else if timer =? TIMER2B then rcbi TCCR2A 5 R
  else if timer =? TIMER3A then rcbi TCCR3A 7 R
  else if timer =? TIMER3B then rcbi TCCR3A 5 R
  else if timer =? TIMER3C then rcbi TCCR3A 3 R
  else R.

Definition digitalWrite (pin val : Z) (R : regfile) : option regfile :=
  timer ← digitalPinToTimer pin;
  bit ← digitalPinToBitMask pin;
  p ← digitalPinToPort pin;
  if p =? NOT_A_PIN then Some R else
  let R := if negb (timer =? NOT_ON_TIMER) then turnOffPWM timer R else R in
  out ← portOutputRegister p;
  Some (with_cli (fun R => if val =? LOW then and_not out bit R else or_ out bit R) R).

Definition digitalRead (pin : Z) (R : regfile) : option (regfile * Z) :=
  timer ← digitalPinToTimer pin;
  bit ← digitalPinToBitMask pin;
  p ← digitalPinToPort pin;
  if p =? NOT_A_PIN then Some (R, LOW) else
  let R := if negb (timer =? NOT_ON_TIMER) then turnOffPWM timer R else R in
  inp ← portInputRegister p;
  Some (R, if negb (Z.land (R inp) bit =? 0) then HIGH else LOW).

(** ** wiring_analog.c *)

(** The file's two static variables. *)
Record analog := mkAnalog { analog_reference : Z; w_analog_reference : Z }.
#[export] Instance eta_analog : Eta analog :=
  {| eta a := mkAnalog (analog_reference a) (w_analog_reference a);
     eta_id := ltac:(by intros []) |}.
Definition analog_init : analog := mkAnalog 1 64.

Definition analogReference (mode : Z) (a : analog) : analog := a <| analog_reference := mode |>.

(** [reads] are the polls of ADSC, [adcl] and [adch] the conversion result. *)
Definition analogRead (pin : Z) (reads : list bool) (adcl adch : Z) (a : analog) (R : regfile)
  : res (regfile * Z) :=
  let pin := if (40 <=? pin) && (pin <=? 47) then u8 (pin - 40) else pin in
  let R := if pin <? 8 then rset DIDR0 (u8 (Z.lor (R DIDR0) (BV pin))) R else R in
  let R := rset ADMUX (u8 (Z.lor (w_analog_reference a) (Z.land pin 31))) R in
  let R := rsbi ADCSRA 6 R in
  _ ← poll reads;
  let R := rcbi ADCSRA 6 R in
  Ok (R, i16 (Z.lor (Z.shiftl adch 8) adcl)).

Definition _analogWrite (pin val : Z) (R : regfile) : option regfile :=
  R ← pinMode pin OUTPUT R;
  if pin =? 24 then
    if val =? 0 then Some (rcbi TCCR0A 5 (and_not (PORT PD) (BV 0) R))
    else Some (rsbi TCCR0A 5 (rset OCR0B (u8 val) R))
  else if pin =? 13 then Some (rsbi TCCR1A 7 (rset OCR1A (u16 val) R))
  else if pin =? 14 then Some (rsbi TCCR1A 5 (rset OCR1B (u16 val) R))
  else if pin =? 15 then Some (rsbi TCCR1A 3 (rset OCR1C (u16 val) R))
  else if pin =? 12 then Some (rsbi TCCR2A 7 (rset OCR2A (u8 val) R))
  else if pin =? 25 then Some (rsbi TCCR2A 5 (rset OCR2B (u8 val) R))
  else if pin =? 22 then Some (rsbi TCCR3A 7 (rset OCR3A (u16 val) R))
  else if pin =? 21 then Some (rsbi TCCR3A 5 (rset OCR3B (u16 val) R))
  else if pin =? 20 then Some (rsbi TCCR3A 3 (rset OCR3C (u16 val) R))
  else if val <? 128 then digitalWrite pin LOW R else digitalWrite pin HIGH R.

(** ** [init()] of wiring.c *)

Definition init (R : regfile) : regfile :=
  let R := rsbi SREG 7 R in
  let R := rsbi TCCR0A 0 (rsbi TCCR0A 1 R) in
  let R := rsbi TCCR0B 0 (rsbi TCCR0B 1 R) in
  let R := rsbi TIMSK0 0 R in
  let R := rset TCCR1B 0 R in
  let R := rsbi TCCR1B 0 (rsbi TCCR1B 1 R) in
  let R := rsbi TCCR1A 0 R in
  let R := rsbi TCCR2B 2 R in
  let R := rsbi TCCR2A 0 R in
  let R := rsbi TCCR3A 0 (rsbi TCCR3B 0 (rsbi TCCR3B 1 R)) in
  let R := rsbi ADCSRA 0 (rsbi ADCSRA 1 (rsbi ADCSRA 2 R)) in
  rsbi ADCSRA 7 R.

(** ** The board's pins *)

(** Port and bit number of a pin, and the timer output that drives it. *)
Definition pin_port (pin : Z) : option port :=
  p ← digitalPinToPort pin; r ← portOutputRegister p;
  match r with PORT q => Some q | _ => None end.
Definition pin_bit (pin : Z) : Z := pin mod 8.
Definition pin_pwm (pin : Z) : option (reg * Z) :=
  if pin =? 12 then Some (TCCR2A, 7) else if pin =? 13 then Some (TCCR1A, 7)
  else if pin =? 14 then Some (TCCR1A, 5) else if pin =? 15 then Some (TCCR0A, 7)
  else if pin =? 20 then Some (TCCR3A, 3) else if pin =? 21 then Some (TCCR3A, 5)
  else if pin =? 22 then Some (TCCR3A, 7) else if pin =? 24 then Some (TCCR0A, 5)
  else if pin =? 25 then Some (TCCR2A, 5) else None.

Definition all_pins : list Z := seqZ 0 48.

Lemma pin_cases (P : Z -> bool) :
  forallb P all_pins = true -> forall pin, 0 <= pin < 48 -> P pin = true.
Proof.
  intros H pin Hpin. rewrite forallb_forall in H. apply H.
  apply list_elem_of_In, elem_of_seqZ. lia.
Qed.

(** What the tables say of a pin, checked once for all 48. *)
Lemma pin_tables pin :
  0 <= pin < 48 ->
  exists p t pt, digitalPinToPort pin = Some p /\ (p =? NOT_A_PIN) = false /\
    digitalPinToBitMask pin = Some (BV (pin_bit pin)) /\ digitalPinToTimer pin = Some t /\
    pin_port pin = Some pt /\ portModeRegister p = Some (DDR pt) /\
    portOutputRegister p = Some (PORT pt) /\ portInputRegister p = Some (PIN pt) /\
    (forall R, (if negb (t =? NOT_ON_TIMER) then turnOffPWM t R else R)
               = match pin_pwm pin with Some (r, n) => rcbi r n R | None => R end).
Proof.
  intros Hpin.
  assert (pin ∈ all_pins) as Hin by (apply elem_of_seqZ; lia).
  vm_compute in Hin.
  repeat (apply elem_of_cons in Hin as [->|Hin];
    [eexists _, _, _; repeat split; vm_compute; reflexivity|]).
  by apply not_elem_of_nil in Hin.
Qed.

Lemma pin_bit_range pin : 0 <= pin_bit pin < 8.
Proof. unfold pin_bit. apply Z.mod_pos_bound. lia. Qed.

Lemma and_not_testbit r n R m :
  0 <= n -> 0 <= m < 8 ->
  Z.testbit (and_not r (BV n) R r) m = negb (m =? n) && Z.testbit (R r) m.
Proof.
  intros Hn Hm. unfold and_not. rewrite rset_eq, u8_testbit by lia.
  rewrite (proj2 (Z.ltb_lt _ _)) by lia. by apply (cbi_testbit (R r) n m); lia.
Qed.
Lemma or_testbit r n R m :
  0 <= n -> 0 <= m < 8 ->
  Z.testbit (or_ r (BV n) R r) m = (m =? n) || Z.testbit (R r) m.
Proof.
  intros Hn Hm. unfold or_. rewrite rset_eq, u8_testbit by lia.
  rewrite (proj2 (Z.ltb_lt _ _)) by lia. by apply (sbi_testbit (R r) n m); lia.
Qed.
Lemma and_not_other r b R r' : r' <> r -> and_not r b R r' = R r'.
Proof. intros. by apply rset_ne. Qed.
Lemma or_other r b R r' : r' <> r -> or_ r b R r' = R r'.
Proof. intros. by apply rset_ne. Qed.

(** [digitalWrite] on a pin of the board, with the table lookups resolved. *)
Lemma digitalWrite_eq pin val R :
  0 <= pin < 48 ->
  exists pt, pin_port pin = Some pt /\
    digitalWrite pin val R = Some (with_cli (fun R =>
      if val =? LOW then and_not (PORT pt) (BV (pin_bit pin)) R
      else or_ (PORT pt) (BV (pin_bit pin)) R)
      (match pin_pwm pin with Some (r, n) => rcbi r n R | None => R end)).
Proof.
  intros Hpin. destruct (pin_tables pin Hpin) as (p & t & pt & Hp & Hn & Hb & Ht & Hpt & _ & Ho & _ & Hpwm).
  exists pt. split; [done|]. unfold digitalWrite. rewrite Hp, Hb, Ht. simpl.
  by rewrite Hn, Ho, Hpwm.
Qed.

Lemma pinMode_eq pin mode R :
  0 <= pin < 48 ->
  exists pt, pin_port pin = Some pt /\
    pinMode pin mode R = Some (
      let bit := BV (pin_bit pin) in
      if mode =? INPUT then with_cli (fun R => and_not (PORT pt) bit (and_not (DDR pt) bit R)) R
      else if mode =? INPUT_PULLUP then with_cli (fun R => or_ (PORT pt) bit (and_not (DDR pt) bit R)) R
      else with_cli (or_ (DDR pt) bit) R).
Proof.
  intros Hpin. destruct (pin_tables pin Hpin) as (p & t & pt & Hp & Hn & Hb & _ & Hpt & Hm & Ho & _).
  exists pt. split; [done|]. unfold pinMode. rewrite Hp, Hb. simpl. by rewrite Hn, Hm, Ho.
Qed.

Lemma pinMode_total pin mode R : 0 <= pin < 48 -> is_Some (pinMode pin mode R).
Proof. intros Hpin. destruct (pinMode_eq pin mode R Hpin) as (pt & _ & ->). by eexists. Qed.

(** The timer register of a pin is none of the registers of the ports. *)
Lemma pin_pwm_timer pin r n :
  pin_pwm pin = Some (r, n) -> (forall p, r <> PORT p /\ r <> DDR p) /\ r <> SREG.
Proof.
  unfold pin_pwm. repeat case_if; intros [= <- <-]; repeat split; done.
Qed.

Lemma rcbi_other r n R r' : r' <> r -> rcbi r n R r' = R r'.
Proof. intros. by apply rset_ne. Qed.

Ltac port_bits :=
  repeat first
    [ rewrite and_not_other by congruence | rewrite or_other by congruence
    | rewrite and_not_testbit by lia | rewrite or_testbit by lia
    | rewrite with_cli_other by congruence | rewrite rcbi_other by congruence ].

Lemma digitalWrite_effect (pin val : Z) (R : regfile) :
  0 <= pin < 48 ->
  exists R' pt, pin_port pin = Some pt /\ digitalWrite pin val R = Some R' /\
    (forall m, 0 <= m < 8 ->
       Z.testbit (R' (PORT pt)) m
       = if m =? pin_bit pin then negb (val =? LOW) else Z.testbit (R (PORT pt)) m) /\
    (forall r, r <> PORT pt ->
       R' r = match pin_pwm pin with Some (t, n) => rcbi t n R r | None => R r end).
Proof.
  intros Hpin. destruct (digitalWrite_eq pin val R Hpin) as (pt & Hpt & Hw).
  pose proof (pin_bit_range pin) as Hb.
  eexists _, pt. split; [done|]. split; [exact Hw|].
  assert (Htim : forall t n, pin_pwm pin = Some (t, n) -> t <> PORT pt /\ t <> SREG).
  { intros t n H. apply pin_pwm_timer in H as [H1 H2]. by split; [apply H1|]. }
  split.
  - intros m Hm. destruct (pin_pwm pin) as [[t n]|] eqn:Hp.
    { destruct (Htim _ _ eq_refl). case_if; port_bits; destruct (Z.eqb_spec m (pin_bit pin)); done. }
    case_if; port_bits; destruct (Z.eqb_spec m (pin_bit pin)); done.
  - intros r Hr. destruct (decide (r = SREG)) as [->|HrS].
    + rewrite with_cli_SREG. destruct (pin_pwm pin) as [[t n]|]; done.
    + rewrite with_cli_other by done. case_if; port_bits; by destruct (pin_pwm pin) as [[t n]|].
Qed.


Lemma pin_port_div x :
  0 <= x < 48 -> pin_port x = [PA; PB; PC; PD; PE; PF] !! Z.to_nat (x / 8).
Proof.
  intros Hx. assert (bool_decide (pin_port x = [PA; PB; PC; PD; PE; PF] !! Z.to_nat (x / 8)) = true)
    as H; [|by apply bool_decide_eq_true in H].
  revert x Hx. apply (pin_cases (fun x => bool_decide _)). vm_compute. reflexivity.
Qed.

(** No two pins share a port bit. *)
Lemma pins_distinct p q :
  0 <= p < 48 -> 0 <= q < 48 -> pin_port p = pin_port q -> pin_bit p = pin_bit q -> p = q.
Proof.
  intros Hp Hq HP HB. rewrite !pin_port_div in HP by done. unfold pin_bit in HB.
  assert (NoDup [PA; PB; PC; PD; PE; PF]) as Hnd by (apply (bool_decide_unpack _); done).
  destruct ([PA; PB; PC; PD; PE; PF] !! Z.to_nat (p / 8)) as [pt|] eqn:E.
  - pose proof (NoDup_lookup _ _ _ _ Hnd E (eq_sym HP)). words.
  - apply lookup_ge_None in E. simpl in E. words.
Qed.

(** The level a pin is driven to. *)
Definition pin_level (pin : Z) (R : regfile) : option bool :=
  pt ← pin_port pin; Some (Z.testbit (R (PORT pt)) (pin_bit pin)).

(** Writing one pin leaves the level of every other pin alone. *)
Lemma digitalWrite_levels (p q val : Z) (R : regfile) :
  0 <= p < 48 -> 0 <= q < 48 -> p <> q ->
  exists R', digitalWrite p val R = Some R' /\
    pin_level p R' = Some (negb (val =? LOW)) /\ pin_level q R' = pin_level q R.
Proof.
  intros Hp Hq Hne. destruct (digitalWrite_effect p val R Hp) as (R' & pt & Hpt & Hw & Hbit & Hreg).
  exists R'. split; [done|]. unfold pin_level. rewrite Hpt. simpl.
  rewrite (Hbit _ (pin_bit_range p)), Z.eqb_refl. split; [done|].
  destruct (pin_tables q Hq) as (_ & _ & qt & _ & _ & _ & _ & Hqt & _). rewrite Hqt. simpl. f_equal.
  destruct (decide (qt = pt)) as [->|Hqp].
  - rewrite (Hbit _ (pin_bit_range q)). destruct (Z.eqb_spec (pin_bit q) (pin_bit p)) as [E|]; [|done].
    by destruct Hne; apply pins_distinct; try congruence.
  - rewrite Hreg by congruence. destruct (pin_pwm p) as [[t n]|] eqn:E; [|done].
    apply pin_pwm_timer in E as [E _]. rewrite rcbi_other; [done|]. by apply not_eq_sym, E.
Qed.

(** The timer output that [analogWrite] connects to a pin. *)
Definition analog_output (pin : Z) : option (reg * Z) := if pin =? 15 then Some (TCCR1A, 3) else pin_pwm pin.

Lemma analog_output_register pin t n : analog_output pin = Some (t, n) ->
  (forall p, t <> PORT p) /\ 0 <= n /\ (pin <> 15 -> pin_pwm pin = Some (t, n)).
Proof.
  unfold analog_output. intros Hout. destruct (Z.eqb_spec pin 15) as [->|Hne].
  - injection Hout as <- <-. repeat split; [done|lia|done].
  - apply pin_pwm_timer in Hout as Ht. split; [intros p; apply Ht|]. split; [|done].
    revert Hout. unfold pin_pwm. repeat case_if; intros [= <- <-]; lia.
Qed.
Lemma analog_output_connected pin t n v R : 0 <= pin < 48 -> analog_output pin = Some (t, n) -> v <> 0 ->
  exists R1, _analogWrite pin v R = Some R1 /\ Z.testbit (R1 t) n = true.
Proof.
  intros Hr Hout Hv. destruct (pinMode_total pin OUTPUT R Hr) as [R0 Hpm].
  unfold _analogWrite. rewrite Hpm, (proj2 (Z.eqb_neq v 0) Hv). clear Hpm. cbn [mbind option_bind].
  revert Hout. unfold analog_output, pin_pwm.
  repeat match goal with |- context [pin =? ?k] => destruct (Z.eqb_spec pin k) as [->|] end;
    intros [= <- <-]; eexists; (split; [reflexivity|regs; by rewrite sbi_testbit by lia]).
Qed.

(** ** Properties *)

(** C34: [digitalWrite] on any of the 48 pins drives exactly its own port bit to the level,
    switches off the timer output the pin table names, and changes nothing else: neither the
    other pins of the port, nor another register, nor the interrupt flag it saves; so every other
    pin of the board keeps its level. The timer output that [analogWrite] connects to the pin is
    disconnected, but for pin 15, for which the pin table names another output than
    [analogWrite] does: there it stays as it was, connected if it was connected. *)
Theorem digitalWrite_spec (pin val : Z) (R : regfile) :
  0 <= pin < 48 ->
  exists R' pt, pin_port pin = Some pt /\ digitalWrite pin val R = Some R' /\
    pin_level pin R' = Some (negb (val =? LOW)) /\
    (forall q, 0 <= q < 48 -> q <> pin -> pin_level q R' = pin_level q R) /\
    (forall m, 0 <= m < 8 ->
       Z.testbit (R' (PORT pt)) m
       = if m =? pin_bit pin then negb (val =? LOW) else Z.testbit (R (PORT pt)) m) /\
    (forall r, r <> PORT pt ->
       R' r = match pin_pwm pin with Some (t, n) => rcbi t n R r | None => R r end) /\
    (forall t n, analog_output pin = Some (t, n) ->
       (forall v, v <> 0 -> exists R1, _analogWrite pin v R = Some R1 /\ Z.testbit (R1 t) n = true) /\
       if pin =? 15 then R' t = R t else Z.testbit (R' t) n = false).
Proof.
  intros Hpin. destruct (digitalWrite_effect pin val R Hpin) as (R' & pt & Hpt & Hw & Hbit & Hreg).
  exists R', pt. split; [done|]. split; [done|]. split; [|split; [|split; [done|split; [done|]]]].
  - unfold pin_level. rewrite Hpt. simpl. by rewrite (Hbit _ (pin_bit_range pin)), Z.eqb_refl.
  - intros q Hq Hne. destruct (digitalWrite_levels pin q val R) as (R2 & Hw2 & _ & Hl); [done..|congruence].
  - intros t n Hout. split; [intros v Hv; by apply analog_output_connected|].
    destruct (analog_output_register pin t n Hout) as (Hport & Hn & Hpwm). rewrite Hreg by apply Hport.
    destruct (Z.eqb_spec pin 15) as [->|Hne].
    + injection Hout as <- <-. apply rcbi_other. done.
    + rewrite (Hpwm Hne). unfold rcbi. by rewrite rset_eq, cbi_testbit, Z.eqb_refl by lia.
Qed.

Lemma digitalWrite_spec_witness :
  exists R' pt, pin_port 13 = Some pt /\ digitalWrite 13 HIGH (fun _ => 255) = Some R' /\
    pin_level 13 R' = Some (negb (HIGH =? LOW)) /\
    (forall q, 0 <= q < 48 -> q <> 13 -> pin_level q R' = pin_level q (fun _ => 255)) /\
    Z.testbit (R' TCCR1A) 7 = false.
Proof.
  destruct (digitalWrite_spec 13 HIGH (fun _ => 255)) as (R' & pt & H1 & H2 & H3 & H4 & _ & _ & H5); [lia|].
  exists R', pt. split; [exact H1|]. split; [exact H2|]. split; [exact H3|]. split; [exact H4|].
  exact (proj2 (H5 TCCR1A 7 eq_refl)).
Defined.

(** [pinMode] sets the direction bit of the pin from the mode, sets or clears the pull-up
    bit for the two input modes and leaves it for output, and touches no other bit or
    register. *)
Theorem pinMode_spec (pin mode : Z) (R : regfile) :
  0 <= pin < 48 ->
  exists R' pt, pin_port pin = Some pt /\ pinMode pin mode R = Some R' /\
    (forall m, 0 <= m < 8 ->
       Z.testbit (R' (DDR pt)) m
       = (if m =? pin_bit pin then negb ((mode =? INPUT) || (mode =? INPUT_PULLUP))
          else Z.testbit (R (DDR pt)) m) /\
       Z.testbit (R' (PORT pt)) m
       = (if (m =? pin_bit pin) && ((mode =? INPUT) || (mode =? INPUT_PULLUP))
          then mode =? INPUT_PULLUP else Z.testbit (R (PORT pt)) m)) /\
    (forall r, r <> PORT pt -> r <> DDR pt -> R' r = R r).
Proof.
  intros Hpin. destruct (pinMode_eq pin mode R Hpin) as (pt & Hpt & Hw).
  pose proof (pin_bit_range pin) as Hb.
  eexists _, pt. split; [done|]. split; [exact Hw|]. cbv zeta.
  split.
  - intros m Hm. destruct (Z.eqb_spec mode INPUT) as [->|]; [|destruct (Z.eqb_spec mode INPUT_PULLUP)].
    all: simpl; split; port_bits; destruct (Z.eqb_spec m (pin_bit pin)); done.
  - intros r Hr1 Hr2. destruct (decide (r = SREG)) as [->|HrS].
    + by repeat case_if; rewrite with_cli_SREG.
    + by repeat case_if; port_bits.
Qed.

Lemma pinMode_spec_witness :
  exists R' pt, pin_port 40 = Some pt /\ pinMode 40 INPUT_PULLUP (fun _ => 0) = Some R' /\
    (forall m, 0 <= m < 8 ->
       Z.testbit (R' (DDR pt)) m
       = (if m =? pin_bit 40 then negb ((INPUT_PULLUP =? INPUT) || (INPUT_PULLUP =? INPUT_PULLUP))
          else Z.testbit 0 m) /\
       Z.testbit (R' (PORT pt)) m
       = (if (m =? pin_bit 40) && ((INPUT_PULLUP =? INPUT) || (INPUT_PULLUP =? INPUT_PULLUP))
          then INPUT_PULLUP =? INPUT_PULLUP else Z.testbit 0 m)) /\
    (forall r, r <> PORT pt -> r <> DDR pt -> R' r = 0).
Proof. apply (pinMode_spec 40 INPUT_PULLUP (fun _ => 0)). lia. Defined.

(** analogWrite connects the timer output of each of its PWM pins but 15, and a following
    [digitalWrite] to the pin disconnects it again. *)
Lemma analogWrite_disconnected (pin val v : Z) (R : regfile) :
  pin ∈ [12; 13; 14; 20; 21; 22; 24; 25] -> val <> 0 ->
  exists t n R1 R2, pin_pwm pin = Some (t, n) /\
    _analogWrite pin val R = Some R1 /\ Z.testbit (R1 t) n = true /\
    digitalWrite pin v R1 = Some R2 /\ Z.testbit (R2 t) n = false.
Proof.
  intros Hpin Hval.
  assert (exists t n, pin_pwm pin = Some (t, n) /\ 0 <= n /\ 0 <= pin < 48 /\
    exists R1, _analogWrite pin val R = Some R1 /\ Z.testbit (R1 t) n = true)
    as (t & n & Hp & Hn & Hr & R1 & Hw & Ht).
  { assert (0 <= pin < 48) as Hr by (repeat (apply elem_of_cons in Hpin as [->|Hpin]; [lia|]);
      by apply not_elem_of_nil in Hpin).
    destruct (pinMode_total pin OUTPUT R Hr) as [R0 Hpm].
    unfold _analogWrite. rewrite Hpm, (proj2 (Z.eqb_neq val 0) Hval). clear Hpm.
    cbn [mbind option_bind]. repeat (apply elem_of_cons in Hpin as [->|Hpin];
      [eexists _, _; split; [reflexivity|]; split; [lia|]; split; [lia|]; eexists; split;
       [reflexivity|regs; by rewrite sbi_testbit by lia]|]).
    by apply not_elem_of_nil in Hpin. }
  destruct (digitalWrite_effect pin v R1 Hr) as (R2 & pt & _ & Hd & _ & Hreg).
  exists t, n, R1, R2. repeat split; try done. apply pin_pwm_timer in Hp as Hp'.
  rewrite Hreg by apply Hp'. rewrite Hp. unfold rcbi.
  by rewrite rset_eq, cbi_testbit, Z.eqb_refl by lia.
Qed.

(** On pin 15 analogWrite connects compare output C of timer 1 (bit COM1C1 of TCCR1A), but
    the pin table names timer 0 channel A for it: [digitalWrite] leaves the PWM output
    connected, so the pin keeps following the timer. *)
Lemma analogWrite_pin15 (val v : Z) (R : regfile) :
  exists R1 R2, _analogWrite 15 val R = Some R1 /\ digitalWrite 15 v R1 = Some R2 /\
    Z.testbit (R1 TCCR1A) 3 = true /\ Z.testbit (R2 TCCR1A) 3 = true.
Proof.
  assert (exists R1, _analogWrite 15 val R = Some R1 /\ Z.testbit (R1 TCCR1A) 3 = true)
    as (R1 & Hw & Ht).
  { destruct (pinMode_total 15 OUTPUT R) as [R0 Hpm]; [lia|].
    unfold _analogWrite. rewrite Hpm. eexists. split; [reflexivity|]. regs.
    by rewrite sbi_testbit by lia. }
  destruct (digitalWrite_effect 15 v R1) as (R2 & pt & _ & Hd & _ & Hreg); [lia|].
  exists R1, R2. repeat split; try done. rewrite Hreg by done. simpl. by regs.
Qed.

(** AnalogWrite connects the timer output of each of its PWM pins, and a following
    [digitalWrite] to the pin disconnects it again, as its comment says it must; but not on pin
    15, where analogWrite connects compare output C of timer 1 (bit COM1C1 of TCCR1A) while the
    pin table names timer 0 channel A: that pin keeps following the timer. *)
Theorem analogWrite_then_digitalWrite (pin val v : Z) (R : regfile) :
  pin ∈ [12; 13; 14; 20; 21; 22; 24; 25] -> val <> 0 ->
  (exists t n R1 R2, pin_pwm pin = Some (t, n) /\
    _analogWrite pin val R = Some R1 /\ Z.testbit (R1 t) n = true /\
    digitalWrite pin v R1 = Some R2 /\ Z.testbit (R2 t) n = false) /\
  (exists R1 R2, _analogWrite 15 val R = Some R1 /\ digitalWrite 15 v R1 = Some R2 /\
    Z.testbit (R1 TCCR1A) 3 = true /\ Z.testbit (R2 TCCR1A) 3 = true).
Proof. intros Hp Hv. split; [by apply analogWrite_disconnected|apply analogWrite_pin15]. Qed.

Lemma analogWrite_then_digitalWrite_witness :
  (exists t n R1 R2, pin_pwm 14 = Some (t, n) /\
    _analogWrite 14 100 (fun _ => 0) = Some R1 /\ Z.testbit (R1 t) n = true /\
    digitalWrite 14 LOW R1 = Some R2 /\ Z.testbit (R2 t) n = false) /\
  (exists R1 R2, _analogWrite 15 100 (fun _ => 0) = Some R1 /\ digitalWrite 15 LOW R1 = Some R2 /\
    Z.testbit (R1 TCCR1A) 3 = true /\ Z.testbit (R2 TCCR1A) 3 = true).
Proof. apply (analogWrite_then_digitalWrite 14); [apply (bool_decide_unpack _); done|lia]. Defined.

(** [analogRead] on an analogue pin, by its channel number or by its digital number,
    selects that channel, disables the digital input buffer of the pin and returns the ten-bit
    result; the reference is AVcc whatever [analogReference] was given. *)
Theorem analogRead_spec (ch mode adcl adch : Z) (reads : list bool) (dig : bool) (R : regfile) :
  0 <= ch < 8 -> is_u8 adcl -> 0 <= adch < 4 -> clears reads ->
  exists R', analogRead (if dig then 40 + ch else ch) reads adcl adch
               (analogReference mode analog_init) R = Ok (R', 256 * adch + adcl) /\
    R' ADMUX = 64 + ch /\ Z.testbit (R' DIDR0) ch = true /\ Z.testbit (R' ADCSRA) 6 = false.
Proof.
  intros Hch Hl Hh Hc. apply poll_ok in Hc.
  assert (Hpin : (if (40 <=? (if dig then 40 + ch else ch)) && ((if dig then 40 + ch else ch) <=? 47)
                  then u8 ((if dig then 40 + ch else ch) - 40) else (if dig then 40 + ch else ch)) = ch).
  { destruct dig.
    - rewrite !(proj2 (Z.leb_le _ _)) by lia. simpl. words.
    - rewrite (proj2 (Z.leb_gt 40 ch)) by lia. done. }
  unfold analogRead. rewrite Hpin, Hc. simpl.
  rewrite (proj2 (Z.ltb_lt ch 8)) by lia. eexists. split.
  { f_equal. f_equal. rewrite lor_shiftl_add by (unfold is_u8 in Hl; lia).
    change (2 ^ 8) with 256. rewrite i16_small by words. lia. }
  split; [|split]; regs.
  - assert (ch ∈ seqZ 0 8) as Hin by (apply elem_of_seqZ; lia). vm_compute in Hin.
    repeat (apply elem_of_cons in Hin as [->|Hin]; [done|]). by apply not_elem_of_nil in Hin.
  - rewrite u8_testbit, (proj2 (Z.ltb_lt ch 8)) by lia. simpl.
    rewrite Z.lor_spec, BV_testbit, Z.eqb_refl by lia. apply orb_true_r.
  - by rewrite cbi_testbit by lia.
Qed.

Lemma analogRead_spec_witness :
  exists R', analogRead 43 [true; false] 255 3 (analogReference 0 analog_init) (fun _ => 0)
             = Ok (R', 256 * 3 + 255) /\
    R' ADMUX = 64 + 3 /\ Z.testbit (R' DIDR0) 3 = true /\ Z.testbit (R' ADCSRA) 6 = false.
Proof.
  apply (analogRead_spec 3 0 255 3 [true; false] true); [lia|unfold is_u8; lia|lia|].
  apply poll_ok. reflexivity.
Defined.

End Digital.
