(* ===== verification/Timer.v ===== *)
(** * Timekeeping (wiring.c)

    The timer 0 overflow handler and the functions built on its counters, for the 16 MHz clock
    of the boards. A value read from the hardware is an argument: the timer and its overflow
    flag in [micros], the sequence of [micros] readings in [delay]. *)

From S2P Require Import Prelude.
From Stdlib Require Import Lia ZArith.
From stdpp Require Import list.

#[local] Open Scope Z_scope.

Module Timer.

Definition F_CPU := 16000000.
Definition clockCyclesPerMicrosecond := F_CPU / 1000000.
Definition clockCyclesToMicroseconds (a : Z) : Z := a / clockCyclesPerMicrosecond.
Definition MICROSECONDS_PER_TIMER0_OVERFLOW := clockCyclesToMicroseconds (64 * 256).
Definition MILLIS_INC := MICROSECONDS_PER_TIMER0_OVERFLOW / 1000.
Definition FRACT_INC := Z.shiftr (MICROSECONDS_PER_TIMER0_OVERFLOW mod 1000) 3.
Definition FRACT_MAX := Z.shiftr 1000 3.

Record timer := mkTimer { timer0_overflow_count : Z; timer0_millis : Z; timer0_fract : Z }.
#[export] Instance eta_timer : Eta timer :=
  {| eta t := mkTimer (timer0_overflow_count t) (timer0_millis t) (timer0_fract t);
     eta_id := ltac:(by intros []) |}.
Definition timer_init : timer := mkTimer 0 0 0.

Definition TIMER0_OVF_vect (t : timer) : timer :=
  let m := timer0_millis t in
  let f := timer0_fract t in
  let m := u32 (m + MILLIS_INC) in
  let f := u8 (f + FRACT_INC) in
  let '(f, m) := if FRACT_MAX <=? f then (u8 (f - FRACT_MAX), u32 (m + 1)) else (f, m) in
  t <| timer0_fract := f |> <| timer0_millis := m |>
    <| timer0_overflow_count ::= fun c => u32 (c + 1) |>.

Definition millis (t : timer) : Z := timer0_millis t.

(** [tcnt0] is TCNT0 and [tov0] the overflow flag, read in this order. *)
Definition micros (t : timer) (tcnt0 : Z) (tov0 : bool) : Z :=
  let m := timer0_overflow_count t in
  let m := if tov0 && (tcnt0 <? 255) then u32 (m + 1) else m in
  u32 (u32 (Z.shiftl m 8 + tcnt0) * (64 / clockCyclesPerMicrosecond)).

(** The loop of [delay]; [readings] are the results of the calls of [micros], and the value is
    the readings that are left. *)
Fixpoint delay_loop (ms start : Z) (readings : list Z) : res (list Z) :=
  if ms =? 0 then Ok readings else
  match readings with
  | [] => Hang
  | r :: readings' =>
      if 1000 <=? u16 (u16 r - start) then delay_loop (u32 (ms - 1)) (u16 (start + 1000)) readings'
      else delay_loop ms start readings'
  end.
Definition delay (ms : Z) (readings : list Z) : res (list Z) :=
  match readings with
  | [] => Hang
  | r :: readings' => delay_loop ms (u16 r) readings'
  end.

(** The number of passes of the four-cycle loop of [delayMicroseconds] at 16 MHz: the loop
    decrements before it tests. *)
Definition delayMicroseconds (us : Z) : Z :=
  let us := u16 (us - 1) in
  if us =? 0 then 0 else
  let us := u16 (Z.shiftl us 2) in
  let us := u16 (us - 2) in
  if us =? 0 then 65536 else us.

(** ** Claims *)

Definition after (n : nat) : timer := Nat.iter n TIMER0_OVF_vect timer_init.

Lemma after_spec n :
  timer0_overflow_count (after n) = u32 (Z.of_nat n) /\
  timer0_fract (after n) = (1024 * Z.of_nat n) mod 1000 / 8 /\
  timer0_millis (after n) = u32 (1024 * Z.of_nat n / 1000).
Proof.
  induction n as [|n (IHc & IHf & IHm)]; [done|].
  unfold after in *. rewrite Nat.iter_succ. set (t := Nat.iter n _ _) in *.
  unfold TIMER0_OVF_vect. rewrite IHf, IHm.
  change FRACT_INC with 3. change FRACT_MAX with 125. change MILLIS_INC with 1.
  rewrite Nat2Z.inj_succ, <- Z.add_1_r. set (N := Z.of_nat n) in *. assert (0 <= N) by lia. clearbody N.
  assert (exists q r, 1024 * N = 1000 * q + 8 * r /\ 0 <= r < 125 /\ 0 <= q) as (q & r & E & Hr & Hq).
  { exists (1024 * N / 1000), ((1024 * N) mod 1000 / 8). Z.div_mod_to_equations. lia. }
  replace ((1024 * N) mod 1000) with (8 * r) by (Z.div_mod_to_equations; lia).
  replace (8 * r / 8) with r by (Z.div_mod_to_equations; lia).
  replace (1024 * N / 1000) with q by (Z.div_mod_to_equations; lia).
  rewrite (u8_small (r + 3)) by (unfold is_u8; lia).
  assert (1024 * (N + 1) = 1000 * (q + 1) + 8 * (r + 3)) as E' by lia. rewrite E'.
  destruct (Z.leb_spec 125 (r + 3)); simpl; rewrite ?IHc.
  - rewrite u8_small by (unfold is_u8; lia). split; [words|]. split; [Z.div_mod_to_equations; lia|].
    replace ((1000 * (q + 1) + 8 * (r + 3)) / 1000) with (q + 2) by (Z.div_mod_to_equations; lia). words.
  - split; [words|]. split; [Z.div_mod_to_equations; lia|].
    replace ((1000 * (q + 1) + 8 * (r + 3)) / 1000) with (q + 1) by (Z.div_mod_to_equations; lia). words.
Qed.

(** C35: the millisecond count has no drift. An overflow comes every 1024 microseconds; after
    [n] of them [millis] is exactly the number of whole milliseconds (modulo its 32 bits), the
    fraction in the byte [timer0_fract] never overflows, and the overflow counter is [n]. *)
Theorem millis_exact n :
  millis (after n) = u32 (1024 * Z.of_nat n / 1000) /\
  0 <= timer0_fract (after n) < FRACT_MAX /\
  timer0_overflow_count (after n) = u32 (Z.of_nat n).
Proof.
  destruct (after_spec n) as (Hc & Hf & Hm). split; [done|]. split; [|done].
  rewrite Hf. change FRACT_MAX with 125. Z.div_mod_to_equations. lia.
Qed.

(** [micros] is exact in spite of the race between the timer and its overflow flag. [T1]
    is the time in ticks when TCNT0 is read and [T2], at most one tick later, when the flag is
    read; [c] overflows have been counted. The flag is up when an overflow is pending. The
    result is four microseconds per tick of [T1], as long as a pending overflow is served
    before the timer reaches 255 again. *)
Theorem micros_exact c T1 T2 t :
  timer0_overflow_count t = c -> 0 <= c < 4294967295 ->
  256 * c <= T1 < 256 * (c + 1) + 255 -> T1 <= T2 <= T1 + 1 ->
  micros t (T1 mod 256) (c <? T2 / 256) = u32 (4 * T1).
Proof.
  intros Hc Hr HT1 HT2. unfold micros. rewrite Hc. change (64 / clockCyclesPerMicrosecond) with 4.
  assert (u32 (c + 1) = c + 1) as Hu by words. rewrite Hu.
  assert ((if (c <? T2 / 256) && (T1 mod 256 <? 255) then c + 1 else c) = T1 / 256) as ->.
  { destruct (Z.ltb_spec c (T2 / 256)), (Z.ltb_spec (T1 mod 256) 255); simpl; Z.div_mod_to_equations; lia. }
  rewrite Z.shiftl_mul_pow2 by lia. change (2 ^ 8) with 256.
  replace (T1 / 256 * 256 + T1 mod 256) with T1 by (Z.div_mod_to_equations; lia). words.
Qed.

(** Readings of a clock that is looked at once a millisecond at least. *)
Fixpoint frequent (prev : Z) (times : list Z) : Prop :=
  match times with
  | [] => True
  | t :: times' => prev <= t <= prev + 1000 /\ frequent t times'
  end.

Lemma last_default (cur t : Z) l : default cur (last (t :: l)) = default t (last l).
Proof. destruct l as [|x l]; [done|]. simpl. by destruct (last (x :: l)) eqn:E; [|apply last_None in E]. Qed.

Lemma delay_loop_spec times : forall ms start cur left,
  0 <= ms < 4294967296 -> start <= cur < start + 1000 -> frequent cur times ->
  delay_loop ms (u16 start) (map u32 times) = Ok left ->
  exists seen rest, times = seen ++ rest /\ left = map u32 rest /\
    let t := default cur (last seen) in start + 1000 * ms <= t < start + 1000 * ms + 1000.
Proof.
  induction times as [|t times IH]; intros ms start cur left Hms Hs Hf; simpl.
  - destruct (Z.eqb_spec ms 0) as [->|]; [|done]. intros [= <-]. exists [], []. simpl. split; [done|]. split; [done|]. lia.
  - destruct (Z.eqb_spec ms 0) as [->|Hne].
    { intros [= <-]. exists [], (t :: times). simpl. split; [done|]. split; [done|]. lia. }
    destruct Hf as [Ht Hf].
    assert (u16 (u16 (u32 t) - u16 start) = t - start) as -> by words.
    destruct (Z.leb_spec 1000 (t - start)).
    + replace (u16 (u16 start + 1000)) with (u16 (start + 1000)) by words.
      rewrite (u32_small (ms - 1)) by (unfold is_u32; lia).
      intros (seen & rest & -> & -> & Hd)%(IH _ _ t); [|lia|lia|done].
      exists (t :: seen), rest. split; [done|]. split; [done|].
      rewrite last_default. simpl in *. lia.
    + intros (seen & rest & -> & -> & Hd)%(IH _ _ t); [|lia|lia|done].
      exists (t :: seen), rest. split; [done|]. split; [done|].
      rewrite last_default. exact Hd.
Qed.

Lemma delay_loop_returns times : forall ms start cur,
  0 <= ms < 4294967296 -> start <= cur < start + 1000 -> frequent cur times ->
  start + 1000 * ms <= default cur (last times) ->
  exists left, delay_loop ms (u16 start) (map u32 times) = Ok left.
Proof.
  induction times as [|t times IH]; intros ms start cur Hms Hs Hf Hl; simpl delay_loop.
  - simpl in Hl. assert (ms = 0) as -> by lia. by eexists.
  - destruct (Z.eqb_spec ms 0); [by eexists|]. destruct Hf as [Ht Hf].
    assert (u16 (u16 (u32 t) - u16 start) = t - start) as -> by words.
    destruct (Z.leb_spec 1000 (t - start)).
    + replace (u16 (u16 start + 1000)) with (u16 (start + 1000)) by words.
      rewrite (u32_small (ms - 1)) by (unfold is_u32; lia). apply (IH _ _ t); [lia|lia|done|].
      rewrite last_default in Hl. lia.
    + apply (IH _ _ t); [lia|lia|done|]. by rewrite last_default in Hl.
Qed.

(** [delay(ms)] waits at least [ms] and less than [ms + 1] milliseconds, if the loop gets
    to look at the clock once a millisecond at least, even though it compares sixteen bits of
    the microsecond count only; and it returns once the clock has advanced that far. *)
Theorem delay_accurate t0 times ms :
  0 <= ms < 4294967296 -> frequent t0 times ->
  (forall left, delay ms (map u32 (t0 :: times)) = Ok left ->
     exists seen rest, times = seen ++ rest /\ left = map u32 rest /\
       t0 + 1000 * ms <= default t0 (last seen) < t0 + 1000 * ms + 1000) /\
  (t0 + 1000 * ms <= default t0 (last times) ->
     exists left, delay ms (map u32 (t0 :: times)) = Ok left).
Proof.
  intros Hms Hf. unfold delay. simpl. assert (u16 (u32 t0) = u16 t0) as -> by words. split.
  - intros left H. eapply delay_loop_spec in H; [exact H|done|lia|done].
  - intros H. eapply delay_loop_returns; [done| |done|done]. lia.
Qed.

(** The passes of the loop of [delayMicroseconds], each a quarter of a microsecond: from 2
    to 16384 microseconds there are four per microsecond less the six that cover the overhead;
    0 wraps around to the longest delay, and from 16385 on the argument loses its high bits, so
    that a request for 16386 microseconds waits for half of one. *)
Theorem delayMicroseconds_passes us :
  0 <= us < 65536 ->
  delayMicroseconds us = (if us =? 1 then 0 else u16 (4 * us - 6)) /\
  (2 <= us <= 16384 -> delayMicroseconds us = 4 * us - 6) /\
  delayMicroseconds 0 = 65530 /\ delayMicroseconds 16386 = 2.
Proof.
  intros Hus.
  assert (delayMicroseconds us = if us =? 1 then 0 else u16 (4 * us - 6)) as H.
  { unfold delayMicroseconds. rewrite Z.shiftl_mul_pow2 by lia. change (2 ^ 2) with 4.
    destruct (Z.eqb_spec (u16 (us - 1)) 0), (Z.eqb_spec us 1); try done; [words|words|].
    destruct (Z.eqb_spec (u16 (u16 (u16 (us - 1) * 4) - 2)) 0); words. }
  split; [done|]. split; [|done]. intros Hr. rewrite H. destruct (Z.eqb_spec us 1); words.
Qed.

(** *** Witnesses *)

Lemma micros_exact_witness :
  micros (mkTimer 7 0 0) (2047 mod 256) (7 <? 2048 / 256) = u32 (4 * 2047).
Proof. apply (micros_exact 7 2047 2048 (mkTimer 7 0 0)); [reflexivity|lia|lia|lia]. Defined.

Lemma delay_accurate_witness :
  exists left, delay 1 (map u32 [65000; 65500; 66100]) = Ok left.
Proof.
  apply (delay_accurate 65000 [65500; 66100] 1); [lia| |].
  - simpl. lia.
  - vm_compute. discriminate.
Defined.

Lemma delayMicroseconds_passes_witness : delayMicroseconds 100 = 394.
Proof. apply (delayMicroseconds_passes 100); lia. Defined.

End Timer.
