(* ===== verification/Interrupts.v ===== *)
(** * External interrupts (WInterrupts.c)

    [attachInterrupt], [detachInterrupt] and the eight interrupt handlers of the AT90USB parts.
    A user function is a value of a type [F]; a handler yields the function it calls. *)

From S2P Require Import Prelude.
From S2P Require Import Avr.
From S2P Require Import Digital.
From Stdlib Require Import Lia ZArith.

#[local] Open Scope Z_scope.

Module Interrupts.

Definition EXTERNAL_NUM_INTERRUPTS := 8.

Section Interrupts.
Context {F : Type}.

(** The table of user functions ([None] is the null pointer) and the registers. *)
Record state := mkState { intFunc : list (option F); regs : regfile }.

(** [EICRx = (EICRx & ~((1 << ISCn0) | (1 << ISCn1))) | (mode << ISCn0)] with [ISCn1] next to
    [ISCn0], then [EIMSK |= (1 << INTn)]. *)
Definition sense (eicr : reg) (isc0 mode intn : Z) (R : regfile) : regfile :=
  let R := rset eicr (u8 (Z.lor (Z.land (R eicr) (Z.lnot (Z.lor (Z.shiftl 1 isc0) (Z.shiftl 1 (isc0 + 1)))))
                            (Z.shiftl mode isc0))) R in
  rset EIMSK (u8 (Z.lor (R EIMSK) (Z.shiftl 1 intn))) R.

Definition attachInterrupt (interruptNum : Z) (userFunc : F) (mode : Z) (s : state) : option state :=
  if interruptNum <? EXTERNAL_NUM_INTERRUPTS then
    fs ← aset (intFunc s) interruptNum (Some userFunc);
    let R := regs s in
    Some (mkState fs
      (if interruptNum =? 2 then sense EICRA 0 mode 0 R
       else if interruptNum =? 3 then sense EICRA 2 mode 1 R
       else if interruptNum =? 4 then sense EICRA 4 mode 2 R
       else if interruptNum =? 5 then sense EICRA 6 mode 3 R
       else if interruptNum =? 0 then sense EICRB 0 mode 4 R
       else if interruptNum =? 1 then sense EICRB 2 mode 5 R
       else if interruptNum =? 6 then sense EICRB 4 mode 6 R
       else if interruptNum =? 7 then sense EICRB 6 mode 7 R
       else R))
  else Some s.

Definition disable (intn : Z) (R : regfile) : regfile :=
  rset EIMSK (u8 (Z.land (R EIMSK) (Z.lnot (Z.shiftl 1 intn)))) R.

Definition detachInterrupt (interruptNum : Z) (s : state) : option state :=
  if interruptNum <? EXTERNAL_NUM_INTERRUPTS then
    let R := regs s in
    let R :=
      if interruptNum =? 2 then disable 0 R
      else if interruptNum =? 3 then disable 1 R
      else if interruptNum =? 4 then disable 2 R
      else if interruptNum =? 5 then disable 3 R
      else if interruptNum =? 0 then disable 4 R
      else if interruptNum =? 1 then disable 5 R
      else if interruptNum =? 6 then disable 6 R
      else if interruptNum =? 7 then disable 7 R
      else R in
    fs ← aset (intFunc s) interruptNum None;
    Some (mkState fs R)
  else Some s.

(** [INTn_vect]: the index of the table the handler of line [n] uses. *)
Definition vector_index (n : Z) : option Z :=
  aget [2; 3; 4; 5; 0; 1; 6; 7] n.
Definition INT_vect (n : Z) (s : state) : option (option F) :=
  i ← vector_index n; aget (intFunc s) i.

(** The lines that are enabled, their sense bits, and what they call. *)
Definition line_of (interruptNum : Z) : option Z := aget [4; 5; 0; 1; 2; 3; 6; 7] interruptNum.
Definition enabled (n : Z) (s : state) : bool := Z.testbit (regs s EIMSK) n.
Definition sense_of (n : Z) (s : state) : Z :=
  if n <? 4 then Z.land (Z.shiftr (regs s EICRA) (2 * n)) 3
  else Z.land (Z.shiftr (regs s EICRB) (2 * (n - 4))) 3.

Lemma land3 x i : 0 <= i -> Z.testbit (Z.land x 3) i = (i <? 2) && Z.testbit x i.
Proof.
  intros Hi. rewrite Z.land_spec. change 3 with (Z.ones 2). destruct (Z.ltb_spec i 2).
  - rewrite Z.ones_spec_low by lia. by rewrite andb_true_r.
  - rewrite Z.ones_spec_high by lia. by rewrite andb_false_r.
Qed.

(** Bits of a sense register after [sense]. *)
Lemma sense_bits x isc mode i :
  0 <= isc <= 6 -> 0 <= mode < 4 -> 0 <= i < 8 ->
  Z.testbit (u8 (Z.lor (Z.land x (Z.lnot (Z.lor (Z.shiftl 1 isc) (Z.shiftl 1 (isc + 1))))) (Z.shiftl mode isc))) i
  = if decide (isc <= i < isc + 2) then Z.testbit mode (i - isc) else Z.testbit x i.
Proof.
  intros Hisc Hm Hi. rewrite u8_testbit, (proj2 (Z.ltb_lt _ _)) by lia. simpl.
  rewrite Z.lor_spec, Z.land_spec, Z.lnot_spec, Z.lor_spec by lia.
  change (Z.shiftl 1 isc) with (BV isc). change (Z.shiftl 1 (isc + 1)) with (BV (isc + 1)).
  rewrite !BV_testbit, Z.shiftl_spec by lia.
  destruct (decide (isc <= i < isc + 2)) as [Hin|Hout].
  - assert ((i =? isc) || (i =? isc + 1) = true) as ->.
    { apply orb_true_iff. rewrite !Z.eqb_eq. lia. }
    by rewrite andb_false_r.
  - rewrite !(proj2 (Z.eqb_neq _ _)) by lia. rewrite andb_true_r.
    assert (Z.testbit mode (i - isc) = false) as ->; [|apply orb_false_r].
    destruct (Z.lt_ge_cases i isc); [by rewrite Z.testbit_neg_r by lia|].
    apply (testbit_high mode 2); lia.
Qed.

Lemma sense_value x isc mode n m :
  0 <= mode < 4 -> 0 <= n < 4 -> 0 <= m < 4 -> isc = 2 * n ->
  Z.land (Z.shiftr (u8 (Z.lor (Z.land x (Z.lnot (Z.lor (Z.shiftl 1 isc) (Z.shiftl 1 (isc + 1)))))
    (Z.shiftl mode isc))) (2 * m)) 3
  = if decide (m = n) then mode else Z.land (Z.shiftr x (2 * m)) 3.
Proof.
  intros Hmo Hn Hm ->. apply Z.bits_inj'. intros i Hi. rewrite land3, Z.shiftr_spec by lia.
  destruct (Z.ltb_spec i 2) as [Hlt|Hge].
  - rewrite sense_bits by lia. simpl. destruct (decide (m = n)) as [->|Hne].
    + rewrite decide_True by lia. f_equal. lia.
    + rewrite decide_False by lia. rewrite land3, Z.shiftr_spec, (proj2 (Z.ltb_lt _ _)) by lia. done.
  - simpl. destruct (decide (m = n)).
    + symmetry. apply (testbit_high mode 2); lia.
    + rewrite land3, (proj2 (Z.ltb_ge _ _)) by lia. done.
Qed.

Lemma mask_set x n m : 0 <= n < 8 -> 0 <= m < 8 ->
  Z.testbit (u8 (Z.lor x (Z.shiftl 1 n))) m = (m =? n) || Z.testbit x m.
Proof.
  intros Hn Hm. rewrite u8_testbit, (proj2 (Z.ltb_lt _ _)) by lia. by apply (sbi_testbit x n m); lia.
Qed.
Lemma mask_clear x n m : 0 <= n < 8 -> 0 <= m < 8 ->
  Z.testbit (u8 (Z.land x (Z.lnot (Z.shiftl 1 n)))) m = negb (m =? n) && Z.testbit x m.
Proof.
  intros Hn Hm. rewrite u8_testbit, (proj2 (Z.ltb_lt _ _)) by lia. by apply (cbi_testbit x n m); lia.
Qed.

(** The updates of the two functions, by line. *)
Lemma attach_eq i f mode s :
  0 <= i < 8 -> length (intFunc s) = 8%nat ->
  exists n fs, line_of i = Some n /\ vector_index n = Some i /\ 0 <= n < 8 /\
    aset (intFunc s) i (Some f) = Some fs /\
    attachInterrupt i f mode s = Some (mkState fs
      (if n <? 4 then sense EICRA (2 * n) mode n (regs s)
       else sense EICRB (2 * (n - 4)) mode n (regs s))).
Proof.
  intros Hi Hl. unfold attachInterrupt, EXTERNAL_NUM_INTERRUPTS. rewrite (proj2 (Z.ltb_lt _ _)) by lia.
  rewrite aset_Some by lia. simpl.
  assert (i = 0 \/ i = 1 \/ i = 2 \/ i = 3 \/ i = 4 \/ i = 5 \/ i = 6 \/ i = 7) as Hc by lia.
  destruct Hc as [->|[->|[->|[->|[->|[->|[->| ->]]]]]]]; eexists _, _; repeat split; done.
Qed.

Lemma detach_eq i s :
  0 <= i < 8 -> length (intFunc s) = 8%nat ->
  exists n fs, line_of i = Some n /\ vector_index n = Some i /\ 0 <= n < 8 /\
    aset (intFunc s) i None = Some fs /\
    detachInterrupt i s = Some (mkState fs (disable n (regs s))).
Proof.
  intros Hi Hl. unfold detachInterrupt, EXTERNAL_NUM_INTERRUPTS. rewrite (proj2 (Z.ltb_lt _ _)) by lia.
  rewrite aset_Some by lia. simpl.
  assert (i = 0 \/ i = 1 \/ i = 2 \/ i = 3 \/ i = 4 \/ i = 5 \/ i = 6 \/ i = 7) as Hc by lia.
  destruct Hc as [->|[->|[->|[->|[->|[->|[->| ->]]]]]]]; eexists _, _; repeat split; done.
Qed.

Lemma vector_index_inj n m i : vector_index n = Some i -> vector_index m = Some i -> n = m.
Proof.
  unfold vector_index. intros Hn Hm.
  pose proof (aget_Some_range _ _ _ Hn) as Rn. pose proof (aget_Some_range _ _ _ Hm) as Rm. simpl in *.
  assert (forall k, 0 <= k < 8 -> k = 0 \/ k = 1 \/ k = 2 \/ k = 3 \/ k = 4 \/ k = 5 \/ k = 6 \/ k = 7)
    as Hc by lia.
  destruct (Hc n ltac:(lia)) as [->|[->|[->|[->|[->|[->|[->| ->]]]]]]];
    destruct (Hc m ltac:(lia)) as [->|[->|[->|[->|[->|[->|[->| ->]]]]]]]; vm_compute in Hn, Hm; congruence.
Qed.
End Interrupts.
Arguments state F : clear implicits.

(** The behaviour of interrupt lines: enabled, sense and handler, for each of the eight. *)
Definition line {F} (n : Z) (s : state F) : bool * Z * option (option F) :=
  (enabled n s, sense_of n s, INT_vect n s).

(** [attachInterrupt] on interrupt [i] with a mode of two bits enables exactly its line,
    with that mode and that handler, and leaves the other seven lines as they were;
    [detachInterrupt] then disables it and clears its handler, again without touching the
    others. Numbers from 8 on change nothing. *)
Theorem attach_detach_spec {F} i (f : F) mode s :
  0 <= i -> 0 <= mode < 4 -> length (intFunc s) = 8%nat ->
  if decide (i < 8) then
    exists n s1 s2, line_of i = Some n /\ 
      attachInterrupt i f mode s = Some s1 /\ line n s1 = (true, mode, Some (Some f)) /\
      detachInterrupt i s1 = Some s2 /\ line n s2 = (false, mode, Some None) /\
      (forall m, 0 <= m < 8 -> m <> n -> line m s1 = line m s /\ line m s2 = line m s)
  else attachInterrupt i f mode s = Some s /\ detachInterrupt i s = Some s.
Proof.
  intros Hi Hmode Hl. destruct (decide (i < 8)) as [H8|H8].
  2: { unfold attachInterrupt, detachInterrupt, EXTERNAL_NUM_INTERRUPTS.
       by rewrite (proj2 (Z.ltb_ge _ _)) by lia. }
  destruct (attach_eq i f mode s ltac:(lia) Hl) as (n & fs & Hn & Hv & Hr & Hfs & Ha).
  set (s1 := mkState fs _) in Ha.
  assert (length (intFunc s1) = 8%nat) as Hl1 by (simpl; by rewrite (aset_length _ _ _ _ Hfs)).
  destruct (detach_eq i s1 ltac:(lia) Hl1) as (n' & fs2 & Hn' & _ & _ & Hfs2 & Hd).
  assert (n' = n) as -> by congruence.
  exists n, s1, (mkState fs2 (disable n (regs s1))). split; [done|]. split; [done|].
  assert (forall m, 0 <= m < 8 -> enabled m s1 = (m =? n) || enabled m s) as He1.
  { intros m Hm. unfold enabled, s1. simpl. unfold sense. by destruct (n <? 4); regs; apply mask_set. }
  assert (forall m, 0 <= m < 8 ->
    enabled m (mkState fs2 (disable n (regs s1))) = negb (m =? n) && enabled m s1) as Hen2.
  { intros m Hm. unfold enabled, disable. cbn [regs]. rewrite rset_eq. by apply mask_clear. }
  assert (forall m, 0 <= m < 8 -> sense_of m s1 = if decide (m = n) then mode else sense_of m s) as Hs1.
  { intros m Hm. unfold sense_of, s1. simpl. unfold sense.
    destruct (Z.ltb_spec n 4), (Z.ltb_spec m 4); regs; try (rewrite decide_False by lia; done).
    - by apply sense_value; lia.
    - rewrite (sense_value _ _ mode (n - 4) (m - 4)) by lia.
      destruct (decide (m = n)) as [->|]; [by rewrite decide_True|by rewrite decide_False by lia]. }
  assert (forall m, sense_of m (mkState fs2 (disable n (regs s1))) = sense_of m s1) as Hs2.
  { intros m. unfold sense_of, disable. simpl. by destruct (m <? 4); regs. }
  assert (forall m, 0 <= m < 8 -> m <> n -> INT_vect m s1 = INT_vect m s /\
    INT_vect m (mkState fs2 (disable n (regs s1))) = INT_vect m s) as Hint.
  { intros m Hm Hne. unfold INT_vect. simpl. destruct (vector_index m) as [j|] eqn:Ej; [|done]. simpl.
    assert (i <> j) as Hij by (intros ->; apply Hne; by eapply vector_index_inj).
    rewrite (aget_aset_ne _ _ _ _ _ Hfs2 Hij). simpl. by rewrite (aget_aset_ne _ _ _ _ _ Hfs Hij). }
  split; [|split; [done|split]].
  - unfold line. rewrite He1, Hs1, Z.eqb_refl, decide_True by done. unfold INT_vect. rewrite Hv. simpl.
    by rewrite (aget_aset_eq _ _ _ _ Hfs).
  - unfold line. rewrite Hs2, Hs1, decide_True by done. unfold INT_vect. rewrite Hv. simpl.
    by rewrite (aget_aset_eq _ _ _ _ Hfs2), Hen2, Z.eqb_refl by lia.
  - intros m Hm Hne. destruct (Hint m Hm Hne) as [Hi1 Hi2]. unfold line.
    rewrite Hi1, Hi2, Hs2, Hs1, decide_False, He1, (proj2 (Z.eqb_neq _ _) Hne) by done. split; [done|].
    f_equal. f_equal. rewrite Hen2, He1, (proj2 (Z.eqb_neq _ _) Hne) by lia. done.
Qed.

Lemma attach_detach_spec_witness :
  exists n s1 s2, line_of 0 = Some n /\
    attachInterrupt 0 tt 3 (mkState (replicate 8 None) (fun _ => 0)) = Some s1 /\
    line n s1 = (true, 3, Some (Some tt)) /\
    detachInterrupt 0 s1 = Some s2 /\ line n s2 = (false, 3, Some None) /\
    (forall m, 0 <= m < 8 -> m <> n -> line m s1 = line m (mkState (replicate 8 None) (fun _ => 0)) /\
       line m s2 = line m (mkState (replicate 8 None) (fun _ => 0))).
Proof. apply (attach_detach_spec 0 tt 3 (mkState (replicate 8 None) (fun _ => 0))); [lia|lia|reflexivity]. Defined.

End Interrupts.
