(* ===== verification/ShiftPulse.v ===== *)
(** * Shift registers and pulses (wiring_shift.c, wiring_pulse.c)

    [shiftOut] and [shiftIn] on top of the pin functions, and [pulseIn]. [shiftOut] yields the
    register files its writes go through, [shiftIn] and [pulseIn] take what the input registers
    hold at each read. *)

From S2P Require Import Prelude.
From S2P Require Import Avr.
From S2P Require Import Digital.
From Stdlib Require Import Lia ZArith.
From stdpp Require Import list.
Import Digital.

#[local] Open Scope Z_scope.

Module ShiftPulse.

Definition LSBFIRST := 0.
Definition MSBFIRST := 1.

(** ** wiring_shift.c *)

(** The loop of [shiftOut] from bit [i]: three writes a bit. *)
Fixpoint shiftOut_loop (n : nat) (i dataPin clockPin bitOrder val : Z) (R : regfile)
  : option (list regfile) :=
  match n with
  | O => Some []
  | S n' =>
      let k := if bitOrder =? LSBFIRST then i else 7 - i in
      R1 ← digitalWrite dataPin (if negb (Z.land val (Z.shiftl 1 k) =? 0) then 1 else 0) R;
      R2 ← digitalWrite clockPin HIGH R1;
      R3 ← digitalWrite clockPin LOW R2;
      rest ← shiftOut_loop n' (i + 1) dataPin clockPin bitOrder val R3;
      Some (R1 :: R2 :: R3 :: rest)
  end.
Definition shiftOut (dataPin clockPin bitOrder val : Z) (R : regfile) : option (list regfile) :=
  shiftOut_loop 8 0 dataPin clockPin bitOrder val R.

(** The environment sets the input registers. *)
Definition with_inputs (ins : port -> Z) (R : regfile) : regfile :=
  fun r => match r with PIN p => ins p | _ => R r end.

Fixpoint shiftIn_loop (inputs : list (port -> Z)) (i dataPin clockPin bitOrder value : Z) (R : regfile)
  : option (regfile * Z) :=
  match inputs with
  | [] => Some (R, value)
  | ins :: inputs' =>
      R ← digitalWrite clockPin HIGH R;
      '(R, b) ← digitalRead dataPin (with_inputs ins R);
      let value := u8 (Z.lor value (Z.shiftl b (if bitOrder =? LSBFIRST then i else 7 - i))) in
      R ← digitalWrite clockPin LOW R;
      shiftIn_loop inputs' (i + 1) dataPin clockPin bitOrder value R
  end.

(** [inputs] are the eight states of the input registers at the reads. *)
Definition shiftIn (dataPin clockPin bitOrder : Z) (inputs : list (port -> Z)) (R : regfile)
  : option (regfile * Z) := shiftIn_loop (take 8 inputs) 0 dataPin clockPin bitOrder 0 R.

(** ** wiring_pulse.c *)

Definition clockCyclesPerMicrosecond := 16.

(** The first two loops, [while ((input & bit) == stateMask) if (numloops++ == maxloops)
    return 0;] and the same with [!=]: [Ok None] is the return, otherwise the count and the readings that are left. *)
Fixpoint wait_while (want : bool) (bit stateMask maxloops : Z) (readings : list Z) (numloops : Z)
  : res (option (Z * list Z)) :=
  match readings with
  | [] => Hang
  | r :: readings' =>
      if Bool.eqb (Z.land r bit =? stateMask) want then
        if numloops =? maxloops then Ok None
        else wait_while want bit stateMask maxloops readings' (u32 (numloops + 1))
      else Ok (Some (numloops, readings'))
  end.

(** The measuring loop, which counts the width as well. *)
Fixpoint measure (bit stateMask maxloops : Z) (readings : list Z) (numloops width : Z) : res (option Z) :=
  match readings with
  | [] => Hang
  | r :: readings' =>
      if Z.land r bit =? stateMask then
        if numloops =? maxloops then Ok None
        else measure bit stateMask maxloops readings' (u32 (numloops + 1)) (u32 (width + 1))
      else Ok (Some width)
  end.

Definition pulseIn (pin state timeout : Z) (readings : list Z) : res Z :=
  bit ← lift (digitalPinToBitMask pin);
  p ← lift (digitalPinToPort pin);
  _ ← lift (portInputRegister p);
  let stateMask := if negb (state =? 0) then bit else 0 in
  let maxloops := u32 (timeout * clockCyclesPerMicrosecond) / 16 in
  r ← wait_while true bit stateMask maxloops readings 0;
  match r with
  | None => Ok 0
  | Some (numloops, readings) =>
      r ← wait_while false bit stateMask maxloops readings numloops;
      match r with
      | None => Ok 0
      | Some (numloops, readings) =>
          r ← measure bit stateMask maxloops readings numloops 0;
          match r with
          | None => Ok 0
          | Some width => Ok (u32 (width * 21 + 16) / clockCyclesPerMicrosecond)
          end
      end
  end.

(** ** Shifting *)

(** The bit of [val] that is sent or received in step [i]. *)
Definition order_bit (bitOrder i : Z) : Z := if bitOrder =? LSBFIRST then i else 7 - i.

Lemma test_bit val k : 0 <= k ->
  negb ((if negb (Z.land val (Z.shiftl 1 k) =? 0) then 1 else 0) =? LOW) = Z.testbit val k.
Proof.
  intros Hk. rewrite Z.shiftl_1_l. destruct (Z.eqb_spec (Z.land val (2 ^ k)) 0) as [E|E]; simpl.
  - symmetry. rewrite <- (andb_true_r (Z.testbit val k)), <- (Z.pow2_bits_true k Hk), <- Z.land_spec, E.
    apply Z.testbit_0_l.
  - symmetry. destruct (Z.testbit val k) eqn:Eb; [done|]. exfalso. apply E, Z.bits_inj'. intros i Hi.
    rewrite Z.land_spec, Z.testbit_0_l, Z.pow2_bits_eqb by done.
    destruct (Z.eqb_spec k i) as [->|]; [by rewrite Eb|by rewrite andb_false_r].
Qed.

(** A write sets the level of its pin and keeps that of the other. *)
Lemma write_levels p q val R :
  0 <= p < 48 -> 0 <= q < 48 -> p <> q ->
  exists R', digitalWrite p val R = Some R' /\ pin_level p R' = Some (negb (val =? LOW)) /\
    pin_level q R' = pin_level q R.
Proof.
  intros Hp Hq Hne. destruct (digitalWrite_effect p val R Hp) as (R' & pt & Hpt & Hw & Hbits & Hoth).
  exists R'. split; [done|]. pose proof (pin_bit_range p). pose proof (pin_bit_range q). split.
  - unfold pin_level. rewrite Hpt. simpl. by rewrite Hbits, Z.eqb_refl by done.
  - unfold pin_level. destruct (pin_port q) as [qt|] eqn:Hqt; [|done]. simpl. f_equal.
    destruct (decide (qt = pt)) as [->|Hpq].
    + rewrite Hbits by done. destruct (Z.eqb_spec (pin_bit q) (pin_bit p)) as [E|]; [|done].
      exfalso. apply Hne. apply pins_distinct; congruence.
    + rewrite Hoth by congruence. destruct (pin_pwm p) as [[t n]|] eqn:Hpw; [|done].
      rewrite rcbi_other; [done|]. apply pin_pwm_timer in Hpw as [Ht _]. intros <-. by destruct (Ht qt).
Qed.

Lemma shiftOut_levels d c order val : 0 <= d < 48 -> 0 <= c < 48 -> d <> c -> forall n i R,
  0 <= i -> i + Z.of_nat n = 8 -> pin_level c R = Some false ->
  exists trace, shiftOut_loop n i d c order val R = Some trace /\
    map (fun R => (pin_level c R, pin_level d R)) trace
    = seqZ i (Z.of_nat n) ≫= fun j => let b := Some (Z.testbit val (order_bit order j)) in
        [(Some false, b); (Some true, b); (Some false, b)].
Proof.
  intros Hd Hc Hne. induction n as [|n IH]; intros i R Hi Hn HcR; [by exists []|].
  simpl shiftOut_loop. fold (order_bit order i).
  assert (0 <= order_bit order i) as Hk by (unfold order_bit; destruct (_ =? _); lia).
  destruct (write_levels d c (if negb (Z.land val (Z.shiftl 1 (order_bit order i)) =? 0) then 1 else 0) R)
    as (R1 & -> & Hd1 & Hc1); [done..|]. simpl.
  rewrite test_bit in Hd1 by done.
  destruct (write_levels c d HIGH R1) as (R2 & -> & Hc2 & Hd2); [done..|]. simpl.
  destruct (write_levels c d LOW R2) as (R3 & -> & Hc3 & Hd3); [done..|]. simpl.
  destruct (IH (i + 1) R3) as (trace & -> & Ht); [lia|lia|done|]. simpl.
  exists (R1 :: R2 :: R3 :: trace). split; [done|]. rewrite seqZ_cons by lia.
  replace (Z.succ i) with (i + 1) by lia. replace (Z.pred (Z.of_nat (S n))) with (Z.of_nat n) by lia.
  simpl. by rewrite Ht, Hc1, HcR, Hd3, Hd2, Hd1, Hc2, Hc3.
Qed.

(** [digitalRead] on a pin of the board. *)
Lemma read_level p R :
  0 <= p < 48 ->
  exists R' pt, pin_port p = Some pt /\
    digitalRead p R = Some (R', if Z.testbit (R (PIN pt)) (pin_bit p) then HIGH else LOW).
Proof.
  intros Hp. destruct (pin_tables p Hp) as (q & t & pt & Hq & Hn & Hb & Ht & Hpt & _ & _ & Hin & Hpwm).
  eexists _, pt. split; [done|]. unfold digitalRead. rewrite Hq, Hb, Ht. simpl. rewrite Hn, Hin. simpl.
  rewrite Hpwm. f_equal. f_equal.
  assert ((match pin_pwm p with Some (r, n) => rcbi r n R | None => R end) (PIN pt) = R (PIN pt)) as ->.
  { destruct (pin_pwm p) as [[r n]|] eqn:E; [|done]. apply rcbi_other. unfold pin_pwm in E.
    repeat case_match; by simplify_eq. }
  pose proof (test_bit (R (PIN pt)) (pin_bit p) ltac:(pose proof (pin_bit_range p); lia)) as Htb.
  unfold BV. destruct (Z.land _ _ =? 0); simpl in *; by rewrite <- Htb.
Qed.

(** The level a pin reads in a state of the input registers. *)
Definition input_level (p : Z) (ins : port -> Z) : bool :=
  match pin_port p with Some pt => Z.testbit (ins pt) (pin_bit p) | None => false end.

Lemma shiftIn_bits d c order : 0 <= d < 48 -> 0 <= c < 48 -> forall inputs i value R,
  0 <= i -> i + Z.of_nat (length inputs) <= 8 -> is_u8 value ->
  exists R' v, shiftIn_loop inputs i d c order value R = Some (R', v) /\ is_u8 v /\
    forall m, 0 <= m < 8 -> Z.testbit v m =
      match inputs !! Z.to_nat (order_bit order m - i) with
      | Some ins => if i <=? order_bit order m then Z.testbit value m || input_level d ins else Z.testbit value m
      | None => Z.testbit value m
      end.
Proof.
  intros Hd Hc. induction inputs as [|ins inputs IH]; intros i value R Hi Hl Hv.
  { exists R, value. split; [done|]. split; [done|]. intros m Hm. done. }
  simpl. destruct (digitalWrite_effect c HIGH R Hc) as (R1 & ? & _ & -> & _). simpl.
  destruct (read_level d (with_inputs ins R1) Hd) as (R2 & pt & Hpt & ->). simpl.
  set (b := Z.testbit (ins pt) (pin_bit d)).
  destruct (digitalWrite_effect c LOW R2 Hc) as (R3 & ? & _ & -> & _). simpl. fold (order_bit order i).
  set (value1 := u8 _). destruct (IH (i + 1) value1 R3) as (R' & v & Hr & Hu & Hb); try lia.
  { simpl in Hl. lia. } { apply u8_range. }
  exists R', v. split; [done|]. split; [done|]. intros m Hm. rewrite Hb by done.
  assert (0 <= order_bit order i < 8) as Hoi by (simpl in Hl; unfold order_bit; destruct (_ =? _); lia).
  assert (Z.testbit value1 m = Z.testbit value m || ((m =? order_bit order i) && b)) as Hv1.
  { unfold value1. rewrite u8_testbit, (proj2 (Z.ltb_lt _ _)), Z.lor_spec by lia. simpl. f_equal.
    destruct b; unfold HIGH, LOW; [fold (BV (order_bit order i)); rewrite (BV_testbit (order_bit order i) m) by lia; by rewrite andb_true_r|].
    rewrite Z.shiftl_0_l, Z.testbit_0_l, andb_false_r. done. }
  assert (m = order_bit order i <-> order_bit order m = i) as Hinv
    by (unfold order_bit; destruct (order =? LSBFIRST); lia).
  rewrite Hv1. destruct (Z.eqb_spec m (order_bit order i)) as [E|E].
  - rewrite (proj1 Hinv E). replace (i - (i + 1)) with (-1) by lia. rewrite Z.sub_diag, Z.leb_refl. simpl.
    assert (input_level d ins = b) as -> by (unfold input_level; by rewrite Hpt).
    change (Z.to_nat (-1)) with 0%nat. rewrite (proj2 (Z.leb_gt (i + 1) i)) by lia.
    by destruct (inputs !! 0%nat).
  - rewrite andb_false_l, orb_false_r. assert (order_bit order m <> i) as Hne by tauto.
    destruct (Z.leb_spec i (order_bit order m)) as [Hge|Hlt].
    + rewrite (proj2 (Z.leb_le (i + 1) _)) by lia.
      replace (Z.to_nat (order_bit order m - i)) with (S (Z.to_nat (order_bit order m - (i + 1)))) by lia. done.
    + rewrite (proj2 (Z.leb_gt (i + 1) _)) by lia.
      destruct (inputs !! _), ((ins :: inputs) !! Z.to_nat (order_bit order m - i)); done.
Qed.


(** With the clock low at the start, [shiftOut] drives eight clock pulses; before each one
    the data pin is set to the next bit of the value in the requested order and stays there
    until the clock is low again. [shiftIn] with the same order, fed with the levels that were
    on the data pin while the clock was high, returns the value. *)
Theorem shift_roundtrip d c order val R Rin inputs :
  0 <= d < 48 -> 0 <= c < 48 -> d <> c -> is_u8 val -> pin_level c R = Some false ->
  length inputs = 8%nat ->
  exists trace, shiftOut d c order val R = Some trace /\
    map (fun R => (pin_level c R, pin_level d R)) trace
    = seqZ 0 8 ≫= (fun j => let b := Some (Z.testbit val (order_bit order j)) in
        [(Some false, b); (Some true, b); (Some false, b)]) /\
    ((forall j ins, inputs !! j = Some ins ->
        (fun R => pin_level d R) <$> trace !! (3 * j + 1)%nat = Some (Some (input_level d ins))) ->
     exists R', shiftIn d c order inputs Rin = Some (R', val)).
Proof.
  intros Hd Hc Hne Hval HcR Hlen.
  destruct (shiftOut_levels d c order val Hd Hc Hne 8 0 R) as (trace & Hs & Ht); [lia|done|done|].
  exists trace. split; [done|]. split; [done|]. intros Hin.
  destruct (shiftIn_bits d c order Hd Hc (take 8 inputs) 0 0 Rin) as (R' & v & Hr & Hu & Hb).
  { lia. } { rewrite length_take. lia. } { done. }
  exists R'. unfold shiftIn. rewrite Hr. do 2 f_equal. apply Z.bits_inj'. intros m Hm.
  destruct (Z.lt_ge_cases m 8) as [Hlt|Hge].
  2: { rewrite (testbit_high v 8), (testbit_high val 8) by (unfold is_u8 in *; lia). done. }
  rewrite Hb by lia. assert (0 <= order_bit order m < 8) as Ho by (unfold order_bit; destruct (_ =? _); lia).
  rewrite Z.sub_0_r, take_ge by lia.
  destruct (lookup_lt_is_Some_2 inputs (Z.to_nat (order_bit order m))) as [ins Hi]; [lia|].
  rewrite Hi, (proj2 (Z.leb_le _ _)), Z.testbit_0_l by lia. simpl.
  specialize (Hin _ _ Hi).
  assert ((fun R => (pin_level c R, pin_level d R)) <$> trace !! (3 * Z.to_nat (order_bit order m) + 1)%nat
    = Some (Some true, Some (Z.testbit val m))) as Hlv.
  { rewrite <- list_lookup_fmap. change (fmap ?f trace) with (map f trace). rewrite Ht.
    assert (order_bit order (order_bit order m) = m) as Hoo by (unfold order_bit; destruct (order =? LSBFIRST); lia).
    rewrite <- Hoo at 2. clear -Ho. set (k := order_bit order m) in *. clearbody k.
    assert (k = 0 \/ k = 1 \/ k = 2 \/ k = 3 \/ k = 4 \/ k = 5 \/ k = 6 \/ k = 7) as Hk by lia.
    by destruct Hk as [->|[->|[->|[->|[->|[->|[->| ->]]]]]]]. }
  destruct (trace !! _) as [Rj|]; [|done]. simpl in *. congruence.
Qed.

(** ** Pulses *)

Lemma wait_terminates want bit mask maxloops : maxloops < 4294967295 -> forall readings numloops c,
  0 <= numloops <= maxloops -> maxloops - numloops + 1 + Z.of_nat c <= Z.of_nat (length readings) ->
  wait_while want bit mask maxloops readings numloops = Ok None \/
  exists n rest, wait_while want bit mask maxloops readings numloops = Ok (Some (n, rest)) /\
    0 <= n <= maxloops /\ maxloops - n + Z.of_nat c <= Z.of_nat (length rest).
Proof.
  intros Hmax. induction readings as [|r rs IH]; intros numloops c Hn Hl; simpl in Hl; [lia|].
  simpl. destruct (Bool.eqb _ want).
  - destruct (Z.eqb_spec numloops maxloops); [by left|].
    rewrite u32_small by (unfold is_u32; lia). apply IH; lia.
  - right. exists numloops, rs. split; [done|]. lia.
Qed.

Lemma measure_terminates bit mask maxloops : maxloops < 4294967295 -> forall readings numloops width,
  0 <= numloops <= maxloops -> maxloops - numloops + 1 <= Z.of_nat (length readings) ->
  exists r, measure bit mask maxloops readings numloops width = Ok r.
Proof.
  intros Hmax. induction readings as [|r rs IH]; intros numloops width Hn Hl; simpl in Hl; [lia|].
  simpl. destruct (_ =? mask); [|by eexists]. destruct (Z.eqb_spec numloops maxloops); [by eexists|].
  rewrite u32_small by (unfold is_u32; lia). apply IH; lia.
Qed.

(** A run of readings with the pin in the state ([want]) or not in it. *)
Definition run_of (want : bool) (bit mask : Z) (rs : list Z) : Prop :=
  Forall (fun r => Bool.eqb (Z.land r bit =? mask) want = true) rs.

Lemma wait_run want bit mask maxloops : maxloops < 4294967295 -> forall rs last rest numloops,
  run_of want bit mask rs -> run_of (negb want) bit mask [last] ->
  0 <= numloops -> numloops + Z.of_nat (length rs) <= maxloops ->
  wait_while want bit mask maxloops (rs ++ last :: rest) numloops
  = Ok (Some (numloops + Z.of_nat (length rs), rest)).
Proof.
  intros Hmax. induction rs as [|r rs IH]; intros last rest numloops Hr Hlast H0 Hn; simpl in *.
  - apply Forall_cons_iff in Hlast as [Hlast _]. rewrite Z.add_0_r.
    by destruct (_ =? mask), want.
  - apply Forall_cons_iff in Hr as [Hr Hrs]. rewrite Hr, (proj2 (Z.eqb_neq _ _)) by lia.
    rewrite u32_small by (unfold is_u32; lia). rewrite IH by (done || lia). do 3 f_equal. lia.
Qed.

Lemma measure_run bit mask maxloops : maxloops < 4294967295 -> forall rs last rest numloops width,
  run_of true bit mask rs -> run_of false bit mask [last] ->
  0 <= numloops -> 0 <= width <= numloops -> numloops + Z.of_nat (length rs) <= maxloops ->
  measure bit mask maxloops (rs ++ last :: rest) numloops width = Ok (Some (width + Z.of_nat (length rs))).
Proof.
  intros Hmax. induction rs as [|r rs IH]; intros last rest numloops width Hr Hlast H0 Hw Hn; simpl in *.
  - apply Forall_cons_iff in Hlast as [Hlast _]. rewrite Z.add_0_r. by destruct (_ =? mask).
  - apply Forall_cons_iff in Hr as [Hr Hrs]. apply eqb_prop in Hr. rewrite Hr, (proj2 (Z.eqb_neq _ _)) by lia.
    rewrite !u32_small by (unfold is_u32; lia). rewrite IH by (done || lia). do 2 f_equal. lia.
Qed.

(** The mask of the pin in the requested state. *)
Definition state_mask (pin state : Z) : Z := if negb (state =? 0) then BV (pin_bit pin) else 0.
Definition max_loops (timeout : Z) : Z := u32 (timeout * clockCyclesPerMicrosecond) / 16.

Lemma max_loops_range timeout : 0 <= max_loops timeout < 4294967295.
Proof. unfold max_loops. words. Qed.

(** [pulseIn] always comes back: after at most [timeout] microseconds' worth of polls (and
    four more) whatever the pin does. If the rest of a pulse, a pause and a complete pulse are
    seen within the limit, it returns the length of the complete one at 21 cycles a poll. *)
Theorem pulseIn_spec pin state timeout :
  0 <= pin < 48 ->
  (forall readings, max_loops timeout + 4 <= Z.of_nat (length readings) ->
     exists us, pulseIn pin state timeout readings = Ok us) /\
  (forall old pause pulse e1 e2 e3 rest,
     let bit := BV (pin_bit pin) in let mask := state_mask pin state in
     run_of true bit mask (old ++ e2 :: pulse) -> run_of false bit mask (e1 :: pause ++ [e3]) ->
     Z.of_nat (length old + length pause + length pulse) <= max_loops timeout ->
     pulseIn pin state timeout (old ++ e1 :: pause ++ e2 :: pulse ++ e3 :: rest)
     = Ok (u32 (Z.of_nat (length pulse) * 21 + 16) / clockCyclesPerMicrosecond)).
Proof.
  intros Hpin. destruct (pin_tables pin Hpin) as (p & t & pt & Hp & _ & Hb & _ & _ & _ & _ & Hi & _).
  pose proof (max_loops_range timeout) as Hm. split.
  - intros readings Hl. unfold pulseIn. rewrite Hb, Hp. simpl. rewrite Hi. simpl. fold (max_loops timeout).
    fold (state_mask pin state).
    destruct (wait_terminates true (BV (pin_bit pin)) (state_mask pin state) (max_loops timeout) ltac:(lia) readings 0 3)
      as [-> | (n1 & rest1 & -> & Hn1 & Hl1)]; [lia|lia|by eexists|]. simpl.
    destruct (wait_terminates false (BV (pin_bit pin)) (state_mask pin state) (max_loops timeout) ltac:(lia) rest1 n1 2)
      as [-> | (n2 & rest2 & -> & Hn2 & Hl2)]; [lia|lia|by eexists|]. simpl.
    destruct (measure_terminates (BV (pin_bit pin)) (state_mask pin state) (max_loops timeout) ltac:(lia) rest2 n2 0)
      as [[w|] ->]; [lia|lia|by eexists|by eexists].
  - intros old pause pulse e1 e2 e3 rest bit mask Hst Hns Hl.
    apply Forall_app in Hst as [Hold Hpulse]. apply Forall_cons_iff in Hpulse as [He2 Hpulse].
    apply Forall_cons_iff in Hns as [He1 Hns]. apply Forall_app in Hns as [Hpause He3].
    unfold pulseIn. rewrite Hb, Hp. simpl. rewrite Hi. simpl. fold (max_loops timeout).
    fold (state_mask pin state). fold mask. fold bit.
    rewrite wait_run; [|lia|done|by constructor|lia|lia]. simpl.
    rewrite wait_run; [|lia|done|by constructor|lia|lia]. simpl.
    rewrite measure_run; [done|lia|done|done|lia|lia|lia].
Qed.

(** *** Witnesses *)

Definition w_inputs : list (port -> Z) := map (fun b : bool => fun _ : port => if b then 255 else 0)
  [true; false; true; false; false; true; false; true].

Lemma shift_roundtrip_witness :
  exists trace, shiftOut 8 9 MSBFIRST 165 (fun _ => 0) = Some trace /\
    map (fun R => (pin_level 9 R, pin_level 8 R)) trace
    = seqZ 0 8 ≫= (fun j => let b := Some (Z.testbit 165 (order_bit MSBFIRST j)) in
        [(Some false, b); (Some true, b); (Some false, b)]).
Proof.
  destruct (shift_roundtrip 8 9 MSBFIRST 165 (fun _ => 0) (fun _ => 0) w_inputs)
    as (trace & Ht & Hl & Hin).
  - lia.
  - lia.
  - lia.
  - unfold is_u8; lia.
  - reflexivity.
  - reflexivity.
  - exists trace. split; [exact Ht|exact Hl].
Defined.

Example shiftIn_example :
  option_map snd (shiftIn 8 9 MSBFIRST w_inputs (fun _ => 0)) = Some 165.
Proof. vm_compute. reflexivity. Qed.

Lemma pulseIn_spec_witness :
  pulseIn 8 1 1000 [1; 0; 0; 1; 1; 1; 1; 0] = Ok (u32 (Z.of_nat 3 * 21 + 16) / clockCyclesPerMicrosecond).
Proof.
  apply (proj2 (pulseIn_spec 8 1 1000 ltac:(lia)) [1] [0] [1; 1; 1] 0 1 0 []).
  - repeat constructor.
  - repeat constructor.
  - vm_compute. discriminate.
Defined.
End ShiftPulse.
