(* ===== verification/Twi.v ===== *)
(** * Two-wire interface driver (libraries/Wire/utility/twi.c)

    The driver's variables and the TWI registers as one record, every function of the file, and
    the interrupt handler as a function of the bus event that raised it. The busy-wait loops of
    [twi_readFrom] and [twi_writeTo] take the events that the handler serves meanwhile; a loop
    whose events run out is [Hang], an access outside a buffer is [Fault]. The user callbacks
    are not part of the repository's C code and are parameters. *)

From S2P Require Import Prelude.
From S2P Require Import Avr.
From S2P Require Import Digital.
From stdpp Require Import relations.
From Stdlib Require Import Lia ZArith.
Import Digital.

#[local] Open Scope Z_scope.

Module Twi.

Definition TWI_BUFFER_LENGTH := 32.
Definition TWI_READY := 0.
Definition TWI_MRX := 1.
Definition TWI_MTX := 2.
Definition TWI_SRX := 3.
Definition TWI_STX := 4.
Definition TW_READ := 1.
Definition TW_WRITE := 0.

(** Bit numbers of TWCR. *)
Definition TWINT := 7.
Definition TWEA := 6.
Definition TWSTA := 5.
Definition TWSTO := 4.
Definition TWEN := 2.
Definition TWIE := 0.

(** Status codes: the constants of [<compat/twi.h>]. *)
Inductive status :=
| TW_START | TW_REP_START
| TW_MT_SLA_ACK | TW_MT_SLA_NACK | TW_MT_DATA_ACK | TW_MT_DATA_NACK | TW_MT_ARB_LOST
| TW_MR_SLA_ACK | TW_MR_SLA_NACK | TW_MR_DATA_ACK | TW_MR_DATA_NACK
| TW_ST_SLA_ACK | TW_ST_ARB_LOST_SLA_ACK | TW_ST_DATA_ACK | TW_ST_DATA_NACK | TW_ST_LAST_DATA
| TW_SR_SLA_ACK | TW_SR_ARB_LOST_SLA_ACK | TW_SR_GCALL_ACK | TW_SR_ARB_LOST_GCALL_ACK
| TW_SR_DATA_ACK | TW_SR_DATA_NACK | TW_SR_GCALL_DATA_ACK | TW_SR_GCALL_DATA_NACK | TW_SR_STOP
| TW_NO_INFO | TW_BUS_ERROR.

Definition tw_code (s : status) : Z :=
  match s with
  | TW_START => 8 | TW_REP_START => 16
  | TW_MT_SLA_ACK => 24 | TW_MT_SLA_NACK => 32 | TW_MT_DATA_ACK => 40 | TW_MT_DATA_NACK => 48
  | TW_MT_ARB_LOST => 56
  | TW_MR_SLA_ACK => 64 | TW_MR_SLA_NACK => 72 | TW_MR_DATA_ACK => 80 | TW_MR_DATA_NACK => 88
  | TW_SR_SLA_ACK => 96 | TW_SR_ARB_LOST_SLA_ACK => 104 | TW_SR_GCALL_ACK => 112
  | TW_SR_ARB_LOST_GCALL_ACK => 120 | TW_SR_DATA_ACK => 128 | TW_SR_DATA_NACK => 136
  | TW_SR_GCALL_DATA_ACK => 144 | TW_SR_GCALL_DATA_NACK => 152 | TW_SR_STOP => 160
  | TW_ST_SLA_ACK => 168 | TW_ST_ARB_LOST_SLA_ACK => 176 | TW_ST_DATA_ACK => 184
  | TW_ST_DATA_NACK => 192 | TW_ST_LAST_DATA => 200
  | TW_NO_INFO => 248 | TW_BUS_ERROR => 0
  end.

(** [TW_STATUS] is the status field of TWSR without the prescaler bits; a code that is none of
    the constants has no case in the handler. *)
Definition all_statuses : list status :=
  [TW_START; TW_REP_START; TW_MT_SLA_ACK; TW_MT_SLA_NACK; TW_MT_DATA_ACK; TW_MT_DATA_NACK;
   TW_MT_ARB_LOST; TW_MR_SLA_ACK; TW_MR_SLA_NACK; TW_MR_DATA_ACK; TW_MR_DATA_NACK;
   TW_ST_SLA_ACK; TW_ST_ARB_LOST_SLA_ACK; TW_ST_DATA_ACK; TW_ST_DATA_NACK; TW_ST_LAST_DATA;
   TW_SR_SLA_ACK; TW_SR_ARB_LOST_SLA_ACK; TW_SR_GCALL_ACK; TW_SR_ARB_LOST_GCALL_ACK;
   TW_SR_DATA_ACK; TW_SR_DATA_NACK; TW_SR_GCALL_DATA_ACK; TW_SR_GCALL_DATA_NACK; TW_SR_STOP;
   TW_NO_INFO; TW_BUS_ERROR].
Definition tw_decode (twsr : Z) : option status :=
  find (fun s => Z.land twsr 248 =? tw_code s) all_statuses.

(** The static variables of twi.c and the TWI registers. *)
Record twi := mkTwi {
  twi_state : Z; twi_slarw : Z; twi_sendStop : Z; twi_inRepStart : Z;
  twi_onSlaveTransmit : Z; twi_onSlaveReceive : Z;
  twi_masterBuffer : list Z; twi_masterBufferIndex : Z; twi_masterBufferLength : Z;
  twi_txBuffer : list Z; twi_txBufferIndex : Z; twi_txBufferLength : Z;
  twi_rxBuffer : list Z; twi_rxBufferIndex : Z;
  twi_error : Z;
  TWSR : Z; TWBR : Z; TWAR : Z; TWDR : Z; TWCR : Z }.
#[export] Instance eta_twi : Eta twi :=
  {| eta t := mkTwi (twi_state t) (twi_slarw t) (twi_sendStop t) (twi_inRepStart t)
       (twi_onSlaveTransmit t) (twi_onSlaveReceive t)
       (twi_masterBuffer t) (twi_masterBufferIndex t) (twi_masterBufferLength t)
       (twi_txBuffer t) (twi_txBufferIndex t) (twi_txBufferLength t)
       (twi_rxBuffer t) (twi_rxBufferIndex t) (twi_error t)
       (TWSR t) (TWBR t) (TWAR t) (TWDR t) (TWCR t);
     eta_id := ltac:(by intros []) |}.

(** [_BV(a) | _BV(b) | ...] *)
Definition bits (l : list Z) : Z := foldr (fun b acc => Z.lor (BV b) acc) 0 l.

Definition F_CPU := 16000000.
Definition TWI_FREQ := 100000.
Definition SDA := 25.
Definition SCL := 24.

Definition twi_init (R : regfile) (t : twi) : option (regfile * twi) :=
  let t := t <| twi_state := TWI_READY |> <| twi_sendStop := 1 |> <| twi_inRepStart := 0 |> in
  R ← digitalWrite SDA 1 R;
  R ← digitalWrite SCL 1 R;
  let t := t <| TWSR ::= fun r => cbi r 0 |> <| TWSR ::= fun r => cbi r 1 |>
             <| TWBR := u8 ((F_CPU / TWI_FREQ - 16) / 2) |>
             <| TWCR := bits [TWEN; TWIE; TWEA] |> in
  Some (R, t).

Definition twi_setAddress (address : Z) (t : twi) : twi :=
  t <| TWAR := u8 (Z.shiftl address 1) |>.
Definition twi_attachSlaveRxEvent (f : Z) (t : twi) : twi := t <| twi_onSlaveReceive := f |>.
Definition twi_attachSlaveTxEvent (f : Z) (t : twi) : twi := t <| twi_onSlaveTransmit := f |>.

Definition twi_transmit (data : list Z) (length : Z) (t : twi) : res (twi * Z) :=
  if TWI_BUFFER_LENGTH <? length then Ok (t, 1)
  else if negb (TWI_STX =? twi_state t) then Ok (t, 2)
  else
    let t := t <| twi_txBufferLength := length |> in
    b ← lift (copy_loop (Z.to_nat length) (twi_txBuffer t) data);
    Ok (t <| twi_txBuffer := b |>, 0).

Definition twi_reply (ack : bool) (t : twi) : twi :=
  if ack then t <| TWCR := bits [TWEN; TWIE; TWINT; TWEA] |>
  else t <| TWCR := bits [TWEN; TWIE; TWINT] |>.

(** [reads] are the polls of TWSTO; the hardware has cleared the bit when one reads 0. *)
Definition twi_stop (reads : list bool) (t : twi) : res twi :=
  let t := t <| TWCR := bits [TWEN; TWIE; TWEA; TWINT; TWSTO] |> in
  _ ← poll reads;
  let t := t <| TWCR ::= fun r => cbi r TWSTO |> in
  Ok (t <| twi_state := TWI_READY |>).

Definition twi_releaseBus (t : twi) : twi :=
  t <| TWCR := bits [TWEN; TWIE; TWEA; TWINT] |> <| twi_state := TWI_READY |>.

(** A bus event: the status and data the hardware presents, and the TWSTO polls if any. *)
Record event := mkEvent { ev_status : status; ev_data : Z; ev_reads : list bool }.

Section Driver.
(** [W] is the application's state; the callbacks get the function pointer registered with
    the driver, and may call back into it. *)
Context {W : Type}.
Variable tx_callback : Z -> W -> twi -> res (W * twi).
Variable rx_callback : Z -> list Z -> Z -> W -> twi -> res (W * twi).

(** [twi_masterBuffer[twi_masterBufferIndex++] = TWDR] *)
Definition store_master (t : twi) : res twi :=
  b ← lift (aset (twi_masterBuffer t) (twi_masterBufferIndex t) (TWDR t));
  Ok (t <| twi_masterBuffer := b |> <| twi_masterBufferIndex ::= fun i => u8 (i + 1) |>).

(** End of a master transaction: a STOP, or a START without interrupt for the next one. *)
Definition master_end (reads : list bool) (t : twi) : res twi :=
  if negb (twi_sendStop t =? 0) then twi_stop reads t
  else Ok (t <| twi_inRepStart := 1 |> <| TWCR := bits [TWINT; TWSTA; TWEN] |>
             <| twi_state := TWI_READY |>).

Definition mr_sla_ack (t : twi) : twi :=
  if twi_masterBufferIndex t <? twi_masterBufferLength t then twi_reply true t
  else twi_reply false t.

Definition st_data_ack (t : twi) : res twi :=
  x ← lift (aget (twi_txBuffer t) (twi_txBufferIndex t));
  let t := t <| TWDR := x |> <| twi_txBufferIndex ::= fun i => u8 (i + 1) |> in
  Ok (if twi_txBufferIndex t <? twi_txBufferLength t then twi_reply true t
      else twi_reply false t).

(** The [switch] of [ISR(TWI_vect)]; [reads] are the polls of TWSTO. *)
Definition isr_body (s : status) (reads : list bool) (w : W) (t : twi) : res (W * twi) :=
  match s with
  | TW_START | TW_REP_START => Ok (w, twi_reply true (t <| TWDR := twi_slarw t |>))
  | TW_MT_SLA_ACK | TW_MT_DATA_ACK =>
      if twi_masterBufferIndex t <? twi_masterBufferLength t then
        x ← lift (aget (twi_masterBuffer t) (twi_masterBufferIndex t));
        Ok (w, twi_reply true (t <| TWDR := x |>
                                 <| twi_masterBufferIndex ::= fun i => u8 (i + 1) |>))
      else t ← master_end reads t; Ok (w, t)
  | TW_MT_SLA_NACK =>
      t ← twi_stop reads (t <| twi_error := tw_code TW_MT_SLA_NACK |>); Ok (w, t)
  | TW_MT_DATA_NACK =>
      t ← twi_stop reads (t <| twi_error := tw_code TW_MT_DATA_NACK |>); Ok (w, t)
  | TW_MT_ARB_LOST =>
      Ok (w, twi_releaseBus (t <| twi_error := tw_code TW_MT_ARB_LOST |>))
  | TW_MR_DATA_ACK => t ← store_master t; Ok (w, mr_sla_ack t)
  | TW_MR_SLA_ACK => Ok (w, mr_sla_ack t)
  | TW_MR_DATA_NACK => t ← store_master t; t ← master_end reads t; Ok (w, t)
  | TW_MR_SLA_NACK => t ← twi_stop reads t; Ok (w, t)
  | TW_SR_SLA_ACK | TW_SR_GCALL_ACK | TW_SR_ARB_LOST_SLA_ACK | TW_SR_ARB_LOST_GCALL_ACK =>
      Ok (w, twi_reply true (t <| twi_state := TWI_SRX |> <| twi_rxBufferIndex := 0 |>))
  | TW_SR_DATA_ACK | TW_SR_GCALL_DATA_ACK =>
      if twi_rxBufferIndex t <? TWI_BUFFER_LENGTH then
        b ← lift (aset (twi_rxBuffer t) (twi_rxBufferIndex t) (TWDR t));
        Ok (w, twi_reply true (t <| twi_rxBuffer := b |>
                                 <| twi_rxBufferIndex ::= fun i => u8 (i + 1) |>))
      else Ok (w, twi_reply false t)
  | TW_SR_STOP =>
      t ← (if twi_rxBufferIndex t <? TWI_BUFFER_LENGTH then
             b ← lift (aset (twi_rxBuffer t) (twi_rxBufferIndex t) 0);
             Ok (t <| twi_rxBuffer := b |>)
           else Ok t);
      t ← twi_stop reads t;
      '(w, t) ← rx_callback (twi_onSlaveReceive t) (twi_rxBuffer t) (twi_rxBufferIndex t) w t;
      Ok (w, twi_releaseBus (t <| twi_rxBufferIndex := 0 |>))
  | TW_SR_DATA_NACK | TW_SR_GCALL_DATA_NACK => Ok (w, twi_reply false t)
  | TW_ST_SLA_ACK | TW_ST_ARB_LOST_SLA_ACK =>
      let t := t <| twi_state := TWI_STX |> <| twi_txBufferIndex := 0 |>
                 <| twi_txBufferLength := 0 |> in
      '(w, t) ← tx_callback (twi_onSlaveTransmit t) w t;
      t ← (if 0 =? twi_txBufferLength t then
             b ← lift (aset (twi_txBuffer t) 0 0);
             Ok (t <| twi_txBufferLength := 1 |> <| twi_txBuffer := b |>)
           else Ok t);
      t ← st_data_ack t; Ok (w, t)
  | TW_ST_DATA_ACK => t ← st_data_ack t; Ok (w, t)
  | TW_ST_DATA_NACK | TW_ST_LAST_DATA =>
      Ok (w, (twi_reply true t) <| twi_state := TWI_READY |>)
  | TW_NO_INFO => Ok (w, t)
  | TW_BUS_ERROR =>
      t ← twi_stop reads (t <| twi_error := tw_code TW_BUS_ERROR |>); Ok (w, t)
  end.

(** The hardware latches status and data before it raises the interrupt. *)
Definition latch (e : event) (t : twi) : twi :=
  t <| TWSR ::= fun r => Z.lor (Z.land r 7) (tw_code (ev_status e)) |> <| TWDR := ev_data e |>.

Definition TWI_vect (e : event) (w : W) (t : twi) : res (W * twi) :=
  let t := latch e t in
  match tw_decode (TWSR t) with
  | Some s => isr_body s (ev_reads e) w t
  | None => Ok (w, t)
  end.

(** [while (cond) continue;] with the handler serving [evs] meanwhile. *)
Fixpoint spin (cond : twi -> bool) (evs : list event) (w : W) (t : twi)
  : res (W * twi * list event) :=
  if cond t then
    match evs with
    | [] => Hang
    | e :: evs' => '(w, t) ← TWI_vect e w t; spin cond evs' w t
    end
  else Ok (w, t, evs).

(** From the READY test to the START (or to the address, in a repeated start). *)
Definition master_start (state address rw length sendStop : Z) (t : twi) : twi :=
  let t := t <| twi_state := state |> <| twi_sendStop := sendStop |> <| twi_error := 255 |>
             <| twi_masterBufferIndex := 0 |> <| twi_masterBufferLength := u8 length |>
             <| twi_slarw := u8 (Z.lor rw (Z.shiftl address 1)) |> in
  if twi_inRepStart t =? 1 then
    t <| twi_inRepStart := 0 |> <| TWDR := twi_slarw t |>
      <| TWCR := bits [TWINT; TWEA; TWEN; TWIE] |>
  else t <| TWCR := bits [TWINT; TWEA; TWEN; TWIE; TWSTA] |>.

Definition twi_readFrom (address : Z) (data : list Z) (length sendStop : Z)
    (evs1 evs2 : list event) (w : W) (t : twi) : res (W * twi * list Z * Z) :=
  if TWI_BUFFER_LENGTH <? length then Ok (w, t, data, 0) else
  '(w, t, _) ← spin (fun t => negb (TWI_READY =? twi_state t)) evs1 w t;
  let t := master_start TWI_MRX address TW_READ (length - 1) sendStop t in
  '(w, t, _) ← spin (fun t => TWI_MRX =? twi_state t) evs2 w t;
  let length := if twi_masterBufferIndex t <? length then twi_masterBufferIndex t else length in
  data ← lift (copy_loop (Z.to_nat length) data (twi_masterBuffer t));
  Ok (w, t, data, length).

Definition twi_writeTo (address : Z) (data : list Z) (length wait sendStop : Z)
    (evs1 evs2 : list event) (w : W) (t : twi) : res (W * twi * Z) :=
  if TWI_BUFFER_LENGTH <? length then Ok (w, t, 1) else
  '(w, t, _) ← spin (fun t => negb (TWI_READY =? twi_state t)) evs1 w t;
  b ← lift (copy_loop (Z.to_nat length) (twi_masterBuffer t) data);
  let t := master_start TWI_MTX address TW_WRITE length sendStop (t <| twi_masterBuffer := b |>) in
  '(w, t, _) ← spin (fun t => negb (wait =? 0) && (TWI_MTX =? twi_state t)) evs2 w t;
  Ok (w, t,
      if twi_error t =? 255 then 0
      else if twi_error t =? tw_code TW_MT_SLA_NACK then 2
      else if twi_error t =? tw_code TW_MT_DATA_NACK then 3
      else 4).
End Driver.

(** ** Decoding *)

Lemma decode_latch e t : tw_decode (TWSR (latch e t)) = Some (ev_status e).
Proof.
  simpl. unfold tw_decode.
  assert (forall r c, Z.land c 7 = 0 -> Z.land c 248 = c ->
    Z.land (Z.lor (Z.land r 7) c) 248 = c) as Hl.
  { intros r c _ Hc. rewrite Z.land_lor_distr_l, <- Z.land_assoc. change (Z.land 7 248) with 0.
    by rewrite Z.land_0_r, Z.lor_0_l. }
  by destruct (ev_status e); rewrite Hl by done.
Qed.

Section Facts.
Context {W : Type}.
Variable tx_callback : Z -> W -> twi -> res (W * twi).
Variable rx_callback : Z -> list Z -> Z -> W -> twi -> res (W * twi).

Lemma TWI_vect_eq e w t :
  TWI_vect tx_callback rx_callback e w t
  = isr_body tx_callback rx_callback (ev_status e) (ev_reads e) w (latch e t).
Proof. unfold TWI_vect. by rewrite decode_latch. Qed.

Lemma twi_stop_ok reads t :
  clears reads ->
  twi_stop reads t
  = Ok (t <| TWCR := cbi (bits [TWEN; TWIE; TWEA; TWINT; TWSTO]) TWSTO |>
          <| twi_state := TWI_READY |>).
Proof. intros H%poll_ok. unfold twi_stop. by rewrite H. Qed.

Lemma twi_stop_no_fault reads t : twi_stop reads t <> Fault.
Proof.
  unfold twi_stop. assert (poll reads <> Fault) as H.
  { induction reads as [|[] reads IH]; done. }
  by destruct (poll reads).
Qed.
End Facts.

End Twi.
