(* ===== verification/TwiSafety.v ===== *)
(** * Memory safety of the two-wire driver

    The interrupt handler under every sequence of bus events the two-wire hardware can produce,
    interleaved with master transfers started by the main program. [phase] is where the
    hardware stands on the bus; [hw_legal] is the data sheet's table of the status codes that
    can follow, given the TWCR value the driver last wrote. *)

From S2P Require Import Prelude.
From S2P Require Import Avr.
From S2P Require Import Twi.
From stdpp Require Import relations.
From Stdlib Require Import Lia ZArith.
Import Twi.

#[local] Open Scope Z_scope.

Module TwiSafety.

Inductive phase := HIdle | HStart | HMT | HMR | HSR | HST.

Definition on (t : twi) (b : Z) : Prop := Z.testbit (TWCR t) b = true.
Definition off (t : twi) (b : Z) : Prop := Z.testbit (TWCR t) b = false.
Definition reading (t : twi) : Prop := Z.testbit (twi_slarw t) 0 = true.

(** Status codes the hardware can report next. *)
Definition hw_legal (ph : phase) (t : twi) (s : status) : Prop :=
  on t TWIE /\
  match s with
  | TW_START | TW_REP_START => ph = HIdle /\ on t TWSTA
  | TW_MT_SLA_ACK | TW_MT_SLA_NACK => ph = HStart /\ ~ reading t
  | TW_MR_SLA_ACK | TW_MR_SLA_NACK => ph = HStart /\ reading t
  | TW_MT_DATA_ACK | TW_MT_DATA_NACK => ph = HMT
  | TW_MT_ARB_LOST => ph = HStart \/ ph = HMT \/ ph = HMR
  | TW_MR_DATA_ACK => ph = HMR /\ on t TWEA
  | TW_MR_DATA_NACK => ph = HMR /\ off t TWEA
  | TW_SR_SLA_ACK | TW_SR_GCALL_ACK | TW_ST_SLA_ACK => ph = HIdle /\ on t TWEA
  | TW_SR_ARB_LOST_SLA_ACK | TW_SR_ARB_LOST_GCALL_ACK | TW_ST_ARB_LOST_SLA_ACK =>
      ph = HStart /\ on t TWEA
  | TW_SR_DATA_ACK | TW_SR_GCALL_DATA_ACK => ph = HSR /\ on t TWEA
  | TW_SR_DATA_NACK | TW_SR_GCALL_DATA_NACK => ph = HSR /\ off t TWEA
  | TW_SR_STOP => ph = HSR
  | TW_ST_DATA_ACK => ph = HST /\ on t TWEA
  | TW_ST_DATA_NACK => ph = HST
  | TW_ST_LAST_DATA => ph = HST /\ off t TWEA
  | TW_NO_INFO | TW_BUS_ERROR => True
  end.

(** The phase after the handler: idle when it gave the bus up. *)
Definition next_phase (ph : phase) (s : status) (t' : twi) : phase :=
  if twi_state t' =? TWI_READY then HIdle else
  match s with
  | TW_START | TW_REP_START => HStart
  | TW_MT_SLA_ACK | TW_MT_DATA_ACK => HMT
  | TW_MR_SLA_ACK | TW_MR_DATA_ACK => HMR
  | TW_SR_SLA_ACK | TW_SR_GCALL_ACK | TW_SR_ARB_LOST_SLA_ACK | TW_SR_ARB_LOST_GCALL_ACK => HSR
  | TW_ST_SLA_ACK | TW_ST_ARB_LOST_SLA_ACK => HST
  | _ => ph
  end.

Section Safety.
Context {W : Type}.
Variable tx_callback : Z -> W -> twi -> res (W * twi).
Variable rx_callback : Z -> list Z -> Z -> W -> twi -> res (W * twi).

(** What the transmit callback may do to the driver: hand it buffers with [twi_transmit]. *)
Fixpoint transmits (l : list (list Z * Z)) (t : twi) : res twi :=
  match l with
  | [] => Ok t
  | (data, len) :: l' => '(t, _) ← twi_transmit data len t; transmits l' t
  end.
Definition hands_over (d : list Z * Z) : Prop := 0 <= snd d <= Z.of_nat (length (fst d)).

(** The promise of the code that registers callbacks, from the comments of twi.c: the transmit
    callback hands over buffers, the receive callback only reads the one it is given. [Wok] is
    what that code keeps of its own state. *)
Class SlaveCallbacks (Wok : W -> Prop) : Prop := {
  tx_promise f w t : Wok w -> exists w' l, Wok w' /\ Forall hands_over l /\
    tx_callback f w t = (t' ← transmits l t; Ok (w', t'));
  rx_promise f b n w t : Wok w -> length b = 32%nat -> 0 <= n <= 32 -> twi_state t <> TWI_STX ->
    exists w', Wok w' /\ rx_callback f b n w t = Ok (w', t) }.

Variable Wok : W -> Prop.

Definition conf : Type := phase * W * twi.

(** The main program works, starts a transfer, or the hardware interrupts. A transfer is set up in
    one step, from the test for readiness to the write to TWCR: no interrupt comes in between, which
    for a driver that is ready means that the device is not addressed as a slave there and no bus
    error is reported. A read asks for at least [least] bytes, which is 0 for what [twi_readFrom]
    accepts, and 1 for the clients that are safe. *)
Inductive step (least : Z) : conf -> conf -> Prop :=
| S_main ph w w' t : Wok w' -> step least (ph, w, t) (ph, w', t)
| S_write ph w t address data len sendStop b :
    twi_state t = TWI_READY -> 0 <= len <= TWI_BUFFER_LENGTH -> is_u8 address ->
    copy_loop (Z.to_nat len) (twi_masterBuffer t) data = Some b ->
    step least (ph, w, t)
      (if twi_inRepStart t =? 1 then HStart else ph, w,
       master_start TWI_MTX address TW_WRITE len sendStop (t <| twi_masterBuffer := b |>))
| S_read ph w t address len sendStop :
    twi_state t = TWI_READY -> least <= len <= TWI_BUFFER_LENGTH -> is_u8 address ->
    step least (ph, w, t)
      (if twi_inRepStart t =? 1 then HStart else ph, w,
       master_start TWI_MRX address TW_READ (len - 1) sendStop t)
| S_event ph w t e w' t' :
    hw_legal ph t (ev_status e) ->
    TWI_vect tx_callback rx_callback e w t = Ok (w', t') ->
    step least (ph, w, t) (next_phase ph (ev_status e) t', w', t').

(** Buffer sizes and index ranges that hold in every phase. *)
Record buffers_ok (t : twi) : Prop := {
  bo_m : length (twi_masterBuffer t) = 32%nat;
  bo_t : length (twi_txBuffer t) = 32%nat;
  bo_r : length (twi_rxBuffer t) = 32%nat;
  bo_mi : 0 <= twi_masterBufferIndex t;
  bo_ml : 0 <= twi_masterBufferLength t <= 32;
  bo_ti : 0 <= twi_txBufferIndex t;
  bo_tl : 0 <= twi_txBufferLength t <= 32;
  bo_ri : 0 <= twi_rxBufferIndex t <= 32 }.

(** What each phase adds: in a read the index stays below the announced length, and an ACK
    was only asked for while another byte fits. *)
Definition phase_ok (ph : phase) (t : twi) : Prop :=
  match ph with
  | HIdle => on t TWIE -> on t TWSTA ->
      (twi_state t = TWI_MTX \/ twi_state t = TWI_MRX) /\
      (reading t -> twi_masterBufferIndex t = 0 /\ twi_masterBufferLength t <= 31)
  | HStart => twi_state t <> TWI_READY /\
      (reading t -> twi_masterBufferIndex t = 0 /\ twi_masterBufferLength t <= 31)
  | HMT => twi_state t <> TWI_READY
  | HMR => twi_state t <> TWI_READY /\ twi_masterBufferLength t <= 31 /\
      twi_masterBufferIndex t <= twi_masterBufferLength t /\
      (on t TWEA -> twi_masterBufferIndex t < twi_masterBufferLength t)
  | HSR => twi_state t <> TWI_READY
  | HST => twi_state t <> TWI_READY /\
      (on t TWEA -> twi_txBufferIndex t < twi_txBufferLength t)
  end.

Definition inv (c : conf) : Prop :=
  let '(ph, _, t) := c in buffers_ok t /\ phase_ok ph t.

Lemma ready_idle ph w t : inv (ph, w, t) -> twi_state t = TWI_READY -> ph = HIdle.
Proof. intros [_ Hp] Hr. destruct ph; simpl in Hp; [done|..]; by destruct_and?. Qed.

(** The handler, from a state in [inv] on a legal event, does not fault, and on return the
    invariant holds in the next phase. *)
Definition handler_good (ph : phase) (s : status) (r : res (W * twi)) : Prop :=
  r <> Fault /\ forall w' t', r = Ok (w', t') -> inv (next_phase ph s t', w', t').

Lemma buffers_latch e t : buffers_ok t -> buffers_ok (latch e t).
Proof. by intros []; constructor. Qed.

Lemma legal_latch ph e t : hw_legal ph t (ev_status e) -> hw_legal ph (latch e t) (ev_status e).
Proof. done. Qed.

Lemma phase_latch ph e t : phase_ok ph t -> phase_ok ph (latch e t).
Proof. by destruct ph. Qed.

(** Giving up the bus leads to the idle phase from anywhere. *)
Lemma idle_good ph s w t :
  buffers_ok t -> twi_state t = TWI_READY -> off t TWSTA \/ off t TWIE ->
  handler_good ph s (Ok (w, t)).
Proof.
  intros Hb Hr Ho. split; [done|]. intros w' t' [= <- <-]. unfold next_phase. rewrite Hr.
  split; [done|]. unfold phase_ok, on, off in *. intros ? ?. destruct Ho; congruence.
Qed.

Lemma stop_good ph s w reads t :
  buffers_ok t -> handler_good ph s (t' ← twi_stop reads t; Ok (w, t')).
Proof.
  intros Hb. unfold twi_stop. pose proof (twi_stop_no_fault reads t) as Hnf.
  unfold twi_stop in Hnf. destruct (poll reads); simpl in *; [|done|by split].
  apply idle_good; [by destruct Hb; constructor|done|by left].
Qed.

Lemma end_good ph s w reads t :
  buffers_ok t -> handler_good ph s (t' ← master_end reads t; Ok (w, t')).
Proof.
  intros Hb. unfold master_end. case_if; [by apply stop_good|]. simpl.
  apply idle_good; [by destruct Hb; constructor|done|by right].
Qed.

(** The driver keeps the bus: the phase follows the status code. *)
Lemma busy_good ph s w t :
  buffers_ok t -> twi_state t <> TWI_READY -> phase_ok (next_phase ph s t) t ->
  handler_good ph s (Ok (w, t)).
Proof. intros Hb Hr Hp. split; [done|]. by intros w' t' [= <- <-]. Qed.

Lemma next_busy ph s t :
  twi_state t <> TWI_READY ->
  next_phase ph s t = match s with
    | TW_START | TW_REP_START => HStart
    | TW_MT_SLA_ACK | TW_MT_DATA_ACK => HMT
    | TW_MR_SLA_ACK | TW_MR_DATA_ACK => HMR
    | TW_SR_SLA_ACK | TW_SR_GCALL_ACK | TW_SR_ARB_LOST_SLA_ACK | TW_SR_ARB_LOST_GCALL_ACK => HSR
    | TW_ST_SLA_ACK | TW_ST_ARB_LOST_SLA_ACK => HST
    | _ => ph
    end.
Proof. intros H. unfold next_phase. by rewrite (proj2 (Z.eqb_neq _ _) H). Qed.

Lemma mr_ack_good ph s w t :
  s = TW_MR_SLA_ACK \/ s = TW_MR_DATA_ACK ->
  buffers_ok t -> twi_state t <> TWI_READY ->
  twi_masterBufferIndex t <= twi_masterBufferLength t <= 31 ->
  handler_good ph s (Ok (w, mr_sla_ack t)).
Proof.
  intros Hs Hb Hr Hi. unfold mr_sla_ack. destruct (Z.ltb_spec (twi_masterBufferIndex t)
    (twi_masterBufferLength t)).
  all: apply busy_good; [by destruct Hb; constructor|done|].
  all: rewrite next_busy by done; destruct Hs as [-> | ->]; repeat split; simpl; try lia; done.
Qed.

Lemma store_master_ok t :
  buffers_ok t -> twi_masterBufferIndex t <= 31 ->
  exists t', store_master t = Ok t' /\ buffers_ok t' /\ twi_state t' = twi_state t /\
    twi_masterBufferIndex t' = twi_masterBufferIndex t + 1 /\
    twi_masterBufferLength t' = twi_masterBufferLength t.
Proof.
  intros [] Hi. unfold store_master. rewrite aset_Some by lia. simpl.
  assert (u8 (twi_masterBufferIndex t + 1) = twi_masterBufferIndex t + 1) as Hu by words.
  eexists. split; [done|]. split; [|done].
  constructor; simpl; rewrite ?length_insert, ?Hu; (done || lia).
Qed.

Lemma st_ack_good ph s w t :
  next_phase ph s t = HST -> buffers_ok t -> twi_state t <> TWI_READY ->
  twi_txBufferIndex t < twi_txBufferLength t ->
  handler_good ph s (t' ← st_data_ack t; Ok (w, t')).
Proof.
  intros Hn [] Hr Hi. unfold st_data_ack.
  destruct (aget_Some (twi_txBuffer t) (twi_txBufferIndex t)) as [x Hx]; [lia|].
  rewrite Hx. simpl.
  assert (u8 (twi_txBufferIndex t + 1) = twi_txBufferIndex t + 1) as Hu by words.
  rewrite Hu. destruct (Z.ltb_spec (twi_txBufferIndex t + 1) (twi_txBufferLength t)).
  all: apply busy_good; [constructor; simpl; rewrite ?Hu; (done || lia)|done|].
  all: rewrite next_busy in * by done; rewrite Hn; simpl; rewrite Hu; by split.
Qed.

Lemma transmit_ok data len t :
  buffers_ok t -> twi_state t = TWI_STX -> 0 <= len <= Z.of_nat (length data) ->
  exists t' r, twi_transmit data len t = Ok (t', r) /\ buffers_ok t' /\
    twi_state t' = TWI_STX /\ twi_txBufferIndex t' = twi_txBufferIndex t.
Proof.
  intros Hb Hs Hl. unfold twi_transmit. destruct (Z.ltb_spec TWI_BUFFER_LENGTH len).
  { by exists t, 1. }
  rewrite Hs. simpl. unfold TWI_BUFFER_LENGTH in *. destruct Hb.
  rewrite copy_loop_spec by (simpl; lia). simpl. eexists _, _. split; [done|].
  split; [|done]. constructor; simpl; try (done || lia).
  rewrite length_app, length_take, length_drop. lia.
Qed.

Lemma transmits_ok l : forall t, buffers_ok t -> twi_state t = TWI_STX -> Forall hands_over l ->
  exists t', transmits l t = Ok t' /\ buffers_ok t' /\ twi_state t' = TWI_STX /\ twi_txBufferIndex t' = twi_txBufferIndex t.
Proof.
  induction l as [|[data len] l IH]; intros t Hb Hs Hl; [by exists t|]. apply Forall_cons_1 in Hl as [Hd Hl].
  destruct (transmit_ok data len t Hb Hs Hd) as (t1 & r & Ht & Hb1 & Hs1 & Hi1).
  destruct (IH t1 Hb1 Hs1 Hl) as (t2 & Ht2 & Hb2 & Hs2 & Hi2). exists t2. simpl. rewrite Ht. simpl.
  split; [done|]. split; [done|]. split; [done|]. congruence.
Qed.

Context `{Hcb : !SlaveCallbacks Wok}.

Lemma st_sla_good ph s reads w t :
  s = TW_ST_SLA_ACK \/ s = TW_ST_ARB_LOST_SLA_ACK -> buffers_ok t -> Wok w ->
  handler_good ph s (isr_body tx_callback rx_callback s reads w t).
Proof.
  intros Hs Hb Hw.
  assert (isr_body tx_callback rx_callback s reads w t
          = isr_body tx_callback rx_callback TW_ST_SLA_ACK reads w t) as ->
    by (by destruct Hs as [-> | ->]).
  simpl. match goal with |- context [tx_callback _ _ ?t1] => set (t0 := t1) end.
  assert (buffers_ok t0) as Hb0 by (destruct Hb; constructor; (done || simpl; lia)).
  destruct (tx_promise (twi_onSlaveTransmit t) w t0 Hw) as (w' & l & _ & Hl & ->).
  destruct (transmits_ok l t0 Hb0 eq_refl Hl) as (t1 & -> & Hb1 & Hs1 & Hi1). simpl.
  assert (forall t2, buffers_ok t2 -> twi_state t2 = TWI_STX -> twi_txBufferIndex t2 = 0 ->
    0 < twi_txBufferLength t2 -> handler_good ph s (t3 ← st_data_ack t2; Ok (w', t3))) as Hgo.
  { intros t2 Hb2 Hs2 Hi2 Hl2. apply st_ack_good; try done; [|by rewrite Hs2|lia].
    rewrite next_busy by (by rewrite Hs2). by destruct Hs as [-> | ->]. }
  destruct (Z.eqb_spec 0 (twi_txBufferLength t1)).
  - rewrite aset_Some by (rewrite (bo_t _ Hb1); lia). simpl. apply Hgo; try done.
    destruct Hb1. constructor; simpl; rewrite ?length_insert; (done || lia).
  - simpl. apply Hgo; try done. pose proof (bo_tl _ Hb1). lia.
Qed.

(** The received bytes are terminated if there is room. *)
Lemma terminated_ok t : buffers_ok t ->
  exists t1, (if twi_rxBufferIndex t <? TWI_BUFFER_LENGTH then
      b ← lift (aset (twi_rxBuffer t) (twi_rxBufferIndex t) 0); Ok (t <| twi_rxBuffer := b |>)
      else Ok t) = Ok t1 /\ buffers_ok t1.
Proof.
  intros []. unfold TWI_BUFFER_LENGTH. case_if; [|by exists t]. apply Z.ltb_lt in Heqb.
  rewrite aset_Some by lia. simpl. eexists. split; [done|].
  constructor; simpl; rewrite ?length_insert; (done || lia).
Qed.
Lemma sr_stop_good ph reads w t : buffers_ok t -> Wok w ->
  handler_good ph TW_SR_STOP (isr_body tx_callback rx_callback TW_SR_STOP reads w t) /\
  forall w' t', isr_body tx_callback rx_callback TW_SR_STOP reads w t = Ok (w', t') -> Wok w'.
Proof.
  intros Hb Hw. simpl. destruct (terminated_ok t Hb) as (t1 & -> & Hb1).
  simpl. unfold twi_stop. pose proof (twi_stop_no_fault reads t1) as Hnf. unfold twi_stop in Hnf.
  destruct (poll reads); simpl in *; [|done|by split].
  match goal with |- context [rx_callback ?f ?b ?n ?w ?t] => destruct (rx_promise f b n w t) as (w' & Hw' & ->); [done|apply Hb1|apply (bo_ri t1 Hb1)|done|] end.
  simpl. split; [|by intros w2 t2 [= <- <-]]. apply idle_good; [|done|by left]. destruct Hb1. constructor; (done || simpl; lia).
Qed.

Lemma sr_data_good s w t :
  buffers_ok t -> twi_state t <> TWI_READY ->
  next_phase HSR s t = HSR ->
  handler_good HSR s
    (if twi_rxBufferIndex t <? TWI_BUFFER_LENGTH then
       b ← lift (aset (twi_rxBuffer t) (twi_rxBufferIndex t) (TWDR t));
       Ok (w, twi_reply true (t <| twi_rxBuffer := b |>
                                <| twi_rxBufferIndex ::= fun i => u8 (i + 1) |>))
     else Ok (w, twi_reply false t)).
Proof.
  intros [] Hr Hn. unfold TWI_BUFFER_LENGTH. rewrite next_busy in Hn by done.
  destruct (Z.ltb_spec (twi_rxBufferIndex t) 32).
  - rewrite aset_Some by lia. simpl. apply busy_good; [|done|rewrite next_busy by done; by rewrite Hn].
    assert (u8 (twi_rxBufferIndex t + 1) = twi_rxBufferIndex t + 1) as Hu by words.
    constructor; simpl; rewrite ?length_insert, ?Hu; (done || lia).
  - apply busy_good; [by constructor|done|rewrite next_busy by done; by rewrite Hn].
Qed.

Lemma handler_ok ph s reads w t :
  inv (ph, w, t) -> Wok w -> hw_legal ph t s ->
  handler_good ph s (isr_body tx_callback rx_callback s reads w t).
Proof.
  intros [Hb Hp] Hw [HIE Hl].
  destruct s; try (by apply st_sla_good; auto); try (by apply sr_stop_good; auto); simpl;
    repeat match goal with H : _ /\ _ |- _ => destruct H end; subst; simpl in *.
  (* start *)
  1,2: destruct (Hp HIE) as [Hst Hrd]; [done|];
    assert (twi_state t <> TWI_READY) by (by destruct Hst as [-> | ->]);
    (apply busy_good; [by destruct Hb; constructor|done|]); rewrite next_busy by done; by split.
  (* master transmitter, acknowledged *)
  1,3: destruct (Z.ltb_spec (twi_masterBufferIndex t) (twi_masterBufferLength t)) as [Hlt|];
    [|by apply end_good];
    destruct (aget_Some (twi_masterBuffer t) (twi_masterBufferIndex t)) as [x ->];
      [destruct Hb; lia|];
    simpl; apply busy_good;
    [destruct Hb; constructor; simpl; (done || words || lia)|by destruct_and?|];
    rewrite next_busy by (by destruct_and?); simpl; by destruct_and?.
  (* not acknowledged, arbitration lost *)
  1,2: apply stop_good; by destruct Hb; constructor.
  1: apply idle_good; [by destruct Hb; constructor|done|by left].
  (* master receiver *)
  - destruct Hp as [Hr Hrd]. apply mr_ack_good; auto. destruct (Hrd ltac:(done)), Hb. lia.
  - by apply stop_good.
  - destruct Hp as (Hr & Hml & Hmi & Hea).
    destruct (store_master_ok t Hb) as (t' & -> & Hb' & Hst & Hi' & Hl'); [lia|].
    simpl. apply mr_ack_good; auto; [by rewrite Hst|]. rewrite Hi', Hl'. specialize (Hea ltac:(done)). lia.
  - destruct Hp as (Hr & Hml & Hmi & Hea).
    destruct (store_master_ok t Hb) as (t' & -> & Hb' & _); [lia|]. by apply end_good.
  (* slave transmitter *)
  - destruct Hp as [Hr Hea]. apply st_ack_good; auto. by rewrite next_busy.
  - apply idle_good; [by destruct Hb; constructor|done|by left].
  - apply idle_good; [by destruct Hb; constructor|done|by left].
  (* slave receiver *)
  - apply busy_good; [destruct Hb; constructor; (done || simpl; lia)|done|done].
  - apply busy_good; [destruct Hb; constructor; (done || simpl; lia)|done|done].
  - apply busy_good; [destruct Hb; constructor; (done || simpl; lia)|done|done].
  - apply busy_good; [destruct Hb; constructor; (done || simpl; lia)|done|done].
  - apply sr_data_good; [done|done|by rewrite next_busy].
  - apply busy_good; [by destruct Hb; constructor|done|by rewrite next_busy].
  - apply sr_data_good; [done|done|by rewrite next_busy].
  - apply busy_good; [by destruct Hb; constructor|done|by rewrite next_busy].
  (* no information, bus error *)
  - split; [done|]. intros w' t' [= <- <-]. split; [done|]. unfold next_phase.
    destruct (Z.eqb_spec (twi_state t) TWI_READY) as [Hr|]; [|done].
    rewrite <- (ready_idle ph w t); [done|by split|done].
  - apply stop_good. by destruct Hb; constructor.
Qed.

Lemma start_buffers st address rw len ss t :
  buffers_ok t -> 0 <= len <= 32 -> buffers_ok (master_start st address rw len ss t).
Proof.
  intros [] Hl. unfold master_start. rewrite (u8_small len) by (unfold is_u8; lia).
  destruct (_ =? 1); constructor; simpl; (done || lia).
Qed.

Lemma start_reading st address rw len ss t :
  0 <= rw -> reading (master_start st address rw len ss t) <-> Z.testbit rw 0 = true.
Proof.
  intros Hrw. unfold reading.
  assert (twi_slarw (master_start st address rw len ss t) = u8 (Z.lor rw (Z.shiftl address 1))) as ->
    by (unfold master_start; by destruct (_ =? 1)).
  rewrite u8_testbit by lia. rewrite Z.lor_spec, (Z.shiftl_spec_low _ 1 0) by lia.
  rewrite orb_false_r. done.
Qed.

(** Starting a transfer establishes what the next phase needs. *)
Lemma start_good st address rw len ss (rep : bool) w t :
  st = TWI_MTX \/ st = TWI_MRX -> 0 <= rw ->
  buffers_ok t -> 0 <= len <= 32 -> (Z.testbit rw 0 = true -> len <= 31) ->
  inv (if rep then HStart else HIdle, w, master_start st address rw len ss t).
Proof.
  intros Hst Hrw Hb Hl Hr. split; [by apply start_buffers|].
  assert (twi_state (master_start st address rw len ss t) = st) as Hs
    by (unfold master_start; by destruct (_ =? 1)).
  assert (twi_masterBufferIndex (master_start st address rw len ss t) = 0) as Hi
    by (unfold master_start; by destruct (_ =? 1)).
  assert (twi_masterBufferLength (master_start st address rw len ss t) = len) as Hlen
    by (unfold master_start; destruct (_ =? 1); apply u8_small; unfold is_u8; lia).
  assert (reading (master_start st address rw len ss t) -> len <= 31) as Hrd
    by (rewrite start_reading; done).
  destruct rep; simpl; [|intros _ _]; rewrite Hs, Hi, Hlen; (split; [|by auto]);
    [by destruct Hst as [-> | ->]|done].
Qed.

(** *** A read of no bytes *)

(** The announced length is 255, and the driver acknowledges byte after byte. *)
Definition unbounded (t : twi) : Prop :=
  length (twi_masterBuffer t) = 32%nat /\ twi_masterBufferLength t = 255 /\ twi_state t = TWI_MRX /\ on t TWIE /\ on t TWEA.
Lemma unbounded_byte d w t : unbounded t -> 0 <= twi_masterBufferIndex t < 32 ->
  exists t1, TWI_vect tx_callback rx_callback (mkEvent TW_MR_DATA_ACK d []) w t = Ok (w, t1) /\ unbounded t1 /\
    twi_masterBufferIndex t1 = twi_masterBufferIndex t + 1.
Proof.
  intros (Hm & Hl & Hst & _) Hi. rewrite TWI_vect_eq. cbn [isr_body ev_status]. unfold store_master.
  change (twi_masterBuffer (latch _ t)) with (twi_masterBuffer t). change (twi_masterBufferIndex (latch _ t)) with (twi_masterBufferIndex t).
  rewrite aset_Some by lia. cbn [lift mbind res_bind]. unfold mr_sla_ack. cbn [twi_masterBufferIndex twi_masterBufferLength set_field].
  assert (u8 (twi_masterBufferIndex t + 1) = twi_masterBufferIndex t + 1) as Hu by words.
  match goal with |- context [if ?x <? ?y then _ else _] => change x with (u8 (twi_masterBufferIndex t + 1)); change y with (twi_masterBufferLength t) end.
  rewrite Hl, (proj2 (Z.ltb_lt _ _)) by lia. eexists. split; [done|]. split; [|exact Hu].
  split; [simpl; by rewrite length_insert|]. by split_and!.
Qed.
Lemma unbounded_runs w : forall k t, unbounded t -> twi_masterBufferIndex t = 32 - Z.of_nat k -> (k <= 32)%nat ->
  exists t1, rtc (step 0) (HMR, w, t) (HMR, w, t1) /\ unbounded t1 /\ twi_masterBufferIndex t1 = 32.
Proof.
  induction k as [|k IH]; intros t Hu Hi Hk; [exists t; split; [apply rtc_refl|split; [done|lia]]|].
  destruct (unbounded_byte 0 w t Hu) as (t1 & Hrun & Hu1 & Hi1); [lia|].
  destruct (IH t1 Hu1) as (t2 & Hr2 & H2); [lia..|]. exists t2. split; [|done]. eapply rtc_l; [|exact Hr2].
  destruct Hu as (_ & _ & _ & He & Ha). destruct Hu1 as (_ & _ & Hst & _).
  pose proof (S_event 0 HMR w t (mkEvent TW_MR_DATA_ACK 0 []) w t1 (conj He (conj eq_refl Ha)) Hrun) as Hs.
  rewrite next_busy in Hs by (by rewrite Hst). exact Hs.
Qed.
(** However it is started, the thirty-third byte leaves the buffer. *)
Lemma read_zero_started ph w t address (sendStop : Z) : inv (ph, w, t) -> twi_state t = TWI_READY -> is_u8 address ->
  exists t1, rtc (step 0) (if twi_inRepStart t =? 1 then HStart else ph, w, master_start TWI_MRX address TW_READ (0 - 1) sendStop t) (HMR, w, t1) /\
    hw_legal HMR t1 TW_MR_DATA_ACK /\ forall d, TWI_vect tx_callback rx_callback (mkEvent TW_MR_DATA_ACK d []) w t1 = Fault.
Proof.
  intros Hinv Hr Ha. rewrite (ready_idle _ _ _ Hinv Hr). destruct Hinv as [[] _].
  set (t0 := master_start TWI_MRX address TW_READ (0 - 1) sendStop t).
  assert (reading t0) as Hrd by (by apply start_reading).
  assert (length (twi_masterBuffer t0) = 32%nat /\ twi_masterBufferLength t0 = 255 /\ twi_masterBufferIndex t0 = 0 /\ twi_state t0 = TWI_MRX /\
    on t0 TWIE) as (Q1 & Q2 & Q3 & Q4 & Q5) by (unfold t0, master_start; by destruct (_ =? 1)).
  assert (exists t1, rtc (step 0) (if twi_inRepStart t =? 1 then HStart else HIdle, w, t0) (HStart, w, t1) /\ reading t1 /\
    length (twi_masterBuffer t1) = 32%nat /\ twi_masterBufferLength t1 = 255 /\ twi_masterBufferIndex t1 = 0 /\ twi_state t1 = TWI_MRX /\
    on t1 TWIE) as (t1 & H1 & R1 & R2 & R3 & R4 & R5 & R6).
  { destruct (twi_inRepStart t =? 1) eqn:Er; [by exists t0; split; [apply rtc_refl|]|].
    assert (on t0 TWSTA) as Hsta by (unfold on, t0, master_start; simpl; by rewrite Er).
    exists (twi_reply true (latch (mkEvent TW_START 0 []) t0 <| TWDR := twi_slarw t0 |>)). split; [|by split_and!].
    eapply rtc_l; [|apply rtc_refl].
    pose proof (S_event 0 HIdle w t0 (mkEvent TW_START 0 [])) as Hs.
    specialize (Hs w _ (conj Q5 (conj eq_refl Hsta)) (TWI_vect_eq _ _ _ _ _)). rewrite next_busy in Hs by (simpl; by rewrite Q4). exact Hs. }
  set (t2 := twi_reply true (latch (mkEvent TW_MR_SLA_ACK 0 []) t1)).
  assert (rtc (step 0) (HStart, w, t1) (HMR, w, t2)) as H2.
  { eapply rtc_l; [|apply rtc_refl].
    pose proof (S_event 0 HStart w t1 (mkEvent TW_MR_SLA_ACK 0 []) w t2 (conj R6 (conj eq_refl R1))) as Hs.
    rewrite next_busy in Hs by (simpl; by rewrite R5). apply Hs. rewrite TWI_vect_eq. cbn [isr_body ev_status]. unfold mr_sla_ack.
    change (twi_masterBufferIndex (latch _ t1)) with (twi_masterBufferIndex t1). change (twi_masterBufferLength (latch _ t1)) with (twi_masterBufferLength t1).
    by rewrite R3, R4. }
  destruct (unbounded_runs w 32 t2) as (t3 & H3 & (U1 & U2 & U3 & U4 & U5) & Hi); [by split_and!|simpl; lia|done|].
  exists t3. split; [by rewrite H1, H2|]. split; [done|]. intros d. rewrite TWI_vect_eq. cbn [isr_body ev_status]. unfold store_master.
  change (twi_masterBuffer (latch _ t3)) with (twi_masterBuffer t3). change (twi_masterBufferIndex (latch _ t3)) with (twi_masterBufferIndex t3).
  rewrite aset_None; [done|lia].
Qed.
Lemma read_zero_unsafe ph w t address (sendStop : Z) : inv (ph, w, t) -> twi_state t = TWI_READY -> is_u8 address ->
  exists t1, rtc (step 0) (ph, w, t) (HMR, w, t1) /\
    hw_legal HMR t1 TW_MR_DATA_ACK /\ forall d, TWI_vect tx_callback rx_callback (mkEvent TW_MR_DATA_ACK d []) w t1 = Fault.
Proof.
  intros Hinv Hr Ha. destruct (read_zero_started ph w t address sendStop Hinv Hr Ha) as (t1 & H1 & H2). exists t1. split; [|exact H2].
  eapply rtc_l; [|exact H1]. apply S_read; [done|unfold TWI_BUFFER_LENGTH; lia|done].
Qed.
(** The callbacks keep what they promise of their own state. *)
Lemma handler_app s reads w t w' t' : buffers_ok t -> Wok w ->
  isr_body tx_callback rx_callback s reads w t = Ok (w', t') -> Wok w'.
Proof.
  intros Hb Hw. destruct s; try (by apply (sr_stop_good HIdle)); simpl; intros Hr;
    repeat match type of Hr with
    | mbind _ (tx_callback ?f w ?t) = _ =>
        destruct (tx_promise f w t Hw) as (w1 & l & Hw1 & _ & E); rewrite E in Hr; clear E; destruct (transmits l t); simpl in Hr
    | mbind _ ?m = _ => destruct m eqn:?; simpl in Hr; [|discriminate Hr..]
    | (if ?b then _ else _) = _ => destruct b eqn:?; simpl in Hr
    | Ok _ = Ok _ => injection Hr as <- <-
    end; try done.
Qed.
(** The invariant with that of the callbacks. *)
Definition safe (c : conf) : Prop := inv c /\ Wok c.1.2.
Lemma twi_step_safe c c' : safe c -> step 1 c c' -> safe c'.
Proof.
  intros [Hinv Hw] Hstep.
  destruct Hstep as [ph w w' t Hw'|ph w t address data len ss b Hr Hlen Ha Hb|ph w t address len ss Hr Hlen Ha
                    |ph w t e w' t' Hl Hv]; [done|split; [|done]..|].
  - rewrite (ready_idle _ _ _ Hinv Hr). destruct Hinv as [Hbo _].
    apply copy_loop_length in Hb. unfold TWI_BUFFER_LENGTH in Hlen.
    apply start_good; auto; [done| |done].
    destruct Hbo; constructor; simpl; (done || congruence).
  - rewrite (ready_idle _ _ _ Hinv Hr). destruct Hinv as [Hbo _]. unfold TWI_BUFFER_LENGTH in Hlen.
    apply start_good; auto; [done|lia|lia].
  - rewrite TWI_vect_eq in Hv. destruct Hinv as [Hb Hp]. apply (buffers_latch e) in Hb.
    split; [|by apply (handler_app _ _ _ _ _ _ Hb Hw Hv)].
    apply (handler_ok ph (ev_status e) (ev_reads e) w (latch e t)); [|done..].
    split; [done|by apply phase_latch].
Qed.

Lemma end_no_hang reads t :
  clears reads -> exists t', master_end reads t = Ok t' /\ twi_state t' = TWI_READY.
Proof.
  intros Hc. unfold master_end. case_if; [|by eexists]. rewrite twi_stop_ok by done. by eexists.
Qed.

Lemma tx_part f (w : W) t : Wok w ->
  ('(w, t) ← tx_callback f w t;
   t ← (if 0 =? twi_txBufferLength t then
          b ← lift (aset (twi_txBuffer t) 0 0);
          Ok (t <| twi_txBufferLength := 1 |> <| twi_txBuffer := b |>)
        else Ok t);
   t ← st_data_ack t; Ok (w, t)) <> Hang.
Proof.
  intros Hw. destruct (tx_promise f w t Hw) as (w' & l & _ & _ & ->).
  assert (forall t, transmits l t <> Hang) as Hn.
  { clear. induction l as [|[data len] l IH]; intros t; simpl; [done|]. unfold twi_transmit.
    repeat case_if; simpl; try apply IH. destruct (copy_loop _ _ _); simpl; [apply IH|done]. }
  specialize (Hn t). destruct (transmits l t) as [t1| |]; simpl; [|done|done].
  unfold st_data_ack.
  case_if; [destruct (aset _ _ _); [|done]|]; simpl; by destruct (aget _ _).
Qed.

(** The handler's only loop is the poll of TWSTO. *)
Lemma handler_no_hang s reads w t :
  clears reads -> buffers_ok t -> Wok w -> isr_body tx_callback rx_callback s reads w t <> Hang.
Proof.
  intros Hc Hb Hw.
  assert (forall t, exists t', twi_stop reads t = Ok t' /\ twi_rxBuffer t' = twi_rxBuffer t /\
      twi_rxBufferIndex t' = twi_rxBufferIndex t /\ twi_state t' = TWI_READY) as Hstop
    by (intros t0; rewrite twi_stop_ok by done; by eexists).
  destruct s; simpl; try done;
    try (match goal with |- context [twi_stop reads ?x] => by destruct (Hstop x) as (? & -> & _) end).
  - case_if; [by destruct (aget _ _)|]. by destruct (end_no_hang reads t Hc) as (? & -> & _).
  - case_if; [by destruct (aget _ _)|]. by destruct (end_no_hang reads t Hc) as (? & -> & _).
  - unfold store_master. by destruct (aset _ _ _).
  - unfold store_master. destruct (aset _ _ _); [|done]. simpl.
    match goal with |- context [master_end reads ?x] =>
      by destruct (end_no_hang reads x Hc) as (? & -> & _) end.
  - by apply tx_part.
  - by apply tx_part.
  - unfold st_data_ack. by destruct (aget _ _).
  - case_if; [|done]. by destruct (aset _ _ _).
  - case_if; [|done]. by destruct (aset _ _ _).
  - destruct (terminated_ok t Hb) as (t1 & -> & Hb1). simpl. destruct (Hstop t1) as (t2 & -> & Hr & Hi & Hst). simpl.
    destruct (rx_promise (twi_onSlaveReceive t2) (twi_rxBuffer t2) (twi_rxBufferIndex t2) w t2 Hw) as (w' & _ & ->);
      [rewrite Hr; apply Hb1|rewrite Hi; apply (bo_ri t1 Hb1)|by rewrite Hst|done].
Qed.
End Safety.

(** The variables as the C runtime initialises them, and the registers at reset. *)
Definition bss : twi :=
  mkTwi 0 0 0 0 0 0 (replicate 32 0) 0 0 (replicate 32 0) 0 0 (replicate 32 0) 0 0 248 0 254 255 0.

Lemma init_inv {W} R R' t0 (w0 : W) : twi_init R bss = Some (R', t0) -> inv (HIdle, w0, t0).
Proof.
  unfold twi_init. intros H. opt_inv H. opt_inv H. injection H as _ <-.
  split; [constructor; simpl; (done || lia)|]. by intros _ [=].
Qed.

(** The handler, in any state that is safe. *)
Lemma safe_handler {W} tx_callback rx_callback Wok `{!SlaveCallbacks (W:=W) tx_callback rx_callback Wok} ph w t e :
  safe Wok (ph, w, t) -> hw_legal ph t (ev_status e) ->
  TWI_vect tx_callback rx_callback e w t <> Fault /\
  (clears (ev_reads e) -> exists w' t', TWI_vect tx_callback rx_callback e w t = Ok (w', t')).
Proof.
  intros [[Hb Hp] Hw] Hl. simpl in Hw. rewrite TWI_vect_eq. apply (buffers_latch e) in Hb.
  assert (inv (ph, w, latch e t)) as Hinv by (split; [done|by apply phase_latch]).
  pose proof (handler_ok tx_callback rx_callback Wok ph _ (ev_reads e) w _ Hinv Hw Hl) as [Hnf _].
  split; [done|]. intros Hc.
  pose proof (handler_no_hang tx_callback rx_callback Wok (ev_status e) _ w (latch e t) Hc Hb Hw).
  destruct (isr_body _ _ _ _ _ _) as [[w' t']| |]; [by exists w', t'|done|done].
Qed.
Lemma steps_safe {W} tx_callback rx_callback Wok `{!SlaveCallbacks (W:=W) tx_callback rx_callback Wok} c c' :
  safe Wok c -> rtc (step tx_callback rx_callback Wok 1) c c' -> safe Wok c'.
Proof.
  intros Hc Hr. apply (rtc_ind_r (fun c => safe Wok c) c) in Hr; [done|done|].
  intros c1 c2 _ Hs Hs1. by eapply twi_step_safe.
Qed.

Lemma ready_events ph t s : phase_ok ph t -> ph = HIdle -> twi_state t = TWI_READY -> hw_legal ph t s ->
  In s [TW_SR_SLA_ACK; TW_SR_GCALL_ACK; TW_ST_SLA_ACK; TW_NO_INFO; TW_BUS_ERROR].
Proof.
  intros Hp -> Hr [He Hl]. destruct s; simpl in *; try tauto; destruct_and?; destruct_or?; try done.
  1,2: destruct (Hp He) as [[Hs|Hs] _]; [done|by rewrite Hr in Hs..].
Qed.

(** C3: memory safety of the interrupt handler. After [twi_init], under any interleaving of status
    codes that the hardware can report with master writes, and master reads of at least one byte,
    which the main program sets up without being interrupted, and with callbacks that keep their
    promise, [ISR(TWI_vect)] never accesses one of the three 32-byte buffers out of range, and it
    returns whenever the hardware completes the STOP condition the handler waits for. While the
    driver is ready the only interrupts are those of a device addressed as a slave, of bus errors and
    without information, so that no others are left out by taking the set-up as one step. A read of
    no bytes, which [twi_readFrom] accepts, is not safe in any of these states: a device that
    goes on sending makes the handler store its thirty-third byte outside the buffer. *)
Theorem twi_memory_safe {W} tx_callback rx_callback Wok `{!SlaveCallbacks (W:=W) tx_callback rx_callback Wok} R R' t0 (w0 : W) ph w t :
  twi_init R bss = Some (R', t0) -> Wok w0 ->
  rtc (step tx_callback rx_callback Wok 1) (HIdle, w0, t0) (ph, w, t) ->
  (forall e, hw_legal ph t (ev_status e) ->
     TWI_vect tx_callback rx_callback e w t <> Fault /\
     (clears (ev_reads e) -> exists w' t', TWI_vect tx_callback rx_callback e w t = Ok (w', t'))) /\
  (twi_state t = TWI_READY -> forall s, hw_legal ph t s ->
     In s [TW_SR_SLA_ACK; TW_SR_GCALL_ACK; TW_ST_SLA_ACK; TW_NO_INFO; TW_BUS_ERROR]) /\
  (twi_state t = TWI_READY ->
     exists t1, rtc (step tx_callback rx_callback Wok 0) (ph, w, t) (HMR, w, t1) /\
       hw_legal HMR t1 TW_MR_DATA_ACK /\ forall d, TWI_vect tx_callback rx_callback (mkEvent TW_MR_DATA_ACK d []) w t1 = Fault).
Proof.
  intros Hi Hw0 Hr.
  assert (safe Wok (ph, w, t)) as Hs.
  { apply (steps_safe tx_callback rx_callback Wok (HIdle, w0, t0)); [split; [by eapply init_inv|done]|exact Hr]. }
  split; [|split].
  - intros e Hl. by apply (safe_handler _ _ Wok ph).
  - intros Hrd s Hl. destruct Hs as [Hinv _]. by apply (ready_events ph t s); [apply Hinv|eapply ready_idle|..].
  - intros Hrd. by apply (read_zero_unsafe _ _ _ ph w t 0 1); [apply Hs|..].
Qed.

(** Callbacks that keep the promise: the sketch answers with two bytes. *)
Definition tx_two (_ : Z) (w : unit) (t : twi) : res (unit * twi) :=
  '(t', _) ← twi_transmit [17; 34] 2 t; Ok (w, t').
Definition rx_none (_ : Z) (_ : list Z) (_ : Z) (w : unit) (t : twi) : res (unit * twi) := Ok (w, t).

#[export] Instance two_callbacks : SlaveCallbacks tx_two rx_none (fun _ => True).
Proof.
  split; [|by intros f b n w t; exists w]. intros f w t _. exists w, [([17; 34], 2)]. split; [done|].
  split; [repeat constructor; simpl; lia|]. unfold tx_two. simpl. by destruct (twi_transmit _ _ _) as [[? ?]| |].
Qed.

Definition after_init : twi :=
  bss <| twi_sendStop := 1 |> <| TWSR := 248 |> <| TWBR := 72 |> <| TWCR := 69 |>.

Lemma twi_memory_safe_witness :
  exists t, TWI_vect tx_two rx_none (mkEvent TW_MR_DATA_ACK 99 []) tt t <> Fault /\
    twi_masterBufferIndex t = 0.
Proof.
  eexists. split.
  - refine (proj1 (proj1 (twi_memory_safe tx_two rx_none (fun _ => True) (fun _ => 0) _ after_init tt HMR tt _ _ _ _)
             (mkEvent TW_MR_DATA_ACK 99 []) _)).
    + vm_compute. reflexivity.
    + exact I.
    + eapply rtc_l; [eapply (S_read _ _ _ 1 HIdle tt after_init 80 2 1); by vm_compute|].
      eapply rtc_l; [eapply (S_event _ _ _ _ _ _ _ (mkEvent TW_START 0 [])); by vm_compute|].
      eapply rtc_l; [eapply (S_event _ _ _ _ _ _ _ (mkEvent TW_MR_SLA_ACK 0 [])); by vm_compute|].
      apply rtc_refl.
    + by vm_compute.
  - reflexivity.
Defined.

End TwiSafety.
