(* ===== verification/TwiMaster.v ===== *)
(** * Master transfers of the two-wire driver

    [twi_writeTo] and [twi_readFrom] run against the bus events of a whole transaction: which
    bytes reach the data register, which acknowledge bits are requested, and what the functions
    return. *)

From S2P Require Import Prelude.
From S2P Require Import Avr.
From S2P Require Import Twi.
From S2P Require Import TwiSafety.
From stdpp Require Import relations.
From Stdlib Require Import Lia ZArith.
Import Twi TwiSafety.

#[local] Open Scope Z_scope.

Module TwiMaster.

Section Master.
Context {W : Type}.
Variable tx_callback : Z -> W -> twi -> res (W * twi).
Variable rx_callback : Z -> list Z -> Z -> W -> twi -> res (W * twi).
#[local] Abbreviation vect := (TWI_vect tx_callback rx_callback).
#[local] Abbreviation spin := (spin tx_callback rx_callback).

(** An observation of the driver after each event that leaves the transfer going: what the
    hardware uses for its next bus operation. *)
Fixpoint observe {A} (obs : twi -> A) (cond : twi -> bool) (evs : list event) (w : W) (t : twi)
  : list A :=
  match evs with
  | [] => []
  | e :: evs' =>
      match vect e w t with
      | Ok (w, t) => if cond t then obs t :: observe obs cond evs' w t else []
      | _ => []
      end
  end.

(** Bus events of a transfer. *)
Definition all_status (s : status) (evs : list event) : Prop := Forall (fun e => ev_status e = s) evs.
Definition all_clear (evs : list event) : Prop := Forall (fun e => clears (ev_reads e)) evs.

Definition writing (t : twi) : bool := negb (1 =? 0) && (TWI_MTX =? twi_state t).
Definition receiving (t : twi) : bool := TWI_MRX =? twi_state t.

(** ** Transmission of the buffer *)

Lemma mt_loop evs : forall w t (i n : nat),
  Forall (fun e => ev_status e = TW_MT_SLA_ACK \/ ev_status e = TW_MT_DATA_ACK) evs ->
  all_clear evs ->
  length (twi_masterBuffer t) = 32%nat -> (n <= 32)%nat ->
  twi_state t = TWI_MTX -> twi_masterBufferIndex t = Z.of_nat i ->
  twi_masterBufferLength t = Z.of_nat n -> (i <= n)%nat -> length evs = S (n - i) ->
  exists t', spin writing evs w t = Ok (w, t', []) /\ twi_state t' = TWI_READY /\
    twi_error t' = twi_error t /\
    observe TWDR writing evs w t = drop i (take n (twi_masterBuffer t)).
Proof.
  induction evs as [|e evs IH]; [done|].
  intros w t i n Hs Hc Hb Hn32 Hst Hi Hn Hle Hlen.
  apply Forall_cons in Hs as [Hse Hs]. apply Forall_cons in Hc as [Hce Hc]. simpl in Hlen.
  simpl. unfold writing at 1. rewrite Hst. simpl. rewrite TWI_vect_eq.
  assert (forall s, s = TW_MT_SLA_ACK \/ s = TW_MT_DATA_ACK ->
    isr_body tx_callback rx_callback s (ev_reads e) w (latch e t)
    = isr_body tx_callback rx_callback TW_MT_DATA_ACK (ev_reads e) w (latch e t)) as Hbody
    by (by intros s [-> | ->]).
  rewrite (Hbody _ Hse). simpl. rewrite Hi, Hn.
  destruct (Z.ltb_spec (Z.of_nat i) (Z.of_nat n)) as [Hlt|Hge].
  - destruct (lookup_lt_is_Some_2 (twi_masterBuffer t) i) as [x Hx]; [lia|].
    rewrite aget_nat, Hx. simpl.
    match goal with |- context [spin writing evs w ?t1] =>
      destruct (IH w t1 (S i) n Hs Hc) as (t' & -> & Hr & He & Ho); try done; try lia end.
    { simpl. rewrite Hi. words. }
    exists t'. split; [done|]. split; [done|]. split; [done|].
    unfold writing at 1. simpl. rewrite Hst. simpl. rewrite Ho. simpl.
    rewrite (drop_S _ x i); [done|]. rewrite lookup_take_lt by lia. done.
  - assert (i = n) as -> by lia. destruct evs; [|simpl in Hlen; lia]. simpl.
    rewrite drop_ge by (rewrite length_take; lia).
    destruct (end_no_hang (ev_reads e) (latch e t) Hce) as (t' & Ht' & Hr). rewrite Ht'. simpl.
    unfold writing. rewrite Hr. simpl. exists t'. repeat split; [done|].
    revert Ht'. unfold master_end. case_if; [|by intros [= <-]].
    rewrite twi_stop_ok by done. by intros [= <-].
Qed.

(** Acknowledged bytes of a transfer that is not complete leave it going. *)
Lemma mt_prefix evs : forall w t (i n : nat) rest,
  Forall (fun e => ev_status e = TW_MT_SLA_ACK \/ ev_status e = TW_MT_DATA_ACK) evs ->
  length (twi_masterBuffer t) = 32%nat -> (n <= 32)%nat ->
  twi_state t = TWI_MTX -> twi_masterBufferIndex t = Z.of_nat i ->
  twi_masterBufferLength t = Z.of_nat n -> (i + length evs <= n)%nat ->
  exists t', spin writing (evs ++ rest) w t = spin writing rest w t' /\ twi_state t' = TWI_MTX.
Proof.
  induction evs as [|e evs IH]; intros w t i n rest Hs Hb Hn32 Hst Hi Hn Hle; [by exists t|].
  apply Forall_cons in Hs as [Hse Hs]. simpl in Hle.
  simpl. unfold writing at 1. rewrite Hst. simpl. rewrite TWI_vect_eq.
  destruct (lookup_lt_is_Some_2 (twi_masterBuffer t) i) as [x Hx]; [lia|].
  assert (isr_body tx_callback rx_callback (ev_status e) (ev_reads e) w (latch e t)
    = Ok (w, twi_reply true (latch e t <| TWDR := x |> <| twi_masterBufferIndex ::= fun i => u8 (i + 1) |>)))
    as ->.
  { destruct Hse as [-> | ->]; simpl; rewrite Hi, Hn, (proj2 (Z.ltb_lt _ _)) by lia;
      by rewrite aget_nat, Hx. }
  simpl. match goal with |- context [spin writing (evs ++ rest) w ?t1] =>
    destruct (IH w t1 (S i) n rest Hs) as (t' & -> & Hr); try done; try lia end.
  - simpl. rewrite Hi. words.
  - by exists t'.
Qed.

(** ** Reception into the buffer *)

Definition acking (t : twi) : bool := Z.testbit (TWCR t) TWEA.

Lemma mr_sla_ack_eq t :
  mr_sla_ack t = t <| TWCR := if twi_masterBufferIndex t <? twi_masterBufferLength t
                             then bits [TWEN; TWIE; TWINT; TWEA] else bits [TWEN; TWIE; TWINT] |>.
Proof. unfold mr_sla_ack. by destruct (_ <? _). Qed.

Lemma mr_loop dacks : forall w t (i n : nat) nack,
  all_status TW_MR_DATA_ACK dacks -> ev_status nack = TW_MR_DATA_NACK -> clears (ev_reads nack) ->
  length (twi_masterBuffer t) = 32%nat -> (n <= 32)%nat ->
  twi_state t = TWI_MRX -> twi_masterBufferIndex t = Z.of_nat i ->
  twi_masterBufferLength t = Z.of_nat n - 1 -> n = (i + length dacks + 1)%nat ->
  acking t = (Z.of_nat i <? Z.of_nat n - 1) ->
  exists t', spin receiving (dacks ++ [nack]) w t = Ok (w, t', []) /\
    twi_state t' = TWI_READY /\ twi_masterBufferIndex t' = Z.of_nat n /\
    length (twi_masterBuffer t') = 32%nat /\
    take n (twi_masterBuffer t')
      = take i (twi_masterBuffer t) ++ map ev_data (dacks ++ [nack]) /\
    acking t :: observe acking receiving (dacks ++ [nack]) w t
      = replicate (length dacks) true ++ [false].
Proof.
  induction dacks as [|e dacks IH]; intros w t i n nack Hs Hsn Hcn Hb Hn32 Hst Hi Hn Hlen Hack.
  - simpl in *. unfold receiving at 1. rewrite Hst. simpl. rewrite TWI_vect_eq, Hsn. simpl.
    unfold store_master. simpl. rewrite Hi, aset_nat by lia. simpl.
    match goal with |- context [master_end _ ?t1] =>
      destruct (end_no_hang (ev_reads nack) t1 Hcn) as (t' & Ht' & Hr);
      assert (twi_masterBufferIndex t' = twi_masterBufferIndex t1 /\
              twi_masterBuffer t' = twi_masterBuffer t1) as [Hi' Hb'] end.
    { revert Ht'. unfold master_end. case_if; [|by intros [= <-]].
      rewrite twi_stop_ok by done. by intros [= <-]. }
    rewrite Ht'. simpl. unfold receiving. rewrite Hr. simpl in *. exists t'.
    split; [done|]. split; [done|]. split; [rewrite Hi', Hi; words|].
    rewrite Hb', length_insert. split; [done|]. split; [|rewrite Hack; f_equal; apply Z.ltb_ge; lia].
    subst n. rewrite Nat.add_0_r, Nat.add_1_r.
    rewrite (take_S_r _ i (ev_data nack)) by (apply list_lookup_insert_eq; lia).
    by rewrite take_insert_ge by lia.
  - apply Forall_cons in Hs as [Hse Hs]. simpl in Hlen.
    simpl. unfold receiving at 1. rewrite Hst. simpl. rewrite TWI_vect_eq, Hse. simpl.
    unfold store_master. simpl. rewrite Hi, aset_nat by lia. simpl. rewrite mr_sla_ack_eq.
    match goal with |- context [spin receiving _ w ?t1] =>
      destruct (IH w t1 (S i) n nack Hs Hsn Hcn) as (t' & Hsp & Hr & Hi' & Hb' & Ht & Ho) end;
      try done; try lia.
    { simpl. by rewrite length_insert. }
    { simpl. rewrite Hi. words. }
    { unfold acking. simpl. rewrite Hi, Hn.
      replace (u8 (Z.of_nat i + 1)) with (Z.of_nat (S i)) by words.
      destruct (Z.of_nat (S i) <? Z.of_nat n - 1); reflexivity. }
    exists t'. rewrite Hsp. split; [done|]. split; [done|]. split; [done|]. split; [done|]. split.
    + rewrite Ht. simpl.
      rewrite (take_S_r _ i (ev_data e)) by (apply list_lookup_insert_eq; lia).
      rewrite take_insert_ge by lia. by rewrite <- app_assoc.
    + rewrite Hack, (proj2 (Z.ltb_lt _ _)) by lia. f_equal.
      unfold receiving at 1. simpl. rewrite Hst. simpl. exact Ho.
Qed.

(** ** Whole transactions *)

(** The START event, absent when the previous transfer ended in a repeated START. *)
Definition opening (t : twi) (start : event) : list event :=
  if twi_inRepStart t =? 1 then [] else [start].

(** The wait for a driver that is ready does not loop. *)
Lemma ready_spin evs w t :
  twi_state t = TWI_READY ->
  spin (fun t => negb (TWI_READY =? twi_state t)) evs w t = Ok (w, t, evs).
Proof. intros Hr. destruct evs; simpl; by rewrite Hr. Qed.

Lemma writing_busy u : twi_state u = TWI_MTX -> writing u = true.
Proof. intros Hu. unfold writing. by rewrite Hu. Qed.

Lemma slarw_value address rw :
  0 <= address < 128 -> 0 <= rw < 2 -> u8 (Z.lor rw (Z.shiftl address 1)) = 2 * address + rw.
Proof.
  intros Ha Hrw. rewrite Z.lor_comm, (lor_shiftl_add address rw 1) by lia.
  rewrite u8_small by (unfold is_u8; lia). lia.
Qed.

(** The state at the second loop of a transfer, and after the START if there is one. *)
Definition addressed (st address rw len ss : Z) (t : twi) (start : event) : twi :=
  let t1 := master_start st address rw len ss t in
  if twi_inRepStart t =? 1 then t1
  else twi_reply true (latch start t1 <| TWDR := twi_slarw t1 |>).

Lemma spin_opening (cond : twi -> bool) st address rw len ss t start rest w :
  (forall t, twi_state t = st -> cond t = true) ->
  ev_status start = TW_START \/ ev_status start = TW_REP_START ->
  spin cond (opening t start ++ rest) w (master_start st address rw len ss t)
  = spin cond rest w (addressed st address rw len ss t start).
Proof.
  intros Hc Hs. unfold opening, addressed, master_start. simpl.
  destruct (twi_inRepStart t =? 1); [done|]. simpl. rewrite Hc by done.
  rewrite TWI_vect_eq. by destruct Hs as [-> | ->].
Qed.

Lemma observe_opening {A} (obs : twi -> A) (cond : twi -> bool) st address rw len ss t start rest w :
  (forall t, twi_state t = st -> cond t = true) ->
  ev_status start = TW_START \/ ev_status start = TW_REP_START ->
  (if twi_inRepStart t =? 1 then [obs (master_start st address rw len ss t)] else []) ++
  observe obs cond (opening t start ++ rest) w (master_start st address rw len ss t)
  = obs (addressed st address rw len ss t start) ::
    observe obs cond rest w (addressed st address rw len ss t start).
Proof.
  intros Hc Hs. unfold opening, addressed, master_start. simpl.
  destruct (twi_inRepStart t =? 1); [done|]. simpl.
  rewrite TWI_vect_eq. destruct Hs as [-> | ->]; simpl; by rewrite Hc.
Qed.

Lemma addressed_fields st address rw len ss t start :
  let t2 := addressed st address rw len ss t start in
  twi_state t2 = st /\ twi_masterBufferIndex t2 = 0 /\ twi_masterBufferLength t2 = u8 len /\
  twi_masterBuffer t2 = twi_masterBuffer t /\ twi_error t2 = 255 /\ acking t2 = true /\
  TWDR t2 = u8 (Z.lor rw (Z.shiftl address 1)).
Proof.
  unfold addressed, master_start. simpl. by destruct (twi_inRepStart t =? 1).
Qed.
End Master.

Lemma writeTo_transfers {W} tx rx (w : W) t start acks address data sendStop evs1 :
  twi_state t = TWI_READY -> length (twi_masterBuffer t) = 32%nat ->
  (length data <= 32)%nat -> 0 <= address < 128 ->
  ev_status start = TW_START \/ ev_status start = TW_REP_START ->
  Forall (fun e => ev_status e = TW_MT_SLA_ACK \/ ev_status e = TW_MT_DATA_ACK) acks ->
  all_clear acks -> length acks = S (length data) ->
  let n := Z.of_nat (length data) in
  let t1 := master_start TWI_MTX address TW_WRITE n sendStop
              (t <| twi_masterBuffer := data ++ drop (length data) (twi_masterBuffer t) |>) in
  (exists t', twi_writeTo tx rx address data n 1 sendStop evs1 (opening t start ++ acks) w t
              = Ok (w, t', 0) /\ twi_state t' = TWI_READY) /\
  (if twi_inRepStart t =? 1 then [TWDR t1] else []) ++
    observe tx rx TWDR writing (opening t start ++ acks) w t1
  = 2 * address :: data.
Proof.
  intros Hr Hb Hd Ha Hs Hacks Hc Hl n t1.
  set (tb := t <| twi_masterBuffer := data ++ drop (length data) (twi_masterBuffer t) |>) in *.
  assert (length (twi_masterBuffer tb) = 32%nat) as Hb'
    by (simpl; rewrite length_app, length_drop; lia).
  pose proof (addressed_fields TWI_MTX address TW_WRITE n sendStop tb start)
    as (Hst & Hi & Hlen & Hbuf & He & _ & Hdr).
  rewrite u8_small in Hlen by (unfold is_u8; lia).
  destruct (mt_loop tx rx acks w (addressed TWI_MTX address TW_WRITE n sendStop tb start)
    0 (length data) Hacks Hc) as (t' & Hsp & Hr' & He' & Ho); try done; try lia.
  { by rewrite Hbuf. }
  split.
  - exists t'. split; [|done]. unfold twi_writeTo. rewrite (proj2 (Z.ltb_ge _ _)) by (unfold TWI_BUFFER_LENGTH; lia).
    rewrite ready_spin by done. simpl. replace (Z.to_nat n) with (length data) by lia. rewrite copy_loop_spec by lia. simpl.
    rewrite firstn_all.
    change (fun t0 => TWI_MTX =? twi_state t0) with writing.
    pose proof (spin_opening tx rx writing TWI_MTX address TW_WRITE n sendStop tb start acks w writing_busy Hs) as Hso.
    rewrite Hsp in Hso. change (opening tb start) with (opening t start) in Hso.
    change (t <| twi_masterBuffer := _ |>) with tb. rewrite Hso. simpl. by rewrite He', He.
  - pose proof (observe_opening tx rx TWDR writing TWI_MTX address TW_WRITE n sendStop tb start acks w writing_busy Hs) as Hoo.
    change (opening tb start) with (opening t start) in Hoo.
    change (twi_inRepStart tb) with (twi_inRepStart t) in Hoo.
    unfold t1. rewrite Hoo, Ho, Hdr, slarw_value, Hbuf by (unfold TW_WRITE; lia).
    unfold TW_WRITE. rewrite Z.add_0_r. f_equal. simpl. by rewrite take_app_length.
Qed.

(** A master write of [n <= 32] bytes to an addressed device that acknowledges everything.
    The bytes handed to the bus are the address with the write bit and then exactly the data,
    in order; the function returns 0 and the driver is ready again. This covers a fresh START
    as well as the continuation of a repeated START, and both ways of ending the transfer. *)
Theorem twi_writeTo_transfers {W} tx rx (w : W) t start acks address data sendStop evs1 :
  twi_state t = TWI_READY -> length (twi_masterBuffer t) = 32%nat ->
  (length data <= 32)%nat -> 0 <= address < 128 ->
  ev_status start = TW_START \/ ev_status start = TW_REP_START ->
  Forall (fun e => ev_status e = TW_MT_SLA_ACK \/ ev_status e = TW_MT_DATA_ACK) acks ->
  all_clear acks -> length acks = S (length data) ->
  let n := Z.of_nat (length data) in
  let t1 := master_start TWI_MTX address TW_WRITE n sendStop
              (t <| twi_masterBuffer := data ++ drop (length data) (twi_masterBuffer t) |>) in
  (exists t', twi_writeTo tx rx address data n 1 sendStop evs1 (opening t start ++ acks) w t
              = Ok (w, t', 0) /\ twi_state t' = TWI_READY) /\
  (if twi_inRepStart t =? 1 then [TWDR t1] else []) ++
    observe tx rx TWDR writing (opening t start ++ acks) w t1
  = 2 * address :: data.
Proof. apply writeTo_transfers. Qed.

Lemma readFrom_receives {W} tx rx (w : W) t start sla dacks nack address data sendStop evs1 :
  twi_state t = TWI_READY -> length (twi_masterBuffer t) = 32%nat -> 0 <= address < 128 ->
  ev_status start = TW_START \/ ev_status start = TW_REP_START ->
  ev_status sla = TW_MR_SLA_ACK -> all_status TW_MR_DATA_ACK dacks ->
  ev_status nack = TW_MR_DATA_NACK -> clears (ev_reads nack) ->
  let n := S (length dacks) in
  (n <= 32)%nat -> (n <= length data)%nat ->
  let evs := opening t start ++ sla :: dacks ++ [nack] in
  let t1 := master_start TWI_MRX address TW_READ (Z.of_nat n - 1) sendStop t in
  (exists t', twi_readFrom tx rx address data (Z.of_nat n) sendStop evs1 evs w t
     = Ok (w, t', map ev_data (dacks ++ [nack]) ++ drop n data, Z.of_nat n) /\
     twi_state t' = TWI_READY) /\
  head ((if twi_inRepStart t =? 1 then [TWDR t1] else []) ++
        observe tx rx TWDR receiving evs w t1) = Some (2 * address + 1) /\
  (if twi_inRepStart t =? 1 then [acking t1] else []) ++ observe tx rx acking receiving evs w t1
    = true :: replicate (n - 1) true ++ [false].
Proof.
  intros Hr Hb Ha Hs Hsl Hda Hna Hcn n Hn Hd evs t1.
  pose proof (addressed_fields TWI_MRX address TW_READ (Z.of_nat n - 1) sendStop t start)
    as (Hst & Hi & Hlen & Hbuf & He & Hak & Hdr).
  rewrite u8_small in Hlen by (unfold is_u8; lia).
  set (t2 := addressed TWI_MRX address TW_READ (Z.of_nat n - 1) sendStop t start) in *.
  assert (forall u, twi_state u = TWI_MRX -> receiving u = true) as Hw
    by (intros u Hu; unfold receiving; by rewrite Hu).
  destruct (mr_loop tx rx dacks w (mr_sla_ack (latch sla t2)) 0 n nack Hda Hna Hcn)
    as (t' & Hsp & Hr' & Hi' & Hb' & Ht & Ho); rewrite ?mr_sla_ack_eq; simpl; try done; try lia.
  { by rewrite Hbuf. }
  { unfold acking. simpl. rewrite Hi, Hlen. change (Z.of_nat 0) with 0.
    destruct (0 <? Z.of_nat n - 1); reflexivity. }
  assert (TWI_vect tx rx sla w t2 = Ok (w, mr_sla_ack (latch sla t2))) as Hv
    by (by rewrite TWI_vect_eq, Hsl).
  assert (receiving t2 = true /\ receiving (mr_sla_ack (latch sla t2)) = true) as [Hc2 Hc3]
    by (rewrite mr_sla_ack_eq; by split; apply Hw).
  unfold evs, t1. split; [|split].
  - exists t'. split; [|done]. unfold twi_readFrom.
    rewrite (proj2 (Z.ltb_ge _ _)) by (unfold TWI_BUFFER_LENGTH; lia).
    rewrite ready_spin by done. simpl mbind. change (fun t0 => TWI_MRX =? twi_state t0) with receiving.
    rewrite spin_opening by done. fold t2. simpl. rewrite Hc2, Hv. simpl. rewrite Hsp. simpl.
    rewrite Hi', Z.ltb_irrefl, Nat2Z.id, copy_loop_spec by lia. simpl. by rewrite Ht.
  - rewrite observe_opening by done. fold t2. simpl. rewrite Hdr, slarw_value by (unfold TW_READ; lia). done.
  - rewrite observe_opening by done. fold t2. simpl. rewrite Hak, Hv, Hc3, Ho. f_equal. f_equal. simpl.
    by rewrite Nat.sub_0_r.
Qed.

(** A master read of [1 <= n <= 32] bytes. The address goes out with the read bit; every
    byte but the last is acknowledged and the last is not (the bits are what the driver asks of
    the hardware after the START, after the address and after each byte); the caller's buffer
    gets exactly the received bytes, the function returns their number and the driver is ready. *)
Theorem twi_readFrom_receives {W} tx rx (w : W) t start sla dacks nack address data sendStop evs1 :
  twi_state t = TWI_READY -> length (twi_masterBuffer t) = 32%nat -> 0 <= address < 128 ->
  ev_status start = TW_START \/ ev_status start = TW_REP_START ->
  ev_status sla = TW_MR_SLA_ACK -> all_status TW_MR_DATA_ACK dacks ->
  ev_status nack = TW_MR_DATA_NACK -> clears (ev_reads nack) ->
  let n := S (length dacks) in
  (n <= 32)%nat -> (n <= length data)%nat ->
  let evs := opening t start ++ sla :: dacks ++ [nack] in
  let t1 := master_start TWI_MRX address TW_READ (Z.of_nat n - 1) sendStop t in
  (exists t', twi_readFrom tx rx address data (Z.of_nat n) sendStop evs1 evs w t
     = Ok (w, t', map ev_data (dacks ++ [nack]) ++ drop n data, Z.of_nat n) /\
     twi_state t' = TWI_READY) /\
  head ((if twi_inRepStart t =? 1 then [TWDR t1] else []) ++
        observe tx rx TWDR receiving evs w t1) = Some (2 * address + 1) /\
  (if twi_inRepStart t =? 1 then [acking t1] else []) ++ observe tx rx acking receiving evs w t1
    = true :: replicate (n - 1) true ++ [false].
Proof. apply readFrom_receives. Qed.

(** The return value the comment of [twi_writeTo] assigns to a bus condition. *)
Definition failure_code (s : status) : option Z :=
  match s with
  | TW_MT_SLA_NACK => Some 2
  | TW_MT_DATA_NACK => Some 3
  | TW_MT_ARB_LOST | TW_BUS_ERROR => Some 4
  | _ => None
  end.

Lemma failure_ready {W} tx rx (w : W) e t c :
  failure_code (ev_status e) = Some c -> clears (ev_reads e) ->
  exists t', TWI_vect tx rx e w t = Ok (w, t') /\ twi_state t' = TWI_READY /\
    (if twi_error t' =? 255 then 0
     else if twi_error t' =? tw_code TW_MT_SLA_NACK then 2
     else if twi_error t' =? tw_code TW_MT_DATA_NACK then 3 else 4) = c.
Proof.
  intros Hf Hc. rewrite TWI_vect_eq.
  destruct (ev_status e); try done; simpl in Hf; injection Hf as <-; simpl;
    rewrite ?twi_stop_ok by done; eexists; by split.
Qed.

(** Error reports of a master write. Whatever number of bytes was acknowledged before, a
    missing acknowledge of the address returns 2, of a data byte 3, and a lost arbitration or a
    bus error 4, and the bus is given up; a buffer that is too long returns 1 before anything
    is touched. *)
Theorem twi_writeTo_errors {W} tx rx (w : W) t start acks e c address data sendStop evs1 :
  twi_state t = TWI_READY -> length (twi_masterBuffer t) = 32%nat ->
  ev_status start = TW_START \/ ev_status start = TW_REP_START ->
  Forall (fun e => ev_status e = TW_MT_SLA_ACK \/ ev_status e = TW_MT_DATA_ACK) acks ->
  (length acks <= length data)%nat ->
  failure_code (ev_status e) = Some c -> clears (ev_reads e) ->
  let evs := opening t start ++ acks ++ [e] in
  let n := Z.of_nat (length data) in
  if decide (length data <= 32)%nat
  then exists t', twi_writeTo tx rx address data n 1 sendStop evs1 evs w t = Ok (w, t', c) /\
         twi_state t' = TWI_READY
  else twi_writeTo tx rx address data n 1 sendStop evs1 evs w t = Ok (w, t, 1).
Proof.
  intros Hr Hb Hs Hacks Hla Hf Hc evs n. unfold twi_writeTo, TWI_BUFFER_LENGTH.
  destruct (decide _) as [Hd|Hd]; [|by rewrite (proj2 (Z.ltb_lt _ _)) by lia].
  rewrite (proj2 (Z.ltb_ge _ _)) by lia. rewrite ready_spin by done. simpl mbind.
  replace (Z.to_nat n) with (length data) by lia. rewrite copy_loop_spec by lia. simpl mbind.
  set (tb := t <| twi_masterBuffer := _ |>).
  change (fun t0 => negb (1 =? 0) && (TWI_MTX =? twi_state t0)) with writing.
  unfold evs. change (opening t start) with (opening tb start).
  rewrite (spin_opening tx rx writing) by (done || apply writing_busy).
  pose proof (addressed_fields TWI_MTX address TW_WRITE n sendStop tb start)
    as (Hst & Hi & Hlen & Hbuf & _).
  rewrite u8_small in Hlen by (unfold is_u8; lia).
  destruct (mt_prefix tx rx acks w (addressed TWI_MTX address TW_WRITE n sendStop tb start)
    0 (length data) [e] Hacks) as (t' & -> & Hst'); try done; try lia.
  { rewrite Hbuf. simpl. rewrite length_app, length_take, length_drop. lia. }
  destruct (failure_ready tx rx w e t' c Hf Hc) as (t'' & Hv & Hr' & Hcode).
  simpl. rewrite writing_busy by done. rewrite Hv. simpl. unfold writing. rewrite Hr'. simpl.
  exists t''. split; [|done]. do 2 f_equal. exact Hcode.
Qed.

(** ** Boundary cases *)

(** Bus events of a device that keeps sending. *)
Definition endless_read : list event :=
  mkEvent TW_START 0 [] :: mkEvent TW_MR_SLA_ACK 0 [] :: replicate 33 (mkEvent TW_MR_DATA_ACK 165 []).

(** [twi_readFrom] accepts a length of 0, which makes the announced length 255: the driver
    keeps acknowledging, and the thirty-third byte of the device is stored past the end of
    [twi_masterBuffer]. *)
Lemma read_zero_overruns {W} tx rx (w : W) data evs1 :
  twi_readFrom tx rx 80 data 0 1 evs1 endless_read w after_init = Fault.
Proof. unfold twi_readFrom. rewrite ready_spin by reflexivity. vm_compute. reflexivity. Qed.

(** Two paths in which the driver does not do what its comments promise. [twi_readFrom]
    accepts a length of 0, which makes the announced length 255: the driver keeps acknowledging,
    and the thirty-third byte of the device is stored past the end of [twi_masterBuffer]. And a
    master write that finds the bus taken by another master, which then addresses this device as a
    slave, is abandoned (the request for a START is overwritten by the handler) without sending a
    byte, but [twi_writeTo] reports success. *)
Theorem twi_corner_cases :
  (forall W tx rx (w : W) data evs1,
     twi_readFrom tx rx 80 data 0 1 evs1 endless_read w after_init = Fault) /\
  let evs := [mkEvent TW_SR_SLA_ACK 0 []; mkEvent TW_SR_STOP 0 [false]] in
  let t1 := master_start TWI_MTX 80 TW_WRITE 1 1 (after_init <| twi_masterBuffer ::= <[0%nat := 7]> |>) in
  (exists t', twi_writeTo tx_two rx_none 80 [7] 1 1 1 [] evs tt after_init = Ok (tt, t', 0) /\
     Z.testbit (TWCR t') TWSTA = false /\ twi_masterBufferIndex t' = 0) /\
  hw_legal HIdle t1 TW_SR_SLA_ACK /\
  observe tx_two rx_none TWDR writing evs tt t1 = [].
Proof.
  split; [intros W tx rx w data evs1; apply read_zero_overruns|].
  split; [eexists; split; vm_compute; [reflexivity|done]|]. split; vm_compute; done.
Qed.

(** *** Witnesses *)

Definition w_start : event := mkEvent TW_START 0 [].
Definition w_acks : list event := [mkEvent TW_MT_SLA_ACK 0 [false]; mkEvent TW_MT_DATA_ACK 0 [false]].

Lemma clears_now : clears [false].
Proof. apply poll_ok. reflexivity. Qed.
Lemma w_acks_clear : all_clear w_acks.
Proof. repeat constructor. Qed.

Lemma twi_writeTo_transfers_witness :
  exists t', twi_writeTo tx_two rx_none 80 [7] (Z.of_nat (length [7])) 1 1 []
    (opening after_init w_start ++ w_acks) tt after_init = Ok (tt, t', 0) /\ twi_state t' = TWI_READY.
Proof.
  refine (proj1 (twi_writeTo_transfers tx_two rx_none tt after_init w_start w_acks 80 [7] 1 []
    eq_refl eq_refl _ _ (or_introl eq_refl) _ w_acks_clear eq_refl)).
  - simpl. lia.
  - lia.
  - constructor; [left; reflexivity|]. constructor; [right; reflexivity|]. constructor.
Defined.

Lemma twi_readFrom_receives_witness :
  exists t', twi_readFrom tx_two rx_none 80 [0; 0; 9] (Z.of_nat 2) 1 []
    (opening after_init w_start ++ mkEvent TW_MR_SLA_ACK 0 [] ::
       [mkEvent TW_MR_DATA_ACK 5 []] ++ [mkEvent TW_MR_DATA_NACK 6 [false]]) tt after_init
    = Ok (tt, t', map ev_data ([mkEvent TW_MR_DATA_ACK 5 []] ++ [mkEvent TW_MR_DATA_NACK 6 [false]])
                   ++ drop 2 [0; 0; 9], Z.of_nat 2) /\ twi_state t' = TWI_READY.
Proof.
  refine (proj1 (twi_readFrom_receives tx_two rx_none tt after_init w_start
    (mkEvent TW_MR_SLA_ACK 0 []) [mkEvent TW_MR_DATA_ACK 5 []] (mkEvent TW_MR_DATA_NACK 6 [false])
    80 [0; 0; 9] 1 [] eq_refl eq_refl _ (or_introl eq_refl) eq_refl _ eq_refl clears_now _ _)).
  - lia.
  - repeat constructor.
  - simpl. lia.
  - simpl. lia.
Defined.

Lemma twi_writeTo_errors_witness :
  exists t', twi_writeTo tx_two rx_none 80 [7; 8] (Z.of_nat (length [7; 8])) 1 1 []
    (opening after_init w_start ++ [mkEvent TW_MT_SLA_ACK 0 []] ++ [mkEvent TW_MT_DATA_NACK 0 [false]])
    tt after_init = Ok (tt, t', 3) /\ twi_state t' = TWI_READY.
Proof.
  refine (twi_writeTo_errors tx_two rx_none tt after_init w_start
    [mkEvent TW_MT_SLA_ACK 0 []] (mkEvent TW_MT_DATA_NACK 0 [false]) 3 80 [7; 8] 1 []
    eq_refl eq_refl (or_introl eq_refl) _ _ eq_refl clears_now).
  - constructor; [left; reflexivity|constructor].
  - simpl. lia.
Defined.

End TwiMaster.
