(* ===== verification/Wire.v ===== *)
(** * The Wire class (libraries/Wire/Wire.cpp)

    The class [TwoWire] that sketches use over the two-wire driver: its buffers, the transfers of a
    master, and the services that the driver's interrupt handler calls when the device is
    addressed as a slave. Methods of the main program are taken as atomic but for their waits. *)

From S2P Require Import Prelude.
From S2P Require Import Avr.
From S2P Require Import Twi.
From S2P Require Import TwiSafety.
From S2P Require Import TwiMaster.
From stdpp Require Import relations.
From Stdlib Require Import Lia ZArith.
Import Twi TwiSafety TwiMaster.

#[local] Open Scope Z_scope.

Module Wire.

Definition BUFFER_LENGTH := 32.

(** The class variables, and [write_error] of [Print]. *)
Record TwoWire := mkWire {
  rxBuffer : list Z; rxBufferIndex : Z; rxBufferLength : Z;
  txAddress : Z; txBuffer : list Z; txBufferIndex : Z; txBufferLength : Z;
  transmitting : Z; user_onRequest : Z; user_onReceive : Z; write_error : Z }.
#[export] Instance eta_wire : Eta TwoWire :=
  {| eta w := mkWire (rxBuffer w) (rxBufferIndex w) (rxBufferLength w) (txAddress w) (txBuffer w) (txBufferIndex w)
       (txBufferLength w) (transmitting w) (user_onRequest w) (user_onReceive w) (write_error w); eta_id := ltac:(by intros []) |}.

Definition new_wire : TwoWire := mkWire (replicate 32 0) 0 0 0 (replicate 32 0) 0 0 0 0 0 0.

(** ** Bytes *)

(** What [write] does in master mode when it has found room: with [write_store] as its own step, the
    interrupt handler can come before it. *)
Definition write_store (data : Z) (w : TwoWire) : res TwoWire :=
  b ← lift (aset (txBuffer w) (txBufferIndex w) data);
  let w := w <| txBuffer := b |> <| txBufferIndex ::= fun i => u8 (i + 1) |> in
  Ok (w <| txBufferLength := txBufferIndex w |>).
Definition write (data : Z) (w : TwoWire) (t : twi) : res (TwoWire * twi * Z) :=
  if negb (transmitting w =? 0) then
    if BUFFER_LENGTH <=? txBufferLength w then Ok (w <| write_error := 1 |>, t, 0)
    else w ← write_store data w; Ok (w, t, 1)
  else '(t, _) ← twi_transmit [data] 1 t; Ok (w, t, 1).

(** [n] bytes from the index [i] on; what [write] returns is not looked at. *)
Fixpoint write_array (n : nat) (i : Z) (data : list Z) (w : TwoWire) (t : twi) : res (TwoWire * twi) :=
  match n with
  | O => Ok (w, t)
  | S n' => x ← lift (aget data i); '(w, t, _) ← write x w t; write_array n' (i + 1) data w t
  end.
Definition write_buffer (data : list Z) (quantity : Z) (w : TwoWire) (t : twi) : res (TwoWire * twi * Z) :=
  if negb (transmitting w =? 0) then '(w, t) ← write_array (Z.to_nat quantity) 0 data w t; Ok (w, t, quantity)
  else '(t, _) ← twi_transmit data (u8 quantity) t; Ok (w, t, quantity).

Definition available (w : TwoWire) : Z := rxBufferLength w - rxBufferIndex w.
Definition read (w : TwoWire) : res (TwoWire * Z) :=
  if rxBufferIndex w <? rxBufferLength w then
    value ← lift (aget (rxBuffer w) (rxBufferIndex w)); Ok (w <| rxBufferIndex ::= fun i => u8 (i + 1) |>, value)
  else Ok (w, -1).
Definition peek (w : TwoWire) : res Z :=
  if rxBufferIndex w <? rxBufferLength w then lift (aget (rxBuffer w) (rxBufferIndex w)) else Ok (-1).

Definition onReceive (function : Z) (w : TwoWire) : TwoWire := w <| user_onReceive := function |>.
Definition onRequest (function : Z) (w : TwoWire) : TwoWire := w <| user_onRequest := function |>.

(** ** The services of a slave *)

(** What a sketch's handler does with the class. *)
Inductive handler_op := HWrite (b : Z) | HWriteBuffer (data : list Z) (quantity : Z) | HRead.
Definition handle_op (o : handler_op) (w : TwoWire) (t : twi) : res (TwoWire * twi) :=
  match o with
  | HWrite b => '(w, t, _) ← write b w t; Ok (w, t)
  | HWriteBuffer data quantity => '(w, t, _) ← write_buffer data quantity w t; Ok (w, t)
  | HRead => '(w, _) ← read w; Ok (w, t)
  end.
Fixpoint handle (ops : list handler_op) (w : TwoWire) (t : twi) : res (TwoWire * twi) :=
  match ops with [] => Ok (w, t) | o :: ops' => '(w, t) ← handle_op o w t; handle ops' w t end.

Section Services.
(** The sketch: its state, and what its handlers do, given what they can see. *)
Context {U : Type}.
Variable request_handler : Z -> U -> TwoWire -> U * list handler_op.
Variable receive_handler : Z -> Z -> U -> TwoWire -> U * list handler_op.

Definition onRequestService (uw : U * TwoWire) (t : twi) : res ((U * TwoWire) * twi) :=
  let '(u, w) := uw in
  if user_onRequest w =? 0 then Ok ((u, w), t)
  else
    let w := w <| txBufferIndex := 0 |> <| txBufferLength := 0 |> in
    let '(u, ops) := request_handler (user_onRequest w) u w in
    '(w, t) ← handle ops w t; Ok ((u, w), t).
Definition onReceiveService (inBytes : list Z) (numBytes : Z) (uw : U * TwoWire) (t : twi) : res ((U * TwoWire) * twi) :=
  let '(u, w) := uw in
  if user_onReceive w =? 0 then Ok ((u, w), t)
  else if rxBufferIndex w <? rxBufferLength w then Ok ((u, w), t)
  else
    b ← lift (copy_loop (Z.to_nat numBytes) (rxBuffer w) inBytes);
    let w := w <| rxBuffer := b |> <| rxBufferIndex := 0 |> <| rxBufferLength := u8 numBytes |> in
    let '(u, ops) := receive_handler (user_onReceive w) numBytes u w in
    '(w, t) ← handle ops w t; Ok ((u, w), t).

(** The callbacks of the driver: the services, which [begin] registers with an address. *)
Definition wire_tx (f : Z) (uw : U * TwoWire) (t : twi) : res ((U * TwoWire) * twi) := onRequestService uw t.
Definition wire_rx (f : Z) (inBytes : list Z) (numBytes : Z) (uw : U * TwoWire) (t : twi) : res ((U * TwoWire) * twi) :=
  onReceiveService inBytes numBytes uw t.
#[local] Abbreviation spin := (spin wire_tx wire_rx).

(** ** The transfers of a master *)

(** [begin]: without an address, as a master only, and with one; the services are pointers that
    are not null. *)
Definition begin_ (R : regfile) (w : TwoWire) (t : twi) : option (regfile * TwoWire * twi) :=
  let w := w <| rxBufferIndex := 0 |> <| rxBufferLength := 0 |> <| txBufferIndex := 0 |> <| txBufferLength := 0 |> in
  '(R, t) ← twi_init R t; Some (R, w, t).
Definition begin_address (address : Z) (R : regfile) (w : TwoWire) (t : twi) : option (regfile * TwoWire * twi) :=
  begin_ R w (twi_attachSlaveRxEvent 1 (twi_attachSlaveTxEvent 1 (twi_setAddress address t))).

Definition beginTransmission (address : Z) (w : TwoWire) : TwoWire :=
  w <| transmitting := 1 |> <| txAddress := address |> <| txBufferIndex := 0 |> <| txBufferLength := 0 |>.

(** The buffer is passed by its address: it is read when the driver is ready, after the first wait,
    during which the services may have written to it. *)
Definition endTransmission (sendStop : Z) (evs1 evs2 : list event) (uw : U * TwoWire) (t : twi)
    : res ((U * TwoWire) * twi * Z) :=
  let address := txAddress (snd uw) in
  let length := txBufferLength (snd uw) in
  '(uw, t) ← (if TWI_BUFFER_LENGTH <? length then Ok (uw, t)
              else '(uw, t, _) ← spin (fun t => negb (TWI_READY =? twi_state t)) evs1 uw t; Ok (uw, t));
  '(uw, t, ret) ← twi_writeTo wire_tx wire_rx address (txBuffer (snd uw)) length 1 sendStop [] evs2 uw t;
  let '(u, w) := uw in
  Ok ((u, w <| txBufferIndex := 0 |> <| txBufferLength := 0 |> <| transmitting := 0 |>), t, ret).

(** The bytes that were read are stored over what the buffer holds after the waits. *)
Definition requestFrom (address quantity sendStop : Z) (evs1 evs2 : list event) (uw : U * TwoWire) (t : twi)
    : res ((U * TwoWire) * twi * Z) :=
  let quantity := if BUFFER_LENGTH <? quantity then BUFFER_LENGTH else quantity in
  '(uw, t, data, n) ← twi_readFrom wire_tx wire_rx address (rxBuffer (snd uw)) quantity sendStop evs1 evs2 uw t;
  let '(u, w) := uw in
  let data := take (Z.to_nat n) data ++ drop (Z.to_nat n) (rxBuffer w) in
  Ok ((u, w <| rxBuffer := data |> <| rxBufferIndex := 0 |> <| rxBufferLength := n |>), t, n).
End Services.

(** ** Memory safety *)

(** Indices and lengths stay within the buffers. *)
Record wire_ok (w : TwoWire) : Prop := {
  ok_rx : length (rxBuffer w) = 32%nat; ok_rx_index : 0 <= rxBufferIndex w <= 32; ok_rx_length : 0 <= rxBufferLength w <= 32;
  ok_tx : length (txBuffer w) = 32%nat; ok_tx_index : 0 <= txBufferIndex w <= 32; ok_tx_length : txBufferLength w = txBufferIndex w }.
Definition op_ok (o : handler_op) : Prop :=
  match o with HWriteBuffer data quantity => 0 <= quantity <= Z.of_nat (length data) | _ => True end.

(** How many bytes a handler writes. *)
Definition written (o : handler_op) : Z := match o with HWrite _ => 1 | HWriteBuffer _ quantity => quantity | HRead => 0 end.
Definition total (ops : list handler_op) : Z := foldr (fun o n => written o + n) 0 ops.

Lemma read_ok w : wire_ok w -> exists w' v, read w = Ok (w', v) /\ wire_ok w' /\ txBufferIndex w' = txBufferIndex w.
Proof.
  intros Hw. pose proof Hw as []. unfold read. destruct (Z.ltb_spec (rxBufferIndex w) (rxBufferLength w)); [|by exists w, (-1)].
  destruct (aget_Some (rxBuffer w) (rxBufferIndex w)) as [x ->]; [lia|]. eexists _, x. split; [done|]. split; [|done].
  constructor; simpl; try done. words.
Qed.
(** In master mode a byte goes into the buffer. *)
Lemma store_ok data w : wire_ok w -> txBufferIndex w < 32 ->
  exists w', write_store data w = Ok w' /\ wire_ok w' /\ transmitting w' = transmitting w /\ txBufferIndex w' = txBufferIndex w + 1.
Proof.
  intros Hw Hi. pose proof Hw as []. unfold write_store. rewrite aset_Some by lia. simpl. eexists. split; [done|].
  split; [constructor; simpl; rewrite ?length_insert; try done; words|]. split; [done|]. simpl. words.
Qed.
Lemma write_master data w t : wire_ok w -> transmitting w <> 0 ->
  exists w' r, write data w t = Ok (w', t, r) /\ wire_ok w' /\ transmitting w' <> 0 /\
    txBufferIndex w' = Z.min 32 (txBufferIndex w + 1).
Proof.
  intros Hw Ht. pose proof Hw as []. unfold write. rewrite (proj2 (Z.eqb_neq _ _) Ht). simpl.
  destruct (Z.leb_spec BUFFER_LENGTH (txBufferLength w)); unfold BUFFER_LENGTH in *.
  - eexists _, _. split; [done|]. split; [by constructor|]. split; [done|]. simpl. lia.
  - destruct (store_ok data w Hw) as (w' & -> & Hw' & Ht' & Hi'); [lia|]. simpl. eexists _, _. split; [done|].
    split; [done|]. split; [congruence|]. lia.
Qed.
Lemma write_array_master data t : forall n i w, wire_ok w -> transmitting w <> 0 -> 0 <= i -> i + Z.of_nat n <= Z.of_nat (length data) ->
  exists w', write_array n i data w t = Ok (w', t) /\ wire_ok w' /\ txBufferIndex w' <= txBufferIndex w + Z.of_nat n.
Proof.
  induction n as [|n IH]; intros i w Hw Ht Hi Hl; [exists w; split; [done|]; split; [done|lia]|]. cbn [write_array].
  destruct (aget_Some data i) as [x ->]; [lia|]. cbn [lift mbind res_bind].
  destruct (write_master x w t Hw Ht) as (w1 & r & -> & Hw1 & Ht1 & Hi1). cbn [mbind res_bind].
  destruct (IH (i + 1) w1 Hw1 Ht1) as (w2 & -> & Hw2 & Hi2); [lia..|]. exists w2. split; [done|]. split; [done|]. lia.
Qed.
Lemma transmits_app l1 l2 t : transmits (l1 ++ l2) t = (t' ← transmits l1 t; transmits l2 t').
Proof.
  revert t. induction l1 as [|[data len] l1 IH]; intros t; simpl; [done|].
  destruct (twi_transmit data len t) as [[t1 r]| |]; simpl; [apply IH|done..].
Qed.
(** A driver that does not answer as a slave takes nothing. *)
Lemma transmits_refused l t : twi_state t <> TWI_STX -> transmits l t = Ok t.
Proof.
  intros Ht. induction l as [|[data len] l IH]; [done|]. simpl. unfold twi_transmit. case_if; [done|].
  rewrite (proj2 (Z.eqb_neq TWI_STX (twi_state t))) by congruence. done.
Qed.
Lemma handle_op_ok o w t : wire_ok w -> op_ok o ->
  exists w' l, wire_ok w' /\ txBufferIndex w' <= txBufferIndex w + written o /\ Forall hands_over l /\
    handle_op o w t = (t' ← transmits l t; Ok (w', t')).
Proof.
  intros Hw Ho. destruct o as [b|data q|]; simpl.
  - destruct (decide (transmitting w = 0)) as [Hz|Hz].
    + exists w, [([b], 1)]. split; [done|]. split; [lia|]. split; [repeat constructor; simpl; lia|]. unfold write. rewrite Hz. simpl.
      by destruct (twi_transmit [b] 1 t) as [[t1 r]| |].
    + destruct (write_master b w t Hw Hz) as (w' & r & -> & Hw' & _ & Hi'). exists w', []. split; [done|]. split; [lia|done].
  - unfold write_buffer. destruct (decide (transmitting w = 0)) as [Hz|Hz].
    + exists w, [(data, u8 q)]. split; [done|]. split; [simpl in Ho; lia|]. split.
      * repeat constructor; simpl; [apply u8_range|]. simpl in Ho. words.
      * rewrite Hz. simpl. by destruct (twi_transmit data (u8 q) t) as [[t1 r]| |].
    + rewrite (proj2 (Z.eqb_neq _ _) Hz). simpl in Ho |- *.
      destruct (write_array_master data t (Z.to_nat q) 0 w Hw Hz) as (w' & -> & Hw' & Hi'); [lia..|]. exists w', []. split; [done|]. split; [lia|done].
  - destruct (read_ok w Hw) as (w' & v & -> & Hw' & Hi'). exists w', []. split; [done|]. split; [lia|done].
Qed.
Lemma handle_ok : forall ops w t, wire_ok w -> Forall op_ok ops ->
  exists w' l, wire_ok w' /\ txBufferIndex w' <= txBufferIndex w + total ops /\ Forall hands_over l /\
    handle ops w t = (t' ← transmits l t; Ok (w', t')).
Proof.
  induction ops as [|o ops IH]; intros w t Hw Ho; [exists w, []; split; [done|]; split; [simpl; lia|done]|]. apply Forall_cons_1 in Ho as [Ho Hops].
  destruct (handle_op_ok o w t Hw Ho) as (w1 & l1 & Hw1 & Hi1 & Hl1 & Hr1).
  assert (0 <= total ops) as Hpos by (clear - Hops; induction Hops as [|o l Ho _ IHo]; simpl; [lia|]; destruct o; simpl in *; lia). cbn [handle]. rewrite Hr1.
  destruct (transmits l1 t) as [t1| |] eqn:Et; cbn [mbind res_bind].
  - destruct (IH w1 t1 Hw1 Hops) as (w2 & l2 & Hw2 & Hi2 & Hl2 & Hr2). exists w2, (l1 ++ l2). split; [done|]. split; [simpl; lia|].
    split; [by apply Forall_app|]. rewrite Hr2, transmits_app, Et. done.
  - exists w1, l1. rewrite Et. split; [done|]. split; [simpl; lia|done].
  - exists w1, l1. rewrite Et. split; [done|]. split; [simpl; lia|done].
Qed.

Section Safe.
Context {U : Type}.
Variable request_handler : Z -> U -> TwoWire -> U * list handler_op.
Variable receive_handler : Z -> Z -> U -> TwoWire -> U * list handler_op.
(** The sketch's handlers give [write] as many bytes as they say. *)
Class HandlersOk : Prop := {
  request_ok f u w : Forall op_ok (snd (request_handler f u w));
  receive_ok f n u w : Forall op_ok (snd (receive_handler f n u w)) }.
Definition uw_ok (uw : U * TwoWire) : Prop := wire_ok (snd uw).

(** The services hand over what the handlers write, and move the index by no more than that. *)
Lemma request_service `{!HandlersOk} f u w t : wire_ok w -> exists uw' l, wire_ok (snd uw') /\
  (txBufferIndex (snd uw') = txBufferIndex w \/
   txBufferIndex (snd uw') <= total (snd (request_handler (user_onRequest w) u (w <| txBufferIndex := 0 |> <| txBufferLength := 0 |>)))) /\
  Forall hands_over l /\ wire_tx request_handler f (u, w) t = (t' ← transmits l t; Ok (uw', t')).
Proof.
  intros Hw. unfold wire_tx, onRequestService. destruct (user_onRequest w =? 0); [exists (u, w), []; split; [done|]; split; [by left|done]|].
  match goal with |- context [request_handler ?f u ?x] => pose proof (request_ok f u x) as Ho; set (w1 := x) in * end.
  change (user_onRequest w1) with (user_onRequest w) in *.
  destruct (request_handler _ u w1) as [u1 ops]. destruct (handle_ok ops w1 t) as (w2 & l & Hw2 & Hi2 & Hl & ->); [|done|].
  { destruct Hw. constructor; simpl; done || lia. }
  exists (u1, w2), l. split; [done|]. split; [by right|]. split; [done|]. by destruct (transmits l t).
Qed.
Lemma receive_service `{!HandlersOk} f b n u w t : wire_ok w -> length b = 32%nat -> 0 <= n <= 32 -> twi_state t <> TWI_STX ->
  exists uw', wire_rx receive_handler f b n (u, w) t = Ok (uw', t) /\ wire_ok (snd uw') /\
    exists f' u' w', txBufferIndex (snd uw') <= txBufferIndex w + Z.max 0 (total (snd (receive_handler f' n u' w'))).
Proof.
  intros Hw Hb Hn Ht. unfold wire_rx, onReceiveService.
  assert (exists f' u' w', txBufferIndex w <= txBufferIndex w + Z.max 0 (total (snd (receive_handler f' n u' w')))) as Hsame
    by (exists 0, u, w; lia).
  destruct (user_onReceive w =? 0); [by exists (u, w)|]. destruct (_ <? _); [by exists (u, w)|]. pose proof Hw as [].
  rewrite copy_loop_spec by lia. cbn [lift mbind res_bind].
  match goal with |- context [receive_handler ?f n u ?x] => pose proof (receive_ok f n u x) as Ho; set (w1 := x) in * end.
  destruct (receive_handler (user_onReceive w1) n u w1) as [u1 ops] eqn:Eh. destruct (handle_ok ops w1 t) as (w2 & l & Hw2 & Hi2 & Hl & ->); [|done|].
  { constructor; simpl; try done; try lia; [rewrite length_app, length_take, length_drop; lia|]. words. }
  exists (u1, w2). rewrite transmits_refused by done. split; [done|]. split; [done|]. exists (user_onReceive w1), u, w1. rewrite Eh.
  change (txBufferIndex w1) with (txBufferIndex w) in Hi2. simpl. lia.
Qed.

(** The class keeps its promise to the driver. *)
#[export] Instance wire_callbacks `{!HandlersOk} : SlaveCallbacks (wire_tx request_handler) (wire_rx receive_handler) uw_ok.
Proof.
  split.
  - intros f [u w] t Hw. destruct (request_service f u w t Hw) as (uw' & l & H1 & _ & H2). by exists uw', l.
  - intros f b n [u w] t Hw Hb Hn Ht. destruct (receive_service f b n u w t Hw Hb Hn Ht) as (uw' & H1 & H2 & _). by exists uw'.
Qed.

(** Handlers that write fewer than 32 bytes to a request and nothing on reception leave room for
    a byte, if there was room. *)
Class HandlersModest : Prop := {
  modest_ok :: HandlersOk;
  modest_request f u w : total (snd (request_handler f u w)) < 32;
  modest_receive f n u w : total (snd (receive_handler f n u w)) <= 0 }.
Definition uw_room (uw : U * TwoWire) : Prop := wire_ok (snd uw) /\ txBufferIndex (snd uw) < 32.
Lemma modest_callbacks `{!HandlersModest} : SlaveCallbacks (wire_tx request_handler) (wire_rx receive_handler) uw_room.
Proof.
  split.
  - intros f [u w] t [Hw Hi]. destruct (request_service f u w t Hw) as (uw' & l & H1 & Hi' & H2). exists uw', l. split; [|done].
    split; [done|]. simpl in Hi. destruct Hi' as [Hi'|Hi']; [lia|]. eapply Z.le_lt_trans; [exact Hi'|apply modest_request].
  - intros f b n [u w] t [Hw Hi] Hb Hn Ht. destruct (receive_service f b n u w t Hw Hb Hn Ht) as (uw' & H1 & H2 & f' & u' & w' & Hi').
    exists uw'. split; [|done]. split; [done|]. pose proof (modest_receive f' n u' w'). simpl in Hi. lia.
Qed.
End Safe.

(** ** Transmission and reception *)

(** Writing byte after byte, with what each call returns. *)
Fixpoint write_each (bytes : list Z) (w : TwoWire) (t : twi) : res (TwoWire * twi * list Z) :=
  match bytes with
  | [] => Ok (w, t, [])
  | b :: bytes' => '(w, t, r) ← write b w t; '(w, t, rs) ← write_each bytes' w t; Ok (w, t, r :: rs)
  end.
Lemma write_each_ok t : forall bytes w k, wire_ok w -> transmitting w <> 0 -> txBufferIndex w = Z.of_nat k ->
  exists w' rs, write_each bytes w t = Ok (w', t, rs) /\ wire_ok w' /\ transmitting w' <> 0 /\ txAddress w' = txAddress w /\
    rs = replicate (min (32 - k) (length bytes)) 1 ++ replicate (length bytes - (32 - k)) 0 /\
    txBufferIndex w' = Z.of_nat (min 32 (k + length bytes)) /\
    take (min 32 (k + length bytes)) (txBuffer w') = take k (txBuffer w) ++ take (32 - k) bytes.
Proof.
  induction bytes as [|b bytes IH]; intros w k Hw Ht Hk; pose proof Hw as [].
  - exists w, []. split; [done|]. split; [done|]. split; [done|]. split; [done|]. change (length (@nil Z)) with 0%nat. rewrite Nat.min_0_r, Nat.add_0_r, take_nil, app_nil_r, (Nat.min_r 32 k) by lia.
    split; [reflexivity|]. split; [exact Hk|]. by rewrite app_nil_r.
  - destruct (write_master b w t Hw Ht) as (w1 & r & Hrun & Hw1 & Ht1 & _). pose proof Hrun as Hr1. unfold write, write_store in Hr1.
    rewrite (proj2 (Z.eqb_neq _ _) Ht) in Hr1. simpl negb in Hr1. cbv iota in Hr1. rewrite ok_tx_length0, Hk in Hr1.
    assert (exists k1, txBufferIndex w1 = Z.of_nat k1 /\ txAddress w1 = txAddress w /\
      k1 = min 32 (S k) /\ r = (if decide (k < 32)%nat then 1 else 0) /\
      take k1 (txBuffer w1) = take k (txBuffer w) ++ take (32 - k) [b]) as (k1 & Hk1 & Ha1 & Hm1 & Hrr & Hb1).
    { destruct (Z.leb_spec BUFFER_LENGTH (Z.of_nat k)) as [Hge|Hlt]; unfold BUFFER_LENGTH in *.
      - injection Hr1 as <- <-. exists k. rewrite decide_False by lia. replace (32 - k)%nat with 0%nat by lia.
        rewrite app_nil_r. split_and!; try done. lia.
      - rewrite aset_nat in Hr1 by lia. simpl in Hr1. injection Hr1 as <- <-. exists (S k). rewrite decide_True by lia.
        split; [simpl; rewrite Hk; words|]. split; [done|]. split; [lia|]. split; [done|]. cbn [txBuffer set_field].
        change (take (S k) (<[k:=b]> (txBuffer w)) = take k (txBuffer w) ++ take (32 - k) [b]).
        rewrite (take_S_r _ k b) by (apply list_lookup_insert_eq; lia).
        rewrite take_insert_ge by lia. replace (32 - k)%nat with (S (31 - k)) by lia. simpl. by rewrite take_nil. }
    destruct (IH w1 k1 Hw1 Ht1 Hk1) as (w2 & rs & Hrun2 & Hw2 & Ht2 & Ha2 & Hrs & Hi2 & Hb2).
    exists w2, (r :: rs). cbn [write_each]. rewrite Hrun. cbn [mbind res_bind]. rewrite Hrun2. split; [done|].
    split; [done|]. split; [done|]. split; [congruence|]. simpl length. destruct (decide (k < 32)%nat) as [Hlt|Hge].
    + replace k1 with (S k) in * by lia. split; [|split].
      * rewrite Hrr, Hrs. replace (min (32 - k) (S (length bytes))) with (S (min (32 - S k) (length bytes))) by lia.
        by replace (S (length bytes) - (32 - k))%nat with (length bytes - (32 - S k))%nat by lia.
      * rewrite Hi2. f_equal. lia.
      * replace (min 32 (k + S (length bytes))) with (min 32 (S k + length bytes)) by lia. rewrite Hb2, Hb1, <- app_assoc.
        replace (32 - k)%nat with (S (32 - S k)) by lia. simpl. by rewrite take_nil.
    + replace k1 with k in * by lia. assert (k = 32)%nat as -> by lia. split; [|split].
      * rewrite Hrr, Hrs. simpl. by rewrite ?Nat.sub_0_r.
      * by rewrite Hi2.
      * replace (min 32 (32 + S (length bytes))) with (min 32 (32 + length bytes)) by lia. rewrite Hb2, Hb1. simpl. by rewrite !app_nil_r.
Qed.
Lemma write_array_each data t : forall bytes i w, transmitting w <> 0 -> drop i data = bytes ->
  write_array (length bytes) (Z.of_nat i) data w t = ('(w, t, _) ← write_each bytes w t; Ok (w, t)).
Proof.
  induction bytes as [|b bytes IH]; intros i w Ht Hd; [done|]. cbn [write_array write_each length].
  assert (data !! i = Some b) as Hi by (by rewrite <- (Nat.add_0_r i), <- lookup_drop, Hd).
  rewrite aget_nat, Hi. cbn [lift mbind res_bind]. unfold write, write_store. rewrite (proj2 (Z.eqb_neq _ _) Ht). simpl negb. cbv iota.
  assert (forall w1, transmitting w1 <> 0 -> write_array (length bytes) (Z.of_nat i + 1) data w1 t = ('(w, t, _) ← write_each bytes w1 t; Ok (w, t))) as Hn.
  { intros w1 Hw1. replace (Z.of_nat i + 1) with (Z.of_nat (S i)) by lia. apply IH; [done|].
    replace (S i) with (i + 1)%nat by lia. by rewrite <- drop_drop, Hd. }
  destruct (_ <=? _); [|destruct (aset _ _ _); [|done]]; cbn [lift mbind res_bind]; rewrite Hn by done;
    by destruct (write_each _ _ _) as [[[? ?] ?]| |].
Qed.

(** What a sketch sees: how many bytes are left, and the next one. *)
Fixpoint reads (n : nat) (w : TwoWire) : res (TwoWire * list (Z * Z * Z)) :=
  match n with
  | O => Ok (w, [])
  | S n' => p ← peek w; '(w1, b) ← read w; '(w2, l) ← reads n' w1; Ok (w2, (available w, p, b) :: l)
  end.
Fixpoint expected (bytes : list Z) : list (Z * Z * Z) :=
  match bytes with [] => [(0, -1, -1)] | b :: bytes' => (Z.of_nat (length bytes), b, b) :: expected bytes' end.
Lemma reads_S n w : reads (S n) w = (p ← peek w; '(w1, b) ← read w; '(w2, l) ← reads n w1; Ok (w2, (available w, p, b) :: l)).
Proof. done. Qed.
Lemma reads_expected : forall bytes w i, wire_ok w -> rxBufferIndex w = Z.of_nat i -> rxBufferLength w = Z.of_nat (i + length bytes) ->
  take (length bytes) (drop i (rxBuffer w)) = bytes -> exists w', reads (S (length bytes)) w = Ok (w', expected bytes).
Proof.
  induction bytes as [|b bytes IH]; intros w i Hw Hi Hl Hb; pose proof Hw as [].
  - cbn [reads length]. unfold peek, read, available. rewrite Hi, Hl, Nat.add_0_r, Z.ltb_irrefl. simpl. rewrite Z.sub_diag. by eexists.
  - simpl in Hl, Hb. rewrite (reads_S (length (b :: bytes))). unfold peek, read, available. rewrite (proj2 (Z.ltb_lt _ _)) by lia. rewrite Hi, Hl.
    assert (rxBuffer w !! i = Some b) as Hb0.
    { destruct (drop i (rxBuffer w)) as [|x l] eqn:Ed; [done|]. injection Hb as -> _.
      by rewrite <- (Nat.add_0_r i), <- lookup_drop, Ed. }
    rewrite aget_nat, Hb0. cbn [lift mbind res_bind].
    match goal with |- context [reads _ ?x] => destruct (IH x (S i)) as (w' & Hr) end.
    + constructor; simpl; try done. rewrite Hi. words.
    + simpl. rewrite Hi. words.
    + simpl. rewrite Hl. lia.
    + simpl. rewrite (drop_S _ _ _ Hb0) in Hb. by injection Hb.
    + change (length (b :: bytes)) with (S (length bytes)). rewrite Hr.
      replace (Z.of_nat (i + S (length bytes)) - Z.of_nat i) with (Z.of_nat (S (length bytes))) by lia. by eexists.
Qed.

(** The driver looks at as many bytes as it is told. *)
Lemma writeTo_take {W} tx rx address data (n : nat) ss evs2 (w : W) t :
  twi_state t = TWI_READY -> length (twi_masterBuffer t) = 32%nat -> (n <= 32)%nat -> (n <= length data)%nat ->
  twi_writeTo tx rx address data (Z.of_nat n) 1 ss [] evs2 w t = twi_writeTo tx rx address (take n data) (Z.of_nat n) 1 ss [] evs2 w t.
Proof.
  intros Hr Hm Hn Hd. unfold twi_writeTo. destruct (_ <? _); [done|]. rewrite ready_spin by done. cbn [mbind res_bind].
  rewrite Nat2Z.id, !copy_loop_spec by (rewrite ?length_take; lia). by rewrite take_take, Nat.min_id.
Qed.
Lemma transmission {U} request_handler receive_handler (u : U) w t start acks sendStop evs1 :
  let address := txAddress w in wire_ok w -> twi_state t = TWI_READY -> length (twi_masterBuffer t) = 32%nat -> 0 <= address < 128 ->
  ev_status start = TW_START \/ ev_status start = TW_REP_START ->
  Forall (fun e => ev_status e = TW_MT_SLA_ACK \/ ev_status e = TW_MT_DATA_ACK) acks ->
  all_clear acks -> length acks = S (Z.to_nat (txBufferIndex w)) ->
  let sent := take (Z.to_nat (txBufferIndex w)) (txBuffer w) in
  let tx := wire_tx request_handler in let rx := wire_rx receive_handler in
  exists w2 t', endTransmission request_handler receive_handler sendStop evs1 (opening t start ++ acks) (u, w) t = Ok ((u, w2), t', 0) /\
    wire_ok w2 /\ transmitting w2 = 0 /\ txBufferLength w2 = 0 /\ twi_state t' = TWI_READY /\
    let t1 := master_start TWI_MTX address TW_WRITE (Z.of_nat (length sent)) sendStop
                (t <| twi_masterBuffer := sent ++ drop (length sent) (twi_masterBuffer t) |>) in
    (if twi_inRepStart t =? 1 then [TWDR t1] else []) ++ observe tx rx TWDR writing (opening t start ++ acks) (u, w) t1
    = 2 * address :: sent.
Proof.
  intros address Hw Hr Hm Ha Hs Hacks Hc Hl sent tx rx. unfold address. pose proof Hw as [].
  assert (length sent = Z.to_nat (txBufferIndex w)) as Hls by (unfold sent; rewrite length_take; lia).
  destruct (writeTo_transfers tx rx (u, w) t start acks (txAddress w) sent sendStop []) as [(t' & Hrun & Hr') Hobs];
    [done|done|lia|done|done|done|done|lia|].
  exists (w <| txBufferIndex := 0 |> <| txBufferLength := 0 |> <| transmitting := 0 |>), t'.
  split; [|split; [|split; [done|split; [done|split; [done|exact Hobs]]]]].
  - unfold endTransmission. cbn [snd]. rewrite ok_tx_length0. unfold TWI_BUFFER_LENGTH. rewrite (proj2 (Z.ltb_ge _ _)) by lia.
    rewrite ready_spin by done. cbn [mbind res_bind]. fold tx rx.
    replace (txBufferIndex w) with (Z.of_nat (length sent)) by lia.
    assert (length sent <= 32)%nat by lia. assert (length sent <= length (txBuffer w))%nat by lia.
    rewrite writeTo_take by done. change (txBuffer (u, w).2) with (txBuffer w). replace (take (length sent) (txBuffer w)) with sent by (by rewrite Hls).
    rewrite Hrun. reflexivity.
  - constructor; simpl; try done; lia.
Qed.

(** ** Theorems *)

Lemma reachable_safe {U} request_handler receive_handler `{!HandlersOk (U:=U) request_handler receive_handler}
    address R R' (u0 : U) w0 t0 c :
  begin_address address R new_wire bss = Some (R', w0, t0) ->
  rtc (step (wire_tx request_handler) (wire_rx receive_handler) uw_ok 1) (HIdle, (u0, w0), t0) c -> safe uw_ok c.
Proof.
  intros Hb Hr. apply (steps_safe _ _ _ (HIdle, (u0, w0), t0)); [|exact Hr].
  unfold begin_address, begin_ in Hb. destruct (twi_init R _) as [[R1 t1]|] eqn:Ei; [|done]. injection Hb as _ <- <-.
  unfold twi_init in Ei. opt_inv Ei. opt_inv Ei. injection Ei as _ <-.
  split; [split; [constructor; simpl; done || lia|by intros _ [=]]|]. constructor; simpl; done || lia.
Qed.
(** A request handler that fills the buffer while the main program is about to store a byte. *)
Lemma filled_overruns {U} request_handler (u u' : U) w t bytes data f : wire_ok w -> transmitting w <> 0 -> user_onRequest w <> 0 ->
  (forall w1, request_handler (user_onRequest w) u w1 = (u', map HWrite bytes)) -> (32 <= length bytes)%nat ->
  exists w', wire_tx request_handler f (u, w) t = Ok ((u', w'), t) /\ write_store data w' = Fault.
Proof.
  intros Hw Ht Hu Hh Hlen. unfold wire_tx, onRequestService. rewrite (proj2 (Z.eqb_neq _ _) Hu).
  set (w1 := w <| txBufferIndex := 0 |> <| txBufferLength := 0 |>). change (user_onRequest w1) with (user_onRequest w). rewrite Hh.
  assert (wire_ok w1) as Hw1 by (destruct Hw; constructor; simpl; done || lia).
  assert (forall l w1, transmitting w1 <> 0 -> wire_ok w1 -> exists w', handle (map HWrite l) w1 t = Ok (w', t) /\ wire_ok w' /\
    txBufferIndex w' = Z.min 32 (txBufferIndex w1 + Z.of_nat (length l))) as Hall.
  { clear. induction l as [|b l IH]; intros w1 Ht Hw; [exists w1; split; [done|]; split; [done|]; destruct Hw; simpl; lia|].
    destruct (write_master b w1 t Hw Ht) as (w2 & r & Hrun & Hw2 & Ht2 & Hi2). destruct (IH w2 Ht2 Hw2) as (w3 & H3 & Hw3 & Hi3).
    exists w3. cbn [map handle handle_op]. rewrite Hrun. cbn [mbind res_bind]. split; [done|]. split; [done|]. simpl. lia. }
  destruct (Hall bytes w1 Ht Hw1) as (w' & -> & Hw' & Hi). exists w'. split; [done|]. unfold write_store.
  rewrite aset_None; [done|]. rewrite (ok_tx _ Hw'), Hi. simpl. lia.
Qed.

(** C5: the class in the role of a slave. After [begin] with an address, whatever the handlers of a
    sketch write and read, and under any interleaving of status codes that the hardware can report
    with the main program's work and its transfers (requests for at least one byte; every method
    but for its waits, and the set-up of a transfer, in one step), the interrupt handler with the
    services of the class never accesses a buffer out of range and returns once the hardware has
    completed its STOP; the indices of the class stay within its buffers, which is all that its
    methods need. A [write] of the main program may also be interrupted between its test for
    room and its store, whatever happens there, if the handlers write fewer than 32 bytes to a
    request and none on reception; a handler that writes 32 bytes there makes the store leave the
    buffer. *)
Theorem wire_slave_safe {U} request_handler receive_handler `{!HandlersOk (U:=U) request_handler receive_handler}
    address R R' u0 w0 t0 ph uw t :
  begin_address address R new_wire bss = Some (R', w0, t0) ->
  rtc (step (wire_tx request_handler) (wire_rx receive_handler) uw_ok 1) (HIdle, (u0, w0), t0) (ph, uw, t) ->
  (forall e, hw_legal ph t (ev_status e) ->
     TWI_vect (wire_tx request_handler) (wire_rx receive_handler) e uw t <> Fault /\
     (clears (ev_reads e) -> exists uw' t', TWI_vect (wire_tx request_handler) (wire_rx receive_handler) e uw t = Ok (uw', t'))) /\
  (wire_ok (snd uw) /\ forall a, wire_ok (beginTransmission a (snd uw))) /\
  (forall ops, Forall op_ok ops -> twi_state t <> TWI_STX -> exists w', handle ops (snd uw) t = Ok (w', t) /\ wire_ok w') /\
  (HandlersModest request_handler receive_handler -> txBufferLength (snd uw) < BUFFER_LENGTH ->
     forall ph2 uw2 t2 data, rtc (step (wire_tx request_handler) (wire_rx receive_handler) uw_room 1) (ph, uw, t) (ph2, uw2, t2) ->
     exists w', write_store data (snd uw2) = Ok w' /\ wire_ok w') /\
  (forall u' bytes data f, transmitting (snd uw) <> 0 -> user_onRequest (snd uw) <> 0 -> (32 <= length bytes)%nat ->
     (forall w1, request_handler (user_onRequest (snd uw)) (fst uw) w1 = (u', map HWrite bytes)) ->
     exists w', wire_tx request_handler f uw t = Ok ((u', w'), t) /\ write_store data w' = Fault).
Proof.
  intros Hb Hr. pose proof (reachable_safe _ _ _ _ _ _ _ _ _ Hb Hr) as Hs. pose proof Hs as [Hinv Hw]. change (wire_ok (snd uw)) in Hw.
  split; [intros e Hl; by apply (safe_handler _ _ uw_ok ph)|].
  split; [split; [done|intros a; destruct Hw; constructor; simpl; done || lia]|]. split; [|split].
  - intros ops Ho Ht. destruct (handle_ok ops (snd uw) t Hw Ho) as (w' & l & Hw' & _ & _ & ->). exists w'. by rewrite transmits_refused.
  - intros Hm Hlen ph2 uw2 t2 data Hr2. pose proof (@modest_callbacks _ _ _ Hm) as Hcb.
    destruct (steps_safe _ _ uw_room (ph, uw, t) (ph2, uw2, t2)) as [_ [Hw2 Hi2]]; [|done|].
    { split; [done|]. split; [done|]. rewrite (ok_tx_length _ Hw) in Hlen. exact Hlen. }
    destruct (store_ok data (snd uw2) Hw2 Hi2) as (w' & H1 & H2 & _). by exists w'.
  - intros u' bytes data f Ht Hu Hlen Hh. destruct uw as [u w]. by apply (filled_overruns request_handler u u' w t bytes).
Qed.

(** C30: a transmission. After [beginTransmission] the first 32 bytes that are written go into the
    buffer, and [write] reports the rest as refused, while the [write] of a whole array reports all
    of its bytes as written; [endTransmission] puts the address and exactly the bytes of the buffer on
    the bus, if the device acknowledges them, returns 0 and leaves the class ready for the next one. *)
Theorem wire_transmission {U} request_handler receive_handler (u : U) w t start acks address bytes sendStop evs1 :
  wire_ok w -> twi_state t = TWI_READY -> length (twi_masterBuffer t) = 32%nat -> 0 <= address < 128 ->
  ev_status start = TW_START \/ ev_status start = TW_REP_START ->
  Forall (fun e => ev_status e = TW_MT_SLA_ACK \/ ev_status e = TW_MT_DATA_ACK) acks ->
  all_clear acks -> length acks = S (min 32 (length bytes)) ->
  let tx := wire_tx request_handler in let rx := wire_rx receive_handler in
  let sent := take 32 bytes in
  exists w1 w2 t', write_each bytes (beginTransmission address w) t
      = Ok (w1, t, replicate (length sent) 1 ++ replicate (length bytes - 32) 0) /\
    write_buffer bytes (Z.of_nat (length bytes)) (beginTransmission address w) t = Ok (w1, t, Z.of_nat (length bytes)) /\
    endTransmission request_handler receive_handler sendStop evs1 (opening t start ++ acks) (u, w1) t = Ok ((u, w2), t', 0) /\
    wire_ok w2 /\ transmitting w2 = 0 /\ txBufferLength w2 = 0 /\ twi_state t' = TWI_READY /\
    let t1 := master_start TWI_MTX address TW_WRITE (Z.of_nat (length sent)) sendStop
                (t <| twi_masterBuffer := sent ++ drop (length sent) (twi_masterBuffer t) |>) in
    (if twi_inRepStart t =? 1 then [TWDR t1] else []) ++ observe tx rx TWDR writing (opening t start ++ acks) (u, w1) t1
    = 2 * address :: sent.
Proof.
  intros Hw Hr Hm Ha Hs Hacks Hc Hl tx rx sent. pose proof Hw as [].
  assert (wire_ok (beginTransmission address w)) as Hw0 by (constructor; simpl; done || lia).
  destruct (write_each_ok t bytes (beginTransmission address w) 0 Hw0) as (w1 & rs & Hrun & Hw1 & Ht1 & Ha1 & -> & Hi1 & Hb1); [done..|].
  assert (length sent = min 32 (length bytes)) as Hls by (unfold sent; by rewrite length_take).
  destruct (transmission request_handler receive_handler u w1 t start acks sendStop evs1)
    as (w2 & t' & H1 & H2 & H3 & H4 & H5 & H6); try done; [by rewrite Ha1|rewrite Hi1, Hl; simpl; lia|].
  exists w1, w2, t'. rewrite Hi1, Nat2Z.id, Ha1 in H6. change (txAddress (beginTransmission address w)) with address in H6. change (0 + length bytes)%nat with (length bytes) in *.
  rewrite Hb1 in H6. change (take 0 (txBuffer (beginTransmission address w)) ++ take (32 - 0) bytes) with sent in H6.
  split; [by rewrite Hrun, Hls|]. split; [|by split_and!].
  unfold write_buffer. simpl negb. cbv iota. rewrite Nat2Z.id. change 0 with (Z.of_nat 0) at 1.
  rewrite (write_array_each bytes t bytes 0) by done. by rewrite Hrun.
Qed.

(** C31: a reception. [requestFrom] asks an addressed device for the bytes, no more than 32, and returns
    how many came; then [available] counts down, and [peek] and [read] give the bytes as the device sent
    them, each once, and -1 when there is none left. *)
Theorem wire_reception {U} request_handler receive_handler (u : U) w t start sla dacks nack address quantity sendStop evs1 :
  wire_ok w -> twi_state t = TWI_READY -> length (twi_masterBuffer t) = 32%nat -> 0 <= address < 128 ->
  ev_status start = TW_START \/ ev_status start = TW_REP_START ->
  ev_status sla = TW_MR_SLA_ACK -> all_status TW_MR_DATA_ACK dacks ->
  ev_status nack = TW_MR_DATA_NACK -> clears (ev_reads nack) ->
  let bytes := map ev_data (dacks ++ [nack]) in
  length bytes = min 32 (Z.to_nat quantity) -> 
  exists w1 w2 t', requestFrom request_handler receive_handler address quantity sendStop evs1
      (opening t start ++ sla :: dacks ++ [nack]) (u, w) t = Ok ((u, w1), t', Z.of_nat (length bytes)) /\
    wire_ok w1 /\ twi_state t' = TWI_READY /\ reads (S (length bytes)) w1 = Ok (w2, expected bytes).
Proof.
  intros Hw Hr Hm Ha Hs Hsl Hda Hna Hcn bytes Hl. pose proof Hw as [].
  assert (length bytes = S (length dacks)) as Hlb by (unfold bytes; rewrite length_map, length_app; simpl; lia).
  destruct (readFrom_receives (wire_tx request_handler) (wire_rx receive_handler) (u, w) t start sla dacks nack address
    (rxBuffer w) sendStop evs1) as [(t' & Hrun & Hr') _]; try done; [lia..|]. fold bytes in Hrun. rewrite <- Hlb in Hrun.
  set (w1 := w <| rxBuffer := bytes ++ drop (length bytes) (rxBuffer w) |> <| rxBufferIndex := 0 |> <| rxBufferLength := Z.of_nat (length bytes) |>).
  assert (wire_ok w1) as Hw1.
  { constructor; simpl; rewrite ?length_app, ?length_drop; (done || lia). }
  destruct (reads_expected bytes w1 0 Hw1) as (w2 & Hrd); [done|done|exact (take_app_length bytes (drop (length bytes) (rxBuffer w)))|].
  exists w1, w2, t'. split; [|by split_and!]. unfold requestFrom, BUFFER_LENGTH.
  assert ((if 32 <? quantity then 32 else quantity) = Z.of_nat (length bytes)) as -> by (rewrite Hl; case_if; lia).
  cbn [snd]. rewrite Hrun. cbn [mbind res_bind]. rewrite Nat2Z.id, take_app_length. done.
Qed.

(** *** Witnesses *)

(** A sketch that answers a request with the byte it received last, twice. *)
Definition w_request (f u : Z) (w : TwoWire) : Z * list handler_op := (u, [HWrite u; HWriteBuffer [u; u] 2]).
Definition w_receive (f n u : Z) (w : TwoWire) : Z * list handler_op := (hd 0 (rxBuffer w), [HRead]).
#[export] Instance w_handlers : HandlersOk w_request w_receive.
Proof. split; intros; repeat constructor; simpl; lia. Qed.

#[export] Instance w_modest : HandlersModest w_request w_receive.
Proof. split; [apply w_handlers|intros; simpl; lia..]. Qed.
Lemma wire_slave_safe_witness :
  exists uw t, TWI_vect (wire_tx w_request) (wire_rx w_receive) (mkEvent TW_ST_SLA_ACK 0 []) uw t <> Fault /\
    user_onRequest (snd uw) = 1 /\ exists w', write_store 9 (snd uw) = Ok w' /\ wire_ok w'.
Proof.
  set (w1 := onRequest 1 (onReceive 1 new_wire)).
  destruct (begin_address 8 (fun _ => 0) new_wire bss) as [[[R' w0] t0]|] eqn:Eb; [|vm_compute in Eb; discriminate].
  pose proof Eb as El. vm_compute in El. injection El as _ <- <-.
  match type of Eb with _ = Some (_, ?w, ?t) => set (w0 := w) in *; set (t0 := t) in * end.
  assert (rtc (step (wire_tx w_request) (wire_rx w_receive) uw_ok 1) (HIdle, (7, w0), t0) (HIdle, (7, w1), t0)) as Hr.
  { eapply rtc_l; [|apply rtc_refl]. apply S_main. constructor; simpl; (reflexivity || lia). }
  destruct (wire_slave_safe w_request w_receive 8 (fun _ => 0) R' 7 w0 t0 HIdle (7, w1) t0 Eb Hr) as (H1 & _ & _ & H2 & _).
  exists (7, w1), t0. split; [|split; [reflexivity|]].
  - apply (H1 (mkEvent TW_ST_SLA_ACK 0 [])). vm_compute. repeat constructor; reflexivity.
  - apply (H2 w_modest) with (ph2 := HIdle) (t2 := t0); [reflexivity|apply rtc_refl].
Defined.

Lemma wire_transmission_witness :
  exists w1 w2 t', write_each [7] (beginTransmission 80 new_wire) after_init = Ok (w1, after_init, [1]) /\
    endTransmission w_request w_receive 1 [] (opening after_init w_start ++ w_acks) (7, w1) after_init = Ok ((7, w2), t', 0).
Proof.
  destruct (wire_transmission w_request w_receive 7 new_wire after_init w_start w_acks 80 [7] 1 []) as (w1 & w2 & t' & H1 & _ & H2 & _).
  - constructor; simpl; (reflexivity || lia).
  - reflexivity.
  - reflexivity.
  - lia.
  - left; reflexivity.
  - constructor; [left; reflexivity|]. constructor; [right; reflexivity|]. constructor.
  - exact w_acks_clear.
  - reflexivity.
  - exists w1, w2, t'. split; [exact H1|exact H2].
Defined.

Lemma wire_reception_witness :
  exists w1 w2 t', requestFrom w_request w_receive 80 2 1 []
      (opening after_init w_start ++ mkEvent TW_MR_SLA_ACK 0 [] :: [mkEvent TW_MR_DATA_ACK 5 []] ++ [mkEvent TW_MR_DATA_NACK 6 [false]])
      (7, new_wire) after_init = Ok ((7, w1), t', 2) /\
    reads 3 w1 = Ok (w2, [(2, 5, 5); (1, 6, 6); (0, -1, -1)]).
Proof.
  destruct (wire_reception w_request w_receive 7 new_wire after_init w_start (mkEvent TW_MR_SLA_ACK 0 [])
    [mkEvent TW_MR_DATA_ACK 5 []] (mkEvent TW_MR_DATA_NACK 6 [false]) 80 2 1 []) as (w1 & w2 & t' & H1 & _ & _ & H2).
  - constructor; simpl; (reflexivity || lia).
  - reflexivity.
  - reflexivity.
  - lia.
  - left; reflexivity.
  - reflexivity.
  - repeat constructor.
  - reflexivity.
  - exact clears_now.
  - reflexivity.
  - exists w1, w2, t'. split; [exact H1|exact H2].
Defined.
End Wire.
