(* ===== verification/HidParser.v ===== *)
(** * HID report descriptor parser (LUFA/Drivers/USB/Class/Common/HIDParser.c)

    The parser over a descriptor's bytes with its fixed-size tables (state stack, usage list,
    collection paths, report sizes, report items), and the accessors that move an item's value
    between a report and its [HID_ReportItem_t]. Pointers into the tables are indices; an access
    outside a table, a read past the end of the descriptor and a [memcpy] between overlapping
    regions are [Fault]. Struct sizes are those of AVR, where no type needs padding. *)

From S2P Require Import Prelude.
From Stdlib Require Import Lia ZArith.

#[local] Open Scope Z_scope.

Module HidParser.

(** ** Constants *)

Definition HID_STATETABLE_STACK_DEPTH := 2.
Definition HID_USAGE_STACK_DEPTH := 8.
Definition HID_MAX_COLLECTIONS := 10.
Definition HID_MAX_REPORTITEMS := 20.
Definition HID_MAX_REPORT_IDS := 10.

Definition HID_PARSE_Successful := 0.
Definition HID_PARSE_HIDStackOverflow := 1.
Definition HID_PARSE_HIDStackUnderflow := 2.
Definition HID_PARSE_InsufficientReportItems := 3.
Definition HID_PARSE_UnexpectedEndCollection := 4.
Definition HID_PARSE_InsufficientCollectionPaths := 5.
Definition HID_PARSE_UsageListOverflow := 6.
Definition HID_PARSE_InsufficientReportIDItems := 7.
Definition HID_PARSE_NoUnfilteredReportItems := 8.

Definition HID_REPORT_ITEM_In := 0.
Definition HID_REPORT_ITEM_Out := 1.
Definition HID_REPORT_ITEM_Feature := 2.

Definition HID_RI_DATA_SIZE_MASK := 3.
Definition HID_RI_TYPE_MASK := 12.
Definition HID_RI_TAG_MASK := 240.
Definition HID_RI_TYPE_MAIN := 0.
Definition HID_IOF_CONSTANT := 0. (* bit number *)

(** The items the parser knows; their type and tag bits are the [HID_RI_*] macros. *)
Inductive hid_tag :=
| HID_RI_INPUT | HID_RI_OUTPUT | HID_RI_COLLECTION | HID_RI_FEATURE | HID_RI_END_COLLECTION
| HID_RI_USAGE_PAGE | HID_RI_LOGICAL_MINIMUM | HID_RI_LOGICAL_MAXIMUM
| HID_RI_PHYSICAL_MINIMUM | HID_RI_PHYSICAL_MAXIMUM | HID_RI_UNIT_EXPONENT | HID_RI_UNIT
| HID_RI_REPORT_SIZE | HID_RI_REPORT_ID | HID_RI_REPORT_COUNT | HID_RI_PUSH | HID_RI_POP
| HID_RI_USAGE | HID_RI_USAGE_MINIMUM | HID_RI_USAGE_MAXIMUM.
#[export] Instance hid_tag_eq_dec : EqDecision hid_tag.
Proof. solve_decision. Defined.

Definition tag_code (t : hid_tag) : Z :=
  match t with
  | HID_RI_INPUT => 128 | HID_RI_OUTPUT => 144 | HID_RI_COLLECTION => 160
  | HID_RI_FEATURE => 176 | HID_RI_END_COLLECTION => 192
  | HID_RI_USAGE_PAGE => 4 | HID_RI_LOGICAL_MINIMUM => 20 | HID_RI_LOGICAL_MAXIMUM => 36
  | HID_RI_PHYSICAL_MINIMUM => 52 | HID_RI_PHYSICAL_MAXIMUM => 68 | HID_RI_UNIT_EXPONENT => 84
  | HID_RI_UNIT => 100 | HID_RI_REPORT_SIZE => 116 | HID_RI_REPORT_ID => 132
  | HID_RI_REPORT_COUNT => 148 | HID_RI_PUSH => 164 | HID_RI_POP => 180
  | HID_RI_USAGE => 8 | HID_RI_USAGE_MINIMUM => 24 | HID_RI_USAGE_MAXIMUM => 40
  end.
Definition all_tags : list hid_tag :=
  [HID_RI_INPUT; HID_RI_OUTPUT; HID_RI_COLLECTION; HID_RI_FEATURE; HID_RI_END_COLLECTION;
   HID_RI_USAGE_PAGE; HID_RI_LOGICAL_MINIMUM; HID_RI_LOGICAL_MAXIMUM; HID_RI_PHYSICAL_MINIMUM;
   HID_RI_PHYSICAL_MAXIMUM; HID_RI_UNIT_EXPONENT; HID_RI_UNIT; HID_RI_REPORT_SIZE;
   HID_RI_REPORT_ID; HID_RI_REPORT_COUNT; HID_RI_PUSH; HID_RI_POP; HID_RI_USAGE;
   HID_RI_USAGE_MINIMUM; HID_RI_USAGE_MAXIMUM].

(** The [switch] on [HIDReportItem & (HID_RI_TYPE_MASK | HID_RI_TAG_MASK)]. *)
Definition tag_of (HIDReportItem : Z) : option hid_tag :=
  find (fun t => Z.land HIDReportItem (Z.lor HID_RI_TYPE_MASK HID_RI_TAG_MASK) =? tag_code t) all_tags.

(** ** Data *)

Record HID_MinMax_t := mkMinMax { Minimum : Z; Maximum : Z }.
Record HID_Unit_t := mkUnit { UnitType : Z; Exponent : Z }.
Record HID_Usage_t := mkUsage { Page : Z; Usage : Z }.
Record HID_CollectionPath_t := mkPath { PathType : Z; PathUsage : HID_Usage_t; Parent : option Z }.
Record HID_ReportItem_Attributes_t := mkAttributes {
  BitSize : Z; AttrUsage : HID_Usage_t; Unit : HID_Unit_t;
  Logical : HID_MinMax_t; Physical : HID_MinMax_t }.
Record HID_ReportItem_t := mkItem {
  BitOffset : Z; ItemType : Z; ItemFlags : Z; ItemReportID : Z; CollectionPath : option Z;
  Attributes : HID_ReportItem_Attributes_t; Value : Z; PreviousValue : Z }.
Record HID_ReportSizeInfo_t := mkSizeInfo { SizeReportID : Z; ReportSizeBits : list Z }.
Record HID_ReportInfo_t := mkInfo {
  TotalReportItems : Z; ReportItems : list HID_ReportItem_t;
  CollectionPaths : list HID_CollectionPath_t;
  TotalDeviceReports : Z; ReportIDSizes : list HID_ReportSizeInfo_t;
  LargestReportSizeBits : Z; UsingReportIDs : bool }.
Record HID_StateTable_t := mkState {
  StAttributes : HID_ReportItem_Attributes_t; ReportCount : Z; StReportID : Z }.

#[export] Instance eta_minmax : Eta HID_MinMax_t :=
  {| eta r := mkMinMax (Minimum r) (Maximum r); eta_id := ltac:(by intros []) |}.
#[export] Instance eta_unit : Eta HID_Unit_t :=
  {| eta r := mkUnit (UnitType r) (Exponent r); eta_id := ltac:(by intros []) |}.
#[export] Instance eta_usage : Eta HID_Usage_t :=
  {| eta r := mkUsage (Page r) (Usage r); eta_id := ltac:(by intros []) |}.
#[export] Instance eta_path : Eta HID_CollectionPath_t :=
  {| eta r := mkPath (PathType r) (PathUsage r) (Parent r); eta_id := ltac:(by intros []) |}.
#[export] Instance eta_attributes : Eta HID_ReportItem_Attributes_t :=
  {| eta r := mkAttributes (BitSize r) (AttrUsage r) (Unit r) (Logical r) (Physical r);
     eta_id := ltac:(by intros []) |}.
#[export] Instance eta_item : Eta HID_ReportItem_t :=
  {| eta r := mkItem (BitOffset r) (ItemType r) (ItemFlags r) (ItemReportID r) (CollectionPath r)
       (Attributes r) (Value r) (PreviousValue r); eta_id := ltac:(by intros []) |}.
#[export] Instance eta_sizeinfo : Eta HID_ReportSizeInfo_t :=
  {| eta r := mkSizeInfo (SizeReportID r) (ReportSizeBits r); eta_id := ltac:(by intros []) |}.
#[export] Instance eta_info : Eta HID_ReportInfo_t :=
  {| eta r := mkInfo (TotalReportItems r) (ReportItems r) (CollectionPaths r)
       (TotalDeviceReports r) (ReportIDSizes r) (LargestReportSizeBits r) (UsingReportIDs r);
     eta_id := ltac:(by intros []) |}.
#[export] Instance eta_state : Eta HID_StateTable_t :=
  {| eta r := mkState (StAttributes r) (ReportCount r) (StReportID r); eta_id := ltac:(by intros []) |}.

(** The objects [memset] to zero. *)
Definition zero_attributes : HID_ReportItem_Attributes_t :=
  mkAttributes 0 (mkUsage 0 0) (mkUnit 0 0) (mkMinMax 0 0) (mkMinMax 0 0).
Definition zero_item : HID_ReportItem_t := mkItem 0 0 0 0 None zero_attributes 0 0.
Definition zero_path : HID_CollectionPath_t := mkPath 0 (mkUsage 0 0) None.
Definition zero_sizes : HID_ReportSizeInfo_t := mkSizeInfo 0 [0; 0; 0].
Definition zero_state : HID_StateTable_t := mkState zero_attributes 0 0.
Definition zero_info : HID_ReportInfo_t :=
  mkInfo 0 (replicate 20 zero_item) (replicate 10 zero_path) 0 (replicate 10 zero_sizes) 0 false.

Definition sizeof_HID_ReportItem_Attributes_t := 1 + (2 + 2) + (4 + 1) + (4 + 4) + (4 + 4).
Definition sizeof_HID_ReportItem_t := 2 + 1 + 2 + 1 + 2 + sizeof_HID_ReportItem_Attributes_t + 4 + 4.
Definition sizeof_HID_StateTable_t := sizeof_HID_ReportItem_Attributes_t + 1 + 1.

(** The local variables of [USB_ProcessHIDReport] and the structure it fills. *)
Record parser := mkParser {
  StateTable : list HID_StateTable_t; CurrStateTable : Z;
  CurrCollectionPath : option Z; CurrReportIDInfo : Z;
  UsageList : list Z; UsageListSize : Z; UsageMinMax : HID_MinMax_t;
  ParserData : HID_ReportInfo_t }.
#[export] Instance eta_parser : Eta parser :=
  {| eta r := mkParser (StateTable r) (CurrStateTable r) (CurrCollectionPath r)
       (CurrReportIDInfo r) (UsageList r) (UsageListSize r) (UsageMinMax r) (ParserData r);
     eta_id := ltac:(by intros []) |}.

(** An item either goes on to the next one or returns from the function. *)
Inductive flow := Next (s : parser) | Return (code : Z) (s : parser).

(** ** Operations *)

(** [memcpy(CurrStateTable + 1, CurrStateTable, n)] for an [n] of at least the element's size:
    a longer copy overlaps its source and runs past the next element. *)
Definition memcpy_next (n k : Z) (l : list HID_StateTable_t) : option (list HID_StateTable_t) :=
  if n =? sizeof_HID_StateTable_t then x ← aget l k; aset l (k + 1) x else None.

(** [for (i = 0; i < UsageListSize; i++) UsageList[i] = UsageList[i + 1];] *)
Fixpoint shift_usages (i n : nat) (l : list Z) : option (list Z) :=
  match n with
  | O => Some l
  | S n' =>
      x ← aget l (Z.of_nat i + 1);
      l ← aset l (Z.of_nat i) x;
      shift_usages (S i) n' l
  end.

(** The usage of a collection or report item: the first of the list, or the next of the range. *)
Definition next_usage (s : parser) : option (option Z * parser) :=
  if negb (UsageListSize s =? 0) then
    u ← aget (UsageList s) 0;
    l ← shift_usages 0 (Z.to_nat (UsageListSize s)) (UsageList s);
    Some (Some u, s <| UsageList := l |> <| UsageListSize ::= fun n => u8 (n - 1) |>)
  else if Minimum (UsageMinMax s) <=? Maximum (UsageMinMax s) then
    Some (Some (u16 (Minimum (UsageMinMax s))),
          s <| UsageMinMax := UsageMinMax s <| Minimum ::= fun m => u32 (m + 1) |> |>)
  else Some (None, s).

(** Update of the current state table entry. *)
Definition upd_state (f : HID_StateTable_t -> HID_StateTable_t) (s : parser) : option parser :=
  st ← aget (StateTable s) (CurrStateTable s);
  l ← aset (StateTable s) (CurrStateTable s) (f st);
  Some (s <| StateTable := l |>).
Definition upd_attributes (f : HID_ReportItem_Attributes_t -> HID_ReportItem_Attributes_t)
  : parser -> option parser := upd_state (fun st => st <| StAttributes ::= f |>).

(** The report-size entry of a report ID, searched among the first [n]. *)
Fixpoint find_report (n : nat) (i : Z) (sizes : list HID_ReportSizeInfo_t) (id : Z) : option (option Z) :=
  match n with
  | O => Some None
  | S n' =>
      e ← aget sizes i;
      if SizeReportID e =? id then Some (Some i) else find_report n' (i + 1) sizes id
  end.

Definition set_report_id (k id : Z) (s : parser) : option parser :=
  let p := ParserData s in
  e ← aget (ReportIDSizes p) k;
  l ← aset (ReportIDSizes p) k (e <| SizeReportID := id |>);
  Some (s <| CurrReportIDInfo := k |>
          <| ParserData := p <| UsingReportIDs := true |> <| ReportIDSizes := l |> |>).

Definition report_id (data : Z) (s : parser) : option flow :=
  s ← upd_state (fun st => st <| StReportID := u8 data |>) s;
  let p := ParserData s in
  if UsingReportIDs p then
    r ← find_report (Z.to_nat (TotalDeviceReports p)) 0 (ReportIDSizes p) (u8 data);
    match r with
    | Some k => s ← set_report_id k (u8 data) s; Some (Next s)
    | None =>
        if TotalDeviceReports p =? HID_MAX_REPORT_IDS then
          Some (Return HID_PARSE_InsufficientReportIDItems s)
        else
          l ← aset (ReportIDSizes p) (TotalDeviceReports p) zero_sizes;
          s ← set_report_id (TotalDeviceReports p) (u8 data)
                (s <| ParserData := p <| TotalDeviceReports ::= fun n => u8 (n + 1) |>
                                      <| ReportIDSizes := l |> |>);
          Some (Next s)
    end
  else s ← set_report_id (CurrReportIDInfo s) (u8 data) s; Some (Next s).

(** The first free collection path from [k] on; [Some None] when all of them are in use. *)
Fixpoint free_path (fuel : nat) (k : Z) (paths : list HID_CollectionPath_t) : option (option Z) :=
  match fuel with
  | O => None
  | S fuel' =>
      e ← aget paths k;
      match Parent e with
      | None => Some (Some k)
      | Some _ => if k =? HID_MAX_COLLECTIONS - 1 then Some None else free_path fuel' (k + 1) paths
      end
  end.

Definition upd_path (k : Z) (f : HID_CollectionPath_t -> HID_CollectionPath_t) (s : parser) : option parser :=
  e ← aget (CollectionPaths (ParserData s)) k;
  l ← aset (CollectionPaths (ParserData s)) k (f e);
  Some (s <| ParserData ::= fun p => p <| CollectionPaths := l |> |>).

(** Type, page and usage of the collection that was just entered. *)
Definition enter_collection (k data : Z) (s : parser) : option flow :=
  st ← aget (StateTable s) (CurrStateTable s);
  s ← upd_path k (fun c => c <| PathType := u8 data |>
        <| PathUsage ::= fun u => u <| Page := Page (AttrUsage (StAttributes st)) |> |>)
        (s <| CurrCollectionPath := Some k |>);
  '(u, s) ← next_usage s;
  match u with
  | Some u => s ← upd_path k (fun c => c <| PathUsage ::= fun x => x <| Usage := u |> |>) s; Some (Next s)
  | None => Some (Next s)
  end.

Definition collection (data : Z) (s : parser) : option flow :=
  match CurrCollectionPath s with
  | None => enter_collection 0 data s
  | Some parent =>
      r ← free_path 9 1 (CollectionPaths (ParserData s));
      match r with
      | None =>
          Some (Return HID_PARSE_InsufficientCollectionPaths
                  (s <| CurrCollectionPath := Some (HID_MAX_COLLECTIONS - 1) |>))
      | Some k => s ← upd_path k (fun c => c <| Parent := Some parent |>) s; enter_collection k data s
      end
  end.

Section Parser.
(** The application's filter callback, and the contents of uninitialised locals. *)
Variable CALLBACK_HIDParser_FilterHIDReportItem : HID_ReportItem_t -> bool.
Variables (stale_state : HID_StateTable_t) (stale_usages : list Z) (stale_value stale_previous : Z).

(** One pass of the loop over [ReportCount]. *)
Definition report_item (type data : Z) (s : parser) : option flow :=
  st ← aget (StateTable s) (CurrStateTable s);
  '(u, s) ← next_usage s;
  let attrs := match u with
    | Some u => StAttributes st <| AttrUsage ::= fun x => x <| Usage := u |> |>
    | None => StAttributes st end in
  let p := ParserData s in
  info ← aget (ReportIDSizes p) (CurrReportIDInfo s);
  offset ← aget (ReportSizeBits info) type;
  let item := mkItem offset type (u16 data) (StReportID st) (CurrCollectionPath s) attrs
                stale_value stale_previous in
  let bits := u16 (offset + BitSize (StAttributes st)) in
  sizes ← aset (ReportSizeBits info) type bits;
  infos ← aset (ReportIDSizes p) (CurrReportIDInfo s) (info <| ReportSizeBits := sizes |>);
  let p := p <| ReportIDSizes := infos |>
             <| LargestReportSizeBits ::= fun m => if bits <? m then m else bits |> in
  if TotalReportItems p =? HID_MAX_REPORTITEMS then
    Some (Return HID_PARSE_InsufficientReportItems (s <| ParserData := p |>))
  else
    items ← aset (ReportItems p) (TotalReportItems p) item;
    let p := p <| ReportItems := items |> in
    let p := if negb (Z.testbit data HID_IOF_CONSTANT) && CALLBACK_HIDParser_FilterHIDReportItem item
             then p <| TotalReportItems ::= fun n => u8 (n + 1) |> else p in
    Some (Next (s <| ParserData := p |>)).

Fixpoint report_items (n : nat) (type data : Z) (s : parser) : option flow :=
  match n with
  | O => Some (Next s)
  | S n' =>
      f ← report_item type data s;
      match f with
      | Next s => report_items n' type data s
      | Return c s => Some (Return c s)
      end
  end.

Definition main_item (type data : Z) (s : parser) : option flow :=
  st ← aget (StateTable s) (CurrStateTable s);
  report_items (Z.to_nat (ReportCount st)) type data s.

(** The [switch] of an item whose value is [data]. *)
Definition switch_item (HIDReportItem data : Z) (s : parser) : option flow :=
  let attr f := s ← upd_attributes f s; Some (Next s) in
  match tag_of HIDReportItem with
  | None => Some (Next s)
  | Some HID_RI_PUSH =>
      if CurrStateTable s =? HID_STATETABLE_STACK_DEPTH - 1 then
        Some (Return HID_PARSE_HIDStackOverflow s)
      else
        l ← memcpy_next sizeof_HID_ReportItem_t (CurrStateTable s) (StateTable s);
        Some (Next (s <| StateTable := l |> <| CurrStateTable ::= fun k => k + 1 |>))
  | Some HID_RI_POP =>
      if CurrStateTable s =? 0 then Some (Return HID_PARSE_HIDStackUnderflow s)
      else Some (Next (s <| CurrStateTable ::= fun k => k - 1 |>))
  | Some HID_RI_USAGE_PAGE =>
      s ← (if Z.land HIDReportItem HID_RI_DATA_SIZE_MASK =? 3 then
             upd_attributes (fun a => a <| AttrUsage ::= fun u => u <| Page := u16 (Z.shiftr data 16) |> |>) s
           else Some s);
      s ← upd_attributes (fun a => a <| AttrUsage ::= fun u => u <| Page := u16 data |> |>) s;
      Some (Next s)
  | Some HID_RI_LOGICAL_MINIMUM => attr (fun a => a <| Logical ::= fun m => m <| Minimum := data |> |>)
  | Some HID_RI_LOGICAL_MAXIMUM => attr (fun a => a <| Logical ::= fun m => m <| Maximum := data |> |>)
  | Some HID_RI_PHYSICAL_MINIMUM => attr (fun a => a <| Physical ::= fun m => m <| Minimum := data |> |>)
  | Some HID_RI_PHYSICAL_MAXIMUM => attr (fun a => a <| Physical ::= fun m => m <| Maximum := data |> |>)
  | Some HID_RI_UNIT_EXPONENT => attr (fun a => a <| Unit ::= fun m => m <| Exponent := u8 data |> |>)
  | Some HID_RI_UNIT => attr (fun a => a <| Unit ::= fun m => m <| UnitType := data |> |>)
  | Some HID_RI_REPORT_SIZE => attr (fun a => a <| BitSize := u8 data |>)
  | Some HID_RI_REPORT_COUNT =>
      s ← upd_state (fun st => st <| ReportCount := u8 data |>) s; Some (Next s)
  | Some HID_RI_REPORT_ID => report_id data s
  | Some HID_RI_USAGE =>
      if UsageListSize s =? HID_USAGE_STACK_DEPTH then Some (Return HID_PARSE_UsageListOverflow s)
      else
        l ← aset (UsageList s) (UsageListSize s) (u16 data);
        Some (Next (s <| UsageList := l |> <| UsageListSize ::= fun n => u8 (n + 1) |>))
  | Some HID_RI_USAGE_MINIMUM => Some (Next (s <| UsageMinMax ::= fun m => m <| Minimum := data |> |>))
  | Some HID_RI_USAGE_MAXIMUM => Some (Next (s <| UsageMinMax ::= fun m => m <| Maximum := data |> |>))
  | Some HID_RI_COLLECTION => collection data s
  | Some HID_RI_END_COLLECTION =>
      match CurrCollectionPath s with
      | None => Some (Return HID_PARSE_UnexpectedEndCollection s)
      | Some k =>
          e ← aget (CollectionPaths (ParserData s)) k;
          Some (Next (s <| CurrCollectionPath := Parent e |>))
      end
  | Some HID_RI_INPUT => main_item HID_REPORT_ITEM_In data s
  | Some HID_RI_OUTPUT => main_item HID_REPORT_ITEM_Out data s
  | Some HID_RI_FEATURE => main_item HID_REPORT_ITEM_Feature data s
  end.

(** A main item resets the local items. *)
Definition exec_item (HIDReportItem data : Z) (s : parser) : option flow :=
  f ← switch_item HIDReportItem data s;
  match f with
  | Return c s => Some (Return c s)
  | Next s =>
      if Z.land HIDReportItem HID_RI_TYPE_MASK =? HID_RI_TYPE_MAIN then
        Some (Next (s <| UsageMinMax := mkMinMax 0 0 |> <| UsageListSize := 0 |>))
      else Some (Next s)
  end.

Definition finish (s : parser) : Z * HID_ReportInfo_t :=
  (if TotalReportItems (ParserData s) =? 0 then HID_PARSE_NoUnfilteredReportItems
   else HID_PARSE_Successful, ParserData s).

(** The loop over the descriptor: [ReportData] is the rest of the buffer. *)
Fixpoint parse (ReportData : list Z) (ReportSize : Z) (s : parser) : option (Z * HID_ReportInfo_t) :=
  if ReportSize =? 0 then Some (finish s) else
  match ReportData with
  | [] => None
  | item :: rest =>
      let size := u16 (ReportSize - 1) in
      let go data k := f ← exec_item item data s;
        match f with Return c s => Some (c, ParserData s) | Next s => k s end in
      let width := Z.land item HID_RI_DATA_SIZE_MASK in
      if width =? 3 then
        match rest with
        | b0 :: b1 :: b2 :: b3 :: rest' =>
            go (Z.lor (Z.lor (Z.lor (Z.shiftl b3 24) (Z.shiftl b2 16)) (Z.shiftl b1 8)) b0)
               (fun s => parse rest' (u16 (size - 4)) s)
        | _ => None
        end
      else if width =? 2 then
        match rest with
        | b0 :: b1 :: rest' => go (Z.lor (Z.shiftl b1 8) b0) (fun s => parse rest' (u16 (size - 2)) s)
        | _ => None
        end
      else if width =? 1 then
        match rest with
        | b0 :: rest' => go b0 (fun s => parse rest' (u16 (size - 1)) s)
        | _ => None
        end
      else go 0 (fun s => parse rest size s)
  end.

Definition initial : parser :=
  mkParser [zero_state; stale_state] 0 None 0 stale_usages 0 (mkMinMax 0 0)
    (zero_info <| TotalDeviceReports := 1 |>).

Definition USB_ProcessHIDReport (ReportData : list Z) (ReportSize : Z)
  : option (Z * HID_ReportInfo_t) := parse ReportData ReportSize initial.
End Parser.

(** ** Access to an item's value *)

(** The loop of [USB_GetHIDReportItemInfo]; [k] bits remain. *)
Fixpoint get_bits (k : nat) (ReportData : list Z) (CurrentBit BitMask value : Z) : option Z :=
  match k with
  | O => Some value
  | S k' =>
      b ← aget ReportData (CurrentBit / 8);
      let value := if negb (Z.land b (Z.shiftl 1 (CurrentBit mod 8)) =? 0)
                   then Z.lor value BitMask else value in
      get_bits k' ReportData (u16 (CurrentBit + 1)) (u32 (Z.shiftl BitMask 1)) value
  end.

Definition USB_GetHIDReportItemInfo (ReportData : list Z) (item : HID_ReportItem_t)
  : option (bool * HID_ReportItem_t) :=
  let read data :=
    v ← get_bits (Z.to_nat (BitSize (Attributes item))) data (BitOffset item) 1 0;
    Some (true, item <| PreviousValue := Value item |> <| Value := v |>) in
  if negb (ItemReportID item =? 0) then
    id ← aget ReportData 0;
    if negb (ItemReportID item =? id) then Some (false, item) else read (tail ReportData)
  else read ReportData.

(** The loop of [USB_SetHIDReportItemInfo]; the byte that is or-ed keeps the low bits of the
    32-bit mask. *)
Fixpoint set_bits (k : nat) (ReportData : list Z) (CurrentBit BitMask value : Z) : option (list Z) :=
  match k with
  | O => Some ReportData
  | S k' =>
      data ← (if negb (Z.land value (Z.shiftl 1 (CurrentBit mod 8)) =? 0) then
                b ← aget ReportData (CurrentBit / 8);
                aset ReportData (CurrentBit / 8) (u8 (Z.lor b BitMask))
              else Some ReportData);
      set_bits k' data (u16 (CurrentBit + 1)) (u32 (Z.shiftl BitMask 1)) value
  end.

Definition USB_SetHIDReportItemInfo (ReportData : list Z) (item : HID_ReportItem_t)
  : option (list Z * HID_ReportItem_t) :=
  let item' := item <| PreviousValue := Value item |> in
  let write data := set_bits (Z.to_nat (BitSize (Attributes item))) data (BitOffset item) 1 (Value item) in
  if negb (ItemReportID item =? 0) then
    data ← aset ReportData 0 (ItemReportID item);
    match data with
    | [] => None
    | id :: rest => rest ← write rest; Some (id :: rest, item')
    end
  else data ← write ReportData; Some (data, item').

Fixpoint report_size (n : nat) (i : Z) (sizes : list HID_ReportSizeInfo_t) (ReportID ReportType : Z) : option Z :=
  match n with
  | O => Some 0
  | S n' =>
      e ← aget sizes i;
      bits ← aget (ReportSizeBits e) ReportType;
      if SizeReportID e =? ReportID then Some (bits / 8 + (if negb (bits mod 8 =? 0) then 1 else 0))
      else report_size n' (i + 1) sizes ReportID ReportType
  end.
Definition USB_GetHIDReportSize (p : HID_ReportInfo_t) (ReportID ReportType : Z) : option Z :=
  report_size (Z.to_nat HID_MAX_REPORT_IDS) 0 (ReportIDSizes p) ReportID ReportType.

End HidParser.
