(* ===== verification/HidSafety.v ===== *)
(** * Safety of the HID report descriptor parser

    The invariant of the parser's tables and its preservation by every item; the decoding of
    the descriptors that the [HID_RI_*] macros of HIDReportData.h write; totality of
    [USB_ProcessHIDReport] on them; and the descriptors it mishandles. *)

From S2P Require Import Prelude.
From S2P Require Import HidParser.
From Stdlib Require Import Lia ZArith.
Import HidParser.

#[local] Open Scope Z_scope.

Module HidSafety.

(** ** The tables *)

Definition path_ok (n : Z) (c : HID_CollectionPath_t) : Prop :=
  match Parent c with Some j => 0 <= j < n | None => True end.

Record info_ok (p : HID_ReportInfo_t) : Prop := {
  io_items : length (ReportItems p) = 20%nat;
  io_total : 0 <= TotalReportItems p <= 20;
  io_paths : length (CollectionPaths p) = 10%nat;
  io_parents : Forall (path_ok 10) (CollectionPaths p);
  io_sizes : length (ReportIDSizes p) = 10%nat;
  io_bits : Forall (fun e => length (ReportSizeBits e) = 3%nat) (ReportIDSizes p);
  io_reports : 1 <= TotalDeviceReports p <= 10 }.

Record inv (s : parser) : Prop := {
  iv_info : info_ok (ParserData s);
  iv_states : length (StateTable s) = 2%nat;
  iv_state : 0 <= CurrStateTable s < 2;
  iv_path : match CurrCollectionPath s with Some k => 0 <= k < 10 | None => True end;
  iv_report : 0 <= CurrReportIDInfo s < TotalDeviceReports (ParserData s);
  iv_usages : length (UsageList s) = 8%nat;
  iv_usage : 0 <= UsageListSize s <= 8 }.

Definition flow_state (f : flow) : parser := match f with Next s | Return _ s => s end.

(** What an operation keeps: the tables, and the usage list does not grow. *)
Definition keeps (s s' : parser) : Prop := inv s' /\ UsageListSize s' <= UsageListSize s.

Lemma keeps_refl s : inv s -> keeps s s.
Proof. done. Qed.
Lemma keeps_trans s1 s2 s3 : keeps s1 s2 -> keeps s2 s3 -> keeps s1 s3.
Proof. intros [_ H1] [H H2]. split; [done|lia]. Qed.

Lemma Forall_aset {A} (P : A -> Prop) l i v l' : Forall P l -> P v -> aset l i v = Some l' -> Forall P l'.
Proof. intros Hl Hv [_ ->]%aset_inv. by apply Forall_insert. Qed.
Lemma Forall_aget {A} (P : A -> Prop) l i v : Forall P l -> aget l i = Some v -> P v.
Proof.
  unfold aget. destruct (0 <=? i); [|done]. intros Hl Hv. by eapply Forall_lookup_1.
Qed.

Lemma shift_usages_ok n : forall i l,
  (i + n < length l)%nat ->
  exists l', shift_usages i n l = Some l' /\ length l' = length l.
Proof.
  induction n as [|n IH]; intros i l Hl; simpl; [by exists l|].
  destruct (aget_Some l (Z.of_nat i + 1)) as [x ->]; [lia|]. simpl.
  rewrite aset_nat by lia. simpl.
  destruct (IH (S i) (<[i:=x]> l)) as (l' & -> & H); [rewrite length_insert; lia|].
  exists l'. split; [done|]. by rewrite H, length_insert.
Qed.

Lemma next_usage_ok s :
  inv s -> UsageListSize s <= 7 ->
  exists u s', next_usage s = Some (u, s') /\ keeps s s' /\ CurrStateTable s' = CurrStateTable s /\
    StateTable s' = StateTable s /\ ParserData s' = ParserData s /\
    CurrReportIDInfo s' = CurrReportIDInfo s /\ CurrCollectionPath s' = CurrCollectionPath s.
Proof.
  intros [] Hu. unfold next_usage. destruct (Z.eqb_spec (UsageListSize s) 0); simpl.
  - case_if; eexists _, _; (split; [done|]); (split; [|done]); (split; [|done]); by constructor.
  - destruct (aget_Some (UsageList s) 0) as [x ->]; [lia|]. simpl.
    destruct (shift_usages_ok (Z.to_nat (UsageListSize s)) 0 (UsageList s)) as (l & -> & Hl); [lia|].
    simpl. eexists _, _. split; [done|]. split; [|done].
    assert (u8 (UsageListSize s - 1) = UsageListSize s - 1) as Hw by words.
    split; [|simpl; lia]. constructor; simpl; rewrite ?Hw, ?Hl; (done || lia).
Qed.

Lemma curr_state s : inv s -> exists st, aget (StateTable s) (CurrStateTable s) = Some st.
Proof. intros []. apply aget_Some. lia. Qed.

Lemma upd_state_ok f s : inv s -> exists s', upd_state f s = Some s' /\ keeps s s'.
Proof.
  intros Hi. unfold upd_state. destruct (curr_state s Hi) as [st ->]. simpl. destruct Hi.
  rewrite aset_Some by lia. simpl. eexists. split; [done|]. split; [|simpl; lia].
  constructor; simpl; rewrite ?length_insert; (done || lia).
Qed.

Lemma upd_path_ok k f s :
  inv s -> 0 <= k < 10 -> (forall c, path_ok 10 c -> path_ok 10 (f c)) ->
  exists s', upd_path k f s = Some s' /\ keeps s s' /\ StateTable s' = StateTable s /\
    CurrStateTable s' = CurrStateTable s /\ CurrCollectionPath s' = CurrCollectionPath s.
Proof.
  intros [Hio] Hk Hf. unfold upd_path.
  destruct (aget_Some (CollectionPaths (ParserData s)) k) as [e He]; [destruct Hio; lia|].
  rewrite He. simpl. destruct (aset _ k (f e)) as [l|] eqn:Hl.
  2: { rewrite aset_Some in Hl by (destruct Hio; lia). done. }
  simpl. eexists. split; [done|]. split; [|done]. split; [|simpl; lia].
  constructor; simpl; try done. destruct Hio. constructor; simpl; try done.
  - by rewrite (aset_length _ _ _ _ Hl).
  - eapply Forall_aset; [done| |done]. apply Hf. by eapply Forall_aget.
Qed.


(** ** Items *)

(** An operation on a state succeeds and keeps the tables. *)
Definition runs (s : parser) (o : option flow) : Prop :=
  exists f, o = Some f /\ keeps s (flow_state f).

Lemma runs_Some s f : keeps s (flow_state f) -> runs s (Some f).
Proof. by exists f. Qed.
Lemma runs_trans s s' o : keeps s s' -> runs s' o -> runs s o.
Proof. intros Hk (f & -> & Hf). exists f. split; [done|]. by eapply keeps_trans. Qed.

Lemma find_report_ok n : forall i sizes id,
  0 <= i -> i + Z.of_nat n <= Z.of_nat (length sizes) ->
  exists r, find_report n i sizes id = Some r /\
    match r with Some k => i <= k < i + Z.of_nat n | None => True end.
Proof.
  induction n as [|n IH]; intros i sizes id Hi Hn; simpl; [by exists None|].
  destruct (aget_Some sizes i) as [e ->]; [lia|]. simpl. case_if; [exists (Some i); split; [done|lia]|].
  destruct (IH (i + 1) sizes id) as (r & -> & Hr); [lia..|]. exists r. split; [done|].
  destruct r; [lia|done].
Qed.

Lemma set_report_id_ok k id s :
  inv s -> 0 <= k < TotalDeviceReports (ParserData s) ->
  exists s', set_report_id k id s = Some s' /\ keeps s s'.
Proof.
  intros [Hio] Hk. unfold set_report_id. destruct (aget_Some (ReportIDSizes (ParserData s)) k) as [e He].
  { destruct Hio; lia. }
  rewrite He. simpl. destruct (aset _ k _) as [l|] eqn:Hl.
  2: { rewrite aset_Some in Hl by (destruct Hio; lia). done. }
  simpl. eexists. split; [done|]. split; [|simpl; lia].
  constructor; simpl; try done. destruct Hio. constructor; simpl; try done.
  - by rewrite (aset_length _ _ _ _ Hl).
  - eapply Forall_aset; [done| |done]. simpl. by eapply (Forall_aget _ _ _ _ io_bits0).
Qed.

Lemma report_id_ok data s : inv s -> runs s (report_id data s).
Proof.
  intros Hi. unfold report_id.
  destruct (upd_state_ok (fun st => st <| StReportID := u8 data |>) s Hi) as (s1 & -> & Hk1).
  apply (runs_trans _ s1); [done|]. destruct Hk1 as [Hi1 _]. simpl. clear s Hi.
  destruct (UsingReportIDs _).
  - destruct (find_report_ok (Z.to_nat (TotalDeviceReports (ParserData s1))) 0
      (ReportIDSizes (ParserData s1)) (u8 data)) as (r & -> & Hr).
    { lia. } { destruct Hi1 as [[]]. lia. }
    simpl. destruct r as [k|].
    + destruct (set_report_id_ok k (u8 data) s1 Hi1) as (s2 & -> & Hk2); [destruct Hi1 as [[]]; lia|].
      by apply runs_Some.
    + unfold HID_MAX_REPORT_IDS.
      destruct (Z.eqb_spec (TotalDeviceReports (ParserData s1)) 10); [by apply runs_Some|].
      destruct (aset _ _ zero_sizes) as [l|] eqn:Hl.
      2: { destruct Hi1 as [[]]. rewrite aset_Some in Hl by lia. done. }
      simpl. set (s2 := s1 <| ParserData := _ |>).
      assert (u8 (TotalDeviceReports (ParserData s1) + 1) = TotalDeviceReports (ParserData s1) + 1)
        as Hu by (destruct Hi1 as [[]]; words).
      assert (keeps s1 s2) as Hk2.
      { destruct Hi1 as [[]]. split; [|simpl; lia]. constructor; simpl; try done; [|lia].
        constructor; simpl; try done; try lia.
        - by rewrite (aset_length _ _ _ _ Hl).
        - by eapply (Forall_aset _ _ _ zero_sizes l io_bits0). }
      destruct (set_report_id_ok (TotalDeviceReports (ParserData s1)) (u8 data) s2 (proj1 Hk2))
        as (s3 & -> & Hk3); [destruct Hi1 as [[]]; simpl; lia|].
      apply runs_Some. exact (keeps_trans _ _ _ Hk2 Hk3).
  - destruct (set_report_id_ok (CurrReportIDInfo s1) (u8 data) s1 Hi1) as (s2 & -> & Hk2).
    { by destruct Hi1. }
    by apply runs_Some.
Qed.

Lemma free_path_ok n : forall k paths,
  0 <= k -> k + Z.of_nat n = 10 -> (0 < n)%nat -> length paths = 10%nat ->
  exists r, free_path n k paths = Some r /\ match r with Some j => k <= j < 10 | None => True end.
Proof.
  induction n as [|n IH]; intros k paths Hk Hn Hpos Hl; simpl; [lia|].
  destruct (aget_Some paths k) as [e ->]; [lia|]. simpl.
  destruct (Parent e); [|exists (Some k); split; [done|lia]].
  unfold HID_MAX_COLLECTIONS. destruct (Z.eqb_spec k (10 - 1)); [by exists None|].
  destruct (IH (k + 1) paths) as (r & -> & Hr); [lia..|]. exists r. split; [done|].
  destruct r; [lia|done].
Qed.

Lemma enter_collection_ok k data s :
  inv s -> UsageListSize s <= 7 -> 0 <= k < 10 -> runs s (enter_collection k data s).
Proof.
  intros Hi Hu Hk. unfold enter_collection. destruct (curr_state s Hi) as [st ->]. simpl.
  set (s0 := s <| CurrCollectionPath := Some k |>).
  assert (keeps s s0) as Hk0 by (destruct Hi; split; [by constructor|simpl; lia]).
  match goal with |- context [upd_path k ?f s0] =>
    destruct (upd_path_ok k f s0) as (s1 & -> & Hk1 & _); [apply Hk0|done|done|] end.
  simpl. destruct (next_usage_ok s1 (proj1 Hk1)) as (u & s2 & -> & Hk2 & _).
  { destruct Hk1 as [_ H]. simpl in H. lia. }
  apply (runs_trans _ s2); [exact (keeps_trans _ _ _ Hk0 (keeps_trans _ _ _ Hk1 Hk2))|]. simpl.
  destruct u as [u|]; [|by apply runs_Some, keeps_refl, Hk2].
  match goal with |- context [upd_path k ?f s2] =>
    destruct (upd_path_ok k f s2) as (s3 & -> & Hk3 & _); [apply Hk2|done|done|] end.
  by apply runs_Some.
Qed.

Lemma collection_ok data s : inv s -> UsageListSize s <= 7 -> runs s (collection data s).
Proof.
  intros Hi Hu. unfold collection. destruct (CurrCollectionPath s) as [par|] eqn:Hp.
  2: by apply enter_collection_ok.
  destruct (free_path_ok 9 1 (CollectionPaths (ParserData s))) as (r & -> & Hr); try lia.
  { by destruct Hi as [[]]. }
  simpl. destruct r as [k|].
  - destruct (upd_path_ok k (fun c => c <| Parent := Some par |>) s Hi) as (s1 & -> & Hk1 & _).
    { lia. } { destruct Hi. by rewrite Hp in *. }
    apply (runs_trans _ s1); [done|]. apply enter_collection_ok; [apply Hk1| |lia].
    destruct Hk1. lia.
  - apply runs_Some. destruct Hi. split; [by constructor|simpl; lia].
Qed.

Section Items.
Variable filter : HID_ReportItem_t -> bool.
Variables stale_value stale_previous : Z.
#[local] Abbreviation report_item := (report_item filter stale_value stale_previous).
#[local] Abbreviation report_items := (report_items filter stale_value stale_previous).
#[local] Abbreviation main_item := (main_item filter stale_value stale_previous).
#[local] Abbreviation switch_item := (switch_item filter stale_value stale_previous).
#[local] Abbreviation exec_item := (exec_item filter stale_value stale_previous).

(** The report sizes are updated in place. *)
Lemma sizes_ok p k type b info infos sizes :
  info_ok p -> aget (ReportIDSizes p) k = Some info ->
  aset (ReportSizeBits info) type b = Some sizes ->
  aset (ReportIDSizes p) k (info <| ReportSizeBits := sizes |>) = Some infos ->
  forall m, info_ok (p <| ReportIDSizes := infos |> <| LargestReportSizeBits := m |>).
Proof.
  intros [] Hg Hs Ha m. constructor; simpl; try done.
  - by rewrite (aset_length _ _ _ _ Ha).
  - eapply (Forall_aset _ _ _ _ infos io_bits0); [|done]. simpl.
    rewrite (aset_length _ _ _ _ Hs). by eapply (Forall_aget _ _ _ _ io_bits0).
Qed.

Lemma store_item_ok p item items :
  info_ok p -> TotalReportItems p <> 20 -> aset (ReportItems p) (TotalReportItems p) item = Some items ->
  info_ok (p <| ReportItems := items |>) /\
  info_ok (p <| ReportItems := items |> <| TotalReportItems ::= fun n => u8 (n + 1) |>).
Proof.
  intros [] Hn Ha. apply aset_length in Ha. assert (u8 (TotalReportItems p + 1) = TotalReportItems p + 1) by words.
  split; constructor; simpl; (done || lia || congruence).
Qed.

Lemma report_item_ok type data s :
  inv s -> UsageListSize s <= 7 -> 0 <= type < 3 -> runs s (report_item type data s).
Proof.
  intros Hi Hu Ht. unfold HidParser.report_item. destruct (curr_state s Hi) as [st ->]. simpl.
  destruct (next_usage_ok s Hi Hu) as (u & s1 & -> & Hk1 & _). simpl.
  apply (runs_trans _ s1); [done|]. destruct Hk1 as [Hi1 _]. clear s Hi Hu.
  destruct (aget_Some (ReportIDSizes (ParserData s1)) (CurrReportIDInfo s1)) as [info Hinfo].
  { destruct Hi1 as [[]]; lia. }
  rewrite Hinfo. simpl.
  assert (length (ReportSizeBits info) = 3%nat) as Hl3.
  { destruct Hi1 as [[]]. by eapply (Forall_aget _ _ _ _ io_bits0). }
  destruct (aget_Some (ReportSizeBits info) type) as [o ->]; [lia|]. simpl.
  destruct (aset (ReportSizeBits info) type _) as [sizes|] eqn:Hs; [|by rewrite aset_Some in Hs by lia].
  simpl. destruct (aset (ReportIDSizes (ParserData s1)) _ _) as [infos|] eqn:Ha.
  2: { rewrite aset_Some in Ha by (destruct Hi1 as [[]]; lia). done. }
  simpl. pose proof (sizes_ok _ _ _ _ _ _ _ (iv_info _ Hi1) Hinfo Hs Ha) as Hok.
  unfold HID_MAX_REPORTITEMS. destruct (Z.eqb_spec (TotalReportItems (ParserData s1)) 20).
  { apply runs_Some. destruct Hi1. split; [|simpl; lia]. constructor; simpl; try done. apply Hok. }
  destruct (aset (ReportItems (ParserData s1)) _ _) as [items|] eqn:Hit.
  2: { destruct Hi1 as [[]]. rewrite aset_Some in Hit by lia. done. }
  simpl. apply runs_Some. split; [|destruct Hi1; simpl; lia].
  pose proof (fun m => store_item_ok _ _ items (Hok m) n Hit) as Hst.
  case_if; destruct Hi1; constructor; simpl; try done;
    [exact (proj2 (Hst _))|exact (proj1 (Hst _))].
Qed.

Lemma report_items_ok n type data : forall s,
  inv s -> UsageListSize s <= 7 -> 0 <= type < 3 -> runs s (report_items n type data s).
Proof.
  induction n as [|n IH]; intros s Hi Hu Ht; simpl; [by apply runs_Some, keeps_refl|].
  destruct (report_item_ok type data s Hi Hu Ht) as ([s1|c s1] & -> & Hk); simpl in *.
  - apply (runs_trans _ s1); [done|]. destruct Hk. apply IH; [done|lia|done].
  - by apply runs_Some.
Qed.

Lemma main_item_ok type data s :
  inv s -> UsageListSize s <= 7 -> 0 <= type < 3 -> runs s (main_item type data s).
Proof.
  intros Hi Hu Ht. unfold HidParser.main_item. destruct (curr_state s Hi) as [st ->].
  by apply report_items_ok.
Qed.

(** The usages after an item: a [USAGE] adds one. *)
Definition usages_after (h n : Z) : Z :=
  if Z.land h HID_RI_TYPE_MASK =? HID_RI_TYPE_MAIN then 0
  else match tag_of h with Some HID_RI_USAGE => n + 1 | _ => n end.

(** Items the parser handles within its tables: no [PUSH], and no main item when the usage
    list is full. *)
Definition item_safe (h n : Z) : bool :=
  negb (bool_decide (tag_of h = Some HID_RI_PUSH)) &&
  (negb (Z.land h HID_RI_TYPE_MASK =? HID_RI_TYPE_MAIN) || (n <=? 7)).

Lemma tag_main h t :
  tag_of h = Some t -> t = HID_RI_INPUT \/ t = HID_RI_OUTPUT \/ t = HID_RI_FEATURE \/ t = HID_RI_COLLECTION ->
  Z.land h HID_RI_TYPE_MASK = HID_RI_TYPE_MAIN.
Proof.
  unfold tag_of. intros Hf Ht. apply find_some in Hf as [_ Hf]. apply Z.eqb_eq in Hf.
  assert (Z.land h HID_RI_TYPE_MASK = Z.land (Z.land h (Z.lor HID_RI_TYPE_MASK HID_RI_TAG_MASK)) HID_RI_TYPE_MASK) as ->.
  { by rewrite <- Z.land_assoc. }
  rewrite Hf. by destruct Ht as [-> | [-> | [-> | ->]]].
Qed.

Lemma upd_runs f s : inv s -> runs s (s ← upd_state f s; Some (Next s)).
Proof. intros Hi. destruct (upd_state_ok f s Hi) as (s' & -> & Hk). by apply runs_Some. Qed.

Lemma switch_item_ok h data n s :
  inv s -> UsageListSize s <= n -> item_safe h n = true ->
  exists f, switch_item h data s = Some f /\ inv (flow_state f) /\
    (Z.land h HID_RI_TYPE_MASK = HID_RI_TYPE_MAIN \/ UsageListSize (flow_state f) <= usages_after h n).
Proof.
  intros Hi Hn Hsafe. apply andb_true_iff in Hsafe as [Hpush Hfull].
  assert (forall t, tag_of h = Some t -> t = HID_RI_INPUT \/ t = HID_RI_OUTPUT \/
    t = HID_RI_FEATURE \/ t = HID_RI_COLLECTION -> UsageListSize s <= 7) as H7.
  { intros t Ht Hm. rewrite (tag_main h t Ht Hm) in Hfull. apply orb_true_iff in Hfull as [|Hle]; [done|].
    apply Z.leb_le in Hle. lia. }
  assert (forall o, tag_of h <> Some HID_RI_USAGE -> runs s o -> exists f, o = Some f /\ inv (flow_state f) /\
    (Z.land h HID_RI_TYPE_MASK = HID_RI_TYPE_MAIN \/ UsageListSize (flow_state f) <= usages_after h n)) as Hr.
  { intros o Hnu (f & -> & Hf & Hle). exists f. split; [done|]. split; [done|]. unfold usages_after.
    destruct (Z.eqb_spec (Z.land h HID_RI_TYPE_MASK) HID_RI_TYPE_MAIN); [by left|].
    right. destruct (tag_of h) as [[]|]; try done; lia. }
  unfold HidParser.switch_item, upd_attributes. destruct (tag_of h) as [t|] eqn:Ht.
  2: { apply Hr; [done|]. by apply runs_Some, keeps_refl. }
  destruct t; try (apply Hr; [done|]; by apply upd_runs).
  all: try (apply Hr; [done|]; apply main_item_ok; [done| |done]; eapply H7; [reflexivity|auto]).
  - apply Hr; [done|]. apply collection_ok; [done|]. eapply H7; [reflexivity|auto].
  - apply Hr; [done|]. pose proof Hi as [[]]. destruct (CurrCollectionPath s) as [k|] eqn:Hc.
    + destruct (aget_Some (CollectionPaths (ParserData s)) k) as [e He]; [lia|]. rewrite He. simpl.
      apply runs_Some. split; [|simpl; lia]. constructor; simpl; try done.
      pose proof (Forall_aget _ _ _ _ io_parents0 He) as Hpk. unfold path_ok in Hpk.
      by destruct (Parent e).
    + by apply runs_Some, keeps_refl.
  - apply Hr; [done|]. case_if; [|by apply upd_runs].
    match goal with |- context [upd_state ?f s] => destruct (upd_state_ok f s Hi) as (s' & -> & Hk) end.
    apply (runs_trans _ s'); [done|]. apply upd_runs, Hk.
  - apply Hr; [done|]. by apply report_id_ok.
  - by rewrite bool_decide_eq_true_2 in Hpush.
  - apply Hr; [done|]. destruct (Z.eqb_spec (CurrStateTable s) 0); [by apply runs_Some, keeps_refl|].
    apply runs_Some. destruct Hi. split; [|simpl; lia]. constructor; simpl; (done || lia).
  - unfold HID_USAGE_STACK_DEPTH. unfold usages_after. destruct (Z.eqb_spec (UsageListSize s) 8).
    { eexists. split; [done|]. split; [done|]. rewrite Ht.
      destruct (Z.eqb_spec (Z.land h HID_RI_TYPE_MASK) HID_RI_TYPE_MAIN); [by left|right; simpl; lia]. }
    destruct Hi. rewrite aset_Some by lia. simpl. eexists. split; [done|]. simpl.
    assert (u8 (UsageListSize s + 1) = UsageListSize s + 1) as Hw by words. split.
    { constructor; simpl; rewrite ?length_insert; (done || lia). }
    rewrite Hw, Ht. destruct (Z.eqb_spec (Z.land h HID_RI_TYPE_MASK) HID_RI_TYPE_MAIN); [by left|right; lia].
  - apply Hr; [done|]. apply runs_Some. destruct Hi. split; [by constructor|simpl; lia].
  - apply Hr; [done|]. apply runs_Some. destruct Hi. split; [by constructor|simpl; lia].
Qed.

Lemma exec_item_ok h data n s :
  inv s -> UsageListSize s <= n -> 0 <= n -> item_safe h n = true ->
  exists f, exec_item h data s = Some f /\ inv (flow_state f) /\
    match f with Next s' => UsageListSize s' <= usages_after h n | Return _ _ => True end.
Proof.
  intros Hi Hn H0 Hs. destruct (switch_item_ok h data n s Hi Hn Hs) as (f & Hf & Hif & Hu).
  unfold HidParser.exec_item. rewrite Hf. simpl. destruct f as [s'|c s']; simpl in *; [|by eexists].
  unfold usages_after in *.
  destruct (Z.eqb_spec (Z.land h HID_RI_TYPE_MASK) HID_RI_TYPE_MAIN).
  - eexists. split; [done|]. simpl. split; [|lia]. destruct Hif. constructor; simpl; (done || lia).
  - eexists. split; [done|]. split; [done|]. by destruct Hu.
Qed.
End Items.

(** ** Descriptors written with the macros *)

Definition HID_RI_ENCODE_8 (v : Z) : list Z := [Z.land v 255].
Definition HID_RI_ENCODE_16 (v : Z) : list Z := HID_RI_ENCODE_8 v ++ HID_RI_ENCODE_8 (Z.shiftr v 8).
Definition HID_RI_ENCODE_32 (v : Z) : list Z := HID_RI_ENCODE_16 v ++ HID_RI_ENCODE_16 (Z.shiftr v 16).

(** [h] is the type, tag and size bits of the entry. *)
Definition HID_RI_ENTRY (hv : Z * Z) : list Z :=
  let '(h, v) := hv in
  h :: (if Z.land h HID_RI_DATA_SIZE_MASK =? 3 then HID_RI_ENCODE_32 v
        else if Z.land h HID_RI_DATA_SIZE_MASK =? 2 then HID_RI_ENCODE_16 v
        else if Z.land h HID_RI_DATA_SIZE_MASK =? 1 then HID_RI_ENCODE_8 v
        else []).

(** The data fits the size bits. *)
Definition entry_ok (hv : Z * Z) : bool :=
  let '(h, v) := hv in
  (0 <=? v) && (v <? if Z.land h HID_RI_DATA_SIZE_MASK =? 3 then 4294967296
                     else if Z.land h HID_RI_DATA_SIZE_MASK =? 2 then 65536
                     else if Z.land h HID_RI_DATA_SIZE_MASK =? 1 then 256 else 1).

Definition descriptor (items : list (Z * Z)) : list Z := items ≫= HID_RI_ENTRY.

Lemma low_byte v : Z.land v 255 = v mod 256.
Proof. change 255 with (Z.ones 8). by rewrite Z.land_ones. Qed.

Lemma decode_16 v : 0 <= v < 65536 ->
  Z.lor (Z.shiftl (Z.land (Z.shiftr v 8) 255) 8) (Z.land v 255) = v.
Proof.
  intros Hv. rewrite !low_byte, Z.shiftr_div_pow2 by lia.
  rewrite (lor_shiftl_add _ _ 8) by (Z.div_mod_to_equations; lia). Z.div_mod_to_equations. lia.
Qed.

Lemma decode_32 v : 0 <= v < 4294967296 ->
  Z.lor (Z.lor (Z.lor (Z.shiftl (Z.land (Z.shiftr (Z.shiftr v 16) 8) 255) 24)
    (Z.shiftl (Z.land (Z.shiftr v 16) 255) 16)) (Z.shiftl (Z.land (Z.shiftr v 8) 255) 8))
    (Z.land v 255) = v.
Proof.
  intros Hv. rewrite !low_byte, !Z.shiftr_div_pow2 by lia.
  rewrite <- (Z.shiftl_shiftl _ 8 16), <- Z.shiftl_lor by lia.
  rewrite (lor_shiftl_add _ (v / 2 ^ 16 mod 256) 8) by (Z.div_mod_to_equations; lia).
  rewrite <- (Z.shiftl_shiftl _ 8 8), <- Z.shiftl_lor by lia.
  rewrite (lor_shiftl_add _ (v / 2 ^ 8 mod 256) 8) by (Z.div_mod_to_equations; lia).
  rewrite (lor_shiftl_add _ (v mod 256) 8) by (Z.div_mod_to_equations; lia).
  Z.div_mod_to_equations. lia.
Qed.

Section Run.
Variable filter : HID_ReportItem_t -> bool.
Variables stale_value stale_previous : Z.
#[local] Abbreviation exec_item := (exec_item filter stale_value stale_previous).
#[local] Abbreviation parse := (parse filter stale_value stale_previous).

(** The reference behaviour: the items one after the other. *)
Fixpoint run (items : list (Z * Z)) (s : parser) : option (Z * HID_ReportInfo_t) :=
  match items with
  | [] => Some (finish s)
  | (h, v) :: items' =>
      f ← exec_item h v s;
      match f with Return c s => Some (c, ParserData s) | Next s => run items' s end
  end.

Lemma parse_descriptor items : forall s,
  Forall (fun hv => entry_ok hv = true) items ->
  Z.of_nat (length (descriptor items)) < 65536 ->
  parse (descriptor items) (Z.of_nat (length (descriptor items))) s = run items s.
Proof.
  induction items as [|[h v] items IH]; intros s Hok Hlen; [done|].
  apply Forall_cons_iff in Hok as [Hv Hok]. unfold entry_ok in Hv. apply andb_true_iff in Hv as [Hv0 Hv1].
  apply Z.leb_le in Hv0. apply Z.ltb_lt in Hv1.
  change (descriptor ((h, v) :: items)) with (HID_RI_ENTRY (h, v) ++ descriptor items) in *.
  rewrite length_app in *. unfold HID_RI_ENTRY in *. simpl run.
  assert (forall n s', (n <= 5)%nat -> Z.of_nat (n + length (descriptor items)) < 65536 ->
    forall x, x = Z.of_nat (length (descriptor items)) -> parse (descriptor items) x s' = run items s') as Hgo.
  { intros n s' _ Hl x ->. apply IH; [done|lia]. }
  destruct (Z.eqb_spec (Z.land h HID_RI_DATA_SIZE_MASK) 3) as [E3|E3];
    [|destruct (Z.eqb_spec (Z.land h HID_RI_DATA_SIZE_MASK) 2) as [E2|E2];
    [|destruct (Z.eqb_spec (Z.land h HID_RI_DATA_SIZE_MASK) 1) as [E1|E1]]].
  all: simpl length in *; match goal with |- HidParser.parse _ _ _ _ ?N _ = _ =>
    assert (N <> 0) as HN0 by lia; remember N as size eqn:Hsize end.
  all: cbn [app HID_RI_ENCODE_32 HID_RI_ENCODE_16 HID_RI_ENCODE_8 HidParser.parse].
  all: rewrite (proj2 (Z.eqb_neq size 0)) by done.
  - rewrite E3. cbn -[Z.of_nat Z.lor Z.land Z.shiftr Z.shiftl]. rewrite decode_32 by done.
    destruct (exec_item h v s) as [[s'|c s']|]; simpl; try done. apply (Hgo 5%nat); [lia|lia|words].
  - rewrite E2. cbn -[Z.of_nat Z.lor Z.land Z.shiftr Z.shiftl]. rewrite decode_16 by done.
    destruct (exec_item h v s) as [[s'|c s']|]; simpl; try done. apply (Hgo 3%nat); [lia|lia|words].
  - rewrite E1. cbn -[Z.of_nat Z.lor Z.land Z.shiftr Z.shiftl]. rewrite low_byte, Z.mod_small by lia.
    destruct (exec_item h v s) as [[s'|c s']|]; simpl; try done. apply (Hgo 2%nat); [lia|lia|words].
  - rewrite (proj2 (Z.eqb_neq _ 3)), (proj2 (Z.eqb_neq _ 2)), (proj2 (Z.eqb_neq _ 1)) by done.
    assert (v = 0) as -> by lia.
    destruct (exec_item h 0 s) as [[s'|c s']|]; simpl; try done. apply (Hgo 1%nat); [lia|lia|words].
Qed.

(** The check of [item_safe] along a descriptor; [n] bounds the usages listed so far. *)
Fixpoint items_safe (n : Z) (items : list (Z * Z)) : bool :=
  match items with
  | [] => true
  | (h, _) :: items' => item_safe h n && items_safe (usages_after h n) items'
  end.

Lemma run_ok items : forall n s,
  inv s -> UsageListSize s <= n -> 0 <= n -> items_safe n items = true ->
  exists code info, run items s = Some (code, info) /\ info_ok info.
Proof.
  induction items as [|[h v] items IH]; intros n s Hi Hu Hn Hs; simpl.
  { eexists _, _. split; [done|]. apply Hi. }
  simpl in Hs. apply andb_true_iff in Hs as [Hsi Hs].
  destruct (exec_item_ok filter stale_value stale_previous h v n s Hi Hu Hn Hsi)
    as ([s'|c s'] & -> & Hi' & Hu'); simpl in *.
  - apply (IH (usages_after h n)); try done. unfold usages_after.
    destruct (_ =? _); [lia|]. destruct (tag_of h) as [[]|]; lia.
  - eexists _, _. split; [done|]. apply Hi'.
Qed.
End Run.

(** *** The state stack *)

(** Only [PUSH] and [POP] move in the stack of states. *)
Definition table_kept (s : parser) (o : option flow) : Prop :=
  match o with Some f => CurrStateTable (flow_state f) = CurrStateTable s | None => True end.
Lemma upd_state_table f s s' : upd_state f s = Some s' -> CurrStateTable s' = CurrStateTable s.
Proof. unfold upd_state. intros H. by simplify_option_eq. Qed.
Lemma upd_path_table k f s s' : upd_path k f s = Some s' -> CurrStateTable s' = CurrStateTable s.
Proof. unfold upd_path. intros H. by simplify_option_eq. Qed.
Lemma set_report_id_table k id s s' : set_report_id k id s = Some s' -> CurrStateTable s' = CurrStateTable s.
Proof. unfold set_report_id. intros H. by simplify_option_eq. Qed.
Lemma next_usage_table s u s' : next_usage s = Some (u, s') -> CurrStateTable s' = CurrStateTable s.
Proof. unfold next_usage. intros H. repeat case_match; simplify_option_eq; done. Qed.

(** One after the other through the operations on the tables. *)
Ltac table :=
  repeat match goal with
  | |- table_kept _ (mbind _ ?o) => let E := fresh "E" in destruct o as [?|] eqn:E; [|exact I]; cbn [mbind option_bind]
  | E : upd_state _ _ = Some _ |- _ => apply upd_state_table in E
  | E : upd_attributes _ _ = Some _ |- _ => apply upd_state_table in E
  | E : upd_path _ _ _ = Some _ |- _ => apply upd_path_table in E
  | E : set_report_id _ _ _ = Some _ |- _ => apply set_report_id_table in E
  | E : next_usage _ = Some (_, _) |- _ => apply next_usage_table in E
  | x : (_ * _)%type |- _ => destruct x
  | |- table_kept _ (match ?x with _ => _ end) => destruct x
  | |- table_kept _ (if ?x then _ else _) => destruct x
  end; try (simpl in *; congruence).

Lemma report_id_table data s : table_kept s (report_id data s).
Proof. unfold report_id. table. Qed.
Lemma enter_collection_table k data s : table_kept s (enter_collection k data s).
Proof. unfold enter_collection. table. Qed.
Lemma collection_table data s : table_kept s (collection data s).
Proof.
  unfold collection. destruct (CurrCollectionPath s) as [par|]; [|apply enter_collection_table]. table.
  pose proof (enter_collection_table z data p) as H. unfold table_kept in *. destruct (enter_collection _ _ _); [congruence|done].
Qed.
Lemma report_item_table filter v p type data s : table_kept s (report_item filter v p type data s).
Proof. unfold report_item. table. Qed.
Lemma report_items_table filter v p type data n : forall s, table_kept s (report_items filter v p n type data s).
Proof.
  induction n as [|n IH]; intros s; [done|]. cbn [report_items]. pose proof (report_item_table filter v p type data s) as H.
  destruct (report_item _ _ _ _ _ s) as [[s1|c s1]|]; [|exact H|done]. specialize (IH s1). cbn [mbind option_bind].
  unfold table_kept in *. destruct (report_items _ _ _ n _ _ s1); [|done]. simpl in *. congruence.
Qed.
Lemma exec_item_table filter v p h data s : tag_of h <> Some HID_RI_PUSH -> CurrStateTable s = 0 ->
  table_kept s (exec_item filter v p h data s).
Proof.
  intros Hp H0. assert (table_kept s (switch_item filter v p h data s)) as Hs.
  { unfold switch_item. destruct (tag_of h) as [t|]; [|done].
    destruct t; try done; try apply report_id_table; try apply collection_table; try (unfold main_item; table; apply report_items_table).
    all: try (table; fail).
    - destruct (_ =? 3); table.
    - by rewrite H0. }
  unfold exec_item. destruct (switch_item _ _ _ h data s) as [[s1|c s1]|]; [|exact Hs|done]. cbn [mbind option_bind].
  destruct (_ =? _); exact Hs.
Qed.

(** The items one after the other, until one ends the parse. *)
Fixpoint perform filter v p (items : list (Z * Z)) (s : parser) : option flow :=
  match items with
  | [] => Some (Next s)
  | (h, data) :: items' =>
      f ← exec_item filter v p h data s;
      match f with Return c s => Some (Return c s) | Next s => perform filter v p items' s end
  end.
Lemma run_perform filter v p items rest : forall s,
  run filter v p (items ++ rest) s =
  f ← perform filter v p items s;
  match f with Return c s => Some (c, ParserData s) | Next s => run filter v p rest s end.
Proof.
  induction items as [|[h data] items IH]; intros s; [done|]. cbn [app run perform].
  destruct (exec_item filter v p h data s) as [[s1|c s1]|]; [apply IH|done|done].
Qed.
Lemma push_faults filter v p h data s : tag_of h = Some HID_RI_PUSH -> CurrStateTable s = 0 -> exec_item filter v p h data s = None.
Proof. intros Hp H0. unfold exec_item, switch_item. by rewrite Hp, H0. Qed.
Lemma perform_state filter v p items : forall n s, inv s -> UsageListSize s <= n -> 0 <= n -> items_safe n items = true -> CurrStateTable s = 0 ->
  exists f, perform filter v p items s = Some f /\ match f with Next s' => CurrStateTable s' = 0 | Return _ _ => True end.
Proof.
  induction items as [|[h data] items IH]; intros n s Hi Hu Hn Hs H0; [by eexists|]. cbn [perform items_safe] in *.
  apply andb_true_iff in Hs as [Hsi Hs].
  destruct (exec_item_ok filter v p h data n s Hi Hu Hn Hsi) as (f & Hf & Hif & Huf).
  assert (tag_of h <> Some HID_RI_PUSH) as Hp.
  { intros Ht. apply andb_true_iff in Hsi as [Hsi _]. by rewrite bool_decide_eq_true_2 in Hsi. }
  pose proof (exec_item_table filter v p h data s Hp H0) as Hk. rewrite Hf in Hk. rewrite Hf. cbn [mbind option_bind].
  destruct f as [s1|c s1]; [|by eexists]. simpl in Hk. apply (IH (usages_after h n)); try done; [|congruence].
  unfold usages_after. destruct (_ =? _); [lia|]. destruct (tag_of h) as [[]|]; lia.
Qed.

Lemma initial_inv st us : length us = 8%nat -> inv (initial st us).
Proof.
  intros Hl. constructor; simpl; try done; try lia. constructor; simpl; try done; try lia.
  - repeat constructor.
  - repeat constructor.
Qed.

(** C21: on a descriptor written with the [HID_RI_*] macros, without [PUSH] and with at most
    seven usages before each main item, [USB_ProcessHIDReport] terminates without an access
    outside its tables, whatever the filter callback and the contents of the uninitialised
    locals; it does exactly what the items mean in order; and the structure it fills is well
    formed: at most 20 report items, at most 10 reports, parents of collections inside the
    collection table. *)
Theorem hid_parse_safe filter stale_state stale_usages stale_value stale_previous items :
  length stale_usages = 8%nat ->
  Forall (fun hv => entry_ok hv = true) items ->
  Z.of_nat (length (descriptor items)) < 65536 ->
  items_safe 0 items = true ->
  exists code info,
    USB_ProcessHIDReport filter stale_state stale_usages stale_value stale_previous
      (descriptor items) (Z.of_nat (length (descriptor items))) = Some (code, info) /\
    run filter stale_value stale_previous items (initial stale_state stale_usages) = Some (code, info) /\
    info_ok info.
Proof.
  intros Hst Hok Hlen Hs. unfold USB_ProcessHIDReport. rewrite parse_descriptor by done.
  destruct (run_ok filter stale_value stale_previous items 0 (initial stale_state stale_usages))
    as (code & info & Hr & Hi); [by apply initial_inv|done|done|done|].
  exists code, info. by rewrite Hr.
Qed.

(** A mouse: two axes of eight bits after three buttons and five bits of padding. *)
Definition mouse : list (Z * Z) :=
  [(5, 1); (9, 2); (161, 1); (9, 1); (161, 0);
   (5, 9); (25, 1); (41, 3); (21, 0); (37, 1); (149, 3); (117, 1); (129, 2);
   (149, 1); (117, 5); (129, 1);
   (5, 1); (9, 48); (9, 49); (21, 129); (37, 127); (117, 8); (149, 2); (129, 6);
   (192, 0); (192, 0)].

Lemma hid_parse_safe_witness :
  exists code info,
    USB_ProcessHIDReport (fun _ => true) zero_state (replicate 8 7) 0 0
      (descriptor mouse) (Z.of_nat (length (descriptor mouse))) = Some (code, info) /\
    run (fun _ => true) 0 0 mouse (initial zero_state (replicate 8 7)) = Some (code, info) /\
    info_ok info.
Proof.
  apply (hid_parse_safe (fun _ => true) zero_state (replicate 8 7) 0 0 mouse).
  - reflexivity.
  - repeat constructor.
  - reflexivity.
  - reflexivity.
Defined.

Example mouse_layout :
  option_map (fun ci => (fst ci, map (fun it => (BitOffset it, BitSize (Attributes it), Usage (AttrUsage (Attributes it))))
     (take (Z.to_nat (TotalReportItems (snd ci))) (ReportItems (snd ci)))))
    (USB_ProcessHIDReport (fun _ => true) zero_state (replicate 8 7) 0 0
      (descriptor mouse) (Z.of_nat (length (descriptor mouse))))
  = Some (0, [(0, 1, 1); (1, 1, 2); (2, 1, 3); (8, 8, 48); (16, 8, 49)]).
Proof. vm_compute. reflexivity. Qed.

(** C39: the first [PUSH] of a descriptor: behind any items that the parser handles within its tables,
    it copies [sizeof(HID_ReportItem_t)] bytes within the stack of the smaller states, past their
    end; so the parse leaves its objects, unless one of the items has ended it before. *)
Theorem hid_push_overruns filter stale_state stale_usages stale_value stale_previous items h v rest :
  length stale_usages = 8%nat -> Forall (fun hv => entry_ok hv = true) (items ++ (h, v) :: rest) ->
  Z.of_nat (length (descriptor (items ++ (h, v) :: rest))) < 65536 -> items_safe 0 items = true -> tag_of h = Some HID_RI_PUSH ->
  exists f, perform filter stale_value stale_previous items (initial stale_state stale_usages) = Some f /\
    USB_ProcessHIDReport filter stale_state stale_usages stale_value stale_previous
      (descriptor (items ++ (h, v) :: rest)) (Z.of_nat (length (descriptor (items ++ (h, v) :: rest)))) =
    match f with Next _ => None | Return code s => Some (code, ParserData s) end.
Proof.
  intros Hst Hok Hlen Hs Hp. unfold USB_ProcessHIDReport. rewrite parse_descriptor by done.
  destruct (perform_state filter stale_value stale_previous items 0 (initial stale_state stale_usages)) as (f & Hf & H0);
    [by apply initial_inv|done..|].
  exists f. split; [done|]. rewrite run_perform, Hf. cbn [mbind option_bind]. destruct f as [s1|c s1]; [|done].
  cbn [run]. by rewrite push_faults.
Qed.

(** A [PUSH] between the items of a mouse. *)
Lemma hid_push_overruns_witness :
  USB_ProcessHIDReport (fun _ => true) zero_state (replicate 8 0) 0 0 (descriptor (take 16 mouse ++ (164, 0) :: drop 16 mouse))
    (Z.of_nat (length (descriptor (take 16 mouse ++ (164, 0) :: drop 16 mouse)))) = None.
Proof.
  destruct (hid_push_overruns (fun _ => true) zero_state (replicate 8 0) 0 0 (take 16 mouse) 164 0 (drop 16 mouse))
    as (f & Hf & Hrun).
  - reflexivity.
  - repeat constructor.
  - reflexivity.
  - reflexivity.
  - reflexivity.
  - rewrite Hrun. vm_compute in Hf. injection Hf as <-. reflexivity.
Defined.

(** Two more descriptors on which the parser leaves its objects: an item whose data is cut off by the
    end of the descriptor is read past it; and a collection that follows eight usages makes the shift
    of the usage list read a ninth. *)
Example truncated_item us : length us = 8%nat -> USB_ProcessHIDReport (fun _ => true) zero_state us 0 0 [5; 1; 39; 1; 2] 5 = None.
Proof. intros Hl. destruct us as [|? [|? [|? [|? [|? [|? [|? [|? [|]]]]]]]]]; try discriminate Hl. by vm_compute. Qed.
Example ninth_usage us : length us = 8%nat ->
  USB_ProcessHIDReport (fun _ => true) zero_state us 0 0 (descriptor (replicate 8 (9, 1) ++ [(161, 1)])) 18 = None.
Proof. intros Hl. destruct us as [|? [|? [|? [|? [|? [|? [|? [|? [|]]]]]]]]]; try discriminate Hl. by vm_compute. Qed.
End HidSafety.
