(* ===== verification/HidItems.v ===== *)
(** * Report items: their layout in a report and access to their values

    What an INPUT, OUTPUT or FEATURE item of a descriptor adds to the parsed structure, and
    what [USB_GetHIDReportItemInfo], [USB_SetHIDReportItemInfo] and [USB_GetHIDReportSize] read
    and write. *)

From S2P Require Import Prelude.
From S2P Require Import HidParser.
From S2P Require Import HidSafety.
From Stdlib Require Import Lia ZArith.
Import HidParser HidSafety.

#[local] Open Scope Z_scope.

Module HidItems.

(** ** Usages *)

(** The usage the [k]-th item from now gets: the list first, then the range. *)
Definition usage_at (s : parser) (k : nat) : option Z :=
  let n := Z.to_nat (UsageListSize s) in
  if decide (k < n)%nat then UsageList s !! k
  else let m := Minimum (UsageMinMax s) + Z.of_nat (k - n) in
       if m <=? Maximum (UsageMinMax s) then Some (u16 m) else None.

Lemma shift_usages_spec n : forall i l l',
  shift_usages i n l = Some l' ->
  forall j, (i <= j < i + n)%nat -> l' !! j = l !! S j.
Proof.
  induction n as [|n IH]; intros i l l' H j Hj; simpl in H; [lia|].
  opt_inv H. opt_inv H.
  replace (Z.of_nat i + 1) with (Z.of_nat (S i)) in Hx by lia. rewrite aget_nat in Hx.
  apply aset_inv in Hx0 as [Hr ->]. rewrite Nat2Z.id in *.
  destruct (decide (j = i)) as [->|Hne].
  - assert (forall n i l l', shift_usages i n l = Some l' -> forall j, (j < i)%nat -> l' !! j = l !! j) as Hlow.
    { clear. induction n as [|n IH]; intros i l l' H j Hj; simpl in H; [by injection H as <-|].
      opt_inv H. opt_inv H. apply aset_inv in Hx0 as [Hr ->]. rewrite (IH _ _ _ H) by lia.
      apply list_lookup_insert_ne. lia. }
    rewrite (Hlow _ _ _ _ H) by lia. rewrite Hx. apply list_lookup_insert_eq. lia.
  - rewrite (IH _ _ _ H) by lia. apply list_lookup_insert_ne. lia.
Qed.

Lemma next_usage_spec s u s' :
  inv s -> 0 <= Minimum (UsageMinMax s) -> Maximum (UsageMinMax s) < 4294967295 ->
  next_usage s = Some (u, s') ->
  u = usage_at s 0 /\ (forall k, usage_at s' k = usage_at s (S k)) /\
  0 <= Minimum (UsageMinMax s') /\ Maximum (UsageMinMax s') < 4294967295.
Proof.
  intros Hi Hmin Hmax. unfold next_usage, usage_at. destruct (Z.eqb_spec (UsageListSize s) 0) as [E|E]; simpl.
  - rewrite E. change (Z.to_nat 0) with 0%nat. rewrite decide_False by lia. rewrite Z.add_0_r.
    destruct (Z.leb_spec (Minimum (UsageMinMax s)) (Maximum (UsageMinMax s))); intros [= <- <-]; simpl.
    + rewrite E. split; [done|]. split; [|words]. intros k. change (Z.to_nat 0) with 0%nat.
      rewrite !decide_False by lia.
      replace (u32 (Minimum (UsageMinMax s) + 1) + Z.of_nat (k - 0))
        with (Minimum (UsageMinMax s) + Z.of_nat (S k - 0)) by words. done.
    + split; [done|]. split; [|done]. intros k. rewrite E. change (Z.to_nat 0) with 0%nat.
      rewrite !decide_False by lia. rewrite !(proj2 (Z.leb_gt _ _)) by lia. done.
  - intros H. opt_inv H. opt_inv H. injection H as <- <-. simpl. destruct Hi.
    rewrite decide_True by lia. change 0 with (Z.of_nat 0) in Hx. rewrite aget_nat in Hx.
    split; [done|]. split; [|done]. intros k.
    replace (Z.to_nat (u8 (UsageListSize s - 1))) with (Z.to_nat (UsageListSize s) - 1)%nat by words.
    destruct (decide (S k < Z.to_nat (UsageListSize s))%nat).
    + rewrite decide_True by lia. apply (shift_usages_spec _ _ _ _ Hx0). lia.
    + rewrite decide_False by lia.
      replace (k - (Z.to_nat (UsageListSize s) - 1))%nat with (S k - Z.to_nat (UsageListSize s))%nat by lia.
      done.
Qed.


(** ** Layout *)

(** The item that a main item with value [data] stores at bit [offset]. *)
Definition new_item (st : HID_StateTable_t) (path : option Z) (type data offset : Z) (u : option Z)
    (v p : Z) : HID_ReportItem_t :=
  mkItem offset type (u16 data) (StReportID st) path
    (match u with
     | Some u => StAttributes st <| AttrUsage ::= fun x => x <| Usage := u |> |>
     | None => StAttributes st end) v p.

(** The number of bits the report has so far in one direction. *)
Definition report_bits (s : parser) (type : Z) : option Z :=
  info ← aget (ReportIDSizes (ParserData s)) (CurrReportIDInfo s); aget (ReportSizeBits info) type.

Definition usages_ok (s : parser) : Prop :=
  UsageListSize s <= 7 /\ 0 <= Minimum (UsageMinMax s) /\ Maximum (UsageMinMax s) < 4294967295.

Section Layout.
Variable filter : HID_ReportItem_t -> bool.
Variables stale_value stale_previous : Z.
#[local] Abbreviation report_item := (report_item filter stale_value stale_previous).
#[local] Abbreviation report_items := (report_items filter stale_value stale_previous).

(** Same position in the descriptor's tables. *)
Definition same_place (s s' : parser) : Prop :=
  StateTable s' = StateTable s /\ CurrStateTable s' = CurrStateTable s /\
  CurrCollectionPath s' = CurrCollectionPath s /\ CurrReportIDInfo s' = CurrReportIDInfo s.

Lemma report_item_spec type data s st o :
  inv s -> usages_ok s -> 0 <= type < 3 ->
  aget (StateTable s) (CurrStateTable s) = Some st -> report_bits s type = Some o ->
  0 <= o -> 0 <= BitSize (StAttributes st) -> o + BitSize (StAttributes st) < 65536 ->
  TotalReportItems (ParserData s) < 20 -> Z.testbit data HID_IOF_CONSTANT = false ->
  (forall it, filter it = true) ->
  let p := ParserData s in
  exists s', report_item type data s = Some (Next s') /\ inv s' /\ usages_ok s' /\ same_place s s' /\
    (forall k, usage_at s' k = usage_at s (S k)) /\
    report_bits s' type = Some (o + BitSize (StAttributes st)) /\
    (forall type', type' <> type -> report_bits s' type' = report_bits s type') /\
    TotalReportItems (ParserData s') = TotalReportItems p + 1 /\
    LargestReportSizeBits (ParserData s') = Z.max (LargestReportSizeBits p) (o + BitSize (StAttributes st)) /\
    ReportItems (ParserData s') = <[Z.to_nat (TotalReportItems p) :=
      new_item st (CurrCollectionPath s) type data o (usage_at s 0) stale_value stale_previous]> (ReportItems p).
Proof.
  intros Hi (Hu7 & Hmin & Hmax) Ht Hst Ho H0 Hb Hob Htot Hc Hf p.
  pose proof (report_item_ok filter stale_value stale_previous type data s Hi Hu7 Ht) as (f & Hrun & Hk).
  rewrite Hrun. unfold HidParser.report_item in Hrun. rewrite Hst in Hrun. simpl in Hrun.
  destruct (next_usage_ok s Hi Hu7) as (u & s1 & Hnu & Hk1 & Hcs & Hsts & Hpd & Hcr & Hcp).
  rewrite Hnu in Hrun. simpl in Hrun. rewrite Hpd, Hcr, Hcp in Hrun.
  destruct (next_usage_spec s u s1 Hi Hmin Hmax Hnu) as (-> & Hus & Hmin1 & Hmax1).
  unfold report_bits in Ho. opt_inv Ho. rename x into info, Hx into Hinfo. rewrite Hinfo in Hrun.
  simpl in Hrun. rewrite Ho in Hrun. simpl in Hrun. rewrite u16_small in Hrun by (unfold is_u16; lia).
  opt_inv Hrun. rename x into sizes, Hx into Hsizes. opt_inv Hrun. rename x into infos, Hx into Hinfos.
  unfold HID_MAX_REPORTITEMS in Hrun. rewrite (proj2 (Z.eqb_neq _ 20)) in Hrun by lia.
  opt_inv Hrun. rename x into items, Hx into Hitems. rewrite Hc, Hf in Hrun. simpl in Hrun.
  injection Hrun as <-. destruct Hk as [Hinv Hul]. simpl in Hinv, Hul.
  assert (0 <= TotalReportItems p <= 20) as Htr by (by destruct Hi as [[]]).
  eexists. split; [done|]. split; [done|]. split; [by split; [simpl in *; lia|]|]. split; [done|].
  split; [done|]. split; [|split; [|split; [|split]]].
  - unfold report_bits. simpl. rewrite Hcr, (aget_aset_eq _ _ _ _ Hinfos). simpl.
    by apply aget_aset_eq in Hsizes.
  - intros type' Hne. unfold report_bits. simpl. rewrite Hcr, (aget_aset_eq _ _ _ _ Hinfos), Hinfo. simpl.
    by apply (aget_aset_ne _ _ _ _ _ Hsizes).
  - simpl. fold p. words.
  - simpl. fold p. destruct (Z.ltb_spec (o + BitSize (StAttributes st)) (LargestReportSizeBits p)); lia.
  - simpl. by apply aset_inv in Hitems as [_ ->].
Qed.

Lemma report_items_spec type data st : 0 <= type < 3 -> Z.testbit data HID_IOF_CONSTANT = false ->
  (forall it, filter it = true) -> 0 <= BitSize (StAttributes st) -> forall n s o,
  inv s -> usages_ok s ->
  aget (StateTable s) (CurrStateTable s) = Some st -> report_bits s type = Some o -> 0 <= o ->
  o + Z.of_nat n * BitSize (StAttributes st) < 65536 ->
  TotalReportItems (ParserData s) + Z.of_nat n <= 20 ->
  exists s', report_items n type data s = Some (Next s') /\
    report_bits s' type = Some (o + Z.of_nat n * BitSize (StAttributes st)) /\
    (forall type', type' <> type -> report_bits s' type' = report_bits s type') /\
    TotalReportItems (ParserData s') = TotalReportItems (ParserData s) + Z.of_nat n /\
    (forall k, (k < n)%nat ->
       ReportItems (ParserData s') !! (Z.to_nat (TotalReportItems (ParserData s)) + k)%nat
       = Some (new_item st (CurrCollectionPath s) type data (o + Z.of_nat k * BitSize (StAttributes st))
                 (usage_at s k) stale_value stale_previous)) /\
    (forall j, (j < Z.to_nat (TotalReportItems (ParserData s)))%nat ->
       ReportItems (ParserData s') !! j = ReportItems (ParserData s) !! j).
Proof.
  intros Ht Hc Hf Hb0. induction n as [|n IH]; intros s o Hi Hus Hst Ho H0 Hob Htot.
  { exists s. simpl. rewrite !Z.add_0_r. repeat split; try done. intros; lia. }
  assert (0 <= TotalReportItems (ParserData s) <= 20) as Htr by (by destruct Hi as [[]]).
  destruct (report_item_spec type data s st o Hi Hus Ht Hst Ho H0 Hb0) as
    (s1 & Hr & Hi1 & Hus1 & (Hp1 & Hp2 & Hp3 & Hp4) & Hu1 & Ho1 & Hoth & Ht1 & _ & Hit1); try done; try nia.
  destruct (IH s1 (o + BitSize (StAttributes st))) as (s' & Hr' & Ho' & Hoth' & Ht' & Hit' & Hold); try done.
  { by rewrite Hp1, Hp2. } { lia. } { lia. } { lia. }
  exists s'. simpl. rewrite Hr. simpl. split; [done|].
  split; [rewrite Ho'; f_equal; lia|]. split; [intros; by rewrite Hoth', Hoth|]. split; [lia|].
  rewrite Ht1 in Hit', Hold. rewrite Z2Nat.inj_add in Hit', Hold by lia. split.
  - intros k Hk. destruct k as [|k].
    + rewrite Nat.add_0_r, Hold by lia. rewrite Hit1, list_lookup_insert_eq; [do 2 f_equal; lia|].
      destruct Hi as [[]]; lia.
    + replace (Z.to_nat (TotalReportItems (ParserData s)) + S k)%nat
        with (Z.to_nat (TotalReportItems (ParserData s)) + Z.to_nat 1 + k)%nat by lia.
      rewrite Hit' by lia. rewrite Hp3, Hu1. do 2 f_equal. lia.
  - intros j Hj. rewrite Hold by lia. rewrite Hit1. apply list_lookup_insert_ne. lia.
Qed.
End Layout.

(** ** Values *)

(** Bit [n] of a report. *)
Definition report_bit (data : list Z) (n : Z) : bool :=
  match aget data (n / 8) with Some b => Z.testbit b (n mod 8) | None => false end.

Lemma land_BV_test x m : 0 <= m -> negb (Z.land x (Z.shiftl 1 m) =? 0) = Z.testbit x m.
Proof.
  intros Hm. rewrite Z.shiftl_1_l. destruct (Z.testbit x m) eqn:E.
  - apply negb_true_iff, Z.eqb_neq. intros H0.
    assert (Z.testbit (Z.land x (2 ^ m)) m = true) as Hb.
    { by rewrite Z.land_spec, E, Z.pow2_bits_true. }
    by rewrite H0, Z.testbit_0_l in Hb.
  - apply negb_false_iff, Z.eqb_eq, Z.bits_inj'. intros i Hi.
    rewrite Z.land_spec, Z.testbit_0_l, Z.pow2_bits_eqb by done.
    destruct (Z.eqb_spec m i) as [->|]; [by rewrite E|by rewrite andb_false_r].
Qed.

Lemma mask_next i : 0 <= i -> u32 (Z.shiftl (u32 (2 ^ i)) 1) = u32 (2 ^ (i + 1)).
Proof.
  intros Hi. rewrite Z.shiftl_mul_pow2, Z.pow_add_r by lia. unfold u32.
  by rewrite Z.mul_mod_idemp_l by lia.
Qed.

Lemma mask_testbit i j : 0 <= i < 32 -> 0 <= j -> Z.testbit (u32 (2 ^ i)) j = (j =? i).
Proof.
  intros Hi Hj. rewrite u32_testbit by done. rewrite Z.pow2_bits_eqb by lia.
  rewrite (Z.eqb_sym i j). destruct (Z.eqb_spec j i) as [->|]; [|by rewrite andb_false_r].
  by rewrite (proj2 (Z.ltb_lt _ _)) by lia.
Qed.

Lemma get_bits_spec data : forall k i cur v,
  0 <= i -> i + Z.of_nat k <= 32 -> 0 <= cur -> cur + Z.of_nat k < 65536 ->
  cur + Z.of_nat k <= 8 * Z.of_nat (length data) ->
  (forall j, i <= j -> Z.testbit v j = false) -> 0 <= v ->
  exists v', get_bits k data cur (u32 (2 ^ i)) v = Some v' /\ 0 <= v' /\
    forall j, 0 <= j -> Z.testbit v' j =
      if decide (i <= j < i + Z.of_nat k) then report_bit data (cur + (j - i)) else Z.testbit v j.
Proof.
  induction k as [|k IH]; intros i cur v Hi Hk Hc Hw Hl Hv H0.
  { exists v. split; [done|]. split; [done|]. intros j Hj. by rewrite decide_False by lia. }
  simpl. destruct (aget_Some data (cur / 8)) as [b Hb].
  { split; [apply Z.div_pos; lia|]. apply Z.div_lt_upper_bound; lia. }
  rewrite Hb. simpl. rewrite land_BV_test by (apply Z.mod_pos_bound; lia).
  rewrite mask_next by done. rewrite u16_small by (unfold is_u16; lia).
  set (v1 := if Z.testbit b (cur mod 8) then Z.lor v (u32 (2 ^ i)) else v).
  assert (forall j, 0 <= j -> Z.testbit v1 j = (j =? i) && report_bit data cur || Z.testbit v j) as Hv1.
  { intros j Hj. unfold v1, report_bit. rewrite Hb. destruct (Z.testbit b (cur mod 8)).
    - by rewrite Z.lor_spec, mask_testbit, andb_true_r, orb_comm by lia.
    - by rewrite andb_false_r. }
  destruct (IH (i + 1) (cur + 1) v1) as (v' & -> & Hv'0 & Hv'); try lia.
  { intros j Hj. rewrite Hv1, Hv by lia. by rewrite (proj2 (Z.eqb_neq _ _)) by lia. }
  { unfold v1. destruct (Z.testbit b _); [|done]. apply Z.lor_nonneg. split; [done|]. apply u32_range. }
  exists v'. split; [done|]. split; [done|]. intros j Hj. rewrite Hv' by done.
  destruct (decide (i + 1 <= j < i + 1 + Z.of_nat k)).
  - rewrite decide_True by lia. f_equal. lia.
  - rewrite Hv1 by done. destruct (Z.eqb_spec j i) as [->|].
    + rewrite decide_True, Hv by lia. rewrite orb_false_r. simpl. f_equal. lia.
    + by rewrite decide_False by lia.
Qed.

(** The report without its identifier byte. *)
Definition payload (data : list Z) (item : HID_ReportItem_t) : list Z :=
  if ItemReportID item =? 0 then data else tail data.

Lemma get_spec data item :
  (ItemReportID item = 0 \/ aget data 0 = Some (ItemReportID item)) ->
  0 <= BitSize (Attributes item) <= 32 -> 0 <= BitOffset item ->
  BitOffset item + BitSize (Attributes item) < 65536 ->
  BitOffset item + BitSize (Attributes item) <= 8 * Z.of_nat (length (payload data item)) ->
  exists v, USB_GetHIDReportItemInfo data item
      = Some (true, item <| PreviousValue := Value item |> <| Value := v |>) /\
    0 <= v < 2 ^ BitSize (Attributes item) /\
    forall i, 0 <= i < BitSize (Attributes item) ->
      Z.testbit v i = report_bit (payload data item) (BitOffset item + i).
Proof.
  intros Hid Hb Ho Hw Hl.
  destruct (get_bits_spec (payload data item) (Z.to_nat (BitSize (Attributes item))) 0 (BitOffset item) 0)
    as (v & Hg & Hv0 & Hv); try lia; [intros; apply Z.testbit_0_l|].
  exists v. change (u32 (2 ^ 0)) with 1 in Hg. split; [|split].
  - unfold USB_GetHIDReportItemInfo, payload in *. destruct (Z.eqb_spec (ItemReportID item) 0); simpl.
    + by rewrite Hg.
    + destruct Hid as [|Hid]; [done|]. rewrite Hid. simpl. rewrite Z.eqb_refl. simpl. by rewrite Hg.
  - split; [done|]. apply testbit_bound; [lia|done|]. intros i Hi. rewrite Hv by lia.
    rewrite decide_False by lia. apply Z.testbit_0_l.
  - intros i Hi. rewrite Hv by lia. rewrite decide_True by lia. f_equal. lia.
Qed.

Lemma set_bits_aligned value q : forall k i data b,
  0 <= i -> i + Z.of_nat k <= 8 -> 0 <= q -> 8 * q + 8 < 65536 ->
  aget data q = Some b -> is_u8 b ->
  exists data' b', set_bits k data (8 * q + i) (u32 (2 ^ i)) value = Some data' /\
    data' = <[Z.to_nat q := b']> data /\ is_u8 b' /\
    forall j, 0 <= j -> Z.testbit b' j
      = Z.testbit b j || (bool_decide (i <= j < i + Z.of_nat k) && Z.testbit value j).
Proof.
  induction k as [|k IH]; intros i data b Hi Hk Hq Hw Hb Hu.
  { exists data, b. split; [done|]. pose proof (aget_Some_range _ _ _ Hb). unfold aget in Hb.
    rewrite (proj2 (Z.leb_le _ _)) in Hb by lia. split; [by rewrite list_insert_id|]. split; [done|].
    intros j Hj. rewrite bool_decide_eq_false_2 by lia. by rewrite andb_false_l, orb_false_r. }
  simpl. replace ((8 * q + i) / 8) with q by (Z.div_mod_to_equations; lia).
  replace ((8 * q + i) mod 8) with i by (Z.div_mod_to_equations; lia).
  rewrite land_BV_test, mask_next by lia. rewrite (u16_small (8 * q + i + 1)) by (unfold is_u16; lia).
  pose proof (aget_Some_range _ _ _ Hb) as Hr.
  set (b1 := if Z.testbit value i then u8 (Z.lor b (u32 (2 ^ i))) else b).
  assert (is_u8 b1) as Hu1 by (unfold b1; destruct (Z.testbit value i); [apply u8_range|done]).
  assert (forall j, 0 <= j -> Z.testbit b1 j = Z.testbit b j || ((j =? i) && Z.testbit value i)) as Hb1.
  { intros j Hj. unfold b1. destruct (Z.testbit value i); [|by rewrite andb_false_r, orb_false_r].
    rewrite u8_testbit, Z.lor_spec, mask_testbit, andb_true_r by lia.
    destruct (Z.ltb_spec j 8); [done|]. rewrite (testbit_high b 8) by (unfold is_u8 in Hu; lia).
    by rewrite (proj2 (Z.eqb_neq _ _)) by lia. }
  assert ((if Z.testbit value i then b0 ← aget data q; aset data q (u8 (Z.lor b0 (u32 (2 ^ i))))
           else Some data) = Some (<[Z.to_nat q := b1]> data)) as ->.
  { unfold b1. rewrite Hb. simpl. destruct (Z.testbit value i); [by rewrite aset_Some by lia|].
    f_equal. symmetry. apply list_insert_id. unfold aget in Hb.
    by rewrite (proj2 (Z.leb_le _ _)) in Hb by lia. }
  simpl. rewrite <- Z.add_assoc.
  destruct (IH (i + 1) (<[Z.to_nat q := b1]> data) b1) as (data' & b' & Hs & Hd & Hu' & Hb'); try lia; try done.
  { by eapply aget_aset_eq, aset_Some. }
  exists data', b'. split; [done|]. split; [by rewrite Hd, list_insert_insert_eq|]. split; [done|].
  intros j Hj. rewrite Hb', Hb1 by done. destruct (Z.eqb_spec j i) as [->|Hne].
  - rewrite bool_decide_eq_false_2 by lia. rewrite bool_decide_eq_true_2 by lia.
    by rewrite andb_false_l, orb_false_r.
  - rewrite andb_false_l, orb_false_r. destruct (decide (i + 1 <= j < i + 1 + Z.of_nat k)).
    + by rewrite !bool_decide_eq_true_2 by lia.
    + by rewrite !bool_decide_eq_false_2 by lia.
Qed.

(** ** Claims *)

(** A main item with report count [n] and size [b] appends [n] items with the offsets
    [o, o + b, ...] behind the [o] bits the report already has in that direction, each with the
    state table's attributes and the next usage (the listed usages first, then the usage
    range); earlier items and the other directions are untouched, so the items of a report
    occupy disjoint bit ranges that fill it from bit 0. *)
Theorem hid_main_item_layout filter v p type data s st o :
  (forall it, filter it = true) -> 0 <= type < 3 -> Z.testbit data HID_IOF_CONSTANT = false ->
  inv s -> usages_ok s ->
  aget (StateTable s) (CurrStateTable s) = Some st -> report_bits s type = Some o -> 0 <= o ->
  let n := ReportCount st in
  let b := BitSize (StAttributes st) in
  0 <= n -> 0 <= b -> o + n * b < 65536 -> TotalReportItems (ParserData s) + n <= 20 ->
  exists s', main_item filter v p type data s = Some (Next s') /\
    report_bits s' type = Some (o + n * b) /\
    (forall type', type' <> type -> report_bits s' type' = report_bits s type') /\
    TotalReportItems (ParserData s') = TotalReportItems (ParserData s) + n /\
    (forall k, 0 <= k < n ->
       aget (ReportItems (ParserData s')) (TotalReportItems (ParserData s) + k)
       = Some (new_item st (CurrCollectionPath s) type data (o + k * b) (usage_at s (Z.to_nat k)) v p)) /\
    (forall j, 0 <= j < TotalReportItems (ParserData s) ->
       aget (ReportItems (ParserData s')) j = aget (ReportItems (ParserData s)) j).
Proof.
  intros Hf Ht Hc Hi Hu Hst Ho H0 n b Hn Hb Hob Htot.
  assert (0 <= TotalReportItems (ParserData s)) as Hpos by (destruct Hi as [[]]; lia).
  destruct (report_items_spec filter v p type data st Ht Hc Hf Hb (Z.to_nat n) s o)
    as (s' & Hr & Hb' & Hoth & Htot' & Hit & Hold); try done; rewrite ?Z2Nat.id by done; try done.
  rewrite Z2Nat.id in * by done.
  exists s'. unfold main_item. rewrite Hst. simpl. split; [done|]. split; [done|]. split; [done|].
  split; [done|]. split.
  - intros k Hk. unfold aget. rewrite (proj2 (Z.leb_le _ _)) by lia. rewrite Z2Nat.inj_add by lia.
    rewrite Hit by lia. by rewrite Z2Nat.id by lia.
  - intros j Hj. unfold aget. rewrite (proj2 (Z.leb_le _ _)) by lia. apply Hold. lia.
Qed.

(** [USB_GetHIDReportItemInfo] on a report that carries the item: the value is exactly the
    item's [BitSize <= 32] bits of the report starting at [BitOffset], behind the identifier
    byte if the item has a report ID, and the old value is kept; on a report with another
    identifier it returns [false] and leaves the item alone. *)
Theorem hid_get_item_value data item id :
  aget data 0 = Some id ->
  0 <= BitSize (Attributes item) <= 32 -> 0 <= BitOffset item ->
  BitOffset item + BitSize (Attributes item) < 65536 ->
  BitOffset item + BitSize (Attributes item) <= 8 * Z.of_nat (length (payload data item)) ->
  if decide (ItemReportID item = 0 \/ ItemReportID item = id) then
    exists v, USB_GetHIDReportItemInfo data item
        = Some (true, item <| PreviousValue := Value item |> <| Value := v |>) /\
      0 <= v < 2 ^ BitSize (Attributes item) /\
      forall i, 0 <= i < BitSize (Attributes item) ->
        Z.testbit v i = report_bit (payload data item) (BitOffset item + i)
  else USB_GetHIDReportItemInfo data item = Some (false, item).
Proof.
  intros Hid Hb Ho Hw Hl. destruct (decide _) as [Hc|Hc].
  - apply get_spec; try done. destruct Hc as [|Hc]; [by left|]. right. by rewrite Hc.
  - unfold USB_GetHIDReportItemInfo. rewrite (proj2 (Z.eqb_neq _ 0)) by tauto. simpl. rewrite Hid. simpl.
    by rewrite (proj2 (Z.eqb_neq _ id)) by tauto.
Qed.

(** For an item of at most eight bits that starts on a byte boundary, a value written with
    [USB_SetHIDReportItemInfo] into a cleared byte is read back by [USB_GetHIDReportItemInfo],
    and no other byte of the report changes; the bits of the item are those of the value. *)
Lemma set_get_aligned data item q :
  ItemReportID item = 0 -> 0 <= BitSize (Attributes item) <= 8 ->
  BitOffset item = 8 * q -> 0 <= q < 8191 -> aget data q = Some 0 ->
  0 <= Value item < 2 ^ BitSize (Attributes item) ->
  exists data' item', USB_SetHIDReportItemInfo data item = Some (data', item') /\
    (forall j, j <> q -> aget data' j = aget data j) /\
    (forall i, 0 <= i < BitSize (Attributes item) ->
       report_bit data' (BitOffset item + i) = Z.testbit (Value item) i) /\
    exists item'', USB_GetHIDReportItemInfo data' item' = Some (true, item'') /\ Value item'' = Value item.
Proof.
  intros Hid Hb Ho Hq Hd Hv. pose proof (aget_Some_range _ _ _ Hd) as Hr.
  destruct (set_bits_aligned (Value item) q (Z.to_nat (BitSize (Attributes item))) 0 data 0)
    as (data' & b' & Hs & Hd' & Hu & Hb'); try done; try lia.
  rewrite Z.add_0_r, <- Ho in Hs. change (u32 (2 ^ 0)) with 1 in Hs.
  assert (aset data q b' = Some data') as Haset by (rewrite aset_Some by lia; by rewrite Hd').
  set (item' := item <| PreviousValue := Value item |>).
  assert (forall i, 0 <= i < BitSize (Attributes item) ->
    report_bit data' (8 * q + i) = Z.testbit (Value item) i) as Hrb.
  { intros i Hi. unfold report_bit.
    replace ((8 * q + i) / 8) with q by (Z.div_mod_to_equations; lia).
    replace ((8 * q + i) mod 8) with i by (Z.div_mod_to_equations; lia).
    rewrite (aget_aset_eq _ _ _ _ Haset), Hb', Z.testbit_0_l by lia.
    by rewrite bool_decide_eq_true_2 by lia. }
  exists data', item'. split; [|split; [|split]].
  - unfold USB_SetHIDReportItemInfo. rewrite Hid. simpl. by rewrite Hs.
  - intros j Hj. by eapply aget_aset_ne.
  - by rewrite Ho.
  - destruct (get_spec data' item') as (v & Hg & Hv' & Hbits).
    { by left. } { simpl. lia. } { simpl. lia. } { simpl. lia. }
    { unfold payload. simpl. rewrite Hid. simpl. rewrite (aset_length _ _ _ _ Haset). lia. }
    exists (item' <| PreviousValue := Value item' |> <| Value := v |>). split; [done|]. simpl.
    apply Z.bits_inj'. intros i Hi.
    destruct (Z.lt_ge_cases i (BitSize (Attributes item))) as [Hlt|Hge].
    2: { rewrite (testbit_high v (BitSize (Attributes item))), (testbit_high (Value item) (BitSize (Attributes item)))
         by (done || lia). done. }
    rewrite Hbits by (simpl; lia). unfold payload. simpl. rewrite Hid, Ho. by apply Hrb.
Qed.

(** An item of the given place and value. *)
Definition value_item (offset size v : Z) : HID_ReportItem_t :=
  zero_item <| BitOffset := offset |> <| Value := v |>
    <| Attributes ::= fun a => a <| BitSize := size |> |>.

(** C40: for an item without a report identifier, of at most eight bits, that starts on a byte
    boundary, a value written with [USB_SetHIDReportItemInfo] into a cleared byte is read back by
    [USB_GetHIDReportItemInfo], and no other byte of the report changes; the bits of the item are
    those of the value. *)
Theorem hid_set_get_item data item q :
  ItemReportID item = 0 -> 0 <= BitSize (Attributes item) <= 8 ->
  BitOffset item = 8 * q -> 0 <= q < 8191 -> aget data q = Some 0 ->
  0 <= Value item < 2 ^ BitSize (Attributes item) ->
  exists data' item', USB_SetHIDReportItemInfo data item = Some (data', item') /\
    (forall j, j <> q -> aget data' j = aget data j) /\
    (forall i, 0 <= i < BitSize (Attributes item) ->
       report_bit data' (BitOffset item + i) = Z.testbit (Value item) i) /\
    exists item'', USB_GetHIDReportItemInfo data' item' = Some (true, item'') /\ Value item'' = Value item.
Proof. intros. by apply (set_get_aligned data item q). Qed.

(** Outside that case [USB_SetHIDReportItemInfo] tests and sets other bits, since the mask of the value
    and the mask of the report byte are exchanged: a nibble in the upper half of a byte is not
    written at all, and of a 16-bit value the high byte is lost. *)
Example hid_set_upper_nibble : USB_SetHIDReportItemInfo [0] (value_item 4 4 5) = Some ([0], value_item 4 4 5 <| PreviousValue := 5 |>).
Proof. vm_compute. reflexivity. Qed.
Example hid_set_two_bytes :
  USB_SetHIDReportItemInfo [0; 0] (value_item 0 16 258) = Some ([2; 0], value_item 0 16 258 <| PreviousValue := 258 |>).
Proof. vm_compute. reflexivity. Qed.

(** The reference for sizes: the first entry with the identifier, its bits in whole bytes. *)
Definition first_report (sizes : list HID_ReportSizeInfo_t) (id : Z) : option HID_ReportSizeInfo_t :=
  find (fun e => SizeReportID e =? id) sizes.
Definition whole_bytes (bits : Z) : Z := (bits + 7) / 8.

Lemma report_size_spec id type : forall n i sizes,
  0 <= i -> (Z.to_nat i + n)%nat = length sizes -> 0 <= type < 3 ->
  Forall (fun e => length (ReportSizeBits e) = 3%nat) sizes ->
  report_size n i sizes id type
  = Some (match first_report (drop (Z.to_nat i) sizes) id with
          | Some e => whole_bytes (nth (Z.to_nat type) (ReportSizeBits e) 0)
          | None => 0
          end).
Proof.
  induction n as [|n IH]; intros i sizes Hi Hn Ht Hf; simpl.
  { by rewrite drop_ge by lia. }
  destruct (aget_Some sizes i) as [e He]; [lia|].
  assert (sizes !! Z.to_nat i = Some e) as Hl.
  { unfold aget in He. by rewrite (proj2 (Z.leb_le _ _)) in He by lia. }
  destruct (aget_Some (ReportSizeBits e) type) as [bits Hb].
  { rewrite (Forall_aget _ _ _ _ Hf He). lia. }
  rewrite He, (drop_S _ _ _ Hl). simpl. rewrite Hb. simpl.
  destruct (Z.eqb_spec (SizeReportID e) id) as [Eid|Eid].
  - unfold aget in Hb. rewrite (proj2 (Z.leb_le _ _)) in Hb by lia.
    rewrite (nth_lookup_Some _ _ _ _ Hb). unfold whole_bytes. f_equal.
    destruct (Z.eqb_spec (bits mod 8) 0); simpl; Z.div_mod_to_equations; lia.
  - rewrite IH by (done || lia). by replace (Z.to_nat (i + 1)) with (S (Z.to_nat i)) by lia.
Qed.

(** [USB_GetHIDReportSize] is the size of the first report with the identifier in whole
    bytes, rounded up, and 0 when there is no such report. *)
Theorem hid_report_size p id type :
  info_ok p -> 0 <= type < 3 ->
  USB_GetHIDReportSize p id type
  = Some (match first_report (ReportIDSizes p) id with
          | Some e => whole_bytes (nth (Z.to_nat type) (ReportSizeBits e) 0)
          | None => 0
          end).
Proof.
  intros [] Ht. apply (report_size_spec id type 10 0 (ReportIDSizes p)); (done || lia).
Qed.

(** *** Witnesses *)

(** Three one-bit items after two listed usages. *)
Definition w_state : HID_StateTable_t := mkState (zero_attributes <| BitSize := 1 |>) 3 0.
Definition w_parser : parser :=
  initial zero_state (48 :: 49 :: replicate 6 0) <| StateTable := [w_state; zero_state] |>
    <| UsageListSize := 2 |>.

Lemma w_parser_inv : inv w_parser.
Proof. constructor; simpl; try done; try lia. constructor; simpl; try done; try lia; repeat constructor. Qed.

Lemma hid_main_item_layout_witness :
  exists s', main_item (fun _ => true) 0 0 0 2 w_parser = Some (Next s') /\
    report_bits s' 0 = Some (0 + 3 * 1).
Proof.
  destruct (hid_main_item_layout (fun _ => true) 0 0 0 2 w_parser w_state 0) as (s' & H1 & H2 & _).
  - reflexivity.
  - lia.
  - reflexivity.
  - exact w_parser_inv.
  - repeat split; simpl; lia.
  - reflexivity.
  - reflexivity.
  - lia.
  - simpl; lia.
  - simpl; lia.
  - simpl; lia.
  - simpl; lia.
  - exists s'. exact (conj H1 H2).
Defined.

Lemma hid_get_item_value_witness :
  exists v, USB_GetHIDReportItemInfo [165; 60] (value_item 4 8 0)
    = Some (true, value_item 4 8 0 <| PreviousValue := 0 |> <| Value := v |>) /\
    0 <= v < 2 ^ 8 /\
    forall i, 0 <= i < 8 -> Z.testbit v i = report_bit [165; 60] (4 + i).
Proof.
  apply (hid_get_item_value [165; 60] (value_item 4 8 0) 165); vm_compute; done.
Defined.

Lemma hid_set_get_item_witness :
  exists data' item', USB_SetHIDReportItemInfo [7; 0; 9] (value_item 8 8 200) = Some (data', item') /\
    (forall j, j <> 1 -> aget data' j = aget [7; 0; 9] j) /\
    (forall i, 0 <= i < 8 -> report_bit data' (8 + i) = Z.testbit 200 i) /\
    exists item'', USB_GetHIDReportItemInfo data' item' = Some (true, item'') /\ Value item'' = 200.
Proof. apply (hid_set_get_item [7; 0; 9] (value_item 8 8 200) 1); vm_compute; done. Defined.

(** A report of 13 bits, numbered 3, after one numbered 1. *)
Definition w_info : HID_ReportInfo_t :=
  zero_info <| TotalDeviceReports := 2 |>
    <| ReportIDSizes ::= fun l => mkSizeInfo 1 [8; 0; 0] :: mkSizeInfo 3 [0; 13; 0] :: drop 2 l |>.

Lemma hid_report_size_witness : USB_GetHIDReportSize w_info 3 1 = Some 2.
Proof.
  rewrite (hid_report_size w_info 3 1).
  - reflexivity.
  - constructor; simpl; try done; try lia; repeat constructor.
  - lia.
Defined.
End HidItems.
