(* ===== verification/ConfigDescriptors.v ===== *)
(** * Configuration descriptor walker (LUFA/Drivers/USB/Core/ConfigDescriptors.c)

    The search functions over the buffer that holds a device's configuration descriptor. The
    buffer is a list of bytes, [CurrConfigLoc] an index into it; a read outside the buffer is
    [Fault], and a search that makes no progress is [Hang] with any fuel. *)

From S2P Require Import Prelude.
From Stdlib Require Import Lia ZArith.

#[local] Open Scope Z_scope.

Module ConfigDescriptors.

Definition DESCRIPTOR_SEARCH_Found := 0.
Definition DESCRIPTOR_SEARCH_Fail := 1.
Definition DESCRIPTOR_SEARCH_NotFound := 2.
Definition DESCRIPTOR_SEARCH_COMP_EndOfDescriptor := 2.

(** [*BytesRem] and [*CurrConfigLoc] *)
Record cursor := mkCursor { BytesRem : Z; CurrConfigLoc : Z }.
#[export] Instance eta_cursor : Eta cursor :=
  {| eta r := mkCursor (BytesRem r) (CurrConfigLoc r); eta_id := ltac:(by intros []) |}.

Definition DESCRIPTOR_SIZE (mem : list Z) (p : Z) : res Z := lift (aget mem p).
Definition DESCRIPTOR_TYPE (mem : list Z) (p : Z) : res Z := lift (aget mem (p + 1)).

Definition USB_GetNextDescriptor (mem : list Z) (c : cursor) : res cursor :=
  size ← DESCRIPTOR_SIZE mem (CurrConfigLoc c);
  let size := if BytesRem c <? size then BytesRem c else size in
  Ok (c <| CurrConfigLoc ::= fun p => p + size |> <| BytesRem ::= fun r => u16 (r - size) |>).

Fixpoint USB_GetNextDescriptorOfType (fuel : nat) (mem : list Z) (Type_ : Z) (c : cursor) : res cursor :=
  if BytesRem c =? 0 then Ok c else
  match fuel with
  | O => Hang
  | S fuel' =>
      c ← USB_GetNextDescriptor mem c;
      ty ← DESCRIPTOR_TYPE mem (CurrConfigLoc c);
      if ty =? Type_ then Ok c else USB_GetNextDescriptorOfType fuel' mem Type_ c
  end.

Fixpoint USB_GetNextDescriptorOfTypeBefore (fuel : nat) (mem : list Z) (Type_ BeforeType : Z) (c : cursor)
  : res cursor :=
  if BytesRem c =? 0 then Ok c else
  match fuel with
  | O => Hang
  | S fuel' =>
      c ← USB_GetNextDescriptor mem c;
      ty ← DESCRIPTOR_TYPE mem (CurrConfigLoc c);
      if ty =? Type_ then Ok c
      else if ty =? BeforeType then Ok (c <| BytesRem := 0 |>)
      else USB_GetNextDescriptorOfTypeBefore fuel' mem Type_ BeforeType c
  end.

Definition USB_GetNextDescriptorOfTypeAfter (fuel : nat) (mem : list Z) (Type_ AfterType : Z) (c : cursor)
  : res cursor :=
  c ← USB_GetNextDescriptorOfType fuel mem AfterType c;
  if negb (BytesRem c =? 0) then USB_GetNextDescriptorOfType fuel mem Type_ c else Ok c.

(** The comparator routine gets the location of the current descriptor. *)
Fixpoint USB_GetNextDescriptorComp (fuel : nat) (mem : list Z) (ComparatorRoutine : list Z -> Z -> Z)
    (c : cursor) : res (Z * cursor) :=
  if BytesRem c =? 0 then Ok (DESCRIPTOR_SEARCH_COMP_EndOfDescriptor, c) else
  match fuel with
  | O => Hang
  | S fuel' =>
      let Prev := c in
      c ← USB_GetNextDescriptor mem c;
      let ErrorCode := ComparatorRoutine mem (CurrConfigLoc c) in
      if negb (ErrorCode =? DESCRIPTOR_SEARCH_NotFound) then
        Ok (ErrorCode, if ErrorCode =? DESCRIPTOR_SEARCH_Fail then Prev else c)
      else USB_GetNextDescriptorComp fuel' mem ComparatorRoutine c
  end.

(** ** Well-formed configurations *)

(** A sub-descriptor: its own length, its type, its contents. *)
Definition is_desc (d : list Z) : Prop :=
  (2 <= length d)%nat /\ aget d 0 = Some (Z.of_nat (length d)).
Definition desc_type (d : list Z) : option Z := aget d 1.

(** The cursor stands on the first of the descriptors [ds], which [pre] precedes and [slack]
    (the rest of the application's buffer) follows. *)
Definition mem_of (pre : list Z) (ds : list (list Z)) (slack : list Z) : list Z := pre ++ concat ds ++ slack.
Definition at_ (pre : list Z) (ds : list (list Z)) : cursor :=
  mkCursor (Z.of_nat (length (concat ds))) (Z.of_nat (length pre)).

Lemma aget_app_r {A} (l1 l2 : list A) i : 0 <= i -> aget (l1 ++ l2) (Z.of_nat (length l1) + i) = aget l2 i.
Proof.
  intros Hi. unfold aget. rewrite !(proj2 (Z.leb_le _ _)) by lia.
  rewrite lookup_app_r by lia. f_equal. lia.
Qed.
Lemma aget_app_l {A} (l1 l2 : list A) i : i < Z.of_nat (length l1) -> aget (l1 ++ l2) i = aget l1 i.
Proof.
  intros Hi. unfold aget. destruct (Z.leb_spec 0 i); [|done]. apply lookup_app_l. lia.
Qed.

Lemma next_descriptor pre d ds slack :
  is_desc d -> Z.of_nat (length (concat (d :: ds))) < 65536 ->
  USB_GetNextDescriptor (mem_of pre (d :: ds) slack) (at_ pre (d :: ds)) = Ok (at_ (pre ++ d) ds).
Proof.
  intros [Hl Hs] Hlen. unfold USB_GetNextDescriptor, DESCRIPTOR_SIZE, mem_of, at_. simpl in *.
  rewrite length_app in *. rewrite <- (Z.add_0_r (Z.of_nat (length pre))) at 1.
  rewrite aget_app_r by lia. rewrite <- app_assoc, aget_app_l by lia. rewrite Hs. simpl.
  rewrite (proj2 (Z.ltb_ge _ _)) by lia. f_equal. rewrite length_app.
  unfold set_field. simpl. f_equal; [words|lia].
Qed.

Lemma mem_shift pre d ds slack : mem_of pre (d :: ds) slack = mem_of (pre ++ d) ds slack.
Proof. unfold mem_of. simpl. by rewrite <- !app_assoc. Qed.

Lemma type_at pre d ds slack :
  is_desc d -> DESCRIPTOR_TYPE (mem_of pre (d :: ds) slack) (CurrConfigLoc (at_ pre (d :: ds))) = lift (desc_type d).
Proof.
  intros [Hl Hs]. unfold DESCRIPTOR_TYPE, mem_of, at_, desc_type. simpl. rewrite aget_app_r by lia.
  by rewrite <- app_assoc, aget_app_l by lia.
Qed.

Lemma type_at_end pre slack :
  (2 <= length slack)%nat ->
  exists ty, DESCRIPTOR_TYPE (mem_of pre [] slack) (CurrConfigLoc (at_ pre [])) = Ok ty.
Proof.
  intros Hl. unfold DESCRIPTOR_TYPE, mem_of, at_. simpl. rewrite aget_app_r by lia.
  destruct (aget_Some slack 1) as [x ->]; [lia|]. by exists x.
Qed.

Lemma desc_type_Some d : is_desc d -> exists ty, desc_type d = Some ty.
Proof. intros [Hl _]. apply aget_Some. lia. Qed.

Lemma rem_pos pre d ds : is_desc d -> (BytesRem (at_ pre (d :: ds)) =? 0) = false.
Proof. intros [Hl _]. apply Z.eqb_neq. simpl. rewrite length_app. lia. Qed.

Lemma loc_at pre ds : CurrConfigLoc (at_ pre ds) = Z.of_nat (length pre).
Proof. done. Qed.

(** The reference search: where the first descriptor after the current one satisfies [p]. *)
Fixpoint find_after (p : list Z -> bool) (pre : list Z) (ds : list (list Z)) : list Z * list (list Z) :=
  match ds with
  | [] => (pre, [])
  | d :: ds' =>
      match ds' with
      | d' :: _ => if p d' then (pre ++ d, ds') else find_after p (pre ++ d) ds'
      | [] => (pre ++ d, [])
      end
  end.

Definition of_type (Type_ : Z) (d : list Z) : bool := bool_decide (desc_type d = Some Type_).

Lemma find_after_split p pre ds :
  fst (find_after p pre ds) ++ concat (snd (find_after p pre ds)) = pre ++ concat ds.
Proof.
  revert pre. induction ds as [|d [|d' ds] IH]; intros pre; simpl; [done|by rewrite !app_nil_r|].
  destruct (p d'); simpl; [by rewrite <- !app_assoc|]. specialize (IH (pre ++ d)). simpl in IH.
  rewrite IH. by rewrite <- !app_assoc.
Qed.

Lemma find_after_sub p pre ds : exists k, snd (find_after p pre ds) = drop k ds.
Proof.
  revert pre. induction ds as [|d [|d' ds] IH]; intros pre; simpl; [by exists 0%nat|by exists 1%nat|].
  destruct (p d'); [by exists 1%nat|]. destruct (IH (pre ++ d)) as [k Hk]. simpl in Hk.
  exists (S k). exact Hk.
Qed.

Lemma of_type_search Type_ slack : (2 <= length slack)%nat -> forall ds pre fuel,
  Forall is_desc ds -> Z.of_nat (length (concat ds)) < 65536 -> (length ds <= fuel)%nat ->
  USB_GetNextDescriptorOfType fuel (mem_of pre ds slack) Type_ (at_ pre ds)
  = Ok (let '(pre', ds') := find_after (of_type Type_) pre ds in at_ pre' ds').
Proof.
  intros Hsl. induction ds as [|d ds IH]; intros pre fuel Hd Hlen Hf; [by destruct fuel|].
  apply Forall_cons_iff in Hd as [Hdd Hds]. destruct fuel as [|fuel]; [simpl in Hf; lia|]. simpl in Hf.
  cbn [USB_GetNextDescriptorOfType]. rewrite rem_pos by done. rewrite next_descriptor by done.
  cbn [mbind res_bind]. rewrite mem_shift. cbn [find_after].
  assert (Z.of_nat (length (concat ds)) < 65536) as Hlen'
    by (simpl in Hlen; rewrite length_app in Hlen; lia).
  destruct ds as [|d' ds'].
  - destruct (type_at_end (pre ++ d) slack Hsl) as [ty ->]. cbn [mbind res_bind].
    destruct (ty =? Type_); [done|]. by destruct fuel.
  - rewrite type_at by (by apply Forall_cons_iff in Hds as [? _]).
    destruct (desc_type_Some d') as [ty Hty]; [by apply Forall_cons_iff in Hds as [? _]|].
    rewrite Hty. cbn [mbind res_bind lift]. unfold of_type at 1. rewrite Hty.
    destruct (Z.eqb_spec ty Type_) as [->|Hne].
    + by rewrite bool_decide_eq_true_2.
    + rewrite bool_decide_eq_false_2 by congruence. apply IH; [done|done|lia].
Qed.


(** The search for a type that stops at another one. *)
Fixpoint find_before (p q : list Z -> bool) (pre : list Z) (ds : list (list Z)) : cursor :=
  match ds with
  | [] => at_ pre []
  | d :: ds' =>
      match ds' with
      | d' :: _ => if p d' then at_ (pre ++ d) ds'
                   else if q d' then at_ (pre ++ d) ds' <| BytesRem := 0 |>
                   else find_before p q (pre ++ d) ds'
      | [] => at_ (pre ++ d) []
      end
  end.

Lemma before_search Type_ Before slack : (2 <= length slack)%nat -> forall ds pre fuel,
  Forall is_desc ds -> Z.of_nat (length (concat ds)) < 65536 -> (length ds <= fuel)%nat ->
  USB_GetNextDescriptorOfTypeBefore fuel (mem_of pre ds slack) Type_ Before (at_ pre ds)
  = Ok (find_before (of_type Type_) (of_type Before) pre ds).
Proof.
  intros Hsl. induction ds as [|d ds IH]; intros pre fuel Hd Hlen Hf; [by destruct fuel|].
  apply Forall_cons_iff in Hd as [Hdd Hds]. destruct fuel as [|fuel]; [simpl in Hf; lia|]. simpl in Hf.
  cbn [USB_GetNextDescriptorOfTypeBefore]. rewrite rem_pos by done. rewrite next_descriptor by done.
  cbn [mbind res_bind]. rewrite mem_shift. cbn [find_before].
  assert (Z.of_nat (length (concat ds)) < 65536) as Hlen'
    by (simpl in Hlen; rewrite length_app in Hlen; lia).
  destruct ds as [|d' ds'].
  - destruct (type_at_end (pre ++ d) slack Hsl) as [ty ->]. cbn [mbind res_bind].
    destruct (ty =? Type_); [done|]. destruct (ty =? Before); [done|]. by destruct fuel.
  - rewrite type_at by (by apply Forall_cons_iff in Hds as [? _]).
    destruct (desc_type_Some d') as [ty Hty]; [by apply Forall_cons_iff in Hds as [? _]|].
    rewrite Hty. cbn [mbind res_bind lift]. unfold of_type at 1 2. rewrite Hty.
    destruct (Z.eqb_spec ty Type_) as [->|Hne]; [by rewrite bool_decide_eq_true_2|].
    rewrite (bool_decide_eq_false_2 (Some ty = Some Type_)) by congruence.
    destruct (Z.eqb_spec ty Before) as [->|Hne']; [by rewrite bool_decide_eq_true_2|].
    rewrite bool_decide_eq_false_2 by congruence. apply IH; [done|done|lia].
Qed.

(** The search with a comparator that looks at the current descriptor only. *)
Fixpoint find_comp (cmp : list Z -> Z) (pre : list Z) (ds : list (list Z)) : Z * cursor :=
  match ds with
  | [] => (DESCRIPTOR_SEARCH_COMP_EndOfDescriptor, at_ pre [])
  | d :: ds' =>
      match ds' with
      | d' :: _ =>
          if cmp d' =? DESCRIPTOR_SEARCH_NotFound then find_comp cmp (pre ++ d) ds'
          else (cmp d', if cmp d' =? DESCRIPTOR_SEARCH_Fail then at_ pre ds else at_ (pre ++ d) ds')
      | [] => (DESCRIPTOR_SEARCH_COMP_EndOfDescriptor, at_ (pre ++ d) [])
      end
  end.

Lemma comp_search Comparator cmp slack :
  (forall pre d ds, is_desc d -> Comparator (mem_of pre (d :: ds) slack) (Z.of_nat (length pre)) = cmp d) ->
  (forall pre, Comparator (mem_of pre [] slack) (Z.of_nat (length pre)) = DESCRIPTOR_SEARCH_NotFound) ->
  forall ds pre fuel,
  Forall is_desc ds -> Z.of_nat (length (concat ds)) < 65536 -> (length ds <= fuel)%nat ->
  USB_GetNextDescriptorComp fuel (mem_of pre ds slack) Comparator (at_ pre ds) = Ok (find_comp cmp pre ds).
Proof.
  intros Hc Hend. induction ds as [|d ds IH]; intros pre fuel Hd Hlen Hf; [by destruct fuel|].
  apply Forall_cons_iff in Hd as [Hdd Hds]. destruct fuel as [|fuel]; [simpl in Hf; lia|]. simpl in Hf.
  cbn [USB_GetNextDescriptorComp]. rewrite rem_pos by done. rewrite next_descriptor by done.
  cbn [mbind res_bind]. rewrite mem_shift. cbn [find_comp].
  assert (Z.of_nat (length (concat ds)) < 65536) as Hlen'
    by (simpl in Hlen; rewrite length_app in Hlen; lia).
  destruct ds as [|d' ds'].
  - rewrite loc_at, Hend. simpl. by destruct fuel.
  - rewrite loc_at, Hc by (by apply Forall_cons_iff in Hds as [? _]).
    destruct (cmp d' =? DESCRIPTOR_SEARCH_NotFound); [|done]. simpl negb. cbv iota.
    apply IH; [done|done|lia].
Qed.

(** ** Claims *)

(** The typed searches on a well-formed configuration in a buffer with at least two bytes
    to spare. [USB_GetNextDescriptorOfType] stops at the first later descriptor of the type, with
    the exact number of bytes from there on, or at the end with none left; [...Before] gives up
    (no bytes left) at the first descriptor of the other type if that comes first; [...After]
    is the search for the second type from the first descriptor of the first. All of them
    terminate, and never read outside the buffer. *)
Theorem typed_searches Type_ Other pre ds slack fuel :
  (2 <= length slack)%nat -> Forall is_desc ds -> Z.of_nat (length (concat ds)) < 65536 ->
  (length ds <= fuel)%nat ->
  let mem := mem_of pre ds slack in
  let '(pre', ds') := find_after (of_type Type_) pre ds in
  let '(pre1, ds1) := find_after (of_type Other) pre ds in
  let '(pre2, ds2) := find_after (of_type Type_) pre1 ds1 in
  USB_GetNextDescriptorOfType fuel mem Type_ (at_ pre ds) = Ok (at_ pre' ds') /\
  USB_GetNextDescriptorOfTypeBefore fuel mem Type_ Other (at_ pre ds)
    = Ok (find_before (of_type Type_) (of_type Other) pre ds) /\
  USB_GetNextDescriptorOfTypeAfter fuel mem Type_ Other (at_ pre ds) = Ok (at_ pre2 ds2).
Proof.
  intros Hsl Hd Hlen Hf mem.
  pose proof (of_type_search Type_ slack Hsl ds pre fuel Hd Hlen Hf) as H1.
  pose proof (of_type_search Other slack Hsl ds pre fuel Hd Hlen Hf) as H2.
  pose proof (find_after_sub (of_type Other) pre ds) as Hsub.
  destruct (find_after (of_type Type_) pre ds) as [pre' ds'].
  pose proof (find_after_split (of_type Other) pre ds) as Hsplit.
  destruct (find_after (of_type Other) pre ds) as [pre1 ds1]. simpl in Hsplit, Hsub.
  destruct (find_after (of_type Type_) pre1 ds1) as [pre2 ds2] eqn:E2.
  split; [done|]. split; [by apply before_search|].
  unfold USB_GetNextDescriptorOfTypeAfter. unfold mem. rewrite H2. cbn [mbind res_bind].
  destruct Hsub as [k ->].
  assert (mem_of pre ds slack = mem_of pre1 (drop k ds) slack) as ->.
  { unfold mem_of. by rewrite !app_assoc, Hsplit. }
  destruct (drop k ds) as [|d1 ds1'] eqn:Ek.
  { simpl in *. by injection E2 as <- <-. }
  rewrite rem_pos. 2: { apply (Forall_drop _ k) in Hd. rewrite Ek in Hd. by apply Forall_cons_iff in Hd as [? _]. }
  simpl negb. cbv iota. rewrite <- Ek, of_type_search; try done.
  - by rewrite Ek, E2.
  - by apply Forall_drop.
  - rewrite <- (take_drop k ds), concat_app, length_app in Hlen. lia.
  - rewrite length_drop. lia.
Qed.

(** [USB_GetNextDescriptorComp] with a comparator that decides from the current descriptor
    (and recognises nothing behind the last one) stops at the first later descriptor on which
    the comparator does not answer "not found" and returns its answer; on "fail" the cursor is
    moved back, so that the next search visits that descriptor again. *)
Theorem comparator_search Comparator cmp pre ds slack fuel :
  (forall pre d ds, is_desc d -> Comparator (mem_of pre (d :: ds) slack) (Z.of_nat (length pre)) = cmp d) ->
  (forall pre, Comparator (mem_of pre [] slack) (Z.of_nat (length pre)) = DESCRIPTOR_SEARCH_NotFound) ->
  Forall is_desc ds -> Z.of_nat (length (concat ds)) < 65536 -> (length ds <= fuel)%nat ->
  USB_GetNextDescriptorComp fuel (mem_of pre ds slack) Comparator (at_ pre ds) = Ok (find_comp cmp pre ds) /\
  forall d d' rest, ds = d :: d' :: rest -> cmp d' = DESCRIPTOR_SEARCH_Fail ->
    find_comp cmp pre ds = (DESCRIPTOR_SEARCH_Fail, at_ pre ds).
Proof.
  intros Hc He Hd Hlen Hf. split; [by apply comp_search|].
  intros d d' rest -> Hfail. cbn [find_comp]. by rewrite Hfail.
Qed.

(** On malformed configurations a descriptor of size zero makes the search loop for ever,
    and when the buffer ends with the configuration the search for a type that does not occur
    reads the header of a descriptor behind the end of the buffer. *)
Theorem malformed_searches Type_ fuel :
  Type_ <> 2 ->
  USB_GetNextDescriptorOfType fuel [0; 2] Type_ (mkCursor 2 0) = Hang /\
  USB_GetNextDescriptorOfType 2 [2; 2] Type_ (mkCursor 2 0) = Fault.
Proof.
  intros Ht. split; [|done]. induction fuel as [|fuel IH]; [done|].
  cbn [USB_GetNextDescriptorOfType]. simpl. change (u16 (2 - 0)) with 2.
  rewrite (proj2 (Z.eqb_neq 2 Type_)) by done. exact IH.
Qed.

(** *** Witnesses: a header, an interface and two endpoints *)

Definition w_config : list (list Z) := [[4; 2; 0; 0]; [3; 4; 0]; [3; 5; 129]; [3; 5; 2]].

Lemma w_config_ok : Forall is_desc w_config.
Proof. repeat constructor; simpl; lia. Qed.

Lemma typed_searches_witness :
  USB_GetNextDescriptorOfType 4 (mem_of [] w_config [0; 0]) 5 (at_ [] w_config)
  = Ok (at_ [4; 2; 0; 0; 3; 4; 0] [[3; 5; 129]; [3; 5; 2]]).
Proof.
  apply (typed_searches 5 4 [] w_config [0; 0] 4).
  - simpl. lia.
  - exact w_config_ok.
  - reflexivity.
  - simpl. lia.
Defined.

(** Looks for an endpoint, but not beyond the next interface. *)
Definition w_cmp (d : list Z) : Z :=
  match desc_type d with
  | Some t => if t =? 5 then DESCRIPTOR_SEARCH_Found
              else if t =? 4 then DESCRIPTOR_SEARCH_Fail else DESCRIPTOR_SEARCH_NotFound
  | None => DESCRIPTOR_SEARCH_NotFound
  end.
Definition w_comparator (mem : list Z) (p : Z) : Z := w_cmp (drop (Z.to_nat p) mem).

Lemma w_comparator_ok pre d ds slack :
  is_desc d -> w_comparator (mem_of pre (d :: ds) slack) (Z.of_nat (length pre)) = w_cmp d.
Proof.
  intros [Hl _]. unfold w_comparator, mem_of. rewrite Nat2Z.id, drop_app_length. unfold w_cmp, desc_type.
  simpl. by rewrite <- app_assoc, aget_app_l by lia.
Qed.

Lemma comparator_search_witness :
  USB_GetNextDescriptorComp 4 (mem_of [] w_config [0; 0]) w_comparator (at_ [] w_config)
  = Ok (find_comp w_cmp [] w_config).
Proof.
  apply (comparator_search w_comparator w_cmp [] w_config [0; 0] 4).
  - intros pre d ds Hd. apply w_comparator_ok. exact Hd.
  - intros pre. unfold w_comparator, mem_of. rewrite Nat2Z.id, drop_app_length. reflexivity.
  - exact w_config_ok.
  - reflexivity.
  - simpl. lia.
Defined.

Lemma malformed_searches_witness : USB_GetNextDescriptorOfType 1000 [0; 2] 5 (mkCursor 2 0) = Hang.
Proof. apply (malformed_searches 5 1000). lia. Defined.
End ConfigDescriptors.
