(* ===== verification/Bootloader.v ===== *)
(** * CDC bootloader (bootloaders/AT90usb128X/CDC/BootloaderCDC.c)

    The AVR910 command interpreter of the bootloader, over its bulk endpoints and the
    self-programming operations of the chip. The endpoints are banks of bytes: packets of the
    host that are still to come wait in [out_queue], packets sent to it collect in [in_sent].
    The host collects what is sent unless the device is unattached. The self-programming and
    EEPROM functions are avr-libc's: a type class [Nvm] of operations, with the documented
    behaviour the commands rely on in [NvmLaws]. *)

From S2P Require Import Prelude.
From Stdlib Require Import Lia ZArith.

#[local] Open Scope Z_scope.

Module Bootloader.

(** ** Memories *)

Class Nvm (N : Type) := {
  boot_page_erase : Z -> N -> N;
  boot_page_fill : Z -> Z -> N -> N;
  boot_page_write : Z -> N -> N;
  boot_rww_enable : N -> N;
  boot_lock_bits_set : Z -> N -> N;
  boot_lock_fuse_bits_get : Z -> N -> Z;
  pgm_read_byte_far : Z -> N -> Z;
  eeprom_read_byte : Z -> N -> Z;
  eeprom_write_byte : Z -> Z -> N -> N }.

Definition SPM_PAGESIZE := 256.
Definition FLASH_SIZE := 131072.
Definition BOOT_START_ADDR := (128 - 4) * 1024.

(** The operations in terms of the contents of the memories: erasing a page sets its bytes,
    filling loads a word of the temporary page buffer that was not loaded before, writing a page
    can only clear bits and empties the buffer; flash can be read while its read-while-write
    section is enabled, and enabling it empties the buffer too. *)
Class NvmLaws (N : Type) `{Nvm N} := {
  flash : N -> Z -> Z;
  page_buffer : N -> Z -> Z;
  eeprom : N -> Z -> Z;
  rww_enabled : N -> bool;
  erase_flash a n x : 0 <= a < FLASH_SIZE ->
    flash (boot_page_erase a n) x = if x / SPM_PAGESIZE =? a / SPM_PAGESIZE then 255 else flash n x;
  erase_buffer a n w : page_buffer (boot_page_erase a n) w = page_buffer n w;
  erase_eeprom a n x : eeprom (boot_page_erase a n) x = eeprom n x;
  fill_buffer a d n w : page_buffer n (a mod SPM_PAGESIZE / 2) = 65535 ->
    page_buffer (boot_page_fill a d n) w
    = if w =? a mod SPM_PAGESIZE / 2 then d else page_buffer n w;
  fill_flash a d n x : flash (boot_page_fill a d n) x = flash n x;
  fill_eeprom a d n x : eeprom (boot_page_fill a d n) x = eeprom n x;
  write_flash a n x : 0 <= a < FLASH_SIZE ->
    flash (boot_page_write a n) x
    = if x / SPM_PAGESIZE =? a / SPM_PAGESIZE
      then Z.land (flash n x) (Z.shiftr (page_buffer n (x mod SPM_PAGESIZE / 2)) (8 * (x mod 2)) mod 256)
      else flash n x;
  write_buffer a n w : page_buffer (boot_page_write a n) w = 65535;
  write_eeprom a n x : eeprom (boot_page_write a n) x = eeprom n x;
  enable_flash n x : flash (boot_rww_enable n) x = flash n x;
  enable_eeprom n x : eeprom (boot_rww_enable n) x = eeprom n x;
  enable_rww n : rww_enabled (boot_rww_enable n) = true;
  enable_buffer n w : page_buffer (boot_rww_enable n) w = 65535;
  read_flash a n : rww_enabled n = true -> 0 <= a < FLASH_SIZE -> pgm_read_byte_far a n = flash n a;
  eeprom_write a v n x : eeprom (eeprom_write_byte a v n) x = if x =? a then v else eeprom n x;
  eeprom_write_flash a v n x : flash (eeprom_write_byte a v n) x = flash n x;
  eeprom_read a n : eeprom_read_byte a n = eeprom n a }.

(** ** State *)

Definition CDC_TXRX_EPSIZE := 16.

Section Bootloader.
Context {N : Type} `{Nvm N}.

Record boot := mkBoot {
  out_bank : option (list Z); out_queue : list (list Z);
  in_bank : list Z; in_sent : list (list Z); unattached : bool;
  CurrAddress : Z; finished : Z; nvm : N }.
#[export] Instance eta_boot : Eta boot :=
  {| eta s := mkBoot (out_bank s) (out_queue s) (in_bank s) (in_sent s) (unattached s)
       (CurrAddress s) (finished s) (nvm s); eta_id := ltac:(by intros []) |}.

(** Commands thread the state and may wait for ever. *)
Definition M (A : Type) : Type := boot -> res (A * boot).
#[export] Instance M_ret : MRet M := fun A a s => Ok (a, s).
#[export] Instance M_bind : MBind M := fun A B f m s =>
  match m s with Ok (a, s') => f a s' | Fault => Fault | Hang => Hang end.
Definition modify (f : boot -> boot) : M unit := fun s => Ok (tt, f s).
Definition gets {A} (f : boot -> A) : M A := fun s => Ok (f s, s).
Definition on_nvm (f : N -> N) : M unit := modify (fun s => s <| nvm ::= f |>).

(** ** Endpoint access *)

(** The wait for a packet with data: an empty one is cleared and waited over. *)
Fixpoint next_packet (queue : list (list Z)) (s : boot) : res (Z * boot) :=
  match queue with
  | [] => if unattached s then Ok (0, s <| out_bank := None |> <| out_queue := [] |>) else Hang
  | [] :: queue' => next_packet queue' s
  | (b :: rest) :: queue' => Ok (b, s <| out_bank := Some rest |> <| out_queue := queue' |>)
  end.

Definition FetchNextCommandByte : M Z := fun s =>
  match out_bank s with
  | Some (b :: rest) => Ok (b, s <| out_bank := Some rest |>)
  | _ => next_packet (out_queue s) s
  end.

(** [Endpoint_ClearIN]: the bank goes to the host. *)
Definition ClearIN : M unit := modify (fun s => s <| in_sent ::= fun l => l ++ [in_bank s] |> <| in_bank := [] |>).
Definition bank_full (s : boot) : bool := CDC_TXRX_EPSIZE <=? Z.of_nat (length (in_bank s)).

Definition WriteNextResponseByte (Response : Z) : M unit :=
  full ← gets bank_full;
  off ← gets unattached;
  if full : bool then
    _ ← ClearIN;
    if off : bool then mret tt
    else modify (fun s => s <| in_bank ::= fun l => l ++ [Response] |>)
  else modify (fun s => s <| in_bank ::= fun l => l ++ [Response] |>).

Fixpoint respond (bytes : list Z) : M unit :=
  match bytes with
  | [] => mret tt
  | b :: bytes' => _ ← WriteNextResponseByte b; respond bytes'
  end.

(** ** Block commands *)

Definition add_address (n : Z) : M unit := modify (fun s => s <| CurrAddress ::= fun a => u32 (a + n) |>).
(** The pointer made of [CurrAddress >> 1]. *)
Definition eeprom_address (s : boot) : Z := u16 (Z.shiftr (CurrAddress s) 1).

Fixpoint read_flash_block (n : nat) (HighByte : bool) : M unit :=
  match n with
  | O => mret tt
  | S n' =>
      b ← gets (fun s => pgm_read_byte_far (Z.lor (CurrAddress s) (if HighByte then 1 else 0)) (nvm s));
      _ ← WriteNextResponseByte b;
      _ ← (if HighByte then add_address 2 else mret tt);
      read_flash_block n' (negb HighByte)
  end.

Fixpoint read_eeprom_block (n : nat) : M unit :=
  match n with
  | O => mret tt
  | S n' =>
      b ← gets (fun s => eeprom_read_byte (eeprom_address s) (nvm s));
      _ ← WriteNextResponseByte b;
      _ ← add_address 2;
      read_eeprom_block n'
  end.

Fixpoint write_flash_block (n : nat) (HighByte : bool) (LowByte : Z) : M unit :=
  match n with
  | O => mret tt
  | S n' =>
      b ← FetchNextCommandByte;
      if HighByte then
        _ ← modify (fun s => s <| nvm ::= boot_page_fill (CurrAddress s) (u16 (Z.lor (Z.shiftl b 8) LowByte)) |>);
        _ ← add_address 2;
        write_flash_block n' false LowByte
      else write_flash_block n' true b
  end.

Fixpoint write_eeprom_block (n : nat) : M unit :=
  match n with
  | O => mret tt
  | S n' =>
      b ← FetchNextCommandByte;
      _ ← modify (fun s => s <| nvm ::= eeprom_write_byte (eeprom_address s) b |>);
      _ ← add_address 2;
      write_eeprom_block n'
  end.

Definition ReadWriteMemoryBlock (Command : Z) : M unit :=
  hi ← FetchNextCommandByte;
  lo ← FetchNextCommandByte;
  let BlockSize := Z.lor (u16 (Z.shiftl hi 8)) lo in
  MemoryType ← FetchNextCommandByte;
  if negb (MemoryType =? 69) && negb (MemoryType =? 70) then WriteNextResponseByte 63
  else if Command =? 103 then
    _ ← on_nvm boot_rww_enable;
    if MemoryType =? 70 then read_flash_block (Z.to_nat BlockSize) false
    else read_eeprom_block (Z.to_nat BlockSize)
  else
    PageStartAddress ← gets CurrAddress;
    _ ← (if MemoryType =? 70 then on_nvm (boot_page_erase PageStartAddress) else mret tt);
    _ ← (if MemoryType =? 70 then write_flash_block (Z.to_nat BlockSize) false 0
         else write_eeprom_block (Z.to_nat BlockSize));
    _ ← (if MemoryType =? 70 then on_nvm (boot_page_write PageStartAddress) else mret tt);
    WriteNextResponseByte 13.

(** ** Commands *)

(** The loop of the chip erase from page [k] on. *)
Fixpoint erase_pages (n : nat) (CurrFlashAddress : Z) (m : N) : N :=
  match n with
  | O => m
  | S n' => erase_pages n' (CurrFlashAddress + SPM_PAGESIZE)
              (boot_page_write CurrFlashAddress (boot_page_erase CurrFlashAddress m))
  end.
Definition application_pages : nat := Z.to_nat (BOOT_START_ADDR / SPM_PAGESIZE).

(** ["LUFACDC"] *)
Definition SOFTWARE_IDENTIFIER : list Z := [76; 85; 70; 65; 67; 68; 67].
Definition BOOTLOADER_VERSION_MAJOR := 1.
Definition BOOTLOADER_VERSION_MINOR := 0.
Definition AVR_SIGNATURE_1 := 30.
Definition AVR_SIGNATURE_2 := 151.
Definition AVR_SIGNATURE_3 := 130.
Definition GET_LOW_FUSE_BITS := 0.
Definition GET_LOCK_BITS := 1.
Definition GET_EXTENDED_FUSE_BITS := 2.
Definition GET_HIGH_FUSE_BITS := 3.

Definition respond_fuse (address : Z) : M unit :=
  b ← gets (fun s => boot_lock_fuse_bits_get address (nvm s)); WriteNextResponseByte b.

Definition command (Command : Z) : M unit :=
  if Command =? 69 (* E *) then
    _ ← WriteNextResponseByte 13; modify (fun s => s <| finished := 1 |>)
  else if Command =? 84 (* T *) then _ ← FetchNextCommandByte; WriteNextResponseByte 13
  else if (Command =? 76) || (Command =? 80) (* L, P *) then WriteNextResponseByte 13
  else if Command =? 116 (* t *) then respond [68; 0]
  else if Command =? 97 (* a *) then WriteNextResponseByte 89
  else if Command =? 65 (* A *) then
    hi ← FetchNextCommandByte;
    _ ← modify (fun s => s <| CurrAddress := u32 (i16 (Z.shiftl hi 9)) |>);
    lo ← FetchNextCommandByte;
    _ ← modify (fun s => s <| CurrAddress ::= fun a => Z.lor a (u32 (i16 (Z.shiftl lo 1))) |>);
    WriteNextResponseByte 13
  else if Command =? 112 (* p *) then WriteNextResponseByte 83
  else if Command =? 83 (* S *) then respond SOFTWARE_IDENTIFIER
  else if Command =? 86 (* V *) then
    respond [48 + BOOTLOADER_VERSION_MAJOR; 48 + BOOTLOADER_VERSION_MINOR]
  else if Command =? 115 (* s *) then respond [AVR_SIGNATURE_3; AVR_SIGNATURE_2; AVR_SIGNATURE_1]
  else if Command =? 101 (* e *) then
    _ ← on_nvm (erase_pages application_pages 0); WriteNextResponseByte 13
  else if Command =? 108 (* l *) then
    b ← FetchNextCommandByte; _ ← on_nvm (boot_lock_bits_set b); WriteNextResponseByte 13
  else if Command =? 114 (* r *) then respond_fuse GET_LOCK_BITS
  else if Command =? 70 (* F *) then respond_fuse GET_LOW_FUSE_BITS
  else if Command =? 78 (* N *) then respond_fuse GET_HIGH_FUSE_BITS
  else if Command =? 81 (* Q *) then respond_fuse GET_EXTENDED_FUSE_BITS
  else if Command =? 98 (* b *) then respond [89; SPM_PAGESIZE / 256; SPM_PAGESIZE mod 256]
  else if (Command =? 66) || (Command =? 103) (* B, g *) then ReadWriteMemoryBlock Command
  else if Command =? 67 (* C *) then
    b ← FetchNextCommandByte;
    _ ← modify (fun s => s <| nvm ::= boot_page_fill (CurrAddress s) b |>);
    WriteNextResponseByte 13
  else if Command =? 99 (* c *) then
    b ← FetchNextCommandByte;
    _ ← modify (fun s => s <| nvm ::= boot_page_fill (Z.lor (CurrAddress s) 1) b |>);
    _ ← add_address 2;
    WriteNextResponseByte 13
  else if Command =? 109 (* m *) then
    _ ← modify (fun s => s <| nvm ::= boot_page_write (CurrAddress s) |>); WriteNextResponseByte 13
  else if Command =? 82 (* R *) then
    lo ← gets (fun s => pgm_read_byte_far (CurrAddress s) (nvm s));
    hi ← gets (fun s => pgm_read_byte_far (CurrAddress s + 1) (nvm s));
    respond [hi; lo]
  else if Command =? 68 (* D *) then
    b ← FetchNextCommandByte;
    _ ← modify (fun s => s <| nvm ::= eeprom_write_byte (eeprom_address s) b |>);
    _ ← add_address 2;
    WriteNextResponseByte 13
  else if Command =? 100 (* d *) then
    b ← gets (fun s => eeprom_read_byte (eeprom_address s) (nvm s));
    _ ← WriteNextResponseByte b;
    add_address 2
  else if negb (Command =? 27) then WriteNextResponseByte 63
  else mret tt.

(** The end of the transfer: what is in the bank, and an empty packet after a full one. *)
Definition flush : M unit :=
  full ← gets bank_full;
  off ← gets unattached;
  _ ← ClearIN;
  if off : bool then mret tt
  else
    _ ← (if full : bool then ClearIN else mret tt);
    modify (fun s => s <| out_bank := None |>).

Definition CDC_Task : M unit :=
  received ← gets (fun s => match out_bank s with Some _ => true | None => false end);
  if received : bool then
    Command ← FetchNextCommandByte;
    _ ← command Command;
    flush
  else mret tt.

(** ** [main] *)

Inductive exit := Application | WatchdogReset.

(** The loop while [finished == 0]; [env] is what happens in each pass besides [CDC_Task]:
    the USB task and the packets that arrive. *)
Fixpoint main_loop (env : list (boot -> boot)) (s : boot) : res exit :=
  if finished s =? 0 then
    match env with
    | [] => Hang
    | f :: env' => '(_, s) ← CDC_Task s; main_loop env' (f s)
    end
  else Ok WatchdogReset.

Definition main (button_pressed : bool) (env : list (boot -> boot)) (s : boot) : res exit :=
  if button_pressed then main_loop env s else Ok Application.
End Bootloader.

(** [BL_Pulse]: its counter and the LED port. *)
Definition BL_Pulse (LED_PIN : Z) (st : Z * Z) : Z * Z :=
  let '(Pulse, LED_PORT) := st in
  let Pulse := u16 (Pulse + 1) in
  if Pulse =? 0 then (Pulse, u8 (Z.lxor LED_PORT (BV LED_PIN))) else (Pulse, LED_PORT).

End Bootloader.
