(* ===== verification/BootloaderProtocol.v ===== *)
(** * Correctness of the bootloader's commands

    The byte streams of the two endpoints as seen by the host, whatever the division into
    packets; the framing of responses; and the memory commands against the laws of the
    self-programming interface. *)

From S2P Require Import Prelude.
From S2P Require Import Bootloader.
From Stdlib Require Import Lia ZArith.
From stdpp Require Import list.
Import Bootloader.

#[local] Open Scope Z_scope.

Module BootloaderProtocol.

Section Protocol.
Context {N : Type} `{Nvm N}.
Implicit Types (s : @boot N).

(** Bytes the host has sent and the bootloader has not read, and bytes of the response. *)
Definition pending s : list Z := default [] (out_bank s) ++ concat (out_queue s).
Definition response s : list Z := concat (in_sent s) ++ in_bank s.

(** Since [base] only full packets were sent, and the bank is within its size. *)
Definition framed (base : list (list Z)) s : Prop :=
  exists fulls, in_sent s = base ++ fulls /\ Forall (fun p => length p = 16%nat) fulls /\
    (length (in_bank s) <= 16)%nat.

Definition memory s : Z * Z * N := (CurrAddress s, finished s, nvm s).

(** ** The effect of a command on the endpoints *)

Definition online s : Prop := unattached s = false /\ (length (in_bank s) <= 16)%nat.

(** From [s] to [s'] the bytes [c] were read and [p] were written. *)
Record io (c p : list Z) s s' : Prop := {
  io_pending : pending s = c ++ pending s';
  io_response : response s' = response s ++ p;
  io_online : online s' }.

Lemma io_trans c1 p1 c2 p2 s1 s2 s3 : io c1 p1 s1 s2 -> io c2 p2 s2 s3 -> io (c1 ++ c2) (p1 ++ p2) s1 s3.
Proof.
  intros [Hp1 Hr1 _] [Hp2 Hr2 Ho]. constructor; [|by rewrite Hr2, Hr1, app_assoc|done].
  by rewrite Hp1, Hp2, app_assoc.
Qed.

Lemma io_mem s f : online s ->
  (forall s, out_bank (f s) = out_bank s /\ out_queue (f s) = out_queue s /\ in_bank (f s) = in_bank s /\
     in_sent (f s) = in_sent s /\ unattached (f s) = unattached s) ->
  io [] [] s (f s).
Proof.
  intros Ho Hf. destruct (Hf s) as (H1 & H2 & H3 & H4 & H5).
  constructor; unfold pending, response, online in *.
  - by rewrite H1, H2.
  - by rewrite H3, H4, app_nil_r.
  - by rewrite H3, H5.
Qed.

Lemma next_packet_ok queue : forall s b rest,
  concat queue = b :: rest ->
  exists s', next_packet queue s = Ok (b, s') /\ pending s' = rest /\ in_bank s' = in_bank s /\
    in_sent s' = in_sent s /\ unattached s' = unattached s /\ memory s' = memory s.
Proof.
  induction queue as [|[|x pkt] queue IH]; intros s b rest Hq; [done| |].
  - by apply IH.
  - injection Hq as <- <-. simpl. eexists. split; [done|]. done.
Qed.

Lemma fetch_ok s b rest :
  online s -> pending s = b :: rest ->
  exists s', FetchNextCommandByte s = Ok (b, s') /\ io [b] [] s s' /\ pending s' = rest /\
    memory s' = memory s.
Proof.
  intros [Ha Hl] Hp. unfold FetchNextCommandByte.
  destruct (out_bank s) as [[|x pkt]|] eqn:Eb.
  - assert (concat (out_queue s) = b :: rest) as Hq by (unfold pending in Hp; by rewrite Eb in Hp).
    destruct (next_packet_ok _ s b rest Hq) as (s' & Hn & Hp' & H1 & H2 & H3 & H4).
    exists s'. split; [done|]. split; [|done]. constructor; [by rewrite Hp, Hp'|..].
    + unfold response. by rewrite H1, H2, app_nil_r.
    + unfold online. by rewrite H1, H3.
  - unfold pending in Hp. rewrite Eb in Hp. injection Hp as <- <-.
    eexists. split; [done|]. split; [|done]. constructor; [unfold pending; by rewrite Eb| |done].
    unfold response. simpl. by rewrite app_nil_r.
  - assert (concat (out_queue s) = b :: rest) as Hq by (unfold pending in Hp; by rewrite Eb in Hp).
    destruct (next_packet_ok _ s b rest Hq) as (s' & Hn & Hp' & H1 & H2 & H3 & H4).
    exists s'. split; [done|]. split; [|done]. constructor; [by rewrite Hp, Hp'|..].
    + unfold response. by rewrite H1, H2, app_nil_r.
    + unfold online. by rewrite H1, H3.
Qed.

Lemma write_eq s b :
  WriteNextResponseByte b s = Ok (tt,
    let sent := s <| in_sent ::= fun l => l ++ [in_bank s] |> in
    if bank_full s then if unattached s then sent <| in_bank := [] |> else sent <| in_bank := [b] |>
    else s <| in_bank ::= fun l => l ++ [b] |>).
Proof.
  unfold WriteNextResponseByte, mbind, M_bind, gets. destruct (bank_full s); [|done].
  by destruct (unattached s).
Qed.
Lemma flush_eq s :
  flush s = Ok (tt,
    let sent := s <| in_sent ::= fun l => l ++ [in_bank s] |> <| in_bank := [] |> in
    if unattached s then sent
    else if bank_full s then sent <| in_sent ::= fun l => l ++ [[]] |> <| out_bank := None |>
    else sent <| out_bank := None |>).
Proof.
  unfold flush, mbind, M_bind, gets. destruct (bank_full s), (unattached s) eqn:E; cbn; by rewrite ?E.
Qed.

Lemma write_ok s b :
  online s ->
  exists s', WriteNextResponseByte b s = Ok (tt, s') /\ io [] [b] s s' /\ memory s' = memory s.
Proof.
  intros [Ha Hl]. rewrite write_eq, Ha. unfold bank_full, CDC_TXRX_EPSIZE.
  destruct (Z.leb_spec 16 (Z.of_nat (length (in_bank s)))); eexists; (split; [done|]).
  - split; [|done]. constructor; [done| |split; [done|simpl; lia]].
    unfold response. simpl. rewrite concat_app. simpl. by rewrite app_nil_r.
  - split; [|done]. constructor; [done| |split; [done|simpl; rewrite length_app; simpl; lia]].
    unfold response. simpl. by rewrite app_assoc.
Qed.

Lemma flush_ok s :
  online s -> exists s', flush s = Ok (tt, s') /\ concat (in_sent s') = response s /\
    memory s' = memory s /\ out_queue s' = out_queue s /\ in_bank s' = [] /\ unattached s' = false.
Proof.
  intros [Ha Hl]. rewrite flush_eq, Ha.
  destruct (bank_full s); (eexists; split; [done|]); unfold response; simpl;
    rewrite !concat_app; simpl; rewrite ?app_nil_r; done.
Qed.

(** ** Framing *)

(** A command leaves the packets since [base] full and the bank within its size. *)
Definition keeps_frame {A} (m : M A) : Prop :=
  forall s a s', m s = Ok (a, s') -> unattached s = false ->
    unattached s' = false /\ forall base, framed base s -> framed base s'.

Lemma kf_ret {A} (a : A) : keeps_frame (mret a).
Proof. by intros s a' s' [= <- <-]. Qed.
Lemma kf_bind {A B} (m : M A) (f : A -> M B) :
  keeps_frame m -> (forall a, keeps_frame (f a)) -> keeps_frame (m ≫= f).
Proof.
  intros Hm Hf s b s' Hb Hu. unfold mbind, M_bind in Hb.
  destruct (m s) as [[a s1]| |] eqn:E; [|done..]. destruct (Hm s a s1 E Hu) as [Hu1 H1].
  destruct (Hf a s1 b s' Hb Hu1) as [Hu' H']. split; [done|]. auto.
Qed.
Lemma kf_gets {A} (f : boot -> A) : keeps_frame (gets f).
Proof. by intros s a' s' [= <- <-]. Qed.
Lemma kf_modify f :
  (forall s, in_bank (f s) = in_bank s /\ in_sent (f s) = in_sent s /\ unattached (f s) = unattached s) ->
  keeps_frame (modify f).
Proof.
  intros Hf s [] s' [= <-] Hu. destruct (Hf s) as (H1 & H2 & H3). split; [congruence|].
  intros base (fulls & Hs & Hfu & Hl). exists fulls. by rewrite H1, H2.
Qed.
Lemma kf_fetch : keeps_frame FetchNextCommandByte.
Proof.
  assert (forall q s b s', next_packet q s = Ok (b, s') -> in_bank s' = in_bank s /\ in_sent s' = in_sent s /\
    unattached s' = unattached s) as Hn.
  { induction q as [|[|x pkt] q IH]; intros s b s'; simpl.
    - destruct (unattached s) eqn:E; [|done]. by intros [= <- <-].
    - apply IH.
    - by intros [= <- <-]. }
  intros s b s' Hf Hu. assert (in_bank s' = in_bank s /\ in_sent s' = in_sent s /\ unattached s' = unattached s)
    as (H1 & H2 & H3).
  { revert Hf. unfold FetchNextCommandByte. destruct (out_bank s) as [[|x pkt]|]; [apply Hn| |apply Hn].
    by intros [= <- <-]. }
  split; [congruence|]. intros base (fulls & Hs & Hfu & Hl). exists fulls. by rewrite H1, H2.
Qed.
Lemma kf_write b : keeps_frame (WriteNextResponseByte b).
Proof.
  intros s [] s' Hw Hu. rewrite write_eq, Hu in Hw. unfold bank_full, CDC_TXRX_EPSIZE in Hw.
  destruct (Z.leb_spec 16 (Z.of_nat (length (in_bank s)))) as [Hge|Hlt]; injection Hw as <-; (split; [done|]);
    intros base (fulls & Hs & Hfu & Hl).
  - exists (fulls ++ [in_bank s]). simpl. rewrite Hs, <- app_assoc. split; [done|]. split; [|lia].
    apply Forall_app. split; [done|]. constructor; [lia|constructor].
  - exists fulls. simpl. rewrite length_app. simpl. split; [done|]. split; [done|lia].
Qed.

Ltac frame :=
  repeat first [ apply kf_ret | apply kf_gets | apply kf_fetch | apply kf_write
               | apply kf_bind; [|intros ?] | (apply kf_modify; done) | case_if ].

Lemma kf_respond l : keeps_frame (respond l).
Proof. induction l as [|b l IH]; simpl; [apply kf_ret|]. apply kf_bind; [apply kf_write|done]. Qed.

Lemma kf_blocks n :
  (forall h, keeps_frame (read_flash_block n h)) /\ keeps_frame (read_eeprom_block n) /\
  (forall h lo, keeps_frame (write_flash_block n h lo)) /\ keeps_frame (write_eeprom_block n).
Proof.
  induction n as [|n (IH1 & IH2 & IH3 & IH4)];
    (split; [intros h|split; [|split; [intros h lo|]]]); simpl; frame; done.
Qed.

Lemma kf_command c : keeps_frame (command c).
Proof.
  unfold command, respond_fuse, ReadWriteMemoryBlock, on_nvm, add_address.
  frame; try apply kf_respond; apply (kf_blocks _).
Qed.
End Protocol.


(** ** Memory commands *)

Section Memory.
Context {N : Type} `{NvmLaws N}.
Implicit Types (s : @boot N).

Lemma memory_inj s1 s2 : memory s1 = memory s2 ->
  CurrAddress s1 = CurrAddress s2 /\ finished s1 = finished s2 /\ nvm s1 = nvm s2.
Proof. by intros [= -> -> ->]. Qed.

(** One step of a command: a fetch, a write, a change of the memory. *)
Lemma bind_fetch {A} (k : Z -> M A) s b rest :
  online s -> pending s = b :: rest ->
  exists s', (FetchNextCommandByte ≫= k) s = k b s' /\ io [b] [] s s' /\ pending s' = rest /\ memory s' = memory s.
Proof.
  intros Ho Hp. destruct (fetch_ok s b rest Ho Hp) as (s' & Hf & Hio & Hr & Hm).
  exists s'. unfold mbind, M_bind. by rewrite Hf.
Qed.
Lemma bind_write {A} (k : unit -> M A) s b :
  online s -> exists s', (WriteNextResponseByte b ≫= k) s = k tt s' /\ io [] [b] s s' /\ memory s' = memory s.
Proof.
  intros Ho. destruct (write_ok s b Ho) as (s' & Hw & Hio & Hm).
  exists s'. unfold mbind, M_bind. by rewrite Hw.
Qed.
Lemma io_nil_pending p s s' : io [] p s s' -> pending s' = pending s.
Proof. by intros []. Qed.

Lemma bind_modify {A} (k : unit -> M A) f s : (modify f ≫= k) s = k tt (f s).
Proof. done. Qed.

Lemma write_flash_pair n lo0 :
  write_flash_block (S (S n)) false lo0 =
    (lo ← FetchNextCommandByte; hi ← FetchNextCommandByte;
     _ ← modify (fun s => s <| nvm ::= boot_page_fill (CurrAddress s) (u16 (Z.lor (Z.shiftl hi 8) lo)) |>);
     _ ← add_address 2; write_flash_block n false lo).
Proof. done. Qed.

(** The words of a block of bytes. *)
Fixpoint words_of (data : list Z) : list Z :=
  match data with
  | lo :: hi :: data' => (256 * hi + lo) :: words_of data'
  | _ => []
  end.

Lemma write_flash_block_ok data : forall k lo0 s rest w0,
  length data = (2 * k)%nat -> Forall is_u8 data ->
  online s -> pending s = data ++ rest ->
  (data <> [] -> CurrAddress s mod SPM_PAGESIZE = 2 * w0) -> 0 <= w0 -> 2 * w0 + Z.of_nat (length data) <= SPM_PAGESIZE ->
  0 <= CurrAddress s -> CurrAddress s + Z.of_nat (length data) < 4294967296 ->
  (forall w, w0 <= w -> page_buffer (nvm s) w = 65535) ->
  exists s', write_flash_block (2 * k) false lo0 s = Ok (tt, s') /\ io data [] s s' /\ pending s' = rest /\
    CurrAddress s' = CurrAddress s + Z.of_nat (length data) /\ finished s' = finished s /\
    (forall x, flash (nvm s') x = flash (nvm s) x) /\ (forall x, eeprom (nvm s') x = eeprom (nvm s) x) /\
    (forall w, page_buffer (nvm s') w =
       if decide (w0 <= w) then default 65535 (words_of data !! Z.to_nat (w - w0)) else page_buffer (nvm s) w).
Proof.
  intros k. revert data. induction k as [|k IH]; intros data lo0 s rest w0 Hl Hu Ho Hp Hw Hw0 Hpg HA0 HA Hb.
  { destruct data; [|done]. exists s. simpl in *. split; [done|]. rewrite Z.add_0_r.
    split; [constructor; [done|by rewrite app_nil_r|done]|]. repeat split; try done.
    intros w. destruct (decide (w0 <= w)); [by apply Hb|done]. }
  destruct data as [|lo [|hi data]]; [done|simpl in Hl; lia|]. simpl length in *.
  apply Forall_cons_iff in Hu as [Hlo Hu]. apply Forall_cons_iff in Hu as [Hhi Hu]. specialize (Hw ltac:(done)).
  replace (2 * S k)%nat with (S (S (2 * k))) by lia. rewrite write_flash_pair.
  match goal with |- context [(FetchNextCommandByte ≫= ?f) s] =>
    destruct (bind_fetch f s lo (hi :: data ++ rest) Ho Hp) as (s1 & -> & Hio1 & Hp1 & Hm1) end.
  cbv beta. match goal with |- context [(FetchNextCommandByte ≫= ?f) s1] =>
    destruct (bind_fetch f s1 hi (data ++ rest) (io_online _ _ _ _ Hio1) Hp1) as (s2 & -> & Hio2 & Hp2 & Hm2) end.
  rewrite Hm1 in Hm2. apply memory_inj in Hm2 as (HA2 & Hf2 & Hn2).
  assert (Z.lor (Z.shiftl hi 8) lo = 256 * hi + lo) as Hword.
  { rewrite lor_shiftl_add by (unfold is_u8 in *; lia). lia. }
  cbv beta. unfold add_address. rewrite !bind_modify, Hword, u16_small by (unfold is_u8, is_u16 in *; lia).
  rewrite HA2. set (s3 := s2 <| nvm ::= _ |> <| CurrAddress ::= _ |>).
  assert (io [lo; hi] [] s s3) as Hio3.
  { replace [lo; hi] with ([lo] ++ [hi] ++ []) by done. eapply (io_trans _ [] _ []); [done|].
    eapply (io_trans _ [] _ []); [done|]. apply (io_mem s2 (fun s2 => s2 <| nvm ::= _ |> <| CurrAddress ::= _ |>));
      [by destruct Hio2|done]. }
  assert (CurrAddress s3 = CurrAddress s + 2) as HA3 by (simpl; rewrite HA2, u32_small by (unfold is_u32; lia); done).
  unfold SPM_PAGESIZE in *.
  assert (CurrAddress s mod 256 / 2 = w0) as Hw0' by (rewrite Hw; Z.div_mod_to_equations; lia).
  assert (forall w, page_buffer (nvm s3) w = if w =? w0 then 256 * hi + lo else page_buffer (nvm s) w) as Hb3.
  { intros w. simpl. rewrite Hn2, fill_buffer; unfold SPM_PAGESIZE; rewrite Hw0'; [done|]. apply Hb. lia. }
  destruct (IH data lo s3 rest (w0 + 1)) as (s' & -> & Hio & Hpr & HA' & Hfin & Hfl & Hee & Hbuf); try done.
  { simpl in Hl. lia. } { by destruct Hio3. } 
  { intros Hne. destruct data; [done|]. simpl length in *. rewrite HA3. Z.div_mod_to_equations. lia. }
  { lia. } { lia. } { lia. } { lia. }
  { intros w Hww. rewrite Hb3, (proj2 (Z.eqb_neq _ _)) by lia. apply Hb. lia. }
  exists s'. split; [done|]. split; [exact (io_trans _ _ _ _ _ _ _ Hio3 Hio)|]. split; [done|].
  split; [lia|]. split; [by rewrite Hfin|].
  split; [intros x; rewrite Hfl; simpl; by rewrite fill_flash, Hn2|].
  split; [intros x; rewrite Hee; simpl; by rewrite fill_eeprom, Hn2|].
  intros w. rewrite Hbuf, Hb3. destruct (Z.eqb_spec w w0) as [->|].
  - rewrite decide_False, decide_True, Z.sub_diag by lia. done.
  - destruct (decide (w0 + 1 <= w)).
    + rewrite decide_True by lia. by replace (Z.to_nat (w - w0)) with (S (Z.to_nat (w - (w0 + 1)))) by lia.
    + by rewrite decide_False by lia.
Qed.

(** A whole task: the command byte, the command, the end of the transfer. *)
Lemma task_ok s c rest (P : boot -> Prop) p :
  online s -> out_bank s <> None -> pending s = c :: rest ->
  (forall s1, online s1 -> pending s1 = rest -> memory s1 = memory s ->
     exists s2 cons, command c s1 = Ok (tt, s2) /\ io cons p s1 s2 /\ P s2) ->
  exists s2 s', CDC_Task s = Ok (tt, s') /\ P s2 /\ memory s' = memory s2 /\
    concat (in_sent s') = response s ++ p /\ in_bank s' = [] /\ unattached s' = false.
Proof.
  intros Ho Hr Hp Hc. unfold CDC_Task.
  destruct (fetch_ok s c rest Ho Hp) as (s1 & Hf & Hio1 & Hp1 & Hm1).
  destruct (Hc s1) as (s2 & cons & Hcmd & Hio2 & HP); [by destruct Hio1|done|done|].
  destruct (flush_ok s2) as (s' & Hfl & Hresp & Hm & _ & Hb & Hu); [by destruct Hio2|].
  exists s2, s'. split.
  { unfold mbind, M_bind, gets. destruct (out_bank s); [|done]. by rewrite Hf, Hcmd. }
  split; [done|]. split; [done|]. split; [|done].
  rewrite Hresp, (io_response _ _ _ _ Hio2), (io_response _ _ _ _ Hio1). by rewrite app_nil_r.
Qed.

(** The header of a block command. *)
Lemma block_header (Command hi lo ty : Z) s rest :
  online s -> pending s = hi :: lo :: ty :: rest -> is_u8 hi -> is_u8 lo -> ty = 69 \/ ty = 70 ->
  exists s', io [hi; lo; ty] [] s s' /\ pending s' = rest /\ memory s' = memory s /\
    ReadWriteMemoryBlock Command s =
    (if Command =? 103 then
       _ ← on_nvm boot_rww_enable;
       if ty =? 70 then read_flash_block (Z.to_nat (256 * hi + lo)) false
       else read_eeprom_block (Z.to_nat (256 * hi + lo))
     else
       PageStartAddress ← gets CurrAddress;
       _ ← (if ty =? 70 then on_nvm (boot_page_erase PageStartAddress) else mret tt);
       _ ← (if ty =? 70 then write_flash_block (Z.to_nat (256 * hi + lo)) false 0
            else write_eeprom_block (Z.to_nat (256 * hi + lo)));
       _ ← (if ty =? 70 then on_nvm (boot_page_write PageStartAddress) else mret tt);
       WriteNextResponseByte 13) s'.
Proof.
  intros Ho Hp Hhi Hlo Hty. unfold ReadWriteMemoryBlock.
  match goal with |- context [(FetchNextCommandByte ≫= ?f) s] =>
    destruct (bind_fetch f s hi _ Ho Hp) as (s1 & -> & Hio1 & Hp1 & Hm1) end.
  cbv beta. match goal with |- context [(FetchNextCommandByte ≫= ?f) s1] =>
    destruct (bind_fetch f s1 lo _ (io_online _ _ _ _ Hio1) Hp1) as (s2 & -> & Hio2 & Hp2 & Hm2) end.
  cbv beta zeta. match goal with |- context [(FetchNextCommandByte ≫= ?f) s2] =>
    destruct (bind_fetch f s2 ty _ (io_online _ _ _ _ Hio2) Hp2) as (s3 & -> & Hio3 & Hp3 & Hm3) end.
  exists s3. split; [exact (io_trans _ _ _ _ _ _ _ Hio1 (io_trans _ _ _ _ _ _ _ Hio2 Hio3))|].
  split; [done|]. split; [congruence|]. cbv beta.
  assert (negb (ty =? 69) && negb (ty =? 70) = false) as -> by (by destruct Hty as [-> | ->]).
  rewrite u16_small by (unfold is_u8, is_u16 in *; rewrite Z.shiftl_mul_pow2; lia).
  rewrite lor_shiftl_add by (unfold is_u8 in *; lia).
  replace (hi * 2 ^ 8 + lo) with (256 * hi + lo) by lia. done.
Qed.

Lemma words_of_lookup j : forall data, Forall is_u8 data -> (exists k, length data = (2 * k)%nat) ->
  words_of data !! j = lo ← data !! (2 * j)%nat; hi ← data !! (2 * j + 1)%nat; Some (256 * hi + lo).
Proof.
  induction j as [|j IH]; intros data Hu [k Hk]; (destruct data as [|lo [|hi data]]; [done|simpl in Hk; lia|]).
  { done. }
  simpl. replace (j + S (j + 0))%nat with (S (2 * j)) by lia. rewrite IH.
  - simpl. by replace (j + (j + 0) + 1)%nat with (S (2 * j))%nat by lia.
  - by do 2 apply Forall_cons_iff in Hu as [_ Hu].
  - exists (k - 1)%nat. simpl in Hk. lia.
Qed.

(** A byte of the page buffer that holds the words of a block. *)
Lemma buffer_byte data i :
  Forall is_u8 data -> (exists k, length data = (2 * k)%nat) -> 0 <= i ->
  Z.shiftr (default 65535 (words_of data !! Z.to_nat (i / 2))) (8 * (i mod 2)) mod 256
  = default 255 (data !! Z.to_nat i).
Proof.
  intros Hu [k Hk] Hi. rewrite words_of_lookup by (done || by exists k).
  assert (forall j x, data !! j = Some x -> is_u8 x) as Hall by (intros j x Hx; by eapply Forall_lookup_1).
  set (j := Z.to_nat (i / 2)).
  assert (Z.to_nat i = (2 * j)%nat /\ i mod 2 = 0 \/ Z.to_nat i = (2 * j + 1)%nat /\ i mod 2 = 1) as Hc
    by (unfold j; Z.div_mod_to_equations; lia).
  clearbody j. remember (2 * j)%nat as m eqn:Em. remember (m + 1)%nat as m1 eqn:Em1.
  destruct (data !! m) as [lo|] eqn:El; simpl.
  - destruct (data !! m1) as [hi|] eqn:Eh.
    2: { apply lookup_lt_Some in El. apply lookup_ge_None in Eh. lia. }
    simpl. pose proof (Hall _ _ El) as Hlo. pose proof (Hall _ _ Eh) as Hhi. unfold is_u8 in *.
    destruct Hc as [[-> ->]|[-> ->]]; rewrite ?El, ?Eh; simpl default.
    + rewrite Z.mul_0_r, Z.shiftr_0_r. Z.div_mod_to_equations. lia.
    + change (8 * 1) with 8. rewrite Z.shiftr_div_pow2 by lia. change (2 ^ 8) with 256.
      Z.div_mod_to_equations. lia.
  - apply lookup_ge_None in El.
    destruct Hc as [[-> ->]|[-> ->]]; rewrite (lookup_ge_None_2 data) by lia; done.
Qed.

(** ** The block commands *)

(** A page of flash that was erased and programmed with [data]. *)
Definition programmed (A : Z) (data : list Z) (old new : N) : Prop :=
  (forall x, flash new x = if x / SPM_PAGESIZE =? A / SPM_PAGESIZE
                           then default 255 (data !! Z.to_nat (x - A)) else flash old x) /\
  (forall x, eeprom new x = eeprom old x) /\ (forall w, page_buffer new w = 65535).

Lemma write_flash_cmd s hi lo data rest :
  online s -> pending s = hi :: lo :: 70 :: data ++ rest -> is_u8 hi -> is_u8 lo ->
  Z.of_nat (length data) = 256 * hi + lo -> Z.even (256 * hi + lo) = true ->
  (length data <= 256)%nat -> Forall is_u8 data ->
  CurrAddress s mod SPM_PAGESIZE = 0 -> 0 <= CurrAddress s < FLASH_SIZE ->
  (forall w, page_buffer (nvm s) w = 65535) ->
  exists s', command 66 s = Ok (tt, s') /\ io (hi :: lo :: 70 :: data) [13] s s' /\
    CurrAddress s' = CurrAddress s + Z.of_nat (length data) /\ finished s' = finished s /\
    programmed (CurrAddress s) data (nvm s) (nvm s').
Proof.
  intros Ho Hp Hhi Hlo Hlen Hev Hmax Hu Hal HA Hblank. change (command 66) with (ReadWriteMemoryBlock (N := N) 66).
  destruct (block_header 66 hi lo 70 s (data ++ rest) Ho Hp Hhi Hlo ltac:(by right)) as (s1 & Hio1 & Hp1 & Hm1 & ->).
  apply memory_inj in Hm1 as (HA1 & Hf1 & Hn1).
  change (66 =? 103) with false. change (70 =? 70) with true. cbv iota.
  set (s2 := s1 <| nvm ::= boot_page_erase (CurrAddress s1) |>).
  assert (io [] [] s1 s2) as Hio2 by (apply (io_mem s1 (fun s => s <| nvm ::= boot_page_erase _ |>)); [by destruct Hio1|done]).
  apply Z.even_spec in Hev as [k Hk].
  destruct (write_flash_block_ok data (Z.to_nat k) 0 s2 rest 0) as
    (s3 & Hw & Hio3 & Hp3 & HA3 & Hf3 & Hfl3 & Hee3 & Hb3); try done; try lia.
  { by destruct Hio2. }
  { simpl. rewrite HA1, Hal. done. } { unfold SPM_PAGESIZE. lia. } { simpl. unfold FLASH_SIZE in HA. lia. }
  { simpl. unfold FLASH_SIZE in HA. lia. } { intros w _. simpl. by rewrite erase_buffer, Hn1. }
  set (s4 := s3 <| nvm ::= boot_page_write (CurrAddress s1) |>).
  assert (io [] [] s3 s4) as Hio4 by (apply (io_mem s3 (fun s => s <| nvm ::= boot_page_write _ |>)); [by destruct Hio3|done]).
  destruct (write_ok s4 13) as (s5 & Hw5 & Hio5 & Hm5); [by destruct Hio4|].
  apply memory_inj in Hm5 as (HA5 & Hf5 & Hn5).
  exists s5. split.
  { unfold mbind, M_bind, gets, on_nvm, modify. fold s2. replace (Z.to_nat (256 * hi + lo)) with (2 * Z.to_nat k)%nat by lia.
    rewrite Hw. exact Hw5. }
  split.
  { pose proof (io_trans _ _ _ _ _ _ _ Hio1 (io_trans _ _ _ _ _ _ _ Hio2 (io_trans _ _ _ _ _ _ _ Hio3
      (io_trans _ _ _ _ _ _ _ Hio4 Hio5)))) as Hall. simpl in Hall. by rewrite !app_nil_r in Hall. }
  split; [rewrite HA5; simpl; rewrite HA3; simpl; lia|]. split; [rewrite Hf5; simpl; rewrite Hf3; simpl; done|].
  rewrite Hn5. split; [|split].
  - intros x. simpl. rewrite write_flash, HA1 by (simpl; lia). rewrite Hfl3. simpl. rewrite erase_flash, HA1, Hn1 by lia.
    destruct (Z.eqb_spec (x / SPM_PAGESIZE) (CurrAddress s / SPM_PAGESIZE)) as [E|]; [|done].
    assert (0 <= x - CurrAddress s < 256) as Hx by (unfold SPM_PAGESIZE in *; Z.div_mod_to_equations; lia).
    rewrite Hb3, decide_True by (unfold SPM_PAGESIZE; Z.div_mod_to_equations; lia). rewrite Z.sub_0_r.
    replace (x mod SPM_PAGESIZE) with (x - CurrAddress s) by (unfold SPM_PAGESIZE in *; Z.div_mod_to_equations; lia).
    replace (x mod 2) with ((x - CurrAddress s) mod 2) by (unfold SPM_PAGESIZE in *; Z.div_mod_to_equations; lia).
    rewrite buffer_byte by (done || lia || (exists (Z.to_nat k); lia)).
    destruct (data !! Z.to_nat (x - CurrAddress s)) as [b|] eqn:Eb; [|done]. simpl.
    pose proof (Forall_lookup_1 _ _ _ _ Hu Eb) as Hb8. change 255 with (Z.ones 8).
    rewrite Z.land_comm, Z.land_ones by lia. apply Z.mod_small. exact Hb8.
  - intros x. simpl. by rewrite write_eeprom, Hee3; simpl; rewrite erase_eeprom, Hn1.
  - intros w. simpl. apply write_buffer.
Qed.

Lemma lor_low A (h : bool) : A mod 2 = 0 -> Z.lor A (if h then 1 else 0) = A + (if h then 1 else 0).
Proof.
  intros HA. destruct h; [|by rewrite Z.lor_0_r, Z.add_0_r].
  replace A with (Z.shiftl (A / 2) 1) at 1 by (rewrite Z.shiftl_mul_pow2 by lia; Z.div_mod_to_equations; lia).
  rewrite (lor_shiftl_add _ 1 1) by lia. Z.div_mod_to_equations. lia.
Qed.

Lemma read_flash_block_ok n : forall (h : bool) s,
  online s -> rww_enabled (nvm s) = true -> CurrAddress s mod 2 = 0 -> 0 <= CurrAddress s ->
  CurrAddress s + (if h then 1 else 0) + Z.of_nat n <= FLASH_SIZE ->
  exists s', read_flash_block n h s = Ok (tt, s') /\ nvm s' = nvm s /\ finished s' = finished s /\
    io [] (map (flash (nvm s)) (seqZ (CurrAddress s + (if h then 1 else 0)) (Z.of_nat n))) s s'.
Proof.
  induction n as [|n IH]; intros h s Ho Hr Hev H0' HA.
  { exists s. split; [done|]. split; [done|]. split; [done|]. constructor; [done|by rewrite app_nil_r|done]. }
  cbn [read_flash_block]. unfold gets. unfold mbind at 1, M_bind at 1. rewrite lor_low by done.
  rewrite read_flash by (unfold FLASH_SIZE in *; done || destruct h; lia).
  match goal with |- context [(WriteNextResponseByte ?b ≫= ?k) s] =>
    destruct (bind_write k s b Ho) as (s1 & -> & Hio1 & Hm1) end.
  apply memory_inj in Hm1 as (HA1 & Hf1 & Hn1). unfold FLASH_SIZE in *.
  set (s2 := if h then s1 <| CurrAddress ::= fun a => u32 (a + 2) |> else s1).
  assert (((if h then add_address 2 else (mret tt : M unit)) ≫= (fun _ => read_flash_block n (negb h))) s1
    = read_flash_block n (negb h) s2) as -> by (by destruct h).
  assert (io [] [] s1 s2) as Hio2.
  { destruct h; [|constructor; [done|by rewrite app_nil_r|by destruct Hio1]].
    apply (io_mem s1 (fun s => s <| CurrAddress ::= _ |>)); [by destruct Hio1|done]. }
  assert (CurrAddress s2 = CurrAddress s + (if h then 2 else 0)) as HA2.
  { unfold s2. destruct h; simpl; rewrite HA1; [apply u32_small; unfold is_u32; lia|lia]. }
  assert (nvm s2 = nvm s /\ finished s2 = finished s) as [Hn2 Hf2] by (unfold s2; by destruct h).
  destruct (IH (negb h) s2) as (s' & Hr' & Hn' & Hf' & Hio'); try (destruct Hio2; done || lia).
  { by rewrite Hn2. } { rewrite HA2. destruct h; Z.div_mod_to_equations; lia. }
  { rewrite HA2. destruct h; lia. } { rewrite HA2. destruct h; simpl; lia. }
  exists s'. split; [done|]. split; [congruence|]. split; [congruence|].
  pose proof (io_trans _ _ _ _ _ _ _ Hio1 (io_trans _ _ _ _ _ _ _ Hio2 Hio')) as Hall. simpl in Hall.
  rewrite seqZ_cons by lia. rewrite Hn2, HA2 in Hall. simpl.
  replace (Z.succ (CurrAddress s + (if h then 1 else 0)))
    with (CurrAddress s + (if h then 2 else 0) + (if negb h then 1 else 0)) by (destruct h; simpl; lia).
  by replace (Z.pred (Z.of_nat (S n))) with (Z.of_nat n) by lia.
Qed.

Lemma read_flash_cmd s hi lo rest :
  online s -> pending s = hi :: lo :: 70 :: rest -> is_u8 hi -> is_u8 lo ->
  CurrAddress s mod 2 = 0 -> 0 <= CurrAddress s -> CurrAddress s + (256 * hi + lo) <= FLASH_SIZE ->
  exists s', command 103 s = Ok (tt, s') /\
    io [hi; lo; 70] (map (flash (nvm s)) (seqZ (CurrAddress s) (256 * hi + lo))) s s' /\
    forall x, flash (nvm s') x = flash (nvm s) x.
Proof.
  intros Ho Hp Hhi Hlo Hev H0' HA. change (command 103) with (ReadWriteMemoryBlock (N := N) 103).
  destruct (block_header 103 hi lo 70 s rest Ho Hp Hhi Hlo ltac:(by right)) as (s1 & Hio1 & Hp1 & Hm1 & ->).
  apply memory_inj in Hm1 as (HA1 & Hf1 & Hn1).
  change (103 =? 103) with true. change (70 =? 70) with true. cbv iota.
  set (s2 := s1 <| nvm ::= boot_rww_enable |>).
  assert (io [] [] s1 s2) as Hio2 by (apply (io_mem s1 (fun s => s <| nvm ::= boot_rww_enable |>)); [by destruct Hio1|done]).
  destruct (read_flash_block_ok (Z.to_nat (256 * hi + lo)) false s2) as (s3 & Hr & Hn3 & Hf3 & Hio3).
  { by destruct Hio2. } { simpl. apply enable_rww. } { simpl. by rewrite HA1. } { simpl. lia. }
  { simpl. rewrite HA1. unfold is_u8 in *. lia. }
  exists s3. split; [exact Hr|]. split.
  - pose proof (io_trans _ _ _ _ _ _ _ Hio1 (io_trans _ _ _ _ _ _ _ Hio2 Hio3)) as Hall. simpl in Hall.
    rewrite Z.add_0_r, HA1, Z2Nat.id in Hall by (unfold is_u8 in *; lia).
    rewrite (map_ext _ (flash (nvm s))) in Hall by (intros x; rewrite enable_flash, Hn1; done). done.
  - intros x. rewrite Hn3. simpl. by rewrite enable_flash, Hn1.
Qed.

(** *** EEPROM *)

Lemma eeprom_address_ok s e : CurrAddress s = 2 * e -> 0 <= e < 65536 -> eeprom_address s = e.
Proof.
  intros HA He. unfold eeprom_address. rewrite HA, Z.shiftr_div_pow2 by lia. change (2 ^ 1) with 2.
  rewrite Z.mul_comm, Z.div_mul by lia. apply u16_small. exact He.
Qed.

Lemma write_eeprom_block_ok data : forall s rest e,
  online s -> pending s = data ++ rest -> CurrAddress s = 2 * e -> 0 <= e -> e + Z.of_nat (length data) <= 65536 ->
  exists s', write_eeprom_block (length data) s = Ok (tt, s') /\ io data [] s s' /\ finished s' = finished s /\
    (forall x, flash (nvm s') x = flash (nvm s) x) /\
    (forall x, eeprom (nvm s') x = if decide (e <= x < e + Z.of_nat (length data))
                                   then default 0 (data !! Z.to_nat (x - e)) else eeprom (nvm s) x).
Proof.
  induction data as [|b data IH]; intros s rest e Ho Hp HA He Hl.
  { exists s. split; [done|]. split; [constructor; [done|by rewrite app_nil_r|done]|]. repeat split; try done.
    intros x. by rewrite decide_False by (simpl; lia). }
  simpl length in *. cbn [write_eeprom_block].
  match goal with |- context [(FetchNextCommandByte ≫= ?f) s] =>
    destruct (bind_fetch f s b _ Ho Hp) as (s1 & -> & Hio1 & Hp1 & Hm1) end.
  apply memory_inj in Hm1 as (HA1 & Hf1 & Hn1). cbv beta. unfold add_address. rewrite !bind_modify.
  rewrite (eeprom_address_ok s1 e) by (congruence || lia).
  set (s2 := s1 <| nvm ::= _ |> <| CurrAddress ::= _ |>).
  assert (io [b] [] s s2) as Hio2.
  { replace [b] with ([b] ++ []) by done. eapply (io_trans _ [] _ []); [done|].
    apply (io_mem s1 (fun s => s <| nvm ::= _ |> <| CurrAddress ::= _ |>)); [by destruct Hio1|done]. }
  destruct (IH s2 rest (e + 1)) as (s' & -> & Hio & Hf & Hfl & Hee); try done; try lia.
  { by destruct Hio2. } { simpl. rewrite HA1, HA, u32_small by (unfold is_u32; lia). lia. }
  exists s'. split; [done|]. split; [exact (io_trans _ _ _ _ _ _ _ Hio2 Hio)|]. split; [rewrite Hf; simpl; done|].
  split; [intros x; rewrite Hfl; simpl; by rewrite eeprom_write_flash, Hn1|].
  intros x. rewrite Hee. simpl. rewrite eeprom_write, Hn1.
  destruct (decide (e + 1 <= x < e + 1 + Z.of_nat (length data))).
  - rewrite decide_True by lia. by replace (Z.to_nat (x - e)) with (S (Z.to_nat (x - (e + 1)))) by lia.
  - destruct (Z.eqb_spec x e) as [->|]; [|by rewrite decide_False by lia].
    rewrite decide_True by lia. by rewrite Z.sub_diag.
Qed.

Lemma read_eeprom_block_ok n : forall s e,
  online s -> CurrAddress s = 2 * e -> 0 <= e -> e + Z.of_nat n <= 65536 ->
  exists s', read_eeprom_block n s = Ok (tt, s') /\ nvm s' = nvm s /\
    io [] (map (eeprom (nvm s)) (seqZ e (Z.of_nat n))) s s'.
Proof.
  induction n as [|n IH]; intros s e Ho HA He Hl.
  { exists s. split; [done|]. split; [done|]. constructor; [done|by rewrite app_nil_r|done]. }
  cbn [read_eeprom_block]. unfold gets. unfold mbind at 1, M_bind at 1.
  rewrite (eeprom_address_ok s e), eeprom_read by (done || lia).
  match goal with |- context [(WriteNextResponseByte ?b ≫= ?k) s] =>
    destruct (bind_write k s b Ho) as (s1 & -> & Hio1 & Hm1) end.
  apply memory_inj in Hm1 as (HA1 & Hf1 & Hn1). cbv beta. unfold add_address. rewrite bind_modify.
  set (s2 := s1 <| CurrAddress ::= _ |>).
  assert (io [] [] s1 s2) as Hio2
    by (apply (io_mem s1 (fun s => s <| CurrAddress ::= _ |>)); [by destruct Hio1|done]).
  destruct (IH s2 (e + 1)) as (s' & -> & Hn' & Hio'); try lia.
  { by destruct Hio2. } { simpl. rewrite HA1, HA, u32_small by (unfold is_u32; lia). lia. }
  exists s'. split; [done|]. split; [by rewrite Hn'|].
  pose proof (io_trans _ _ _ _ _ _ _ Hio1 (io_trans _ _ _ _ _ _ _ Hio2 Hio')) as Hall. simpl in Hall.
  rewrite Hn1 in Hall. rewrite seqZ_cons by lia. simpl.
  replace (Z.succ e) with (e + 1) by lia. by replace (Z.pred (Z.of_nat (S n))) with (Z.of_nat n) by lia.
Qed.

(** *** Chip erase *)

Lemma erase_pages_ok n : forall a (m : N),
  a mod SPM_PAGESIZE = 0 -> 0 <= a -> a + Z.of_nat n * SPM_PAGESIZE <= FLASH_SIZE ->
  (forall w, page_buffer m w = 65535) ->
  (forall x, flash (erase_pages n a m) x
     = if decide (a <= x < a + Z.of_nat n * SPM_PAGESIZE) then 255 else flash m x) /\
  (forall x, eeprom (erase_pages n a m) x = eeprom m x) /\
  (forall w, page_buffer (erase_pages n a m) w = 65535).
Proof.
  induction n as [|n IH]; intros a m Hal H0' Hn Hb; simpl erase_pages.
  { split; [|done]. intros x. by rewrite decide_False by lia. }
  unfold SPM_PAGESIZE, FLASH_SIZE in *.
  destruct (IH (a + 256) (boot_page_write a (boot_page_erase a m))) as (H1 & H2 & H3).
  { Z.div_mod_to_equations; lia. } { lia. } { lia. } { intros w. apply write_buffer. }
  split; [|split; [|done]].
  - intros x. rewrite H1. destruct (decide (a + 256 <= x < a + 256 + Z.of_nat n * 256)).
    { by rewrite decide_True by lia. }
    rewrite write_flash, erase_flash, erase_buffer, Hb by (unfold FLASH_SIZE; lia). unfold SPM_PAGESIZE.
    destruct (Z.eqb_spec (x / 256) (a / 256)).
    + rewrite decide_True by (Z.div_mod_to_equations; lia).
      assert (x mod 2 = 0 \/ x mod 2 = 1) as [-> | ->] by (Z.div_mod_to_equations; lia); done.
    + rewrite decide_False by (Z.div_mod_to_equations; lia). done.
  - intros x. by rewrite H2, write_eeprom, erase_eeprom.
Qed.
End Memory.


(** ** Claims *)

Section Claims.
Context {N : Type} `{NvmLaws N}.
Implicit Types (s t : @boot N).

(** Bytes that the contents [mem] has from [a] on. *)
Lemma map_seqZ_data (mem : Z -> Z) a data d :
  (forall i, (i < length data)%nat -> mem (a + Z.of_nat i) = default d (data !! i)) ->
  map mem (seqZ a (Z.of_nat (length data))) = data.
Proof.
  revert a. induction data as [|b data IH]; intros a Hm; [done|].
  simpl length. rewrite seqZ_cons by lia. simpl. f_equal.
  - specialize (Hm 0%nat). rewrite Z.add_0_r in Hm. apply Hm. simpl. lia.
  - replace (Z.pred (Z.of_nat (S (length data)))) with (Z.of_nat (length data)) by lia. apply IH.
    intros i Hi. specialize (Hm (S i)). simpl in Hm. rewrite <- Hm by lia. f_equal. lia.
Qed.

(** C13: programming a flash page. The [B] command with an even number of up to 256 bytes at a
    page boundary, however the bytes are cut into packets, leaves exactly these bytes at the
    current address, the rest of the page erased and every other page and the EEPROM as they
    were, acknowledges with a carriage return and advances the address; and a [g] command
    from the same address then returns the bytes. *)
Theorem flash_block_roundtrip s t hi lo data rest rest' :
  online s -> out_bank s <> None -> pending s = 66 :: hi :: lo :: 70 :: data ++ rest ->
  is_u8 hi -> is_u8 lo -> Z.of_nat (length data) = 256 * hi + lo -> Z.even (256 * hi + lo) = true ->
  (length data <= 256)%nat -> Forall is_u8 data ->
  CurrAddress s mod SPM_PAGESIZE = 0 -> 0 <= CurrAddress s < FLASH_SIZE ->
  (forall w, page_buffer (nvm s) w = 65535) ->
  exists s', CDC_Task s = Ok (tt, s') /\ programmed (CurrAddress s) data (nvm s) (nvm s') /\
    CurrAddress s' = CurrAddress s + Z.of_nat (length data) /\
    concat (in_sent s') = response s ++ [13] /\
    (online t -> out_bank t <> None -> pending t = 103 :: hi :: lo :: 70 :: rest' ->
     CurrAddress t = CurrAddress s -> nvm t = nvm s' ->
     exists t', CDC_Task t = Ok (tt, t') /\ concat (in_sent t') = response t ++ data).
Proof.
  intros Ho Hr Hp Hhi Hlo Hlen Hev Hmax Hu Hal HA Hb.
  destruct (task_ok s 66 _ (fun s2 => CurrAddress s2 = CurrAddress s + Z.of_nat (length data) /\
    programmed (CurrAddress s) data (nvm s) (nvm s2)) [13] Ho Hr Hp) as (s2 & s' & Ht & (HA2 & Hprog) & Hm & Hresp & _).
  { intros s1 Ho1 Hp1 (HA1 & Hf1 & Hn1)%memory_inj.
    destruct (write_flash_cmd s1 hi lo data rest) as (s2 & Hc & Hio & HA2 & _ & Hprog);
      rewrite ?HA1, ?Hn1; try done.
    exists s2, (hi :: lo :: 70 :: data). rewrite HA1 in *. rewrite Hn1 in Hprog. done. }
  apply memory_inj in Hm as (HAm & _ & Hnm).
  exists s'. split; [done|]. split; [by rewrite Hnm|]. split; [congruence|]. split; [done|].
  intros Hot Hrt Hpt HAt Hnt.
  destruct (task_ok t 103 _ (fun _ => True) data Hot Hrt Hpt) as (t2 & t' & Htt & _ & _ & Hrespt & _).
  { intros t1 Ho1 Hp1 (HA1 & Hf1 & Hn1)%memory_inj. unfold FLASH_SIZE, SPM_PAGESIZE in *.
    destruct (read_flash_cmd t1 hi lo rest') as (t2 & Hc & Hio & _); try done; rewrite ?HA1, ?HAt.
    { Z.div_mod_to_equations; lia. } { lia. } { unfold FLASH_SIZE. Z.div_mod_to_equations; lia. }
    exists t2, [hi; lo; 70]. split; [done|]. split; [|done].
    rewrite HA1, HAt, <- Hlen, (map_seqZ_data _ _ data 255) in Hio; [done|].
    intros i Hi. rewrite Hn1, Hnt, Hnm. destruct Hprog as [Hfl _]. rewrite Hfl. unfold SPM_PAGESIZE.
    rewrite (proj2 (Z.eqb_eq _ _)) by (Z.div_mod_to_equations; lia). do 2 f_equal. lia. }
  by exists t'.
Qed.

(** EEPROM blocks. The [B] command with EEPROM bytes stores them from the current address
    (in words) on and changes nothing else, and the [g] command returns them. *)
Theorem eeprom_block_roundtrip s t hi lo data rest rest' e :
  online s -> out_bank s <> None -> pending s = 66 :: hi :: lo :: 69 :: data ++ rest ->
  is_u8 hi -> is_u8 lo -> Z.of_nat (length data) = 256 * hi + lo ->
  CurrAddress s = 2 * e -> 0 <= e -> e + Z.of_nat (length data) <= 65536 ->
  exists s', CDC_Task s = Ok (tt, s') /\ concat (in_sent s') = response s ++ [13] /\
    (forall x, flash (nvm s') x = flash (nvm s) x) /\
    (forall x, ~ (e <= x < e + Z.of_nat (length data)) -> eeprom (nvm s') x = eeprom (nvm s) x) /\
    (online t -> out_bank t <> None -> pending t = 103 :: hi :: lo :: 69 :: rest' ->
     CurrAddress t = CurrAddress s -> nvm t = nvm s' ->
     exists t', CDC_Task t = Ok (tt, t') /\ concat (in_sent t') = response t ++ data).
Proof.
  intros Ho Hr Hp Hhi Hlo Hlen HA He Hmax.
  destruct (task_ok s 66 _ (fun s2 => (forall x, flash (nvm s2) x = flash (nvm s) x) /\
    (forall x, eeprom (nvm s2) x = if decide (e <= x < e + Z.of_nat (length data))
       then default 0 (data !! Z.to_nat (x - e)) else eeprom (nvm s) x)) [13] Ho Hr Hp)
    as (s2 & s' & Ht & (Hfl & Hee) & Hm & Hresp & _).
  { intros s1 Ho1 Hp1 (HA1 & Hf1 & Hn1)%memory_inj. change (command 66) with (ReadWriteMemoryBlock (N := N) 66).
    destruct (block_header 66 hi lo 69 s1 (data ++ rest) Ho1 Hp1 Hhi Hlo ltac:(by left)) as (s3 & Hio3 & Hp3 & Hm3 & ->).
    apply memory_inj in Hm3 as (HA3 & Hf3 & Hn3).
    destruct (write_eeprom_block_ok data s3 rest e) as (s4 & Hw & Hio4 & _ & Hfl4 & Hee4);
      [by destruct Hio3|done|congruence|done|done|].
    destruct (write_ok s4 13) as (s5 & Hw5 & Hio5 & (_ & _ & Hn5)%memory_inj); [by destruct Hio4|].
    exists s5, (hi :: lo :: 69 :: data). split.
    { change (66 =? 103) with false. change (69 =? 70) with false. cbv iota.
      replace (Z.to_nat (256 * hi + lo)) with (length data) by lia.
      unfold mbind, M_bind, gets, mret, M_ret. by rewrite Hw. }
    split.
    { pose proof (io_trans _ _ _ _ _ _ _ Hio3 (io_trans _ _ _ _ _ _ _ Hio4 Hio5)) as Hall.
      simpl in Hall. by rewrite app_nil_r in Hall. }
    rewrite Hn5. split; [intros x; by rewrite Hfl4, Hn3, Hn1|]. intros x. by rewrite Hee4, Hn3, Hn1. }
  apply memory_inj in Hm as (HAm & _ & Hnm).
  exists s'. rewrite Hnm. split; [done|]. split; [done|]. split; [done|].
  split; [intros x Hx; by rewrite Hee, decide_False|].
  intros Hot Hrt Hpt HAt Hnt.
  destruct (task_ok t 103 _ (fun _ => True) data Hot Hrt Hpt) as (t2 & t' & Htt & _ & _ & Hrespt & _); [|by exists t'].
  intros t1 Ho1 Hp1 (HA1 & Hf1 & Hn1)%memory_inj. change (command 103) with (ReadWriteMemoryBlock (N := N) 103).
  destruct (block_header 103 hi lo 69 t1 rest' Ho1 Hp1 Hhi Hlo ltac:(by left)) as (s3 & Hio3 & Hp3 & Hm3 & ->).
  apply memory_inj in Hm3 as (HA3 & Hf3 & Hn3).
  set (s4 := s3 <| nvm ::= boot_rww_enable |>).
  assert (io [] [] s3 s4) as Hio4 by (apply (io_mem s3 (fun s => s <| nvm ::= boot_rww_enable |>)); [by destruct Hio3|done]).
  destruct (read_eeprom_block_ok (length data) s4 e) as (s5 & Hr5 & _ & Hio5); [by destruct Hio4|simpl; congruence|done|done|].
  exists s5, ([hi; lo; 69] ++ [] ++ []). split.
  { replace (Z.to_nat (256 * hi + lo)) with (length data) by lia. exact Hr5. }
  split; [|done]. rewrite (map_seqZ_data _ _ data 0) in Hio5.
  { exact (io_trans _ _ _ _ _ _ _ Hio3 (io_trans _ _ _ _ _ _ _ Hio4 Hio5)). }
  intros i Hi. simpl. rewrite enable_eeprom, Hn3, Hn1, Hnt, Hee, decide_True by lia. do 2 f_equal. lia.
Qed.

(** The [e] command erases the whole application section and nothing else: the boot
    section and the EEPROM keep their contents. *)
Theorem chip_erase s rest :
  online s -> out_bank s <> None -> pending s = 101 :: rest ->
  (forall w, page_buffer (nvm s) w = 65535) ->
  exists s', CDC_Task s = Ok (tt, s') /\ concat (in_sent s') = response s ++ [13] /\
    (forall x, 0 <= x < BOOT_START_ADDR -> flash (nvm s') x = 255) /\
    (forall x, BOOT_START_ADDR <= x -> flash (nvm s') x = flash (nvm s) x) /\
    (forall x, eeprom (nvm s') x = eeprom (nvm s) x).
Proof.
  intros Ho Hr Hp Hb.
  destruct (task_ok s 101 _ (fun s2 => nvm s2 = erase_pages application_pages 0 (nvm s)) [13] Ho Hr Hp)
    as (s2 & s' & Ht & Hn2 & (_ & _ & Hnm)%memory_inj & Hresp & _).
  { intros s1 Ho1 Hp1 (HA1 & Hf1 & Hn1)%memory_inj.
    set (s3 := s1 <| nvm ::= erase_pages application_pages 0 |>).
    assert (io [] [] s1 s3) as Hio by (apply (io_mem s1 (fun s => s <| nvm ::= erase_pages _ _ |>)); done).
    destruct (write_ok s3 13) as (s4 & Hw & Hio4 & (_ & _ & Hn4)%memory_inj); [by destruct Hio|].
    exists s4, ([] ++ []). split; [exact Hw|]. split; [exact (io_trans _ _ _ _ _ _ _ Hio Hio4)|].
    rewrite Hn4. unfold s3. simpl. by rewrite Hn1. }
  destruct (erase_pages_ok application_pages 0 (nvm s)) as (H1 & H2 & _); try done.
  exists s'. rewrite Hnm, Hn2. split; [done|]. split; [done|].
  change (Z.of_nat application_pages * SPM_PAGESIZE) with 126976 in H1. change BOOT_START_ADDR with 126976.
  split; [intros x Hx; by rewrite H1, decide_True by lia|].
  split; [intros x Hx; by rewrite H1, decide_False by lia|done].
Qed.
End Claims.

(** A bulk transfer as the host sees it: full packets, then one shorter packet. *)
Definition transfer (packets : list (list Z)) : Prop :=
  exists fulls last, packets = fulls ++ [last] /\
    Forall (fun p => length p = 16%nat) fulls /\ (length last < 16)%nat.

(** The framing of responses, for every command. While the device is attached, a task that
    returns has sent the response as packets of exactly 16 bytes followed by one shorter packet
    (possibly empty), which tells the host that the transfer is over; the bank is empty again. *)
Theorem response_framing {N} `{Nvm N} (s s' : @boot N) :
  unattached s = false -> in_bank s = [] -> out_bank s <> None -> CDC_Task s = Ok (tt, s') ->
  exists packets, in_sent s' = in_sent s ++ packets /\ transfer packets /\ in_bank s' = [].
Proof.
  intros Hu Hb Hr Ht. unfold CDC_Task, mbind, M_bind, gets in Ht. destruct (out_bank s); [|done].
  destruct (FetchNextCommandByte s) as [[c s1]| |] eqn:E1; [|done..].
  destruct (command c s1) as [[[] s2]| |] eqn:E2; [|done..].
  destruct (kf_fetch s c s1 E1 Hu) as [Hu1 Hf1]. destruct (kf_command c s1 tt s2 E2 Hu1) as [Hu2 Hf2].
  destruct (Hf2 (in_sent s)) as (fulls & Hs & Hful & Hl).
  { apply Hf1. exists []. rewrite Hb, app_nil_r. split; [done|]. split; [constructor|simpl; lia]. }
  rewrite flush_eq, Hu2 in Ht. unfold bank_full, CDC_TXRX_EPSIZE in Ht.
  destruct (Z.leb_spec 16 (Z.of_nat (length (in_bank s2)))); injection Ht as <-; simpl; rewrite Hs.
  - exists ((fulls ++ [in_bank s2]) ++ [[]]). rewrite <- !app_assoc. split; [done|]. split; [|done].
    exists (fulls ++ [in_bank s2]), []. rewrite <- app_assoc. split; [done|]. split; [|simpl; lia].
    apply Forall_app. split; [done|]. constructor; [lia|constructor].
  - exists (fulls ++ [in_bank s2]). rewrite <- app_assoc. split; [done|]. split; [|done].
    exists fulls, (in_bank s2). split; [done|]. split; [done|lia].
Qed.

(** The [A] command sets the byte address for the word address of the host while the high
    byte is below 64; from there on the shift of the 16-bit [int] overflows: with a high byte
    of 64 the address becomes 0xFFFF8000 instead of 0x8000, and with one of 128 or more the top
    bit is lost, so the upper three quarters of the 128 KB flash cannot be addressed. *)
Theorem set_address {N} `{Nvm N} (s : @boot N) hi lo rest :
  online s -> out_bank s <> None -> pending s = 65 :: hi :: lo :: rest -> is_u8 hi -> is_u8 lo ->
  exists s', CDC_Task s = Ok (tt, s') /\
    CurrAddress s' = if hi <? 64 then 2 * (256 * hi + lo)
                     else u32 (i16 (512 * hi)) + 2 * lo.
Proof.
  intros Ho Hr Hp Hhi Hlo.
  destruct (task_ok s 65 _ (fun s2 => CurrAddress s2 = Z.lor (u32 (i16 (Z.shiftl hi 9))) (u32 (i16 (Z.shiftl lo 1))))
    [13] Ho Hr Hp) as (s2 & s' & Ht & HA & (Hm & _)%memory_inj & _).
  { intros s1 Ho1 Hp1 _. unfold command.
    change (65 =? 69) with false. change (65 =? 84) with false. change ((65 =? 76) || (65 =? 80)) with false.
    change (65 =? 116) with false. change (65 =? 97) with false. change (65 =? 65) with true. cbv iota.
    match goal with |- context [(FetchNextCommandByte ≫= ?f) s1] =>
      destruct (bind_fetch f s1 hi _ Ho1 Hp1) as (s3 & -> & Hio3 & Hp3 & _) end.
    cbv beta. rewrite bind_modify. set (s4 := s3 <| CurrAddress := _ |>).
    assert (io [] [] s3 s4) as Hio4 by (apply (io_mem s3 (fun s => s <| CurrAddress := _ |>)); [by destruct Hio3|done]).
    match goal with |- context [(FetchNextCommandByte ≫= ?f) s4] =>
      destruct (bind_fetch f s4 lo rest) as (s5 & -> & Hio5 & Hp5 & (HA5 & _)%memory_inj); [by destruct Hio4|done|] end.
    cbv beta. rewrite bind_modify. set (s6 := s5 <| CurrAddress ::= _ |>).
    assert (io [] [] s5 s6) as Hio6 by (apply (io_mem s5 (fun s => s <| CurrAddress ::= _ |>)); [by destruct Hio5|done]).
    destruct (write_ok s6 13) as (s7 & Hw & Hio7 & (HA7 & _)%memory_inj); [by destruct Hio6|].
    eexists s7, _. split; [exact Hw|]. split.
    - exact (io_trans _ _ _ _ _ _ _ Hio3 (io_trans _ _ _ _ _ _ _ Hio4 (io_trans _ _ _ _ _ _ _ Hio5
        (io_trans _ _ _ _ _ _ _ Hio6 Hio7)))).
    - rewrite HA7. simpl. by rewrite HA5. }
  exists s'. split; [done|]. rewrite Hm, HA. rewrite !Z.shiftl_mul_pow2 by lia. change (2 ^ 9) with 512. change (2 ^ 1) with 2.
  replace (u32 (i16 (lo * 2))) with (2 * lo) by (unfold is_u8 in *; words).
  assert (u32 (i16 (hi * 512)) mod 512 = 0) as Hm512 by (unfold is_u8 in *; words).
  assert (Z.lor (u32 (i16 (hi * 512))) (2 * lo) = u32 (i16 (hi * 512)) + 2 * lo) as ->.
  { replace (u32 (i16 (hi * 512))) with (Z.shiftl (u32 (i16 (hi * 512)) / 512) 9) at 1
      by (rewrite Z.shiftl_mul_pow2 by lia; change (2 ^ 9) with 512; Z.div_mod_to_equations; lia).
    rewrite lor_shiftl_add by (unfold is_u8 in *; lia). change (2 ^ 9) with 512. Z.div_mod_to_equations; lia. }
  destruct (Z.ltb_spec hi 64); unfold is_u8 in *; words.
Qed.

(** ** A simulated chip *)

Record chip := mkChip { c_flash : Z -> Z; c_buffer : Z -> Z; c_eeprom : Z -> Z; c_rww : bool }.

#[export] Instance chip_nvm : Nvm chip := {|
  boot_page_erase a n := mkChip (fun x => if x / SPM_PAGESIZE =? a / SPM_PAGESIZE then 255 else c_flash n x)
                           (c_buffer n) (c_eeprom n) false;
  boot_page_fill a d n := mkChip (c_flash n)
    (fun w => if w =? a mod SPM_PAGESIZE / 2 then d else c_buffer n w) (c_eeprom n) (c_rww n);
  boot_page_write a n := mkChip
    (fun x => if x / SPM_PAGESIZE =? a / SPM_PAGESIZE
              then Z.land (c_flash n x) (Z.shiftr (c_buffer n (x mod SPM_PAGESIZE / 2)) (8 * (x mod 2)) mod 256)
              else c_flash n x) (fun _ => 65535) (c_eeprom n) false;
  boot_rww_enable n := mkChip (c_flash n) (fun _ => 65535) (c_eeprom n) true;
  boot_lock_bits_set _ n := n;
  boot_lock_fuse_bits_get _ _ := 255;
  pgm_read_byte_far a n := if c_rww n then c_flash n a else 0;
  eeprom_read_byte a n := c_eeprom n a;
  eeprom_write_byte a v n := mkChip (c_flash n) (c_buffer n) (fun x => if x =? a then v else c_eeprom n x) (c_rww n) |}.

#[export] Instance chip_laws : NvmLaws chip.
Proof.
  refine {| flash := c_flash; page_buffer := c_buffer; eeprom := c_eeprom; rww_enabled := c_rww |}; try done.
  intros a n Hr _. simpl. by rewrite Hr.
Defined.

Definition new_chip : chip := mkChip (fun _ => 7) (fun _ => 65535) (fun _ => 9) true.
(** The host has sent [bytes] in one packet and [more] in a second one. *)
Definition with_host (bytes more : list Z) (address : Z) : @boot chip :=
  mkBoot (Some bytes) [more] [] [] false address 0 new_chip.

Lemma with_host_online b m a : online (with_host b m a).
Proof. split; [done|simpl; lia]. Qed.

Lemma flash_block_roundtrip_witness :
  exists s', CDC_Task (with_host [66; 0; 2; 70; 17] [34] 512) = Ok (tt, s') /\
    programmed 512 [17; 34] new_chip (nvm s').
Proof.
  destruct (flash_block_roundtrip (with_host [66; 0; 2; 70; 17] [34] 512) (with_host [] [] 0) 0 2 [17; 34] [] [])
    as (s' & H1 & H2 & _).
  - apply with_host_online.
  - discriminate.
  - reflexivity.
  - unfold is_u8; lia.
  - unfold is_u8; lia.
  - reflexivity.
  - reflexivity.
  - simpl; lia.
  - repeat constructor; unfold is_u8; lia.
  - reflexivity.
  - simpl; unfold FLASH_SIZE; lia.
  - reflexivity.
  - exists s'. exact (conj H1 H2).
Defined.

Lemma eeprom_block_roundtrip_witness :
  exists s', CDC_Task (with_host [66; 0; 1; 69] [5] 20) = Ok (tt, s') /\ concat (in_sent s') = [13].
Proof.
  destruct (eeprom_block_roundtrip (with_host [66; 0; 1; 69] [5] 20) (with_host [] [] 0) 0 1 [5] [] [] 10)
    as (s' & H1 & H2 & _).
  - apply with_host_online.
  - discriminate.
  - reflexivity.
  - unfold is_u8; lia.
  - unfold is_u8; lia.
  - reflexivity.
  - reflexivity.
  - lia.
  - simpl; lia.
  - exists s'. exact (conj H1 H2).
Defined.

Lemma chip_erase_witness :
  exists s', CDC_Task (with_host [101] [] 0) = Ok (tt, s') /\ concat (in_sent s') = [13].
Proof.
  destruct (chip_erase (with_host [101] [] 0) []) as (s' & H1 & H2 & _).
  - apply with_host_online.
  - discriminate.
  - reflexivity.
  - reflexivity.
  - exists s'. exact (conj H1 H2).
Defined.

Lemma response_framing_witness :
  exists s' packets, CDC_Task (with_host [83] [] 0) = Ok (tt, s') /\
    in_sent s' = [] ++ packets /\ transfer packets /\ in_bank s' = [].
Proof.
  eexists. destruct (response_framing (with_host [83] [] 0) (with_host [83] [] 0 <| out_bank := None |>
    <| in_sent := [[76; 85; 70; 65; 67; 68; 67]] |>)) as (packets & H).
  - reflexivity.
  - reflexivity.
  - discriminate.
  - reflexivity.
  - exists packets. split; [reflexivity|exact H].
Defined.

Lemma set_address_witness :
  exists s', CDC_Task (with_host [65; 64; 0] [] 0) = Ok (tt, s') /\ CurrAddress s' = 4294934528.
Proof.
  destruct (set_address (with_host [65; 64; 0] [] 0) 64 0 []) as (s' & H1 & H2).
  - apply with_host_online.
  - discriminate.
  - reflexivity.
  - unfold is_u8; lia.
  - unfold is_u8; lia.
  - exists s'. split; [exact H1|exact H2].
Defined.

End BootloaderProtocol.
