(* ===== verification/BootloaderApi.v ===== *)
(** * Functions the bootloader exports (BootloaderAPI.c)

    Applications call these through a table at the end of flash to program the flash they run
    from. Like the bootloader itself they are written against avr-libc's self-programming
    functions ([Nvm]). *)

From S2P Require Import Prelude.
From S2P Require Import Bootloader.
From S2P Require Import BootloaderProtocol.
From Stdlib Require Import Lia ZArith.
Import Bootloader BootloaderProtocol.

#[local] Open Scope Z_scope.

Module BootloaderApi.

Section Api.
Context {N : Type} `{Nvm N}.
Variable boot_signature_byte_get : Z -> Z.

Definition BootloaderAPI_ErasePage (Address : Z) (m : N) : N := boot_rww_enable (boot_page_erase Address m).
Definition BootloaderAPI_WritePage (Address : Z) (m : N) : N := boot_rww_enable (boot_page_write Address m).
Definition BootloaderAPI_FillWord (Address Word : Z) (m : N) : N := boot_page_fill Address Word m.
Definition BootloaderAPI_ReadSignature (Address : Z) : Z := boot_signature_byte_get Address.
Definition BootloaderAPI_ReadFuse (Address : Z) (m : N) : Z := boot_lock_fuse_bits_get Address m.
Definition BootloaderAPI_ReadLock (m : N) : Z := boot_lock_fuse_bits_get GET_LOCK_BITS m.
Definition BootloaderAPI_WriteLock (LockBits : Z) (m : N) : N := boot_lock_bits_set LockBits m.

(** How an application programs a page: erase it, fill the buffer word by word, write it. *)
Fixpoint fill_words (Address : Z) (words : list Z) (m : N) : N :=
  match words with
  | [] => m
  | w :: words' => fill_words (Address + 2) words' (BootloaderAPI_FillWord Address w m)
  end.
Definition program_page (Address : Z) (words : list Z) (m : N) : N :=
  BootloaderAPI_WritePage Address (fill_words Address words (BootloaderAPI_ErasePage Address m)).
End Api.

Section Laws.
Context {N : Type} `{NvmLaws N}.
Implicit Types m : N.

Lemma fill_words_ok : forall words A k m, A mod SPM_PAGESIZE = 0 -> 0 <= k -> k + Z.of_nat (length words) <= 128 ->
  (forall w, k <= w -> page_buffer m w = 65535) ->
  let m' := fill_words (A + 2 * k) words m in
  (forall x, flash m' x = flash m x) /\ (forall x, eeprom m' x = eeprom m x) /\
  (forall w, page_buffer m' w = if decide (k <= w) then default 65535 (words !! Z.to_nat (w - k)) else page_buffer m w).
Proof.
  induction words as [|v words IH]; intros A k m HA Hk Hlen Hb m'.
  { split; [done|]. split; [done|]. intros w. subst m'. simpl. case_decide; [by apply Hb|done]. }
  subst m'. cbn [fill_words]. cbn [length] in Hlen. unfold SPM_PAGESIZE in *.
  assert ((A + 2 * k) mod 256 / 2 = k) as Hw by (Z.div_mod_to_equations; lia).
  set (m1 := BootloaderAPI_FillWord (A + 2 * k) v m). replace (A + 2 * k + 2) with (A + 2 * (k + 1)) by lia.
  assert (forall w, page_buffer m1 w = if w =? k then v else page_buffer m w) as Hb1.
  { intros w. unfold m1, BootloaderAPI_FillWord. rewrite fill_buffer; unfold SPM_PAGESIZE; rewrite Hw; [done|by apply Hb]. }
  destruct (IH A (k + 1) m1 HA) as (H1 & H2 & H3); [lia|lia| |].
  { intros w Hkw. rewrite Hb1, (proj2 (Z.eqb_neq _ _)) by lia. apply Hb. lia. }
  split; [intros x; rewrite H1; apply fill_flash|]. split; [intros x; rewrite H2; apply fill_eeprom|].
  intros w. rewrite H3, Hb1. destruct (Z.eqb_spec w k) as [->|].
  - by rewrite decide_False, decide_True, Z.sub_diag by lia.
  - destruct (decide (k + 1 <= w)).
    + rewrite decide_True by lia. by replace (Z.to_nat (w - k)) with (S (Z.to_nat (w - (k + 1)))) by lia.
    + by rewrite decide_False by lia.
Qed.

Lemma program_page_ok A data m :
  A mod SPM_PAGESIZE = 0 -> 0 <= A < FLASH_SIZE -> (length data <= 256)%nat -> (exists k, length data = (2 * k)%nat) -> Forall is_u8 data ->
  programmed A data m (program_page A (words_of data) m) /\ rww_enabled (program_page A (words_of data) m) = true.
Proof.
  intros HA HF Hlen [k Hk] Hu. unfold program_page, BootloaderAPI_WritePage, BootloaderAPI_ErasePage. split; [|apply enable_rww].
  set (m1 := boot_rww_enable (boot_page_erase A m)).
  assert (forall d, (exists j, length d = (2 * j)%nat) -> length (words_of d) = Nat.div2 (length d)) as Hwords.
  { intros d [j Hj]. revert d Hj. induction j as [|j IHj]; intros [|a [|b d]] Hj; try (simpl in Hj; lia); [done|].
    simpl. by rewrite IHj by (simpl in Hj; lia). }
  destruct (fill_words_ok (words_of data) A 0 m1 HA) as (H1 & H2 & H3); [lia| |intros w _; apply enable_buffer|].
  { rewrite Hwords by (by exists k). rewrite Hk, Nat.div2_double. lia. }
  rewrite Z.mul_0_r, Z.add_0_r in *. split; [|split].
  - intros x. rewrite enable_flash, write_flash, H1 by done. unfold m1. rewrite enable_flash, erase_flash by done.
    destruct (Z.eqb_spec (x / SPM_PAGESIZE) (A / SPM_PAGESIZE)) as [E|]; [|done].
    assert (0 <= x - A < 256) as Hx by (unfold SPM_PAGESIZE in *; Z.div_mod_to_equations; lia).
    rewrite H3, decide_True by (unfold SPM_PAGESIZE; Z.div_mod_to_equations; lia). rewrite Z.sub_0_r.
    replace (x mod SPM_PAGESIZE) with (x - A) by (unfold SPM_PAGESIZE in *; Z.div_mod_to_equations; lia).
    replace (x mod 2) with ((x - A) mod 2) by (unfold SPM_PAGESIZE in *; Z.div_mod_to_equations; lia).
    rewrite buffer_byte by (done || lia || (by exists k)).
    destruct (data !! Z.to_nat (x - A)) as [b|] eqn:Eb; [|done]. simpl.
    pose proof (Forall_lookup_1 _ _ _ _ Hu Eb) as Hb8. change 255 with (Z.ones 8).
    rewrite Z.land_comm, Z.land_ones by lia. apply Z.mod_small. exact Hb8.
  - intros x. rewrite enable_eeprom, write_eeprom, H2. unfold m1. by rewrite enable_eeprom, erase_eeprom.
  - intros w. apply enable_buffer.
Qed.
End Laws.

(** ** Theorem *)

(** An application that erases a page, fills the buffer with the words of up to 256 bytes and
    writes the page, through the bootloader's functions, finds exactly these bytes in that page,
    erased flash behind them, and every other byte of flash and EEPROM as it was; and the flash
    can be read again. What the buffer held before does not matter. *)
Theorem api_programs_page {N} `{NvmLaws N} A data (m : N) :
  A mod SPM_PAGESIZE = 0 -> 0 <= A < FLASH_SIZE -> (length data <= 256)%nat -> (exists k, length data = (2 * k)%nat) -> Forall is_u8 data ->
  let m' := program_page A (words_of data) m in
  (forall x, 0 <= x < FLASH_SIZE -> pgm_read_byte_far x m' =
     if x / SPM_PAGESIZE =? A / SPM_PAGESIZE then default 255 (data !! Z.to_nat (x - A)) else flash m x) /\
  (forall x, eeprom_read_byte x m' = eeprom m x).
Proof.
  intros HA HF Hlen Hk Hu m'. destruct (program_page_ok A data m HA HF Hlen Hk Hu) as ((H1 & H2 & _) & H3). split.
  - intros x Hx. by rewrite read_flash.
  - intros x. by rewrite eeprom_read.
Qed.

Lemma api_programs_page_witness :
  let m' := program_page 512 (words_of [1; 2; 3; 4]) new_chip in
  pgm_read_byte_far 513 m' = 2 /\ pgm_read_byte_far 516 m' = 255 /\ pgm_read_byte_far 768 m' = 7.
Proof.
  intros m'. destruct (@api_programs_page chip _ _ 512 [1; 2; 3; 4] new_chip) as [H1 _].
  - reflexivity.
  - unfold FLASH_SIZE. lia.
  - simpl. lia.
  - exists 2%nat. reflexivity.
  - repeat constructor; unfold is_u8; lia.
  - subst m'. rewrite !H1 by (unfold FLASH_SIZE; lia). repeat split.
Defined.
End BootloaderApi.
