(* ===== verification/Usb.v ===== *)
(** * USB device controller and endpoint driver

    The endpoints of the controller and the primitives the LUFA device stack accesses them with
    (Endpoint_AVR8.h, Device_AVR8.h), the endpoint driver Endpoint_AVR8.c, and the device part of
    the general interrupt of USBInterrupt_AVR8.c.

    The controller's side is driven by bus events ([bus_event]): what the host, the bus and the
    supply do, one event between two turns of a busy-wait loop. An event first changes the hardware
    and then runs the interrupt handler it raises, so a loop sees every state the handler can
    leave. Banks are queues: [armed] holds the banks handed over to the controller and not yet
    collected by the host, [taken] what the host has collected, [received] the banks the host has
    filled. Touching a bank the firmware does not own is a [Fault].

    The model is that of the serial device of the core: USB_SERIES_7/6, FLASH descriptors, no
    CONTROL_ONLY_DEVICE, ORDERED_EP_CONFIG or INTERRUPT_CONTROL_ENDPOINT. *)

From S2P Require Import Prelude.
From Stdlib Require Import Lia ZArith.

#[local] Open Scope Z_scope.

Module Usb.

(** ** Data *)

Inductive device_state :=
| Unattached | Powered | Default | Addressed | Configured | Suspended.
#[export] Instance device_state_eq_dec : EqDecision device_state.
Proof. solve_decision. Defined.

Record USB_Request_Header_t := mkRequest {
  bmRequestType : Z; bRequest : Z; wValue : Z; wIndex : Z; wLength : Z }.

Record USB_Endpoint_Table_t := mkTable { Address : Z; Size : Z; Type_ : Z; Banks : Z }.
#[export] Instance eta_table : Eta USB_Endpoint_Table_t :=
  {| eta r := mkTable (Address r) (Size r) (Type_ r) (Banks r); eta_id := ltac:(by intros []) |}.

(** Interrupts of the device part, and the callbacks of the application they end in. *)
Inductive usb_int := VBUSTI | WAKEUPI | SUSPI | EORSTI | SOFI.
#[export] Instance usb_int_eq_dec : EqDecision usb_int.
Proof. solve_decision. Defined.
Inductive callback :=
| Device_Connect | Device_Disconnect | Device_Suspend | Device_WakeUp | Device_Reset
| Device_StartOfFrame.

Record endpoint := mkEndpoint {
  EPEN : bool; STALLRQ : bool; RXSTPI : bool;
  UECFG0X : Z; UECFG1X : Z; UEIENX : Z;
  setup : list Z; filling : list Z; armed : list (list Z); taken : list (list Z);
  received : list (list Z); toggle : bool }.
#[export] Instance eta_endpoint : Eta endpoint :=
  {| eta r := mkEndpoint (EPEN r) (STALLRQ r) (RXSTPI r) (UECFG0X r) (UECFG1X r) (UEIENX r)
       (setup r) (filling r) (armed r) (taken r) (received r) (toggle r);
     eta_id := ltac:(by intros []) |}.

(** An endpoint after reset; also what a number without endpoint reads as. *)
Definition no_endpoint : endpoint := mkEndpoint false false false 0 0 0 [] [] [] [] [] false.

Definition ENDPOINT_TOTAL_ENDPOINTS := 7.
Definition ENDPOINT_EPNUM_MASK := 15.
Definition ENDPOINT_CONTROLEP := 0.
Definition ENDPOINT_DIR_IN := 128.
Definition ALLOC := 1.
Definition EPBK0 := 2.
Definition EPSIZE0 := 4.
Definition EPTYPE0 := 6.
Definition EPDIR := 0.
Definition ADDEN := 7.

(** Geometry of an endpoint in its configuration register. *)
Definition bank_size (e : endpoint) : nat := Z.to_nat (Z.shiftl 8 (Z.land (Z.shiftr (UECFG1X e) EPSIZE0) 7)).
Definition banks (e : endpoint) : nat := if Z.testbit (UECFG1X e) EPBK0 then 2 else 1.
(** The flags of [UEINTX]: a free bank, a filled bank, a byte to move. *)
Definition TXINI (e : endpoint) : bool := (length (armed e) <? banks e)%nat.
Definition RXOUTI (e : endpoint) : bool := match received e with [] => false | _ => true end.
Definition RWAL (e : endpoint) : bool :=
  if Z.testbit (UECFG0X e) EPDIR then TXINI e && (length (filling e) <? bank_size e)%nat
  else match received e with (_ :: _) :: _ => true | _ => false end.

(** Whether the controller accepts a configuration of an endpoint ([CFGOK]): its number and the
    two configuration registers. *)
Class UsbChip := { cfgok : Z -> Z -> Z -> bool }.

(** [App] is the state of the application. [tokens] is a record of the bus, that no code reads: what the
    address register held whenever the host asked for a packet. *)
Record usb {App : Type} := mkUsb {
  USB_DeviceState : device_state; USB_Device_ConfigurationNumber : Z;
  USB_Device_CurrentlySelfPowered : bool; USB_Device_RemoteWakeupEnabled : bool;
  USB_Device_ControlEndpointSize : Z; USB_ControlRequest : USB_Request_Header_t;
  USB_OPT_MANUAL_PLL : bool;
  UENUM : Z; UDADDR : Z; UDFNUM : Z; UEINT : Z; VBUS : bool; pll : bool; frozen : bool;
  flag : usb_int -> bool; enabled : usb_int -> bool;
  eps : list endpoint; callbacks : list callback; tokens : list Z; app : App }.
Arguments usb App : clear implicits.
#[export] Instance eta_usb {App} : Eta (usb App) :=
  {| eta r := mkUsb App (USB_DeviceState r) (USB_Device_ConfigurationNumber r)
       (USB_Device_CurrentlySelfPowered r) (USB_Device_RemoteWakeupEnabled r)
       (USB_Device_ControlEndpointSize r) (USB_ControlRequest r) (USB_OPT_MANUAL_PLL r)
       (UENUM r) (UDADDR r) (UDFNUM r) (UEINT r) (VBUS r) (pll r) (frozen r) (flag r) (enabled r)
       (eps r) (callbacks r) (tokens r) (app r);
     eta_id := ltac:(by intros []) |}.

Section Endpoints.
Context {App : Type} `{UsbChip}.
Implicit Types (s : usb App) (e : endpoint).

(** Straight-line code, which may touch a bank it does not own. *)
Definition Op (A : Type) : Type := usb App -> res (A * usb App).
#[export] Instance Op_ret : MRet Op := fun A a s => Ok (a, s).
#[export] Instance Op_bind : MBind Op := fun A B f m s =>
  match m s with Ok (a, s') => f a s' | Fault => Fault | Hang => Hang end.
Definition modify (f : usb App -> usb App) : Op unit := fun s => Ok (tt, f s).
Definition gets {A} (f : usb App -> A) : Op A := fun s => Ok (f s, s).

(** The endpoint selected by [UENUM], a register of three bits. *)
Definition cur s : endpoint := nth (Z.to_nat (UENUM s)) (eps s) no_endpoint.
Definition on_ep (n : Z) (f : endpoint -> endpoint) s : usb App :=
  s <| eps ::= alter f (Z.to_nat n) |>.
Definition on_cur (f : endpoint -> endpoint) s : usb App := on_ep (UENUM s) f s.

(** ** Endpoint_AVR8.h *)

Definition Endpoint_SelectEndpoint (addr : Z) s : usb App :=
  s <| UENUM := Z.land (Z.land addr ENDPOINT_EPNUM_MASK) 7 |>.
Definition Endpoint_GetEndpointDirection s : Z :=
  if Z.testbit (UECFG0X (cur s)) EPDIR then ENDPOINT_DIR_IN else 0.
Definition Endpoint_GetCurrentEndpoint s : Z :=
  Z.lor (Z.land (UENUM s) ENDPOINT_EPNUM_MASK) (Endpoint_GetEndpointDirection s).

(** Resetting a FIFO forgets what its banks hold. *)
Definition reset_fifo e : endpoint :=
  e <| RXSTPI := false |> <| setup := [] |> <| filling := [] |> <| armed := [] |> <| received := [] |>.
Definition Endpoint_ResetEndpoint (addr : Z) s : usb App :=
  on_ep (Z.land addr ENDPOINT_EPNUM_MASK) reset_fifo s.
Definition Endpoint_EnableEndpoint s : usb App := on_cur (fun e => e <| EPEN := true |>) s.
(** A disabled endpoint is held in reset, its configuration apart. *)
Definition Endpoint_DisableEndpoint s : usb App :=
  on_cur (fun e => reset_fifo e <| EPEN := false |> <| STALLRQ := false |> <| toggle := false |>) s.
Definition Endpoint_IsEnabled s : bool := EPEN (cur s).
Definition Endpoint_IsReadWriteAllowed s : bool := RWAL (cur s).
Definition Endpoint_IsConfigured s : bool := cfgok (UENUM s) (UECFG0X (cur s)) (UECFG1X (cur s)).
Definition Endpoint_IsINReady s : bool := TXINI (cur s).
Definition Endpoint_IsOUTReceived s : bool := RXOUTI (cur s).
Definition Endpoint_IsSETUPReceived s : bool := RXSTPI (cur s).
(** Acknowledging a SETUP packet clears the bank. *)
Definition Endpoint_ClearSETUP s : usb App :=
  on_cur (fun e => e <| RXSTPI := false |> <| setup := [] |> <| filling := [] |>) s.
Definition Endpoint_ClearIN s : usb App :=
  on_cur (fun e => if TXINI e then e <| armed ::= fun l => l ++ [filling e] |> <| filling := [] |> else e) s.
Definition Endpoint_ClearOUT s : usb App := on_cur (fun e => e <| received ::= tail |>) s.
Definition Endpoint_StallTransaction s : usb App := on_cur (fun e => e <| STALLRQ := true |>) s.
Definition Endpoint_ClearStall s : usb App := on_cur (fun e => e <| STALLRQ := false |>) s.
Definition Endpoint_IsStalled s : bool := STALLRQ (cur s).
Definition Endpoint_ResetDataToggle s : usb App := on_cur (fun e => e <| toggle := false |>) s.
(** The byte count of the bank the firmware works on. *)
Definition Endpoint_BytesInEndpoint s : Z :=
  match received (cur s) with p :: _ => Z.of_nat (length p) | [] => Z.of_nat (length (filling (cur s))) end.

(** [UEDATX]: reads take from the SETUP data while it is there, else from the received bank. *)
Definition Endpoint_Read_8 : Op Z := fun s =>
  if RXSTPI (cur s) then
    match setup (cur s) with
    | b :: rest => Ok (b, on_cur (fun e => e <| setup := rest |>) s)
    | [] => Fault
    end
  else
    match received (cur s) with
    | (b :: rest) :: ps => Ok (b, on_cur (fun e => e <| received := rest :: ps |>) s)
    | _ => Fault
    end.
Definition Endpoint_Write_8 (Data : Z) : Op unit := fun s =>
  if TXINI (cur s) && (length (filling (cur s)) <? bank_size (cur s))%nat
  then Ok (tt, on_cur (fun e => e <| filling ::= fun l => l ++ [u8 Data] |>) s)
  else Fault.
Definition Endpoint_Discard_8 : Op unit := _ ← Endpoint_Read_8; mret tt.
Definition Endpoint_Read_16_LE : Op Z :=
  b0 ← Endpoint_Read_8; b1 ← Endpoint_Read_8; mret (b0 + 256 * b1).
Definition Endpoint_Read_32_LE : Op Z :=
  w0 ← Endpoint_Read_16_LE; w1 ← Endpoint_Read_16_LE; mret (w0 + 65536 * w1).
Definition Endpoint_Write_16_LE (Data : Z) : Op unit :=
  _ ← Endpoint_Write_8 (Z.land Data 255); Endpoint_Write_8 (Z.shiftr Data 8).
Definition Endpoint_Write_32_LE (Data : Z) : Op unit :=
  _ ← Endpoint_Write_8 (Z.land Data 255); _ ← Endpoint_Write_8 (Z.shiftr Data 8);
  _ ← Endpoint_Write_8 (Z.shiftr Data 16); Endpoint_Write_8 (Z.shiftr Data 24).

(** ** Device_AVR8.h *)

Definition USB_Device_SetDeviceAddress (a : Z) s : usb App :=
  s <| UDADDR := Z.lor (Z.land (UDADDR s) (BV ADDEN)) (Z.land a 127) |>.
Definition USB_Device_EnableDeviceAddress s : usb App := s <| UDADDR ::= fun r => sbi r ADDEN |>.
Definition USB_Device_IsAddressSet s : bool := negb (Z.land (UDADDR s) (BV ADDEN) =? 0).

(** ** Configuration of endpoints *)

(** The size field; [CheckBytes] has 16 bits, so a size above 32768 is never reached. *)
Fixpoint epsize_loop (n : nat) (MaskVal CheckBytes Bytes : Z) : res Z :=
  if CheckBytes <? Bytes then
    match n with
    | O => Hang
    | S n' => epsize_loop n' (u8 (MaskVal + 1)) (u16 (Z.shiftl CheckBytes 1)) Bytes
    end
  else Ok (u8 (Z.shiftl MaskVal EPSIZE0)).
Definition Endpoint_BytesToEPSizeMask (Bytes : Z) : res Z := epsize_loop 13 0 8 Bytes.

(** The endpoints from [Number] on are allocated again in ascending order, since the memory of an
    endpoint moves with those below it. The first argument counts the endpoints that are left. *)
Fixpoint configure_loop (n : nat) (EPNum Number UECFG0XData UECFG1XData : Z) s : bool * usb App :=
  match n with
  | O => (true, Endpoint_SelectEndpoint Number s)
  | S n' =>
      let s := Endpoint_SelectEndpoint EPNum s in
      let UECFG0XTemp := if EPNum =? Number then UECFG0XData else UECFG0X (cur s) in
      let UECFG1XTemp := if EPNum =? Number then UECFG1XData else UECFG1X (cur s) in
      let UEIENXTemp := if EPNum =? Number then 0 else UEIENX (cur s) in
      if negb (Z.testbit UECFG1XTemp ALLOC) then
        configure_loop n' (EPNum + 1) Number UECFG0XData UECFG1XData s
      else
        let s := Endpoint_DisableEndpoint s in
        let s := on_cur (fun e => e <| UECFG1X ::= fun r => cbi r ALLOC |>) s in
        let s := Endpoint_EnableEndpoint s in
        let s := on_cur (fun e => e <| UECFG0X := UECFG0XTemp |> <| UECFG1X := UECFG1XTemp |>
                                    <| UEIENX := UEIENXTemp |>) s in
        if negb (Endpoint_IsConfigured s) then (false, s)
        else configure_loop n' (EPNum + 1) Number UECFG0XData UECFG1XData s
  end.
Definition Endpoint_ConfigureEndpoint_Prv (Number UECFG0XData UECFG1XData : Z) s : bool * usb App :=
  configure_loop (Z.to_nat (ENDPOINT_TOTAL_ENDPOINTS - Number)) Number Number UECFG0XData UECFG1XData s.

Definition Endpoint_ConfigureEndpoint (addr type size nbanks : Z) : Op bool := fun s =>
  let Number := Z.land addr ENDPOINT_EPNUM_MASK in
  if ENDPOINT_TOTAL_ENDPOINTS <=? Number then Ok (false, s)
  else
    mask ← Endpoint_BytesToEPSizeMask size;
    mret (Endpoint_ConfigureEndpoint_Prv Number
      (Z.lor (Z.shiftl type EPTYPE0) (if negb (Z.land addr ENDPOINT_DIR_IN =? 0) then BV EPDIR else 0))
      (Z.lor (Z.lor (BV ALLOC) (if 1 <? nbanks then BV EPBK0 else 0)) mask) s).

Fixpoint Endpoint_ConfigureEndpointTable (table : list USB_Endpoint_Table_t) : Op bool :=
  match table with
  | [] => mret true
  | t :: table' =>
      if Address t =? 0 then Endpoint_ConfigureEndpointTable table'
      else
        ok ← Endpoint_ConfigureEndpoint (Address t) (Type_ t) (Size t) (Banks t);
        if ok : bool then Endpoint_ConfigureEndpointTable table' else mret false
  end.

Fixpoint clear_endpoints (n : nat) (EPNum : Z) s : usb App :=
  match n with
  | O => s
  | S n' =>
      let s := Endpoint_SelectEndpoint EPNum s in
      let s := on_cur (fun e => reset_fifo e <| UEIENX := 0 |> <| UECFG1X := 0 |>) s in
      clear_endpoints n' (EPNum + 1) (Endpoint_DisableEndpoint s)
  end.
Definition Endpoint_ClearEndpoints s : usb App :=
  clear_endpoints (Z.to_nat ENDPOINT_TOTAL_ENDPOINTS) 0 (s <| UEINT := 0 |>).

(** ** The general interrupt, device part *)

Definition USB_INT_Clear (i : usb_int) s : usb App :=
  s <| flag ::= fun f j => if decide (j = i) then false else f j |>.
Definition USB_INT_Enable (i : usb_int) s : usb App :=
  s <| enabled ::= fun f j => if decide (j = i) then true else f j |>.
Definition USB_INT_Disable (i : usb_int) s : usb App :=
  s <| enabled ::= fun f j => if decide (j = i) then false else f j |>.
Definition event (c : callback) s : usb App := s <| callbacks ::= fun l => l ++ [c] |>.
Definition fires (i : usb_int) s : bool := flag s i && enabled s i.
(** The phase-locked loop locks once it is on. *)
Definition USB_PLL_On s : usb App := if USB_OPT_MANUAL_PLL s then s else s <| pll := true |>.
Definition USB_PLL_Off s : usb App := if USB_OPT_MANUAL_PLL s then s else s <| pll := false |>.

Definition vect_sof s : usb App :=
  if fires SOFI s then event Device_StartOfFrame (USB_INT_Clear SOFI s) else s.
Definition vect_vbus s : usb App :=
  if fires VBUSTI s then
    let s := USB_INT_Clear VBUSTI s in
    if VBUS s then event Device_Connect (USB_PLL_On s <| USB_DeviceState := Powered |>)
    else event Device_Disconnect (USB_PLL_Off s <| USB_DeviceState := Unattached |>)
  else s.
Definition vect_suspend s : usb App :=
  if fires SUSPI s then
    let s := USB_INT_Enable WAKEUPI (USB_INT_Disable SUSPI s) in
    let s := USB_PLL_Off (s <| frozen := true |>) in
    event Device_Suspend (s <| USB_DeviceState := Suspended |>)
  else s.
Definition vect_wakeup s : usb App :=
  if fires WAKEUPI s then
    let s := USB_PLL_On s <| frozen := false |> in
    let s := USB_INT_Enable SUSPI (USB_INT_Disable WAKEUPI (USB_INT_Clear WAKEUPI s)) in
    event Device_WakeUp (s <| USB_DeviceState :=
      if negb (USB_Device_ConfigurationNumber s =? 0) then Configured
      else if USB_Device_IsAddressSet s then Configured else Powered |>)
  else s.
Definition EP_TYPE_CONTROL := 0.
(** The control endpoint is configured again; its size has eight bits, so the loop over sizes ends. *)
Definition vect_reset s : usb App :=
  if fires EORSTI s then
    let s := USB_INT_Clear EORSTI s <| USB_DeviceState := Default |> <| USB_Device_ConfigurationNumber := 0 |> in
    let s := USB_INT_Enable WAKEUPI (USB_INT_Disable SUSPI (USB_INT_Clear SUSPI s)) in
    let s := match Endpoint_ConfigureEndpoint ENDPOINT_CONTROLEP EP_TYPE_CONTROL
               (USB_Device_ControlEndpointSize s) 1 s with Ok (_, s') => s' | _ => s end in
    event Device_Reset s
  else s.
Definition USB_GEN_vect s : usb App :=
  vect_reset (vect_wakeup (vect_suspend (vect_vbus (vect_sof s)))).

(** ** Bus events *)

Inductive bus_event :=
| Idle
| Frame (n : Z)                    (* start of a frame *)
| Setup (data : list Z)            (* SETUP packet to the control endpoint *)
| Out (ep : Z) (data : list Z)     (* the host sends a packet *)
| In (ep : Z)                      (* the host collects a packet *)
| Vbus (on : bool) | Suspend | WakeUp | BusReset.

Definition raise_int (i : usb_int) s : usb App :=
  s <| flag ::= fun f j => if decide (j = i) then true else f j |>.
(** A SETUP packet is always accepted: it takes the (single) bank and lifts a stall. *)
Definition take_setup (data : list Z) e : endpoint :=
  reset_fifo e <| STALLRQ := false |> <| setup := data |> <| RXSTPI := true |>.
Definition take_out (data : list Z) e : endpoint :=
  if EPEN e && negb (STALLRQ e) && (length (received e) <? banks e)%nat && (length data <=? bank_size e)%nat
  then e <| received ::= fun l => l ++ [data] |> <| toggle ::= negb |> else e.
Definition give_in e : endpoint :=
  match armed e with
  | p :: ps => if EPEN e && negb (STALLRQ e)
               then e <| armed := ps |> <| taken ::= fun l => l ++ [p] |> <| toggle ::= negb |> else e
  | [] => e
  end.
(** A bus reset clears the address and all FIFOs and disables all endpoints but the first. *)
Definition hw_reset s : usb App :=
  s <| UDADDR := 0 |> <| eps ::= imap (fun i e => reset_fifo e <| STALLRQ := false |> <| toggle := false |>
                                         <| EPEN ::= fun b => b && (i =? 0)%nat |>) |>.

(** Activity on the bus ends the suspend condition. *)
Definition hardware (ev : bus_event) s : usb App :=
  match ev with
  | Idle => s
  | Frame n => raise_int SOFI (s <| UDFNUM := n |>)
  | Setup data => on_ep ENDPOINT_CONTROLEP (take_setup data) s
  | Out ep data => on_ep ep (take_out data) s
  | In ep => on_ep ep give_in s <| tokens ::= fun l => l ++ [UDADDR s] |>
  | Vbus on => raise_int VBUSTI (s <| VBUS := on |>)
  | Suspend => raise_int SUSPI s
  | WakeUp => raise_int WAKEUPI (USB_INT_Clear SUSPI s)
  | BusReset => raise_int EORSTI (hw_reset s)
  end.
Definition tick (ev : bus_event) s : usb App := USB_GEN_vect (hardware ev s).

(** ** Waiting *)

(** Code that waits consumes events; without events to come it waits for ever. *)
Definition M (A : Type) : Type := usb App -> list bus_event -> res (A * usb App * list bus_event).
#[export] Instance M_ret : MRet M := fun A a s evs => Ok (a, s, evs).
#[export] Instance M_bind : MBind M := fun A B f m s evs =>
  match m s evs with Ok (a, s', evs') => f a s' evs' | Fault => Fault | Hang => Hang end.
Definition op {A} (o : Op A) : M A := fun s evs =>
  match o s with Ok (a, s') => Ok (a, s', evs) | Fault => Fault | Hang => Hang end.
Definition run (f : usb App -> usb App) : M unit := fun s evs => Ok (tt, f s, evs).
Definition get {A} (f : usb App -> A) : M A := fun s evs => Ok (f s, s, evs).

(** A busy-wait loop: each turn after the first sees the state after one more event, and either
    leaves the loop with a result or goes on with new loop variables. *)
Fixpoint spin {L A : Type} (body : L -> usb App -> res ((A + L) * usb App)) (l : L) s
  (evs : list bus_event) : res (A * usb App * list bus_event) :=
  match body l s with
  | Ok (inl a, s') => Ok (a, s', evs)
  | Ok (inr l', s') => match evs with [] => Hang | ev :: evs' => spin body l' (tick ev s') evs' end
  | Fault => Fault
  | Hang => Hang
  end.
(** [while (!cond) { if (USB_DeviceState == DEVICE_STATE_Unattached) return; }]: whether the
    condition was seen. *)
Definition wait_attached (cond : usb App -> bool) : M bool :=
  spin (fun _ s => Ok (if cond s then inl true
                       else if decide (USB_DeviceState s = Unattached) then inl false else inr tt, s)) tt.

Definition REQDIR_DEVICETOHOST := 128.

Definition Endpoint_ClearStatusStage : M unit :=
  to_host ← get (fun s => negb (Z.land (bmRequestType (USB_ControlRequest s)) REQDIR_DEVICETOHOST =? 0));
  if to_host : bool then
    seen ← wait_attached Endpoint_IsOUTReceived;
    if seen : bool then run Endpoint_ClearOUT else mret tt
  else
    seen ← wait_attached Endpoint_IsINReady;
    if seen : bool then run Endpoint_ClearIN else mret tt.

(** [ENDPOINT_READYWAIT_*] and [ENDPOINT_RWSTREAM_*], whose values agree. *)
Inductive ep_error :=
| NoError | EndpointStalled | DeviceDisconnected | BusSuspended | Timeout | IncompleteTransfer.
#[export] Instance ep_error_eq_dec : EqDecision ep_error.
Proof. solve_decision. Defined.
Definition USB_STREAM_TIMEOUT_MS := 100.

(** The loop variables are [TimeoutMSRem] and [PreviousFrameNumber]. *)
Definition ready_turn (l : Z * Z) s : res ((ep_error + Z * Z) * usb App) :=
  let '(TimeoutMSRem, PreviousFrameNumber) := l in
  if (if Endpoint_GetEndpointDirection s =? ENDPOINT_DIR_IN then Endpoint_IsINReady s
      else Endpoint_IsOUTReceived s)
  then Ok (inl NoError, s)
  else if decide (USB_DeviceState s = Unattached) then Ok (inl DeviceDisconnected, s)
  else if decide (USB_DeviceState s = Suspended) then Ok (inl BusSuspended, s)
  else if Endpoint_IsStalled s then Ok (inl EndpointStalled, s)
  else if negb (UDFNUM s =? PreviousFrameNumber) then
    if TimeoutMSRem =? 0 then Ok (inl Timeout, s)
    else Ok (inr (u8 (TimeoutMSRem - 1), UDFNUM s), s)
  else Ok (inr (TimeoutMSRem, PreviousFrameNumber), s).
(** Time passes before the first look at the flags: an event, possibly [Idle]. *)
Definition Endpoint_WaitUntilReady : M ep_error := fun s evs =>
  match evs with
  | [] => Hang
  | ev :: evs' => spin ready_turn (USB_STREAM_TIMEOUT_MS, UDFNUM s) (tick ev s) evs'
  end.

(** ** Facts *)

(** What packets leave alone: all but the endpoints, the frame number and the record of
    callbacks. *)
Definition core s :=
  (USB_DeviceState s, USB_Device_ConfigurationNumber s, USB_Device_CurrentlySelfPowered s,
   USB_Device_RemoteWakeupEnabled s, USB_Device_ControlEndpointSize s, USB_ControlRequest s,
   UENUM s, UDADDR s, enabled s, app s).
(** No interrupt but that of a frame is pending. *)
Definition quiet s : Prop := forall i, i <> SOFI -> fires i s = false.

Definition packet_event (ev : bus_event) : bool :=
  match ev with Idle | Frame _ | Setup _ | Out _ _ | In _ => true | _ => false end.

Lemma vect_quiet s : quiet s -> USB_GEN_vect s = vect_sof s.
Proof.
  intros Hq.
  assert (forall i, i <> SOFI -> fires i (vect_sof s) = false) as Hf.
  { intros i Hi. specialize (Hq i Hi). unfold vect_sof. destruct (fires SOFI s); [|done].
    revert Hq. unfold fires, USB_INT_Clear. simpl. by rewrite decide_False. }
  unfold USB_GEN_vect, vect_vbus at 1. rewrite Hf by done.
  unfold vect_suspend. rewrite Hf by done. unfold vect_wakeup. rewrite Hf by done.
  unfold vect_reset. by rewrite Hf.
Qed.

Lemma tick_packet ev s :
  packet_event ev = true -> quiet s ->
  core (tick ev s) = core s /\ quiet (tick ev s) /\ eps (tick ev s) = eps (hardware ev s).
Proof.
  intros He Hq. unfold tick.
  assert (quiet (hardware ev s)) as Hh.
  { intros i Hi. specialize (Hq i Hi). destruct ev; try done. unfold hardware, raise_int, fires. simpl.
    by rewrite decide_False. }
  assert (core (hardware ev s) = core s) as Hc by (by destruct ev).
  rewrite vect_quiet by done. unfold vect_sof. destruct (fires SOFI _) eqn:E; [|done]. split; [done|].
  split; [|done]. intros i Hi. specialize (Hh i Hi). revert Hh. unfold fires, USB_INT_Clear. simpl.
  by rewrite decide_False.
Qed.

(** What no event but a bus reset changes, the endpoints apart. *)
Definition steady s :=
  (UENUM s, USB_Device_ControlEndpointSize s, USB_ControlRequest s, UDADDR s,
   USB_Device_ConfigurationNumber s, app s, fires EORSTI s).

Lemma steady_vects s :
  (steady (vect_sof s) = steady s /\ eps (vect_sof s) = eps s) /\
  (steady (vect_vbus s) = steady s /\ eps (vect_vbus s) = eps s) /\
  (steady (vect_suspend s) = steady s /\ eps (vect_suspend s) = eps s) /\
  (steady (vect_wakeup s) = steady s /\ eps (vect_wakeup s) = eps s).
Proof.
  unfold vect_sof, vect_vbus, vect_suspend, vect_wakeup, USB_PLL_On, USB_PLL_Off.
  split_and!; repeat case_if; done.
Qed.

Lemma tick_steady ev s :
  ev <> BusReset -> fires EORSTI s = false ->
  steady (tick ev s) = steady s /\ eps (tick ev s) = eps (hardware ev s).
Proof.
  intros Hev Hr. assert (steady (hardware ev s) = steady s) as Hh by (by destruct ev).
  unfold tick, USB_GEN_vect. set (s0 := hardware ev s) in *.
  destruct (steady_vects s0) as ([H1 E1] & _).
  destruct (steady_vects (vect_sof s0)) as (_ & [H2 E2] & _).
  destruct (steady_vects (vect_vbus (vect_sof s0))) as (_ & _ & [H3 E3] & _).
  destruct (steady_vects (vect_suspend (vect_vbus (vect_sof s0)))) as (_ & _ & _ & [H4 E4]).
  rewrite Hh in H1. rewrite H1 in H2. rewrite H2 in H3. rewrite H3 in H4.
  assert (fires EORSTI (vect_wakeup (vect_suspend (vect_vbus (vect_sof s0)))) = false) as Hf.
  { injection H4. intros HF _ _ _ _ _ _. by rewrite HF. }
  unfold vect_reset. rewrite Hf. split; [done|congruence].
Qed.

(** An event as seen by endpoint [n]. *)
Definition act (n : Z) (ev : bus_event) e : endpoint :=
  match ev with
  | Setup data => if decide (Z.to_nat n = 0%nat) then take_setup data e else e
  | Out m data => if decide (Z.to_nat n = Z.to_nat m) then take_out data e else e
  | In m => if decide (Z.to_nat n = Z.to_nat m) then give_in e else e
  | _ => e
  end.

Lemma hardware_lookup n ev s e :
  ev <> BusReset -> eps s !! Z.to_nat n = Some e ->
  eps (hardware ev s) !! Z.to_nat n = Some (act n ev e).
Proof.
  intros Hev He.
  assert (forall m f, eps (on_ep m f s) !! Z.to_nat n
    = Some (if decide (Z.to_nat n = Z.to_nat m) then f e else e)) as Hon.
  { intros m f. simpl. rewrite list_lookup_alter. case_decide as Hc.
    - rewrite decide_True by done. by rewrite Hc, He.
    - by rewrite decide_False by congruence. }
  destruct ev; try done; apply Hon.
Qed.

(** The state with endpoint [n] selected and holding [e]. *)
Definition at_ep (n : Z) (e : endpoint) s : Prop := UENUM s = n /\ eps s !! Z.to_nat n = Some e.

Lemma at_cur n e s : at_ep n e s -> cur s = e.
Proof. intros [Hn He]. unfold cur. rewrite Hn. by apply nth_lookup_Some. Qed.
Lemma at_on_cur n e s f : at_ep n e s -> at_ep n (f e) (on_cur f s).
Proof.
  intros [Hn He]. split; [done|]. unfold on_cur. rewrite Hn. simpl.
  by rewrite list_lookup_alter_eq, He.
Qed.
Lemma at_tick n e s ev :
  at_ep n e s -> ev <> BusReset -> fires EORSTI s = false -> at_ep n (act n ev e) (tick ev s).
Proof.
  intros [Hn He] Hev Hr. destruct (tick_steady ev s Hev Hr) as [Hs Heps].
  split; [injection Hs as -> _; done|]. rewrite Heps. by apply hardware_lookup.
Qed.
Lemma core_on_cur s f : core (on_cur f s) = core s.
Proof. done. Qed.
Lemma quiet_on_cur s f : quiet s -> quiet (on_cur f s).
Proof. done. Qed.
Lemma steady_on_cur s f : steady (on_cur f s) = steady s.
Proof. done. Qed.

End Endpoints.

(** ** A device for concrete runs *)

(** A chip that accepts every configuration; an enabled control endpoint of eight bytes; a device
    that the host has just reset. *)
Definition some_chip : UsbChip := {| cfgok _ _ _ := true |}.
Definition control_endpoint : endpoint := mkEndpoint true false false 0 (BV ALLOC) 0 [] [] [] [] [] false.
Definition no_request : USB_Request_Header_t := mkRequest 0 0 0 0 0.
Definition fresh_device {App} (e : endpoint) (r : USB_Request_Header_t) (a : App) : usb App :=
  mkUsb App Default 0 false false 8 r false 0 0 0 0 true true false (fun _ => false) (fun _ => true)
    (e :: replicate 6 no_endpoint) [] [] a.
End Usb.
