(* ===== verification/UsbConfigure.v ===== *)
(** * Configuration of endpoints (Endpoint_ConfigureEndpoint)

    What the driver's loop over the endpoints leaves behind: the endpoint asked for has the type,
    direction and size asked for and empty banks; those above it are allocated again with the
    configuration they had; those below it are untouched. *)

From S2P Require Import Prelude.
From S2P Require Import Usb.
From Stdlib Require Import Lia ZArith.
Import Usb.

#[local] Open Scope Z_scope.

Module UsbConfigure.

(** An endpoint that is allocated with a configuration: enabled, with empty banks, no stall and
    the first data toggle. *)
Definition allocated (c0 c1 ie : Z) (e : endpoint) : endpoint :=
  mkEndpoint true false false c0 c1 ie [] [] [] (taken e) [] false.
(** An endpoint above the one that is configured. *)
Definition moved (e : endpoint) : endpoint :=
  if Z.testbit (UECFG1X e) ALLOC then allocated (UECFG0X e) (UECFG1X e) (UEIENX e) e else e.
(** Endpoint [i] after configuring [Number]. *)
Definition after (Number c0 c1 : Z) (i : nat) (e : endpoint) : endpoint :=
  if (Z.of_nat i <? Number) then e
  else if (Z.of_nat i =? Number) then (if Z.testbit c1 ALLOC then allocated c0 c1 0 e else e) else moved e.

Section Configure.
Context {App : Type} `{UsbChip}.
Implicit Types (s : usb App) (e : endpoint).

Lemma on_cur_comp f g s : on_cur f (on_cur g s) = on_cur (fun e => f (g e)) s.
Proof.
  assert (forall k (l : list endpoint), alter f k (alter g k l) = alter (fun e => f (g e)) k l) as Hl.
  { intros k l. apply list_eq. intros i. destruct (decide (k = i)) as [<-|Hne].
    - rewrite !list_lookup_alter_eq. by destruct (l !! k).
    - by rewrite !list_lookup_alter_ne. }
  unfold on_cur, on_ep, set_field. simpl. by rewrite Hl.
Qed.

(** One endpoint is allocated. *)
Definition allocate (c0 c1 ie : Z) s : usb App :=
  on_cur (fun e => e <| UECFG0X := c0 |> <| UECFG1X := c1 |> <| UEIENX := ie |>)
    (Endpoint_EnableEndpoint (on_cur (fun e => e <| UECFG1X ::= fun r => cbi r ALLOC |>) (Endpoint_DisableEndpoint s))).
Lemma allocate_eq c0 c1 ie s : allocate c0 c1 ie s = on_cur (allocated c0 c1 ie) s.
Proof.
  unfold allocate, Endpoint_EnableEndpoint, Endpoint_DisableEndpoint. rewrite !on_cur_comp.
  done.
Qed.

(** The controller accepts what is configured. *)
Definition accepts : Prop := forall n c0 c1, cfgok n c0 c1 = true.

Lemma select_small n s : 0 <= n < 7 -> Endpoint_SelectEndpoint n s = s <| UENUM := n |>.
Proof.
  intros Hn. unfold Endpoint_SelectEndpoint. do 2 f_equal.
  assert (n = 0 \/ n = 1 \/ n = 2 \/ n = 3 \/ n = 4 \/ n = 5 \/ n = 6) as Hc by lia.
  by destruct Hc as [->|[->|[->|[->|[->|[->| ->]]]]]].
Qed.

Lemma configure_loop_spec Number c0 c1 : accepts -> 0 <= Number < 7 -> forall n i s,
  (i + n = 7)%nat -> Number <= Z.of_nat i -> length (eps s) = 7%nat ->
  exists s', configure_loop n (Z.of_nat i) Number c0 c1 s = (true, s') /\ UENUM s' = Number /\
    s' = s <| UENUM := Number |> <| eps := eps s' |> /\
    forall j, eps s' !! j = if (j <? i)%nat then eps s !! j else after Number c0 c1 j <$> eps s !! j.
Proof.
  intros Hacc HN. induction n as [|n IH]; intros i s Hi HNi Hlen.
  { exists (s <| UENUM := Number |>). simpl. rewrite select_small by lia. split; [done|]. split; [done|]. split; [done|].
    intros j. destruct (Nat.ltb_spec j i); [done|]. rewrite lookup_ge_None_2; [done|lia]. }
  cbn [configure_loop]. rewrite select_small by lia. set (s1 := s <| UENUM := Z.of_nat i |>).
  destruct (lookup_lt_is_Some_2 (eps s) i) as [e He]; [lia|].
  assert (at_ep (Z.of_nat i) e s1) as Ha by (split; [done|by rewrite Nat2Z.id]).
  rewrite (at_cur _ _ _ Ha). cbv zeta. fold (allocate (if Z.of_nat i =? Number then c0 else UECFG0X e)
    (if Z.of_nat i =? Number then c1 else UECFG1X e) (if Z.of_nat i =? Number then 0 else UEIENX e) s1).
  rewrite allocate_eq. unfold Endpoint_IsConfigured. rewrite Hacc. cbn [negb]. cbv iota.
  replace (Z.of_nat i + 1) with (Z.of_nat (S i)) by lia.
  assert (after Number c0 c1 i e = if Z.testbit (if Z.of_nat i =? Number then c1 else UECFG1X e) ALLOC
    then allocated (if Z.of_nat i =? Number then c0 else UECFG0X e) (if Z.of_nat i =? Number then c1 else UECFG1X e)
      (if Z.of_nat i =? Number then 0 else UEIENX e) e else e) as Hafter.
  { unfold after, moved. rewrite (proj2 (Z.ltb_ge _ _)) by lia. by destruct (Z.of_nat i =? Number). }
  destruct (Z.testbit (if Z.of_nat i =? Number then c1 else UECFG1X e) ALLOC); cbn [negb]; cbv iota.
  - destruct (IH (S i) (on_cur (allocated (if Z.of_nat i =? Number then c0 else UECFG0X e)
      (if Z.of_nat i =? Number then c1 else UECFG1X e) (if Z.of_nat i =? Number then 0 else UEIENX e)) s1))
      as (s' & Hrun & Hu & Heq & Hl); [lia|lia|simpl; by rewrite length_alter|].
    exists s'. split; [done|]. split; [done|]. split; [by rewrite Heq|]. intros j. rewrite Hl. simpl.
    unfold on_cur in *. simpl. rewrite Nat2Z.id. destruct (decide (i = j)) as [<-|Hne].
    + rewrite (proj2 (Nat.ltb_lt _ _)), (proj2 (Nat.ltb_ge _ _)) by lia. rewrite list_lookup_alter_eq, He. simpl. by rewrite Hafter.
    + rewrite list_lookup_alter_ne by done. destruct (Nat.ltb_spec j (S i)), (Nat.ltb_spec j i); try done; lia.
  - destruct (IH (S i) s1) as (s' & Hrun & Hu & Heq & Hl); [lia|lia|done|].
    exists s'. split; [done|]. split; [done|]. split; [by rewrite Heq|]. intros j. rewrite Hl. simpl.
    destruct (decide (i = j)) as [<-|Hne].
    + rewrite (proj2 (Nat.ltb_lt _ _)), (proj2 (Nat.ltb_ge _ _)) by lia. rewrite He. simpl. by rewrite Hafter.
    + destruct (Nat.ltb_spec j (S i)), (Nat.ltb_spec j i); try done; lia.
Qed.

(** The size field of a size that an endpoint can have. *)
Lemma size_mask size : size <= 1024 -> exists k, 0 <= k < 8 /\
  Endpoint_BytesToEPSizeMask size = Ok (16 * k) /\ size <= 8 * 2 ^ k /\ (0 < k -> 8 * 2 ^ (k - 1) < size).
Proof.
  intros Hs. unfold Endpoint_BytesToEPSizeMask.
  destruct (Z.le_gt_cases size 8); [exists 0|destruct (Z.le_gt_cases size 16); [exists 1|destruct (Z.le_gt_cases size 32);
    [exists 2|destruct (Z.le_gt_cases size 64); [exists 3|destruct (Z.le_gt_cases size 128); [exists 4|
    destruct (Z.le_gt_cases size 256); [exists 5|destruct (Z.le_gt_cases size 512); [exists 6|exists 7]]]]]]].
  all: split; [lia|]; split; [|split; [simpl; lia|intros Hk; simpl; simpl in Hk; lia]].
  all: cbn [epsize_loop]; repeat (match goal with |- context [u16 ?x] => let v := eval vm_compute in (u16 x) in change (u16 x) with v end).
  all: repeat (rewrite (proj2 (Z.ltb_lt _ size)) by lia); rewrite (proj2 (Z.ltb_ge _ size)) by lia; done.
Qed.

(** What an endpoint is asked to be: its direction, the smallest bank that holds [size] bytes, and
    the number of banks; with nothing in it. *)
Definition shaped (addr type size nbanks : Z) (e e' : endpoint) : Prop :=
  EPEN e' = true /\ STALLRQ e' = false /\ RXSTPI e' = false /\ Z.shiftr (UECFG0X e') EPTYPE0 = type /\
  Z.testbit (UECFG0X e') EPDIR = negb (Z.land addr ENDPOINT_DIR_IN =? 0) /\
  size <= Z.of_nat (bank_size e') /\ (8 < Z.of_nat (bank_size e') -> Z.of_nat (bank_size e') < 2 * size) /\
  banks e' = (if 1 <? nbanks then 2%nat else 1%nat) /\
  filling e' = [] /\ armed e' = [] /\ received e' = [] /\ taken e' = taken e /\ toggle e' = false /\
  Z.testbit (UECFG1X e') ALLOC = true.

Lemma allocated_shaped addr type size nbanks k e : 0 <= k < 8 -> size <= 8 * 2 ^ k -> (0 < k -> 8 * 2 ^ (k - 1) < size) ->
  let c1 := Z.lor (Z.lor (BV ALLOC) (if 1 <? nbanks then BV EPBK0 else 0)) (16 * k) in
  Z.testbit c1 ALLOC = true /\ shaped addr type size nbanks e
    (allocated (Z.lor (Z.shiftl type EPTYPE0) (if negb (Z.land addr ENDPOINT_DIR_IN =? 0) then BV EPDIR else 0)) c1 0 e).
Proof.
  intros Hk Hlo Hhi c1.
  assert (Z.testbit c1 ALLOC = true /\ Z.to_nat (Z.shiftl 8 (Z.land (Z.shiftr c1 EPSIZE0) 7)) = Z.to_nat (8 * 2 ^ k) /\
    Z.testbit c1 EPBK0 = (1 <? nbanks)) as (Hal & Hsz & Hbk).
  { subst c1. assert (k = 0 \/ k = 1 \/ k = 2 \/ k = 3 \/ k = 4 \/ k = 5 \/ k = 6 \/ k = 7) as Hc by lia.
    destruct (1 <? nbanks); by destruct Hc as [->|[->|[->|[->|[->|[->|[->| ->]]]]]]]. }
  split; [done|]. unfold shaped, bank_size, banks. cbn [UECFG0X UECFG1X allocated]. rewrite Hsz, Hbk.
  assert (0 < 2 ^ k) by (apply Z.pow_pos_nonneg; lia).
  assert (0 < k -> 2 ^ k = 2 * 2 ^ (k - 1)) as Hpow.
  { intros Hp. replace k with (Z.succ (k - 1)) at 1 by lia. apply Z.pow_succ_r. lia. }
  split_and!; try done.
  - apply Z.bits_inj'. intros i Hi. rewrite Z.shiftr_spec, Z.lor_spec, Z.shiftl_spec by (unfold EPTYPE0; lia).
    replace (i + EPTYPE0 - EPTYPE0) with i by lia.
    assert (Z.testbit (if negb (Z.land addr ENDPOINT_DIR_IN =? 0) then BV EPDIR else 0) (i + EPTYPE0) = false) as ->.
    { case_if; [|apply Z.testbit_0_l]. rewrite BV_testbit by (unfold EPDIR; lia). apply Z.eqb_neq. unfold EPDIR, EPTYPE0. lia. }
    apply orb_false_r.
  - rewrite Z.lor_spec, Z.shiftl_spec_low by (unfold EPDIR, EPTYPE0; lia). by destruct (negb _).
  - lia.
  - intros Hb. destruct (Z.eq_dec k 0) as [->|]; [simpl in Hb; lia|]. specialize (Hpow ltac:(lia)). specialize (Hhi ltac:(lia)). lia.
Qed.
Lemma configured addr type size nbanks s :
  let Number := Z.land addr ENDPOINT_EPNUM_MASK in
  accepts -> size <= 1024 -> length (eps s) = 7%nat ->
  if Number <? 7 then exists s', Endpoint_ConfigureEndpoint addr type size nbanks s = Ok (true, s') /\
    s' = s <| UENUM := Number |> <| eps := eps s' |> /\ length (eps s') = 7%nat /\
    forall j e, eps s !! j = Some e -> exists e', eps s' !! j = Some e' /\
      if Z.of_nat j <? Number then e' = e
      else if Z.of_nat j =? Number then shaped addr type size nbanks e e' else e' = moved e
  else Endpoint_ConfigureEndpoint addr type size nbanks s = Ok (false, s).
Proof.
  intros Number Hacc Hsize Hlen. unfold Endpoint_ConfigureEndpoint. fold Number.
  destruct (Z.ltb_spec Number 7) as [Hlt|Hge]; [|by rewrite (proj2 (Z.leb_le _ _))].
  rewrite (proj2 (Z.leb_gt _ _)) by done. destruct (size_mask size Hsize) as (k & Hk & -> & Hlo & Hhi).
  cbn [mbind res_bind mret res_ret]. unfold Endpoint_ConfigureEndpoint_Prv.
  assert (0 <= Number) as Hpos by (apply Z.land_nonneg; right; unfold ENDPOINT_EPNUM_MASK; lia).
  destruct (allocated_shaped addr type size nbanks k no_endpoint Hk Hlo Hhi) as [Hal _].
  set (c0 := Z.lor (Z.shiftl type EPTYPE0) _). set (c1 := Z.lor (Z.lor _ _) (16 * k)) in *.
  destruct (configure_loop_spec Number c0 c1 Hacc ltac:(lia) (Z.to_nat (ENDPOINT_TOTAL_ENDPOINTS - Number)) (Z.to_nat Number) s)
    as (s' & Hrun & Hu & Heq & Hl); [unfold ENDPOINT_TOTAL_ENDPOINTS; lia|lia|done|].
  rewrite Z2Nat.id in Hrun by done. exists s'. rewrite Hrun. split; [done|]. split; [done|].
  assert (forall j, eps s' !! j = after Number c0 c1 j <$> eps s !! j) as Hafter.
  { intros j. rewrite Hl. unfold after. destruct (Nat.ltb_spec j (Z.to_nat Number)); [|done].
    rewrite (proj2 (Z.ltb_lt _ _)) by lia. by destruct (eps s !! j). }
  split.
  - assert (eps s' = imap (after Number c0 c1) (eps s)) as -> by (apply list_eq; intros j; by rewrite Hafter, list_lookup_imap).
    by rewrite length_imap.
  - intros j e He. rewrite Hafter, He. simpl. eexists. split; [done|]. unfold after. case_if; [done|]. case_if; [|done].
    rewrite Hal. by apply allocated_shaped.
Qed.

(** ** Tables *)

Lemma op_bind_ok {A B} (o : Op A) (f : A -> Op B) s a s' : o s = Ok (a, s') -> (o ≫= f) s = f a s'.
Proof. intros Ho. unfold mbind, Op_bind. by rewrite Ho. Qed.

(** A table of one endpoint. *)
Lemma configure_table t s : accepts -> Size t <= 1024 -> length (eps s) = 7%nat -> Address t <> 0 ->
  Z.land (Address t) ENDPOINT_EPNUM_MASK < 7 ->
  exists s', Endpoint_ConfigureEndpointTable [t] s = Ok (true, s') /\
    s' = s <| UENUM := Z.land (Address t) ENDPOINT_EPNUM_MASK |> <| eps := eps s' |> /\ length (eps s') = 7%nat /\
    forall j e, eps s !! j = Some e -> exists e', eps s' !! j = Some e' /\
      if Z.of_nat j <? Z.land (Address t) ENDPOINT_EPNUM_MASK then e' = e
      else if Z.of_nat j =? Z.land (Address t) ENDPOINT_EPNUM_MASK
      then shaped (Address t) (Type_ t) (Size t) (Banks t) e e' else e' = moved e.
Proof.
  intros Hacc Hsz Hlen Hne Hlt.
  pose proof (configured (Address t) (Type_ t) (Size t) (Banks t) s Hacc Hsz Hlen) as Hc. cbv zeta in Hc.
  rewrite (proj2 (Z.ltb_lt _ _) Hlt) in Hc. destruct Hc as (s' & Hrun & Hrest). exists s'. split; [|done].
  cbn [Endpoint_ConfigureEndpointTable]. rewrite (proj2 (Z.eqb_neq _ _) Hne). unfold mbind, Op_bind. by rewrite Hrun.
Qed.

(** An endpoint keeps its shape when it is allocated again. *)
Lemma shaped_moved addr type size nbanks e e' :
  shaped addr type size nbanks e e' -> shaped addr type size nbanks e (moved e').
Proof.
  intros Hs. unfold moved. destruct (Z.testbit (UECFG1X e') ALLOC) eqn:Hal; [|done]. destruct e'. unfold shaped in *. simpl in *. unfold bank_size, banks in *. simpl in *.
  by destruct_and!; split_and!.
Qed.

Lemma moved_taken e : taken (moved e) = taken e.
Proof. unfold moved. by case_if. Qed.
Lemma shaped_taken addr type size nbanks e1 e e' :
  taken e1 = taken e -> shaped addr type size nbanks e1 e' -> shaped addr type size nbanks e e'.
Proof. intros Ht Hs. unfold shaped in *. by rewrite Ht in Hs. Qed.
End Configure.

(** ** Theorems *)

(** Configuring an endpoint of the controller with a size it can have (up to 1024 bytes), on a
    controller that accepts it: the endpoint is enabled and empty, with the type, direction and
    number of banks asked for and the smallest bank that holds the size; every endpoint below it is
    untouched, and every endpoint above it that was allocated is allocated again as it was; nothing
    else of the device changes but the selection. An address beyond the last endpoint is refused. *)
Theorem configure_endpoint {App} `{UsbChip} addr type size nbanks (s : usb App) :
  let Number := Z.land addr ENDPOINT_EPNUM_MASK in
  accepts -> size <= 1024 -> length (eps s) = 7%nat ->
  if Number <? 7 then exists s', Endpoint_ConfigureEndpoint addr type size nbanks s = Ok (true, s') /\
    s' = s <| UENUM := Number |> <| eps := eps s' |> /\ length (eps s') = 7%nat /\
    forall j e, eps s !! j = Some e -> exists e', eps s' !! j = Some e' /\
      if Z.of_nat j <? Number then e' = e
      else if Z.of_nat j =? Number then shaped addr type size nbanks e e' else e' = moved e
  else Endpoint_ConfigureEndpoint addr type size nbanks s = Ok (false, s).
Proof. apply configured. Qed.

(** *** Witness *)

(** The data endpoint of the serial device; it has sixteen bytes. *)
Lemma configure_endpoint_witness :
  exists s', @Endpoint_ConfigureEndpoint unit some_chip 131 2 16 1 (fresh_device control_endpoint no_request tt) = Ok (true, s') /\
    exists e', eps s' !! 3%nat = Some e' /\ shaped 131 2 16 1 no_endpoint e'.
Proof.
  destruct (@configure_endpoint unit some_chip 131 2 16 1 (fresh_device control_endpoint no_request tt)) as (s' & H1 & _ & _ & H2).
  - intros n c0 c1. reflexivity.
  - lia.
  - reflexivity.
  - exists s'. split; [exact H1|]. destruct (H2 3%nat no_endpoint) as (e' & H3 & H4); [reflexivity|].
    exists e'. split; [exact H3|exact H4].
Defined.
End UsbConfigure.
