(* ===== verification/UsbController.v ===== *)
(** * USB controller (USBController_AVR8.c, and the host part of USBInterrupt_AVR8.c)

    Initialisation, reset and shut-down of the interface on a part that can be device and host, and
    the whole general interrupt. The device's registers and variables are those of Usb; the bits of
    [USBCON] that Usb has as fields ([frozen], the enabled VBUS interrupt) and the interrupt enables
    and flags of the host part are not repeated in the registers here. In host mode the interface
    is set up, and the pipes that would follow are not modelled. *)

From S2P Require Import Prelude.
From S2P Require Import Usb.
From S2P Require Import UsbConfigure.
From Stdlib Require Import Lia ZArith.
Import Usb UsbConfigure.

#[local] Open Scope Z_scope.

Module UsbController.

(** ** Data *)

Inductive mode := USB_MODE_None | USB_MODE_Device | USB_MODE_Host | USB_MODE_UID.
#[export] Instance mode_eq_dec : EqDecision mode.
Proof. solve_decision. Defined.
(** Interrupts of the host part and of the ID pin, and the callbacks they end in. *)
Inductive host_int := HSOFI | DCONNI | DDISCI | RSTI | BCERRI | VBERRI | SRPI | IDTI.
#[export] Instance host_int_eq_dec : EqDecision host_int.
Proof. solve_decision. Defined.
Inductive host_callback :=
| Host_StartOfFrame | Host_DeviceUnattached | Host_DeviceAttached | Host_HostError | Host_DeviceEnumerationFailed | UIDChange.

(** Bits of the registers, as the datasheet numbers them. *)
Definition UIMOD := 7.
Definition UIDE := 6.
Definition UVCONE := 4.
Definition UVREGE := 0.
Definition USBE := 7.
Definition HOST := 6.
Definition OTGPADE := 4.
Definition VBUSHWC := 2.
Definition VBUSRQC := 0.
Definition LSM := 2.
Definition RMWKUP := 1.
Definition DETACH := 0.
Definition USB_DEVICE_OPT_LOWSPEED := 0.
Definition USB_OPT_REG_DISABLED := 1.
Definition USB_OPT_MANUAL_PLL_bit := 2.
Definition HOST_STATE_Unattached := 1.
Definition HOST_STATE_Powered := 2.
Definition PIPE_CONTROLPIPE_DEFAULT_SIZE := 64.

(** [ID] is the pin that tells a device (high) from a host. *)
Record controller {App : Type} := mkController {
  USB_IsInitialized : bool; USB_CurrentMode : mode; USB_Options : Z;
  UHWCON : Z; USBCON : Z; OTGCON : Z; UDCON : Z; DDRE : Z; PORTE : Z; ID : bool;
  host_flag : host_int -> bool; host_enabled : host_int -> bool;
  USB_HostState : Z; USB_Host_ConfigurationNumber : Z; USB_Host_ControlPipeSize : Z;
  host_callbacks : list host_callback; dev : usb App }.
Arguments controller App : clear implicits.
#[export] Instance eta_controller {App} : Eta (controller App) :=
  {| eta r := mkController App (USB_IsInitialized r) (USB_CurrentMode r) (USB_Options r) (UHWCON r) (USBCON r) (OTGCON r)
       (UDCON r) (DDRE r) (PORTE r) (ID r) (host_flag r) (host_enabled r) (USB_HostState r) (USB_Host_ConfigurationNumber r)
       (USB_Host_ControlPipeSize r) (host_callbacks r) (dev r);
     eta_id := ltac:(by intros []) |}.

Section Controller.
Context {App : Type} `{UsbChip}.
Implicit Types (c : controller App).
Variable CALLBACK_USB_GetDescriptor : Z -> Z -> Z * list Z.

(** ** Registers (USBController_AVR8.h, Host_AVR8.h) *)

Definition USB_Detach c : controller App := c <| UDCON ::= fun r => sbi r DETACH |>.
Definition USB_Attach c : controller App := c <| UDCON ::= fun r => cbi r DETACH |>.
Definition USB_REG_On c : controller App := c <| UHWCON ::= fun r => sbi r UVREGE |>.
Definition USB_REG_Off c : controller App := c <| UHWCON ::= fun r => cbi r UVREGE |>.
Definition USB_OTGPAD_On c : controller App := c <| USBCON ::= fun r => sbi r OTGPADE |>.
Definition USB_OTGPAD_Off c : controller App := c <| USBCON ::= fun r => cbi r OTGPADE |>.
Definition USB_CLK_Unfreeze c : controller App := c <| dev ::= fun s => s <| frozen := false |> |>.
(** A controller that is off forgets its endpoints and the address, and is detached. *)
Definition hw_off c : controller App :=
  c <| UDCON := BV DETACH |>
    <| dev ::= fun s => s <| UENUM := 0 |> <| UDADDR := 0 |> <| UDFNUM := 0 |> <| UEINT := 0 |> <| eps := replicate 7 no_endpoint |> |>.
Definition USB_Controller_Disable c : controller App := hw_off (c <| USBCON ::= fun r => cbi r USBE |>).
Definition USB_Controller_Reset c : controller App := USB_Controller_Disable c <| USBCON ::= fun r => sbi r USBE |>.
Definition USB_GetUSBModeFromUID c : mode := if ID c then USB_MODE_Device else USB_MODE_Host.
Definition USB_Host_HostMode_On c : controller App := c <| USBCON ::= fun r => sbi r HOST |>.
Definition USB_Host_VBUS_Auto_Off c : controller App := c <| OTGCON ::= fun r => sbi r VBUSRQC |>.
Definition USB_Host_VBUS_Manual_Enable c : controller App :=
  c <| OTGCON ::= fun r => sbi r VBUSHWC |> <| UHWCON ::= fun r => cbi r UVCONE |> <| DDRE ::= fun r => sbi r 7 |>.
Definition USB_Host_VBUS_Manual_On c : controller App := c <| PORTE ::= fun r => sbi r 7 |>.
Definition USB_Host_VBUS_Manual_Off c : controller App := c <| PORTE ::= fun r => cbi r 7 |>.

(** ** Interrupts *)

Definition INT_Enable (i : host_int) c : controller App := c <| host_enabled ::= fun f j => if decide (j = i) then true else f j |>.
Definition INT_Disable (i : host_int) c : controller App := c <| host_enabled ::= fun f j => if decide (j = i) then false else f j |>.
Definition INT_Clear (i : host_int) c : controller App := c <| host_flag ::= fun f j => if decide (j = i) then false else f j |>.
Definition host_fires (i : host_int) c : bool := host_flag c i && host_enabled c i.
Definition host_event (k : host_callback) c : controller App := c <| host_callbacks ::= fun l => l ++ [k] |>.
Definition USB_INT_DisableAllInterrupts c : controller App :=
  c <| host_enabled := fun _ => false |> <| dev ::= fun s => s <| enabled := fun _ => false |> |>.
Definition USB_INT_ClearAllInterrupts c : controller App :=
  c <| host_flag := fun _ => false |> <| dev ::= fun s => s <| flag := fun _ => false |> |>.

(** ** Initialisation *)

(** The size of the control endpoint is byte 7 of the device descriptor, if there is one. *)
Definition control_size c : res (controller App) :=
  let '(size, mem) := CALLBACK_USB_GetDescriptor 256 0 in
  if size =? 0 then Ok c
  else b ← lift (aget mem 7); Ok (c <| dev ::= fun s => s <| USB_Device_ControlEndpointSize := b |> |>).

Definition USB_Init_Device c : res (controller App) :=
  let c := c <| dev ::= fun s => s <| USB_DeviceState := Unattached |> <| USB_Device_ConfigurationNumber := 0 |>
                               <| USB_Device_RemoteWakeupEnabled := false |> <| USB_Device_CurrentlySelfPowered := false |> |> in
  c ← control_size c;
  let c := if Z.testbit (USB_Options c) USB_DEVICE_OPT_LOWSPEED then c <| UDCON ::= fun r => sbi r LSM |>
           else c <| UDCON ::= fun r => cbi r LSM |> in
  let s := USB_INT_Enable VBUSTI (dev c) in
  '(_, s) ← Endpoint_ConfigureEndpoint ENDPOINT_CONTROLEP EP_TYPE_CONTROL (USB_Device_ControlEndpointSize s) 1 s;
  let s := USB_INT_Enable EORSTI (USB_INT_Enable SUSPI (USB_INT_Clear SUSPI s)) in
  Ok (USB_Attach (c <| dev := s |>)).

Definition USB_Init_Host c : controller App :=
  let c := c <| USB_HostState := HOST_STATE_Unattached |> <| USB_Host_ConfigurationNumber := 0 |>
             <| USB_Host_ControlPipeSize := PIPE_CONTROLPIPE_DEFAULT_SIZE |> in
  let c := USB_Host_VBUS_Manual_On (USB_Host_VBUS_Manual_Enable (USB_Host_VBUS_Auto_Off (USB_Host_HostMode_On c))) in
  USB_Attach (INT_Enable BCERRI (INT_Enable SRPI c)).

(** The controller is switched off and on. *)
Definition restarted c : controller App :=
  USB_Controller_Reset (USB_INT_ClearAllInterrupts (USB_INT_DisableAllInterrupts c)).
(** The loop that waits for the phase-locked loop ends, since it locks once it is on. *)
Definition USB_ResetInterface c : res (controller App) :=
  let UIDModeSelectEnabled := Z.testbit (UHWCON c) UIDE in
  let c := restarted c in
  let c := USB_CLK_Unfreeze (if UIDModeSelectEnabled then INT_Enable IDTI c else c) in
  c ← (if decide (USB_CurrentMode c = USB_MODE_Device) then
         let c := c <| UHWCON ::= fun r => sbi r UIMOD |> in
         USB_Init_Device (c <| dev ::= USB_PLL_Off |>)
       else if decide (USB_CurrentMode c = USB_MODE_Host) then
         let c := c <| UHWCON ::= fun r => cbi r UIMOD |> in
         Ok (USB_Init_Host (c <| dev ::= USB_PLL_On |>))
       else Ok c);
  Ok (USB_OTGPAD_On c).

Definition USB_Init (Mode : mode) (Options : Z) c : res (controller App) :=
  let c := c <| USB_Options := Options |> <| dev ::= fun s => s <| USB_OPT_MANUAL_PLL := Z.testbit Options USB_OPT_MANUAL_PLL_bit |> |> in
  let c := USB_OTGPAD_Off c in
  let c := if negb (Z.testbit Options USB_OPT_REG_DISABLED) then USB_REG_On c else USB_REG_Off c in
  let c := if decide (Mode = USB_MODE_UID) then
             let c := INT_Enable IDTI (c <| UHWCON ::= fun r => sbi r UIDE |>) in
             c <| USB_CurrentMode := USB_GetUSBModeFromUID c |>
           else c <| UHWCON ::= fun r => cbi r UIDE |> <| USB_CurrentMode := Mode |> in
  USB_ResetInterface (c <| USB_IsInitialized := true |>).

Definition shut_off c : controller App :=
  USB_Controller_Disable (USB_Detach (USB_INT_ClearAllInterrupts (USB_INT_DisableAllInterrupts c))).
Definition USB_Disable c : controller App :=
  let c := USB_OTGPAD_Off (USB_REG_Off (shut_off c <| dev ::= USB_PLL_Off |>)) in
  c <| USB_CurrentMode := USB_MODE_None |> <| USB_IsInitialized := false |>.

(** ** The general interrupt, host part *)

Definition vect_hsofi c : controller App :=
  if host_fires HSOFI c then host_event Host_StartOfFrame (INT_Clear HSOFI c) else c.
Definition vect_ddisci c : res (controller App) :=
  if host_fires DDISCI c then
    USB_ResetInterface (host_event Host_DeviceUnattached (INT_Disable DDISCI (INT_Clear DCONNI (INT_Clear DDISCI c))))
  else Ok c.
Definition vect_vberri c : controller App :=
  if host_fires VBERRI c then
    let c := USB_Host_VBUS_Auto_Off (USB_Host_VBUS_Manual_Off (INT_Clear VBERRI c)) in
    host_event Host_DeviceUnattached (host_event Host_HostError c) <| USB_HostState := HOST_STATE_Unattached |>
  else c.
Definition vect_srpi c : controller App :=
  if host_fires SRPI c then
    let c := host_event Host_DeviceAttached (INT_Disable SRPI (INT_Clear SRPI c)) in
    INT_Enable DDISCI c <| USB_HostState := HOST_STATE_Powered |>
  else c.
Definition vect_bcerri c : res (controller App) :=
  if host_fires BCERRI c then
    USB_ResetInterface (host_event Host_DeviceUnattached (host_event Host_DeviceEnumerationFailed (INT_Clear BCERRI c)))
  else Ok c.
Definition vect_idti c : res (controller App) :=
  if host_fires IDTI c then
    let c := INT_Clear IDTI c in
    let c := if decide (USB_DeviceState (dev c) = Unattached) then c else c <| dev ::= event Device_Disconnect |> in
    let c := if USB_HostState c =? HOST_STATE_Unattached then c else host_event Host_DeviceUnattached c in
    c ← USB_ResetInterface (c <| USB_CurrentMode := USB_GetUSBModeFromUID c |>);
    Ok (host_event UIDChange c)
  else Ok c.
Definition general_interrupt c : res (controller App) :=
  c ← vect_ddisci (vect_hsofi (c <| dev ::= USB_GEN_vect |>));
  c ← vect_bcerri (vect_srpi (vect_vberri c));
  vect_idti c.

(** ** Facts *)

(** The device after initialisation: unattached, with a control endpoint of [size] bytes and no
    other, waiting for power, for a bus reset and for the bus to fall silent. *)
Definition initialised (size : Z) (s s' : usb App) : Prop :=
  USB_DeviceState s' = Unattached /\ USB_Device_ConfigurationNumber s' = 0 /\ USB_Device_RemoteWakeupEnabled s' = false /\
  USB_Device_CurrentlySelfPowered s' = false /\ USB_Device_ControlEndpointSize s' = size /\
  UENUM s' = 0 /\ UDADDR s' = 0 /\ frozen s' = false /\ (forall i, flag s' i = false) /\
  (forall i, enabled s' i = bool_decide (i = VBUSTI \/ i = SUSPI \/ i = EORSTI)) /\
  app s' = app s /\ callbacks s' = callbacks s /\ VBUS s' = VBUS s /\ USB_OPT_MANUAL_PLL s' = USB_OPT_MANUAL_PLL s /\ length (eps s') = 7%nat /\
  (exists e0, eps s' !! 0%nat = Some e0 /\ shaped 0 EP_TYPE_CONTROL size 1 no_endpoint e0) /\
  (forall j, (0 < j < 7)%nat -> eps s' !! j = Some no_endpoint).

Lemma init_device c len mem size : accepts -> CALLBACK_USB_GetDescriptor 256 0 = (len, mem) -> len <> 0 -> aget mem 7 = Some size ->
  is_u8 size -> eps (dev c) = replicate 7 no_endpoint -> (forall i, flag (dev c) i = false) -> (forall i, enabled (dev c) i = false) ->
  frozen (dev c) = false -> UDADDR (dev c) = 0 ->
  exists s, USB_Init_Device c = Ok (USB_Attach (c <| UDCON ::= fun r => if Z.testbit (USB_Options c) 0 then sbi r LSM else cbi r LSM |> <| dev := s |>)) /\
    initialised size (dev c) s /\ pll s = pll (dev c).
Proof using Type.
  intros Hacc Hcb Hlen Hb Hu Heps Hfl Hen Hfr Had. unfold USB_Init_Device, control_size. rewrite Hcb, (proj2 (Z.eqb_neq _ _) Hlen), Hb.
  cbn [lift mbind res_bind]. change USB_DEVICE_OPT_LOWSPEED with 0. cbv zeta.
  match goal with |- context [if Z.testbit (USB_Options ?c1) 0 then ?x else ?y] => set (c1' := if Z.testbit (USB_Options c1) 0 then x else y) end.
  assert (dev c1' = dev c <| USB_DeviceState := Unattached |> <| USB_Device_ConfigurationNumber := 0 |>
    <| USB_Device_RemoteWakeupEnabled := false |> <| USB_Device_CurrentlySelfPowered := false |>
    <| USB_Device_ControlEndpointSize := size |>) as Hdev by (unfold c1'; destruct (Z.testbit _ 0); reflexivity).
  set (s1 := USB_INT_Enable VBUSTI (dev c1')).
  pose proof (configured ENDPOINT_CONTROLEP EP_TYPE_CONTROL size 1 s1 Hacc ltac:(unfold is_u8 in Hu; lia)) as Hc.
  assert (eps s1 = replicate 7 no_endpoint) as Heps1 by (unfold s1; rewrite Hdev; exact Heps). rewrite Heps1 in Hc. specialize (Hc eq_refl). cbv zeta in Hc.
  change (Z.land ENDPOINT_CONTROLEP ENDPOINT_EPNUM_MASK) with 0 in Hc. change (0 <? 7) with true in Hc. cbv iota in Hc.
  destruct Hc as (s2 & Hrun & Heq & Hl & Hj).
  assert (USB_Device_ControlEndpointSize s1 = size) as -> by (unfold s1; rewrite Hdev; reflexivity). rewrite Hrun. cbn [mbind res_bind].
  exists (USB_INT_Enable EORSTI (USB_INT_Enable SUSPI (USB_INT_Clear SUSPI s2))). split.
  - f_equal. f_equal. unfold c1'. cbn [USB_Options set_field]. destruct (Z.testbit (USB_Options c) 0); reflexivity.
  - destruct (Hj 0%nat no_endpoint eq_refl) as (e0 & He0 & Hs0).
    assert (s2 = dev c <| USB_DeviceState := Unattached |> <| USB_Device_ConfigurationNumber := 0 |>
      <| USB_Device_RemoteWakeupEnabled := false |> <| USB_Device_CurrentlySelfPowered := false |>
      <| USB_Device_ControlEndpointSize := size |> <| enabled ::= fun f j => if decide (j = VBUSTI) then true else f j |>
      <| UENUM := 0 |> <| eps := eps s2 |>) as E by (rewrite Heq at 1; unfold s1; rewrite Hdev; reflexivity).
    clear Heq Hrun Hdev Heps1 s1 c1' Heps. generalize dependent (eps s2). intros l Hl Hj He0 ->.
    split; [|reflexivity]. repeat split; try reflexivity; try assumption.
    + intros i. destruct i; try reflexivity; apply Hfl.
    + intros i. destruct i; try reflexivity; apply Hen.
    + by exists e0.
    + intros j Hj7. destruct (Hj j no_endpoint) as (e & He & Hm); [by apply lookup_replicate_2; lia|].
      rewrite (proj2 (Z.ltb_ge _ _)), (proj2 (Z.eqb_neq _ _)) in Hm by lia. change (eps _) with l. by rewrite He, Hm.
Qed.

(** What a controller in device mode looks like after a reset of the interface. *)
Definition interface_up (size : Z) c c' : Prop :=
  initialised size (dev c) (dev c') /\
  USB_CurrentMode c' = USB_MODE_Device /\ USB_IsInitialized c' = USB_IsInitialized c /\ USB_Options c' = USB_Options c /\
  Z.testbit (UDCON c') DETACH = false /\ Z.testbit (UDCON c') LSM = Z.testbit (USB_Options c) USB_DEVICE_OPT_LOWSPEED /\
  Z.testbit (USBCON c') USBE = true /\ Z.testbit (USBCON c') OTGPADE = true /\ UHWCON c' = sbi (UHWCON c) UIMOD /\
  (forall i, host_enabled c' i = bool_decide (i = IDTI) && Z.testbit (UHWCON c) UIDE) /\ (forall i, host_flag c' i = false) /\
  pll (dev c') = (if USB_OPT_MANUAL_PLL (dev c) then pll (dev c) else false).

Lemma initialised_from size s1 s2 s : app s1 = app s2 -> callbacks s1 = callbacks s2 -> VBUS s1 = VBUS s2 ->
  USB_OPT_MANUAL_PLL s1 = USB_OPT_MANUAL_PLL s2 -> initialised size s1 s -> initialised size s2 s.
Proof using Type. intros Ha Hc Hv Hp Hi. unfold initialised in *. by rewrite <- Ha, <- Hc, <- Hv, <- Hp. Qed.

(** A controller that has been switched off and on. *)
Definition off_of c c' : Prop :=
  eps (dev c') = replicate 7 no_endpoint /\ (forall i, flag (dev c') i = false) /\ (forall i, enabled (dev c') i = false) /\
  UDADDR (dev c') = 0 /\ app (dev c') = app (dev c) /\ callbacks (dev c') = callbacks (dev c) /\ VBUS (dev c') = VBUS (dev c) /\
  USB_OPT_MANUAL_PLL (dev c') = USB_OPT_MANUAL_PLL (dev c) /\ USB_CurrentMode c' = USB_CurrentMode c /\
  USB_IsInitialized c' = USB_IsInitialized c /\ USB_Options c' = USB_Options c /\ UHWCON c' = UHWCON c /\
  UDCON c' = BV DETACH /\ USBCON c' = sbi (cbi (USBCON c) USBE) USBE /\ (forall i, host_flag c' i = false) /\
  (forall i, host_enabled c' i = false) /\ pll (dev c') = pll (dev c).

Lemma restarted_off c : off_of c (restarted c).
Proof using Type. by repeat split. Qed.
Lemma udcon_bits (b : bool) r : Z.testbit (cbi (if b then sbi r LSM else cbi r LSM) DETACH) DETACH = false /\
  Z.testbit (cbi (if b then sbi r LSM else cbi r LSM) DETACH) LSM = b.
Proof using Type. destruct b; by rewrite !cbi_testbit, ?sbi_testbit, ?cbi_testbit. Qed.

Lemma reset_device c len mem size : accepts -> CALLBACK_USB_GetDescriptor 256 0 = (len, mem) -> len <> 0 -> aget mem 7 = Some size ->
  is_u8 size -> USB_CurrentMode c = USB_MODE_Device -> exists c', USB_ResetInterface c = Ok c' /\ interface_up size c c'.
Proof using Type.
  intros Hacc Hcb Hlen Hb Hu Hm. unfold USB_ResetInterface. cbv zeta.
  pose proof (restarted_off c) as HX. generalize dependent (restarted c). intros X HX.
  destruct HX as (X1 & X2 & X3 & X4 & X5 & X6 & X7 & X8 & X9 & X10 & X11 & X12 & X13 & X14 & X15 & X16 & X17).
  set (Y := USB_CLK_Unfreeze (if Z.testbit (UHWCON c) UIDE then INT_Enable IDTI X else X)).
  assert (dev Y = dev X <| frozen := false |> /\ USB_CurrentMode Y = USB_CurrentMode X /\ USB_IsInitialized Y = USB_IsInitialized X /\
    USB_Options Y = USB_Options X /\ UHWCON Y = UHWCON X /\ USBCON Y = USBCON X /\ UDCON Y = UDCON X /\ host_flag Y = host_flag X /\
    forall i, host_enabled Y i = bool_decide (i = IDTI) && Z.testbit (UHWCON c) UIDE)
    as (Y1 & Y2 & Y3 & Y4 & Y5 & Y6 & Y7 & Y8 & Y9).
  { unfold Y. destruct (Z.testbit (UHWCON c) UIDE); repeat split; intros i; simpl; rewrite X16; by destruct i. }
  clearbody Y. rewrite decide_True by congruence.
  set (s0 := USB_PLL_Off (dev Y)).
  assert (eps s0 = eps (dev X) /\ (forall i, flag s0 i = flag (dev X) i) /\ (forall i, enabled s0 i = enabled (dev X) i) /\ frozen s0 = false /\
    UDADDR s0 = UDADDR (dev X) /\ app s0 = app (dev X) /\ callbacks s0 = callbacks (dev X) /\ VBUS s0 = VBUS (dev X) /\
    USB_OPT_MANUAL_PLL s0 = USB_OPT_MANUAL_PLL (dev X) /\ pll s0 = if USB_OPT_MANUAL_PLL (dev X) then pll (dev X) else false)
    as (S1 & S2 & S3 & S4 & S5 & S6 & S7 & S8 & S9 & S10).
  { unfold s0, USB_PLL_Off. rewrite Y1. change (USB_OPT_MANUAL_PLL (dev X <| frozen := false |>)) with (USB_OPT_MANUAL_PLL (dev X)).
    destruct (USB_OPT_MANUAL_PLL (dev X)) eqn:Em; repeat split; try done; exact Em. }
  set (c2 := Y <| UHWCON ::= fun r => sbi r UIMOD |> <| dev ::= USB_PLL_Off |>).
  assert (dev c2 = s0) as Hd by done.
  destruct (init_device c2 len mem size) as (s & Hrun & Hi & Hpll); rewrite ?Hd; try congruence.
  rewrite Hrun. cbn [mbind res_bind]. eexists. split; [reflexivity|].
  split; [|split_and!; try done].
  - eapply initialised_from; [| | | |exact Hi]; rewrite Hd; congruence.
  - change (USB_CurrentMode Y = USB_MODE_Device). congruence.
  - change (USB_IsInitialized Y = USB_IsInitialized c). congruence.
  - change (USB_Options Y = USB_Options c). congruence.
  - apply udcon_bits.
  - change (Z.testbit (cbi (if Z.testbit (USB_Options Y) 0 then sbi (UDCON Y) LSM else cbi (UDCON Y) LSM) DETACH) LSM
      = Z.testbit (USB_Options c) 0). rewrite (proj2 (udcon_bits _ _)). congruence.
  - change (Z.testbit (sbi (USBCON Y) OTGPADE) USBE = true). rewrite Y6, X14, !sbi_testbit by done. done.
  - change (Z.testbit (sbi (USBCON Y) OTGPADE) OTGPADE = true). by rewrite sbi_testbit.
  - change (sbi (UHWCON Y) UIMOD = sbi (UHWCON c) UIMOD). congruence.
  - intros i. change (host_flag Y i = false). by rewrite Y8.
  - change (pll s = if USB_OPT_MANUAL_PLL (dev c) then pll (dev c) else false). by rewrite Hpll, Hd, S10, X8, X17.
Qed.

(** The mode that is asked for is that of a device. *)
Definition as_device (Mode : mode) c : Prop := Mode = USB_MODE_Device \/ Mode = USB_MODE_UID /\ ID c = true.

(** What [USB_Init] sets before it resets the interface. *)
Definition prepared (Mode : mode) (Options : Z) c c' : Prop :=
  USB_CurrentMode c' = USB_MODE_Device /\ USB_IsInitialized c' = true /\ USB_Options c' = Options /\
  Z.testbit (UHWCON c') UIDE = bool_decide (Mode = USB_MODE_UID) /\ Z.testbit (UHWCON c') UVREGE = negb (Z.testbit Options USB_OPT_REG_DISABLED) /\
  dev c' = dev c <| USB_OPT_MANUAL_PLL := Z.testbit Options USB_OPT_MANUAL_PLL_bit |>.
Lemma init_prepares Mode Options c : as_device Mode c -> exists c', USB_Init Mode Options c = USB_ResetInterface c' /\ prepared Mode Options c c'.
Proof using Type.
  intros Hm. eexists. split; [reflexivity|]. unfold prepared.
  destruct Hm as [->|[-> Hid]]; destruct (Z.testbit Options USB_OPT_REG_DISABLED); simpl;
    rewrite ?sbi_testbit, ?cbi_testbit, ?sbi_testbit, ?cbi_testbit by done; split_and!; try done.
  all: unfold USB_GetUSBModeFromUID; simpl; by rewrite Hid.
Qed.

Lemma init_up Mode Options c len mem size : accepts -> CALLBACK_USB_GetDescriptor 256 0 = (len, mem) -> len <> 0 ->
  aget mem 7 = Some size -> is_u8 size -> as_device Mode c ->
  exists c', USB_Init Mode Options c = Ok c' /\
    initialised size (dev c <| USB_OPT_MANUAL_PLL := Z.testbit Options USB_OPT_MANUAL_PLL_bit |>) (dev c') /\
    USB_CurrentMode c' = USB_MODE_Device /\ USB_IsInitialized c' = true /\ USB_Options c' = Options /\
    Z.testbit (UDCON c') DETACH = false /\ Z.testbit (UDCON c') LSM = Z.testbit Options USB_DEVICE_OPT_LOWSPEED /\
    Z.testbit (USBCON c') USBE = true /\ Z.testbit (USBCON c') OTGPADE = true /\ Z.testbit (UHWCON c') UIMOD = true /\
    Z.testbit (UHWCON c') UVREGE = negb (Z.testbit Options USB_OPT_REG_DISABLED) /\
    (forall i, host_enabled c' i = bool_decide (i = IDTI /\ Mode = USB_MODE_UID)) /\ (forall i, host_flag c' i = false) /\
    pll (dev c') = (if Z.testbit Options USB_OPT_MANUAL_PLL_bit then pll (dev c) else false).
Proof using Type.
  intros Hacc Hcb Hlen Hb Hu Hm. destruct (init_prepares Mode Options c Hm) as (c0 & -> & P1 & P2 & P3 & P4 & P5 & P6).
  destruct (reset_device c0 len mem size) as (c' & Hrun & R1 & R2 & R3 & R4 & R5 & R6 & R7 & R8 & R9 & R10 & R11 & R12); try done.
  exists c'. split; [done|]. rewrite <- P6. split; [done|]. rewrite R4, P3 in *. rewrite R9, !sbi_testbit by done.
  split_and!; try done; try congruence.
  - intros i. rewrite R10, P4. destruct i; try done. simpl. by destruct Mode.
  - by rewrite R12, P6.
Qed.

(** Whatever the bus does afterwards. *)
Definition ticks (evs : list bus_event) (s : usb App) : usb App := foldl (fun s ev => tick ev s) s evs.
Definition deaf (s : usb App) : Prop := forall i, enabled s i = false.
Lemma deaf_tick ev s : deaf s -> deaf (tick ev s) /\ callbacks (tick ev s) = callbacks s /\ USB_DeviceState (tick ev s) = USB_DeviceState s /\
  app (tick ev s) = app s.
Proof using Type.
  intros Hs. assert (forall i, enabled (hardware ev s) i = false) as Hh by (by destruct ev).
  assert (quiet (hardware ev s)) as Hq by (intros i _; unfold fires; by rewrite Hh, andb_false_r).
  unfold tick. rewrite vect_quiet by done. unfold vect_sof, fires. rewrite Hh, andb_false_r. split; [done|]. by destruct ev.
Qed.
Lemma deaf_ticks evs : forall s, deaf s -> callbacks (ticks evs s) = callbacks s /\ USB_DeviceState (ticks evs s) = USB_DeviceState s /\
  app (ticks evs s) = app s.
Proof using Type.
  induction evs as [|ev evs IH]; intros s Hs; [done|]. destruct (deaf_tick ev s Hs) as (H1 & H2 & H3 & H4).
  destruct (IH _ H1) as (I1 & I2 & I3). simpl. split_and!; congruence.
Qed.

(** In device mode only the ID pin can interrupt beside the device part: then the general interrupt
    is the handler that Usb runs at every event. *)
Lemma device_mode_interrupt c : (forall i, host_enabled c i = true -> i = IDTI) -> host_flag c IDTI = false ->
  general_interrupt c = Ok (c <| dev ::= USB_GEN_vect |>).
Proof using Type.
  intros Hen Hid. set (c1 := c <| dev ::= USB_GEN_vect |>).
  assert (forall i, host_fires i c1 = false) as Hf.
  { intros i. unfold host_fires. change (host_flag c1 i) with (host_flag c i). change (host_enabled c1 i) with (host_enabled c i).
    destruct (host_enabled c i) eqn:E; [|apply andb_false_r]. by rewrite (Hen i E), Hid. }
  unfold general_interrupt. fold c1. unfold vect_hsofi. rewrite Hf. unfold vect_ddisci. rewrite Hf. cbn [mbind res_bind].
  unfold vect_vberri. rewrite Hf. unfold vect_srpi. rewrite Hf. unfold vect_bcerri. rewrite Hf. cbn [mbind res_bind].
  unfold vect_idti. by rewrite Hf.
Qed.
Lemma shut_off_deaf c : callbacks (dev (shut_off c)) = callbacks (dev c) /\ app (dev (shut_off c)) = app (dev c) /\
  USB_DeviceState (dev (shut_off c)) = USB_DeviceState (dev c) /\ deaf (dev (shut_off c)) /\ eps (dev (shut_off c)) = replicate 7 no_endpoint /\
  Z.testbit (UDCON (shut_off c)) DETACH = true.
Proof using Type. by repeat split. Qed.
Lemma pll_off_same (s : usb App) : callbacks (USB_PLL_Off s) = callbacks s /\ app (USB_PLL_Off s) = app s /\
  USB_DeviceState (USB_PLL_Off s) = USB_DeviceState s /\ eps (USB_PLL_Off s) = eps s /\ (deaf s -> deaf (USB_PLL_Off s)).
Proof using Type. unfold USB_PLL_Off. by destruct (USB_OPT_MANUAL_PLL s); repeat split. Qed.
End Controller.

(** ** Theorems *)

(** C9: [USB_Init] in device mode, whatever state the controller, the bus and the library are in: it
    returns with the interface switched on, attached and listening: no endpoint is configured but
    the control endpoint, with the size that the device descriptor gives; no interrupt is pending
    and exactly those for power, suspension and bus resets are enabled, and that of the ID pin if
    the pin decides on the mode; speed and regulator are as the options say, and the phase-locked loop
    is off, unless the options leave it to the application: then it is as it was. *)
Theorem usb_init_device {App} `{UsbChip} descriptors Mode Options (c : controller App) len mem size :
  accepts -> descriptors 256 0 = (len, mem) -> len <> 0 -> aget mem 7 = Some size -> is_u8 size -> as_device Mode c ->
  exists c', USB_Init descriptors Mode Options c = Ok c' /\
    initialised size (dev c <| USB_OPT_MANUAL_PLL := Z.testbit Options USB_OPT_MANUAL_PLL_bit |>) (dev c') /\
    USB_CurrentMode c' = USB_MODE_Device /\ USB_IsInitialized c' = true /\ USB_Options c' = Options /\
    Z.testbit (UDCON c') DETACH = false /\ Z.testbit (UDCON c') LSM = Z.testbit Options USB_DEVICE_OPT_LOWSPEED /\
    Z.testbit (USBCON c') USBE = true /\ Z.testbit (USBCON c') OTGPADE = true /\ Z.testbit (UHWCON c') UIMOD = true /\
    Z.testbit (UHWCON c') UVREGE = negb (Z.testbit Options USB_OPT_REG_DISABLED) /\
    (forall i, host_enabled c' i = bool_decide (i = IDTI /\ Mode = USB_MODE_UID)) /\ (forall i, host_flag c' i = false) /\
    pll (dev c') = (if Z.testbit Options USB_OPT_MANUAL_PLL_bit then pll (dev c) else false).
Proof. apply init_up. Qed.

(** After [USB_Disable] the interface is detached and switched off, and nothing that happens on the
    bus reaches the application; but the library keeps its last device state, so a device that
    was configured goes on as one. *)
Theorem usb_disable_silent {App} `{UsbChip} (c : controller App) evs :
  let c' := USB_Disable c in
  USB_CurrentMode c' = USB_MODE_None /\ USB_IsInitialized c' = false /\ Z.testbit (UDCON c') DETACH = true /\
  eps (dev c') = replicate 7 no_endpoint /\
  callbacks (ticks evs (dev c')) = callbacks (dev c) /\ app (ticks evs (dev c')) = app (dev c) /\
  USB_DeviceState (ticks evs (dev c')) = USB_DeviceState (dev c).
Proof.
  intros c'. unfold c', USB_Disable. destruct (shut_off_deaf c) as (H1 & H2 & H3 & H4 & H5 & H6).
  generalize dependent (shut_off c). intros x H1 H2 H3 H4 H5 H6. destruct (pll_off_same (dev x)) as (P1 & P2 & P3 & P4 & P5).
  destruct (deaf_ticks evs (USB_PLL_Off (dev x))) as (H7 & H9 & H8); [by apply P5|].
  split; [done|]. split; [done|]. split; [exact H6|]. split; [exact (eq_trans P4 H5)|].
  split; [exact (eq_trans H7 (eq_trans P1 H1))|]. split; [exact (eq_trans H8 (eq_trans P2 H2))|exact (eq_trans H9 (eq_trans P3 H3))].
Qed.

(** A controller after power-on. *)
Definition w_controller {App} (a : App) : controller App :=
  mkController App false USB_MODE_None 0 128 32 0 1 0 0 true (fun _ => false) (fun _ => false) 0 0 0 []
    (fresh_device control_endpoint no_request a).
Lemma usb_init_device_witness :
  exists c', @USB_Init _ some_chip (fun _ _ => (18, [18; 1; 16; 1; 2; 0; 0; 8])) USB_MODE_UID 0 (w_controller tt) = Ok c' /\
    Z.testbit (UDCON c') DETACH = false /\ USB_Device_ControlEndpointSize (dev c') = 8 /\ host_enabled c' IDTI = true.
Proof.
  destruct (@usb_init_device _ some_chip (fun _ _ => (18, [18; 1; 16; 1; 2; 0; 0; 8])) USB_MODE_UID 0 (w_controller tt) 18
    [18; 1; 16; 1; 2; 0; 0; 8] 8) as (c' & H1 & (_ & _ & _ & _ & H2 & _) & _ & _ & _ & H3 & _ & _ & _ & _ & _ & H4 & _).
  - intros n c0 c1. reflexivity.
  - reflexivity.
  - discriminate.
  - reflexivity.
  - unfold is_u8; lia.
  - right. split; reflexivity.
  - exists c'. split; [exact H1|]. split; [exact H3|]. split; [exact H2|]. rewrite H4. reflexivity.
Defined.
End UsbController.
