(* ===== verification/UsbStream.v ===== *)
(** * Endpoint streams (EndpointStream_AVR8.c and its templates)

    The C file instantiates three templates: control writes, control reads and data streams, each
    for ascending ([_LE]) and descending ([_BE]) buffers in RAM, flash or EEPROM. Here a template
    is one definition that takes what the macros differ in: the offset of the first byte and the
    step of the pointer. A memory is an array of bytes; access outside it is a [Fault]. *)

From S2P Require Import Prelude.
From S2P Require Import Usb.
From Stdlib Require Import Lia ZArith.
Import Usb.

#[local] Open Scope Z_scope.

Module UsbStream.

(** The packets of a control transfer: full ones, and a shorter one (possibly empty) at the end. *)
Fixpoint chunk (fuel size : nat) (data : list Z) : list (list Z) :=
  match fuel with
  | O => []
  | S f => if (length data <? size)%nat then [data] else take size data :: chunk f size (drop size data)
  end.
Definition packets (size : nat) (data : list Z) : list (list Z) := chunk (S (length data)) size data.

Lemma chunk_fuel size : (0 < size)%nat -> forall f f' data,
  (length data < f)%nat -> (length data < f')%nat -> chunk f size data = chunk f' size data.
Proof.
  intros Hs. induction f as [|f IH]; intros [|f'] data Hf Hf'; try lia. simpl.
  destruct (Nat.ltb_spec (length data) size); [done|]. f_equal. apply IH; rewrite length_drop; lia.
Qed.
Lemma packets_unfold size data : (0 < size)%nat ->
  packets size data
  = if (length data <? size)%nat then [data] else take size data :: packets size (drop size data).
Proof.
  intros Hs. unfold packets at 1. simpl. destruct (Nat.ltb_spec (length data) size); [done|].
  f_equal. apply chunk_fuel; [done|rewrite length_drop; lia..].
Qed.

(** [ENDPOINT_RWCSTREAM_*] *)
Inductive ctrl_error := CtrlNoError | CtrlHostAborted | CtrlDisconnected | CtrlSuspended.
#[export] Instance ctrl_error_eq_dec : EqDecision ctrl_error.
Proof. solve_decision. Defined.

(** [TEMPLATE_BUFFER_OFFSET] and [TEMPLATE_BUFFER_MOVE]. *)
Record template := mkTemplate { buffer_offset : Z -> Z; buffer_step : Z }.
Definition LE : template := mkTemplate (fun _ => 0) 1.
Definition BE : template := mkTemplate (fun Length => Length - 1) (-1).

Section Streams.
Context {App : Type} `{UsbChip}.
Implicit Types (s : usb App) (e : endpoint).

(** ** Control writes (Template_Endpoint_Control_W.c) *)

(** Bytes move while some are left and the bank has room; [BytesInEndpoint] counts them. *)
Fixpoint fill_bank (t : template) (mem : list Z) (Length : nat) (ptr BytesInEndpoint : Z) s
  : res (nat * Z * Z * usb App) :=
  match Length with
  | O => Ok (O, ptr, BytesInEndpoint, s)
  | S n =>
      if BytesInEndpoint <? USB_Device_ControlEndpointSize s then
        b ← lift (aget mem ptr);
        r ← Endpoint_Write_8 b s;
        fill_bank t mem n (ptr + buffer_step t) (u16 (BytesInEndpoint + 1)) (snd r)
      else Ok (S n, ptr, BytesInEndpoint, s)
  end.

Definition more (Length : nat) (LastPacketFull : bool) : bool := negb (Length =? 0)%nat || LastPacketFull.

(** The loop variables are [DataStream], [Length] and [LastPacketFull]; the loop is left with an
    error to return or, by [break] or its condition, with [None]. *)
Definition control_w_turn (t : template) (mem : list Z) (l : Z * nat * bool) s
  : res ((option ctrl_error + Z * nat * bool) * usb App) :=
  let '(ptr, Length, LastPacketFull) := l in
  if decide (USB_DeviceState s = Unattached) then Ok (inl (Some CtrlDisconnected), s)
  else if decide (USB_DeviceState s = Suspended) then Ok (inl (Some CtrlSuspended), s)
  else if Endpoint_IsSETUPReceived s then Ok (inl (Some CtrlHostAborted), s)
  else if Endpoint_IsOUTReceived s then Ok (inl None, s)
  else if Endpoint_IsINReady s then
    '(Length, ptr, BytesInEndpoint, s) ← fill_bank t mem Length ptr (Endpoint_BytesInEndpoint s) s;
    let LastPacketFull := BytesInEndpoint =? USB_Device_ControlEndpointSize s in
    let s := Endpoint_ClearIN s in
    mret (if more Length LastPacketFull then inr (ptr, Length, LastPacketFull) else inl None, s)
  else mret (inr l, s).

(** The wait for a flag, left with an error when the device goes. *)
Definition wait_flag (cond : usb App -> bool) : M ctrl_error :=
  spin (fun _ s => Ok (if cond s then inl CtrlNoError
                       else if decide (USB_DeviceState s = Unattached) then inl CtrlDisconnected
                       else if decide (USB_DeviceState s = Suspended) then inl CtrlSuspended
                       else inr tt, s)) tt.

Definition Control_W (t : template) (mem : list Z) (Length : Z) : M ctrl_error :=
  let ptr := buffer_offset t Length in
  wLength ← get (fun s => wLength (USB_ControlRequest s));
  let n := if wLength <? Length then wLength else Length in
  _ ← (if negb (wLength <? Length) && (Length =? 0) then run Endpoint_ClearIN else mret tt);
  r ← (if more (Z.to_nat n) false then spin (control_w_turn t mem) (ptr, Z.to_nat n, false) else mret None);
  match r with
  | Some err => mret err
  | None => wait_flag Endpoint_IsOUTReceived
  end.

(** ** Control reads (Template_Endpoint_Control_R.c) *)

Fixpoint empty_bank (t : template) (Length : nat) (mem : list Z) (ptr : Z) s
  : res (nat * list Z * Z * usb App) :=
  match Length with
  | O => Ok (O, mem, ptr, s)
  | S n =>
      if negb (Endpoint_BytesInEndpoint s =? 0) then
        '(b, s) ← Endpoint_Read_8 s;
        mem ← lift (aset mem ptr b);
        empty_bank t n mem (ptr + buffer_step t) s
      else Ok (S n, mem, ptr, s)
  end.

(** The loop variables are [DataStream], [Length] and the memory written to. *)
Definition control_r_turn (t : template) (l : Z * nat * list Z) s
  : res ((option ctrl_error * list Z + Z * nat * list Z) * usb App) :=
  let '(ptr, Length, mem) := l in
  if decide (USB_DeviceState s = Unattached) then Ok (inl (Some CtrlDisconnected, mem), s)
  else if decide (USB_DeviceState s = Suspended) then Ok (inl (Some CtrlSuspended, mem), s)
  else if Endpoint_IsSETUPReceived s then Ok (inl (Some CtrlHostAborted, mem), s)
  else if Endpoint_IsOUTReceived s then
    '(Length, mem, ptr, s) ← empty_bank t Length mem ptr s;
    let s := Endpoint_ClearOUT s in
    mret (if negb (Length =? 0)%nat then inr (ptr, Length, mem) else inl (None, mem), s)
  else mret (inr l, s).

Definition Control_R (t : template) (mem : list Z) (Length : Z) : M (ctrl_error * list Z) :=
  let ptr := buffer_offset t Length in
  _ ← (if Length =? 0 then run Endpoint_ClearOUT else mret tt);
  '(r, mem) ← (if negb (Length =? 0) then spin (control_r_turn t) (ptr, Z.to_nat Length, mem)
               else mret (None, mem));
  match r with
  | Some err => mret (err, mem)
  | None => err ← wait_flag Endpoint_IsINReady; mret (err, mem)
  end.

(** ** Data streams (Template_Endpoint_RW.c) *)

(** [USB_USBTask], which processes control requests between two banks. *)
Variable USB_USBTask : M (App:=App) unit.

(** What the four data streams differ in: the byte transfer on the memory, and which way a bank
    is handed over. *)
Record transfer := mkTransfer {
  transfer_byte : list Z -> Z -> Op (App:=App) (list Z);
  clear_endpoint : usb App -> usb App;
  runs_task : bool }.
Definition write_bytes : transfer :=
  mkTransfer (fun mem ptr s => b ← lift (aget mem ptr); '(_, s) ← Endpoint_Write_8 b s; mret (mem, s))
    Endpoint_ClearIN true.
Definition read_bytes : transfer :=
  mkTransfer (fun mem ptr s => '(b, s) ← Endpoint_Read_8 s; mem ← lift (aset mem ptr b); mret (mem, s))
    Endpoint_ClearOUT true.
Definition discard_bytes : transfer :=
  mkTransfer (fun mem _ => _ ← Endpoint_Discard_8; mret mem) Endpoint_ClearOUT false.
Definition null_bytes : transfer :=
  mkTransfer (fun mem _ => _ ← Endpoint_Write_8 0; mret mem) Endpoint_ClearIN false.

(** [BytesProcessed] is [None] for the null pointer. Each turn moves a byte or consumes an event,
    so [fuel] above the sum of both is never exhausted (shown with the streams of UsbTransfer.v). *)
Fixpoint rw_loop (fuel : nat) (x : transfer) (t : template) (Length : nat) (ptr : Z) (mem : list Z)
  (BytesProcessed : option Z) (BytesInTransfer : Z) s evs
  : res (ep_error * list Z * option Z * usb App * list bus_event) :=
  match Length, fuel with
  | O, _ => Ok (NoError, mem, BytesProcessed, s, evs)
  | _, O => Hang
  | S n, S fuel' =>
      if negb (Endpoint_IsReadWriteAllowed s) then
        '(_, s, evs) ← (if runs_task x then USB_USBTask else mret tt) (clear_endpoint x s) evs;
        match BytesProcessed with
        | Some p => Ok (IncompleteTransfer, mem, Some (u16 (p + BytesInTransfer)), s, evs)
        | None =>
            '(err, s, evs) ← Endpoint_WaitUntilReady s evs;
            if decide (err = NoError) then rw_loop fuel' x t (S n) ptr mem BytesProcessed BytesInTransfer s evs
            else Ok (err, mem, BytesProcessed, s, evs)
        end
      else
        '(mem, s) ← transfer_byte x mem ptr s;
        rw_loop fuel' x t n (ptr + buffer_step t) mem BytesProcessed (u16 (BytesInTransfer + 1)) s evs
  end.

Definition Stream_RW (x : transfer) (t : template) (mem : list Z) (Length : Z) (BytesProcessed : option Z)
  : M (ep_error * list Z * option Z) := fun s evs =>
  '(err, s, evs) ← Endpoint_WaitUntilReady s evs;
  if decide (err = NoError) then
    let p := default 0 BytesProcessed in
    let n := Z.to_nat (u16 (Length - p)) in
    '(err, mem, BytesProcessed, s, evs) ←
      rw_loop (S (n + length evs)) x t n (buffer_offset t Length + buffer_step t * p) mem BytesProcessed 0 s evs;
    mret ((err, mem, BytesProcessed), s, evs)
  else mret ((err, mem, BytesProcessed), s, evs).

(** ** Instances *)

Definition Endpoint_Discard_Stream (Length : Z) (p : option Z) := Stream_RW discard_bytes LE [] Length p.
Definition Endpoint_Null_Stream (Length : Z) (p : option Z) := Stream_RW null_bytes LE [] Length p.
Definition Endpoint_Write_Stream_LE := Stream_RW write_bytes LE.
Definition Endpoint_Write_Stream_BE := Stream_RW write_bytes BE.
Definition Endpoint_Read_Stream_LE := Stream_RW read_bytes LE.
Definition Endpoint_Read_Stream_BE := Stream_RW read_bytes BE.
Definition Endpoint_Write_PStream_LE (flash : list Z) := Stream_RW write_bytes LE flash.
Definition Endpoint_Write_PStream_BE (flash : list Z) := Stream_RW write_bytes BE flash.
Definition Endpoint_Write_EStream_LE (eeprom : list Z) := Stream_RW write_bytes LE eeprom.
Definition Endpoint_Write_EStream_BE (eeprom : list Z) := Stream_RW write_bytes BE eeprom.
Definition Endpoint_Read_EStream_LE (eeprom : list Z) := Stream_RW read_bytes LE eeprom.
Definition Endpoint_Read_EStream_BE (eeprom : list Z) := Stream_RW read_bytes BE eeprom.
Definition Endpoint_Write_Control_Stream_LE := Control_W LE.
Definition Endpoint_Write_Control_Stream_BE := Control_W BE.
Definition Endpoint_Read_Control_Stream_LE := Control_R LE.
Definition Endpoint_Read_Control_Stream_BE := Control_R BE.
Definition Endpoint_Write_Control_PStream_LE (flash : list Z) := Control_W LE flash.
Definition Endpoint_Write_Control_PStream_BE (flash : list Z) := Control_W BE flash.
Definition Endpoint_Write_Control_EStream_LE (eeprom : list Z) := Control_W LE eeprom.
Definition Endpoint_Write_Control_EStream_BE (eeprom : list Z) := Control_W BE eeprom.
Definition Endpoint_Read_Control_EStream_LE (eeprom : list Z) := Control_R LE eeprom.
Definition Endpoint_Read_Control_EStream_BE (eeprom : list Z) := Control_R BE eeprom.

(** ** Facts *)

(** Only the endpoints differ. *)
Definition only_eps s s' : Prop := exists l, s' = s <| eps := l |>.

Lemma only_eps_refl s : only_eps s s.
Proof. exists (eps s). by destruct s. Qed.
Lemma only_eps_trans s1 s2 s3 : only_eps s1 s2 -> only_eps s2 s3 -> only_eps s1 s3.
Proof. intros [l1 ->] [l2 ->]. by exists l2. Qed.
Lemma only_eps_on_cur s f : only_eps s (on_cur f s).
Proof. by exists (alter f (Z.to_nat (UENUM s)) (eps s)). Qed.
Lemma only_eps_fields s s' :
  only_eps s s' -> core s' = core s /\ steady s' = steady s /\ (quiet s -> quiet s').
Proof. by intros [l ->]. Qed.

(** The memory holds [bytes] where the template walks. *)
Definition reads (t : template) (mem : list Z) (ptr : Z) (bytes : list Z) : Prop :=
  forall i b, bytes !! i = Some b -> aget mem (ptr + buffer_step t * Z.of_nat i) = Some b.

Lemma reads_cons t mem ptr b bytes :
  reads t mem ptr (b :: bytes) -> aget mem ptr = Some b /\ reads t mem (ptr + buffer_step t) bytes.
Proof.
  intros Hr. split.
  - rewrite <- (Hr 0%nat b) by done. f_equal. lia.
  - intros i x Hx. rewrite <- (Hr (S i) x) by done. f_equal. lia.
Qed.

Lemma reads_LE mem k n : 0 <= k -> reads LE mem k (take n (drop (Z.to_nat k) mem)).
Proof.
  intros Hk i b Hb. apply lookup_take_Some in Hb as [Hb _]. rewrite lookup_drop in Hb.
  unfold aget. simpl. rewrite (proj2 (Z.leb_le _ _)) by lia. rewrite <- Hb. f_equal. lia.
Qed.

Lemma bank_write_ok n e s b :
  at_ep n e s -> TXINI e = true -> (length (filling e) < bank_size e)%nat -> is_u8 b ->
  Endpoint_Write_8 b s = Ok (tt, on_cur (fun e => e <| filling ::= fun l => l ++ [b] |>) s).
Proof.
  intros Ha Ht Hl Hb. unfold Endpoint_Write_8. rewrite (at_cur _ _ _ Ha), Ht.
  rewrite (proj2 (Nat.ltb_lt _ _)) by done. simpl. by rewrite u8_small.
Qed.

Lemma filling_nil e : e <| filling ::= fun l => l ++ [] |> = e.
Proof. destruct e. unfold set_field. simpl. by rewrite app_nil_r. Qed.

Lemma fill_bank_spec t mem n : forall bytes ptr s e,
  at_ep n e s -> TXINI e = true -> bank_size e = Z.to_nat (USB_Device_ControlEndpointSize s) ->
  is_u8 (USB_Device_ControlEndpointSize s) -> (length (filling e) <= bank_size e)%nat ->
  reads t mem ptr bytes -> Forall is_u8 bytes ->
  let m := (length bytes `min` (bank_size e - length (filling e)))%nat in
  exists s', fill_bank t mem (length bytes) ptr (Z.of_nat (length (filling e))) s
    = Ok ((length bytes - m)%nat, ptr + buffer_step t * Z.of_nat m, Z.of_nat (length (filling e) + m), s') /\
    at_ep n (e <| filling ::= fun l => l ++ take m bytes |>) s' /\ only_eps s s'.
Proof.
  induction bytes as [|b bytes IH]; intros ptr s e Ha Ht Hsz Hc Hl Hr Hb m;
    open_let m Em; cbn [length] in Em; simpl.
  { subst m. exists s. rewrite Nat.add_0_r, Z.mul_0_r, Z.add_0_r. split; [done|]. split; [|apply only_eps_refl].
    destruct Ha as [? He]. split; [done|]. rewrite He. f_equal. symmetry. apply filling_nil. }
  apply reads_cons in Hr as [Hp Hr]. apply Forall_cons_1 in Hb as [Hb0 Hb].
  destruct (Z.ltb_spec (Z.of_nat (length (filling e))) (USB_Device_ControlEndpointSize s)) as [Hlt|Hge].
  2: { assert (m = 0%nat) as -> by (unfold is_u8 in Hc; lia). exists s.
       rewrite Nat.add_0_r, Z.mul_0_r, Z.add_0_r. split; [done|]. split; [|apply only_eps_refl].
       destruct Ha as [? He]. split; [done|]. rewrite He. f_equal. symmetry. apply filling_nil. }
  rewrite Hp. simpl. rewrite (bank_write_ok n e) by (done || lia). simpl.
  set (e1 := e <| filling ::= fun l => l ++ [b] |>). set (s1 := on_cur _ s).
  assert (length (filling e1) = S (length (filling e))) as Hl1 by (simpl; rewrite length_app; simpl; lia).
  destruct (IH (ptr + buffer_step t) s1 e1) as (s' & Hf & Ha' & Ho'); try done; try lia.
  { by apply (at_on_cur n e s (fun e => e <| filling ::= fun l => l ++ [b] |>)). }
  { unfold is_u8 in Hc. change (bank_size e1) with (bank_size e). lia. }
  exists s'. rewrite u16_small by (unfold is_u16, is_u8 in *; lia).
  replace (Z.of_nat (length (filling e)) + 1) with (Z.of_nat (length (filling e1))) by lia.
  change (bank_size e1) with (bank_size e) in *.
  assert (m = S (length bytes `min` (bank_size e - length (filling e1)))) as Hm by (unfold is_u8 in *; lia).
  rewrite Hm. split; [|split].
  - rewrite Hf. do 2 f_equal. apply pair_equal_spec. split; [apply pair_equal_spec; split|]; lia.
  - destruct Ha' as [? He']. split; [done|]. rewrite He'. f_equal. subst e1. destruct e. unfold set_field. simpl.
    by rewrite <- app_assoc.
  - eapply only_eps_trans; [|done]. apply only_eps_on_cur.
Qed.

(** *** One turn of the control write *)

Definition present s : Prop := USB_DeviceState s <> Unattached /\ USB_DeviceState s <> Suspended.
(** The endpoint has the size the stream works with. *)
Definition sized e s : Prop :=
  bank_size e = Z.to_nat (USB_Device_ControlEndpointSize s) /\ is_u8 (USB_Device_ControlEndpointSize s).

Lemma bank_size_pos e : (0 < bank_size e)%nat.
Proof.
  unfold bank_size. rewrite Z.shiftl_mul_pow2; [|apply Z.land_nonneg; lia].
  assert (0 < 2 ^ Z.land (Z.shiftr (UECFG1X e) EPSIZE0) 7); [|lia].
  apply Z.pow_pos_nonneg; [lia|apply Z.land_nonneg; lia].
Qed.
Lemma banks_pos e : (0 < banks e)%nat.
Proof. unfold banks. case_if; lia. Qed.

Lemma TXINI_false_armed e : TXINI e = false -> armed e <> [].
Proof. unfold TXINI. pose proof (banks_pos e). intros Hl%Nat.ltb_ge E. rewrite E in Hl. simpl in Hl. lia. Qed.

(** Packets still to come in the loop. *)
Definition pending (size : nat) (rest : list Z) (full : bool) : list (list Z) :=
  if more (length rest) full then packets size rest else [].

Lemma pending_next size rest : (0 < size)%nat ->
  packets size rest
  = take size rest :: pending size (drop size rest) (length (take size rest) =? size)%nat.
Proof.
  intros Hs. rewrite packets_unfold by done. unfold pending, more. rewrite length_take, length_drop.
  destruct (Nat.ltb_spec (length rest) size).
  - rewrite take_ge by lia. rewrite (proj2 (Nat.eqb_eq _ 0)) by lia. simpl.
    by rewrite (proj2 (Nat.eqb_neq _ _)) by lia.
  - rewrite (proj2 (Nat.eqb_eq (size `min` length rest) size)) by lia. by rewrite orb_true_r.
Qed.

Lemma turn_fill t mem n ptr rest full s e :
  at_ep n e s -> sized e s -> present s -> filling e = [] -> reads t mem ptr rest -> Forall is_u8 rest ->
  RXSTPI e = false -> received e = [] -> TXINI e = true ->
  let p := take (bank_size e) rest in
  let rest' := drop (bank_size e) rest in
  let full' := (length p =? bank_size e)%nat in
  let ptr' := ptr + buffer_step t * Z.of_nat (length p) in
  exists s', control_w_turn t mem (ptr, length rest, full) s
    = Ok (if more (length rest') full' then inr (ptr', length rest', full') else inl None, s') /\
    at_ep n (e <| armed ::= fun l => l ++ [p] |>) s' /\ only_eps s s' /\ reads t mem ptr' rest'.
Proof.
  intros Ha [Hsz Hc] [Hu Hs] Hf Hr Hb Hst Hrx Htx p rest' full' ptr'.
  unfold control_w_turn, Endpoint_IsSETUPReceived, Endpoint_IsOUTReceived, Endpoint_IsINReady, RXOUTI, Endpoint_BytesInEndpoint.
  rewrite (at_cur _ _ _ Ha), Hst, Hrx, Htx, Hf, !decide_False by done.
  destruct (fill_bank_spec t mem n rest ptr s e) as (s1 & Hfb & Ha1 & Ho1); try done; [rewrite Hf; simpl; lia|].
  rewrite Hf in Hfb, Ha1. change (Z.of_nat (length [])) with 0 in *. simpl length in *. rewrite Nat.sub_0_r in *.
  rewrite Hfb. simpl.
  assert (take (length rest `min` bank_size e) rest = p) as Et.
  { subst p. destruct (Nat.min_spec (length rest) (bank_size e)) as [[? ->]|[? ->]]; [|done].
    by rewrite !take_ge by lia. }
  rewrite Et in Ha1.
  assert (length p = (length rest `min` bank_size e)%nat) as Hp by (subst p; rewrite length_take; lia).
  assert (length rest' = (length rest - bank_size e)%nat) as Hr' by (subst rest'; by rewrite length_drop).
  set (s2 := Endpoint_ClearIN s1). exists s2.
  assert (only_eps s s2) as Ho2 by (eapply only_eps_trans; [exact Ho1|apply only_eps_on_cur]).
  assert (USB_Device_ControlEndpointSize s1 = USB_Device_ControlEndpointSize s) as -> by (by destruct Ho1 as [l ->]).
  replace (Z.of_nat (length rest `min` bank_size e) =? USB_Device_ControlEndpointSize s) with full'.
  2: { subst full'. rewrite Hp, Hsz. unfold is_u8 in Hc.
       destruct (Nat.eqb_spec (length rest `min` Z.to_nat (USB_Device_ControlEndpointSize s)) (Z.to_nat (USB_Device_ControlEndpointSize s)));
         destruct (Z.eqb_spec (Z.of_nat (length rest `min` Z.to_nat (USB_Device_ControlEndpointSize s))) (USB_Device_ControlEndpointSize s)); lia. }
  replace (length rest - length rest `min` bank_size e)%nat with (length rest') by lia.
  subst ptr'. rewrite Hp. split; [done|]. split; [|split; [done|]].
  - pose proof (at_on_cur n _ s1 (fun e => if TXINI e then e <| armed ::= fun l => l ++ [filling e] |> <| filling := [] |> else e) Ha1) as Ha2.
    destruct e. unfold TXINI, banks, set_field in *. simpl in *. rewrite Htx in Ha2. by subst.
  - intros i b Hi. subst rest'. rewrite lookup_drop in Hi. rewrite <- (Hr _ _ Hi). f_equal.
    assert (bank_size e <= length rest)%nat; [|lia]. apply lookup_lt_Some in Hi. lia.
Qed.

(** *** Control writes under any events *)

Lemma act_shape n ev e :
  UECFG1X (act n ev e) = UECFG1X e /\ (filling e = [] -> filling (act n ev e) = []) /\
  exists P, taken (act n ev e) = taken e ++ P /\
    (P ++ armed (act n ev e) = armed e \/ RXSTPI (act n ev e) = true /\ P = [] /\ armed (act n ev e) = []).
Proof.
  assert (taken e = taken e ++ []) as Hnil by (by rewrite app_nil_r).
  assert (forall e', e' = e -> UECFG1X e' = UECFG1X e /\ (filling e = [] -> filling e' = []) /\
    exists P, taken e' = taken e ++ P /\ (P ++ armed e' = armed e \/ RXSTPI e' = true /\ P = [] /\ armed e' = [])) as Hid.
  { intros e' ->. split; [done|]. split; [done|]. exists []. auto. }
  destruct ev; simpl; try (by apply Hid); case_decide; try (by apply Hid).
  - split; [done|]. split; [done|]. exists []. split; [done|]. by right.
  - unfold take_out. case_if; [|by apply Hid]. split; [done|]. split; [done|]. exists []. split; [done|]. by left.
  - unfold give_in. destruct (armed e) as [|p ps] eqn:Ea; [by apply Hid|].
    case_if; [|by apply Hid]. split; [done|]. split; [done|]. exists [p]. split; [done|]. by left.
Qed.

Lemma sized_steady e e' s s' :
  sized e s -> UECFG1X e' = UECFG1X e -> steady s' = steady s -> sized e' s'.
Proof.
  intros [Hs Hc] He Hst. injection Hst as _ Hcs _ _ _ _ _. unfold sized, bank_size in *. by rewrite He, Hcs.
Qed.

(** What a result says. *)
Definition truthful (err : ctrl_error) (cond : Prop) e s : Prop :=
  match err with
  | CtrlNoError => cond
  | CtrlHostAborted => RXSTPI e = true
  | CtrlDisconnected => USB_DeviceState s = Unattached
  | CtrlSuspended => USB_DeviceState s = Suspended
  end.

Lemma wait_flag_safe cond n : forall evs s e,
  at_ep n e s -> fires EORSTI s = false -> Forall (fun ev => ev <> BusReset) evs ->
  match wait_flag cond s evs with
  | Fault => False
  | Hang => True
  | Ok (err, s', _) => exists e' P, at_ep n e' s' /\ taken e' = taken e ++ P /\ P `prefix_of` armed e /\
      truthful err (cond s' = true) e' s'
  end.
Proof.
  unfold wait_flag. induction evs as [|ev evs IH]; intros s e Ha Hr Hev; simpl.
  all: destruct (cond s) eqn:Ec;
    [exists e, []; rewrite app_nil_r; split; [done|]; split; [done|]; split; [apply prefix_nil|done]|].
  all: destruct (decide (USB_DeviceState s = Unattached));
    [exists e, []; rewrite app_nil_r; split; [done|]; split; [done|]; split; [apply prefix_nil|done]|].
  all: destruct (decide (USB_DeviceState s = Suspended));
    [exists e, []; rewrite app_nil_r; split; [done|]; split; [done|]; split; [apply prefix_nil|done]|].
  { done. }
  apply Forall_cons_1 in Hev as [He Hev]. destruct (tick_steady ev s He Hr) as [Hst _].
  specialize (IH (tick ev s) (act n ev e) (at_tick _ _ _ _ Ha He Hr)).
  assert (fires EORSTI (tick ev s) = false) as Hr' by (injection Hst; congruence). specialize (IH Hr' Hev).
  destruct (spin _ _ _ _) as [[[err s'] evs']| |]; [|done..].
  destruct IH as (e' & P & Ha' & Ht & Hp & Hc).
  destruct (act_shape n ev e) as (_ & _ & Q & HQ & Hq). exists e', (Q ++ P). split; [done|].
  split; [rewrite Ht, HQ; by rewrite app_assoc|]. split; [|done].
  destruct Hq as [<- | (_ & -> & E)]; [by apply prefix_app|]. rewrite E in Hp. apply prefix_nil_inv in Hp as ->. apply prefix_nil.
Qed.

Lemma spin_eq {L A} (body : L -> usb App -> res ((A + L) * usb App)) l s evs :
  spin body l s evs =
  match body l s with
  | Ok (inl a, s') => Ok (a, s', evs)
  | Ok (inr l', s') => match evs with [] => Hang | ev :: evs' => spin body l' (tick ev s') evs' end
  | Fault => Fault
  | Hang => Hang
  end.
Proof. by destruct evs. Qed.

(** The turns in which the loop does not fill a bank. *)
Inductive turn_exit e s : option ctrl_error -> Prop :=
| exit_unattached : USB_DeviceState s = Unattached -> turn_exit e s (Some CtrlDisconnected)
| exit_suspended : USB_DeviceState s = Suspended -> turn_exit e s (Some CtrlSuspended)
| exit_setup : RXSTPI e = true -> turn_exit e s (Some CtrlHostAborted)
| exit_out : RXOUTI e = true -> RXSTPI e = false -> turn_exit e s None.

Lemma turn_cases t mem n l s e :
  at_ep n e s ->
  (exists r, turn_exit e s r /\ control_w_turn t mem l s = Ok (inl r, s)) \/
  (present s /\ RXSTPI e = false /\ received e = [] /\
   (TXINI e = true \/ TXINI e = false /\ control_w_turn t mem l s = Ok (inr l, s))).
Proof.
  intros Ha. destruct l as [[ptr len] full]. unfold control_w_turn, present, Endpoint_IsSETUPReceived, Endpoint_IsOUTReceived, Endpoint_IsINReady.
  rewrite (at_cur _ _ _ Ha).
  destruct (decide (USB_DeviceState s = Unattached)); [left; eexists; by split; [constructor|]|].
  destruct (decide (USB_DeviceState s = Suspended)); [left; eexists; by split; [constructor|]|].
  destruct (RXSTPI e) eqn:Es; [left; eexists; by split; [constructor|]|].
  destruct (RXOUTI e) eqn:Eo; [left; eexists; by split; [constructor|]|].
  right. split; [done|]. split; [done|]. split.
  { unfold RXOUTI in Eo. by destruct (received e). }
  destruct (TXINI e); [by left|by right].
Qed.

(** A turn of the loop, in terms of the packets armed and those to come. *)
Definition progress (t : template) (mem : list Z) e (rest : list Z) (l' : option ctrl_error + Z * nat * bool)
  e1 (rest' : list Z) : Prop :=
  match l' with
  | inl r => r = None /\ armed e1 = armed e ++ packets (bank_size e) rest
  | inr (ptr', len', full') => len' = length rest' /\ more len' full' = true /\ reads t mem ptr' rest' /\
      armed e1 <> [] /\ armed e1 ++ packets (bank_size e) rest' = armed e ++ packets (bank_size e) rest
  end.

Lemma turn_progress t mem n ptr rest full s e :
  at_ep n e s -> sized e s -> present s -> filling e = [] -> reads t mem ptr rest -> Forall is_u8 rest ->
  RXSTPI e = false -> received e = [] -> more (length rest) full = true ->
  exists l' s1 e1 rest', control_w_turn t mem (ptr, length rest, full) s = Ok (l', s1) /\
    at_ep n e1 s1 /\ only_eps s s1 /\ e1 = e <| armed := armed e1 |> /\ Forall is_u8 rest' /\
    progress t mem e rest l' e1 rest'.
Proof.
  intros Ha Hsz Hpr Hf Hrd Hu Hst Hrx Hm. destruct (TXINI e) eqn:Htx.
  - destruct (turn_fill t mem n ptr rest full s e) as (s1 & Ht & Ha1 & Ho1 & Hrd'); try done.
    eexists _, s1, _, (drop (bank_size e) rest). split; [exact Ht|]. split; [exact Ha1|]. split; [done|].
    split; [by destruct e|]. split; [by apply Forall_drop|].
    unfold progress. rewrite (pending_next _ rest (bank_size_pos e)). unfold pending. case_if; simpl; [|done].
    repeat (split; [done|]). split; [by destruct (armed e)|]. by rewrite <- app_assoc.
  - exists (inr (ptr, length rest, full)), s, e, rest.
    destruct (turn_cases t mem n (ptr, length rest, full) s e Ha) as [(r & Hx & _)|(_ & _ & _ & [?|[_ Ht]])].
    + destruct Hpr. destruct Hx as [| | |Ho]; try done; try congruence. unfold RXOUTI in Ho. by rewrite Hrx in Ho.
    + congruence.
    + split; [done|]. split; [done|]. split; [apply only_eps_refl|]. split; [by destruct e|]. split; [done|].
      repeat (split; [done|]). split; [by apply TXINI_false_armed|done].
Qed.

Lemma control_w_safe t mem n : forall evs ptr rest full s e,
  at_ep n e s -> sized e s -> fires EORSTI s = false -> filling e = [] -> reads t mem ptr rest ->
  Forall is_u8 rest -> more (length rest) full = true -> Forall (fun ev => ev <> BusReset) evs ->
  match spin (control_w_turn t mem) (ptr, length rest, full) s evs with
  | Fault => False
  | Hang => True
  | Ok (r, s', evs') => exists e' P, at_ep n e' s' /\ fires EORSTI s' = false /\
      Forall (fun ev => ev <> BusReset) evs' /\ taken e' = taken e ++ P /\
      (RXSTPI e = true -> P = [] /\ r <> None) /\
      P `prefix_of` armed e ++ packets (bank_size e) rest /\
      match r with
      | None => P ++ armed e' `prefix_of` armed e ++ packets (bank_size e) rest
      | Some err => truthful err False e' s'
      end
  end.
Proof.
  induction evs as [|ev evs IH]; intros ptr rest full s e Ha Hsz Hr Hf Hrd Hu Hm Hev.
  all: rewrite spin_eq; destruct (turn_cases t mem n (ptr, length rest, full) s e Ha)
    as [(r & Hx & ->)|(Hpr & Hst & Hrx & _)].
  1, 3: exists e, []; rewrite app_nil_r; repeat (split; [done || apply prefix_nil|]);
        destruct Hx; (split; [(by split) || congruence|]); (split; [apply prefix_nil|]); try done; by apply prefix_app_r.
  all: destruct (turn_progress t mem n ptr rest full s e) as (l' & s1 & e1 & rest' & Hturn & Ha1 & Ho1 & He1 & Hu' & Hl');
    try done; rewrite Hturn; destruct (only_eps_fields _ _ Ho1) as (_ & Hs1 & _);
    assert (fires EORSTI s1 = false) as Hr1 by (injection Hs1; congruence);
    (destruct l' as [r|[[ptr' len'] full']];
    [destruct Hl' as [-> Hl']; exists e1, []; rewrite app_nil_r; repeat (split; [done || apply prefix_nil|]);
      (split; [by rewrite He1|]); (split; [congruence|]); split; [apply prefix_nil|by rewrite Hl']|]).
  { done. }
  destruct Hl' as (-> & Hm' & Hrd' & _ & Hl'). apply Forall_cons_1 in Hev as [He Hev].
  destruct (tick_steady ev s1 He Hr1) as [Hs2 _]. destruct (act_shape n ev e1) as (Hc2 & Hf2 & Q & HQ & Hq).
  assert (UECFG1X e1 = UECFG1X e) as Hcfg by (by rewrite He1).
  assert (sized (act n ev e1) (tick ev s1)) as Hsz2 by (eapply sized_steady; [exact Hsz|congruence|congruence]).
  assert (bank_size (act n ev e1) = bank_size e) as Hbs by (unfold bank_size; congruence).
  assert (fires EORSTI (tick ev s1) = false) as Hr2 by (injection Hs2; congruence).
  assert (filling e1 = []) as Hf1 by (by rewrite He1).
  specialize (IH ptr' rest' full' (tick ev s1) (act n ev e1) (at_tick _ _ _ _ Ha1 He Hr1) Hsz2 Hr2 (Hf2 Hf1) Hrd' Hu' Hm' Hev).
  destruct (spin _ _ _ _) as [[[r s'] evs']| |]; [|done..].
  destruct IH as (e' & P & Ha' & Hr' & Hev' & Ht' & HP0 & HP & Hres). rewrite Hbs in *.
  exists e', (Q ++ P). split; [done|]. split; [done|]. split; [done|].
  split; [rewrite Ht', HQ, He1; by rewrite app_assoc|]. split; [congruence|].
  destruct Hq as [Hq|(Hq1 & -> & Hq2)].
  - rewrite <- Hl', <- Hq, <- !app_assoc. split; [by apply prefix_app|]. destruct r; [done|by apply prefix_app].
  - destruct (HP0 Hq1) as [-> Hn]. split; [apply prefix_nil|]. by destruct r.
Qed.

(** *** Control writes with a host that completes the transfer *)

Definition patient (ev : bus_event) : bool := match ev with Idle | Frame _ | In _ => true | _ => false end.
(** How often the host asks endpoint [n] for a packet. *)
Fixpoint ins (n : Z) (evs : list bus_event) : nat :=
  match evs with
  | [] => 0
  | In m :: evs' => if decide (Z.to_nat n = Z.to_nat m) then S (ins n evs') else ins n evs'
  | _ :: evs' => ins n evs'
  end.
Lemma ins_cons n ev evs : ins n (ev :: evs) = (ins n [ev] + ins n evs)%nat.
Proof. destruct ev; simpl; try done. by case_decide. Qed.

(** Enabled, not stalled and without a packet of the host. *)
Definition ready e : Prop := EPEN e = true /\ STALLRQ e = false /\ RXSTPI e = false /\ received e = [].

Lemma at_tick_packet n e s ev :
  at_ep n e s -> quiet s -> packet_event ev = true ->
  at_ep n (act n ev e) (tick ev s) /\ core (tick ev s) = core s /\ quiet (tick ev s).
Proof.
  intros [Hn He] Hq Hp. destruct (tick_packet ev s Hp Hq) as (Hc & Hq' & Heps). split; [|done].
  split; [injection Hc; congruence|]. rewrite Heps. apply hardware_lookup; [by destruct ev|done].
Qed.

Lemma act_patient n ev e :
  patient ev = true -> ready e ->
  ready (act n ev e) /\ UECFG1X (act n ev e) = UECFG1X e /\ filling (act n ev e) = filling e /\
  taken (act n ev e) = taken e ++ take (ins n [ev]) (armed e) /\ armed (act n ev e) = drop (ins n [ev]) (armed e).
Proof.
  intros Hp (H1 & H2 & H3 & H4). destruct ev; try done; simpl; try case_decide; simpl;
    rewrite ?take_0, ?drop_0, ?app_nil_r; try (repeat split; done).
  unfold give_in. rewrite H1, H2. unfold ready. destruct (armed e) eqn:Ea; simpl; rewrite ?take_nil, ?Ea, ?app_nil_r; repeat split; try done.
Qed.

Lemma act_status n e :
  ready e -> received (act n (Out n []) e) = [[]] /\ RXSTPI (act n (Out n []) e) = false /\
  taken (act n (Out n []) e) = taken e /\ EPEN (act n (Out n []) e) = true /\
  STALLRQ (act n (Out n []) e) = false.
Proof.
  intros (H1 & H2 & H3 & H4). simpl. rewrite decide_True by done. unfold take_out. rewrite H1, H2, H4.
  pose proof (banks_pos e). simpl. rewrite (proj2 (Nat.ltb_lt _ _)) by lia. simpl. rewrite H4. done.
Qed.

(** The state in which the wait for the status stage ends. *)
Definition status_seen (n : Z) e (P : list (list Z)) s s' : Prop :=
  exists e', at_ep n e' s' /\ core s' = core s /\ quiet s' /\ EPEN e' = true /\ STALLRQ e' = false /\
    RXSTPI e' = false /\ received e' = [[]] /\ taken e' = taken e ++ P.

Lemma status_seen_from n e e1 P s s1 s' :
  taken e1 = taken e -> core s1 = core s -> status_seen n e1 P s1 s' -> status_seen n e P s s'.
Proof. intros Ht Hc (e' & Hs). exists e'. by rewrite <- Ht, <- Hc. Qed.

Lemma present_core s s' : core s' = core s -> present s -> present s'.
Proof. intros Hc. injection Hc as H1 _ _ _ _ _ _ _ _ _. unfold present. by rewrite H1. Qed.

Lemma wait_turn n e s :
  at_ep n e s -> ready e -> present s ->
  (if Endpoint_IsOUTReceived s then inl CtrlNoError
   else if decide (USB_DeviceState s = Unattached) then inl CtrlDisconnected
   else if decide (USB_DeviceState s = Suspended) then inl CtrlSuspended
   else inr tt : ctrl_error + unit) = inr tt.
Proof.
  intros Ha (_ & _ & _ & Hr) [Hp1 Hp2]. unfold Endpoint_IsOUTReceived, RXOUTI. rewrite (at_cur _ _ _ Ha), Hr.
  by rewrite !decide_False.
Qed.

Lemma wait_seen n e s evs :
  at_ep n e s -> received e = [[]] -> wait_flag Endpoint_IsOUTReceived s evs = Ok (CtrlNoError, s, evs).
Proof.
  intros Ha Hr. unfold wait_flag. rewrite spin_eq. unfold Endpoint_IsOUTReceived, RXOUTI.
  by rewrite (at_cur _ _ _ Ha), Hr.
Qed.

Lemma wait_live n later : forall evs s e,
  at_ep n e s -> quiet s -> present s -> ready e -> forallb patient evs = true ->
  exists s', wait_flag Endpoint_IsOUTReceived s (evs ++ Out n [] :: later) = Ok (CtrlNoError, s', later) /\
    status_seen n e (take (ins n evs) (armed e)) s s'.
Proof.
  induction evs as [|ev evs IH]; intros s e Ha Hq Hp Hr Hev; simpl app; unfold wait_flag; rewrite spin_eq;
    rewrite (wait_turn n e s Ha Hr Hp).
  - destruct (at_tick_packet n e s (Out n []) Ha Hq) as (Ha' & Hc' & Hq'); [done|].
    destruct (act_status n e Hr) as (Hr' & Hs' & Ht' & He' & Hst'). exists (tick (Out n []) s).
    split; [by eapply wait_seen|]. eexists. split; [done|]. split; [done|]. split; [done|].
    simpl. rewrite take_0, app_nil_r. by repeat split.
  - simpl in Hev. apply andb_prop in Hev as [He Hev].
    destruct (at_tick_packet n e s ev Ha Hq) as (Ha' & Hc' & Hq'); [by destruct ev|].
    destruct (act_patient n ev e He Hr) as (Hr' & _ & _ & Ht' & Har').
    destruct (IH (tick ev s) (act n ev e)) as (s' & Hw & e' & Ha2 & Hc2 & Hq2 & Hx1 & Hx2 & Hx3 & Hx4 & Ht2); try done.
    { by eapply present_core. }
    exists s'. split; [exact Hw|]. exists e'. split; [done|]. split; [congruence|]. split; [done|].
    repeat (split; [done|]). by rewrite Ht2, Ht', Har', <- app_assoc, take_take_drop, (ins_cons n ev evs).
Qed.

Definition finish (r : option ctrl_error) : M (App:=App) ctrl_error :=
  match r with Some err => mret err | None => wait_flag Endpoint_IsOUTReceived end.

Lemma bind_spin {L A B} body (l : L) s evs (f : A -> M (App:=App) B) :
  (spin body l ≫= f) s evs =
  match body l s with
  | Ok (inl a, s') => f a s' evs
  | Ok (inr l', s') => match evs with [] => Hang | ev :: evs' => (spin body l' ≫= f) (tick ev s') evs' end
  | Fault => Fault
  | Hang => Hang
  end.
Proof.
  unfold mbind at 1, M_bind at 1. rewrite spin_eq. destruct (body l s) as [[[a|l'] s']| |]; [done| |done..].
  by destruct evs.
Qed.

Lemma turn_out t mem n l s e :
  at_ep n e s -> present s -> RXSTPI e = false -> received e = [[]] -> control_w_turn t mem l s = Ok (inl None, s).
Proof.
  intros Ha Hp Hs Hr. destruct (turn_cases t mem n l s e Ha) as [(r & Hx & ->)|(_ & _ & Hr' & _)]; [|congruence].
  destruct Hp. by destruct Hx; try congruence.
Qed.

Lemma progress_ready t mem n l' s1 e e1 rest rest' s :
  at_ep n e1 s1 -> only_eps s s1 -> e1 = e <| armed := armed e1 |> -> ready e -> quiet s -> present s ->
  progress t mem e rest l' e1 rest' -> ready e1 /\ quiet s1 /\ present s1 /\ core s1 = core s /\ taken e1 = taken e.
Proof.
  intros Ha [l ->] -> Hr Hq Hp _. by destruct e.
Qed.

Lemma control_w_live t mem n later : forall evs ptr rest full s e,
  at_ep n e s -> sized e s -> quiet s -> present s -> ready e -> filling e = [] -> reads t mem ptr rest ->
  Forall is_u8 rest -> more (length rest) full = true -> forallb patient evs = true ->
  exists s', (spin (control_w_turn t mem) (ptr, length rest, full) ≫= finish) s (evs ++ Out n [] :: later)
    = Ok (CtrlNoError, s', later) /\
    status_seen n e (take (ins n evs) (armed e ++ packets (bank_size e) rest)) s s'.
Proof.
  induction evs as [|ev evs IH]; intros ptr rest full s e Ha Hsz Hq Hp Hr Hf Hrd Hu Hm Hev; rewrite bind_spin.
  all: destruct (turn_progress t mem n ptr rest full s e) as (l' & s1 & e1 & rest' & -> & Ha1 & Ho1 & He1 & Hu' & Hl');
    try done; try apply Hr;
    destruct (progress_ready t mem n l' s1 e e1 rest rest' s) as (Hr1 & Hq1 & Hp1 & Hc1 & Ht1); try done;
    (destruct l' as [r|[[ptr' len'] full']];
      [destruct Hl' as [-> Hl']; rewrite <- Hl'; unfold finish|]).
  - destruct (wait_live n later [] s1 e1) as (s' & Hw & Hs); try done.
    exists s'. split; [exact Hw|]. by eapply status_seen_from.
  - destruct (at_tick_packet n e1 s1 (Out n []) Ha1 Hq1) as (Ha2 & Hc2 & Hq2); [done|].
    destruct (act_status n e1 Hr1) as (Hr' & Hs' & Ht' & He' & Hst'). rewrite app_nil_l.
    rewrite bind_spin, (turn_out t mem n _ _ _ Ha2) by (done || by eapply present_core). simpl.
    eexists. split; [by eapply wait_seen|]. eexists. split; [exact Ha2|]. split; [congruence|]. split; [done|].
    repeat (split; [done|]). by rewrite Ht', Ht1, take_0, app_nil_r.
  - destruct (wait_live n later (ev :: evs) s1 e1) as (s' & Hw & Hs); try done.
    exists s'. split; [exact Hw|]. by eapply status_seen_from.
  - destruct Hl' as (-> & Hm' & Hrd' & Hne & Hl'). simpl in Hev. apply andb_prop in Hev as [Hv Hev]. rewrite <- app_comm_cons.
    destruct (at_tick_packet n e1 s1 ev Ha1 Hq1) as (Ha2 & Hc2 & Hq2); [by destruct ev|].
    destruct (act_patient n ev e1 Hv Hr1) as (Hr2 & Hcfg2 & Hf2 & Ht2 & Har2).
    assert (UECFG1X (act n ev e1) = UECFG1X e) as Hcfg by (rewrite Hcfg2; by rewrite He1).
    assert (bank_size (act n ev e1) = bank_size e) as Hbs by (unfold bank_size; congruence).
    assert (filling (act n ev e1) = []) as Hfl by (rewrite Hf2; by rewrite He1).
    assert (sized (act n ev e1) (tick ev s1)) as Hsz2.
    { unfold sized. rewrite Hbs. rewrite Hc1 in Hc2. injection Hc2 as _ _ _ _ -> _ _ _ _ _. exact Hsz. }
    destruct (IH ptr' rest' full' (tick ev s1) (act n ev e1)) as (s' & Hw & e' & Ha3 & Hc3 & Hq3 & Hx1 & Hx2 & Hx3 & Hx4 & Ht3);
      try done; [by eapply present_core|].
    exists s'. split; [exact Hw|]. exists e'. split; [done|]. split; [congruence|]. split; [done|].
    repeat (split; [done|]). rewrite Ht3, Ht2, Ht1, Har2, Hbs, <- Hl', <- app_assoc, (ins_cons n ev evs). f_equal.
    assert (ins n [ev] <= length (armed e1))%nat as Hle.
    { destruct ev; simpl; try lia. destruct (armed e1); [done|]. case_decide; simpl; lia. }
    by rewrite <- (take_take_drop _ (ins n [ev])), (take_app_le _ _ (ins n [ev])), drop_app_le by done.
Qed.

(** *** The whole control write *)

(** The bytes a control write sends: no more than the host asked for. *)
Definition asked (mem : list Z) (Length : Z) s : list Z :=
  take (Z.to_nat (Z.min Length (wLength (USB_ControlRequest s)))) mem.

Lemma Control_W_eq t mem Length s evs :
  let w := wLength (USB_ControlRequest s) in
  0 < Length -> 0 < w ->
  Control_W t mem Length s evs
  = (spin (control_w_turn t mem) (buffer_offset t Length, Z.to_nat (Z.min Length w), false) ≫= finish) s evs.
Proof.
  intros w HL Hw. unfold Control_W, mbind at 1, M_bind at 1, get. fold w.
  rewrite (proj2 (Z.eqb_neq Length 0)), andb_false_r by lia. unfold mbind at 1, M_bind at 1, mret at 1, M_ret at 1.
  replace (if w <? Length then w else Length) with (Z.min Length w) by (destruct (Z.ltb_spec w Length); lia).
  unfold more. by rewrite (proj2 (Nat.eqb_neq _ 0)) by lia.
Qed.

(** An idle control endpoint that the stream may use. *)
Definition usable (n : Z) e s : Prop :=
  at_ep n e s /\ sized e s /\ filling e = [] /\ armed e = [].

Lemma asked_length mem Length s :
  0 <= Length <= Z.of_nat (length mem) ->
  length (asked mem Length s) = Z.to_nat (Z.min Length (wLength (USB_ControlRequest s))).
Proof. intros HL. unfold asked. rewrite length_take. lia. Qed.

Lemma control_w_delivers mem Length n s e evs later :
  usable n e s -> quiet s -> present s -> ready e ->
  0 < Length <= Z.of_nat (length mem) -> 0 < wLength (USB_ControlRequest s) -> Forall is_u8 mem ->
  forallb patient evs = true ->
  exists s', Control_W LE mem Length s (evs ++ Out n [] :: later) = Ok (CtrlNoError, s', later) /\
    status_seen n e (take (ins n evs) (packets (bank_size e) (asked mem Length s))) s s'.
Proof.
  intros (Ha & Hsz & Hf & Harm) Hq Hp Hr HL Hw Hu Hev. rewrite Control_W_eq by lia.
  destruct (control_w_live LE mem n later evs 0 (asked mem Length s) false s e) as (s' & Hs & Hseen); try done.
  - apply (reads_LE mem 0); lia.
  - by apply Forall_take.
  - unfold more. rewrite asked_length by lia. by rewrite (proj2 (Nat.eqb_neq _ 0)) by lia.
  - exists s'. rewrite asked_length in Hs by lia. split; [exact Hs|]. by rewrite Harm in Hseen.
Qed.

Lemma control_w_any mem Length n s e evs :
  usable n e s -> fires EORSTI s = false -> 0 < Length <= Z.of_nat (length mem) ->
  0 < wLength (USB_ControlRequest s) -> Forall is_u8 mem -> Forall (fun ev => ev <> BusReset) evs ->
  match Control_W LE mem Length s evs with
  | Fault => False
  | Hang => True
  | Ok (err, s', _) => exists e' P, at_ep n e' s' /\ taken e' = taken e ++ P /\
      P `prefix_of` packets (bank_size e) (asked mem Length s) /\ truthful err (RXOUTI e' = true) e' s'
  end.
Proof.
  intros (Ha & Hsz & Hf & Harm) Hr HL Hw Hu Hev. rewrite Control_W_eq by lia.
  pose proof (control_w_safe LE mem n evs 0 (asked mem Length s) false s e) as Hs.
  rewrite asked_length, Harm in Hs by lia. unfold mbind, M_bind. simpl buffer_offset.
  assert (more (Z.to_nat (Z.min Length (wLength (USB_ControlRequest s)))) false = true) as Hm.
  { unfold more. by rewrite (proj2 (Nat.eqb_neq _ 0)) by lia. }
  specialize (Hs Ha Hsz Hr Hf (reads_LE mem 0 _ ltac:(lia)) (Forall_take _ _ _ Hu) Hm Hev).
  destruct (spin _ _ _ _) as [[[r s1] evs1]| |]; [|done..].
  destruct Hs as (e1 & P & Ha1 & Hr1 & Hev1 & Ht1 & _ & Hp1 & Hres). destruct r as [err|]; simpl.
  { exists e1, P. split; [done|]. split; [done|]. split; [done|]. by destruct err. }
  pose proof (wait_flag_safe Endpoint_IsOUTReceived n evs1 s1 e1 Ha1 Hr1 Hev1) as Hw1.
  destruct (wait_flag _ _ _) as [[[err s2] evs2]| |]; [|done..].
  destruct Hw1 as (e2 & Q & Ha2 & Ht2 & Hq2 & Herr). exists e2, (P ++ Q). split; [done|].
  split; [by rewrite Ht2, Ht1, app_assoc|]. split.
  - etrans; [by apply prefix_app|exact Hres].
  - destruct err; try done. simpl in *. revert Herr. unfold Endpoint_IsOUTReceived. by rewrite (at_cur _ _ _ Ha2).
Qed.
End Streams.

(** ** Theorems *)

(** C10: a control write under any events but a bus reset, whatever the host, the supply and the
    bus do: the driver never writes into a bank it does not own; what the host has collected is an
    initial part of the packets of the data it asked for, in order and none twice; and the result
    says what happened: the status stage is there, the device is unattached, the bus suspended, or
    a new SETUP packet has arrived. *)
Theorem control_write_safe {App} `{UsbChip} (mem : list Z) Length (s : usb App) e evs :
  usable 0 e s -> fires EORSTI s = false -> 0 < Length <= Z.of_nat (length mem) ->
  0 < wLength (USB_ControlRequest s) -> Forall is_u8 mem -> Forall (fun ev => ev <> BusReset) evs ->
  match Endpoint_Write_Control_Stream_LE mem Length s evs with
  | Fault => False
  | Hang => True
  | Ok (err, s', _) => exists e' P, at_ep 0 e' s' /\ taken e' = taken e ++ P /\
      P `prefix_of` packets (bank_size e) (asked mem Length s) /\ truthful err (RXOUTI e' = true) e' s'
  end.
Proof. apply control_w_any. Qed.

(** C11: a control write with a host that asks for packets and completes the transfer: it returns
    without error when the status packet has arrived, and the host has as many of the packets of
    the data as it asked for. The packets have the size of the endpoint, and data that fills its
    packets is followed by an empty one. *)
Theorem control_write_delivers {App} `{UsbChip} (mem : list Z) Length (s : usb App) e evs later :
  usable 0 e s -> quiet s -> present s -> ready e ->
  0 < Length <= Z.of_nat (length mem) -> 0 < wLength (USB_ControlRequest s) -> Forall is_u8 mem ->
  forallb patient evs = true ->
  exists s', Endpoint_Write_Control_Stream_LE mem Length s (evs ++ Out 0 [] :: later)
      = Ok (CtrlNoError, s', later) /\
    status_seen 0 e (take (ins 0 evs) (packets (bank_size e) (asked mem Length s))) s s'.
Proof. apply control_w_delivers. Qed.

(** *** Witnesses *)

(** A request of up to 64 bytes; ten bytes to send. *)
Definition w_device : usb unit := fresh_device control_endpoint (mkRequest 128 6 256 0 64) tt.
Definition w_data : list Z := [1; 2; 3; 4; 5; 6; 7; 8; 9; 10].

Lemma w_usable : usable 0 control_endpoint w_device.
Proof. split; [done|]. split; [|done]. split; [done|]. unfold is_u8. simpl. lia. Qed.
Lemma w_bytes : Forall is_u8 w_data.
Proof. repeat (constructor; [unfold is_u8; lia|]). constructor. Qed.

Lemma control_write_safe_witness :
  match @Endpoint_Write_Control_Stream_LE unit some_chip w_data 10 w_device [In 0; Vbus false] with
  | Fault => False
  | Hang => True
  | Ok (err, s', _) => exists e' P, at_ep 0 e' s' /\ taken e' = [] ++ P /\
      P `prefix_of` [[1; 2; 3; 4; 5; 6; 7; 8]; [9; 10]] /\ truthful err (RXOUTI e' = true) e' s'
  end.
Proof.
  apply (@control_write_safe unit some_chip w_data 10 w_device control_endpoint).
  - exact w_usable.
  - reflexivity.
  - simpl; lia.
  - simpl; lia.
  - exact w_bytes.
  - repeat constructor; discriminate.
Defined.

Lemma control_write_delivers_witness :
  exists s', @Endpoint_Write_Control_Stream_LE unit some_chip w_data 10 w_device ([In 0; In 0] ++ Out 0 [] :: [])
      = Ok (CtrlNoError, s', []) /\
    status_seen 0 control_endpoint [[1; 2; 3; 4; 5; 6; 7; 8]; [9; 10]] w_device s'.
Proof.
  apply (@control_write_delivers unit some_chip w_data 10 w_device control_endpoint [In 0; In 0] []).
  - exact w_usable.
  - intros i _. reflexivity.
  - split; discriminate.
  - by repeat split.
  - simpl; lia.
  - simpl; lia.
  - exact w_bytes.
  - reflexivity.
Defined.
End UsbStream.
