(* ===== verification/UsbAccess.v ===== *)
(** * The remaining accessors of endpoints and device (Endpoint_AVR8.h, Device_AVR8.h, Device_AVR8.c)

    Words in both byte orders, queued banks, interrupt flags, frame events and remote wake-up. *)

From S2P Require Import Prelude.
From S2P Require Import Usb.
From S2P Require Import UsbStream.
From S2P Require Import UsbController.
From Stdlib Require Import Lia ZArith.
Import Usb UsbStream UsbController.

#[local] Open Scope Z_scope.

Module UsbAccess.

Section Access.
Context {App : Type} `{UsbChip}.
Implicit Types (s : usb App) (e : endpoint).
#[local] Abbreviation Op := (Op (App:=App)).

(** ** Words *)

Definition Endpoint_Read_16_BE : Op Z := b1 ← Endpoint_Read_8; b0 ← Endpoint_Read_8; mret (b0 + 256 * b1).
Definition Endpoint_Read_32_BE : Op Z := w1 ← Endpoint_Read_16_BE; w0 ← Endpoint_Read_16_BE; mret (w0 + 65536 * w1).
Definition Endpoint_Write_16_BE (Data : Z) : Op unit :=
  _ ← Endpoint_Write_8 (Z.shiftr Data 8); Endpoint_Write_8 (Z.land Data 255).
Definition Endpoint_Write_32_BE (Data : Z) : Op unit :=
  _ ← Endpoint_Write_8 (Z.shiftr Data 24); _ ← Endpoint_Write_8 (Z.shiftr Data 16);
  _ ← Endpoint_Write_8 (Z.shiftr Data 8); Endpoint_Write_8 (Z.land Data 255).
Definition Endpoint_Discard_16 : Op unit := _ ← Endpoint_Discard_8; Endpoint_Discard_8.
Definition Endpoint_Discard_32 : Op unit :=
  _ ← Endpoint_Discard_8; _ ← Endpoint_Discard_8; _ ← Endpoint_Discard_8; Endpoint_Discard_8.

(** ** Banks *)

(** [NBUSYBK]: the banks that wait for the host or hold a packet of it. *)
Definition Endpoint_GetBusyBanks s : Z :=
  Z.of_nat (if Z.testbit (UECFG0X (cur s)) EPDIR then length (armed (cur s)) else length (received (cur s))).
(** On an IN endpoint the bit that is [RXOUTI] elsewhere kills the bank that was queued last; the
    controller clears it when it has done so. *)
Definition kill_bank s : usb App := on_cur (fun e => e <| armed ::= @removelast (list Z) |>) s.
Fixpoint abort_loop (fuel : nat) s : res (usb App) :=
  if Endpoint_GetBusyBanks s =? 0 then Ok s
  else match fuel with O => Hang | S fuel' => abort_loop fuel' (kill_bank s) end.
Definition Endpoint_AbortPendingIN s : res (usb App) := abort_loop (length (armed (cur s))) s.
Definition Endpoint_SetEndpointDirection (DirectionMask : Z) s : usb App :=
  on_cur (fun e => e <| UECFG0X ::= fun r => Z.lor (cbi r EPDIR) (if negb (DirectionMask =? 0) then BV EPDIR else 0) |>) s.

(** ** Interrupts and frames *)

Definition Endpoint_GetEndpointInterrupts s : Z := UEINT s.
Definition Endpoint_HasEndpointInterrupted (Address : Z) s : bool :=
  negb (Z.land (Endpoint_GetEndpointInterrupts s) (BV (Z.land Address ENDPOINT_EPNUM_MASK)) =? 0).
Definition USB_Device_GetFrameNumber s : Z := UDFNUM s.
Definition USB_Device_EnableSOFEvents s : usb App := USB_INT_Enable SOFI s.
Definition USB_Device_DisableSOFEvents s : usb App := USB_INT_Disable SOFI s.

(** The wake-up signal: the loops wait for the phase-locked loop, which locks once it is on, and for
    the controller, which clears the bit when the signal has been sent. *)
Definition USB_Device_SendRemoteWakeup (c : controller App) : controller App :=
  let c := USB_CLK_Unfreeze (c <| dev ::= USB_PLL_On |>) in
  c <| UDCON ::= fun r => cbi (sbi r RMWKUP) RMWKUP |>.

(** ** Facts *)

Fixpoint writes (bs : list Z) : Op unit := match bs with [] => mret tt | b :: bs' => _ ← Endpoint_Write_8 b; writes bs' end.
Fixpoint reads_all (n : nat) : Op (list Z) :=
  match n with O => mret [] | S n' => b ← Endpoint_Read_8; bs ← reads_all n'; mret (b :: bs) end.

Lemma writes_ok n : forall bs e s, at_ep n e s -> TXINI e = true -> (length (filling e) + length bs <= bank_size e)%nat ->
  Forall is_u8 bs -> exists s', writes bs s = Ok (tt, s') /\ at_ep n (e <| filling ::= fun l => l ++ bs |>) s'.
Proof using Type.
  induction bs as [|b bs IH]; intros e s Ha Ht Hl Hb; simpl.
  - exists s. split; [done|]. by rewrite filling_nil.
  - apply Forall_cons_1 in Hb as [Hb0 Hb]. simpl in Hl. unfold mbind, Op_bind. rewrite (bank_write_ok n e s b Ha Ht ltac:(lia) Hb0).
    pose proof (at_on_cur n e s (fun e => e <| filling ::= fun l => l ++ [b] |>) Ha) as Ha1.
    destruct (IH _ _ Ha1) as (s' & Hs & Ha2); try done.
    { simpl. rewrite length_app. simpl. change (bank_size _) with (bank_size e). lia. }
    exists s'. split; [done|]. destruct e. unfold set_field in *. simpl in *. by rewrite <- app_assoc in Ha2.
Qed.
Lemma reads_ok n ps : forall bs rest e s, at_ep n e s -> RXSTPI e = false -> received e = (bs ++ rest) :: ps ->
  exists s', reads_all (length bs) s = Ok (bs, s') /\ at_ep n (e <| received := rest :: ps |>) s'.
Proof using Type.
  induction bs as [|b bs IH]; intros rest e s Ha Hx Hr.
  - exists s. split; [done|]. change ([] ++ rest) with rest in Hr. rewrite <- Hr. by destruct e.
  - rewrite <- app_comm_cons in Hr.
    pose proof (at_on_cur n e s (fun e => e <| received := (bs ++ rest) :: ps |>) Ha) as Ha1.
    destruct (IH rest _ _ Ha1) as (s' & Hs & Ha2); try done. exists s'. split; [|by destruct e].
    cbn [reads_all length]. unfold mbind, Op_bind, Endpoint_Read_8. rewrite (at_cur _ _ _ Ha), Hx, Hr. by rewrite Hs.
Qed.

Lemma write_u8 b : Endpoint_Write_8 b = Endpoint_Write_8 (App:=App) (u8 b).
Proof using Type. unfold Endpoint_Write_8. by rewrite (u8_small (u8 b)) by apply u8_range. Qed.

(** The bytes of a word, the lowest first. *)
Definition word_bytes (w : Z) : list Z := [u8 w; u8 (w / 256); u8 (w / 65536); u8 (w / 16777216)].
Lemma word_bytes_u8 w : Forall is_u8 (word_bytes w).
Proof using Type. repeat constructor; apply u8_range. Qed.
Lemma word_value w : is_u32 w -> u8 w + 256 * u8 (w / 256) + 65536 * (u8 (w / 65536) + 256 * u8 (w / 16777216)) = w.
Proof using Type. intros Hw. words. Qed.

Lemma write_32 w : is_u32 w ->
  (forall s, Endpoint_Write_32_LE w s = writes (word_bytes w) s) /\ (forall s, Endpoint_Write_32_BE w s = writes (rev (word_bytes w)) s).
Proof using Type.
  intros Hw. assert (u8 (Z.land w 255) = u8 w) as E0 by (change 255 with (Z.ones 8); rewrite Z.land_ones by lia; words).
  assert (forall n, 0 <= n -> Z.shiftr w n = w / 2 ^ n) as Es by (intros n Hn; by apply Z.shiftr_div_pow2).
  unfold Endpoint_Write_32_LE, Endpoint_Write_32_BE, word_bytes. rewrite !Es by lia.
  change (2 ^ 8) with 256. change (2 ^ 16) with 65536. change (2 ^ 24) with 16777216.
  rewrite (write_u8 (Z.land w 255)), (write_u8 (w / 256)), (write_u8 (w / 65536)), (write_u8 (w / 16777216)), E0.
  assert (forall (o : Op unit) s, (_ ← o; mret tt) s = o s) as Hr.
  { intros o s. unfold mbind, Op_bind. by destruct (o s) as [[[] s']| |]. }
  split; intros s; simpl; unfold mbind, Op_bind;
    repeat (match goal with |- context [Endpoint_Write_8 ?b ?x] => destruct (Endpoint_Write_8 b x) as [[[] ?]| |]; try done end).
Qed.
Lemma read_32 n ps rest w e s : is_u32 w -> at_ep n e s -> RXSTPI e = false ->
  (received e = (word_bytes w ++ rest) :: ps ->
   exists s', Endpoint_Read_32_LE s = Ok (w, s') /\ at_ep n (e <| received := rest :: ps |>) s') /\
  (received e = (rev (word_bytes w) ++ rest) :: ps ->
   exists s', Endpoint_Read_32_BE s = Ok (w, s') /\ at_ep n (e <| received := rest :: ps |>) s').
Proof using Type.
  intros Hw Ha Hx.
  assert (forall s b0 b1 b2 b3 s', reads_all 4 s = Ok ([b0; b1; b2; b3], s') ->
    Endpoint_Read_32_LE s = Ok (b0 + 256 * b1 + 65536 * (b2 + 256 * b3), s') /\
    Endpoint_Read_32_BE s = Ok (b3 + 256 * b2 + 65536 * (b1 + 256 * b0), s')) as Hall.
  { intros s0 b0 b1 b2 b3 s'. unfold Endpoint_Read_32_LE, Endpoint_Read_16_LE, Endpoint_Read_32_BE, Endpoint_Read_16_BE. simpl. unfold mbind, Op_bind, mret, Op_ret.
    repeat (match goal with |- context [Endpoint_Read_8 ?x] => destruct (Endpoint_Read_8 x) as [[? ?]| |]; try done end).
    intros Hm. by injection Hm as -> -> -> -> ->. }
  split; intros Hr; destruct (reads_ok n ps _ rest e s Ha Hx Hr) as (s' & Hs & Ha'); simpl in Hs;
    destruct (Hall _ _ _ _ _ _ Hs) as [H1 H2]; exists s'; (split; [|done]).
  - by rewrite H1, word_value.
  - by rewrite H2, word_value.
Qed.
Lemma abort_ok : forall fuel n e s, at_ep n e s -> Z.testbit (UECFG0X e) EPDIR = true -> (length (armed e) <= fuel)%nat ->
  exists s', abort_loop fuel s = Ok s' /\ at_ep n (e <| armed := [] |>) s'.
Proof using Type.
  assert (forall s n e, at_ep n e s -> Z.testbit (UECFG0X e) EPDIR = true -> Endpoint_GetBusyBanks s = Z.of_nat (length (armed e))) as Hb.
  { intros s n e Ha Hd. unfold Endpoint_GetBusyBanks. by rewrite (at_cur _ _ _ Ha), Hd. }
  assert (forall n e s, at_ep n e s -> armed e = [] -> at_ep n (e <| armed := [] |>) s) as Hd0.
  { intros n e s Ha He. destruct e. unfold set_field. simpl in *. by subst. }
  induction fuel as [|fuel IH]; intros n e s Ha Hd Hf; simpl; rewrite (Hb s n e Ha Hd).
  - destruct (armed e) eqn:Ea; [|simpl in Hf; lia]. exists s. split; [done|]. by apply Hd0.
  - destruct (Z.eqb_spec (Z.of_nat (length (armed e))) 0) as [Hz|Hz].
    + exists s. split; [done|]. apply Hd0; [done|]. destruct (armed e); [done|simpl in Hz; lia].
    + pose proof (at_on_cur n e s (fun e => e <| armed ::= @removelast (list Z) |>) Ha) as Ha1.
      assert (length (removelast (armed e)) = pred (length (armed e))) as Hl.
      { destruct (armed e) as [|p l]; [done|]. rewrite (app_removelast_last p (l:=p :: l)) at 2 by done. rewrite length_app. simpl. lia. }
      destruct (IH n _ _ Ha1) as (s' & Hs & Ha2); [done|simpl; rewrite Hl; lia|]. exists s'. split; [exact Hs|]. by destruct e.
Qed.
End Access.

(** ** Theorem *)

(** Words written to a bank and sent to a host that sends them back are the words read, in either byte
    order, whatever follows them in the packet; the two orders are the reverse of each other; and aborting the
    packets that are queued for the host ends with none left. *)
Theorem words_round_trip {App} w n m e e2 rest ps (s s2 : usb App) :
  is_u32 w -> at_ep n e s -> TXINI e = true -> (length (filling e) + 4 <= bank_size e)%nat ->
  at_ep m e2 s2 -> RXSTPI e2 = false ->
  exists bytes, length bytes = 4%nat /\
    (exists s', Endpoint_Write_32_LE w s = Ok (tt, s') /\ at_ep n (e <| filling ::= fun l => l ++ bytes |>) s') /\
    (exists s', Endpoint_Write_32_BE w s = Ok (tt, s') /\ at_ep n (e <| filling ::= fun l => l ++ rev bytes |>) s') /\
    (received e2 = (bytes ++ rest) :: ps ->
     exists s', Endpoint_Read_32_LE s2 = Ok (w, s') /\ at_ep m (e2 <| received := rest :: ps |>) s') /\
    (received e2 = (rev bytes ++ rest) :: ps ->
     exists s', Endpoint_Read_32_BE s2 = Ok (w, s') /\ at_ep m (e2 <| received := rest :: ps |>) s') /\
    (Z.testbit (UECFG0X e) EPDIR = true -> exists s', Endpoint_AbortPendingIN s = Ok s' /\ at_ep n (e <| armed := [] |>) s').
Proof.
  intros Hw Ha Ht Hl Ha2 Hx. exists (word_bytes w). destruct (write_32 (App:=App) w Hw) as [HL HB]. split; [done|].
  split; [rewrite HL; apply writes_ok; try done; apply word_bytes_u8|].
  split; [rewrite HB; apply writes_ok; try done; apply Forall_rev, word_bytes_u8|].
  destruct (read_32 m ps rest w e2 s2 Hw Ha2 Hx) as [HRL HRB]. split; [done|]. split; [done|].
  intros Hd. unfold Endpoint_AbortPendingIN. rewrite (at_cur _ _ _ Ha). by apply abort_ok.
Qed.

Definition w_bank : endpoint := mkEndpoint true false false 129 (BV ALLOC) 0 [] [] [[1]; [2]] [] [[4; 3; 2; 1; 9]] false.
Definition w_state : usb unit := fresh_device (w_bank <| armed := [] |>) no_request tt.
Lemma words_round_trip_witness :
  exists s', Endpoint_Read_32_LE w_state = Ok (16909060, s') /\ at_ep 0 (w_bank <| armed := [] |> <| received := [[9]] |>) s'.
Proof.
  destruct (words_round_trip 16909060 0 0 (w_bank <| armed := [] |>) (w_bank <| armed := [] |>) [9] [] w_state w_state)
    as (bytes & Hl & (s1 & H1 & H2) & _ & H3 & _).
  - unfold is_u32; lia.
  - split; reflexivity.
  - reflexivity.
  - vm_compute; lia.
  - split; reflexivity.
  - reflexivity.
  - assert (bytes = [4; 3; 2; 1]) as ->.
    { destruct H2 as [_ H2]. vm_compute in H1. injection H1 as <-. vm_compute in H2. by injection H2. }
    destruct (H3 eq_refl) as (s' & H4 & H5). exists s'. split; [exact H4|exact H5].
Defined.
End UsbAccess.
