(* ===== verification/UsbTransfer.v ===== *)
(** * Data transfers

    Facts about the endpoint driver that hold for every application: the wait for a bank ends
    within a hundred and one frames ([wait_rule]); an IN endpoint gives the host what was written
    to it, in order ([wire]); an OUT endpoint gives the firmware what the host sent, in order
    ([inbox]); and the data streams over both. Time is counted in changes of the frame number,
    which is what [Endpoint_WaitUntilReady] counts. *)

From S2P Require Import Prelude.
From S2P Require Import Usb.
From S2P Require Import UsbStream.
From Stdlib Require Import Lia ZArith.
Import Usb UsbStream.

#[local] Open Scope Z_scope.

Module UsbTransfer.

(** Frame numbers that differ from the one before, from [prev] on. *)
Definition frame_of (prev : Z) (ev : bus_event) : Z := match ev with Frame m => m | _ => prev end.
Definition differs (a b : Z) : nat := if a =? b then 0 else 1.
Fixpoint changes (prev : Z) (evs : list bus_event) : nat :=
  match evs with
  | [] => 0
  | ev :: evs' => (differs (frame_of prev ev) prev + changes (frame_of prev ev) evs')%nat
  end.

Lemma differs_le a b : (differs a b <= 1)%nat.
Proof. unfold differs. case_if; lia. Qed.

(** The packets the host sends to endpoint [n]. *)
Definition outs (n : Z) (evs : list bus_event) : list (list Z) :=
  flat_map (fun ev => match ev with
                      | Out m data => if decide (Z.to_nat n = Z.to_nat m) then [data] else []
                      | _ => []
                      end) evs.

Abbreviation no_reset evs := (Forall (fun ev => ev <> BusReset) evs).

(** Frames a wait lasts at most. *)
Definition WAIT : nat := S (Z.to_nat USB_STREAM_TIMEOUT_MS).
Arguments WAIT : simpl never.

Lemma sublist_Forall {A} (P : A -> Prop) l l' : l `sublist_of` l' -> Forall P l' -> Forall P l.
Proof. induction 1; intros Hf; [done|..]; apply Forall_cons_1 in Hf as [H1 H2]; [constructor|]; auto. Qed.

Section Transfers.
Context {App : Type} `{UsbChip}.
Implicit Types (s : usb App) (e : endpoint).

(** ** Frame numbers *)

Lemma configure_loop_UDFNUM n : forall i Number c0 c1 s,
  UDFNUM (snd (configure_loop n i Number c0 c1 s)) = UDFNUM s.
Proof.
  induction n as [|n IH]; intros; [done|]. cbn [configure_loop]. cbv zeta.
  repeat case_if; try done; by rewrite IH.
Qed.

Lemma vects_UDFNUM s : UDFNUM (USB_GEN_vect s) = UDFNUM s.
Proof.
  unfold USB_GEN_vect.
  assert (forall s, UDFNUM (vect_reset s) = UDFNUM s) as Hr.
  { intros s0. unfold vect_reset. case_if; [|done]. unfold Endpoint_ConfigureEndpoint. case_if; [done|].
    destruct (Endpoint_BytesToEPSizeMask _); [|done..]. cbn [mbind res_bind mret res_ret].
    unfold Endpoint_ConfigureEndpoint_Prv.
    match goal with |- context [configure_loop ?n ?i ?m ?a ?b ?x] =>
      pose proof (configure_loop_UDFNUM n i m a b x) as Hc; destruct (configure_loop n i m a b x) end.
    exact Hc. }
  rewrite Hr. unfold vect_wakeup, vect_suspend, vect_vbus, vect_sof, USB_PLL_On, USB_PLL_Off.
  repeat case_if; done.
Qed.

Lemma tick_UDFNUM ev s : UDFNUM (tick ev s) = frame_of (UDFNUM s) ev.
Proof. unfold tick. rewrite vects_UDFNUM. by destruct ev. Qed.

(** ** The wait for a bank *)

(** What holds while events pass. *)
Definition stable (I : list bus_event -> usb App -> Prop) : Prop :=
  forall ev evs s, I (ev :: evs) s -> I evs (tick ev s).

Lemma stable_and I I' : stable I -> stable I' -> stable (fun evs s => I evs s /\ I' evs s).
Proof. intros HI HI' ev evs s [H1 H2]. split; [by apply HI|by apply HI']. Qed.

(** The result of a wait tells the state: whether the bank is ready, and if not, why the wait
    ended. *)
Definition bank_ready s : bool :=
  if Endpoint_GetEndpointDirection s =? ENDPOINT_DIR_IN then Endpoint_IsINReady s else Endpoint_IsOUTReceived s.
Definition told (err : ep_error) s : Prop :=
  bank_ready s = bool_decide (err = NoError) /\
  match err with
  | EndpointStalled => Endpoint_IsStalled s = true
  | DeviceDisconnected => USB_DeviceState s = Unattached
  | BusSuspended => USB_DeviceState s = Suspended
  | NoError | Timeout => True
  | IncompleteTransfer => False
  end.

(** A computation that keeps [I] and ends within [k] frames, if so many are to come. *)
Definition within {A} (k : nat) (I : A -> list bus_event -> usb App -> Prop) s evs
  (r : res (A * usb App * list bus_event)) : Prop :=
  match r with
  | Fault => False
  | Hang => (changes (UDFNUM s) evs < k)%nat
  | Ok (a, s', evs') => I a evs' s' /\ (length evs' <= length evs)%nat /\
      (changes (UDFNUM s) evs <= k + changes (UDFNUM s') evs')%nat
  end.

(** Work done after [d] frames. *)
Lemma within_after {A} d k k' (I I' : A -> list bus_event -> usb App -> Prop) s s1 evs evs1 r :
  within k I s1 evs1 r -> (changes (UDFNUM s) evs <= d + changes (UDFNUM s1) evs1)%nat ->
  (length evs1 <= length evs)%nat -> (d + k <= k')%nat ->
  (forall a evs s, I a evs s -> I' a evs s) -> within k' I' s evs r.
Proof.
  intros Hw Hc Hl Hk HI. destruct r as [[[a s'] evs']| |]; simpl in *; [|done|lia].
  destruct Hw as (Hi & Hl' & Hc'). split; [by apply HI|]. lia.
Qed.

Lemma within_ret {A} k (I : A -> list bus_event -> usb App -> Prop) a s s' evs :
  I a evs s' -> UDFNUM s' = UDFNUM s -> within k I s evs (Ok (a, s', evs)).
Proof. intros Hi Hu. simpl. rewrite Hu. split; [done|]. lia. Qed.

Lemma within_done {A} k (I : A -> list bus_event -> usb App -> Prop) a s s' evs evs' :
  I a evs' s' -> (length evs' <= length evs)%nat ->
  (changes (UDFNUM s) evs <= k + changes (UDFNUM s') evs')%nat -> within k I s evs (Ok (a, s', evs')).
Proof. done. Qed.

Lemma within_start {A} s1 k (I : A -> list bus_event -> usb App -> Prop) s evs r :
  within k I s1 evs r -> UDFNUM s1 = UDFNUM s -> within k I s evs r.
Proof. intros Hw Hu. unfold within in *. by rewrite <- Hu. Qed.

Lemma within_bind {A B} k1 k2 (I : A -> list bus_event -> usb App -> Prop) (I' : B -> list bus_event -> usb App -> Prop)
  (m : M (App:=App) A) (f : A -> M (App:=App) B) s evs :
  within k1 I s evs (m s evs) -> (forall a s1 evs1, I a evs1 s1 -> within k2 I' s1 evs1 (f a s1 evs1)) ->
  within (k1 + k2) I' s evs ((m ≫= f) s evs).
Proof.
  intros Hm Hf. unfold mbind, M_bind. destruct (m s evs) as [[[a s1] evs1]| |]; simpl in Hm; [|done|simpl; lia].
  destruct Hm as (Hi & Hl & Hc). eapply (within_after k1); [by apply Hf|done..].
Qed.

Lemma spin_ready I : stable I -> forall evs s rem prev,
  I evs s -> is_u8 rem ->
  let due := (differs (UDFNUM s) prev + changes (UDFNUM s) evs)%nat in
  match spin ready_turn (rem, prev) s evs with
  | Fault => False
  | Hang => (due <= Z.to_nat rem)%nat
  | Ok (err, s', evs') => I evs' s' /\ told err s' /\ (length evs' <= length evs)%nat /\
      (due <= S (Z.to_nat rem) + changes (UDFNUM s') evs')%nat /\
      (err = Timeout -> due = S (Z.to_nat rem) + changes (UDFNUM s') evs')%nat
  end.
Proof.
  intros HI. induction evs as [|ev evs IH]; intros s rem prev Hi Hrem; cbv zeta; rewrite spin_eq; unfold ready_turn;
    change (if Endpoint_GetEndpointDirection s =? ENDPOINT_DIR_IN then _ else _) with (bank_ready s);
    pose proof (differs_le (UDFNUM s) prev).
  all: destruct (bank_ready s) eqn:Eready; [split_and!; done || lia|].
  all: destruct (decide (USB_DeviceState s = Unattached)); [split_and!; done || lia|].
  all: destruct (decide (USB_DeviceState s = Suspended)); [split_and!; done || lia|].
  all: destruct (Endpoint_IsStalled s) eqn:Est; [split_and!; done || lia|].
  all: unfold differs; unfold is_u8 in Hrem; destruct (Z.eqb_spec (UDFNUM s) prev) as [Heq|Hne]; cbn [negb]; cbv iota.
  - simpl. lia.
  - destruct (Z.eqb_spec rem 0); simpl; [split_and!; done || lia|lia].
  - specialize (IH (tick ev s) rem prev (HI _ _ _ Hi) Hrem). cbv zeta in IH. subst prev. rewrite tick_UDFNUM in IH.
    simpl. destruct (spin _ _ _ _) as [[[err s'] evs']| |]; [|done..].
    destruct IH as (H1 & H2 & H3 & H4 & H5). split_and!; done || lia.
  - destruct (Z.eqb_spec rem 0); [simpl; split_and!; done || lia|].
    specialize (IH (tick ev s) (u8 (rem - 1)) (UDFNUM s) (HI _ _ _ Hi) (u8_range _)). cbv zeta in IH.
    rewrite tick_UDFNUM in IH. rewrite u8_small in * by (unfold is_u8; lia). simpl.
    destruct (spin _ _ _ _) as [[[err s'] evs']| |]; [|done|lia].
    destruct IH as (H1 & H2 & H3 & H4 & H5). split_and!; try done; [lia..|]. intros He. specialize (H5 He). lia.
Qed.

(** The wait keeps what is stable, ends within [WAIT] frames, and tells the state truly; a timeout
    takes all of them. *)
Lemma wait_rule I s evs : stable I -> I evs s ->
  within WAIT (fun err evs' s' => I evs' s' /\ told err s' /\ (length evs' < length evs)%nat /\
    (err = Timeout -> changes (UDFNUM s) evs = WAIT + changes (UDFNUM s') evs')%nat) s evs
    (Endpoint_WaitUntilReady s evs).
Proof.
  intros HI Hi. unfold Endpoint_WaitUntilReady. destruct evs as [|ev evs]; [unfold WAIT; simpl; lia|].
  pose proof (spin_ready I HI evs (tick ev s) USB_STREAM_TIMEOUT_MS (UDFNUM s) (HI _ _ _ Hi)) as Hs. cbv zeta in Hs.
  rewrite tick_UDFNUM in Hs. specialize (Hs ltac:(by compute)). unfold within, WAIT. simpl changes. simpl length.
  destruct (spin _ _ _ _) as [[[err s'] evs']| |]; [|done|lia].
  destruct Hs as (H1 & H2 & H3 & H4 & H5). split_and!; try done; lia.
Qed.

(** Two changes that agree on the selected endpoint. *)
Lemma on_cur_ext n e s f g : at_ep n e s -> f e = g e -> on_cur f s = on_cur g s.
Proof.
  intros [Hu He] Hfg. assert (alter f (Z.to_nat (UENUM s)) (eps s) = alter g (Z.to_nat (UENUM s)) (eps s)) as Heq.
  { apply list_eq. intros i. rewrite Hu. destruct (decide (Z.to_nat n = i)) as [<-|Hne].
    - rewrite !list_lookup_alter_eq, He. simpl. by rewrite Hfg.
    - by rewrite !list_lookup_alter_ne. }
  unfold on_cur, on_ep, set_field. simpl. by rewrite Heq.
Qed.

Lemma bank_size_8 e : (8 <= bank_size e)%nat.
Proof.
  unfold bank_size. rewrite Z.shiftl_mul_pow2; [|apply Z.land_nonneg; lia].
  assert (0 < 2 ^ Z.land (Z.shiftr (UECFG1X e) EPSIZE0) 7); [|lia].
  apply Z.pow_pos_nonneg; [lia|apply Z.land_nonneg; lia].
Qed.

(** ** IN endpoints *)

(** All bytes given to an IN endpoint: collected by the host, handed over to the controller, and
    those in the bank that is being filled. That none are left there is said apart from this. *)
Definition wire e : list Z := concat (taken e) ++ concat (armed e) ++ filling e.
(** The bank does not overflow, and is empty while the controller has all banks. *)
Definition fifo_ok e : Prop :=
  Z.testbit (UECFG0X e) EPDIR = true /\ (length (filling e) <= bank_size e)%nat /\
  (TXINI e = false -> filling e = []).

Lemma act_wire n ev e : 0 < n -> fifo_ok e -> wire (act n ev e) = wire e /\ fifo_ok (act n ev e) /\
  filling (act n ev e) = filling e.
Proof.
  intros Hn Hf. destruct ev; simpl; try done; case_decide; try done; [lia|..].
  - unfold take_out. case_if; [|done]. by destruct e.
  - unfold give_in. destruct (armed e) as [|p ps] eqn:Ea; [done|]. case_if; [|done].
    split; [|split; [|done]].
    + unfold wire. simpl. rewrite Ea, concat_app. simpl. by rewrite app_nil_r, <- !app_assoc.
    + destruct Hf as (H1 & H2 & H3). split; [done|]. split; [done|]. unfold TXINI in *. simpl. rewrite Ea in H3. simpl in H3.
      intros Ht. apply H3. apply Nat.ltb_ge in Ht. apply Nat.ltb_ge. change (banks _) with (banks e) in Ht. lia.
Qed.

(** Handing over the bank. *)
Definition hand_over e : endpoint :=
  if TXINI e then e <| armed ::= fun l => l ++ [filling e] |> <| filling := [] |> else e.
Lemma hand_over_ok e : fifo_ok e -> fifo_ok (hand_over e) /\ wire (hand_over e) = wire e /\ filling (hand_over e) = [].
Proof.
  intros (H1 & H2 & H3). unfold hand_over. destruct (TXINI e) eqn:E.
  - split; [|split; [|done]].
    + split; [done|]. split; [simpl; lia|done].
    + unfold wire. simpl. rewrite concat_app. simpl. by rewrite !app_nil_r.
  - split; [exact (conj H1 (conj H2 (fun _ => H3 eq_refl)))|]. split; [done|]. by apply H3.
Qed.

(** The IN endpoint [n] is selected; [w] has been written to it, of which [f] is in the bank; [K]
    is the state but for the endpoints, and no bus reset is to come. *)
Definition in_state (n : Z) (w f : list Z) K (evs : list bus_event) s : Prop :=
  exists e, at_ep n e s /\ fifo_ok e /\ wire e = w /\ filling e = f /\ steady s = K /\
    fires EORSTI s = false /\ no_reset evs.

Lemma in_state_stable n w f K : 0 < n -> stable (in_state n w f K).
Proof.
  intros Hn ev evs s (e & Ha & Hf & Hw & Hfl & Hk & Hr & Hev). apply Forall_cons_1 in Hev as [Hv Hev].
  destruct (act_wire n ev e Hn Hf) as (Hw' & Hf' & Hfl'). destruct (tick_steady ev s Hv Hr) as [Hst _].
  exists (act n ev e). split_and!; try done; [by apply at_tick|congruence..|]. injection Hst. congruence.
Qed.

(** A bank is handed over. *)
Lemma in_clear n w f K evs s : in_state n w f K evs s -> in_state n w [] K evs (Endpoint_ClearIN s).
Proof.
  intros (e & Ha & Hf & Hw & Hfl & Hk & Hr & Hev). destruct (hand_over_ok e Hf) as (Hf' & Hw' & Hfl').
  exists (hand_over e). split_and!; try done; [|congruence]. by apply (at_on_cur n e s hand_over).
Qed.

(** A byte is written to the bank. *)
Lemma in_write n w f K evs s b : in_state n w f K evs s -> Endpoint_IsReadWriteAllowed s = true -> is_u8 b ->
  let s' := on_cur (fun e => e <| filling ::= fun l => l ++ [b] |>) s in
  Endpoint_Write_8 b s = Ok (tt, s') /\ in_state n (w ++ [b]) (f ++ [b]) K evs s'.
Proof.
  intros (e & Ha & (Hd & Hl & Ht) & Hw & Hfl & Hk & Hr & Hev) Hrw Hb s'. unfold Endpoint_IsReadWriteAllowed, RWAL in Hrw.
  rewrite (at_cur _ _ _ Ha), Hd in Hrw. apply andb_prop in Hrw as [Etx El%Nat.ltb_lt].
  split; [by apply (bank_write_ok n e)|].
  exists (e <| filling ::= fun l => l ++ [b] |>). split_and!; try done.
  - by apply (at_on_cur n e s (fun e => e <| filling ::= fun l => l ++ [b] |>)).
  - split; [done|]. split; [|intros Hx; change (TXINI e = false) in Hx; congruence].
    simpl. rewrite length_app. simpl. change (bank_size _) with (bank_size e). lia.
  - subst. unfold wire. simpl. by rewrite <- !app_assoc.
  - simpl. by rewrite Hfl.
Qed.

(** After a wait without error an empty bank takes bytes. *)
Lemma in_told n w K evs s : in_state n w [] K evs s -> told NoError s -> Endpoint_IsReadWriteAllowed s = true.
Proof.
  intros (e & Ha & (Hd & Hl & Ht) & Hw & Hfl & _) [Htold _]. revert Htold.
  unfold bank_ready, Endpoint_GetEndpointDirection, Endpoint_IsINReady, Endpoint_IsReadWriteAllowed, RWAL.
  rewrite (at_cur _ _ _ Ha), Hd. change (ENDPOINT_DIR_IN =? ENDPOINT_DIR_IN) with true. cbv iota. intros ->.
  rewrite Hfl. simpl. apply Nat.ltb_lt. apply bank_size_pos.
Qed.

(** ** OUT endpoints *)

(** The OUT endpoint [n] is selected; the firmware has read [got], and what it has read and what
    is in the banks is what was there at first, [r0], and some of the packets that the host has
    sent since in the events [evs0]; [q] bounds the packets in the banks and to come. *)
Definition out_state (n : Z) (got r0 : list Z) evs0 (q : nat) K (evs : list bus_event) s : Prop :=
  exists e used P, at_ep n e s /\ Z.testbit (UECFG0X e) EPDIR = false /\ RXSTPI e = false /\
    evs0 = used ++ evs /\ P `sublist_of` outs n used /\ got ++ concat (received e) = r0 ++ concat P /\
    (length (received e) + length (outs n evs) <= q)%nat /\ steady s = K /\
    fires EORSTI s = false /\ no_reset evs.

Lemma outs_cons n ev evs : outs n (ev :: evs) = outs n [ev] ++ outs n evs.
Proof. unfold outs. simpl. by rewrite app_nil_r. Qed.
Lemma outs_app n evs evs' : outs n (evs ++ evs') = outs n evs ++ outs n evs'.
Proof. apply flat_map_app. Qed.

(** What an event adds to an OUT endpoint. *)
Lemma act_received n ev e : 0 < n ->
  exists D, received (act n ev e) = received e ++ D /\ D `sublist_of` outs n [ev] /\
    UECFG0X (act n ev e) = UECFG0X e /\ RXSTPI (act n ev e) = RXSTPI e.
Proof.
  intros Hn. assert (exists D, received e = received e ++ D /\ D `sublist_of` outs n [ev] /\
    UECFG0X e = UECFG0X e /\ RXSTPI e = RXSTPI e) as Hnone.
  { exists []. rewrite app_nil_r. split_and!; try done. apply sublist_nil_l. }
  destruct ev; cbn [act]; try exact Hnone; case_decide as Hc; try exact Hnone; [lia|..].
  - unfold take_out, outs. simpl. rewrite decide_True by done. case_if; [by exists [data]|]. exists []. rewrite app_nil_r. split_and!; try done. apply sublist_nil_l.
  - unfold give_in. destruct (armed e); [exact Hnone|]. case_if; exact Hnone.
Qed.

Lemma out_state_stable n got r0 evs0 q K : 0 < n -> stable (out_state n got r0 evs0 q K).
Proof.
  intros Hn ev evs s (e & used & P & Ha & Hd & Hx & -> & HP & Hgot & Hq & Hk & Hr & Hev).
  apply Forall_cons_1 in Hev as [Hv Hev]. destruct (act_received n ev e Hn) as (D & HD & HDs & Hd' & Hx').
  destruct (tick_steady ev s Hv Hr) as [Hst _].
  exists (act n ev e), (used ++ [ev]), (P ++ D). rewrite HD, Hd', Hx', outs_app, !concat_app. split_and!; try done.
  - by apply at_tick.
  - by rewrite <- app_assoc.
  - by apply sublist_app.
  - by rewrite !app_assoc, Hgot.
  - apply sublist_length in HDs. rewrite outs_cons, length_app in Hq. rewrite length_app. lia.
  - congruence.
  - injection Hst. congruence.
Qed.

(** A byte is read from a bank that has one. *)
Lemma out_read n got r0 evs0 q K evs s :
  out_state n got r0 evs0 q K evs s -> Endpoint_IsReadWriteAllowed s = true ->
  exists b f, Endpoint_Read_8 s = Ok (b, on_cur f s) /\ out_state n (got ++ [b]) r0 evs0 q K evs (on_cur f s) /\
    received (cur (on_cur f s)) <> [] /\ (forall e, STALLRQ (f e) = STALLRQ e).
Proof.
  intros (e & used & P & Ha & Hd & Hx & Hevs & HP & Hgot & Hq & Hk & Hr & Hev) Hrw.
  unfold Endpoint_IsReadWriteAllowed, RWAL in Hrw. rewrite (at_cur _ _ _ Ha), Hd in Hrw.
  unfold Endpoint_Read_8. rewrite (at_cur _ _ _ Ha), Hx.
  destruct (received e) as [|[|b rest] ps] eqn:Er; [done..|].
  exists b, (fun e => e <| received := rest :: ps |>). split; [done|].
  pose proof (at_on_cur n e s (fun e => e <| received := rest :: ps |>) Ha) as Ha'. split.
  - exists (e <| received := rest :: ps |>), used, P. split_and!; try done. simpl in *. by rewrite <- app_assoc.
  - split; [by rewrite (at_cur _ _ _ Ha')|done].
Qed.

(** A bank that has nothing left is given back. *)
Lemma out_clear n got r0 evs0 q K evs s :
  out_state n got r0 evs0 q K evs s -> Endpoint_IsReadWriteAllowed s = false ->
  out_state n got r0 evs0 (if decide (received (cur s) = []) then q else pred q) K evs (Endpoint_ClearOUT s).
Proof.
  intros (e & used & P & Ha & Hd & Hx & Hevs & HP & Hgot & Hq & Hk & Hr & Hev) Hrw.
  unfold Endpoint_IsReadWriteAllowed, RWAL in Hrw. rewrite (at_cur _ _ _ Ha), Hd in Hrw. rewrite (at_cur _ _ _ Ha).
  pose proof (at_on_cur n e s (fun e => e <| received ::= tail |>) Ha) as Ha'.
  exists (e <| received ::= tail |>), used, P.
  destruct (received e) as [|[|b rest] ps] eqn:Er; [..|done]; split_and!; try done; simpl; rewrite Er; simpl in *; try done.
  lia.
Qed.

Lemma out_weaken n got r0 evs0 q q' K evs s : out_state n got r0 evs0 q K evs s -> (q <= q')%nat -> out_state n got r0 evs0 q' K evs s.
Proof. intros (e & used & P & H1 & H2 & H3 & H4 & H5 & H6 & H7 & H8) Hq. exists e, used, P. do 6 (split; [done|]). split; [lia|done]. Qed.
Lemma out_told n got r0 evs0 q K evs s :
  out_state n got r0 evs0 q K evs s -> told NoError s -> received (cur s) <> [].
Proof.
  intros (e & used & P & Ha & Hd & _) [Ht _]. revert Ht. unfold bank_ready, Endpoint_GetEndpointDirection, Endpoint_IsOUTReceived, RXOUTI.
  rewrite (at_cur _ _ _ Ha), Hd. change (0 =? ENDPOINT_DIR_IN) with false. cbv iota. by destruct (received e).
Qed.

(** ** Streams *)

Section Streams.
(** The control task finds nothing to do while [J] holds. *)
Variables (USB_USBTask : M (App:=App) unit) (J : list bus_event -> usb App -> Prop) (n : Z).
Hypothesis n_pos : 0 < n.
Hypothesis J_stable : stable J.
Hypothesis J_on_cur : forall f evs s, (forall e, STALLRQ (f e) = STALLRQ e) -> UENUM s = n -> J evs s -> J evs (on_cur f s).
Hypothesis task_idle : forall evs s, J evs s -> UENUM s = n -> USB_USBTask s evs = Ok (tt, s, evs).

(** What an error tells: how the wait ended, or that it took all its frames while [J] held. *)
Definition failed (err : ep_error) s : Prop :=
  match err with
  | Timeout => exists evs0 s0, J evs0 s0 /\ (WAIT <= changes (UDFNUM s0) evs0)%nat
  | _ => told err s
  end.
Lemma wait_failed err s evs s' (c : nat) : told err s' -> err <> NoError -> J evs s ->
  (err = Timeout -> changes (UDFNUM s) evs = WAIT + c)%nat ->
  match err with NoError | IncompleteTransfer => False | _ => failed err s' end.
Proof using Type.
  intros Ht Hne HJ Hc. pose proof Ht as [_ Htold]. destruct err; try done. exists evs, s. split; [exact HJ|]. rewrite Hc by done. lia.
Qed.

(** *** Writing *)

(** Where a stream that had [bytes] to write leaves off: [j] of them are on the wire, all of them
    if there was no error; an incomplete transfer adds their number to the caller's count. *)
Definition written (w bytes : list Z) K (p : option Z) (k : Z)
  (r : ep_error * list Z * option Z) (mem : list Z) evs s : Prop :=
  let '(err, mem', p') := r in
  exists j f, in_state n (w ++ take j bytes) f K evs s /\ J evs s /\ mem' = mem /\ (j <= length bytes)%nat /\
    match err with
    | NoError => j = length bytes /\ p' = p
    | IncompleteTransfer => exists p0, p = Some p0 /\ p' = Some (u16 (p0 + k + Z.of_nat j))
    | _ => p' = p /\ failed err s
    end.

(** Frames a loop over [l] bytes may wait for. *)
Definition patience (s : usb App) (l : nat) : nat :=
  (WAIT * (if Endpoint_IsReadWriteAllowed s then pred l else l))%nat.

(** The results of the loop as those of a stream. *)
Definition regroup (r : res (ep_error * list Z * option Z * usb App * list bus_event)) :
  res ((ep_error * list Z * option Z) * usb App * list bus_event) :=
  '(err, mem, p, s, evs) ← r; mret ((err, mem, p), s, evs).

Lemma write_transfer mem ptr s s' b :
  aget mem ptr = Some b -> Endpoint_Write_8 b s = Ok (tt, s') -> transfer_byte write_bytes mem ptr s = Ok (mem, s').
Proof. intros Hp Hw. unfold write_bytes, transfer_byte. rewrite Hp. simpl. by rewrite Hw. Qed.

Lemma patience_le s l : (patience s l <= WAIT * l)%nat.
Proof. unfold patience. case_if; nia. Qed.

Lemma patience_true s l : Endpoint_IsReadWriteAllowed s = true -> patience s (S l) = (WAIT * l)%nat.
Proof. intros Hr. unfold patience. by rewrite Hr. Qed.
Lemma patience_false s l : Endpoint_IsReadWriteAllowed s = false -> patience s (S l) = (WAIT + WAIT * l)%nat.
Proof. intros Hr. unfold patience. rewrite Hr. lia. Qed.

Lemma in_UENUM w f K evs s : in_state n w f K evs s -> UENUM s = n.
Proof. by intros (e & [Hu _] & _). Qed.

Lemma write_loop t mem p K : forall fuel bytes w f ptr k s evs,
  in_state n w f K evs s -> J evs s -> reads t mem ptr bytes -> Forall is_u8 bytes ->
  (length bytes + length evs < fuel)%nat ->
  within (patience s (length bytes)) (fun r => written w bytes K p k r mem) s evs
    (regroup (rw_loop USB_USBTask fuel write_bytes t (length bytes) ptr mem p k s evs)).
Proof.
  induction fuel as [|fuel IH]; intros bytes w f ptr k s evs Hin HJ Hr Hb Hfuel; [lia|].
  destruct bytes as [|b bytes].
  { simpl. split; [|lia]. exists 0%nat, f. rewrite app_nil_r. by split_and!. }
  cbn [rw_loop length]. cbn [length] in Hfuel. destruct (Endpoint_IsReadWriteAllowed s) eqn:Erw; cbn [negb]; cbv iota.
  - apply reads_cons in Hr as [Hp Hr]. apply Forall_cons_1 in Hb as [Hb0 Hb].
    destruct (in_write n w f K evs s b Hin Erw Hb0) as [Hw Hin1]. rewrite (write_transfer _ _ _ _ _ Hp Hw).
    cbn [mbind res_bind]. set (s1 := on_cur _ s) in *.
    assert (J evs s1) as HJ1 by (by apply J_on_cur; [..|eapply in_UENUM|]).
    eapply (within_after 0); [apply (IH bytes (w ++ [b]) (f ++ [b])); done || lia|done|done| |].
    { rewrite (patience_true s) by done. apply patience_le. }
    intros [[err mem'] p'] evs' s' (j & f' & H1 & H2 & H3 & H4 & H5).
    exists (S j), f'. rewrite <- app_assoc in H1. simpl. split_and!; try done; [lia|]. destruct err; try done.
    + destruct H5. split; [lia|done].
    + destruct H5 as (p0 & H5 & ->). exists p0. split; [done|]. f_equal. words.
  - cbn [runs_task write_bytes clear_endpoint].
    pose proof (in_clear n w f K evs s Hin) as Hin1. set (s1 := Endpoint_ClearIN s) in *.
    assert (J evs s1) as HJ1 by (apply J_on_cur; [intros x; by destruct (TXINI x)|by eapply in_UENUM|done]).
    rewrite (task_idle evs s1) by (done || by eapply in_UENUM). cbn [mbind res_bind].
    destruct p as [p0|].
    + apply (within_ret (A:=ep_error * list Z * option Z)); [|done].
      exists 0%nat, []. rewrite app_nil_r. split_and!; try done; [simpl; lia|]. exists p0. split; [done|]. f_equal. by rewrite Z.add_0_r.
    + pose proof (wait_rule _ s1 evs (stable_and _ _ (in_state_stable n w [] K n_pos) J_stable) (conj Hin1 HJ1)) as Hwait.
      destruct (Endpoint_WaitUntilReady s1 evs) as [[[err s2] evs2]| |]; cbn [mbind res_bind]; [|done|].
      2: { simpl. rewrite patience_false by done. eapply Nat.lt_le_trans; [exact Hwait|lia]. }
      destruct Hwait as ([[Hin2 HJ2] (Htold & Hl2 & Hlate)] & _ & Hc2). change (UDFNUM s1) with (UDFNUM s) in Hc2.
      destruct (decide (err = NoError)) as [->|Hne].
      * eapply (within_after WAIT); [apply (IH (b :: bytes) w []); done || (simpl; lia)|done|lia| |done].
        simpl. rewrite (patience_false s), (patience_true s2) by (done || by eapply in_told). done.
      * rewrite patience_false by done. apply (within_done (A:=ep_error * list Z * option Z)); [|lia..]. exists 0%nat, []. rewrite app_nil_r. split_and!; try done; [simpl; lia|].
        pose proof (wait_failed err s1 evs s2 _ Htold Hne HJ1 Hlate). by destruct err.
Qed.

(** A stream of [Length] bytes from the caller's count [p] on, into an IN endpoint: the bytes from
    there on go out in order, all of them unless there is an error; it ends within [WAIT] frames
    for the first bank and for every byte. *)
Lemma write_stream t mem Length p w f K s evs bytes :
  in_state n w f K evs s -> J evs s ->
  reads t mem (buffer_offset t Length + buffer_step t * default 0 p) bytes -> Forall is_u8 bytes ->
  Z.of_nat (length bytes) = u16 (Length - default 0 p) ->
  within (WAIT * S (length bytes)) (fun r => written w bytes K p 0 r mem) s evs
    (Stream_RW USB_USBTask write_bytes t mem Length p s evs).
Proof.
  intros Hin HJ Hr Hb Hlen. unfold Stream_RW.
  pose proof (wait_rule _ s evs (stable_and _ _ (in_state_stable n w f K n_pos) J_stable) (conj Hin HJ)) as Hwait.
  destruct (Endpoint_WaitUntilReady s evs) as [[[err s2] evs2]| |]; cbn [mbind res_bind]; [|done|].
  2: { eapply Nat.lt_le_trans; [exact Hwait|lia]. }
  destruct Hwait as ([[Hin2 HJ2] (Htold & Hl2 & Hlate)] & _ & Hc2). destruct (decide (err = NoError)) as [->|Hne].
  - cbv zeta. rewrite <- Hlen, Nat2Z.id.
    eapply (within_after WAIT); [eapply write_loop; try done; lia|done|lia| |done].
    pose proof (patience_le s2 (length bytes)). lia.
  - apply (within_done (A:=ep_error * list Z * option Z)); [|lia..]. exists 0%nat, f. rewrite app_nil_r.
    split_and!; try done; [lia|]. pose proof (wait_failed err s evs s2 _ Htold Hne HJ Hlate). by destruct err.
Qed.

(** *** Reading *)

(** Stores bytes where the template walks. *)
Fixpoint store (t : template) (mem : list Z) (ptr : Z) (bytes : list Z) : option (list Z) :=
  match bytes with
  | [] => Some mem
  | b :: rest => mem' ← aset mem ptr b; store t mem' (ptr + buffer_step t) rest
  end.
(** The [l] bytes the template walks over from [ptr] on are inside the memory. *)
Definition room (t : template) (mem : list Z) (ptr : Z) (l : nat) : Prop :=
  forall i, (i < l)%nat -> 0 <= ptr + buffer_step t * Z.of_nat i < Z.of_nat (length mem).

Lemma room_S t mem ptr l b : room t mem ptr (S l) ->
  exists mem', aset mem ptr b = Some mem' /\ room t mem' (ptr + buffer_step t) l.
Proof.
  intros Hr. eexists. split.
  - apply aset_Some. specialize (Hr 0%nat). lia.
  - intros i Hi. rewrite length_insert. specialize (Hr (S i)). lia.
Qed.

(** Where a stream that had [l] bytes to read leaves off: [bs] have been read and stored, all [l]
    if there was no error. *)
Definition read_up (got r0 : list Z) evs0 (q : nat) K (l : nat) t (mem : list Z) (ptr : Z) (p : option Z) (k : Z)
  (r : ep_error * list Z * option Z) evs s : Prop :=
  let '(err, mem', p') := r in
  exists bs, out_state n (got ++ bs) r0 evs0 q K evs s /\ J evs s /\ store t mem ptr bs = Some mem' /\
    (length bs <= l)%nat /\
    match err with
    | NoError => length bs = l /\ p' = p
    | IncompleteTransfer => exists p0, p = Some p0 /\ p' = Some (u16 (p0 + k + Z.of_nat (length bs)))
    | _ => p' = p /\ failed err s
    end.

Definition endurance (s : usb App) (q l : nat) : nat :=
  (WAIT * (if decide (received (cur s) = []) then l + q else pred (l + q)))%nat.
Lemma endurance_le s q l : (endurance s q l <= WAIT * (l + q))%nat.
Proof. unfold endurance. case_decide; nia. Qed.
Lemma endurance_some s q l : received (cur s) <> [] -> endurance s q l = (WAIT * pred (l + q))%nat.
Proof. intros Hr. unfold endurance. by rewrite decide_False. Qed.

Lemma read_transfer mem ptr s s' b mem' :
  Endpoint_Read_8 s = Ok (b, s') -> aset mem ptr b = Some mem' -> transfer_byte read_bytes mem ptr s = Ok (mem', s').
Proof. intros Hr Hs. unfold read_bytes, transfer_byte. rewrite Hr. simpl. by rewrite Hs. Qed.

Lemma out_UENUM got r0 evs0 q K evs s : out_state n got r0 evs0 q K evs s -> UENUM s = n.
Proof. by intros (e & used & P & [Hu _] & _). Qed.

Lemma out_bank got r0 evs0 q K evs s : out_state n got r0 evs0 q K evs s -> received (cur s) <> [] -> (0 < q)%nat.
Proof.
  intros (e & used & P & Ha & _ & _ & _ & _ & _ & Hq & _). rewrite (at_cur _ _ _ Ha).
  destruct (received e); [done|]. simpl in Hq. lia.
Qed.

Lemma rw_allowed_received got r0 evs0 q K evs s :
  out_state n got r0 evs0 q K evs s -> Endpoint_IsReadWriteAllowed s = true -> received (cur s) <> [].
Proof.
  intros (e & used & P & Ha & Hd & _). unfold Endpoint_IsReadWriteAllowed, RWAL. rewrite (at_cur _ _ _ Ha), Hd.
  by destruct (received e).
Qed.

Lemma read_loop t p r0 evs0 K : forall fuel l got q ptr mem k s evs,
  out_state n got r0 evs0 q K evs s -> J evs s -> room t mem ptr l -> (l + length evs < fuel)%nat ->
  within (endurance s q l) (read_up got r0 evs0 q K l t mem ptr p k) s evs
    (regroup (rw_loop USB_USBTask fuel read_bytes t l ptr mem p k s evs)).
Proof.
  induction fuel as [|fuel IH]; intros l got q ptr mem k s evs Hout HJ Hr Hfuel; [lia|].
  destruct l as [|l].
  { apply (within_ret (A:=ep_error * list Z * option Z)); [|done]. exists []. rewrite app_nil_r. by split_and!. }
  cbn [rw_loop]. destruct (Endpoint_IsReadWriteAllowed s) eqn:Erw; cbn [negb]; cbv iota.
  - destruct (out_read n got r0 evs0 q K evs s Hout Erw) as (b & f & Hrd & Hout1 & Hne & Hstall).
    destruct (room_S t mem ptr l b Hr) as (mem1 & Hst & Hr1). rewrite (read_transfer _ _ _ _ _ _ Hrd Hst).
    cbn [mbind res_bind]. set (s1 := on_cur f s) in *.
    assert (J evs s1) as HJ1 by (by apply J_on_cur; [..|eapply out_UENUM|]).
    eapply (within_after 0); [apply (IH l (got ++ [b]) q); done || lia|done|done| |].
    { rewrite (endurance_some s), (endurance_some s1) by (done || by eapply rw_allowed_received). nia. }
    intros [[err mem'] p'] evs' s' (bs & H1 & H2 & H3 & H4 & H5).
    exists (b :: bs). rewrite <- app_assoc in H1. cbn [store length]. rewrite Hst. split_and!; try done; [lia|].
    destruct err; try done.
    + destruct H5. split; [lia|done].
    + destruct H5 as (p0 & H5 & ->). exists p0. split; [done|]. f_equal. words.
  - cbn [runs_task read_bytes clear_endpoint].
    pose proof (out_clear n got r0 evs0 q K evs s Hout Erw) as Hout1. set (q1 := if decide _ then q else pred q) in *.
    set (s1 := Endpoint_ClearOUT s) in *.
    assert (J evs s1) as HJ1 by (by apply J_on_cur; [..|eapply out_UENUM|]).
    assert (q1 <= q)%nat as Hq1 by (unfold q1; case_decide; lia).
    assert (endurance s q (S l) = WAIT + WAIT * (l + q1))%nat as Hend.
    { unfold endurance, q1. case_decide as Hd; [nia|].
      pose proof (out_bank _ _ _ _ _ _ _ Hout Hd). destruct q; [lia|]. simpl. nia. }
    rewrite (task_idle evs s1) by (done || by eapply out_UENUM). cbn [mbind res_bind].
    destruct p as [p0|].
    + apply (within_ret (A:=ep_error * list Z * option Z)); [|done].
      exists []. rewrite app_nil_r. split_and!; try done; [by apply (out_weaken _ _ _ _ q1)|simpl; lia|]. exists p0. split; [done|]. f_equal. by rewrite Z.add_0_r.
    + pose proof (wait_rule _ s1 evs (stable_and _ _ (out_state_stable n got r0 evs0 q1 K n_pos) J_stable) (conj Hout1 HJ1)) as Hwait.
      destruct (Endpoint_WaitUntilReady s1 evs) as [[[err s2] evs2]| |]; cbn [mbind res_bind]; [|done|].
      2: { eapply Nat.lt_le_trans; [exact Hwait|lia]. }
      destruct Hwait as ([[Hout2 HJ2] (Htold & Hl2 & Hlate)] & _ & Hc2). change (UDFNUM s1) with (UDFNUM s) in Hc2.
      destruct (decide (err = NoError)) as [->|Hne].
      * eapply (within_after WAIT); [apply (IH (S l) got q1); done || lia|done|lia| |].
        { rewrite (endurance_some s2) by (by eapply out_told). rewrite Hend. done. }
        intros [[err mem'] p'] evs' s' (bs & H1 & Hrest). exists bs. split; [by apply (out_weaken _ _ _ _ q1)|exact Hrest].
      * apply (within_done (A:=ep_error * list Z * option Z)); [|lia..]. exists []. rewrite app_nil_r.
        split_and!; try done; [by apply (out_weaken _ _ _ _ q1)|simpl; lia|]. pose proof (wait_failed err s1 evs s2 _ Htold Hne HJ1 Hlate). by destruct err.
Qed.

(** A stream of [Length] bytes from the caller's count [p] on, out of an OUT endpoint: what the
    host sent is stored from there on, in order, all [l] bytes unless there is an error. It ends
    within [WAIT] frames for the first bank, for every byte and for every packet the host sends. *)
Lemma read_stream t mem Length p l got r0 evs0 q K s evs :
  out_state n got r0 evs0 q K evs s -> J evs s ->
  let ptr := buffer_offset t Length + buffer_step t * default 0 p in
  room t mem ptr l -> Z.of_nat l = u16 (Length - default 0 p) ->
  within (WAIT * S (l + q)) (read_up got r0 evs0 q K l t mem ptr p 0) s evs
    (Stream_RW USB_USBTask read_bytes t mem Length p s evs).
Proof.
  intros Hout HJ ptr Hr Hlen. unfold Stream_RW.
  pose proof (wait_rule _ s evs (stable_and _ _ (out_state_stable n got r0 evs0 q K n_pos) J_stable) (conj Hout HJ)) as Hwait.
  destruct (Endpoint_WaitUntilReady s evs) as [[[err s2] evs2]| |]; cbn [mbind res_bind]; [|done|].
  2: { eapply Nat.lt_le_trans; [exact Hwait|lia]. }
  destruct Hwait as ([[Hout2 HJ2] (Htold & Hl2 & Hlate)] & _ & Hc2). destruct (decide (err = NoError)) as [->|Hne].
  - cbv zeta. rewrite <- Hlen, Nat2Z.id. fold ptr.
    eapply (within_after WAIT); [eapply (read_loop t p r0 evs0 K _ l got q); try done; lia|done|lia| |done].
    pose proof (endurance_le s2 q l). lia.
  - apply (within_done (A:=ep_error * list Z * option Z)); [|lia..]. exists []. rewrite app_nil_r. split_and!; try done; [simpl; lia|].
    pose proof (wait_failed err s evs s2 _ Htold Hne HJ Hlate). by destruct err.
Qed.
End Streams.

(** Ascending streams store a block. *)
Lemma store_LE : forall bs mem k mem', 0 <= k -> store LE mem k bs = Some mem' ->
  mem' = take (Z.to_nat k) mem ++ bs ++ drop (Z.to_nat k + length bs) mem.
Proof.
  induction bs as [|b bs IH]; intros mem k mem' Hk Hst.
  { injection Hst as <-. simpl. by rewrite Nat.add_0_r, take_drop. }
  cbn [store] in Hst. opt_inv Hst. apply aset_inv in Hx as [Hi ->]. apply IH in Hst; [|simpl; lia]. rewrite Hst.
  simpl buffer_step. replace (Z.to_nat (k + 1)) with (S (Z.to_nat k)) by lia.
  rewrite (take_S_r _ _ b) by (apply list_lookup_insert_eq; lia). rewrite take_insert_ge, drop_insert_lt by lia.
  rewrite <- app_assoc. simpl. by rewrite <- Nat.add_succ_comm.
Qed.
Lemma room_LE mem k l : 0 <= k -> k + Z.of_nat l <= Z.of_nat (length mem) -> room LE mem k l.
Proof. intros Hk Hl i Hi. simpl. lia. Qed.

(** ** No control request *)

(** No SETUP packet is in the control endpoint or to come. *)
Definition no_control (evs : list bus_event) s : Prop :=
  (exists e0, eps s !! 0%nat = Some e0 /\ RXSTPI e0 = false) /\ 0 <= UENUM s < 8 /\ fires EORSTI s = false /\
  Forall (fun ev => ev <> BusReset /\ forall data, ev <> Setup data) evs.

Lemma no_control_stable : stable no_control.
Proof.
  intros ev evs s ((e0 & He & Hx) & Hu & Hr & Hev). apply Forall_cons_1 in Hev as [[Hv Hs] Hev].
  destruct (tick_steady ev s Hv Hr) as [Hst Heps]. injection Hst as Hu' _ _ _ _ _ Hr'.
  split; [|split_and!; try done; congruence || lia]. exists (act 0 ev e0). split.
  - rewrite Heps. by apply (hardware_lookup 0).
  - destruct ev; cbn [act]; try done.
    + by destruct (Hs data).
    + case_decide; [|done]. unfold take_out. by case_if.
    + case_decide; [|done]. unfold give_in. destruct (armed e0); [done|]. by case_if.
Qed.

Lemma no_control_on_cur n : 0 < n -> forall f evs s, UENUM s = n -> no_control evs s -> no_control evs (on_cur f s).
Proof.
  intros Hn f evs s Hu ((e0 & He & Hx) & Hrest). split; [|done]. exists e0. split; [|done].
  unfold on_cur, on_ep. simpl. rewrite list_lookup_alter_ne by lia. done.
Qed.
End Transfers.

(** The number of an endpoint in the register [UENUM]. *)
Definition endpoint_number (t : USB_Endpoint_Table_t) : Z := Z.land (Z.land (Address t) ENDPOINT_EPNUM_MASK) 7.
Lemma number_small t : 0 <= endpoint_number t < 8.
Proof. unfold endpoint_number. change 7 with (Z.ones 3). change 8 with (2 ^ 3). rewrite Z.land_ones by lia. by apply Z.mod_pos_bound. Qed.

(** ** Theorems *)

(** C38: the wait for a bank always ends: within a hundred and one changes of the frame number,
    whatever else happens on the bus. Its result is true: without error the bank is ready; the
    device is unattached, suspended, or the endpoint stalled, if it says so; and a timeout is
    reported after exactly that time. *)
Theorem wait_until_ready {App} `{UsbChip} (s : usb App) evs :
  match Endpoint_WaitUntilReady s evs with
  | Fault => False
  | Hang => (changes (UDFNUM s) evs < 101)%nat
  | Ok (err, s', evs') => told err s' /\ (length evs' < length evs)%nat /\
      (changes (UDFNUM s) evs <= 101 + changes (UDFNUM s') evs')%nat /\
      (err = Timeout -> changes (UDFNUM s) evs = 101 + changes (UDFNUM s') evs')%nat
  end.
Proof.
  pose proof (wait_rule (fun _ _ => True) s evs ltac:(done) I) as Hw. unfold within in Hw.
  destruct (Endpoint_WaitUntilReady s evs) as [[[err s'] evs']| |]; [|done..].
  destruct Hw as ((_ & H1 & H2 & H3) & _ & H4). by split_and!.
Qed.
End UsbTransfer.
