(* ===== verification/UsbPacket.v ===== *)
(** * Streams within one bank

    What the data streams do when the bytes asked for are in the bank at hand, or the bank has
    room for all that is written: the common case of protocols whose messages are packets; and the
    conditions under which a stream of any length is not disturbed. *)

From S2P Require Import Prelude.
From S2P Require Import Usb.
From S2P Require Import UsbConfigure.
From S2P Require Import UsbStream.
From S2P Require Import UsbTransfer.
From Stdlib Require Import Lia ZArith.
Import Usb UsbConfigure UsbStream UsbTransfer.

#[local] Open Scope Z_scope.

Module UsbPacket.

Section Packets.
Context {App : Type} `{UsbChip}.
Implicit Types (s : usb App) (e : endpoint).

(** The packets an IN endpoint has been given. *)
Definition packets_in (e : endpoint) : list (list Z) := taken e ++ armed e.
Definition same_geometry (e e' : endpoint) : Prop := UECFG0X e = UECFG0X e' /\ UECFG1X e = UECFG1X e'.

(** An event, as seen by any endpoint. *)
Lemma tick_ep n e ev s :
  eps s !! Z.to_nat n = Some e -> ev <> BusReset -> fires EORSTI s = false ->
  eps (tick ev s) !! Z.to_nat n = Some (act n ev e) /\ steady (tick ev s) = steady s.
Proof.
  intros He Hev Hr. destruct (tick_steady ev s Hev Hr) as [Hst Heps]. split; [|done].
  rewrite Heps. by apply hardware_lookup.
Qed.

(** What no event changes of an endpoint other than the first. *)
Lemma act_config n ev e : 0 < n ->
  UECFG0X (act n ev e) = UECFG0X e /\ UECFG1X (act n ev e) = UECFG1X e /\ RXSTPI (act n ev e) = RXSTPI e /\
  STALLRQ (act n ev e) = STALLRQ e /\ filling (act n ev e) = filling e /\
  taken (act n ev e) ++ armed (act n ev e) = taken e ++ armed e.
Proof.
  intros Hn. destruct ev; cbn [act]; try done; case_decide; try done; [lia|..].
  - unfold take_out. by case_if.
  - unfold give_in. destruct (armed e) as [|p ps] eqn:Ea; [by rewrite Ea|].
    case_if; split_and!; try done; simpl; [by rewrite <- app_assoc|by rewrite Ea].
Qed.

Lemma act_flags n ev e : 0 < n -> EPEN (act n ev e) = EPEN e /\ (length (armed (act n ev e)) <= length (armed e))%nat.
Proof.
  intros Hn. destruct ev; cbn [act]; try done; case_decide; try done; [lia|..].
  - unfold take_out. by case_if.
  - unfold give_in. destruct (armed e) as [|p ps] eqn:Ea; [by rewrite Ea|]. case_if; (split; [done|]); simpl; rewrite ?Ea; simpl; lia.
Qed.

(** An IN endpoint has been given packets, and is as before but for those the host has collected. *)
Definition delivered (ps : list (list Z)) (e e' : endpoint) : Prop :=
  same_geometry e' e /\ filling e' = [] /\ packets_in e' = packets_in e ++ ps /\ EPEN e' = EPEN e /\ STALLRQ e' = STALLRQ e /\
  (length (armed e') <= length (armed e) + length ps)%nat.
Lemma delivered_refl e : filling e = [] -> delivered [] e e.
Proof. intros Hf. unfold delivered. rewrite app_nil_r. by split_and!; try lia. Qed.
Lemma delivered_trans ps ps' e e' e'' : delivered ps e e' -> delivered ps' e' e'' -> delivered (ps ++ ps') e e''.
Proof.
  intros ([A1 A2] & A3 & A4 & A5 & A6 & A7) ([B1 B2] & B3 & B4 & B5 & B6 & B7). unfold delivered, same_geometry.
  split_and!; try congruence; [by rewrite B4, A4, app_assoc|rewrite length_app; lia].
Qed.

(** Work that leaves the selected endpoint as it is. *)
Lemma on_cur_id n e s f : at_ep n e s -> f e = e -> on_cur f s = s.
Proof.
  intros Ha Hf. rewrite (on_cur_ext n e s f (fun e => e) Ha Hf). unfold on_cur, on_ep. destruct s. unfold set_field. simpl. f_equal.
  apply list_eq. intros i. rewrite list_lookup_alter. case_decide as Hi; [|done]. rewrite Hi. by destruct (_ !! i).
Qed.

(** ** Reading *)

(** A wait on a bank that is there. *)
Lemma wait_received n e s ev evs :
  at_ep n e s -> 0 < n -> Z.testbit (UECFG0X e) EPDIR = false -> received e <> [] -> ev <> BusReset ->
  fires EORSTI s = false -> Endpoint_WaitUntilReady s (ev :: evs) = Ok (NoError, tick ev s, evs).
Proof.
  intros Ha Hn Hd Hne Hev Hr. pose proof (at_tick n e s ev Ha Hev Hr) as Ha1.
  destruct (act_received n ev e Hn) as (D & HD & _ & Hd' & _).
  cbn [Endpoint_WaitUntilReady]. rewrite spin_eq. unfold ready_turn, Endpoint_GetEndpointDirection, Endpoint_IsOUTReceived, RXOUTI.
  rewrite (at_cur _ _ _ Ha1), Hd', Hd, HD. by destruct (received e).
Qed.

Lemma read_head task n mem' rest ps p evs : forall bs fuel ptr mem k s e,
  at_ep n e s -> Z.testbit (UECFG0X e) EPDIR = false -> RXSTPI e = false -> received e = (bs ++ rest) :: ps ->
  store LE mem ptr bs = Some mem' -> (length bs < fuel)%nat ->
  rw_loop task fuel read_bytes LE (length bs) ptr mem p k s evs =
  Ok (NoError, mem', p, on_cur (fun e => e <| received := rest :: ps |>) s, evs).
Proof.
  induction bs as [|b bs IH]; intros [|fuel] ptr mem k s e Ha Hd Hx Hr Hst Hf; cbn [length] in *; try lia.
  { injection Hst as ->. cbn [rw_loop]. rewrite (on_cur_id n e s _ Ha); [done|]. rewrite <- app_nil_l in Hr at 1.
    destruct e. unfold set_field. simpl in *. by rewrite Hr. }
  cbn [store] in Hst. opt_inv Hst. cbn [rw_loop]. unfold Endpoint_IsReadWriteAllowed, RWAL. rewrite (at_cur _ _ _ Ha), Hd, Hr.
  cbn [app negb]. cbv iota.
  rewrite (read_transfer mem ptr s (on_cur (fun e => e <| received := (bs ++ rest) :: ps |>) s) b x); [|unfold Endpoint_Read_8; by rewrite (at_cur _ _ _ Ha), Hx, Hr|done].
  cbn [mbind res_bind].
  set (s1 := on_cur (fun e => e <| received := (bs ++ rest) :: ps |>) s).
  pose proof (at_on_cur n e s (fun e => e <| received := (bs ++ rest) :: ps |>) Ha) as Ha1.
  rewrite (IH fuel (ptr + 1) x _ s1 (e <| received := (bs ++ rest) :: ps |>)); try done; [|lia].
  unfold s1. by rewrite on_cur_comp.
Qed.

Lemma store_room : forall bs mem k, 0 <= k -> k + Z.of_nat (length bs) <= Z.of_nat (length mem) ->
  store LE mem k bs = Some (take (Z.to_nat k) mem ++ bs ++ drop (Z.to_nat k + length bs) mem).
Proof.
  intros bs mem k Hk Hl.
  assert (exists mem', store LE mem k bs = Some mem') as [mem' Hst].
  { pose proof (room_LE mem k (length bs) Hk Hl) as Hr. revert Hr. clear. revert mem k.
    induction bs as [|b bs IH]; intros mem k Hr; [by exists mem|].
    destruct (room_S LE mem k (length bs) b Hr) as (m1 & Hm & Hr1). cbn [store]. rewrite Hm. by apply IH. }
  rewrite Hst. f_equal. by apply store_LE.
Qed.

(** A stream read of [bs], which start the bank at hand. *)
Lemma read_stream_head task n e s ev evs mem mem' bs rest ps p :
  at_ep n e s -> 0 < n -> Z.testbit (UECFG0X e) EPDIR = false -> RXSTPI e = false -> received e = (bs ++ rest) :: ps ->
  store LE mem 0 bs = Some mem' -> default 0 p = 0 -> Z.of_nat (length bs) < 65536 -> ev <> BusReset -> fires EORSTI s = false ->
  exists e', Endpoint_Read_Stream_LE task mem (Z.of_nat (length bs)) p s (ev :: evs) =
    Ok ((NoError, mem', p), on_cur (fun e => e <| received := received e' |>) (tick ev s), evs) /\
    at_ep n e' (on_cur (fun e => e <| received := received e' |>) (tick ev s)) /\
    (exists D, received e' = rest :: ps ++ D /\ D `sublist_of` outs n [ev]) /\
    UECFG0X e' = UECFG0X e /\ UECFG1X e' = UECFG1X e /\ RXSTPI e' = false /\ STALLRQ e' = STALLRQ e.
Proof.
  intros Ha Hn Hd Hx Hr Hst Hp Hl Hev Hf. unfold Endpoint_Read_Stream_LE, Stream_RW.
  rewrite (wait_received n e s ev evs) by (done || by rewrite Hr). cbn [mbind res_bind]. rewrite decide_True by done.
  pose proof (at_tick n e s ev Ha Hev Hf) as Ha1. destruct (act_received n ev e Hn) as (D & HD & HDs & Hd' & Hx').
  destruct (act_config n ev e Hn) as (_ & Hc1 & _ & Hstall & _). rewrite Hr in HD. cbv zeta.
  rewrite Hp, Z.sub_0_r, (u16_small (Z.of_nat _)), Nat2Z.id by (unfold is_u16; lia).
  set (e' := act n ev e <| received := rest :: ps ++ D |>).
  rewrite (read_head task n mem' rest (ps ++ D) p evs bs _ _ _ _ (tick ev s) (act n ev e)); try done; try congruence; [|simpl; lia].
  exists e'. split; [done|]. split; [by apply (at_on_cur n _ _ (fun e => e <| received := received e' |>) Ha1)|].
  split; [by exists D|]. split_and!; done || simpl; congruence.
Qed.

(** ** Writing *)

Lemma write_head task n mem p evs : forall bytes fuel ptr k s e,
  at_ep n e s -> Z.testbit (UECFG0X e) EPDIR = true -> TXINI e = true ->
  (length (filling e) + length bytes <= bank_size e)%nat -> reads LE mem ptr bytes -> Forall is_u8 bytes ->
  (length bytes < fuel)%nat ->
  rw_loop task fuel write_bytes LE (length bytes) ptr mem p k s evs =
  Ok (NoError, mem, p, on_cur (fun e' => e' <| filling := filling e ++ bytes |>) s, evs).
Proof.
  induction bytes as [|b bytes IH]; intros [|fuel] ptr k s e Ha Hd Ht Hl Hr Hb Hf; cbn [length] in *; try lia.
  { cbn [rw_loop]. rewrite app_nil_r, (on_cur_id n e s _ Ha); [done|]. by destruct e. }
  apply reads_cons in Hr as [Hp Hr]. apply Forall_cons_1 in Hb as [Hb0 Hb].
  cbn [rw_loop]. unfold Endpoint_IsReadWriteAllowed, RWAL. rewrite (at_cur _ _ _ Ha), Hd, Ht, (proj2 (Nat.ltb_lt _ _)) by lia.
  cbn [andb negb]. cbv iota.
  rewrite (write_transfer _ _ _ _ _ Hp (bank_write_ok n e s b Ha Ht ltac:(lia) Hb0)). cbn [mbind res_bind].
  set (f := fun e : endpoint => e <| filling ::= fun l => l ++ [b] |>). pose proof (at_on_cur n e s f Ha) as Ha1.
  rewrite (IH fuel _ _ (on_cur f s) (f e)); try done; [|change (bank_size (f e)) with (bank_size e); simpl; rewrite length_app; simpl; lia|lia].
  rewrite on_cur_comp. do 2 f_equal. unfold f. simpl. by rewrite <- app_assoc.
Qed.

(** A wait on a free bank. *)
Lemma TXINI_act n ev e : 0 < n -> TXINI e = true -> TXINI (act n ev e) = true.
Proof.
  intros Hn Ht. destruct ev; cbn [act]; try done; case_decide; try done; [lia|..].
  - unfold take_out. by case_if.
  - unfold give_in. destruct (armed e) as [|p ps] eqn:Ea; [done|]. case_if; [|done]. unfold TXINI in *. simpl.
    rewrite Ea in Ht. apply Nat.ltb_lt in Ht. apply Nat.ltb_lt. change (banks _) with (banks e). simpl in Ht. lia.
Qed.
Lemma wait_free n e s ev evs :
  at_ep n e s -> 0 < n -> Z.testbit (UECFG0X e) EPDIR = true -> TXINI e = true -> ev <> BusReset -> fires EORSTI s = false ->
  Endpoint_WaitUntilReady s (ev :: evs) = Ok (NoError, tick ev s, evs).
Proof.
  intros Ha Hn Hd Ht Hev Hr. pose proof (at_tick n e s ev Ha Hev Hr) as Ha1. destruct (act_config n ev e Hn) as (Hd' & _).
  cbn [Endpoint_WaitUntilReady]. rewrite spin_eq. unfold ready_turn, Endpoint_GetEndpointDirection, Endpoint_IsINReady.
  rewrite (at_cur _ _ _ Ha1), Hd', Hd. change (ENDPOINT_DIR_IN =? ENDPOINT_DIR_IN) with true. cbv iota. by rewrite (TXINI_act n ev e Hn Ht).
Qed.

(** After the wait, what fits into the bank is written to it. *)
Lemma write_stream_ready task n e s s1 evs evs1 mem (l : nat) p :
  Endpoint_WaitUntilReady s evs = Ok (NoError, s1, evs1) ->
  at_ep n e s1 -> Z.testbit (UECFG0X e) EPDIR = true -> TXINI e = true -> default 0 p = 0 ->
  (l <= length mem)%nat -> Z.of_nat l < 65536 -> (length (filling e) + l <= bank_size e)%nat -> Forall is_u8 (take l mem) ->
  Endpoint_Write_Stream_LE task mem (Z.of_nat l) p s evs =
  Ok ((NoError, mem, p), on_cur (fun e' => e' <| filling := filling e ++ take l mem |>) s1, evs1).
Proof.
  intros Hw Ha Hd Ht Hp Hl Hl16 Hb Hu. unfold Endpoint_Write_Stream_LE, Stream_RW. rewrite Hw. cbn [mbind res_bind].
  rewrite decide_True by done. cbv zeta. rewrite Hp, Z.sub_0_r, u16_small, Nat2Z.id by (unfold is_u16; lia).
  assert (length (take l mem) = l) as Htl by (rewrite length_take; lia).
  rewrite <- Htl at 2. rewrite (write_head task n mem p evs1 (take l mem) _ _ 0 s1 e Ha Hd Ht); [done|lia| |done|lia].
  pose proof (reads_LE mem 0 l ltac:(lia)) as Hr. by rewrite drop_0 in Hr.
Qed.

(** ** Undisturbed transfers *)

(** Nothing gets in the way of the endpoint [n]: packets and frames are all there is to come, but
    fewer frames than a timeout takes, no control request, and no stall. *)
Definition calm (n : Z) (evs : list bus_event) s : Prop :=
  no_control evs s /\ quiet s /\ USB_DeviceState s = Configured /\ forallb packet_event evs = true /\
  (changes (UDFNUM s) evs < WAIT)%nat /\ exists e, eps s !! Z.to_nat n = Some e /\ STALLRQ e = false.

Lemma calm_stable n : 0 < n -> stable (calm n).
Proof.
  intros Hn ev evs s (Hc & Hq & Hst & Hev & Hf & e & He & Hs). apply andb_prop in Hev as [Hp Hev].
  destruct (tick_packet ev s Hp Hq) as (Hcore & Hq' & Heps). injection Hcore as Hst' _.
  split; [by apply no_control_stable|]. split; [done|]. split; [congruence|]. split; [done|].
  split; [rewrite tick_UDFNUM; simpl in Hf; lia|]. exists (act n ev e). split.
  - rewrite Heps. apply hardware_lookup; [by destruct ev|done].
  - destruct (act_config n ev e Hn) as (_ & _ & _ & -> & _). done.
Qed.
Lemma calm_on_cur n : 0 < n -> forall f evs s, (forall e, STALLRQ (f e) = STALLRQ e) -> UENUM s = n -> calm n evs s -> calm n evs (on_cur f s).
Proof.
  intros Hn f evs s Hs Hu (Hc & Hq & Hst & Hev & Hf & e & He & Hse).
  split; [by apply (no_control_on_cur n)|]. do 4 (split; [done|]). exists (f e). split; [|by rewrite Hs].
  unfold on_cur, on_ep. rewrite Hu. simpl. by rewrite list_lookup_alter_eq, He.
Qed.
(** So a stream has no error. *)
Lemma calm_told n err evs s : 0 < n -> UENUM s = n -> calm n evs s -> err <> Timeout -> told err s -> err = NoError.
Proof.
  intros Hn Hu (_ & _ & Hst & _ & _ & e & He & Hs) Ht [_ Htold]. destruct err; try done; [|congruence..].
  unfold Endpoint_IsStalled in Htold. rewrite (at_cur n e s) in Htold by done. congruence.
Qed.
Lemma calm_failed n err evs s : 0 < n -> UENUM s = n -> calm n evs s -> err <> IncompleteTransfer -> failed (calm n) err s -> err = NoError.
Proof.
  intros Hn Hu Hc Hi Hf. destruct (decide (err = Timeout)) as [->|Hne].
  - destruct Hf as (evs0 & s0 & (_ & _ & _ & _ & Hfr & _) & Hw). lia.
  - apply (calm_told n err evs s); try done. by destruct err.
Qed.
End Packets.
End UsbPacket.
