(* ===== verification/UsbUnits.v ===== *)
(** * Streams of units

    Two endpoints over which a device sends and receives units of several bytes (events, samples) in
    packets of whole units, under any bus events without a reset: what has been given to the IN
    endpoint, and what has arrived at the OUT endpoint and is still to be taken. *)

From S2P Require Import Prelude.
From S2P Require Import Usb.
From S2P Require Import UsbConfigure.
From S2P Require Import UsbStream.
From S2P Require Import UsbTransfer.
From S2P Require Import UsbPacket.
From Stdlib Require Import Lia ZArith.
Import Usb UsbConfigure UsbStream UsbTransfer UsbPacket.

#[local] Open Scope Z_scope.

Module UsbUnits.

(** A kind of units: its bytes, what may be in the bank of a size, and what makes a packet. *)
Class Units (U : Type) := {
  bytes_of : U -> list Z;
  open_ok : nat -> list U -> Prop;
  whole : nat -> list U -> Prop }.
(** The numbers of the two endpoints. *)
Class Link (nt nr : Z) : Prop := { nt_pos : 0 < nt; nr_pos : 0 < nr; apart : nt <> nr }.

Definition stream `{Units U} (us : list U) : list Z := flat_map bytes_of us.
Lemma stream_app `{Units U} us us' : stream (us ++ us') = stream us ++ stream us'.
Proof. apply flat_map_app. Qed.

Section Streams.
Context {App U : Type} `{UsbChip} `{Units U}.
Implicit Types (s : usb App) (e : endpoint).
(** The endpoints, the application, and the packets of the IN endpoint from before. *)
Context {nt nr : Z} {a : App} {before : list (list Z)}.

(** The IN endpoint: what was given to it went out in packets of whole units; the
    units [o] are in the bank. *)
Definition tx_ok (given o : list U) e : Prop :=
  Z.testbit (UECFG0X e) EPDIR = true /\ (TXINI e = false -> filling e = []) /\ open_ok (bank_size e) o /\
  received e = [] /\ filling e = stream o /\
  exists groups, packets_in e = before ++ map stream groups /\ concat groups ++ o = given /\ Forall (whole (bank_size e)) groups.
(** The OUT endpoint: packets of whole units, which are [pend] together. *)
Definition rx_ok (pend : list U) e : Prop :=
  Z.testbit (UECFG0X e) EPDIR = false /\ RXSTPI e = false /\
  exists groups, received e = map stream groups /\ Forall (fun g => g <> []) groups /\ concat groups = pend.
(** No bus reset; the host sends whole units to the OUT endpoint. *)
Definition event_fine (ev : bus_event) : Prop :=
  ev <> BusReset /\
  match ev with
  | Out m data => Z.to_nat nt <> Z.to_nat m /\ (Z.to_nat nr = Z.to_nat m -> exists g, g <> [] /\ data = stream g)
  | _ => True
  end.
Definition online (given o pend : list U) evs s : Prop :=
  app s = a /\ fires EORSTI s = false /\ Forall event_fine evs /\
  (exists e, eps s !! Z.to_nat nt = Some e /\ tx_ok given o e) /\ (exists e, eps s !! Z.to_nat nr = Some e /\ rx_ok pend e).
(** [taken_] has been taken of what was there and what has arrived since. *)
Definition after (given o taken_ pend : list U) evs0 evs s : Prop :=
  exists used arrived pend', evs0 = used ++ evs /\ map stream arrived `sublist_of` outs nr used /\
    taken_ ++ pend' = pend ++ concat arrived /\ online given o pend' evs s.

Context `{!Link nt nr}.

(** *** Events of the bus *)

Lemma tx_act given o ev e : event_fine ev -> tx_ok given o e -> tx_ok given o (act nt ev e).
Proof.
  intros [_ Hev] (H1 & H2 & H3 & H4 & H5 & groups & H6 & H7 & H8).
  destruct (act_config nt ev e (nt_pos (nr:=nr))) as (C1 & C2 & _ & _ & C5 & C6).
  assert (bank_size (act nt ev e) = bank_size e) as Hb by (unfold bank_size; by rewrite C2).
  split; [by rewrite C1|]. rewrite C5, Hb. split_and!; try done.
  - intros Ht. apply H2. destruct (TXINI e) eqn:E; [|done]. by rewrite (TXINI_act nt ev e (nt_pos (nr:=nr)) E) in Ht.
  - destruct (act_received nt ev e (nt_pos (nr:=nr))) as (D & HD & HDs & _). rewrite HD, H4.
    assert (outs nt [ev] = []) as Ho.
    { destruct ev; try done. unfold outs. simpl. rewrite decide_False; [done|apply Hev]. }
    rewrite Ho in HDs. by apply sublist_nil_r in HDs as ->.
  - exists groups. unfold packets_in in *. by rewrite C6.
Qed.
Lemma arrivals ev D : event_fine ev -> D `sublist_of` outs nr [ev] ->
  exists gs, D = map stream gs /\ Forall (fun g => g <> []) gs.
Proof.
  intros [_ Hev] HD. assert (outs nr [ev] = [] \/ exists g, g <> [] /\ outs nr [ev] = [stream g]) as [Ho|(g & Hg & Ho)].
  { destruct ev; simpl; try by left. case_decide as Hm; [|by left]. right. apply proj2 in Hev. destruct (Hev Hm) as (g & Hg & ->). by exists g. }
  - rewrite Ho in HD. apply sublist_nil_r in HD as ->. by exists [].
  - rewrite Ho in HD. inversion HD as [|? ? ? HD'|? ? ? HD']; subst; apply sublist_nil_r in HD' as ->; [exists [g]; by repeat constructor|by exists []].
Qed.
Lemma rx_act pend ev e : event_fine ev -> rx_ok pend e ->
  exists gs, map stream gs `sublist_of` outs nr [ev] /\ rx_ok (pend ++ concat gs) (act nr ev e).
Proof.
  intros Hev (H1 & H2 & groups & H3 & H4 & <-). destruct (act_received nr ev e (nr_pos (nt:=nt))) as (D & HD & HDs & C1 & C2).
  destruct (arrivals ev D Hev HDs) as (gs & -> & Hgs). exists gs. split; [done|]. split; [by rewrite C1|]. split; [by rewrite C2|].
  exists (groups ++ gs). rewrite HD, H3, map_app, concat_app. split_and!; try done. by apply Forall_app.
Qed.
Lemma online_tick given o pend ev evs s : online given o pend (ev :: evs) s ->
  after given o [] pend (ev :: evs) evs (tick ev s).
Proof.
  intros (H1 & H2 & H3 & (et & Ht & Htx) & (er & Hr & Hrx)). apply Forall_cons_1 in H3 as [Hv Hevs]. pose proof Hv as [Hn _].
  destruct (tick_ep nt et ev s Ht Hn H2) as [Ht1 Hst]. destruct (tick_ep nr er ev s Hr Hn H2) as [Hr1 _].
  destruct (rx_act pend ev er Hv Hrx) as (gs & Hgs & Hrx1). injection Hst as _ _ _ _ _ Happ Hf.
  exists [ev], gs, (pend ++ concat gs). split_and!; try done. split_and!; [congruence..|done| |by eexists].
  eexists. split; [done|]. by apply tx_act.
Qed.

Lemma online_now given o pend evs s : online given o pend evs s -> after given o [] pend evs evs s.
Proof. intros Ho. exists [], [], pend. rewrite app_nil_r. split_and!; try done. Qed.
Lemma events_then given o t1 t2 pend u arr p evs0 evs1 evs2 s : evs0 = u ++ evs1 -> map stream arr `sublist_of` outs nr u ->
  t1 ++ p = pend ++ concat arr -> after given o t2 p evs1 evs2 s -> after given o (t1 ++ t2) pend evs0 evs2 s.
Proof.
  intros -> A1 G1 (u2 & a2 & p2 & -> & A2 & G2 & O2).
  exists (u ++ u2), (arr ++ a2), p2. rewrite outs_app, map_app, concat_app, app_assoc. split; [done|]. split; [by apply sublist_app|].
  split; [|done]. by rewrite <- app_assoc, G2, !app_assoc, G1.
Qed.
Lemma after_stable given o pend evs0 : stable (after given o [] pend evs0).
Proof.
  intros ev evs s (u & arr & p & H1 & H2 & H3 & Ho). by eapply (events_then given o [] []), online_tick.
Qed.

(** *** Work on the endpoints *)

Lemma online_in given o pend evs s : online given o pend evs s -> UENUM s = nt ->
  exists e, at_ep nt e s /\ tx_ok given o e /\
    forall f given' o', tx_ok given' o' (f e) -> online given' o' pend evs (on_cur f s).
Proof.
  pose proof (nt_pos (nr:=nr)) as Hnt. pose proof (nr_pos (nt:=nt)) as Hnr. pose proof (apart (nt:=nt) (nr:=nr)) as Hne.
  intros (H1 & H2 & H3 & (et & Ht & Htx) & (er & Hr & Hrx)) Hu. exists et. split; [done|]. split; [done|].
  intros f given' o' Hf. split_and!; try done.
  - exists (f et). split; [|done]. unfold on_cur, on_ep. simpl. by rewrite Hu, list_lookup_alter_eq, Ht.
  - exists er. split; [|done]. unfold on_cur, on_ep. simpl. rewrite list_lookup_alter_ne; [done|lia].
Qed.
Lemma online_out given o pend evs s : online given o pend evs s -> UENUM s = nr ->
  exists e, at_ep nr e s /\ rx_ok pend e /\
    forall f pend', rx_ok pend' (f e) -> online given o pend' evs (on_cur f s).
Proof.
  pose proof (nt_pos (nr:=nr)) as Hnt. pose proof (nr_pos (nt:=nt)) as Hnr. pose proof (apart (nt:=nt) (nr:=nr)) as Hne.
  intros (H1 & H2 & H3 & (et & Ht & Htx) & (er & Hr & Hrx)) Hu. exists er. split; [done|]. split; [done|].
  intros f pend' Hf. split_and!; try done.
  - exists et. split; [|done]. unfold on_cur, on_ep. simpl. rewrite list_lookup_alter_ne; [done|lia].
  - exists (f er). split; [|done]. unfold on_cur, on_ep. simpl. by rewrite Hu, list_lookup_alter_eq, Hr.
Qed.

(** The selected endpoint stays selected. *)
Lemma selection_stable given o pend evs0 n : stable (fun evs s => UENUM s = n /\ after given o [] pend evs0 evs s).
Proof.
  intros ev evs s [Hu Ha]. split; [|by apply after_stable]. destruct Ha as (_ & _ & _ & _ & _ & _ & (_ & Hf & Hev & _)).
  apply Forall_cons_1 in Hev as [[Hv _] _]. destruct (tick_steady ev s Hv Hf) as [Hst _]. injection Hst. congruence.
Qed.
Lemma wait_after given o pend n evs s : online given o pend evs s -> UENUM s = n ->
  within WAIT (fun err evs' s' => UENUM s' = n /\ after given o [] pend evs evs' s' /\ told err s') s evs
    (Endpoint_WaitUntilReady s evs).
Proof.
  intros Ho Hu. pose proof (wait_rule _ s evs (selection_stable given o pend evs n) (conj Hu (online_now _ _ _ _ _ Ho))) as Hw.
  eapply (within_after 0); [exact Hw|done..|]. intros err evs' s' ([H1 H2] & H3 & _). done.
Qed.

Lemma after_online given o pend evs0 evs s : after given o [] pend evs0 evs s ->
  exists pend', online given o pend' evs s /\ forall given2 o2 evs2 s2, online given2 o2 pend' evs2 s2 -> evs2 = evs ->
    after given2 o2 [] pend evs0 evs2 s2.
Proof.
  intros (u & arr & p & H1 & H2 & H3 & H4). exists p. split; [done|]. intros given2 o2 evs2 s2 Ho ->. by exists u, arr, p.
Qed.

Lemma told_free given o pend evs s : online given o pend evs s -> UENUM s = nt -> told NoError s ->
  forall e, at_ep nt e s -> TXINI e = true.
Proof.
  intros Ho Hu [Ht _] e Ha. destruct (online_in _ _ _ _ _ Ho Hu) as (e' & [_ Ha'] & (Hd & _) & _). destruct Ha as [Hu' Ha].
  assert (e' = e) as -> by congruence. revert Ht. unfold bank_ready, Endpoint_GetEndpointDirection, Endpoint_IsINReady.
  rewrite (at_cur nt e s) by done. by rewrite Hd.
Qed.

(** New endpoints. *)
Lemma shaped_tx addr type size nbanks e e' : open_ok (bank_size e') [] -> Z.land addr ENDPOINT_DIR_IN <> 0 ->
  shaped addr type size nbanks e e' -> before = taken e -> tx_ok [] [] e'.
Proof using Type.
  intros Ho Hd (_ & _ & _ & _ & Hdir & _ & _ & _ & Hf & Ha & Hr & Ht & _) Hbf. split; [by rewrite Hdir, (proj2 (Z.eqb_neq _ _) Hd)|].
  split; [done|]. split; [done|]. split; [done|]. split; [done|].
  exists []. unfold packets_in. rewrite Ha, Ht, Hbf. split; [done|]. split; [done|constructor].
Qed.
Lemma shaped_rx addr type size nbanks e e' : Z.land addr ENDPOINT_DIR_IN = 0 -> shaped addr type size nbanks e e' -> rx_ok [] e'.
Proof using Type.
  intros Hd (_ & _ & Hx & _ & Hdir & _ & _ & _ & _ & _ & Hr & _). split; [by rewrite Hdir, (proj2 (Z.eqb_eq _ _) Hd)|].
  split; [done|]. exists []. split; [done|]. split; [constructor|done].
Qed.

(** *** The endpoints of two tables *)

(** A number for each endpoint, and sizes that the controller has. *)
Definition link_tables (i o : USB_Endpoint_Table_t) : Prop :=
  0 < nt < 7 /\ 0 < nr < 7 /\ nt <> nr /\ Address i = 128 + nt /\ Address o = nr /\ Size i <= 1024 /\ Size o <= 1024.
Lemma small_cases (P : Z -> Prop) n : 0 < n < 7 -> P 1 -> P 2 -> P 3 -> P 4 -> P 5 -> P 6 -> P n.
Proof using Type. intros Hn. assert (n = 1 \/ n = 2 \/ n = 3 \/ n = 4 \/ n = 5 \/ n = 6) as Hc by lia. destruct_or?; by subst. Qed.
Lemma number_in n : 0 < n < 7 -> Z.land (128 + n) ENDPOINT_EPNUM_MASK = n /\ Z.land (Z.land (128 + n) ENDPOINT_EPNUM_MASK) 7 = n /\
  Z.land (128 + n) ENDPOINT_DIR_IN <> 0.
Proof using Type. intros Hn. pattern n. by apply small_cases. Qed.
Lemma number_out n : 0 < n < 7 -> Z.land n ENDPOINT_EPNUM_MASK = n /\ Z.land (Z.land n ENDPOINT_EPNUM_MASK) 7 = n /\
  Z.land n ENDPOINT_DIR_IN = 0.
Proof using Type. intros Hn. pattern n. by apply small_cases. Qed.
Lemma link_numbers i o : link_tables i o -> Link nt nr /\ endpoint_number i = nt /\ endpoint_number o = nr.
Proof using Type.
  intros (Ht & Hr & Hne & Ai & Ao & _). unfold endpoint_number. rewrite Ai, Ao. split; [split; lia|].
  split; [by apply number_in|by apply number_out].
Qed.

(** Configuring the two gives endpoints on which nothing has been sent or has arrived. *)
Lemma tables_online i o s evs : accepts -> link_tables i o -> length (eps s) = 7%nat -> fires EORSTI s = false ->
  Forall event_fine evs -> app s = a -> before = taken (nth (Z.to_nat nt) (eps s) no_endpoint) ->
  (forall size, (0 < size)%nat -> Size i <= Z.of_nat size -> open_ok size []) ->
  exists s1 s2, Endpoint_ConfigureEndpointTable [i] s = Ok (true, s1) /\ app s1 = app s /\
    Endpoint_ConfigureEndpointTable [o] s1 = Ok (true, s2) /\ USB_DeviceState s2 = USB_DeviceState s /\
    UDFNUM s2 = UDFNUM s /\ online [] [] [] evs s2.
Proof using Type.
  intros Hacc (Ht & Hr & Hne & Ai & Ao & Si & So) Hlen Hf Hev Happ Hbf Hopen.
  destruct (number_in nt Ht) as (Nt & _ & Dt). destruct (number_out nr Hr) as (Nr & _ & Dr).
  destruct (configure_table i s) as (s1 & H1 & E1 & L1 & P1); try done; [rewrite Ai, ?Nt; lia..|].
  destruct (configure_table o s1) as (s2 & H2 & E2 & L2 & P2); try done; [rewrite Ao, ?Nr; lia..|].
  exists s1, s2. split; [done|]. split; [by rewrite E1|]. split; [done|]. split; [by rewrite E2, E1|]. split; [by rewrite E2, E1|].
  rewrite Ai, Nt in P1. rewrite Ao, Nr in P2. split; [by rewrite E2, E1|]. split; [by rewrite E2, E1|]. split; [done|].
  destruct (lookup_lt_is_Some_2 (eps s) (Z.to_nat nt)) as [et He]; [lia|]. destruct (lookup_lt_is_Some_2 (eps s) (Z.to_nat nr)) as [er Her]; [lia|].
  rewrite (nth_lookup_Some _ _ _ _ He) in Hbf. destruct (P1 _ _ He) as (e1 & He1 & Q1). destruct (P2 _ _ He1) as (e2 & He2 & Q2).
  destruct (P1 _ _ Her) as (r1 & Hr1 & R1). destruct (P2 _ _ Hr1) as (r2 & Hr2 & R2). rewrite Z2Nat.id in * by lia.
  rewrite Z.ltb_irrefl, Z.eqb_refl in Q1, R2. split; [exists e2|exists r2]; (split; [done|]); [|by eapply shaped_rx].
  assert (shaped (128 + nt) (Type_ i) (Size i) (Banks i) et e2) as Q.
  { destruct (Z.ltb_spec nt nr); [by subst e2|]. rewrite (proj2 (Z.eqb_neq nt nr) Hne) in Q2. subst e2. by apply shaped_moved. }
  eapply shaped_tx; [|done..]. apply Hopen; [apply bank_size_pos|]. by destruct Q as (_ & _ & _ & _ & _ & ? & _).
Qed.
End Streams.
Arguments link_tables : clear implicits.
Arguments tx_ok {U _} before given o e.
Arguments event_fine {U _} nt nr ev.
Arguments online {App U _} nt nr a before given o pend evs s.
Arguments after {App U _} nt nr a before given o taken_ pend evs0 evs s.
End UsbUnits.
