(* ===== verification/UsbControlRead.v ===== *)
(** * Control reads

    [Endpoint_Read_Control_Stream_LE] with a host that sends its data: the data stage of a request
    to the device. *)

From S2P Require Import Prelude.
From S2P Require Import Usb.
From S2P Require Import UsbStream.
From S2P Require Import UsbTransfer.
From Stdlib Require Import Lia ZArith.
Import Usb UsbStream UsbTransfer.

#[local] Open Scope Z_scope.

Module UsbControlRead.

(** The host sends packets that fit, takes packets, and lets time pass. *)
Definition sending (size : nat) (ev : bus_event) : Prop :=
  match ev with Idle | Frame _ | In _ => True | Out _ data => (length data <= size)%nat | _ => False end.

Section ControlRead.
Context {App : Type} `{UsbChip}.
Implicit Types (s : usb App) (e : endpoint).

(** The control endpoint is open for data, and has taken [r]. *)
Definition open_for (r : list (list Z)) e : Prop :=
  EPEN e = true /\ STALLRQ e = false /\ RXSTPI e = false /\ armed e = [] /\ received e = r.

Lemma received_same e l : received e = l -> e <| received := l |> = e.
Proof. intros <-. by destruct e. Qed.

(** Emptying a bank. *)
Lemma empty_bank_spec n t : forall l p ps mem ptr s e,
  at_ep n e s -> RXSTPI e = false -> received e = p :: ps -> room t mem ptr l ->
  let k := (l `min` length p)%nat in
  exists mem' s', empty_bank t l mem ptr s = Ok ((l - k)%nat, mem', ptr + buffer_step t * Z.of_nat k, s') /\
    store t mem ptr (take k p) = Some mem' /\ room t mem' (ptr + buffer_step t * Z.of_nat k) (l - k) /\
    at_ep n (e <| received := drop k p :: ps |>) s' /\ only_eps s s'.
Proof.
  induction l as [|l IH]; intros p ps mem ptr s e Ha Hx Hr Hroom k.
  { exists mem, s. subst k. cbn [Nat.min Nat.sub take drop]. rewrite drop_0, Z.mul_0_r, Z.add_0_r, (received_same e _ Hr).
    repeat (split; [done|]). apply only_eps_refl. }
  cbn [empty_bank]. unfold Endpoint_BytesInEndpoint. rewrite (at_cur _ _ _ Ha), Hr. destruct p as [|b p].
  { change (Z.of_nat (length []) =? 0) with true. cbn [negb]. cbv iota. exists mem, s. subst k.
    cbn [length Nat.min Nat.sub take drop]. rewrite Z.mul_0_r, Z.add_0_r, (received_same e _ Hr). repeat (split; [done|]). apply only_eps_refl. }
  rewrite (proj2 (Z.eqb_neq _ 0)) by (simpl; lia). cbn [negb]. cbv iota.
  unfold Endpoint_Read_8 at 1. rewrite (at_cur _ _ _ Ha), Hx, Hr. cbn [mbind res_bind].
  destruct (room_S t mem ptr l b Hroom) as (mem1 & Hst & Hroom1). rewrite Hst. cbn [lift mbind res_bind].
  set (s1 := on_cur _ s).
  destruct (IH p ps mem1 (ptr + buffer_step t) s1 (e <| received := p :: ps |>)) as (mem' & s' & Hrun & Hst' & Hroom' & Ha' & Ho); try done.
  { by apply (at_on_cur n e s (fun e => e <| received := p :: ps |>)). }
  exists mem', s'. subst k. cbn [length Nat.min]. cbn [take drop store Nat.sub]. rewrite Hst. cbn [mbind option_bind].
  replace (ptr + buffer_step t * Z.of_nat (S (l `min` length p)))
    with (ptr + buffer_step t + buffer_step t * Z.of_nat (l `min` length p)) by lia.
  repeat (split; [done|]). eapply only_eps_trans; [apply only_eps_on_cur|exact Ho].
Qed.

(** The turns of the loop. *)
Lemma turn_wait t ptr l mem n e s :
  at_ep n e s -> present s -> open_for [] e -> control_r_turn t (ptr, l, mem) s = Ok (inr (ptr, l, mem), s).
Proof.
  intros Ha [Hp1 Hp2] (_ & _ & Hx & _ & Hr). unfold control_r_turn, Endpoint_IsSETUPReceived, Endpoint_IsOUTReceived, RXOUTI.
  by rewrite !decide_False, (at_cur _ _ _ Ha), Hx, Hr.
Qed.

Lemma turn_take t ptr l mem n e s p :
  at_ep n e s -> present s -> open_for [p] e -> room t mem ptr l ->
  let k := (l `min` length p)%nat in
  exists mem' s', control_r_turn t (ptr, l, mem) s =
      Ok (if negb ((l - k) =? 0)%nat then inr (ptr + buffer_step t * Z.of_nat k, (l - k)%nat, mem') else inl (None, mem'), s') /\
    store t mem ptr (take k p) = Some mem' /\ room t mem' (ptr + buffer_step t * Z.of_nat k) (l - k) /\
    at_ep n (e <| received := [] |>) s' /\ only_eps s s'.
Proof.
  intros Ha [Hp1 Hp2] (_ & _ & Hx & _ & Hr) Hroom k.
  unfold control_r_turn, Endpoint_IsSETUPReceived, Endpoint_IsOUTReceived, RXOUTI.
  rewrite !decide_False, (at_cur _ _ _ Ha), Hx, Hr by done.
  destruct (empty_bank_spec n t l p [] mem ptr s e Ha Hx Hr Hroom) as (mem' & s' & Hrun & Hst & Hroom' & Ha' & Ho).
  fold k in Hrun, Hst, Hroom', Ha'. rewrite Hrun. cbn [mbind res_bind mret res_ret].
  exists mem', (Endpoint_ClearOUT s'). repeat (split; [done|]). split.
  - exact (at_on_cur n (e <| received := [drop k p] |>) s' (fun e => e <| received ::= tail |>) Ha').
  - eapply only_eps_trans; [exact Ho|apply only_eps_on_cur].
Qed.

(** Events of such a host at the endpoint. *)
Lemma act_sending n ev e : 0 <= n -> open_for [] e -> sending (bank_size e) ev ->
  open_for (outs n [ev]) (act n ev e) /\ (length (outs n [ev]) <= 1)%nat /\ UECFG1X (act n ev e) = UECFG1X e /\
  filling (act n ev e) = filling e /\ taken (act n ev e) = taken e.
Proof.
  intros Hn (H1 & H2 & H3 & H4 & H5) Hs. unfold open_for, outs.
  destruct ev; simpl in *; try done; try case_decide; simpl; try (split_and!; done || lia).
  - unfold take_out. rewrite H1, H2, H5. pose proof (banks_pos e). simpl.
    rewrite (proj2 (Nat.ltb_lt _ _)), (proj2 (Nat.leb_le _ _)) by done. simpl. rewrite H5. split_and!; done || lia.
  - unfold give_in. rewrite H4. split_and!; done || lia.
Qed.

Lemma store_app t : forall bs bs' mem ptr mem1, store t mem ptr bs = Some mem1 ->
  store t mem ptr (bs ++ bs') = store t mem1 (ptr + buffer_step t * Z.of_nat (length bs)) bs'.
Proof.
  induction bs as [|b bs IH]; intros bs' mem ptr mem1 Hs.
  { injection Hs as <-. simpl. f_equal. lia. }
  rewrite <- app_comm_cons. cbn [store] in *. destruct (aset mem ptr b) as [mem0|]; [|done]. cbn [mbind option_bind] in *.
  rewrite (IH _ _ _ _ Hs). f_equal. simpl length. lia.
Qed.

(** How the loop over [l] bytes ends, with [r] in the bank. *)
Definition taken_in n t (r : list (list Z)) l ptr mem s e evs
  (res : res ((option ctrl_error * list Z) * usb App * list bus_event)) : Prop :=
  exists mem' used later s' e', res = Ok ((None, mem'), s', later) /\ evs = used ++ later /\
    store t mem ptr (take l (concat r ++ concat (outs n used))) = Some mem' /\
    (l <= length (concat r ++ concat (outs n used)))%nat /\
    at_ep n e' s' /\ open_for [] e' /\ UECFG1X e' = UECFG1X e /\ filling e' = filling e /\ taken e' = taken e /\ core s' = core s /\ quiet s'.

Lemma control_r_loop n t : 0 <= n -> forall evs s e r l ptr mem,
  at_ep n e s -> quiet s -> present s -> open_for r e -> (length r <= 1)%nat -> (0 < l)%nat -> room t mem ptr l ->
  Forall (sending (bank_size e)) evs -> (l <= length (concat r ++ concat (outs n evs)))%nat ->
  taken_in n t r l ptr mem s e evs (spin (control_r_turn t) (ptr, l, mem) s evs).
Proof.
  intros Hn. induction evs as [|ev evs IH]; intros s e r l ptr mem Ha Hq Hp Ho Hrl Hl Hroom Hev Htot; rewrite spin_eq.
  - destruct r as [|p [|]]; simpl in Htot, Hrl; [lia| |lia]. rewrite !app_nil_r in Htot.
    destruct (turn_take t ptr l mem n e s p Ha Hp Ho Hroom) as (mem' & s' & -> & Hst & _ & Ha' & [l' ->]).
    rewrite Nat.min_l in * by lia. rewrite Nat.sub_diag. cbn [negb Nat.eqb].
    exists mem', [], [], (s <| eps := l' |>), (e <| received := [] |>). simpl. rewrite !app_nil_r.
    destruct Ho as (H1 & H2 & H3 & H4 & H5). by split_and!.
  - apply Forall_cons_1 in Hev as [Hv Hev].
    (* the loop goes on with [l1] bytes to read *)
    assert (forall s1 e1 l1 ptr1 mem1, at_ep n e1 s1 -> quiet s1 -> present s1 -> open_for [] e1 ->
      UECFG1X e1 = UECFG1X e -> (0 < l1)%nat -> room t mem1 ptr1 l1 -> (l1 <= length (concat (outs n (ev :: evs))))%nat ->
      taken_in n t [] l1 ptr1 mem1 s1 e1 (ev :: evs) (spin (control_r_turn t) (ptr1, l1, mem1) (tick ev s1) evs)) as Hnext.
    { intros s1 e1 l1 ptr1 mem1 Ha1 Hq1 Hp1 Ho1 Hc1 Hl1 Hr1 Ht1.
      assert (bank_size e1 = bank_size e) as Hb by (unfold bank_size; by rewrite Hc1).
      destruct (at_tick_packet n e1 s1 ev Ha1 Hq1) as (Ha2 & Hcore2 & Hq2); [by destruct ev|].
      destruct (act_sending n ev e1 Hn Ho1) as (Ho2 & Hone & Hc2 & Hf2 & Htk2); [by rewrite Hb|].
      destruct (IH (tick ev s1) (act n ev e1) (outs n [ev]) l1 ptr1 mem1) as (mem' & used & later & s' & e' & H1 & H2 & H3 & H4 & H5 & H6 & H11 & H7 & H8 & H9 & H10);
        try done.
      { by eapply present_core. }
      { unfold bank_size in *. by rewrite Hc2, Hc1. }
      { rewrite outs_cons, concat_app in Ht1. done. }
      exists mem', (ev :: used), later, s', e'. rewrite outs_cons, concat_app. split_and!; try done; [by rewrite H2|congruence..]. }
    destruct r as [|p [|]]; simpl in Hrl; [| |lia].
    + rewrite (turn_wait t ptr l mem n e s Ha Hp Ho). by apply Hnext.
    + destruct (turn_take t ptr l mem n e s p Ha Hp Ho Hroom) as (mem1 & s1 & -> & Hst & Hroom1 & Ha1 & [l' ->]).
      destruct Ho as (H1 & H2 & H3 & H4 & H5). simpl concat in *. rewrite app_nil_r in *.
      destruct (Nat.eqb_spec (l - l `min` length p) 0) as [Hz|Hz]; cbn [negb].
      * assert (l <= length p)%nat by lia. rewrite Nat.min_l in * by lia. exists mem1, [], (ev :: evs), (s <| eps := l' |>), (e <| received := [] |>).
        simpl. rewrite !app_nil_r. split_and!; try done; lia.
      * assert (length p < l)%nat by lia. rewrite Nat.min_r in * by lia. rewrite firstn_all in Hst.
        destruct (Hnext (s <| eps := l' |>) (e <| received := [] |>) (l - length p)%nat (ptr + buffer_step t * Z.of_nat (length p)) mem1)
          as (mem' & used & later & s' & e' & Q1 & Q2 & Q3 & Q4 & Q5); try done; [lia|rewrite length_app in Htot; lia|].
        exists mem', used, later, s', e'. simpl concat in *. rewrite app_nil_r. split; [done|]. split; [done|]. split.
        { rewrite take_app_ge by lia. rewrite (store_app t _ _ _ _ _ Hst). exact Q3. }
        split; [rewrite length_app; simpl in Q4; lia|done].
Qed.

Lemma control_read t mem Length s e evs :
  at_ep 0 e s -> quiet s -> present s -> open_for [] e -> 0 < Length ->
  room t mem (buffer_offset t Length) (Z.to_nat Length) ->
  Forall (sending (bank_size e)) evs -> Length <= Z.of_nat (length (concat (outs 0 evs))) ->
  exists mem' used later s' e', Control_R t mem Length s evs = Ok ((CtrlNoError, mem'), s', later) /\ evs = used ++ later /\
    store t mem (buffer_offset t Length) (take (Z.to_nat Length) (concat (outs 0 used))) = Some mem' /\
    Length <= Z.of_nat (length (concat (outs 0 used))) /\
    at_ep 0 e' s' /\ open_for [] e' /\ UECFG1X e' = UECFG1X e /\ filling e' = filling e /\ taken e' = taken e /\ core s' = core s /\ quiet s'.
Proof.
  intros Ha Hq Hp Ho HL Hroom Hev Htot.
  destruct (control_r_loop 0 t ltac:(lia) evs s e [] (Z.to_nat Length) (buffer_offset t Length) mem)
    as (mem' & used & later & s' & e' & H1 & H2 & H3 & H4 & H5 & H6 & H7); try done; [simpl; lia|lia|simpl; lia|].
  simpl in H3, H4. exists mem', used, later, s', e'. split; [|split_and!; try done; [lia|apply H7..]].
  unfold Control_R. rewrite (proj2 (Z.eqb_neq _ _)) by lia. cbn [negb]. unfold mbind, M_bind, mret, M_ret. rewrite H1.
  unfold wait_flag. rewrite spin_eq. unfold Endpoint_IsINReady, TXINI. rewrite (at_cur _ _ _ H5).
  destruct H6 as (_ & _ & _ & -> & _). pose proof (banks_pos e'). by rewrite (proj2 (Nat.ltb_lt _ _)).
Qed.

(** Into memory. *)
Lemma control_read_le mem Length s e evs :
  at_ep 0 e s -> quiet s -> present s -> open_for [] e -> 0 < Length <= Z.of_nat (length mem) ->
  Forall (sending (bank_size e)) evs -> Length <= Z.of_nat (length (concat (outs 0 evs))) ->
  exists used later s' e',
    Endpoint_Read_Control_Stream_LE mem Length s evs
      = Ok ((CtrlNoError, take (Z.to_nat Length) (concat (outs 0 used)) ++ drop (Z.to_nat Length) mem), s', later) /\
    evs = used ++ later /\ Length <= Z.of_nat (length (concat (outs 0 used))) /\ at_ep 0 e' s' /\ open_for [] e' /\
    TXINI e' = true /\ filling e' = filling e /\ taken e' = taken e /\ core s' = core s /\ quiet s'.
Proof.
  intros Ha Hq Hp Ho HL Hev Htot.
  destruct (control_read LE mem Length s e evs) as (mem' & used & later & s' & e' & H1 & H2 & H3 & H4 & H5 & H6 & _ & H7 & H8 & H9 & H10);
    try done; [lia|apply room_LE; simpl; lia|].
  exists used, later, s', e'. unfold Endpoint_Read_Control_Stream_LE. rewrite H1.
  apply store_LE in H3; [|done]. rewrite H3. simpl. rewrite length_take, Nat.min_l by lia.
  split_and!; try done. destruct H6 as (_ & _ & _ & Har & _). unfold TXINI. rewrite Har. pose proof (banks_pos e').
  by apply Nat.ltb_lt.
Qed.
End ControlRead.

(** ** Theorem *)

(** C12: a control read with a host that sends at least the data asked for, in packets of any sizes
    that fit, with anything else but requests and bus states in between: it returns without error
    when the last byte has arrived, and the buffer starts with exactly the first bytes the host
    sent, in order; the rest of it is untouched, and the status packet can be sent. *)
Theorem control_read_receives {App} `{UsbChip} mem Length (s : usb App) e evs :
  at_ep 0 e s -> quiet s -> present s -> open_for [] e -> 0 < Length <= Z.of_nat (length mem) ->
  Forall (sending (bank_size e)) evs -> Length <= Z.of_nat (length (concat (outs 0 evs))) ->
  exists used later s' e',
    Endpoint_Read_Control_Stream_LE mem Length s evs
      = Ok ((CtrlNoError, take (Z.to_nat Length) (concat (outs 0 used)) ++ drop (Z.to_nat Length) mem), s', later) /\
    evs = used ++ later /\ Length <= Z.of_nat (length (concat (outs 0 used))) /\ at_ep 0 e' s' /\ open_for [] e' /\
    TXINI e' = true /\ core s' = core s.
Proof.
  intros Ha Hq Hp Ho HL Hev Htot.
  destruct (control_read_le mem Length s e evs) as (used & later & s' & e' & H1 & H2 & H3 & H4 & H5 & H6 & _ & _ & H7 & _); try done.
  exists used, later, s', e'. by split_and!.
Qed.

(** Seven bytes in two packets. *)
Lemma control_read_receives_witness :
  exists used later s' e',
    @Endpoint_Read_Control_Stream_LE unit some_chip [0; 0; 0; 0; 0; 0; 0; 9] 7 (fresh_device control_endpoint no_request tt)
      [Idle; Out 0 [0; 194; 1]; In 3; Out 0 [0; 0; 0; 8]; Idle]
      = Ok ((CtrlNoError, take 7 (concat (outs 0 used)) ++ [9]), s', later) /\
    [Idle; Out 0 [0; 194; 1]; In 3; Out 0 [0; 0; 0; 8]; Idle] = used ++ later /\ at_ep 0 e' s'.
Proof.
  destruct (@control_read_receives unit some_chip [0; 0; 0; 0; 0; 0; 0; 9] 7 (fresh_device control_endpoint no_request tt)
    control_endpoint [Idle; Out 0 [0; 194; 1]; In 3; Out 0 [0; 0; 0; 8]; Idle]) as (used & later & s' & e' & H1 & H2 & _ & H3 & _).
  - split; reflexivity.
  - intros i _. reflexivity.
  - split; discriminate.
  - repeat split.
  - simpl; lia.
  - repeat constructor; simpl; vm_compute; lia.
  - vm_compute; discriminate.
  - exists used, later, s', e'. split; [exact H1|]. split; [exact H2|exact H3].
Defined.
End UsbControlRead.
