(* ===== verification/UsbDevice.v ===== *)
(** * Device requests (DeviceStandardReq.c) and the device task (USBTask.c)

    The standard requests on the control endpoint, composed as in the C code: the application
    sees a request first, the library handles the ones it implements, and what nobody has
    acknowledged is stalled. The application's callbacks are parameters. *)

From S2P Require Import Prelude.
From S2P Require Import Usb.
From S2P Require Import UsbStream.
From S2P Require Import UsbTransfer.
From Stdlib Require Import Lia ZArith.
Import Usb UsbStream UsbTransfer.

#[local] Open Scope Z_scope.

Module UsbDevice.

(** ** Constants of StdRequestType.h, Device_AVR8.h and StdDescriptors.h *)

Definition REQDIR_HOSTTODEVICE := 0.
Definition REQTYPE_STANDARD := 0.
Definition REQTYPE_CLASS := 32.
Definition REQREC_DEVICE := 0.
Definition REQREC_INTERFACE := 1.
Definition REQREC_ENDPOINT := 2.
Definition CONTROL_REQTYPE_RECIPIENT := 31.
Definition REQ_GetStatus := 0.
Definition REQ_ClearFeature := 1.
Definition REQ_SetFeature := 3.
Definition REQ_SetAddress := 5.
Definition REQ_GetDescriptor := 6.
Definition REQ_GetConfiguration := 8.
Definition REQ_SetConfiguration := 9.
Definition FEATURE_SEL_EndpointHalt := 0.
Definition FEATURE_SEL_DeviceRemoteWakeup := 1.
Definition FEATURE_SELFPOWERED_ENABLED := 1.
Definition FEATURE_REMOTE_WAKEUP_ENABLED := 2.
Definition DTYPE_Device := 1.
Definition DTYPE_String := 3.
Definition NO_DESCRIPTOR := 0.
Definition USE_INTERNAL_SERIAL := 220.
Definition INTERNAL_SERIAL_LENGTH_BITS := 80.
Definition INTERNAL_SERIAL_START_ADDRESS := 14.
(** The type of a request of a class to an interface. *)
Definition class_request (dir : Z) : Z := Z.lor (Z.lor dir REQTYPE_CLASS) REQREC_INTERFACE.

Section Device.
Context {App : Type} `{UsbChip}.
Implicit Types (s : usb App).

(** The application: its handlers for control requests and for a new configuration, and the
    descriptors: the size of a descriptor and the flash from its address on. *)
Variable EVENT_USB_Device_ControlRequest : M (App:=App) unit.
Variable EVENT_USB_Device_ConfigurationChanged : M (App:=App) unit.
Variable CALLBACK_USB_GetDescriptor : Z -> Z -> Z * list Z.
(** The signature row of the chip. *)
Variable boot_signature_byte_get : Z -> Z.

#[local] Abbreviation M := (M (App:=App)).
#[local] Abbreviation request f := (get (fun s => f (USB_ControlRequest s))).

(** ** Requests *)

Definition USB_Device_SetAddress : M unit :=
  w ← request wValue;
  let DeviceAddress := Z.land w 127 in
  _ ← run (USB_Device_SetDeviceAddress DeviceAddress);
  _ ← run Endpoint_ClearSETUP;
  _ ← Endpoint_ClearStatusStage;
  _ ← spin (fun _ s => Ok (if Endpoint_IsINReady s then inl tt else inr tt, s)) tt;
  _ ← run USB_Device_EnableDeviceAddress;
  run (fun s => s <| USB_DeviceState := if negb (DeviceAddress =? 0) then Addressed else Default |>).

Definition USB_Device_SetConfiguration : M unit :=
  w ← request wValue;
  let '(size, DevDescriptorPtr) := CALLBACK_USB_GetDescriptor (Z.shiftl DTYPE_Device 8) 0 in
  if size =? NO_DESCRIPTOR then mret tt
  else
    NumberOfConfigurations ← op (fun s => n ← lift (aget DevDescriptorPtr 17); mret (n, s));
    if NumberOfConfigurations <? u8 w then mret tt
    else
      _ ← run Endpoint_ClearSETUP;
      _ ← run (fun s => s <| USB_Device_ConfigurationNumber := u8 w |>);
      _ ← Endpoint_ClearStatusStage;
      _ ← run (fun s => s <| USB_DeviceState :=
            if negb (USB_Device_ConfigurationNumber s =? 0) then Configured
            else if USB_Device_IsAddressSet s then Configured else Powered |>);
      EVENT_USB_Device_ConfigurationChanged.

Definition USB_Device_GetConfiguration : M unit :=
  _ ← run Endpoint_ClearSETUP;
  c ← get USB_Device_ConfigurationNumber;
  _ ← op (Endpoint_Write_8 c);
  _ ← run Endpoint_ClearIN;
  Endpoint_ClearStatusStage.

(** The characters of the serial number: the nibbles of the signature row, low one first. *)
Fixpoint serial_chars (n : nat) (SerialCharNum SigReadAddress : Z) : list Z :=
  match n with
  | O => []
  | S n' =>
      let byte := boot_signature_byte_get SigReadAddress in
      let odd := Z.testbit SerialCharNum 0 in
      let nibble := Z.land (if odd then Z.shiftr byte 4 else byte) 15 in
      (if 10 <=? nibble then 65 - 10 + nibble else 48 + nibble)
        :: serial_chars n' (SerialCharNum + 1) (if odd then SigReadAddress + 1 else SigReadAddress)
  end.
Definition USB_Device_GetSerialString : list Z :=
  serial_chars (Z.to_nat (INTERNAL_SERIAL_LENGTH_BITS / 4)) 0 INTERNAL_SERIAL_START_ADDRESS.

(** The descriptor as it lies in memory: its header and the characters as 16-bit words. *)
Definition SignatureDescriptor : list Z :=
  (2 + 2 * (INTERNAL_SERIAL_LENGTH_BITS / 4)) :: DTYPE_String
    :: flat_map (fun c => [Z.land c 255; Z.shiftr c 8]) USB_Device_GetSerialString.
Definition USB_Device_GetInternalSerialDescriptor : M unit :=
  _ ← run Endpoint_ClearSETUP;
  _ ← Endpoint_Write_Control_Stream_LE SignatureDescriptor (Z.of_nat (length SignatureDescriptor));
  run Endpoint_ClearOUT.

Definition USB_Device_GetDescriptor : M unit :=
  w ← request wValue;
  i ← request wIndex;
  if w =? Z.lor (Z.shiftl DTYPE_String 8) USE_INTERNAL_SERIAL then USB_Device_GetInternalSerialDescriptor
  else
    let '(DescriptorSize, DescriptorPointer) := CALLBACK_USB_GetDescriptor w (u8 i) in
    if DescriptorSize =? NO_DESCRIPTOR then mret tt
    else
      _ ← run Endpoint_ClearSETUP;
      _ ← Endpoint_Write_Control_PStream_LE DescriptorPointer DescriptorSize;
      run Endpoint_ClearOUT.

(** Answers a status request with the word. *)
Definition answer_status (CurrentStatus : Z) : M unit :=
  _ ← run Endpoint_ClearSETUP;
  _ ← op (Endpoint_Write_16_LE CurrentStatus);
  _ ← run Endpoint_ClearIN;
  Endpoint_ClearStatusStage.
Definition device_status s : Z :=
  Z.lor (if USB_Device_CurrentlySelfPowered s then FEATURE_SELFPOWERED_ENABLED else 0)
        (if USB_Device_RemoteWakeupEnabled s then FEATURE_REMOTE_WAKEUP_ENABLED else 0).
Definition USB_Device_GetStatus : M unit :=
  t ← request bmRequestType;
  if t =? Z.lor (Z.lor REQDIR_DEVICETOHOST REQTYPE_STANDARD) REQREC_DEVICE then
    st ← get device_status; answer_status st
  else if t =? Z.lor (Z.lor REQDIR_DEVICETOHOST REQTYPE_STANDARD) REQREC_ENDPOINT then
    i ← request wIndex;
    _ ← run (Endpoint_SelectEndpoint (Z.land (u8 i) ENDPOINT_EPNUM_MASK));
    st ← get (fun s => if Endpoint_IsStalled s then 1 else 0);
    _ ← run (Endpoint_SelectEndpoint ENDPOINT_CONTROLEP);
    answer_status st
  else mret tt.

Definition acknowledge : M unit :=
  _ ← run (Endpoint_SelectEndpoint ENDPOINT_CONTROLEP);
  _ ← run Endpoint_ClearSETUP;
  Endpoint_ClearStatusStage.
Definition halt_endpoint (set : bool) (EndpointIndex : Z) s : usb App :=
  let s := Endpoint_SelectEndpoint EndpointIndex s in
  if Endpoint_IsEnabled s then
    if set then Endpoint_StallTransaction s
    else Endpoint_ResetDataToggle (Endpoint_ResetEndpoint EndpointIndex (Endpoint_ClearStall s))
  else s.
Definition USB_Device_ClearSetFeature : M unit :=
  r ← get USB_ControlRequest;
  let recipient := Z.land (bmRequestType r) CONTROL_REQTYPE_RECIPIENT in
  if recipient =? REQREC_DEVICE then
    if u8 (wValue r) =? FEATURE_SEL_DeviceRemoteWakeup then
      _ ← run (fun s => s <| USB_Device_RemoteWakeupEnabled := bRequest r =? REQ_SetFeature |>);
      acknowledge
    else mret tt
  else if recipient =? REQREC_ENDPOINT then
    if u8 (wValue r) =? FEATURE_SEL_EndpointHalt then
      let EndpointIndex := Z.land (u8 (wIndex r)) ENDPOINT_EPNUM_MASK in
      if EndpointIndex =? ENDPOINT_CONTROLEP then mret tt
      else
        _ ← run (halt_endpoint (bRequest r =? REQ_SetFeature) EndpointIndex);
        acknowledge
    else acknowledge
  else mret tt.

(** ** Dispatch *)

Definition read_header : Op (App:=App) unit :=
  t ← Endpoint_Read_8; r ← Endpoint_Read_8; v ← Endpoint_Read_16_LE; i ← Endpoint_Read_16_LE;
  l ← Endpoint_Read_16_LE;
  modify (fun s => s <| USB_ControlRequest := mkRequest t r v i l |>).

(** [bmRequestType] of a standard request. *)
Definition standard (dir rec : Z) : Z := Z.lor (Z.lor dir REQTYPE_STANDARD) rec.
Definition dispatch : M unit :=
  r ← get USB_ControlRequest;
  let t := bmRequestType r in
  if bRequest r =? REQ_GetStatus then
    if (t =? standard REQDIR_DEVICETOHOST REQREC_DEVICE) || (t =? standard REQDIR_DEVICETOHOST REQREC_ENDPOINT)
    then USB_Device_GetStatus else mret tt
  else if (bRequest r =? REQ_ClearFeature) || (bRequest r =? REQ_SetFeature) then
    if (t =? standard REQDIR_HOSTTODEVICE REQREC_DEVICE) || (t =? standard REQDIR_HOSTTODEVICE REQREC_ENDPOINT)
    then USB_Device_ClearSetFeature else mret tt
  else if bRequest r =? REQ_SetAddress then
    if t =? standard REQDIR_HOSTTODEVICE REQREC_DEVICE then USB_Device_SetAddress else mret tt
  else if bRequest r =? REQ_GetDescriptor then
    if (t =? standard REQDIR_DEVICETOHOST REQREC_DEVICE) || (t =? standard REQDIR_DEVICETOHOST REQREC_INTERFACE)
    then USB_Device_GetDescriptor else mret tt
  else if bRequest r =? REQ_GetConfiguration then
    if t =? standard REQDIR_DEVICETOHOST REQREC_DEVICE then USB_Device_GetConfiguration else mret tt
  else if bRequest r =? REQ_SetConfiguration then
    if t =? standard REQDIR_HOSTTODEVICE REQREC_DEVICE then USB_Device_SetConfiguration else mret tt
  else mret tt.

Definition USB_Device_ProcessControlRequest : M unit :=
  _ ← op read_header;
  _ ← EVENT_USB_Device_ControlRequest;
  setup ← get Endpoint_IsSETUPReceived;
  _ ← (if setup : bool then dispatch else mret tt);
  setup ← get Endpoint_IsSETUPReceived;
  if setup : bool then
    _ ← run Endpoint_ClearSETUP;
    run Endpoint_StallTransaction
  else mret tt.

(** ** The device task *)

Definition USB_DeviceTask : M unit :=
  st ← get USB_DeviceState;
  if decide (st = Unattached) then mret tt
  else
    PrevEndpoint ← get Endpoint_GetCurrentEndpoint;
    _ ← run (Endpoint_SelectEndpoint ENDPOINT_CONTROLEP);
    setup ← get Endpoint_IsSETUPReceived;
    _ ← (if setup : bool then USB_Device_ProcessControlRequest else mret tt);
    run (Endpoint_SelectEndpoint PrevEndpoint).

(** ** Facts *)

Lemma bind_run {B} f (g : unit -> M B) s evs : (run f ≫= g) s evs = g tt (f s) evs.
Proof. done. Qed.
Lemma bind_get {A B} (f : usb App -> A) (g : A -> M B) s evs : (get f ≫= g) s evs = g (f s) s evs.
Proof. done. Qed.
Lemma bind_op {A B} (o : Op A) (g : A -> M B) s a s' evs :
  o s = Ok (a, s') -> (op o ≫= g) s evs = g a s' evs.
Proof. intros Ho. unfold mbind, M_bind, op. by rewrite Ho. Qed.
Lemma bind_ret {A B} (a : A) (g : A -> M B) s evs : (mret a ≫= g) s evs = g a s evs.
Proof. done. Qed.
Lemma bind_ok {A B} (m : M A) (g : A -> M B) s evs a s' evs' :
  m s evs = Ok (a, s', evs') -> (m ≫= g) s evs = g a s' evs'.
Proof. intros Hm. unfold mbind, M_bind. by rewrite Hm. Qed.

(** The state with the control endpoint replaced. *)
Definition put0 (e : endpoint) s : usb App := s <| eps ::= <[0%nat := e]> |>.

Lemma at_put0 e s f : at_ep 0 e s -> on_cur f s = put0 (f e) s /\ at_ep 0 (f e) (put0 (f e) s).
Proof.
  intros [Hn He]. assert (eps (put0 (f e) s) !! 0%nat = Some (f e)) as Hl.
  { simpl. apply list_lookup_insert_eq. by apply lookup_lt_Some in He. }
  split; [|by split]. unfold on_cur, on_ep, put0. rewrite Hn. destruct s. unfold set_field. simpl in *. f_equal.
  destruct eps0; [done|]. simpl in *. by injection He as ->.
Qed.
Lemma put0_put0 e e' s : put0 e' (put0 e s) = put0 e' s.
Proof. unfold put0. destruct s. unfold set_field. simpl. by rewrite list_insert_insert_eq. Qed.

(** *** The SETUP packet *)

(** The eight bytes of a request. *)
Definition header_bytes (r : USB_Request_Header_t) : list Z :=
  [bmRequestType r; bRequest r; wValue r mod 256; wValue r / 256; wIndex r mod 256; wIndex r / 256;
   wLength r mod 256; wLength r / 256].
(** A request waits in the selected control endpoint. *)
Definition requested (r : USB_Request_Header_t) (e : endpoint) s : Prop :=
  at_ep 0 e s /\ RXSTPI e = true /\ setup e = header_bytes r.
(** The state in which the application sees it. *)
Definition loaded (r : USB_Request_Header_t) (e : endpoint) s : usb App :=
  put0 (e <| setup := [] |>) s <| USB_ControlRequest := r |>.

Lemma read_setup e s b rest :
  at_ep 0 e s -> RXSTPI e = true -> setup e = b :: rest ->
  Endpoint_Read_8 s = Ok (b, put0 (e <| setup := rest |>) s) /\
  at_ep 0 (e <| setup := rest |>) (put0 (e <| setup := rest |>) s).
Proof.
  intros Ha Hr Hs. destruct (at_put0 e s (fun e => e <| setup := rest |>) Ha) as [Hp Ha'].
  split; [|done]. unfold Endpoint_Read_8. by rewrite (at_cur _ _ _ Ha), Hr, Hs, Hp.
Qed.

Ltac read_byte :=
  match goal with
  | Ha : at_ep 0 ?e ?s, Hs : setup ?e = ?b :: ?rest |- context [Endpoint_Read_8 ?s] =>
      let H1 := fresh in let H2 := fresh "Ha" in
      destruct (read_setup e s b rest Ha) as [H1 H2]; [done|done|]; rewrite H1; clear H1 Ha; simpl;
      let E := fresh "Hs" in
      assert (setup (e <| setup := rest |>) = rest) as E by done; clear Hs;
      rewrite ?put0_put0 in *
  end.

Lemma read_header_spec r e s :
  requested r e s -> read_header s = Ok (tt, loaded r e s) /\
  at_ep 0 (e <| setup := [] |>) (loaded r e s).
Proof using Type.
  intros (Ha & Hr & Hs). unfold header_bytes in Hs.
  unfold read_header, Endpoint_Read_16_LE, mbind, Op_bind.
  do 8 read_byte. split.
  - unfold mret, Op_ret, modify, loaded.
    replace (mkRequest _ _ _ _ _) with r; [by destruct e|].
    clear - r. destruct r; simpl; f_equal; rewrite Z.add_comm, <- Z.div_mod; done.
  - unfold loaded. by destruct e.
Qed.

Lemma loaded_setup r e s : requested r e s -> Endpoint_IsSETUPReceived (loaded r e s) = true.
Proof.
  intros Hq. unfold Endpoint_IsSETUPReceived. rewrite (at_cur _ _ _ (proj2 (read_header_spec r e s Hq))).
  by destruct Hq as (_ & Hr & _).
Qed.

(** *** Refused requests *)

(** The requests the library does not serve: of another type or number, a descriptor or a
    configuration the device does not have, a feature it does not know, or a halt of the control
    endpoint. *)
Definition refused (r : USB_Request_Header_t) : bool :=
  let t := bmRequestType r in
  let q := bRequest r in
  if q =? 0 then negb ((t =? 128) || (t =? 130))
  else if (q =? 1) || (q =? 3) then
    if t =? 0 then negb (u8 (wValue r) =? 1)
    else if t =? 2 then (u8 (wValue r) =? 0) && (Z.land (u8 (wIndex r)) 15 =? 0)
    else true
  else if q =? 5 then negb (t =? 0)
  else if q =? 6 then
    negb ((t =? 128) || (t =? 129)) ||
    negb (wValue r =? 988) && (fst (CALLBACK_USB_GetDescriptor (wValue r) (u8 (wIndex r))) =? 0)
  else if q =? 8 then negb (t =? 128)
  else if q =? 9 then
    negb (t =? 0) ||
    (let '(size, mem) := CALLBACK_USB_GetDescriptor 256 0 in
     (size =? 0) || match aget mem 17 with Some n => n <? u8 (wValue r) | None => false end)
  else true.

Lemma dispatch_refused r s evs :
  USB_ControlRequest s = r -> refused r = true -> dispatch s evs = Ok (tt, s, evs).
Proof.
  intros Hr. unfold refused, dispatch. rewrite bind_get, Hr.
  change REQ_GetStatus with 0. change REQ_ClearFeature with 1. change REQ_SetFeature with 3.
  change REQ_SetAddress with 5. change REQ_GetDescriptor with 6. change REQ_GetConfiguration with 8.
  change REQ_SetConfiguration with 9.
  change (standard REQDIR_DEVICETOHOST REQREC_DEVICE) with 128. change (standard REQDIR_DEVICETOHOST REQREC_ENDPOINT) with 130.
  change (standard REQDIR_DEVICETOHOST REQREC_INTERFACE) with 129.
  change (standard REQDIR_HOSTTODEVICE REQREC_DEVICE) with 0. change (standard REQDIR_HOSTTODEVICE REQREC_ENDPOINT) with 2.
  destruct (bRequest r =? 0). { destruct (_ || _); done. }
  destruct (_ || _).
  { destruct (Z.eqb_spec (bmRequestType r) 0) as [E|_].
    - cbn [orb]. cbv iota. unfold USB_Device_ClearSetFeature. rewrite bind_get, Hr, E. change (Z.land 0 CONTROL_REQTYPE_RECIPIENT =? REQREC_DEVICE) with true.
      change FEATURE_SEL_DeviceRemoteWakeup with 1. cbv iota. by destruct (u8 (wValue r) =? 1).
    - destruct (Z.eqb_spec (bmRequestType r) 2) as [E|_]; [|done]. cbn [orb]. cbv iota. unfold USB_Device_ClearSetFeature.
      rewrite bind_get, Hr, E. change (Z.land 2 CONTROL_REQTYPE_RECIPIENT =? REQREC_DEVICE) with false.
      change (Z.land 2 CONTROL_REQTYPE_RECIPIENT =? REQREC_ENDPOINT) with true.
      change FEATURE_SEL_EndpointHalt with 0. change ENDPOINT_EPNUM_MASK with 15. change ENDPOINT_CONTROLEP with 0. cbv iota.
      by intros [-> ->]%andb_prop. }
  destruct (bRequest r =? 5). { by destruct (bmRequestType r =? 0). }
  destruct (bRequest r =? 6).
  { destruct ((bmRequestType r =? 128) || (bmRequestType r =? 129)); [|done]. cbn [orb negb]. cbv iota. unfold USB_Device_GetDescriptor. rewrite !bind_get, Hr.
    change (Z.lor (Z.shiftl DTYPE_String 8) USE_INTERNAL_SERIAL) with 988. change NO_DESCRIPTOR with 0.
    destruct (wValue r =? 988); [done|]. cbn [andb negb]. destruct (CALLBACK_USB_GetDescriptor _ _) as [size mem]. simpl. by intros ->. }
  destruct (bRequest r =? 8). { by destruct (bmRequestType r =? 128). }
  destruct (bRequest r =? 9); [|done]. destruct (bmRequestType r =? 0); [|done]. cbn [orb negb].
  unfold USB_Device_SetConfiguration. rewrite bind_get, Hr. change (Z.shiftl DTYPE_Device 8) with 256. change NO_DESCRIPTOR with 0.
  destruct (CALLBACK_USB_GetDescriptor 256 0) as [size mem]. destruct (size =? 0); [done|]. cbn [orb].
  destruct (aget mem 17) as [n|]; [|done]. intros Hn.
  unfold mbind, M_bind, op. simpl. by rewrite Hn.
Qed.

(** The application does not answer the request. *)
Definition declines (r : USB_Request_Header_t) : Prop :=
  forall s evs, USB_ControlRequest s = r -> EVENT_USB_Device_ControlRequest s evs = Ok (tt, s, evs).

Lemma process_eq r e s evs :
  requested r e s -> declines r ->
  USB_Device_ProcessControlRequest s evs =
  (_ ← dispatch;
   setup ← get Endpoint_IsSETUPReceived;
   if setup : bool then _ ← run Endpoint_ClearSETUP; run Endpoint_StallTransaction else mret tt)
    (loaded r e s) evs.
Proof.
  intros Hq Hd. destruct (read_header_spec r e s Hq) as [Hh Ha]. unfold USB_Device_ProcessControlRequest.
  rewrite (bind_op _ _ _ _ _ _ Hh), (bind_ok _ _ _ _ _ _ _ (Hd (loaded r e s) evs eq_refl)), bind_get.
  by rewrite (loaded_setup r e s Hq).
Qed.

Lemma refused_stalls r e s evs :
  requested r e s -> declines r -> refused r = true ->
  USB_Device_ProcessControlRequest s evs =
  Ok (tt, put0 (e <| RXSTPI := false |> <| setup := [] |> <| filling := [] |> <| STALLRQ := true |>) s
            <| USB_ControlRequest := r |>, evs).
Proof.
  intros Hq Hd Href. rewrite (process_eq r e s evs Hq Hd).
  destruct (read_header_spec r e s Hq) as [_ Ha].
  rewrite (bind_ok _ _ _ _ _ _ _ (dispatch_refused r (loaded r e s) evs eq_refl Href)), bind_get.
  rewrite (loaded_setup r e s Hq), bind_run.
  destruct (at_put0 _ _ (fun e => e <| RXSTPI := false |> <| setup := [] |> <| filling := [] |>) Ha) as [H1 Ha1].
  unfold Endpoint_ClearSETUP. rewrite H1. unfold run, Endpoint_StallTransaction.
  destruct (at_put0 _ _ (fun e => e <| STALLRQ := true |>) Ha1) as [H2 _]. rewrite H2. rewrite put0_put0.
  do 2 f_equal. unfold loaded, put0. destruct s, e. unfold set_field. simpl. by rewrite list_insert_insert_eq.
Qed.

(** *** Served requests *)

Lemma served r e s evs s1 e1 evs1 :
  requested r e s -> declines r -> dispatch (loaded r e s) evs = Ok (tt, s1, evs1) ->
  at_ep 0 e1 s1 -> RXSTPI e1 = false ->
  USB_Device_ProcessControlRequest s evs = Ok (tt, s1, evs1).
Proof.
  intros Hq Hd Hdis Ha Hr. rewrite (process_eq r e s evs Hq Hd), (bind_ok _ _ _ _ _ _ _ Hdis), bind_get.
  unfold Endpoint_IsSETUPReceived. by rewrite (at_cur _ _ _ Ha), Hr.
Qed.

(** A request the application answers. *)
Lemma request_handled r e s evs s1 evs1 :
  requested r e s -> EVENT_USB_Device_ControlRequest (loaded r e s) evs = Ok (tt, s1, evs1) ->
  Endpoint_IsSETUPReceived s1 = false -> USB_Device_ProcessControlRequest s evs = Ok (tt, s1, evs1).
Proof.
  intros Hq Hh Hs. destruct (read_header_spec r e s Hq) as [Hrd _]. unfold USB_Device_ProcessControlRequest.
  rewrite (bind_op _ _ _ _ _ _ Hrd), (bind_ok _ _ _ _ _ _ _ Hh), bind_get. by rewrite Hs, bind_ret, bind_get, Hs.
Qed.

(** The control endpoint after its SETUP packet has been acknowledged. *)
Definition acked (e0 : endpoint) : endpoint := reset_fifo e0 <| STALLRQ := false |>.

Lemma setup_requested r e0 s : at_ep 0 (take_setup (header_bytes r) e0) s -> requested r (take_setup (header_bytes r) e0) s.
Proof. intros Ha. by split. Qed.

Lemma clear_setup r e0 s :
  at_ep 0 (take_setup (header_bytes r) e0) s ->
  Endpoint_ClearSETUP (loaded r (take_setup (header_bytes r) e0) s) = put0 (acked e0) s <| USB_ControlRequest := r |> /\
  at_ep 0 (acked e0) (put0 (acked e0) s <| USB_ControlRequest := r |>).
Proof.
  intros Ha. destruct (read_header_spec r _ s (setup_requested r e0 s Ha)) as [_ Hl].
  destruct (at_put0 _ _ (fun e => e <| RXSTPI := false |> <| setup := [] |> <| filling := [] |>) Hl) as [H1 H2].
  assert (Endpoint_ClearSETUP (loaded r (take_setup (header_bytes r) e0) s) = put0 (acked e0) s <| USB_ControlRequest := r |>) as E.
  { unfold Endpoint_ClearSETUP. rewrite H1. unfold loaded, put0. destruct s, e0. unfold set_field. simpl.
    by rewrite list_insert_insert_eq. }
  split; [done|]. rewrite <- E. unfold Endpoint_ClearSETUP. rewrite H1. by destruct e0.
Qed.

(** A host that asks for a descriptor, takes packets and completes the transfer. *)
Lemma descriptor_served r e0 s evs later size mem :
  at_ep 0 (take_setup (header_bytes r) e0) s -> EPEN e0 = true -> sized e0 s -> quiet s -> present s -> declines r ->
  bRequest r = REQ_GetDescriptor ->
  bmRequestType r = standard REQDIR_DEVICETOHOST REQREC_DEVICE \/ bmRequestType r = standard REQDIR_DEVICETOHOST REQREC_INTERFACE ->
  wValue r <> 988 -> CALLBACK_USB_GetDescriptor (wValue r) (u8 (wIndex r)) = (size, mem) ->
  0 < size <= Z.of_nat (length mem) -> Forall is_u8 mem -> 0 < wLength r -> forallb patient evs = true ->
  exists s' e', USB_Device_ProcessControlRequest s (evs ++ Out 0 [] :: later) = Ok (tt, s', later) /\
    at_ep 0 e' s' /\ core s' = core (s <| USB_ControlRequest := r |>) /\ quiet s' /\
    STALLRQ e' = false /\ RXSTPI e' = false /\ received e' = [] /\
    taken e' = taken e0 ++ take (ins 0 evs) (packets (bank_size e0) (take (Z.to_nat (Z.min size (wLength r))) mem)).
Proof.
  intros Ha Hen Hsz Hq Hp Hd Hreq Ht Hv Hcb HL Hu Hw Hev.
  destruct (clear_setup r e0 s Ha) as [Hcs Ha1].
  set (s1 := put0 (acked e0) s <| USB_ControlRequest := r |>) in *.
  destruct (control_w_delivers mem size 0 s1 (acked e0) evs later) as (s2 & Hcw & e2 & Ha2 & Hc2 & Hq2 & Hx1 & Hx2 & Hx3 & Hx4 & Ht2);
    try done.
  pose proof (at_on_cur 0 e2 s2 (fun e => e <| received ::= tail |>) Ha2) as Ha3.
  exists (Endpoint_ClearOUT s2), (e2 <| received ::= tail |>). split; [|].
  - eapply served; [by apply setup_requested|done| |exact Ha3|done].
    unfold dispatch. rewrite bind_get. change (USB_ControlRequest (loaded r _ s)) with r. rewrite Hreq. eqbs.
    replace (_ || _) with true by (destruct Ht as [-> | ->]; done). cbv iota.
    unfold USB_Device_GetDescriptor. rewrite !bind_get. change (USB_ControlRequest (loaded r _ s)) with r.
    change (Z.lor (Z.shiftl DTYPE_String 8) USE_INTERNAL_SERIAL) with 988. change NO_DESCRIPTOR with 0.
    rewrite (proj2 (Z.eqb_neq _ _) Hv), Hcb, (proj2 (Z.eqb_neq size 0)) by lia.
    rewrite bind_run, Hcs. fold s1. unfold Endpoint_Write_Control_PStream_LE.
    by rewrite (bind_ok _ _ _ _ _ _ _ Hcw).
  - split; [exact Ha3|]. split; [exact Hc2|]. split; [done|]. split; [done|]. split; [done|].
    split; [simpl; by rewrite Hx4|exact Ht2].
Qed.

(** *** Requests without data *)

Lemma TXINI_free e : armed e = [] -> TXINI e = true.
Proof. intros Ha. unfold TXINI. rewrite Ha. pose proof (banks_pos e). apply Nat.ltb_lt. simpl. lia. Qed.

(** The status stage of a request to the device: the empty packet is armed at once. *)
Lemma status_in e s evs :
  at_ep 0 e s -> armed e = [] -> Z.land (bmRequestType (USB_ControlRequest s)) REQDIR_DEVICETOHOST = 0 ->
  Endpoint_ClearStatusStage s evs = Ok (tt, put0 (e <| armed := [filling e] |> <| filling := [] |>) s, evs) /\
  at_ep 0 (e <| armed := [filling e] |> <| filling := [] |>) (put0 (e <| armed := [filling e] |> <| filling := [] |>) s).
Proof.
  intros Ha He Hd.
  destruct (at_put0 e s (fun e => if TXINI e then e <| armed ::= fun l => l ++ [filling e] |> <| filling := [] |> else e) Ha)
    as [Hp Ha']. rewrite (TXINI_free e He) in Hp, Ha'.
  assert (e <| armed ::= fun l => l ++ [filling e] |> <| filling := [] |> = e <| armed := [filling e] |> <| filling := [] |>) as E.
  { destruct e. unfold set_field. simpl in *. by rewrite He. }
  rewrite E in Hp, Ha'. split; [|done].
  unfold Endpoint_ClearStatusStage. rewrite bind_get, Hd. change (negb (0 =? 0)) with false. cbv iota.
  unfold mbind, M_bind, wait_attached. rewrite spin_eq. unfold Endpoint_IsINReady.
  rewrite (at_cur _ _ _ Ha), (TXINI_free e He). unfold run, Endpoint_ClearIN. by rewrite Hp.
Qed.

Definition in_ready_turn (_ : unit) s : res ((unit + unit) * usb App) :=
  Ok (if Endpoint_IsINReady s then inl tt else inr tt, s).

Lemma in_ready_eq e s : at_ep 0 e s -> in_ready_turn tt s = Ok (if TXINI e then inl tt else inr tt, s).
Proof. intros Ha. unfold in_ready_turn, Endpoint_IsINReady. by rewrite (at_cur _ _ _ Ha). Qed.

(** How often the host asks for a packet, and what the address register holds whenever it does. *)
Definition collects (ev : bus_event) : bool := match ev with In _ => true | _ => false end.
Definition polls (evs : list bus_event) : nat := length (List.filter collects evs).
Lemma tick_tokens ev s : packet_event ev = true -> quiet s ->
  tokens (tick ev s) = tokens s ++ replicate (polls [ev]) (UDADDR s).
Proof.
  intros He Hq. unfold tick. rewrite vect_quiet.
  - unfold vect_sof. destruct (fires SOFI _); by destruct ev; simpl; rewrite ?app_nil_r.
  - intros i Hi. specialize (Hq i Hi). destruct ev; try done. unfold hardware, raise_int, fires. simpl.
    by rewrite decide_False.
Qed.
Lemma polls_cons ev evs : polls (ev :: evs) = (polls [ev] + polls evs)%nat.
Proof. unfold polls. simpl. by destruct (collects ev). Qed.

(** The wait for the host to collect a packet from a single bank. *)
Lemma wait_collected p later : forall evs s e,
  at_ep 0 e s -> quiet s -> ready e -> armed e = [p] -> banks e = 1%nat ->
  forallb patient evs = true -> ins 0 evs = 0%nat ->
  spin in_ready_turn tt s evs = Hang /\
  exists s' e', spin in_ready_turn tt s (evs ++ In 0 :: later) = Ok (tt, s', later) /\
    at_ep 0 e' s' /\ core s' = core s /\ quiet s' /\ taken e' = taken e ++ [p] /\ ready e' /\ armed e' = [] /\
    UECFG1X e' = UECFG1X e /\ tokens s' = tokens s ++ replicate (S (polls evs)) (UDADDR s).
Proof.
  induction evs as [|ev evs IH]; intros s e Ha Hq Hr Harm Hb Hev Hin; rewrite !spin_eq, (in_ready_eq e s Ha).
  all: assert (TXINI e = false) as -> by (unfold TXINI; by rewrite Harm, Hb).
  - split; [done|]. rewrite app_nil_l. destruct (at_tick_packet 0 e s (In 0) Ha Hq) as (Ha1 & Hc1 & Hq1); [done|].
    destruct (act_patient 0 (In 0) e) as (Hr1 & Hcfg & _ & Ht & Har); [done..|].
    rewrite Harm in Ht, Har. change (ins 0 [In 0]) with 1%nat in *. simpl in Ht, Har.
    exists (tick (In 0) s), (act 0 (In 0) e). split; [|split_and!; try done; by apply (tick_tokens (In 0))].
    by rewrite spin_eq, (in_ready_eq _ _ Ha1), TXINI_free.
  - rewrite <- app_comm_cons. simpl in Hev. apply andb_prop in Hev as [Hv Hev]. rewrite ins_cons in Hin.
    assert (ins 0 [ev] = 0%nat) as Hi0 by lia.
    destruct (at_tick_packet 0 e s ev Ha Hq) as (Ha1 & Hc1 & Hq1); [by destruct ev|].
    destruct (act_patient 0 ev e Hv Hr) as (Hr1 & Hcfg & _ & Ht & Har). rewrite Hi0, take_0, app_nil_r in Ht.
    rewrite Hi0, drop_0 in Har.
    destruct (IH (tick ev s) (act 0 ev e)) as (Hh & s' & e' & Hs & Ha2 & Hc2 & Hq2 & Ht2 & Hx & Hx1 & Hx2 & Hx3); try done; try congruence.
    { unfold banks in *. by rewrite Hcfg. }
    { lia. }
    split; [done|]. exists s', e'. split; [done|]. split; [done|]. split; [congruence|]. split; [done|].
    split; [congruence|]. split; [done|]. split; [done|]. split; [congruence|].
    rewrite Hx3, tick_tokens, (polls_cons ev evs) by (done || by destruct ev). injection Hc1 as _ _ _ _ _ _ _ -> _ _.
    rewrite <- app_assoc, <- replicate_add, Nat.add_succ_r. done.
Qed.

Lemma address_register u w :
  0 <= w -> sbi (Z.lor (Z.land u (BV ADDEN)) (Z.land (Z.land w 127) 127)) ADDEN = 128 + w mod 128.
Proof.
  intros Hw. change 127 with (Z.ones 7). rewrite !Z.land_ones by lia. change (2 ^ 7) with 128.
  rewrite Z.mod_mod by lia. unfold sbi. change (BV ADDEN) with (Z.shiftl 1 7).
  assert (0 <= w mod 128 < 128) as Hr by (Z.div_mod_to_equations; lia).
  replace (128 + w mod 128) with (1 * 2 ^ 7 + w mod 128) by lia. rewrite <- lor_shiftl_add by lia.
  apply Z.bits_inj'. intros i Hi. rewrite !Z.lor_spec, Z.land_spec. destruct (Z.testbit u i), (Z.testbit (Z.shiftl 1 7) i), (Z.testbit (w mod 128) i); done.
Qed.

(** The control endpoint and the registers after the status packet of a request to the device
    has been armed. *)
Definition answered (r : USB_Request_Header_t) (e0 : endpoint) s : usb App :=
  put0 (acked e0 <| armed := [[]] |>) s <| USB_ControlRequest := r |>.

Lemma address_served r e0 s evs later :
  at_ep 0 (take_setup (header_bytes r) e0) s -> EPEN e0 = true -> banks e0 = 1%nat -> quiet s -> declines r ->
  bRequest r = REQ_SetAddress -> bmRequestType r = standard REQDIR_HOSTTODEVICE REQREC_DEVICE -> 0 <= wValue r ->
  forallb patient evs = true -> ins 0 evs = 0%nat ->
  USB_Device_ProcessControlRequest s evs = Hang /\
  exists s' e', USB_Device_ProcessControlRequest s (evs ++ In 0 :: later) = Ok (tt, s', later) /\
    at_ep 0 e' s' /\ taken e' = taken e0 ++ [[]] /\ UDADDR s' = 128 + wValue r mod 128 /\
    USB_DeviceState s' = (if wValue r mod 128 =? 0 then Default else Addressed) /\
    USB_Device_ConfigurationNumber s' = USB_Device_ConfigurationNumber s /\
    quiet s' /\ ready e' /\ armed e' = [] /\ UECFG1X e' = UECFG1X e0 /\ app s' = app s /\
    tokens s' = tokens s ++ replicate (S (polls evs)) (Z.lor (Z.land (UDADDR s) (BV ADDEN)) (wValue r mod 128)).
Proof.
  intros Ha Hen Hb Hq Hd Hreq Hty Hw Hev Hin.
  set (A := Z.land (wValue r) 127).
  set (s0 := USB_Device_SetDeviceAddress A (loaded r (take_setup (header_bytes r) e0) s)).
  set (s1 := USB_Device_SetDeviceAddress A (put0 (acked e0) s <| USB_ControlRequest := r |>)).
  destruct (clear_setup r e0 s Ha) as [Hcs Ha1].
  assert (Endpoint_ClearSETUP s0 = s1) as Hc0.
  { subst s0 s1. rewrite <- Hcs. done. }
  destruct (status_in (acked e0) s1 evs) as [_ Ha2]; [done|done|change (Z.land (bmRequestType r) REQDIR_DEVICETOHOST = 0); by rewrite Hty|].
  set (e2 := acked e0 <| armed := [filling (acked e0)] |> <| filling := [] |>) in *. set (s2 := put0 e2 s1) in *.
  assert (forall evs', dispatch (loaded r (take_setup (header_bytes r) e0) s) evs'
    = (_ ← spin in_ready_turn tt; _ ← run USB_Device_EnableDeviceAddress;
       run (fun s => s <| USB_DeviceState := if negb (A =? 0) then Addressed else Default |>)) s2 evs') as Hdis.
  { intros evs'. unfold dispatch. rewrite bind_get. change (USB_ControlRequest (loaded r _ s)) with r. rewrite Hreq, Hty. eqbs.
    unfold USB_Device_SetAddress. rewrite bind_get, !bind_run. change (USB_ControlRequest (loaded r _ s)) with r. fold A s0. rewrite Hc0.
    destruct (status_in (acked e0) s1 evs') as [Hst _]; [done|done|change (Z.land (bmRequestType r) REQDIR_DEVICETOHOST = 0); by rewrite Hty|].
    by rewrite (bind_ok _ _ _ _ _ _ _ Hst). }
  destruct (wait_collected [] later evs s2 e2) as (Hh & s3 & e3 & Hs3 & Ha3 & Hc3 & Hq3 & Ht3 & Hx3 & Hx4 & Hx5 & Hx6); try done.
  split.
  { rewrite (process_eq r _ s evs (setup_requested r e0 s Ha) Hd). unfold mbind at 1, M_bind at 1. rewrite Hdis.
    unfold mbind, M_bind. by rewrite Hh. }
  eexists _, e3. split; [|split].
  - eapply served; [by apply setup_requested|done| | |apply Hx3].
    + by rewrite Hdis, (bind_ok _ _ _ _ _ _ _ Hs3), bind_run.
    + exact Ha3.
  - exact Ha3.
  - injection Hc3 as _ Hcn _ _ _ _ _ Had _ Happ. split; [done|]. split; [|split].
    + simpl. rewrite Had. subst s2 s1. simpl. by apply address_register.
    + simpl. subst A. change 127 with (Z.ones 7). rewrite Z.land_ones by lia.
      change (2 ^ 7) with 128. by destruct (wValue r mod 128 =? 0).
    + split_and!; try done. etrans; [exact Hx6|]. change (tokens s2) with (tokens s). do 2 f_equal. subst s2 s1 A. simpl.
      change 127 with (Z.ones 7). rewrite !Z.land_ones by lia. change (2 ^ 7) with 128. by rewrite Z.mod_mod by lia.
Qed.

(** The configuration is recorded, the status packet is armed and the application is called. *)
Lemma configuration_served r e0 s evs size mem n s2 evs2 :
  at_ep 0 (take_setup (header_bytes r) e0) s -> declines r ->
  bRequest r = REQ_SetConfiguration -> bmRequestType r = standard REQDIR_HOSTTODEVICE REQREC_DEVICE ->
  CALLBACK_USB_GetDescriptor 256 0 = (size, mem) -> size <> 0 -> aget mem 17 = Some n -> u8 (wValue r) <= n ->
  EVENT_USB_Device_ConfigurationChanged
    (answered r e0 s <| USB_Device_ConfigurationNumber := u8 (wValue r) |>
       <| USB_DeviceState := if (u8 (wValue r) =? 0) && negb (USB_Device_IsAddressSet s) then Powered else Configured |>)
    evs = Ok (tt, s2, evs2) ->
  Endpoint_IsSETUPReceived s2 = false ->
  USB_Device_ProcessControlRequest s evs = Ok (tt, s2, evs2).
Proof.
  intros Ha Hd Hreq Hty Hcb Hsz Hn Hle Hev Hx2.
  assert (dispatch (loaded r (take_setup (header_bytes r) e0) s) evs = Ok (tt, s2, evs2)) as Hdis.
  2: { rewrite (process_eq _ _ s evs (setup_requested r e0 s Ha) Hd), (bind_ok _ _ _ _ _ _ _ Hdis), bind_get. by rewrite Hx2. }
  destruct (clear_setup r e0 s Ha) as [Hcs Ha1].
  unfold dispatch. rewrite bind_get. change (USB_ControlRequest (loaded r _ s)) with r. rewrite Hreq, Hty. eqbs.
  unfold USB_Device_SetConfiguration. rewrite bind_get. change (USB_ControlRequest (loaded r _ s)) with r.
  change (Z.shiftl DTYPE_Device 8) with 256. change NO_DESCRIPTOR with 0.
  rewrite Hcb, (proj2 (Z.eqb_neq _ _) Hsz).
  rewrite (bind_op _ _ _ n (loaded r (take_setup (header_bytes r) e0) s)) by (by rewrite Hn).
  rewrite (proj2 (Z.ltb_ge _ _)) by done. rewrite !bind_run, Hcs.
  set (s1 := _ <| USB_Device_ConfigurationNumber := _ |>).
  destruct (status_in (acked e0) s1 evs) as [Hst _]; [done|done|change (Z.land (bmRequestType r) REQDIR_DEVICETOHOST = 0); by rewrite Hty|].
  rewrite (bind_ok _ _ _ _ _ _ _ Hst), bind_run, <- Hev. f_equal. subst s1. unfold answered, put0. unfold USB_Device_IsAddressSet. simpl.
  destruct s, e0. unfold set_field. simpl. rewrite list_insert_insert_eq. f_equal. by destruct (u8 (wValue r) =? 0), (Z.land UDADDR0 (BV ADDEN) =? 0).
Qed.

(** The host takes the status packet and sends the next request. *)
Lemma next_request r e s : at_ep 0 e s -> quiet s -> ready e ->
  exists e', at_ep 0 (take_setup (header_bytes r) e') (tick (Setup (header_bytes r)) (tick (In 0) s)) /\
    core (tick (Setup (header_bytes r)) (tick (In 0) s)) = core s /\ quiet (tick (Setup (header_bytes r)) (tick (In 0) s)) /\
    EPEN e' = true /\ UECFG1X e' = UECFG1X e /\ taken e' = taken e ++ take 1 (armed e).
Proof.
  intros Ha Hq Hr. destruct (at_tick_packet 0 e s (In 0) Ha Hq) as (Ha2 & Hc2 & Hq2); [done|].
  destruct (act_patient 0 (In 0) e) as ((Hen2 & _) & Hcfg2 & _ & Ht2 & _); [done|done|].
  change (ins 0 [In 0]) with 1%nat in Ht2.
  destruct (at_tick_packet 0 _ _ (Setup (header_bytes r)) Ha2 Hq2) as (Ha3 & Hc3 & Hq3); [done|].
  exists (act 0 (In 0) e). split; [exact Ha3|]. split; [congruence|]. by split_and!.
Qed.

(** ** The task between requests *)

Lemma select_current s : 0 <= UENUM s < 8 ->
  Endpoint_SelectEndpoint (Endpoint_GetCurrentEndpoint s) (Endpoint_SelectEndpoint ENDPOINT_CONTROLEP s) = s.
Proof.
  intros Hu. unfold Endpoint_SelectEndpoint, Endpoint_GetCurrentEndpoint, Endpoint_GetEndpointDirection.
  assert (Z.land (Z.land (Z.lor (Z.land (UENUM s) ENDPOINT_EPNUM_MASK)
    (if Z.testbit (UECFG0X (cur s)) EPDIR then ENDPOINT_DIR_IN else 0)) ENDPOINT_EPNUM_MASK) 7 = UENUM s) as ->.
  { assert (UENUM s = 0 \/ UENUM s = 1 \/ UENUM s = 2 \/ UENUM s = 3 \/ UENUM s = 4 \/ UENUM s = 5 \/ UENUM s = 6 \/ UENUM s = 7)
      as Hc by lia. destruct (Z.testbit _ _); by destruct Hc as [->|[->|[->|[->|[->|[->|[->| ->]]]]]]]. }
  by destruct s.
Qed.

(** With a SETUP packet the task processes the request. *)
Lemma device_task_setup r e s evs s' evs' :
  requested r e (Endpoint_SelectEndpoint ENDPOINT_CONTROLEP s) -> USB_DeviceState s <> Unattached ->
  USB_Device_ProcessControlRequest (Endpoint_SelectEndpoint ENDPOINT_CONTROLEP s) evs = Ok (tt, s', evs') ->
  USB_DeviceTask s evs = Ok (tt, Endpoint_SelectEndpoint (Endpoint_GetCurrentEndpoint s) s', evs').
Proof.
  intros (Ha & Hx & _) Hst Hp. unfold USB_DeviceTask. rewrite bind_get, decide_False, bind_get, bind_run, bind_get by done.
  unfold Endpoint_IsSETUPReceived. rewrite (at_cur _ _ _ Ha), Hx. by rewrite (bind_ok _ _ _ _ _ _ _ Hp).
Qed.
(** Without a SETUP packet the task does nothing. *)
Lemma device_task_idle evs s : no_control evs s -> USB_DeviceTask s evs = Ok (tt, s, evs).
Proof.
  intros ((e0 & He & Hx) & Hu & _). unfold USB_DeviceTask. rewrite bind_get. case_decide; [done|].
  rewrite bind_get, bind_run, bind_get.
  assert (at_ep 0 e0 (Endpoint_SelectEndpoint ENDPOINT_CONTROLEP s)) as Ha by done.
  unfold Endpoint_IsSETUPReceived. rewrite (at_cur _ _ _ Ha), Hx, bind_ret. unfold run. by rewrite select_current.
Qed.
End Device.

(** ** Theorems *)

(** Every request that neither the application nor the library serves is answered with a
    stall of the control endpoint, and nothing else changes: no address, configuration, feature or
    other endpoint, and no waiting. *)
Theorem refused_requests_stall {App} `{UsbChip} (control changed : M (App:=App) unit) descriptors signature
  (r : USB_Request_Header_t) e (s : usb App) evs :
  requested r e s -> declines control r -> refused descriptors r = true ->
  USB_Device_ProcessControlRequest control changed descriptors signature s evs =
  Ok (tt, put0 (e <| RXSTPI := false |> <| setup := [] |> <| filling := [] |> <| STALLRQ := true |>) s
            <| USB_ControlRequest := r |>, evs).
Proof. apply refused_stalls. Qed.

(** The device takes its new address only after the status stage: while the host has not
    collected the empty status packet, the handler does not get past its wait; once it has, the
    address register holds the seven bits of the request with the enable bit set, and the device
    is addressed (or in the default state again, for address 0). *)
Theorem set_address_after_status {App} `{UsbChip} (control changed : M (App:=App) unit) descriptors signature
  (r : USB_Request_Header_t) e0 (s : usb App) evs later :
  at_ep 0 (take_setup (header_bytes r) e0) s -> EPEN e0 = true -> banks e0 = 1%nat -> quiet s ->
  declines control r -> bRequest r = REQ_SetAddress ->
  bmRequestType r = standard REQDIR_HOSTTODEVICE REQREC_DEVICE -> 0 <= wValue r ->
  forallb patient evs = true -> ins 0 evs = 0%nat ->
  USB_Device_ProcessControlRequest control changed descriptors signature s evs = Hang /\
  exists s' e', USB_Device_ProcessControlRequest control changed descriptors signature s (evs ++ In 0 :: later)
      = Ok (tt, s', later) /\
    at_ep 0 e' s' /\ taken e' = taken e0 ++ [[]] /\ UDADDR s' = 128 + wValue r mod 128 /\
    USB_DeviceState s' = (if wValue r mod 128 =? 0 then Default else Addressed) /\
    USB_Device_ConfigurationNumber s' = USB_Device_ConfigurationNumber s.
Proof.
  intros Ha Hen Hb Hq Hd Hreq Hty Hv Hev Hin.
  destruct (address_served control changed descriptors signature r e0 s evs later) as (Hh & s' & e' & H1 & H2 & H3 & H4 & H5 & H6 & _); try done.
  split; [done|]. by exists s', e'.
Qed.

(** A configuration the device has is recorded, the status packet is armed and the
    application is called in the state [Configured]; so is it for configuration 0 of an addressed
    device, which the USB specification returns to the state [Addressed]. *)
Theorem set_configuration_calls_application {App} `{UsbChip} (control changed : M (App:=App) unit) descriptors signature
  (r : USB_Request_Header_t) e0 (s : usb App) evs size mem n s2 evs2 :
  at_ep 0 (take_setup (header_bytes r) e0) s -> declines control r ->
  bRequest r = REQ_SetConfiguration -> bmRequestType r = standard REQDIR_HOSTTODEVICE REQREC_DEVICE ->
  descriptors 256 0 = (size, mem) -> size <> 0 -> aget mem 17 = Some n -> u8 (wValue r) <= n ->
  changed (answered r e0 s <| USB_Device_ConfigurationNumber := u8 (wValue r) |>
       <| USB_DeviceState := if (u8 (wValue r) =? 0) && negb (USB_Device_IsAddressSet s) then Powered else Configured |>)
    evs = Ok (tt, s2, evs2) ->
  Endpoint_IsSETUPReceived s2 = false ->
  USB_Device_ProcessControlRequest control changed descriptors signature s evs = Ok (tt, s2, evs2).
Proof. apply configuration_served. Qed.

(** C32: a data stream read of [l] bytes from an OUT endpoint, for any application, under any
    events without control requests and bus resets: the bytes stored are the first of what the
    controller has taken from the host, in order, and they go to the next places of the buffer and
    nowhere else; without error all [l] are there, and a transfer left incomplete counts how many
    are. It returns once the bus has seen the frames of its timeouts. *)
Theorem read_stream_in_order {App} `{UsbChip} (control changed : M (App:=App) unit) descriptors signature
  mem Length p l n r0 (s : usb App) evs :
  let task := USB_DeviceTask control changed descriptors signature in
  let q := (length (received (cur s)) + length (outs n evs))%nat in
  0 < n -> out_state n [] r0 evs q (steady s) evs s -> no_control evs s ->
  0 <= default 0 p <= Length -> Length <= Z.of_nat (length mem) -> Length < 65536 -> Z.of_nat l = Length - default 0 p ->
  match Endpoint_Read_Stream_LE task mem Length p s evs with
  | Fault => False
  | Hang => (changes (UDFNUM s) evs < WAIT * S (l + q))%nat
  | Ok ((err, mem', p'), s', evs') => exists bs q', out_state n bs r0 evs q' (steady s) evs' s' /\
      mem' = take (Z.to_nat (default 0 p)) mem ++ bs ++ drop (Z.to_nat (default 0 p) + length bs) mem /\
      match err with
      | NoError => length bs = l /\ p' = p
      | IncompleteTransfer => (length bs <= l)%nat /\ p = Some (default 0 p) /\ p' = Some (default 0 p + Z.of_nat (length bs))
      | _ => (length bs <= l)%nat /\ p' = p
      end
  end.
Proof.
  intros task q Hn Hout Hc Hp Hmem Hlen Hl.
  pose proof (read_stream task no_control n Hn no_control_stable (fun f evs s _ => no_control_on_cur n Hn f evs s)
    (fun evs s Hc _ => device_task_idle control changed descriptors signature evs s Hc) LE mem Length p l [] r0 evs q (steady s) s evs
    Hout Hc) as Hr.
  simpl buffer_offset in Hr. simpl buffer_step in Hr. rewrite Z.add_0_l, Z.mul_1_l in Hr.
  rewrite u16_small in Hr by (unfold is_u16; lia). specialize (Hr (room_LE mem (default 0 p) l ltac:(lia) ltac:(lia)) Hl).
  unfold Endpoint_Read_Stream_LE. destruct (Stream_RW _ _ _ _ _ _ _ _) as [[[[[err mem'] p'] s'] evs']| |]; [|done..].
  destruct Hr as ((bs & H1 & _ & H3 & H4 & H5) & _). exists bs, q. split; [done|].
  split; [by apply store_LE; [lia|]|]. destruct err; try done; try by destruct H5.
  destruct H5 as (p0 & -> & ->). simpl in *. split; [done|]. split; [done|]. f_equal. rewrite Z.add_0_r. apply u16_small.
  unfold is_u16. lia.
Qed.

(** *** Witnesses *)

(** An application without requests of its own, and a device with the request in its control
    endpoint. *)
Definition w_control : M (App:=unit) unit := mret tt.
Definition w_descriptors (v i : Z) : Z * list Z := if v =? 256 then (18, replicate 17 0 ++ [1]) else (0, []).
Definition w_asked (r : USB_Request_Header_t) : usb unit :=
  fresh_device (take_setup (header_bytes r) control_endpoint) no_request tt.

Lemma refused_requests_stall_witness :
  let r := mkRequest 128 6 512 0 64 in
  @USB_Device_ProcessControlRequest unit some_chip w_control w_control w_descriptors (fun _ => 0) (w_asked r) [] =
  Ok (tt, put0 (take_setup (header_bytes r) control_endpoint <| RXSTPI := false |> <| setup := [] |>
            <| filling := [] |> <| STALLRQ := true |>) (w_asked r) <| USB_ControlRequest := r |>, []).
Proof.
  apply (@refused_requests_stall unit some_chip w_control w_control w_descriptors (fun _ => 0)).
  - by repeat split.
  - intros s evs _. reflexivity.
  - reflexivity.
Defined.

Lemma set_address_after_status_witness :
  let r := mkRequest 0 5 9 0 0 in
  exists s' e', @USB_Device_ProcessControlRequest unit some_chip w_control w_control w_descriptors (fun _ => 0) (w_asked r)
      ([Idle; Frame 7] ++ In 0 :: []) = Ok (tt, s', []) /\
    taken e' = [[]] /\ UDADDR s' = 137 /\ USB_DeviceState s' = Addressed.
Proof.
  intros r.
  destruct (@set_address_after_status unit some_chip w_control w_control w_descriptors (fun _ => 0) r control_endpoint
    (w_asked r) [Idle; Frame 7] []) as (_ & s' & e' & H1 & _ & H2 & H3 & H4 & _).
  - by repeat split.
  - reflexivity.
  - reflexivity.
  - intros i _. reflexivity.
  - intros s evs _. reflexivity.
  - reflexivity.
  - reflexivity.
  - simpl; lia.
  - reflexivity.
  - reflexivity.
  - exists s', e'. split; [exact H1|]. split; [exact H2|]. split; [exact H3|exact H4].
Defined.

Lemma set_configuration_calls_application_witness :
  let r := mkRequest 0 9 0 0 0 in
  let s := w_asked r <| UDADDR := 137 |> in
  let s2 := answered r control_endpoint s <| USB_Device_ConfigurationNumber := 0 |> <| USB_DeviceState := Configured |> in
  @USB_Device_ProcessControlRequest unit some_chip w_control w_control w_descriptors (fun _ => 0) s [] = Ok (tt, s2, []).
Proof.
  intros r s s2.
  apply (@set_configuration_calls_application unit some_chip w_control w_control w_descriptors (fun _ => 0) r control_endpoint s []
    18 (replicate 17 0 ++ [1]) 1 s2 []).
  - by repeat split.
  - intros s' evs _. reflexivity.
  - reflexivity.
  - reflexivity.
  - reflexivity.
  - discriminate.
  - reflexivity.
  - vm_compute; discriminate.
  - reflexivity.
  - reflexivity.
Defined.

(** Three of five bytes; the host sends them in two packets. *)
Definition rx_endpoint : endpoint := mkEndpoint true false false 128 (BV ALLOC) 0 [] [] [] [] [] false.
Definition w_reader : usb unit :=
  fresh_device control_endpoint no_request tt <| eps ::= <[1%nat := rx_endpoint]> |> <| UENUM := 1 |>.
Definition w_sent : list bus_event := [Out 1 [10; 20]; Idle; Out 1 [30]].

Lemma read_stream_in_order_witness :
  exists r s' evs', @Endpoint_Read_Stream_LE unit some_chip (@USB_DeviceTask unit some_chip w_control w_control w_descriptors (fun _ => 0))
      [1; 2; 3; 4; 5] 3 None w_reader w_sent = Ok (r, s', evs') /\ r = (NoError, [10; 20; 30; 4; 5], None) /\
    exists bs q', out_state 1 bs [] w_sent q' (steady w_reader) evs' s' /\
      [10; 20; 30; 4; 5] = bs ++ drop (length bs) [1; 2; 3; 4; 5].
Proof.
  assert (out_state 1 [] [] w_sent 2 (steady w_reader) w_sent w_reader) as Hout.
  { exists rx_endpoint, [], []. split; [split; reflexivity|]. split; [reflexivity|]. split; [reflexivity|]. split; [reflexivity|].
    split; [constructor|]. split; [reflexivity|]. split; [vm_compute; lia|]. split; [reflexivity|]. split; [reflexivity|].
    repeat constructor; discriminate. }
  assert (no_control w_sent w_reader) as Hc.
  { split; [exists control_endpoint; split; reflexivity|]. split; [simpl; lia|]. split; [reflexivity|].
    repeat constructor; discriminate. }
  pose proof (@read_stream_in_order unit some_chip w_control w_control w_descriptors (fun _ => 0) [1; 2; 3; 4; 5] 3 None 3 1 []
    w_reader w_sent ltac:(lia) Hout Hc ltac:(simpl; lia) ltac:(simpl; lia) ltac:(lia) eq_refl) as Hr.
  destruct (Endpoint_Read_Stream_LE _ _ _ _ _ _) as [[[[[err mem'] p'] s'] evs']| |] eqn:Er;
    [|vm_compute in Er; discriminate..].
  destruct Hr as (bs & q' & H1 & H2 & _). eexists _, s', evs'. split; [reflexivity|].
  assert ((err, mem', p') = (NoError, [10; 20; 30; 4; 5], None)) as Heq by (vm_compute in Er; injection Er as <- <- <- _ _; reflexivity).
  split; [exact Heq|]. exists bs, q'. split; [exact H1|]. injection Heq as _ Hm _. rewrite <- Hm at 1. exact H2.
Defined.
End UsbDevice.
