(* ===== verification/UsbAnswer.v ===== *)
(** * Answers on the control endpoint

    The parts of which applications make up their control requests: waiting for a packet of the
    host, reading its bytes, and answering with bytes that fit into one packet. *)

From S2P Require Import Prelude.
From S2P Require Import Usb.
From S2P Require Import UsbStream.
From S2P Require Import UsbTransfer.
From S2P Require Import UsbDevice.
From Stdlib Require Import Lia ZArith.
Import Usb UsbStream UsbTransfer UsbDevice.

#[local] Open Scope Z_scope.

Module UsbAnswer.

Section Answers.
Context {App : Type} `{UsbChip}.
Implicit Types (s : usb App) (e : endpoint).

(** The wait for a packet of the host. *)
Lemma wait_out data later : forall evs s e,
  at_ep 0 e s -> quiet s -> present s -> ready e -> (length data <= bank_size e)%nat -> forallb patient evs = true ->
  exists s' e', wait_attached Endpoint_IsOUTReceived s (evs ++ Out 0 data :: later) = Ok (true, s', later) /\
    at_ep 0 e' s' /\ core s' = core s /\ quiet s' /\ received e' = [data] /\ filling e' = filling e /\
    EPEN e' = true /\ STALLRQ e' = false /\ RXSTPI e' = false /\ UECFG1X e' = UECFG1X e /\
    taken e' = taken e ++ take (ins 0 evs) (armed e) /\ armed e' = drop (ins 0 evs) (armed e).
Proof.
  assert (forall s e, at_ep 0 e s -> present s -> received e = [] ->
    (if Endpoint_IsOUTReceived s then inl true
     else if decide (USB_DeviceState s = Unattached) then inl false else inr tt : bool + unit) = inr tt) as Hturn.
  { intros s e Ha [Hp _] Hr. unfold Endpoint_IsOUTReceived, RXOUTI. by rewrite (at_cur _ _ _ Ha), Hr, decide_False. }
  induction evs as [|ev evs IH]; intros s e Ha Hq Hp Hr Hl Hev; unfold wait_attached; rewrite spin_eq, (Hturn s e) by (done || apply Hr).
  - rewrite app_nil_l. destruct (at_tick_packet 0 e s (Out 0 data) Ha Hq) as (Ha1 & Hc1 & Hq1); [done|].
    assert (act 0 (Out 0 data) e = e <| received := [data] |> <| toggle ::= negb |>) as Hact.
    { destruct Hr as (H1 & H2 & H3 & H4). simpl. unfold take_out. rewrite H1, H2, H4. pose proof (banks_pos e).
      simpl. rewrite (proj2 (Nat.ltb_lt _ _)), (proj2 (Nat.leb_le _ _)) by lia. destruct e. simpl in *. by subst. }
    rewrite Hact in Ha1. destruct Hr as (H1 & H2 & H3 & H4).
    exists (tick (Out 0 data) s), (e <| received := [data] |> <| toggle ::= negb |>). split.
    + rewrite spin_eq. unfold Endpoint_IsOUTReceived, RXOUTI. by rewrite (at_cur _ _ _ Ha1).
    + simpl. rewrite take_0, drop_0, app_nil_r. by split_and!.
  - rewrite <- app_comm_cons. simpl in Hev. apply andb_prop in Hev as [Hv Hev].
    destruct (at_tick_packet 0 e s ev Ha Hq) as (Ha1 & Hc1 & Hq1); [by destruct ev|].
    destruct (act_patient 0 ev e Hv Hr) as (Hr1 & Hcfg & Hf1 & Ht1 & Har1).
    destruct (IH (tick ev s) (act 0 ev e)) as (s' & e' & Hs & Ha2 & Hc2 & Hq2 & Hx1 & Hx2 & Hx3 & Hx4 & Hx5 & Hx6 & Ht2 & Har2); try done.
    { by eapply present_core. }
    { unfold bank_size in *. by rewrite Hcfg. }
    exists s', e'. split; [exact Hs|]. split; [done|]. split; [congruence|]. split; [done|]. split; [done|].
    split; [congruence|]. repeat (split; [done|]). split; [congruence|].
    rewrite Ht2, Har2, Ht1, Har1, <- app_assoc, take_take_drop, drop_drop, (ins_cons 0 ev evs). done.
Qed.

Lemma read_out e s b rest ps :
  at_ep 0 e s -> RXSTPI e = false -> received e = (b :: rest) :: ps ->
  Endpoint_Read_8 s = Ok (b, put0 (e <| received := rest :: ps |>) s) /\
  at_ep 0 (e <| received := rest :: ps |>) (put0 (e <| received := rest :: ps |>) s).
Proof.
  intros Ha Hr Hs. destruct (at_put0 e s (fun e => e <| received := rest :: ps |>) Ha) as [Hp Ha'].
  split; [|done]. unfold Endpoint_Read_8. by rewrite (at_cur _ _ _ Ha), Hr, Hs, Hp.
Qed.

Lemma write_put e s l b :
  at_ep 0 e s -> TXINI e = true -> filling e = l -> (length l < bank_size e)%nat ->
  Endpoint_Write_8 b s = Ok (tt, put0 (e <| filling := l ++ [u8 b] |>) s) /\
  at_ep 0 (e <| filling := l ++ [u8 b] |>) (put0 (e <| filling := l ++ [u8 b] |>) s).
Proof.
  intros Ha Ht Hf Hl. destruct (at_put0 e s (fun e => e <| filling ::= fun l => l ++ [u8 b] |>) Ha) as [Hp Ha'].
  assert (e <| filling ::= fun l => l ++ [u8 b] |> = e <| filling := l ++ [u8 b] |>) as E.
  { destruct e. unfold set_field. simpl in *. by subst. }
  rewrite E in *. split; [|done]. unfold Endpoint_Write_8. rewrite (at_cur _ _ _ Ha), Ht, Hf.
  rewrite (proj2 (Nat.ltb_lt _ _)) by done. simpl. by rewrite Hp.
Qed.

Lemma put0_same e s : at_ep 0 e s -> put0 e s = s.
Proof. intros [_ He]. unfold put0. destruct s. unfold set_field. simpl in *. by rewrite list_insert_id. Qed.

(** Writing a list of bytes. *)
Fixpoint write_all (bs : list Z) : Op (App:=App) unit :=
  match bs with [] => mret tt | b :: bs' => _ ← Endpoint_Write_8 b; write_all bs' end.

Lemma write_all_spec : forall bs e s l,
  at_ep 0 e s -> TXINI e = true -> filling e = l -> (length l + length bs <= bank_size e)%nat ->
  write_all bs s = Ok (tt, put0 (e <| filling := l ++ map u8 bs |>) s) /\
  at_ep 0 (e <| filling := l ++ map u8 bs |>) (put0 (e <| filling := l ++ map u8 bs |>) s).
Proof.
  induction bs as [|b bs IH]; intros e s l Ha Ht Hf Hl; simpl.
  - rewrite app_nil_r. assert (e <| filling := l |> = e) as E by (destruct e; unfold set_field; simpl in *; by subst).
    by rewrite E, (put0_same e s Ha).
  - simpl in Hl. destruct (write_put e s l b Ha Ht Hf) as [Hw Ha1]; [lia|]. unfold mbind, Op_bind. rewrite Hw.
    destruct (IH (e <| filling := l ++ [u8 b] |>) (put0 (e <| filling := l ++ [u8 b] |>) s) (l ++ [u8 b])) as [Hw2 Ha2]; try done.
    { rewrite length_app. simpl. change (bank_size _) with (bank_size e). lia. }
    rewrite Hw2, put0_put0, <- app_assoc. rewrite put0_put0, <- app_assoc in Ha2. split; [|by destruct e]. by destruct e.
Qed.

Lemma core_app s s' : core s = core s' -> app s = app s'.
Proof. intros Hc. exact (f_equal snd Hc). Qed.
Lemma core_state s s' : core s = core s' -> USB_DeviceState s = USB_DeviceState s'.
Proof. intros Hc. by injection Hc. Qed.


(** ** A request answered with one packet *)

(** The handlers of such requests, after the SETUP packet has been acknowledged. *)
Definition answer (write : Op (App:=App) unit) : M (App:=App) unit :=
  _ ← spin in_ready_turn tt;
  _ ← op write;
  _ ← run Endpoint_ClearIN;
  Endpoint_ClearStatusStage.

Lemma answer_bytes write bs e0 s evs later :
  at_ep 0 (acked e0) s -> EPEN e0 = true -> quiet s -> present s -> forallb patient evs = true ->
  negb (Z.land (bmRequestType (USB_ControlRequest s)) REQDIR_DEVICETOHOST =? 0) = true ->
  write s = Ok (tt, put0 (acked e0 <| filling := bs |>) s) ->
  exists s4 e4, answer write s (evs ++ Out 0 [] :: later) = Ok (tt, s4, later) /\
    at_ep 0 e4 s4 /\ core s4 = core s /\ quiet s4 /\ EPEN e4 = true /\ STALLRQ e4 = false /\ RXSTPI e4 = false /\
    received e4 = [] /\ taken e4 = taken e0 ++ take (ins 0 evs) [bs].
Proof.
  intros Ha Hen Hq Hp Hev Hty Hw. assert (TXINI (acked e0) = true) as Htx by (by apply TXINI_free).
  assert (spin in_ready_turn tt s (evs ++ Out 0 [] :: later) = Ok (tt, s, evs ++ Out 0 [] :: later)) as Hsp
    by (by rewrite spin_eq, (in_ready_eq _ _ Ha), Htx).
  set (e2 := acked e0 <| filling := bs |>) in *. set (s2 := put0 e2 s) in *.
  assert (at_ep 0 e2 s2) as Ha2.
  { destruct (at_put0 _ _ (fun e => e <| filling := bs |>) Ha) as [_ Hx]. exact Hx. }
  pose proof (at_on_cur 0 e2 s2 (fun e => if TXINI e then e <| armed ::= fun l => l ++ [filling e] |> <| filling := [] |> else e) Ha2) as Ha3.
  cbv beta in Ha3. change (TXINI e2) with (TXINI (acked e0)) in Ha3. rewrite Htx in Ha3.
  set (e3 := e2 <| armed ::= _ |> <| filling := [] |>) in Ha3.
  destruct (wait_out [] later evs (Endpoint_ClearIN s2) e3) as (s4 & e4 & Hw4 & Ha4 & Hc4 & Hq4 & Hr4 & _ & Hx1 & Hx2 & Hx3 & _ & Ht4 & _);
    try done; [simpl; lia|].
  pose proof (at_on_cur 0 e4 s4 (fun e => e <| received ::= tail |>) Ha4) as Ha5.
  exists (Endpoint_ClearOUT s4), (e4 <| received ::= tail |>). split; [|split; [exact Ha5|]; split_and!; try done; simpl; by rewrite Hr4].
  unfold answer. rewrite (bind_ok _ _ _ _ _ _ _ Hsp), (bind_op _ _ _ _ _ _ Hw), bind_run. unfold Endpoint_ClearStatusStage. rewrite bind_get.
  change (USB_ControlRequest (Endpoint_ClearIN s2)) with (USB_ControlRequest s). rewrite Hty. cbv iota.
  by rewrite (bind_ok _ _ _ _ _ _ _ Hw4).
Qed.
End Answers.

Ltac read_out_byte :=
  match goal with
  | Ha : at_ep 0 ?e ?s, Hs : received ?e = (?b :: ?rest) :: ?ps |- context [Endpoint_Read_8 ?s] =>
      let H1 := fresh in let H2 := fresh "Ha" in
      destruct (read_out e s b rest ps Ha) as [H1 H2]; [done|done|]; rewrite H1; clear H1 Ha; simpl;
      let E := fresh "Hs" in
      assert (received (e <| received := rest :: ps |>) = rest :: ps) as E by done; clear Hs;
      rewrite ?put0_put0 in *
  end.
End UsbAnswer.
