(* ===== verification/UsbDescriptors.v ===== *)
(** * Descriptors of the serial device and of the bootloader

    cores/AT90USB/USBSerialDescriptors.c and bootloaders/AT90usb128X/CDC/Descriptors.c: the
    descriptors as the bytes the packed structures occupy in memory, and the callbacks that find
    them. A header's size is [sizeof] of its structure, so it is computed from the fields. *)

From S2P Require Import Prelude.
From S2P Require Import ConfigDescriptors.
From Stdlib Require Import Lia ZArith.
Import ConfigDescriptors.

#[local] Open Scope Z_scope.

Module UsbDescriptors.

(** ** Structures of StdDescriptors.h and CDCClassCommon.h *)

Definition DTYPE_Device := 1.
Definition DTYPE_Configuration := 2.
Definition DTYPE_String := 3.
Definition DTYPE_Interface := 4.
Definition DTYPE_Endpoint := 5.
Definition DTYPE_CSInterface := 36.
Definition NO_DESCRIPTOR := 0.

Definition w16 (x : Z) : list Z := [Z.land x 255; Z.shiftr x 8].
(** A structure with its header. *)
Definition with_header (type : Z) (fields : list Z) : list Z :=
  Z.of_nat (2 + length fields) :: type :: fields.

Definition Descriptor_Device (USBSpecification Class_ SubClass Protocol Endpoint0Size VendorID ProductID
  ReleaseNumber ManufacturerStrIndex ProductStrIndex SerialNumStrIndex NumberOfConfigurations : Z) : list Z :=
  with_header DTYPE_Device
    (w16 USBSpecification ++ [Class_; SubClass; Protocol; Endpoint0Size] ++ w16 VendorID ++ w16 ProductID ++
     w16 ReleaseNumber ++ [ManufacturerStrIndex; ProductStrIndex; SerialNumStrIndex; NumberOfConfigurations]).
Definition Descriptor_Configuration_Header (TotalConfigurationSize TotalInterfaces ConfigurationNumber
  ConfigurationStrIndex ConfigAttributes MaxPowerConsumption : Z) : list Z :=
  with_header DTYPE_Configuration
    (w16 TotalConfigurationSize ++
     [TotalInterfaces; ConfigurationNumber; ConfigurationStrIndex; ConfigAttributes; MaxPowerConsumption]).
Definition Descriptor_Interface (InterfaceNumber AlternateSetting TotalEndpoints Class_ SubClass Protocol
  InterfaceStrIndex : Z) : list Z :=
  with_header DTYPE_Interface
    [InterfaceNumber; AlternateSetting; TotalEndpoints; Class_; SubClass; Protocol; InterfaceStrIndex].
Definition Descriptor_Endpoint (EndpointAddress Attributes EndpointSize PollingIntervalMS : Z) : list Z :=
  with_header DTYPE_Endpoint ([EndpointAddress; Attributes] ++ w16 EndpointSize ++ [PollingIntervalMS]).
Definition CDC_FunctionalHeader (Subtype CDCSpecification : Z) : list Z :=
  with_header DTYPE_CSInterface (Subtype :: w16 CDCSpecification).
Definition CDC_FunctionalACM (Subtype Capabilities : Z) : list Z :=
  with_header DTYPE_CSInterface [Subtype; Capabilities].
Definition CDC_FunctionalUnion (Subtype MasterInterfaceNumber SlaveInterfaceNumber : Z) : list Z :=
  with_header DTYPE_CSInterface [Subtype; MasterInterfaceNumber; SlaveInterfaceNumber].
(** [USB_STRING_LEN(chars)] is a field of its own: it need not be the length of the string. *)
Definition Descriptor_String (chars : Z) (UnicodeString : list Z) : list Z :=
  (2 + 2 * chars) :: DTYPE_String :: flat_map w16 UnicodeString.

(** A configuration: its header with [sizeof] the whole structure, and the descriptors in it. *)
Definition configuration (ConfigAttributes : Z) (subs : list (list Z)) : list (list Z) :=
  Descriptor_Configuration_Header (9 + Z.of_nat (length (concat subs))) 2 1 NO_DESCRIPTOR ConfigAttributes
    (Z.shiftr 100 1) :: subs.

Definition CDC_NOTIFICATION_EPADDR := Z.lor 128 2.
Definition CDC_TX_EPADDR := Z.lor 128 3.
Definition CDC_RX_EPADDR := 4.
Definition CDC_NOTIFICATION_EPSIZE := 8.
Definition CDC_TXRX_EPSIZE := 16.
Definition EP_TYPE_BULK := 2.
Definition EP_TYPE_INTERRUPT := 3.
Definition CDC_CSCP_CDCClass := 2.
Definition CDC_CSCP_ACMSubclass := 2.
Definition CDC_CSCP_ATCommandProtocol := 1.
Definition CDC_CSCP_CDCDataClass := 10.

(** The descriptors of the two interfaces, which both devices have. *)
Definition cdc_interfaces : list (list Z) :=
  [ Descriptor_Interface 0 0 1 CDC_CSCP_CDCClass CDC_CSCP_ACMSubclass CDC_CSCP_ATCommandProtocol NO_DESCRIPTOR;
    CDC_FunctionalHeader 0 272;
    CDC_FunctionalACM 2 6;
    CDC_FunctionalUnion 6 0 1;
    Descriptor_Endpoint CDC_NOTIFICATION_EPADDR EP_TYPE_INTERRUPT CDC_NOTIFICATION_EPSIZE 255;
    Descriptor_Interface 1 0 2 CDC_CSCP_CDCDataClass 0 0 NO_DESCRIPTOR;
    Descriptor_Endpoint CDC_RX_EPADDR EP_TYPE_BULK CDC_TXRX_EPSIZE 5;
    Descriptor_Endpoint CDC_TX_EPADDR EP_TYPE_BULK CDC_TXRX_EPSIZE 5 ].

(** ** The serial device *)

Definition DeviceDescriptor : list Z :=
  Descriptor_Device 272 CDC_CSCP_CDCClass 0 0 8 1003 8260 1 1 2 3 1.
Definition ConfigurationDescriptor : list (list Z) := configuration (Z.lor 128 64) cdc_interfaces.
Definition LANGUAGE_ID_ENG := 1033.
Definition LanguageString : list Z := Descriptor_String 1 [LANGUAGE_ID_ENG].
(** [L"Dynamic Perception LLC"], [L"Dynamic Perception CDC Serial"] and [L"004573"] *)
Definition ManufacturerString : list Z :=
  Descriptor_String 22 [68; 121; 110; 97; 109; 105; 99; 32; 80; 101; 114; 99; 101; 112; 116; 105; 111; 110; 32; 76; 76; 67].
Definition ProductString : list Z :=
  Descriptor_String 29 [68; 121; 110; 97; 109; 105; 99; 32; 80; 101; 114; 99; 101; 112; 116; 105; 111; 110; 32;
    67; 68; 67; 32; 83; 101; 114; 105; 97; 108].
Definition SerialString : list Z := Descriptor_String 6 [48; 48; 52; 53; 55; 51].

(** The size and the flash from the address on; the size of a string is read from its header. *)
Definition string_at (mem : list Z) : Z * list Z := (nth 0 mem 0, mem).
Definition CALLBACK_USB_GetDescriptor (wValue wIndex : Z) : Z * list Z :=
  let DescriptorType := u8 (Z.shiftr wValue 8) in
  let DescriptorNumber := Z.land wValue 255 in
  if DescriptorType =? DTYPE_Device then (18, DeviceDescriptor)
  else if DescriptorType =? DTYPE_Configuration then
    (Z.of_nat (length (concat ConfigurationDescriptor)), concat ConfigurationDescriptor)
  else if DescriptorType =? DTYPE_String then
    if DescriptorNumber =? 0 then string_at LanguageString
    else if DescriptorNumber =? 1 then string_at ManufacturerString
    else if DescriptorNumber =? 2 then string_at ProductString
    else if DescriptorNumber =? 3 then string_at SerialString
    else (NO_DESCRIPTOR, [])
  else (NO_DESCRIPTOR, []).

(** ** The bootloader

    Its descriptors are read from data memory. The manufacturer string is declared [PROGMEM]
    nevertheless: what data memory holds at its flash address is [stray]. *)

Definition Boot_DeviceDescriptor : list Z :=
  Descriptor_Device 272 CDC_CSCP_CDCClass 0 0 8 1003 8266 256 1 2 NO_DESCRIPTOR 1.
Definition Boot_ConfigurationDescriptor : list (list Z) := configuration 128 cdc_interfaces.
(** [L"Dean Camera"] and [L"LUFA CDC Bootloader"] *)
Definition Boot_ManufacturerString : list Z :=
  Descriptor_String 11 [68; 101; 97; 110; 32; 67; 97; 109; 101; 114; 97].
Definition Boot_ProductString : list Z :=
  Descriptor_String 19 [76; 85; 70; 65; 32; 67; 68; 67; 32; 66; 111; 111; 116; 108; 111; 97; 100; 101; 114].
Definition Boot_CALLBACK_USB_GetDescriptor (stray : list Z) (wValue wIndex : Z) : Z * list Z :=
  let DescriptorType := u8 (Z.shiftr wValue 8) in
  let DescriptorNumber := Z.land wValue 255 in
  if DescriptorType =? DTYPE_Device then (18, Boot_DeviceDescriptor)
  else if DescriptorType =? DTYPE_Configuration then
    (Z.of_nat (length (concat Boot_ConfigurationDescriptor)), concat Boot_ConfigurationDescriptor)
  else if DescriptorType =? DTYPE_String then
    if DescriptorNumber =? 0 then string_at LanguageString
    else if DescriptorNumber =? 1 then string_at stray
    else if DescriptorNumber =? 2 then string_at Boot_ProductString
    else (NO_DESCRIPTOR, [])
  else (NO_DESCRIPTOR, []).

(** ** Well-formedness *)

(** What a host may rely on in a descriptor of a type: its first byte is its length, or, for a
    configuration, its total length is that of all its descriptors, each of which starts with its
    own length; and its second byte is its type. *)
Definition descriptor_ok (type : Z) (d : list Z) : Prop :=
  Forall is_u8 d /\ desc_type d = Some type /\
  if type =? DTYPE_Configuration
  then exists ds, d = concat ds /\ Forall is_desc ds /\
    (Z.of_nat (length d) = nth 2 d 0 + 256 * nth 3 d 0)
  else is_desc d.

Lemma bytes_u8 l : forallb (fun b => (0 <=? b) && (b <? 256)) l = true -> Forall is_u8 l.
Proof.
  intros Hl. apply Forall_forall. intros b Hb.
  apply (proj1 (forallb_forall _ _) Hl) in Hb as [H1 H2]%andb_prop. unfold is_u8. lia.
Qed.

Ltac concrete_desc := split; [by apply bytes_u8|]; split; [done|]; split; [simpl; lia|done].
Ltac concrete_config ds :=
  split; [by apply bytes_u8|]; split; [done|]; exists ds; split; [done|]; split; [|done];
  repeat (constructor; [split; [simpl; lia|done]|]); constructor.

Lemma serial_descriptors wValue wIndex size mem :
  CALLBACK_USB_GetDescriptor wValue wIndex = (size, mem) -> size <> NO_DESCRIPTOR ->
  descriptor_ok (u8 (Z.shiftr wValue 8)) mem /\ size = Z.of_nat (length mem).
Proof.
  unfold CALLBACK_USB_GetDescriptor, string_at. intros Hc Hs.
  repeat match type of Hc with
  | (if ?a =? ?b then _ else _) = _ =>
      let E := fresh "E" in destruct (Z.eqb_spec a b) as [E|]; cbv iota in Hc; [try rewrite E|]
  end; injection Hc as <- <-; try done; (split; [|done]).
  - concrete_desc.
  - concrete_config ConfigurationDescriptor.
  - concrete_desc.
  - concrete_desc.
  - concrete_desc.
  - concrete_desc.
Qed.

Lemma boot_descriptors stray wValue wIndex size mem :
  Boot_CALLBACK_USB_GetDescriptor stray wValue wIndex = (size, mem) -> size <> NO_DESCRIPTOR ->
  wValue <> 769 -> 0 <= wValue < 65536 ->
  descriptor_ok (u8 (Z.shiftr wValue 8)) mem /\ size = Z.of_nat (length mem).
Proof.
  unfold Boot_CALLBACK_USB_GetDescriptor, string_at. intros Hc Hs Hv Hr.
  destruct (Z.eqb_spec (u8 (Z.shiftr wValue 8)) DTYPE_Device) as [->|]; [injection Hc as <- <-; split; [|done]; concrete_desc|].
  destruct (Z.eqb_spec (u8 (Z.shiftr wValue 8)) DTYPE_Configuration) as [->|];
    [injection Hc as <- <-; split; [|done]; concrete_config Boot_ConfigurationDescriptor|].
  destruct (Z.eqb_spec (u8 (Z.shiftr wValue 8)) DTYPE_String) as [E|]; [|by injection Hc as <- <-]. rewrite E.
  destruct (Z.eqb_spec (Z.land wValue 255) 0); [injection Hc as <- <-; split; [|done]; concrete_desc|].
  destruct (Z.eqb_spec (Z.land wValue 255) 1) as [E1|].
  { exfalso. apply Hv. change 255 with (Z.ones 8) in E1. rewrite Z.land_ones in E1 by lia.
    rewrite Z.shiftr_div_pow2 in E by lia. change (2 ^ 8) with 256 in *. unfold DTYPE_String in E. words. }
  destruct (Z.eqb_spec (Z.land wValue 255) 2); injection Hc as <- <-; [split; [|done]; concrete_desc|done].
Qed.
End UsbDescriptors.
