(* ===== verification/CdcDevice.v ===== *)
(** * CDC class driver (CDCClassDevice.c) and the serial device of the core

    The class driver over the endpoint driver and the standard requests, with the interface the
    core declares (USBSerialClass.cpp): its endpoint tables, and its handlers for the events of
    the library. The state of the application is the class information and the line state. *)

From S2P Require Import Prelude.
From S2P Require Import Packed.
From S2P Require Import Usb.
From S2P Require Import UsbStream.
From S2P Require Import UsbTransfer.
From S2P Require Import UsbDevice.
From S2P Require Import UsbAnswer.
From S2P Require Import UsbDescriptors.
From Stdlib Require Import Lia ZArith.
Import Packed Usb UsbStream UsbTransfer UsbDevice UsbAnswer.

#[local] Open Scope Z_scope.

Module CdcDevice.

(** ** Data *)

Record CDC_LineEncoding_t := mkEncoding { BaudRateBPS : Z; CharFormat : Z; ParityType : Z; DataBits : Z }.
#[export] Instance eta_encoding : Eta CDC_LineEncoding_t :=
  {| eta r := mkEncoding (BaudRateBPS r) (CharFormat r) (ParityType r) (DataBits r); eta_id := ltac:(by intros []) |}.

(** The configuration and the state of [USB_ClassInfo_CDC_Device_t], and [m_lineState]. *)
Record serial := mkSerial {
  ControlInterfaceNumber : Z;
  DataINEndpoint : USB_Endpoint_Table_t; DataOUTEndpoint : USB_Endpoint_Table_t;
  NotificationEndpoint : USB_Endpoint_Table_t;
  HostToDevice : Z; DeviceToHost : Z; LineEncoding : CDC_LineEncoding_t;
  m_lineState : Z }.
#[export] Instance eta_serial : Eta serial :=
  {| eta r := mkSerial (ControlInterfaceNumber r) (DataINEndpoint r) (DataOUTEndpoint r) (NotificationEndpoint r)
       (HostToDevice r) (DeviceToHost r) (LineEncoding r) (m_lineState r); eta_id := ltac:(by intros []) |}.

Definition CDC_REQ_SetLineEncoding := 32.
Definition CDC_REQ_GetLineEncoding := 33.
Definition CDC_REQ_SetControlLineState := 34.
Definition CDC_REQ_SendBreak := 35.
Definition CDC_NOTIF_SerialState := 32.
Definition CDC_CONTROL_LINE_OUT_DTR := 1.

(** The initialiser in USBSerialClass.cpp is positional: its third value, commented [.Banks], is
    the third member [Type]; [Banks] is zero. *)
Definition VirtualSerial_CDC_Interface : serial :=
  mkSerial 0
    (mkTable UsbDescriptors.CDC_TX_EPADDR UsbDescriptors.CDC_TXRX_EPSIZE 1 0)
    (mkTable UsbDescriptors.CDC_RX_EPADDR UsbDescriptors.CDC_TXRX_EPSIZE 1 0)
    (mkTable UsbDescriptors.CDC_NOTIFICATION_EPADDR UsbDescriptors.CDC_NOTIFICATION_EPSIZE 1 0)
    0 0 (mkEncoding 0 0 0 0) 0.

Section Cdc.
Context `{UsbChip}.
#[local] Abbreviation M := (M (App:=serial)).
#[local] Abbreviation Op := (Op (App:=serial)).
#[local] Abbreviation state := (usb serial).

Definition on_app (f : serial -> serial) (s : state) : state := s <| app ::= f |>.

(** ** Control requests *)

(** The application's handler: the DTR line. *)
Definition EVENT_CDC_Device_ControLineStateChanged (s : state) : state :=
  on_app (fun a => a <| m_lineState := Z.land (HostToDevice a) CDC_CONTROL_LINE_OUT_DTR |>) s.

Definition read_encoding : Op CDC_LineEncoding_t :=
  b ← Endpoint_Read_32_LE; c ← Endpoint_Read_8; p ← Endpoint_Read_8; d ← Endpoint_Read_8;
  mret (mkEncoding b c p d).
Definition write_encoding (l : CDC_LineEncoding_t) : Op unit :=
  _ ← Endpoint_Write_32_LE (BaudRateBPS l); _ ← Endpoint_Write_8 (CharFormat l);
  _ ← Endpoint_Write_8 (ParityType l); Endpoint_Write_8 (DataBits l).

Definition GetLineEncoding : M unit :=
  _ ← run Endpoint_ClearSETUP;
  _ ← spin (fun _ s => Ok (if Endpoint_IsINReady s then inl tt else inr tt, s)) tt;
  l ← get (fun s => LineEncoding (app s));
  _ ← op (write_encoding l);
  _ ← run Endpoint_ClearIN;
  Endpoint_ClearStatusStage.
Definition SetLineEncoding : M unit :=
  _ ← run Endpoint_ClearSETUP;
  seen ← wait_attached Endpoint_IsOUTReceived;
  if seen : bool then
    l ← op read_encoding;
    _ ← run (on_app (fun a => a <| LineEncoding := l |>));
    _ ← run Endpoint_ClearOUT;
    Endpoint_ClearStatusStage
  else mret tt.
Definition SetControlLineState : M unit :=
  _ ← run Endpoint_ClearSETUP;
  _ ← Endpoint_ClearStatusStage;
  v ← get (fun s => wValue (USB_ControlRequest s));
  _ ← run (on_app (fun a => a <| HostToDevice := v |>));
  run EVENT_CDC_Device_ControLineStateChanged.
(** The core has no handler for a break. *)
Definition SendBreak : M unit :=
  _ ← run Endpoint_ClearSETUP;
  Endpoint_ClearStatusStage.

Definition CDC_Device_ProcessControlRequest : M unit :=
  setup ← get Endpoint_IsSETUPReceived;
  r ← get USB_ControlRequest;
  n ← get (fun s => ControlInterfaceNumber (app s));
  if negb setup then mret tt
  else if negb (wIndex r =? n) then mret tt
  else
    let t := bmRequestType r in
    if bRequest r =? CDC_REQ_GetLineEncoding then
      if t =? class_request REQDIR_DEVICETOHOST then GetLineEncoding else mret tt
    else if bRequest r =? CDC_REQ_SetLineEncoding then
      if t =? class_request REQDIR_HOSTTODEVICE then SetLineEncoding else mret tt
    else if bRequest r =? CDC_REQ_SetControlLineState then
      if t =? class_request REQDIR_HOSTTODEVICE then SetControlLineState else mret tt
    else if bRequest r =? CDC_REQ_SendBreak then
      if t =? class_request REQDIR_HOSTTODEVICE then SendBreak else mret tt
    else mret tt.

(** ** Endpoints *)

Definition CDC_Device_ConfigureEndpoints : Op bool :=
  _ ← modify (on_app (fun a => a <| HostToDevice := 0 |> <| DeviceToHost := 0 |> <| LineEncoding := mkEncoding 0 0 0 0 |>));
  _ ← modify (on_app (fun a => a <| DataINEndpoint ::= fun t => t <| Type_ := UsbDescriptors.EP_TYPE_BULK |> |>
                              <| DataOUTEndpoint ::= fun t => t <| Type_ := UsbDescriptors.EP_TYPE_BULK |> |>
                              <| NotificationEndpoint ::= fun t => t <| Type_ := UsbDescriptors.EP_TYPE_INTERRUPT |> |>));
  i ← gets (fun s => DataINEndpoint (app s));
  ok ← Endpoint_ConfigureEndpointTable [i];
  if negb ok then mret false
  else
    o ← gets (fun s => DataOUTEndpoint (app s));
    ok ← Endpoint_ConfigureEndpointTable [o];
    if negb ok then mret false
    else
      n ← gets (fun s => NotificationEndpoint (app s));
      Endpoint_ConfigureEndpointTable [n].

(** The application's handler for a new configuration drops the result. *)
Definition EVENT_USB_Device_ConfigurationChanged : M unit := _ ← op CDC_Device_ConfigureEndpoints; mret tt.

(** ** The library with this application *)

Variable boot_signature_byte_get : Z -> Z.

Definition ProcessControlRequest : M unit :=
  USB_Device_ProcessControlRequest CDC_Device_ProcessControlRequest EVENT_USB_Device_ConfigurationChanged
    UsbDescriptors.CALLBACK_USB_GetDescriptor boot_signature_byte_get.
(** The task while the controller is in device mode, in which the serial class initialises it. *)
Definition USB_USBTask : M unit :=
  USB_DeviceTask CDC_Device_ProcessControlRequest EVENT_USB_Device_ConfigurationChanged
    UsbDescriptors.CALLBACK_USB_GetDescriptor boot_signature_byte_get.

(** ** Data *)

(** The guard of every data function. *)
Definition open_ (s : state) : bool :=
  bool_decide (USB_DeviceState s = Configured) && negb (BaudRateBPS (LineEncoding (app s)) =? 0).

Definition CDC_Device_Flush : M ep_error :=
  ok ← get open_;
  if negb ok then mret DeviceDisconnected
  else
    _ ← run (fun s => Endpoint_SelectEndpoint (Address (DataINEndpoint (app s))) s);
    n ← get Endpoint_BytesInEndpoint;
    if n =? 0 then mret NoError
    else
      BankFull ← get (fun s => negb (Endpoint_IsReadWriteAllowed s));
      _ ← run Endpoint_ClearIN;
      if BankFull : bool then
        err ← Endpoint_WaitUntilReady;
        if decide (err = NoError) then _ ← run Endpoint_ClearIN; mret NoError else mret err
      else mret NoError.

Definition CDC_Device_USBTask : M unit :=
  ok ← get open_;
  if negb ok then mret tt
  else
    _ ← run (fun s => Endpoint_SelectEndpoint (Address (DataINEndpoint (app s))) s);
    rdy ← get Endpoint_IsINReady;
    if rdy : bool then _ ← CDC_Device_Flush; mret tt else mret tt.

Definition CDC_Device_SendData (Buffer : list Z) (Length : Z) : M ep_error :=
  ok ← get open_;
  if negb ok then mret DeviceDisconnected
  else
    _ ← run (fun s => Endpoint_SelectEndpoint (Address (DataINEndpoint (app s))) s);
    r ← Endpoint_Write_Stream_LE USB_USBTask Buffer Length None;
    mret (fst (fst r)).

Definition CDC_Device_SendString (String : list Z) : M ep_error :=
  ok ← get open_;
  if negb ok then mret DeviceDisconnected
  else
    n ← op (fun s => n ← lift (strlen String); mret (u16 n, s));
    _ ← run (fun s => Endpoint_SelectEndpoint (Address (DataINEndpoint (app s))) s);
    r ← Endpoint_Write_Stream_LE USB_USBTask String n None;
    mret (fst (fst r)).

Definition CDC_Device_SendByte (Data : Z) : M ep_error :=
  ok ← get open_;
  if negb ok then mret DeviceDisconnected
  else
    _ ← run (fun s => Endpoint_SelectEndpoint (Address (DataINEndpoint (app s))) s);
    rw ← get Endpoint_IsReadWriteAllowed;
    err ← (if negb rw then _ ← run Endpoint_ClearIN; Endpoint_WaitUntilReady else mret NoError);
    if decide (err = NoError) then _ ← op (Endpoint_Write_8 Data); mret NoError else mret err.

Definition CDC_Device_BytesReceived : M Z :=
  ok ← get open_;
  if negb ok then mret 0
  else
    _ ← run (fun s => Endpoint_SelectEndpoint (Address (DataOUTEndpoint (app s))) s);
    out ← get Endpoint_IsOUTReceived;
    if out : bool then
      n ← get Endpoint_BytesInEndpoint;
      if n =? 0 then _ ← run Endpoint_ClearOUT; mret 0 else mret n
    else mret 0.

Definition CDC_Device_ReceiveByte : M Z :=
  ok ← get open_;
  if negb ok then mret (-1)
  else
    _ ← run (fun s => Endpoint_SelectEndpoint (Address (DataOUTEndpoint (app s))) s);
    out ← get Endpoint_IsOUTReceived;
    if out : bool then
      n ← get Endpoint_BytesInEndpoint;
      ReceivedByte ← (if negb (n =? 0) then op Endpoint_Read_8 else mret (-1));
      n ← get Endpoint_BytesInEndpoint;
      _ ← (if n =? 0 then run Endpoint_ClearOUT else mret tt);
      mret ReceivedByte
    else mret (-1).

(** The notification is the eight bytes of a request header, then the line states. *)
Definition CDC_Device_SendControlLineStateChange : M unit :=
  ok ← get open_;
  if negb ok then mret tt
  else
    _ ← run (fun s => Endpoint_SelectEndpoint (Address (NotificationEndpoint (app s))) s);
    d ← get (fun s => DeviceToHost (app s));
    _ ← Endpoint_Write_Stream_LE USB_USBTask
          [class_request REQDIR_DEVICETOHOST; CDC_NOTIF_SerialState; 0; 0; 0; 0; 2; 0] 8 None;
    _ ← Endpoint_Write_Stream_LE USB_USBTask (UsbDescriptors.w16 d) 2 None;
    run Endpoint_ClearIN.

Definition _FDEV_ERR := -1.
Definition _FDEV_EOF := -2.
Definition CDC_Device_putchar (c : Z) : M Z :=
  err ← CDC_Device_SendByte c; mret (if decide (err = NoError) then 0 else _FDEV_ERR).
Definition CDC_Device_getchar : M Z :=
  b ← CDC_Device_ReceiveByte; mret (if b <? 0 then _FDEV_EOF else b).

(** ** Standard requests *)

Lemma cdc_declines r :
  negb ((bRequest r =? 32) || (bRequest r =? 33) || (bRequest r =? 34) || (bRequest r =? 35)) = true ->
  declines CDC_Device_ProcessControlRequest r.
Proof.
  intros Hb s evs Hr. apply negb_true_iff in Hb. apply orb_false_iff in Hb as [Hb H35].
  apply orb_false_iff in Hb as [Hb H34]. apply orb_false_iff in Hb as [H32 H33].
  unfold CDC_Device_ProcessControlRequest. rewrite !bind_get, Hr.
  destruct (Endpoint_IsSETUPReceived s); [|done]. destruct (wIndex r =? _); [|done]. cbn [negb]. cbv iota.
  change CDC_REQ_GetLineEncoding with 33. change CDC_REQ_SetLineEncoding with 32.
  change CDC_REQ_SetControlLineState with 34. change CDC_REQ_SendBreak with 35.
  by rewrite H32, H33, H34, H35.
Qed.

(** ** Transmission *)

(** The data IN endpoint [n] of the application [a] has been given [w]; with [idle], there is no
    control request. *)
Definition tx_state (idle : bool) (n : Z) (w : list Z) (a : serial) evs (s : state) : Prop :=
  app s = a /\ n = endpoint_number (DataINEndpoint a) /\ 0 < n /\
  (exists e, eps s !! Z.to_nat n = Some e /\ fifo_ok e /\ wire e = w) /\ fires EORSTI s = false /\ no_reset evs /\
  (idle = true -> no_control evs s).

(** Selecting the endpoint, and what is left after working on it. *)
Lemma tx_select idle n w a evs s :
  tx_state idle n w a evs s ->
  let s' := Endpoint_SelectEndpoint (Address (DataINEndpoint (app s))) s in
  exists f, in_state n w f (steady s') evs s' /\ (idle = true -> no_control evs s') /\ app s' = a.
Proof.
  intros (<- & -> & Hn & (e & He & Hf & Hw) & Hr & Hev & Hi) s'. exists (filling e). split; [|split; [|done]].
  - by exists e.
  - intros [H1 H2]%Hi. split; [done|]. split; [apply number_small|]. apply H2.
Qed.
Lemma tx_leave idle n w f a K evs s :
  n = endpoint_number (DataINEndpoint a) -> 0 < n -> in_state n w f K evs s -> (idle = true -> no_control evs s) ->
  K.1.2 = a -> tx_state idle n w a evs s.
Proof.
  intros Hn Hpos (e & [Hu He] & Hf & Hw & _ & <- & Hr & Hev) Hi Ha. split; [done|]. split_and!; try done. by exists e.
Qed.

Lemma idle_stable idle : stable (App:=serial) (fun evs s => idle = true -> no_control evs s).
Proof. intros ev evs s Hi Ht. by apply no_control_stable, Hi. Qed.
Lemma idle_on_cur idle n f evs (s : state) : 0 < n -> UENUM s = n ->
  (idle = true -> no_control evs s) -> idle = true -> no_control evs (on_cur f s).
Proof. intros Hn Hu Hi Ht. apply (no_control_on_cur n Hn); [done|by apply Hi]. Qed.

(** The wait for a bank of the data endpoint. *)
Lemma tx_wait idle n w f K evs (s : state) : 0 < n -> in_state n w f K evs s -> (idle = true -> no_control evs s) ->
  within WAIT (fun err evs' s' => in_state n w f K evs' s' /\ (idle = true -> no_control evs' s') /\ told err s') s evs
    (Endpoint_WaitUntilReady s evs).
Proof.
  intros Hn Hin Hi.
  pose proof (wait_rule _ s evs (stable_and _ _ (in_state_stable n w f K Hn) (idle_stable idle)) (conj Hin Hi)) as Hw.
  eapply (within_after 0); [exact Hw|done..|]. intros err evs' s' ([H1 H2] & H3 & _). done.
Qed.

Lemma send_byte_tx idle n w a evs s b :
  tx_state idle n w a evs s -> is_u8 b ->
  within WAIT (fun err => tx_state idle n (w ++ if decide (err = NoError) then [b] else []) a) s evs
    (CDC_Device_SendByte b s evs).
Proof.
  intros Ht Hb. pose proof Ht as (_ & Hn & Hpos & _). unfold CDC_Device_SendByte. rewrite bind_get. destruct (open_ s).
  2: { apply within_ret; [|done]. by rewrite app_nil_r. }
  cbn [negb]. cbv iota. rewrite bind_run, bind_get. destruct (tx_select _ _ _ _ _ _ Ht) as (f & Hin & Hi & Ha).
  set (s1 := Endpoint_SelectEndpoint _ s) in *. set (K := steady s1) in *. change (app s1) with (K.1.2) in Ha. clearbody K.
  assert (forall f2 evs2 s2, in_state n w f2 K evs2 s2 -> (idle = true -> no_control evs2 s2) ->
    Endpoint_IsReadWriteAllowed s2 = true -> within 0 (fun err => tx_state idle n (w ++ if decide (err = NoError) then [b] else []) a)
      s2 evs2 ((_ ← op (Endpoint_Write_8 b); mret NoError) s2 evs2)) as Hwrite.
  { intros f2 evs2 s2 Hin2 Hi2 Hrw. destruct (in_write n w f2 K evs2 s2 b Hin2 Hrw Hb) as [Hwr Hin3].
    rewrite (bind_op _ _ _ _ _ _ Hwr). apply within_ret; [|done]. rewrite decide_True by done.
    eapply tx_leave; try done. apply idle_on_cur with n; try done. by eapply in_UENUM. }
  destruct (Endpoint_IsReadWriteAllowed s1) eqn:Erw; cbn [negb]; cbv iota.
  - rewrite bind_ret, decide_True by done. eapply (within_after 0); [by eapply Hwrite|done..|lia|done].
  - apply (within_start s1); [|done]. replace WAIT with (WAIT + 0)%nat by lia. eapply within_bind.
    + rewrite bind_run. pose proof (in_clear n w f K evs s1 Hin) as Hin1.
      eapply (within_after 0); [apply (tx_wait idle n w [] K); [done..|]|done..].
      apply idle_on_cur with n; try done. by eapply in_UENUM.
    + intros err s2 evs2 (Hin2 & Hi2 & Htold). destruct (decide (err = NoError)) as [->|Hne].
      * eapply Hwrite; [done..|]. by eapply in_told.
      * apply within_ret; [|done]. rewrite decide_False by done. rewrite app_nil_r. by eapply tx_leave.
Qed.

(** Everything has been handed over to the controller: nothing is left in the bank. *)
Definition delivered (n : Z) (w : list Z) (s : state) : Prop :=
  exists e, eps s !! Z.to_nat n = Some e /\ filling e = [] /\ concat (taken e ++ armed e) = w.
(** The host has sent nothing to the IN endpoint. *)
Definition unsent (n : Z) (s : state) : Prop := forall e, eps s !! Z.to_nat n = Some e -> received e = [].
Lemma in_delivered n w K evs s : in_state n w [] K evs s -> delivered n w s.
Proof.
  intros (e & [Hu He] & Hf & Hw & Hfl & _). exists e. split; [done|]. split; [done|].
  rewrite <- Hw, concat_app. unfold wire. by rewrite Hfl, app_nil_r.
Qed.

(** A flush, and the task, leave nothing behind in an open device; and never undo that. *)
Definition flushed (idle : bool) n w a (s : state) evs' s' : Prop :=
  tx_state idle n w a evs' s' /\ (open_ s = true /\ unsent n s \/ delivered n w s -> delivered n w s').
Lemma flush_flushed idle n w a evs s :
  tx_state idle n w a evs s -> within WAIT (fun _ => flushed idle n w a s) s evs (CDC_Device_Flush s evs).
Proof.
  intros Ht. pose proof Ht as (_ & Hn & Hpos & _). unfold CDC_Device_Flush, flushed. rewrite bind_get. destruct (open_ s).
  2: { apply within_ret; [|done]. split; [done|]. by intros [[Ho _]|Hd]. }
  cbn [negb]. cbv iota. rewrite bind_run, bind_get. destruct (tx_select _ _ _ _ _ _ Ht) as (f & Hin & Hi & Ha).
  set (s1 := Endpoint_SelectEndpoint _ s) in *. set (K := steady s1) in *. change (app s1) with (K.1.2) in Ha.
  assert (unsent n s = unsent n s1) as -> by done. assert (delivered n w s = delivered n w s1) as -> by done. clearbody K.
  destruct (Z.eqb_spec (Endpoint_BytesInEndpoint s1) 0) as [Hz|_].
  { apply within_ret; [|done]. split; [by eapply tx_leave|]. intros [[_ Hun]|Hd]; [|exact Hd]. apply (in_delivered n w K evs).
    pose proof Hin as (e & Hat & _ & _ & Hfl & _). unfold Endpoint_BytesInEndpoint in Hz. rewrite (at_cur _ _ _ Hat), (Hun e) in Hz by apply Hat.
    destruct (filling e) eqn:Ef; [|simpl in Hz; lia]. by subst f. }
  rewrite bind_get, bind_run.
  pose proof (in_clear n w f K evs s1 Hin) as Hin1.
  assert (idle = true -> no_control evs (Endpoint_ClearIN s1)) as Hi1.
  { apply idle_on_cur with n; try done. by eapply in_UENUM. }
  destruct (negb (Endpoint_IsReadWriteAllowed s1)).
  2: { apply within_ret; [|done]. split; [by eapply tx_leave|]. intros _. by eapply in_delivered. }
  apply (within_start (Endpoint_ClearIN s1)); [|done]. replace WAIT with (WAIT + 0)%nat by lia. eapply within_bind.
  { eapply (within_after 0); [by apply (tx_wait idle n w [] K)|done..]. }
  intros err s2 evs2 (Hin2 & Hi2 & _). destruct (decide (err = NoError)).
  - rewrite bind_run. pose proof (in_clear n w [] K evs2 s2 Hin2) as Hin3. apply within_ret; [|done].
    split; [|intros _; by eapply in_delivered]. eapply tx_leave; try done. apply idle_on_cur with n; try done. by eapply in_UENUM.
  - apply within_ret; [|done]. split; [by eapply tx_leave|]. intros _. by eapply in_delivered.
Qed.
Lemma flush_tx idle n w a evs s :
  tx_state idle n w a evs s -> within WAIT (fun _ => tx_state idle n w a) s evs (CDC_Device_Flush s evs).
Proof. intros Ht. eapply (within_after 0); [by apply flush_flushed|done..|]. by intros err evs' s' [H1 _]. Qed.

Lemma task_flushed idle n w a evs s :
  tx_state idle n w a evs s -> within WAIT (fun _ => flushed idle n w a s) s evs (CDC_Device_USBTask s evs).
Proof.
  intros Ht. pose proof Ht as (_ & Hn & Hpos & _). unfold CDC_Device_USBTask, flushed. rewrite bind_get. destruct (open_ s) eqn:Eo.
  2: { apply within_ret; [|done]. split; [done|]. by intros [[Ho _]|Hd]. }
  cbn [negb]. cbv iota. rewrite bind_run, bind_get. destruct (tx_select _ _ _ _ _ _ Ht) as (f & Hin & Hi & Ha).
  set (s1 := Endpoint_SelectEndpoint _ s) in *.
  assert (tx_state idle n w a evs s1) as Ht1 by (by eapply tx_leave).
  assert (open_ s1 = true) as Eo1 by done. destruct (Endpoint_IsINReady s1) eqn:Er.
  - apply (within_start s1); [|done]. replace WAIT with (WAIT + 0)%nat by lia. eapply within_bind.
    { eapply (within_after 0); [by apply flush_flushed|done..]. }
    intros err s2 evs2 [Ht2 Hd2]. apply within_ret; [|done]. split; [done|]. intros [[_ Hun]|Hd]; apply Hd2; [by left|by right].
  - apply within_ret; [|done]. split; [done|]. intros _. eapply in_delivered.
    pose proof Hin as (e & Hat & (_ & _ & Hb) & _ & Hfl & _). unfold Endpoint_IsINReady in Er. rewrite (at_cur _ _ _ Hat) in Er.
    rewrite (Hb Er) in Hfl. subst f. exact Hin.
Qed.
Lemma task_tx idle n w a evs s :
  tx_state idle n w a evs s -> within WAIT (fun _ => tx_state idle n w a) s evs (CDC_Device_USBTask s evs).
Proof. intros Ht. eapply (within_after 0); [by apply task_flushed|done..|]. by intros err evs' s' [H1 _]. Qed.

(** The control task does nothing without a control request. *)
Lemma task_idle evs (s : state) : no_control evs s -> USB_USBTask s evs = Ok (tt, s, evs).
Proof. apply device_task_idle. Qed.

Lemma send_data_tx n w a evs s bytes :
  tx_state true n w a evs s -> Forall is_u8 bytes -> (Z.of_nat (length bytes) < 65536) ->
  within (WAIT * S (length bytes))
    (fun err evs' s' => exists part, part `prefix_of` bytes /\ (err = NoError -> part = bytes) /\
       tx_state true n (w ++ part) a evs' s') s evs
    (CDC_Device_SendData bytes (Z.of_nat (length bytes)) s evs).
Proof.
  intros Ht Hb Hlen. pose proof Ht as (_ & Hn & Hpos & _). unfold CDC_Device_SendData. rewrite bind_get. destruct (open_ s).
  2: { apply within_ret; [|done]. exists []. rewrite app_nil_r. split_and!; try done. apply prefix_nil. }
  cbn [negb]. cbv iota. rewrite bind_run. destruct (tx_select _ _ _ _ _ _ Ht) as (f & Hin & Hi & Ha).
  set (s1 := Endpoint_SelectEndpoint _ s) in *. set (K := steady s1) in *. change (app s1) with (K.1.2) in Ha. clearbody K.
  apply (within_start s1); [|done]. replace (WAIT * S (length bytes))%nat with (WAIT * S (length bytes) + 0)%nat by lia. eapply within_bind.
  - eapply (within_after 0); [apply (write_stream USB_USBTask no_control n Hpos no_control_stable (fun f evs s _ => no_control_on_cur n Hpos f evs s)
      (fun evs s Hc _ => task_idle evs s Hc) LE bytes _ None w f K s1 evs bytes)|done..].
    + exact Hin.
    + by apply Hi.
    + simpl. pose proof (reads_LE bytes 0 (length bytes) ltac:(lia)) as Hr. by rewrite drop_0, firstn_all in Hr.
    + exact Hb.
    + simpl. rewrite Z.sub_0_r, u16_small; [done|]. unfold is_u16. lia.
  - intros [[err mem'] p'] s2 evs2 (j & f2 & H1 & H2 & _ & H4 & H5). apply within_ret; [|done].
    exists (take j bytes). split; [apply prefix_take|]. split; [|by eapply tx_leave].
    simpl. intros ->. destruct H5 as [-> _]. apply firstn_all.
Qed.

(** The calls a sketch makes to transmit. *)
Inductive tx_op := TxByte (b : Z) | TxData (bytes : list Z) | TxFlush | TxTask.
Definition call (o : tx_op) : M ep_error :=
  match o with
  | TxByte b => CDC_Device_SendByte b
  | TxData bytes => CDC_Device_SendData bytes (Z.of_nat (length bytes))
  | TxFlush => CDC_Device_Flush
  | TxTask => _ ← CDC_Device_USBTask; mret NoError
  end.
Fixpoint transmit (ops : list tx_op) : M (list ep_error) :=
  match ops with
  | [] => mret []
  | o :: ops' => err ← call o; errs ← transmit ops'; mret (err :: errs)
  end.

(** What a call may be given, what it puts on the wire, and how many frames it takes at most. *)
Definition tx_op_ok (o : tx_op) : Prop :=
  match o with
  | TxByte b => is_u8 b
  | TxData bytes => Forall is_u8 bytes /\ Z.of_nat (length bytes) < 65536
  | _ => True
  end.
Definition accepted (o : tx_op) (err : ep_error) (part : list Z) : Prop :=
  match o with
  | TxByte b => part = if decide (err = NoError) then [b] else []
  | TxData bytes => part `prefix_of` bytes /\ (err = NoError -> part = bytes)
  | _ => part = []
  end.
Definition frames (o : tx_op) : nat :=
  match o with TxData bytes => WAIT * S (length bytes) | _ => WAIT end%nat.
Definition has_data (ops : list tx_op) : bool :=
  existsb (fun o => match o with TxData _ => true | _ => false end) ops.

Lemma call_tx idle o n w a evs s :
  tx_state idle n w a evs s -> tx_op_ok o -> (has_data [o] = true -> idle = true) ->
  within (frames o) (fun err evs' s' => exists part, accepted o err part /\ tx_state idle n (w ++ part) a evs' s') s evs
    (call o s evs).
Proof.
  intros Ht Hok Hd. destruct o as [b|bytes| |]; cbn [call frames].
  - eapply (within_after 0); [by apply send_byte_tx|done..|]. intros err evs' s' Ht'. by eexists.
  - assert (idle = true) as -> by (by apply Hd). destruct Hok as [Hb Hl].
    eapply (within_after 0); [by apply send_data_tx|done..|]. intros err evs' s' (part & H1 & H2 & H3). by exists part.
  - eapply (within_after 0); [by apply flush_tx|done..|]. intros err evs' s' Ht'. exists []. by rewrite app_nil_r.
  - replace WAIT with (WAIT + 0)%nat by lia. eapply within_bind; [by apply task_tx|].
    intros u s2 evs2 Ht2. apply within_ret; [|done]. exists []. by rewrite app_nil_r.
Qed.

Lemma call_flushed idle o n w a evs s : tx_state idle n w a evs s -> o = TxFlush \/ o = TxTask ->
  within WAIT (fun _ => flushed idle n w a s) s evs (call o s evs).
Proof.
  intros Ht [-> | ->]; cbn [call]; [by apply flush_flushed|].
  replace WAIT with (WAIT + 0)%nat by lia. eapply within_bind; [by apply task_flushed|]. intros u s2 evs2 Hf. by apply within_ret.
Qed.

Lemma transmit_tx idle n a : forall ops w evs s,
  tx_state idle n w a evs s -> Forall tx_op_ok ops -> (has_data ops = true -> idle = true) ->
  within (sum_list_with frames ops) (fun errs evs' s' => exists parts, Forall3 accepted ops errs parts /\
    tx_state idle n (w ++ concat parts) a evs' s') s evs (transmit ops s evs).
Proof.
  induction ops as [|o ops IH]; intros w evs s Ht Hok Hd.
  { apply within_ret; [|done]. exists []. rewrite app_nil_r. split; [constructor|done]. }
  apply Forall_cons_1 in Hok as [Ho Hok]. cbn [transmit sum_list_with].
  eapply within_bind; [apply call_tx; try done; simpl in *; intros Hx; apply Hd; destruct o; simpl in *; done|].
  intros err s1 evs1 (part & Hpart & Ht1). replace (sum_list_with frames ops) with (sum_list_with frames ops + 0)%nat by lia.
  eapply within_bind; [apply IH; try done; intros Hx; apply Hd; simpl; rewrite Hx; by rewrite orb_true_r|].
  intros errs s2 evs2 (parts & Hparts & Ht2). apply within_ret; [|done]. exists (part :: parts). simpl.
  rewrite app_assoc. split; [by constructor|done].
Qed.

(** ** Reception *)

(** The data OUT endpoint [n] of the application [a] holds [r]. *)
Definition rx_state (n : Z) (r : list Z) (a : serial) (s : state) : Prop :=
  app s = a /\ n = endpoint_number (DataOUTEndpoint a) /\ 0 < n /\
  (exists e, eps s !! Z.to_nat n = Some e /\ Z.testbit (UECFG0X e) EPDIR = false /\ RXSTPI e = false /\
     concat (received e) = r /\ Forall (Forall is_u8) (received e)) /\ fires EORSTI s = false.

(** The calls a sketch makes to receive, with the events between them. *)
Inductive rx_op := RxByte | RxCount | RxEvent (ev : bus_event).
Fixpoint receive (ops : list rx_op) : M (list Z) :=
  match ops with
  | [] => mret []
  | RxByte :: ops' => b ← CDC_Device_ReceiveByte; rest ← receive ops'; mret ((if b <? 0 then [] else [b]) ++ rest)
  | RxCount :: ops' => _ ← CDC_Device_BytesReceived; receive ops'
  | RxEvent ev :: ops' => _ ← run (tick ev); receive ops'
  end.
Definition rx_events (ops : list rx_op) : list bus_event :=
  flat_map (fun o => match o with RxEvent ev => [ev] | _ => [] end) ops.
(** Packets hold bytes, and the bus is not reset. *)
Definition rx_event_ok (ev : bus_event) : Prop :=
  ev <> BusReset /\ match ev with Out _ data => Forall is_u8 data | _ => True end.

(** The endpoint selected, its flags and its bytes. *)
Lemma rx_select n r a s : rx_state n r a s ->
  let s' := Endpoint_SelectEndpoint (Address (DataOUTEndpoint (app s))) s in
  rx_state n r a s' /\ UENUM s' = n /\ exists e, at_ep n e s' /\ RXSTPI e = false /\ concat (received e) = r /\
    Forall (Forall is_u8) (received e).
Proof.
  intros (<- & -> & Hn & (e & He & Hd & Hx & Hr & Hb) & Hf) s'. split; [|split; [done|by exists e]].
  split_and!; try done. by exists e.
Qed.
Lemma rx_on_cur n r a s ps : rx_state n r a s -> UENUM s = n -> Forall (Forall is_u8) ps ->
  rx_state n (concat ps) a (on_cur (fun e => e <| received := ps |>) s).
Proof.
  intros (Ha & Hn & Hpos & (e & He & Hd & Hx & Hr & Hb) & Hf) Hu Hps. split_and!; try done.
  exists (e <| received := ps |>). split_and!; try done. unfold on_cur. rewrite Hu. simpl.
  by rewrite list_lookup_alter_eq, He.
Qed.
Lemma clear_out n e (s : state) : at_ep n e s -> Endpoint_ClearOUT s = on_cur (fun e' => e' <| received := tail (received e) |>) s.
Proof.
  intros Ha. by apply (on_cur_ext n e).
Qed.

Lemma receive_byte_rx n r a evs s : rx_state n r a s ->
  exists b s', CDC_Device_ReceiveByte s evs = Ok (b, s', evs) /\
    ((b = -1 /\ rx_state n r a s' /\ (open_ s = true -> forall e, eps s !! Z.to_nat n = Some e -> RWAL e = false)) \/ exists r', r = b :: r' /\ is_u8 b /\ rx_state n r' a s').
Proof.
  intros Ht. unfold CDC_Device_ReceiveByte. rewrite bind_get. destruct (open_ s).
  2: { exists (-1), s. split; [done|by left]. }
  assert (forall e', eps s !! Z.to_nat n = Some e' -> Z.testbit (UECFG0X e') EPDIR = false) as Hdir.
  { destruct Ht as (_ & _ & _ & (e & He & Hd & _) & _). intros e' He'. congruence. }
  cbn [negb]. cbv iota. rewrite bind_run, bind_get. destruct (rx_select n r a s Ht) as (Ht1 & Hu1 & e & Ha & Hx & Hr & Hb).
  set (s1 := Endpoint_SelectEndpoint _ s) in *. change (eps s) with (eps s1) in *. clearbody s1.
  assert (received e = [] \/ hd [] (received e) = [] -> forall e', eps s1 !! Z.to_nat n = Some e' -> RWAL e' = false) as Hrw.
  { intros Hc e' He'. unfold RWAL. rewrite (Hdir e' He'). destruct Ha as [_ He]. assert (e' = e) as -> by congruence.
    by destruct Hc as [Hc|Hc], (received e) as [|[|]]. }
  unfold Endpoint_IsOUTReceived, RXOUTI. rewrite (at_cur _ _ _ Ha).
  destruct (received e) as [|p ps] eqn:Er; [exists (-1), s1; split; [done|left; split_and!; auto]|].
  assert (Endpoint_BytesInEndpoint s1 = Z.of_nat (length p)) as Hbytes.
  { unfold Endpoint_BytesInEndpoint. by rewrite (at_cur _ _ _ Ha), Er. }
  rewrite bind_get, Hbytes. apply Forall_cons_1 in Hb as [Hp Hps]. destruct p as [|b rest].
  - change (Z.of_nat (length []) =? 0) with true. cbn [negb]. cbv iota. rewrite bind_ret, bind_get, Hbytes.
    change (Z.of_nat (length []) =? 0) with true. cbv iota.
    rewrite bind_run. eexists _, _. split; [done|]. left. split; [done|]. split; [|by auto].
    rewrite (clear_out n e s1 Ha), Er. subst r. exact (rx_on_cur n _ a s1 ps Ht1 Hu1 Hps).
  - assert (Endpoint_Read_8 s1 = Ok (b, on_cur (fun e => e <| received := rest :: ps |>) s1)) as Hrd.
    { unfold Endpoint_Read_8. by rewrite (at_cur _ _ _ Ha), Hx, Er. }
    rewrite (proj2 (Z.eqb_neq _ 0)) by (simpl; lia). cbn [negb]. cbv iota. rewrite (bind_op _ _ _ _ _ _ Hrd), bind_get.
    apply Forall_cons_1 in Hp as [Hb Hrest]. set (s2 := on_cur _ s1).
    assert (at_ep n (e <| received := rest :: ps |>) s2) as Ha2 by (by apply (at_on_cur n e s1 (fun e => e <| received := rest :: ps |>))).
    assert (rx_state n (rest ++ concat ps) a s2) as Ht2.
    { apply (rx_on_cur n r a s1 (rest :: ps)); try done. by constructor. }
    unfold Endpoint_BytesInEndpoint. rewrite (at_cur _ _ _ Ha2). cbn [received set_field]. destruct rest as [|c rest].
    + change (Z.of_nat (length []) =? 0) with true. cbv iota. rewrite bind_run. eexists _, _. split; [done|]. right.
      exists (concat ps). split; [by rewrite <- Hr|]. split; [done|]. rewrite (clear_out _ _ _ Ha2).
      exact (rx_on_cur n _ a s2 ps Ht2 (proj1 Ha2) Hps).
    + rewrite (proj2 (Z.eqb_neq _ 0)) by (simpl; lia). rewrite bind_ret. eexists _, _. split; [done|]. right.
      eexists. split; [by rewrite <- Hr|]. split; [done|]. exact Ht2.
Qed.

(** A count that is not zero announces a byte. *)
Lemma bytes_received_rx n r a evs s : rx_state n r a s ->
  exists k s', CDC_Device_BytesReceived s evs = Ok (k, s', evs) /\ rx_state n r a s' /\
    (0 < k -> exists b r' s2, r = b :: r' /\ CDC_Device_ReceiveByte s' evs = Ok (b, s2, evs) /\ rx_state n r' a s2).
Proof.
  intros Ht. unfold CDC_Device_BytesReceived. rewrite bind_get. destruct (open_ s) eqn:Eo.
  2: { exists 0, s. split; [done|]. split; [done|]. lia. }
  cbn [negb]. cbv iota. rewrite bind_run, bind_get. destruct (rx_select n r a s Ht) as (Ht1 & Hu1 & e & Ha & Hx & Hr & Hb).
  set (s1 := Endpoint_SelectEndpoint _ s) in *. assert (open_ s1 = true) as Eo1 by done. clearbody s1.
  unfold Endpoint_IsOUTReceived, RXOUTI. rewrite (at_cur _ _ _ Ha).
  destruct (received e) as [|p ps] eqn:Er; [exists 0, s1; split; [done|]; split; [done|lia]|].
  rewrite bind_get. unfold Endpoint_BytesInEndpoint. rewrite (at_cur _ _ _ Ha), Er.
  apply Forall_cons_1 in Hb as [Hp Hps]. destruct p as [|b rest].
  - change (Z.of_nat (length []) =? 0) with true. cbv iota. rewrite bind_run. eexists _, _. split; [done|]. split; [|lia].
    rewrite (clear_out n e s1 Ha), Er. subst r. exact (rx_on_cur n _ a s1 ps Ht1 Hu1 Hps).
  - rewrite (proj2 (Z.eqb_neq _ 0)) by (simpl; lia). eexists _, _. split; [done|]. split; [done|]. intros _.
    destruct (receive_byte_rx n r a evs s1 Ht1) as (b' & s2 & Hrun & [(-> & _ & Hno)|(r' & -> & _ & Hr')]).
    2: { by exists b', r', s2. }
    exfalso. destruct Ht1 as (_ & _ & _ & (e1 & He1 & Hd1 & _) & _). specialize (Hno Eo1 e1 He1). unfold RWAL in Hno.
    rewrite Hd1 in Hno. destruct Ha as [_ He]. assert (e1 = e) as -> by congruence. by rewrite Er in Hno.
Qed.

(** What the two calls answer, and the packets they leave: an empty packet is dropped, and a
    packet whose last byte is read makes room for the next one. *)
Definition first_byte (q : list (list Z)) : Z * list (list Z) :=
  match q with [] => (-1, []) | [] :: ps => (-1, ps) | [b] :: ps => (b, ps) | (b :: p) :: ps => (b, p :: ps) end.
Definition first_count (q : list (list Z)) : Z * list (list Z) :=
  match q with [] => (0, []) | [] :: ps => (0, ps) | p :: _ => (Z.of_nat (length p), q) end.
(** [m] answers so on the packets of endpoint [n], and touches nothing else of it. *)
Definition answers_with (m : M Z) (f : list (list Z) -> Z * list (list Z)) n e (s : state) evs : Prop :=
  exists s', m s evs = Ok (fst (f (received e)), s', evs) /\ eps s' !! Z.to_nat n = Some (e <| received := snd (f (received e)) |>).
Lemma same_received (e : endpoint) : e <| received := received e |> = e.
Proof. by destruct e. Qed.
Lemma answers_select n e (s : state) : eps s !! Z.to_nat n = Some e -> n = endpoint_number (DataOUTEndpoint (app s)) ->
  at_ep n e (Endpoint_SelectEndpoint (Address (DataOUTEndpoint (app s))) s).
Proof. intros He ->. done. Qed.
Lemma receive_byte_exact n e (s : state) evs : eps s !! Z.to_nat n = Some e -> n = endpoint_number (DataOUTEndpoint (app s)) ->
  RXSTPI e = false -> open_ s = true -> answers_with CDC_Device_ReceiveByte first_byte n e s evs.
Proof.
  intros He Hn Hx Ho. pose proof (answers_select n e s He Hn) as Ha. unfold answers_with, CDC_Device_ReceiveByte.
  rewrite bind_get, Ho. cbn [negb]. cbv iota. rewrite bind_run, bind_get. set (s1 := Endpoint_SelectEndpoint _ s) in *. clearbody s1.
  unfold Endpoint_IsOUTReceived, RXOUTI. rewrite (at_cur _ _ _ Ha). destruct (received e) as [|p ps] eqn:Er.
  { exists s1. split; [done|]. cbn [first_byte snd]. rewrite <- Er, same_received. apply Ha. }
  assert (Endpoint_BytesInEndpoint s1 = Z.of_nat (length p)) as Hbytes by (unfold Endpoint_BytesInEndpoint; by rewrite (at_cur _ _ _ Ha), Er).
  rewrite bind_get, Hbytes. destruct p as [|b rest].
  - change (Z.of_nat (length []) =? 0) with true. cbn [negb]. cbv iota. rewrite bind_ret, bind_get, Hbytes.
    change (Z.of_nat (length []) =? 0) with true. cbv iota.
    rewrite bind_run, (clear_out n e s1 Ha), Er. eexists. split; [done|]. apply (at_on_cur n e s1 (fun e => e <| received := ps |>) Ha).
  - rewrite (proj2 (Z.eqb_neq _ 0)) by (simpl; lia). cbn [negb]. cbv iota.
    assert (Endpoint_Read_8 s1 = Ok (b, on_cur (fun e => e <| received := rest :: ps |>) s1)) as Hrd.
    { unfold Endpoint_Read_8. by rewrite (at_cur _ _ _ Ha), Hx, Er. }
    rewrite (bind_op _ _ _ _ _ _ Hrd), bind_get. pose proof (at_on_cur n e s1 (fun e => e <| received := rest :: ps |>) Ha) as Ha2.
    set (s2 := on_cur _ s1) in *. unfold Endpoint_BytesInEndpoint. rewrite (at_cur _ _ _ Ha2).
    change (received (e <| received := rest :: ps |>)) with (rest :: ps). destruct rest as [|c rest].
    + change (Z.of_nat (length []) =? 0) with true. cbv iota. rewrite bind_run, (clear_out _ _ _ Ha2). eexists. split; [done|].
      exact (proj2 (at_on_cur n _ s2 (fun e => e <| received := ps |>) Ha2)).
    + rewrite (proj2 (Z.eqb_neq _ 0)) by (simpl; lia). rewrite bind_ret. eexists. split; [done|]. apply Ha2.
Qed.
Lemma bytes_received_exact n e (s : state) evs : eps s !! Z.to_nat n = Some e -> n = endpoint_number (DataOUTEndpoint (app s)) ->
  open_ s = true -> answers_with CDC_Device_BytesReceived first_count n e s evs.
Proof.
  intros He Hn Ho. pose proof (answers_select n e s He Hn) as Ha. unfold answers_with, CDC_Device_BytesReceived.
  rewrite bind_get, Ho. cbn [negb]. cbv iota. rewrite bind_run, bind_get. set (s1 := Endpoint_SelectEndpoint _ s) in *. clearbody s1.
  unfold Endpoint_IsOUTReceived, RXOUTI. rewrite (at_cur _ _ _ Ha). destruct (received e) as [|p ps] eqn:Er.
  { exists s1. split; [done|]. cbn [first_count snd]. rewrite <- Er, same_received. apply Ha. }
  rewrite bind_get. unfold Endpoint_BytesInEndpoint. rewrite (at_cur _ _ _ Ha), Er. destruct p as [|b rest].
  - change (Z.of_nat (length []) =? 0) with true. cbv iota. rewrite bind_run, (clear_out n e s1 Ha), Er. eexists. split; [done|].
    apply (at_on_cur n e s1 (fun e => e <| received := ps |>) Ha).
  - rewrite (proj2 (Z.eqb_neq _ 0)) by (simpl; lia). eexists. split; [done|]. cbn [first_count snd]. rewrite <- Er, same_received. apply Ha.
Qed.

Lemma tick_rx n r a ev s : rx_state n r a s -> rx_event_ok ev ->
  exists P, P `sublist_of` outs n [ev] /\ rx_state n (r ++ concat P) a (tick ev s).
Proof.
  intros (Ha & Hn & Hpos & (e & He & Hd & Hx & Hr & Hb) & Hf) [Hv Hok].
  destruct (act_received n ev e Hpos) as (D & HD & HDs & Hd' & Hx'). destruct (tick_steady ev s Hv Hf) as [Hst Heps].
  injection Hst as _ _ _ _ _ Happ Hf'. exists D. split; [done|]. split_and!; [congruence|done..| |congruence].
  exists (act n ev e). rewrite Heps, HD, Hd', Hx', concat_app, Hr. split_and!; try done; [by apply hardware_lookup|].
  apply Forall_app. split; [done|]. eapply sublist_Forall; [exact HDs|]. destruct ev; simpl; try by constructor.
  rewrite app_nil_r. case_decide; by repeat constructor.
Qed.

Lemma receive_rx n a evs : forall ops r s,
  rx_state n r a s -> Forall rx_event_ok (rx_events ops) ->
  exists bytes s' P r', receive ops s evs = Ok (bytes, s', evs) /\ P `sublist_of` outs n (rx_events ops) /\
    bytes ++ r' = r ++ concat P /\ rx_state n r' a s'.
Proof.
  induction ops as [|o ops IH]; intros r s Ht Hok.
  { exists [], s, [], r. rewrite app_nil_r. by split_and!. }
  destruct o as [| |ev]; cbn [receive].
  - destruct (receive_byte_rx n r a evs s Ht) as (b & s1 & Hrun & Hb). unfold mbind at 1, M_bind at 1. rewrite Hrun.
    assert (exists r1, rx_state n r1 a s1 /\ r = (if b <? 0 then [] else [b]) ++ r1) as (r1 & Ht1 & ->).
    { destruct Hb as [(-> & Ht1 & _)|(r1 & -> & Hb & Ht1)]; [by exists r|]. exists r1. split; [done|].
      by rewrite (proj2 (Z.ltb_ge _ _)) by apply Hb. }
    destruct (IH r1 s1 Ht1 Hok) as (bytes & s' & P & r' & Hrec & HP & Heq & Ht').
    unfold mbind, M_bind. rewrite Hrec. eexists _, s', P, r'. split; [done|]. split; [done|]. split; [|done].
    by rewrite <- !app_assoc, Heq.
  - destruct (bytes_received_rx n r a evs s Ht) as (k & s1 & Hrun & Ht1 & _). unfold mbind, M_bind. rewrite Hrun. by apply IH.
  - apply Forall_cons_1 in Hok as [Hev Hok]. rewrite bind_run.
    destruct (tick_rx n r a ev s Ht Hev) as (P1 & HP1 & Ht1).
    destruct (IH _ _ Ht1 Hok) as (bytes & s' & P & r' & Hrec & HP & Heq & Ht').
    exists bytes, s', (P1 ++ P), r'. split; [done|]. split; [|split; [|done]].
    + change (rx_events (RxEvent ev :: ops)) with (ev :: rx_events ops). rewrite outs_cons. by apply sublist_app.
    + by rewrite concat_app, app_assoc.
Qed.

(** ** Line encoding *)

Definition encoding_bytes (l : CDC_LineEncoding_t) : list Z :=
  let b := BaudRateBPS l in
  [b mod 256; b / 256 mod 256; b / 65536 mod 256; b / 16777216; CharFormat l; ParityType l; DataBits l].
Definition encoding_ok (l : CDC_LineEncoding_t) : Prop :=
  is_u32 (BaudRateBPS l) /\ is_u8 (CharFormat l) /\ is_u8 (ParityType l) /\ is_u8 (DataBits l).

(** A request the application answers. *)
Lemma handled r e (s : state) evs s1 e1 evs1 :
  requested r e s -> CDC_Device_ProcessControlRequest (loaded r e s) evs = Ok (tt, s1, evs1) ->
  at_ep 0 e1 s1 -> RXSTPI e1 = false -> ProcessControlRequest s evs = Ok (tt, s1, evs1).
Proof.
  intros Hq Hh Ha Hr. unfold ProcessControlRequest. eapply request_handled; [exact Hq|exact Hh|].
  unfold Endpoint_IsSETUPReceived. by rewrite (at_cur _ _ _ Ha).
Qed.


Lemma read_encoding_spec l e (s : state) :
  encoding_ok l -> at_ep 0 e s -> RXSTPI e = false -> received e = [encoding_bytes l] ->
  read_encoding s = Ok (l, put0 (e <| received := [[]] |>) s) /\
  at_ep 0 (e <| received := [[]] |>) (put0 (e <| received := [[]] |>) s).
Proof.
  intros Hl Ha Hr Hs. unfold encoding_bytes in Hs.
  unfold read_encoding, Endpoint_Read_32_LE, Endpoint_Read_16_LE, mbind, Op_bind.
  do 7 read_out_byte. split; [|by destruct e].
  unfold mret, Op_ret. replace (mkEncoding _ _ _ _) with l; [by destruct e|].
  clear - Hl. destruct Hl as (Hb & _). destruct l. simpl in *. f_equal. words.
Qed.

Lemma write_encoding_spec l e (s : state) :
  encoding_ok l -> at_ep 0 e s -> TXINI e = true -> filling e = [] ->
  write_encoding l s = Ok (tt, put0 (e <| filling := encoding_bytes l |>) s) /\
  at_ep 0 (e <| filling := encoding_bytes l |>) (put0 (e <| filling := encoding_bytes l |>) s).
Proof.
  intros (Hb & Hc & Hp & Hd) Ha Ht Hf. pose proof (bank_size_8 e) as H8.
  set (b := BaudRateBPS l) in *.
  destruct (write_all_spec [Z.land b 255; Z.shiftr b 8; Z.shiftr b 16; Z.shiftr b 24; CharFormat l; ParityType l; DataBits l]
    e s [] Ha Ht Hf) as [Hw Hat]; [simpl; lia|].
  assert (map u8 [Z.land b 255; Z.shiftr b 8; Z.shiftr b 16; Z.shiftr b 24; CharFormat l; ParityType l; DataBits l]
    = encoding_bytes l) as E.
  { unfold encoding_bytes. simpl. change 255 with (Z.ones 8). rewrite Z.land_ones, !Z.shiftr_div_pow2 by lia. fold b.
    change (2 ^ 8) with 256. change (2 ^ 16) with 65536. change (2 ^ 24) with 16777216.
    rewrite (u8_small (CharFormat l)), (u8_small (ParityType l)), (u8_small (DataBits l)) by done.
    clear - Hb. repeat f_equal; words. }
  rewrite app_nil_l, E in *. split; [|done]. rewrite <- Hw. unfold write_encoding, Endpoint_Write_32_LE. fold b.
  unfold write_all, mbind, Op_bind.
  repeat match goal with |- context [match ?x with Ok _ => _ | Fault => _ | Hang => _ end] =>
    lazymatch x with context [match _ with Ok _ => _ | Fault => _ | Hang => _ end] => fail | _ => destruct x as [[[] ?]| |] end end; done.
Qed.

(** The two requests on the interface [n]. *)
Definition set_request (n : Z) : USB_Request_Header_t := mkRequest (class_request REQDIR_HOSTTODEVICE) CDC_REQ_SetLineEncoding 0 n 7.
Definition get_request (n : Z) : USB_Request_Header_t := mkRequest (class_request REQDIR_DEVICETOHOST) CDC_REQ_GetLineEncoding 0 n 7.

Lemma encoding_set l e0 (s : state) evs later :
  let r := set_request (ControlInterfaceNumber (app s)) in
  encoding_ok l -> at_ep 0 (take_setup (header_bytes r) e0) s -> EPEN e0 = true -> quiet s -> present s ->
  forallb patient evs = true ->
  exists s1 e1, ProcessControlRequest s (evs ++ Out 0 (encoding_bytes l) :: later) = Ok (tt, s1, later) /\
    at_ep 0 e1 s1 /\ quiet s1 /\ present s1 /\ EPEN e1 = true /\ STALLRQ e1 = false /\ RXSTPI e1 = false /\
    received e1 = [] /\ armed e1 = [[]] /\ taken e1 = taken e0 /\ app s1 = app s <| LineEncoding := l |>.
Proof.
  intros r Hl Ha Hen Hq Hp Hev. pose proof (bank_size_8 e0) as H8.
  destruct (clear_setup r e0 s Ha) as [Hcs Ha1]. set (s1 := put0 (acked e0) s <| USB_ControlRequest := r |>) in *.
  destruct (wait_out (encoding_bytes l) later evs s1 (acked e0)) as (s2 & e2 & Hw & Ha2 & Hc2 & Hq2 & Hr2 & Hf2 & Hx1 & Hx2 & Hx3 & Hx4 & Ht2 & Har2);
    try done; [unfold encoding_bytes; change (bank_size (acked e0)) with (bank_size e0); simpl; lia|].
  simpl in Ht2, Har2, Hf2. rewrite take_nil, app_nil_r in Ht2. rewrite drop_nil in Har2.
  destruct (read_encoding_spec l e2 s2 Hl Ha2 Hx3 Hr2) as [Hrd Ha3].
  set (s3 := put0 (e2 <| received := [[]] |>) s2) in *.
  assert (at_ep 0 (e2 <| received := [[]] |>) (on_app (fun a => a <| LineEncoding := l |>) s3)) as Ha4 by done.
  pose proof (at_on_cur 0 _ _ (fun e => e <| received ::= tail |>) Ha4) as Ha5.
  set (s5 := Endpoint_ClearOUT (on_app (fun a => a <| LineEncoding := l |>) s3)).
  assert (core s2 = core s1) as Hcore by done. injection Hcore as Hst _ _ _ _ Hreq _ _ _ Happ.
  destruct (status_in _ s5 later Ha5) as [Hst5 Ha6]; [done|simpl; by rewrite Hreq|].
  eexists _, _. split; [|split; [exact Ha6|]].
  - eapply handled; [by apply setup_requested| |exact Ha6|done].
    unfold CDC_Device_ProcessControlRequest. rewrite !bind_get, (loaded_setup r _ s (setup_requested r e0 s Ha)).
    change (USB_ControlRequest (loaded r _ s)) with r. change (app (loaded r _ s)) with (app s).
    change (wIndex r) with (ControlInterfaceNumber (app s)). rewrite Z.eqb_refl. cbn [negb]. cbv iota.
    change (bRequest r) with CDC_REQ_SetLineEncoding. change (bmRequestType r) with (class_request REQDIR_HOSTTODEVICE). eqbs.
    unfold SetLineEncoding. rewrite bind_run, Hcs, (bind_ok _ _ _ _ _ _ _ Hw). cbv iota.
    rewrite (bind_op _ _ _ _ _ _ Hrd), !bind_run. exact Hst5.
  - split; [done|]. split; [unfold present; simpl; by rewrite Hst|]. simpl.
    split_and!; try done; [by rewrite Hf2|]. change (app s2 <| LineEncoding := l |> = app s <| LineEncoding := l |>). by rewrite Happ.
Qed.

Lemma encoding_get l e0 (s : state) evs later :
  let r := get_request (ControlInterfaceNumber (app s)) in
  encoding_ok l -> LineEncoding (app s) = l ->
  at_ep 0 (take_setup (header_bytes r) e0) s -> EPEN e0 = true -> quiet s -> present s -> forallb patient evs = true ->
  exists s1 e1, ProcessControlRequest s (evs ++ Out 0 [] :: later) = Ok (tt, s1, later) /\
    at_ep 0 e1 s1 /\ STALLRQ e1 = false /\ RXSTPI e1 = false /\
    taken e1 = taken e0 ++ take (ins 0 evs) [encoding_bytes l].
Proof.
  intros r Hl Hle Ha Hen Hq Hp Hev.
  destruct (clear_setup r e0 s Ha) as [Hcs Ha1]. set (s1 := put0 (acked e0) s <| USB_ControlRequest := r |>) in *.
  assert (TXINI (acked e0) = true) as Htx by (by apply TXINI_free).
  destruct (write_encoding_spec l (acked e0) s1 Hl Ha1 Htx) as [Hw Ha2]; [done|].
  destruct (answer_bytes (write_encoding l) (encoding_bytes l) e0 s1 evs later) as (s4 & e4 & Hans & Ha4 & _ & _ & _ & Hx2 & Hx3 & _ & Ht4); try done.
  exists s4, e4. split; [|by split_and!].
  eapply handled; [by apply setup_requested| |exact Ha4|done].
  unfold CDC_Device_ProcessControlRequest. rewrite !bind_get, (loaded_setup r _ s (setup_requested r e0 s Ha)).
  change (USB_ControlRequest (loaded r _ s)) with r. change (app (loaded r _ s)) with (app s).
  change (wIndex r) with (ControlInterfaceNumber (app s)). rewrite Z.eqb_refl. cbn [negb]. cbv iota.
  change (bRequest r) with CDC_REQ_GetLineEncoding. change (bmRequestType r) with (class_request REQDIR_DEVICETOHOST). eqbs.
  unfold GetLineEncoding. rewrite bind_run, Hcs.
  assert (spin in_ready_turn tt s1 (evs ++ Out 0 [] :: later) = Ok (tt, s1, evs ++ Out 0 [] :: later)) as Hsp
    by (by rewrite spin_eq, (in_ready_eq _ _ Ha1), Htx).
  unfold answer in Hans. rewrite (bind_ok _ _ _ _ _ _ _ Hsp) in Hans. rewrite (bind_ok _ _ _ _ _ _ _ Hsp). rewrite bind_get. change (LineEncoding (app s1)) with (LineEncoding (app s)). rewrite Hle. exact Hans.
Qed.

Lemma serial_served r e0 (s : state) evs later size d :
  at_ep 0 (take_setup (header_bytes r) e0) s -> EPEN e0 = true -> sized e0 s -> quiet s -> present s ->
  bRequest r = REQ_GetDescriptor ->
  bmRequestType r = standard REQDIR_DEVICETOHOST REQREC_DEVICE \/ bmRequestType r = standard REQDIR_DEVICETOHOST REQREC_INTERFACE ->
  wValue r <> 988 -> UsbDescriptors.CALLBACK_USB_GetDescriptor (wValue r) (u8 (wIndex r)) = (size, d) ->
  size <> 0 -> 0 < wLength r -> forallb patient evs = true ->
  UsbDescriptors.descriptor_ok (u8 (Z.shiftr (wValue r) 8)) d /\
  exists s' e', ProcessControlRequest s (evs ++ Out 0 [] :: later) = Ok (tt, s', later) /\
    at_ep 0 e' s' /\ STALLRQ e' = false /\ RXSTPI e' = false /\ received e' = [] /\ app s' = app s /\
    taken e' = taken e0 ++ take (ins 0 evs) (packets (bank_size e0) (take (Z.to_nat (wLength r)) d)).
Proof.
  intros Ha Hen Hsz Hq Hp Hreq Hty Hv Hcb Hs0 Hw Hev.
  destruct (UsbDescriptors.serial_descriptors _ _ _ _ Hcb Hs0) as [Hok Hlen]. split; [done|].
  assert (0 < size) as Hpos by lia.
  destruct (descriptor_served CDC_Device_ProcessControlRequest EVENT_USB_Device_ConfigurationChanged
    UsbDescriptors.CALLBACK_USB_GetDescriptor boot_signature_byte_get r e0 s evs later size d)
    as (s' & e' & Hrun & Ha' & Hc' & _ & Hx1 & Hx2 & Hx3 & Ht); try done; try lia.
  { apply cdc_declines. by rewrite Hreq. }
  { apply Hok. }
  exists s', e'. split; [exact Hrun|]. split; [done|]. split; [done|]. split; [done|]. split; [done|].
  split; [exact (core_app _ _ Hc')|]. rewrite Ht. do 3 f_equal. rewrite Hlen.
  destruct (Z.min_spec (Z.of_nat (length d)) (wLength r)) as [[Hm ->]|[Hm ->]]; [|done].
  by rewrite !take_ge by lia.
Qed.

Lemma encoding_round_trip l e0 (s : state) evs1 evs2 :
  encoding_ok l -> at_ep 0 (take_setup (header_bytes (set_request (ControlInterfaceNumber (app s)))) e0) s ->
  EPEN e0 = true -> quiet s -> present s -> forallb patient evs1 = true -> forallb patient evs2 = true ->
  exists s1, ProcessControlRequest s (evs1 ++ [Out 0 (encoding_bytes l)]) = Ok (tt, s1, []) /\
    LineEncoding (app s1) = l /\
    let s2 := tick (Setup (header_bytes (get_request (ControlInterfaceNumber (app s))))) (tick (In 0) s1) in
    exists s3 e3, ProcessControlRequest s2 (evs2 ++ [Out 0 []]) = Ok (tt, s3, []) /\ at_ep 0 e3 s3 /\
      STALLRQ e3 = false /\ taken e3 = taken e0 ++ [[]] ++ take (ins 0 evs2) [encoding_bytes l].
Proof.
  intros Hl Ha Hen Hq Hp Hev1 Hev2.
  destruct (encoding_set l e0 s evs1 []) as (s1 & e1 & Hrun & Ha1 & Hq1 & Hp1 & He1 & Hst1 & Hrx1 & Hrc1 & Har1 & Ht1 & Happ); try done.
  exists s1. split; [exact Hrun|]. split; [by rewrite Happ|]. intros s2.
  destruct (at_tick_packet 0 e1 s1 (In 0) Ha1 Hq1) as (Ha2 & Hc2 & Hq2); [done|].
  destruct (act_patient 0 (In 0) e1) as ((He2 & Hst2 & _) & _ & _ & Ht2 & Har2); [done|done|].
  rewrite Har1 in Ht2. change (ins 0 [In 0]) with 1%nat in Ht2. simpl in Ht2.
  destruct (at_tick_packet 0 _ _ (Setup (header_bytes (get_request (ControlInterfaceNumber (app s))))) Ha2 Hq2) as (Ha3 & Hc3 & Hq3); [done|].
  fold s2 in Ha3, Hc3, Hq3. rewrite Hc2 in Hc3.
  pose proof (core_app _ _ Hc3) as Happ2.
  match type of Ha3 with at_ep _ (act _ (Setup ?d) ?e) _ =>
    assert (act 0 (Setup d) e = take_setup d e) as Hact by done; rewrite Hact in Ha3; clear Hact end.
  assert (ControlInterfaceNumber (app s2) = ControlInterfaceNumber (app s)) as Hn by (by rewrite Happ2, Happ).
  rewrite <- Hn in Ha3.
  destruct (encoding_get l (act 0 (In 0) e1) s2 evs2 []) as (s3 & e3 & Hrun3 & Ha4 & Hx1 & _ & Ht4); try done.
  { by rewrite Happ2, Happ. }
  { by eapply present_core. }
  exists s3, e3. split; [exact Hrun3|]. split; [done|]. split; [done|]. simpl in Ht2. rewrite Ht4. simpl. rewrite Ht2, Ht1.
  by rewrite <- app_assoc.
Qed.
End Cdc.

(** ** Theorems *)

(** C33: the serial device serves its descriptors: for a request for a descriptor it has, the host
    that takes packets and completes the transfer gets the packets of the descriptor, cut to the
    length it asked for; and the descriptor is well formed: its length byte, the total length of
    the configuration and the length of every descriptor in it are right. *)
Theorem serial_descriptors_served `{UsbChip} signature r e0 (s : usb serial) evs later size d :
  at_ep 0 (take_setup (header_bytes r) e0) s -> EPEN e0 = true -> sized e0 s -> quiet s -> present s ->
  bRequest r = REQ_GetDescriptor ->
  bmRequestType r = standard REQDIR_DEVICETOHOST REQREC_DEVICE \/ bmRequestType r = standard REQDIR_DEVICETOHOST REQREC_INTERFACE ->
  wValue r <> 988 -> UsbDescriptors.CALLBACK_USB_GetDescriptor (wValue r) (u8 (wIndex r)) = (size, d) ->
  size <> 0 -> 0 < wLength r -> forallb patient evs = true ->
  UsbDescriptors.descriptor_ok (u8 (Z.shiftr (wValue r) 8)) d /\
  exists s' e', ProcessControlRequest signature s (evs ++ Out 0 [] :: later) = Ok (tt, s', later) /\
    at_ep 0 e' s' /\ STALLRQ e' = false /\ RXSTPI e' = false /\ received e' = [] /\ app s' = app s /\
    taken e' = taken e0 ++ take (ins 0 evs) (packets (bank_size e0) (take (Z.to_nat (wLength r)) d)).
Proof. apply serial_served. Qed.

(** The line encoding the host sets is the line encoding it gets: after a SetLineEncoding
    request with its seven bytes the class driver holds that encoding, and a following
    GetLineEncoding request sends the same seven bytes in one packet. *)
Theorem line_encoding_round_trip `{UsbChip} signature l e0 (s : usb serial) evs1 evs2 :
  encoding_ok l -> at_ep 0 (take_setup (header_bytes (set_request (ControlInterfaceNumber (app s)))) e0) s ->
  EPEN e0 = true -> quiet s -> present s -> forallb patient evs1 = true -> forallb patient evs2 = true ->
  exists s1, ProcessControlRequest signature s (evs1 ++ [Out 0 (encoding_bytes l)]) = Ok (tt, s1, []) /\
    LineEncoding (app s1) = l /\
    let s2 := tick (Setup (header_bytes (get_request (ControlInterfaceNumber (app s))))) (tick (In 0) s1) in
    exists s3 e3, ProcessControlRequest signature s2 (evs2 ++ [Out 0 []]) = Ok (tt, s3, []) /\ at_ep 0 e3 s3 /\
      STALLRQ e3 = false /\ taken e3 = taken e0 ++ [[]] ++ take (ins 0 evs2) [encoding_bytes l].
Proof. apply encoding_round_trip. Qed.

(** C6: transmission while the bus is not reset (and, if a stream is sent, no control request comes,
    since streams run the control task): for every sequence of [CDC_Device_SendByte],
    [CDC_Device_SendData], [CDC_Device_Flush] and [CDC_Device_USBTask] calls, the bytes that were
    accepted follow, in order, what the endpoint was given before: none is lost, repeated or
    reordered, whatever the host collects and whenever the device is suspended or detached; a call
    that reports no error has put all its bytes there, and no bank is overrun. After any such calls
    a flush, or the task, of an open device whose endpoint the host has sent nothing to leaves
    nothing in the bank: all of these bytes have been handed over to the controller, or collected.
    The calls return once the bus has seen the frames of their timeouts. *)
Theorem cdc_transmission `{UsbChip} signature ops n w a (s : usb serial) evs :
  tx_state (has_data ops) n w a evs s -> Forall tx_op_ok ops ->
  match transmit signature ops s evs with
  | Fault => False
  | Hang => (changes (UDFNUM s) evs < sum_list_with frames ops)%nat
  | Ok (errs, s', evs') => exists parts, Forall3 accepted ops errs parts /\
      tx_state (has_data ops) n (w ++ concat parts) a evs' s' /\
      forall o, o = TxFlush \/ o = TxTask -> open_ s' = true -> unsent n s' ->
        match call signature o s' evs' with
        | Fault => False
        | Hang => (changes (UDFNUM s') evs' < WAIT)%nat
        | Ok (_, s2, _) => delivered n (w ++ concat parts) s2
        end
  end.
Proof.
  intros Ht Hok. pose proof (transmit_tx signature (has_data ops) n a ops w evs s Ht Hok ltac:(done)) as Hr.
  destruct (transmit signature ops s evs) as [[[errs s'] evs']| |]; [|done..]. destruct Hr as ((parts & H1 & H2) & _).
  exists parts. split; [done|]. split; [done|]. intros o Ho Hop Hun.
  pose proof (call_flushed signature (has_data ops) o n _ a evs' s' H2 Ho) as Hf.
  destruct (call signature o s' evs') as [[[err s2] evs2]| |]; [|done..]. apply Hf. by left.
Qed.

(** C7: reception while the bus is not reset: in every sequence of [CDC_Device_ReceiveByte]
    and [CDC_Device_BytesReceived] calls with events between them, the bytes received, followed by
    what is left in the banks, are what was there at first followed by the packets that the
    controller took from the host: in order, each byte once. After any such calls both functions
    answer exactly by the packets of the endpoint: the first byte of the first packet, which is
    released with its last byte, and the number of bytes in that packet; an empty packet is dropped
    by either and answered as none; without an open device the answers are -1 and 0 and nothing
    changes. *)
Theorem cdc_reception `{UsbChip} ops n r a (s : usb serial) evs :
  rx_state n r a s -> Forall rx_event_ok (rx_events ops) ->
  exists bytes s' P r', receive ops s evs = Ok (bytes, s', evs) /\ P `sublist_of` outs n (rx_events ops) /\
    bytes ++ r' = r ++ concat P /\ rx_state n r' a s' /\
    (open_ s' = true -> exists e, eps s' !! Z.to_nat n = Some e /\ concat (received e) = r' /\
       answers_with CDC_Device_ReceiveByte first_byte n e s' evs /\ answers_with CDC_Device_BytesReceived first_count n e s' evs) /\
    (open_ s' = false -> CDC_Device_ReceiveByte s' evs = Ok (-1, s', evs) /\ CDC_Device_BytesReceived s' evs = Ok (0, s', evs)).
Proof.
  intros Ht Hok. destruct (receive_rx n a evs ops r s Ht Hok) as (bytes & s' & P & r' & H1 & H2 & H3 & H4).
  exists bytes, s', P, r'. split_and!; try done.
  - intros Ho. pose proof H4 as (Happ & Hn & _ & (e & He & _ & Hx & Hr & _) & _). rewrite <- Happ in Hn. exists e. split; [done|]. split; [done|].
    split; [by apply receive_byte_exact|by apply bytes_received_exact].
  - intros Ho. unfold CDC_Device_ReceiveByte, CDC_Device_BytesReceived. by rewrite !bind_get, Ho.
Qed.

(** *** Witnesses *)

Definition w_serial (e : endpoint) : usb serial := fresh_device e no_request VirtualSerial_CDC_Interface.

(** The first eighteen-byte device descriptor request of an enumeration. *)
Lemma serial_descriptors_served_witness :
  let r := mkRequest 128 6 256 0 64 in
  exists s' e', @ProcessControlRequest some_chip (fun _ => 0) (w_serial (take_setup (header_bytes r) control_endpoint))
      ([In 0; In 0; In 0] ++ Out 0 [] :: []) = Ok (tt, s', []) /\ at_ep 0 e' s' /\
    taken e' = [[18; 1; 16; 1; 2; 0; 0; 8]; [235; 3; 68; 32; 1; 0; 1; 2]; [3; 1]].
Proof.
  intros r.
  destruct (@serial_descriptors_served some_chip (fun _ => 0) r control_endpoint
    (w_serial (take_setup (header_bytes r) control_endpoint)) [In 0; In 0; In 0] [] 18 UsbDescriptors.DeviceDescriptor)
    as (_ & s' & e' & H1 & H2 & _ & _ & _ & _ & H3).
  - by repeat split.
  - reflexivity.
  - split; [reflexivity|unfold is_u8; simpl; lia].
  - intros i _. reflexivity.
  - split; discriminate.
  - reflexivity.
  - left; reflexivity.
  - discriminate.
  - reflexivity.
  - discriminate.
  - simpl; lia.
  - reflexivity.
  - exists s', e'. split; [exact H1|]. split; [exact H2|exact H3].
Defined.

Lemma line_encoding_round_trip_witness :
  exists s1, @ProcessControlRequest some_chip (fun _ => 0)
      (w_serial (take_setup (header_bytes (set_request 0)) control_endpoint))
      ([Idle] ++ [Out 0 [0; 194; 1; 0; 0; 0; 8]]) = Ok (tt, s1, []) /\
    LineEncoding (app s1) = mkEncoding 115200 0 0 8 /\
    exists s3 e3, @ProcessControlRequest some_chip (fun _ => 0)
        (@tick serial some_chip (Setup (header_bytes (get_request 0))) (@tick serial some_chip (In 0) s1))
        ([In 0] ++ [Out 0 []]) = Ok (tt, s3, []) /\
      at_ep 0 e3 s3 /\ taken e3 = [[]; [0; 194; 1; 0; 0; 0; 8]].
Proof.
  destruct (@line_encoding_round_trip some_chip (fun _ => 0) (mkEncoding 115200 0 0 8) control_endpoint
    (w_serial (take_setup (header_bytes (set_request 0)) control_endpoint)) [Idle] [In 0])
    as (s1 & H1 & H2 & s3 & e3 & H3 & H4 & _ & H5).
  - split_and!; vm_compute; done.
  - by repeat split.
  - reflexivity.
  - intros i _. reflexivity.
  - split; discriminate.
  - reflexivity.
  - reflexivity.
  - exists s1. split; [exact H1|]. split; [exact H2|]. exists s3, e3. split; [exact H3|]. split; [exact H4|exact H5].
Defined.

(** A configured device with the data endpoint of sixteen bytes. *)
Definition tx_bank : endpoint := mkEndpoint true false false 129 (Z.lor (BV ALLOC) 16) 0 [] [] [] [] [] false.
Definition w_open : usb serial :=
  w_serial control_endpoint <| USB_DeviceState := Configured |> <| eps ::= <[3%nat := tx_bank]> |>
    <| app ::= fun a => a <| LineEncoding := mkEncoding 9600 0 0 8 |> |>.

Lemma cdc_transmission_witness :
  exists errs s' evs' parts, @transmit some_chip (fun _ => 0) [TxByte 72; TxData [105; 33]; TxFlush] w_open [Idle; In 3]
      = Ok (errs, s', evs') /\ errs = [NoError; NoError; NoError] /\
    Forall3 accepted [TxByte 72; TxData [105; 33]; TxFlush] errs parts /\
    tx_state true 3 (concat parts) (app w_open) evs' s'.
Proof.
  assert (tx_state (has_data [TxByte 72; TxData [105; 33]; TxFlush]) 3 [] (app w_open) [Idle; In 3] w_open) as Ht.
  { split; [reflexivity|]. split; [reflexivity|]. split; [lia|]. split; [|split; [reflexivity|split]].
    - exists tx_bank. split; [reflexivity|]. split; [|reflexivity]. split; [reflexivity|]. split; [simpl; lia|discriminate].
    - repeat constructor; discriminate.
    - intros _. split; [by exists control_endpoint|]. split; [simpl; lia|]. split; [reflexivity|].
      repeat constructor; discriminate. }
  assert (Forall tx_op_ok [TxByte 72; TxData [105; 33]; TxFlush]) as Hok.
  { repeat constructor; unfold is_u8; simpl; lia. }
  pose proof (@cdc_transmission some_chip (fun _ => 0) _ 3 [] (app w_open) w_open [Idle; In 3] Ht Hok) as Hr.
  destruct (transmit _ _ _ _) as [[[errs s'] evs']| |] eqn:Er; [|destruct Hr|vm_compute in Er; discriminate].
  destruct Hr as (parts & H1 & H2 & _). exists errs, s', evs', parts. split; [reflexivity|]. split; [|split; [exact H1|exact H2]].
  vm_compute in Er. injection Er as <- _ _. reflexivity.
Defined.

(** The host sends two packets, the second while the first is being read. *)
Definition rx_bank : endpoint := mkEndpoint true false false 128 (Z.lor (BV ALLOC) 16) 0 [] [] [] [] [] false.
Definition w_receiving : usb serial := w_open <| eps ::= <[4%nat := rx_bank]> |>.
Definition w_rx_ops : list rx_op :=
  [RxByte; RxEvent (Out 4 [72; 105]); RxByte; RxEvent (Out 4 [33]); RxCount; RxByte; RxEvent (Out 4 [33]); RxByte].

Lemma cdc_reception_witness :
  exists bytes s' P r', @receive some_chip w_rx_ops w_receiving [] = Ok (bytes, s', []) /\ bytes = [72; 105; 33] /\
    P `sublist_of` [[72; 105]; [33]; [33]] /\ bytes ++ r' = concat P.
Proof.
  destruct (@cdc_reception some_chip w_rx_ops 4 [] (app w_receiving) w_receiving []) as (bytes & s' & P & r' & H1 & H2 & H3 & _).
  - split; [reflexivity|]. split; [reflexivity|]. split; [lia|]. split; [|reflexivity].
    exists rx_bank. split; [reflexivity|]. split; [reflexivity|]. split; [reflexivity|]. split; [reflexivity|constructor].
  - repeat constructor; try discriminate; simpl; lia.
  - exists bytes, s', P, r'. split; [exact H1|]. split; [|split; [exact H2|exact H3]].
    vm_compute in H1. injection H1 as <- _. reflexivity.
Defined.
End CdcDevice.
