(* ===== verification/SerialDevice.v ===== *)
(** * The serial device, enumerated

    The composition of the components: a SET_CONFIGURATION request goes through the request
    dispatch (UsbDevice) to the core's handler, which lets the class driver (CdcDevice) configure
    its three endpoints (UsbConfigure); what it leaves is where transmission and reception start. *)

From S2P Require Import Prelude.
From S2P Require Import Usb.
From S2P Require Import UsbConfigure.
From S2P Require Import UsbStream.
From S2P Require Import UsbTransfer.
From S2P Require Import UsbDevice.
From S2P Require Import UsbDescriptors.
From S2P Require Import CdcDevice.
From Stdlib Require Import Lia ZArith.
Import Usb UsbConfigure UsbStream UsbTransfer UsbDevice CdcDevice.

#[local] Open Scope Z_scope.

Module SerialDevice.

(** The endpoints of the interface, as the core declares them. *)
Definition serial_tables (a : serial) : Prop :=
  (Address (DataINEndpoint a) = UsbDescriptors.CDC_TX_EPADDR /\ Size (DataINEndpoint a) = UsbDescriptors.CDC_TXRX_EPSIZE) /\
  (Address (DataOUTEndpoint a) = UsbDescriptors.CDC_RX_EPADDR /\ Size (DataOUTEndpoint a) = UsbDescriptors.CDC_TXRX_EPSIZE) /\
  (Address (NotificationEndpoint a) = UsbDescriptors.CDC_NOTIFICATION_EPADDR /\
   Size (NotificationEndpoint a) = UsbDescriptors.CDC_NOTIFICATION_EPSIZE).

(** The class information after its endpoints have been configured. *)
Definition reset_info (a : serial) : serial :=
  a <| HostToDevice := 0 |> <| DeviceToHost := 0 |> <| LineEncoding := mkEncoding 0 0 0 0 |>
    <| DataINEndpoint ::= fun t => t <| Type_ := UsbDescriptors.EP_TYPE_BULK |> |>
    <| DataOUTEndpoint ::= fun t => t <| Type_ := UsbDescriptors.EP_TYPE_BULK |> |>
    <| NotificationEndpoint ::= fun t => t <| Type_ := UsbDescriptors.EP_TYPE_INTERRUPT |> |>.

Section Serial.
Context `{UsbChip}.
Implicit Types s : usb serial.

(** The three endpoints, in the order of the driver. *)
Lemma configure_endpoints s : accepts -> serial_tables (app s) -> length (eps s) = 7%nat ->
  exists s', CDC_Device_ConfigureEndpoints s = Ok (true, s') /\ app s' = reset_info (app s) /\
    s' = s <| UENUM := 2 |> <| app := app s' |> <| eps := eps s' |> /\ length (eps s') = 7%nat /\
    (forall j e, (j < 2)%nat -> eps s !! j = Some e -> eps s' !! j = Some e) /\
    (forall e, eps s !! 2%nat = Some e -> exists e', eps s' !! 2%nat = Some e' /\ shaped 130 3 8 (Banks (NotificationEndpoint (app s))) e e') /\
    (forall e, eps s !! 3%nat = Some e -> exists e', eps s' !! 3%nat = Some e' /\ shaped 131 2 16 (Banks (DataINEndpoint (app s))) e e') /\
    (forall e, eps s !! 4%nat = Some e -> exists e', eps s' !! 4%nat = Some e' /\ shaped 4 2 16 (Banks (DataOUTEndpoint (app s))) e e').
Proof.
  intros Hacc ((Ai & Si) & (Ao & So) & (An & Sn)) Hlen.
  unfold CDC_Device_ConfigureEndpoints. unfold mbind at 1, Op_bind at 1, modify at 1.
  unfold mbind at 1, Op_bind at 1, modify at 1. set (s0 := on_app _ (on_app _ s)).
  assert (app s0 = reset_info (app s)) as Happ0 by done.
  destruct (configure_table (DataINEndpoint (app s0)) s0) as (s1 & H1 & E1 & L1 & P1); try done.
  { simpl. by rewrite Si. }
  { simpl. by rewrite Ai. }
  { simpl. by rewrite Ai. }
  assert (app s1 = app s0) as Ha1 by (by rewrite E1).
  destruct (configure_table (DataOUTEndpoint (app s1)) s1) as (s2 & H2 & E2 & L2 & P2); try done; rewrite ?Ha1.
  { simpl. by rewrite So. }
  { simpl. by rewrite Ao. }
  { simpl. by rewrite Ao. }
  assert (app s2 = app s0) as Ha2 by (by rewrite E2).
  destruct (configure_table (NotificationEndpoint (app s2)) s2) as (s3 & H3 & E3 & L3 & P3); try done; rewrite ?Ha2.
  { simpl. by rewrite Sn. }
  { simpl. by rewrite An. }
  { simpl. by rewrite An. }
  exists s3. split.
  { rewrite (op_bind_ok (gets _) _ s0 _ s0 eq_refl), (op_bind_ok _ _ _ _ _ H1). cbn [negb]. cbv iota.
    rewrite (op_bind_ok (gets _) _ s1 _ s1 eq_refl), (op_bind_ok _ _ _ _ _ H2). cbn [negb]. cbv iota.
    rewrite (op_bind_ok (gets _) _ s2 _ s2 eq_refl). exact H3. }
  rewrite Ha1 in P2. rewrite Ha2 in P3, E3. simpl in P1, P2, P3. rewrite Ai, Si in P1. rewrite Ao, So in P2. rewrite An, Sn in P3.
  split; [rewrite E3; exact Ha2|]. split.
  { assert (exists l n, s1 = s0 <| UENUM := n |> <| eps := l |>) as (l1 & n1 & F1) by (by eexists _, _).
    assert (exists l n, s2 = s1 <| UENUM := n |> <| eps := l |>) as (l2 & n2 & F2) by (by eexists _, _).
    assert (exists l, s3 = s2 <| UENUM := 2 |> <| eps := l |>) as (l3 & F3).
    { exists (eps s3). simpl in E3. by rewrite An in E3. }
    by rewrite F3, F2, F1. }
  split; [done|].
  change (eps s0) with (eps s) in P1. change (Z.land UsbDescriptors.CDC_TX_EPADDR ENDPOINT_EPNUM_MASK) with 3 in P1.
  change (Z.land UsbDescriptors.CDC_RX_EPADDR ENDPOINT_EPNUM_MASK) with 4 in P2.
  change (Z.land UsbDescriptors.CDC_NOTIFICATION_EPADDR ENDPOINT_EPNUM_MASK) with 2 in P3. split_and!.
  - intros j e Hj He. destruct (P1 j e He) as (e1 & He1 & Q1). destruct (P2 j e1 He1) as (e2 & He2 & Q2).
    destruct (P3 j e2 He2) as (e3 & He3 & Q3). rewrite He3. f_equal.
    rewrite (proj2 (Z.ltb_lt _ _)) in Q1 by lia. rewrite (proj2 (Z.ltb_lt _ _)) in Q2 by lia.
    rewrite (proj2 (Z.ltb_lt _ _)) in Q3 by lia. congruence.
  - intros e He. destruct (P1 2%nat e He) as (e1 & He1 & Q1). destruct (P2 2%nat e1 He1) as (e2 & He2 & Q2).
    destruct (P3 2%nat e2 He2) as (e3 & He3 & Q3). exists e3. split; [done|].
    change (e1 = e) in Q1. change (e2 = e1) in Q2. by subst.
  - intros e He. destruct (P1 3%nat e He) as (e1 & He1 & Q1). destruct (P2 3%nat e1 He1) as (e2 & He2 & Q2).
    destruct (P3 3%nat e2 He2) as (e3 & He3 & Q3). exists e3. split; [done|].
    change (e2 = e1) in Q2. change (e3 = moved e2) in Q3. subst. by apply shaped_moved.
  - intros e He. destruct (P1 4%nat e He) as (e1 & He1 & Q1). destruct (P2 4%nat e1 He1) as (e2 & He2 & Q2).
    destruct (P3 4%nat e2 He2) as (e3 & He3 & Q3). exists e3. split; [done|].
    change (e1 = moved e) in Q1. change (e3 = moved e2) in Q3. subst. apply shaped_moved.
    by apply (shaped_taken _ _ _ _ (moved e)); [apply moved_taken|].
Qed.

Definition set_configuration : USB_Request_Header_t := mkRequest 0 REQ_SetConfiguration 1 0 0.

(** Empty endpoints are ready. *)
Lemma shaped_fifo type size nbanks e e' : shaped 131 type size nbanks e e' -> fifo_ok e' /\ wire e' = concat (taken e).
Proof.
  intros (_ & _ & _ & _ & Hd & _ & _ & _ & Hf & Ha & _ & Ht & _). split.
  - split; [by rewrite Hd|]. rewrite Hf. split; [simpl; lia|done].
  - unfold wire. by rewrite Ht, Ha, Hf, app_nil_r.
Qed.

Lemma configuration_done signature e0 s evs :
  accepts -> at_ep 0 (take_setup (header_bytes set_configuration) e0) s -> serial_tables (app s) -> length (eps s) = 7%nat ->
  fires EORSTI s = false -> Forall (fun ev => ev <> BusReset /\ forall data, ev <> Setup data) evs ->
  exists s', ProcessControlRequest signature s evs = Ok (tt, s', evs) /\
    USB_DeviceState s' = Configured /\ USB_Device_ConfigurationNumber s' = 1 /\ app s' = reset_info (app s) /\
    eps s' !! 0%nat = Some (acked e0 <| armed := [[]] |>) /\
    tx_state true 3 (concat (taken (nth 3 (eps s) no_endpoint))) (app s') evs s' /\ rx_state 4 [] (app s') s'.
Proof.
  intros Hacc Ha Htab Hlen Hf Hev. pose proof Ha as [Hu He].
  set (s0 := answered set_configuration e0 s <| USB_Device_ConfigurationNumber := 1 |> <| USB_DeviceState := Configured |>).
  assert (eps s0 = <[0%nat := acked e0 <| armed := [[]] |>]> (eps s)) as Heps0 by done.
  destruct (configure_endpoints s0) as (s' & Hrun & Happ & Heq & Hlen' & H01 & H2 & H3 & H4); [done|done| |].
  { rewrite Heps0. by rewrite length_insert. }
  assert (eps s' !! 0%nat = Some (acked e0 <| armed := [[]] |>)) as He0.
  { apply H01; [lia|]. rewrite Heps0. apply list_lookup_insert_eq. lia. }
  assert (USB_DeviceState s' = Configured /\ USB_Device_ConfigurationNumber s' = 1 /\ fires EORSTI s' = false /\ UENUM s' = 2)
    as (Hst & Hcn & Hf' & Hu') by (by rewrite Heq).
  destruct (lookup_lt_is_Some_2 (eps s) 2) as [e2 He2]; [lia|]. destruct (H2 e2) as (e2' & He2' & Hs2);
    [by rewrite Heps0, list_lookup_insert_ne|].
  assert (Endpoint_IsSETUPReceived s' = false) as Hsetup.
  { unfold Endpoint_IsSETUPReceived. rewrite (at_cur 2 e2' s') by done. apply Hs2. }
  destruct (lookup_lt_is_Some_2 (eps s) 3) as [e3 He3]; [lia|]. destruct (lookup_lt_is_Some_2 (eps s) 4) as [e4 He4]; [lia|].
  destruct (H3 e3) as (e3' & He3' & Hs3); [by rewrite Heps0, list_lookup_insert_ne|].
  destruct (H4 e4) as (e4' & He4' & Hs4); [by rewrite Heps0, list_lookup_insert_ne|].
  exists s'. split.
  { unfold ProcessControlRequest. apply (configuration_served CDC_Device_ProcessControlRequest EVENT_USB_Device_ConfigurationChanged
      UsbDescriptors.CALLBACK_USB_GetDescriptor signature set_configuration e0 s evs 18 UsbDescriptors.DeviceDescriptor 1 s' evs).
    - exact Ha.
    - apply cdc_declines. reflexivity.
    - reflexivity.
    - reflexivity.
    - reflexivity.
    - discriminate.
    - reflexivity.
    - vm_compute; discriminate.
    - exact (bind_op _ (fun _ => mret tt) s0 true s' evs Hrun).
    - exact Hsetup. }
  destruct Htab as ((Ai & _) & (Ao & _) & _).
  split_and!; try done.
  - split; [done|]. split; [rewrite Happ; unfold endpoint_number; simpl; by rewrite Ai|]. split; [lia|].
    destruct (shaped_fifo _ _ _ _ _ Hs3) as [Hfifo Hwire]. split; [|split; [done|split]].
    + exists e3'. split; [done|]. split; [done|]. rewrite Hwire. by rewrite (nth_lookup_Some _ _ _ _ He3).
    + eapply Forall_impl; [|exact Hev]. by intros ev [? _].
    + intros _. split; [by eexists; split; [exact He0|]|]. rewrite Hu'. split; [lia|]. done.
  - split; [done|]. split; [rewrite Happ; unfold endpoint_number; simpl; by rewrite Ao|]. split; [lia|]. split; [|done].
    destruct Hs4 as (_ & _ & Hx & _ & Hd & _ & _ & _ & _ & _ & Hr & _).
    exists e4'. split; [done|]. split; [by rewrite Hd|]. split; [done|]. rewrite Hr. split; [done|constructor].
Qed.
End Serial.

(** ** Theorem *)

(** SET_CONFIGURATION on the serial device, on a controller that accepts its endpoints: the
    request is answered with an empty status packet, the device is configured, the class driver
    has forgotten its line state and encoding, and its data endpoints are empty and ready: what the
    transmission and reception theorems start from. *)
Theorem serial_configured `{UsbChip} signature e0 (s : usb serial) evs :
  accepts -> at_ep 0 (take_setup (header_bytes set_configuration) e0) s -> serial_tables (app s) -> length (eps s) = 7%nat ->
  fires EORSTI s = false -> Forall (fun ev => ev <> BusReset /\ forall data, ev <> Setup data) evs ->
  exists s', ProcessControlRequest signature s evs = Ok (tt, s', evs) /\
    USB_DeviceState s' = Configured /\ USB_Device_ConfigurationNumber s' = 1 /\ app s' = reset_info (app s) /\
    eps s' !! 0%nat = Some (acked e0 <| armed := [[]] |>) /\
    tx_state true 3 (concat (taken (nth 3 (eps s) no_endpoint))) (app s') evs s' /\ rx_state 4 [] (app s') s'.
Proof. apply configuration_done. Qed.

(** The serial device after reset. *)
Lemma serial_configured_witness :
  let s := w_serial (take_setup (header_bytes set_configuration) control_endpoint) in
  exists s', @ProcessControlRequest some_chip (fun _ => 0) s [] = Ok (tt, s', []) /\
    USB_DeviceState s' = Configured /\ @tx_state true 3 [] (app s') [] s' /\ rx_state 4 [] (app s') s'.
Proof.
  intros s. destruct (@serial_configured some_chip (fun _ => 0) control_endpoint s []) as (s' & H1 & H2 & _ & _ & _ & H3 & H4).
  - intros n c0 c1. reflexivity.
  - split; reflexivity.
  - repeat split.
  - reflexivity.
  - reflexivity.
  - constructor.
  - exists s'. split; [exact H1|]. split; [exact H2|]. split; [exact H3|exact H4].
Defined.
End SerialDevice.
