(* ===== verification/BootloaderUsb.v ===== *)
(** * The USB side of the bootloader (BootloaderCDC.c)

    The bootloader's handlers for the events of the USB library: the endpoints it configures and
    the line encoding it keeps for the host, as the seven bytes of the packed structure. Its requests are served by the library as modelled in
    UsbDevice; handlers that answer a request leave nothing to its standard requests, whose build
    options differ for the bootloader. *)

From S2P Require Import Prelude.
From S2P Require Import Bootloader.
From S2P Require Import Usb.
From S2P Require Import UsbConfigure.
From S2P Require Import UsbStream.
From S2P Require Import UsbTransfer.
From S2P Require Import UsbControlRead.
From S2P Require Import UsbDevice.
From S2P Require Import UsbDescriptors.
From Stdlib Require Import Lia ZArith.
Import Usb UsbConfigure UsbStream UsbTransfer UsbControlRead UsbDevice.

#[local] Open Scope Z_scope.

Module BootloaderUsb.

Definition CDC_REQ_SetLineEncoding := 32.
Definition CDC_REQ_GetLineEncoding := 33.
Definition CONTROL_REQTYPE_TYPE := 96.
(** [sizeof(CDC_LineEncoding_t)], and the initial value: no baud rate, eight data bits. *)
Definition sizeof_LineEncoding := 7.
Definition LineEncoding : list Z := [0; 0; 0; 0; 0; 0; 8].

Section BootUsb.
Context `{UsbChip}.
#[local] Abbreviation M := (M (App:=list Z)).
#[local] Abbreviation state := (usb (list Z)).

(** ** Events *)

(** The results of the configurations are dropped. *)
Definition EVENT_USB_Device_ConfigurationChanged : M unit :=
  _ ← op (Endpoint_ConfigureEndpoint UsbDescriptors.CDC_NOTIFICATION_EPADDR UsbDescriptors.EP_TYPE_INTERRUPT
            UsbDescriptors.CDC_NOTIFICATION_EPSIZE 1);
  _ ← op (Endpoint_ConfigureEndpoint UsbDescriptors.CDC_TX_EPADDR UsbDescriptors.EP_TYPE_BULK UsbDescriptors.CDC_TXRX_EPSIZE 1);
  _ ← op (Endpoint_ConfigureEndpoint UsbDescriptors.CDC_RX_EPADDR UsbDescriptors.EP_TYPE_BULK UsbDescriptors.CDC_TXRX_EPSIZE 1);
  mret tt.

Definition EVENT_USB_Device_ControlRequest : M unit :=
  r ← get USB_ControlRequest;
  let t := bmRequestType r in
  if negb (Z.land t (Z.lor CONTROL_REQTYPE_TYPE CONTROL_REQTYPE_RECIPIENT) =? Z.lor REQTYPE_CLASS REQREC_INTERFACE) then mret tt
  else if bRequest r =? CDC_REQ_GetLineEncoding then
    if t =? Z.lor (Z.lor REQDIR_DEVICETOHOST REQTYPE_CLASS) REQREC_INTERFACE then
      _ ← run Endpoint_ClearSETUP;
      line ← get app;
      _ ← Endpoint_Write_Control_Stream_LE line sizeof_LineEncoding;
      run Endpoint_ClearOUT
    else mret tt
  else if bRequest r =? CDC_REQ_SetLineEncoding then
    if t =? Z.lor (Z.lor REQDIR_HOSTTODEVICE REQTYPE_CLASS) REQREC_INTERFACE then
      _ ← run Endpoint_ClearSETUP;
      line ← get app;
      '(_, line) ← Endpoint_Read_Control_Stream_LE line sizeof_LineEncoding;
      _ ← run (fun s => s <| app := line |>);
      run Endpoint_ClearIN
    else mret tt
  else mret tt.

(** ** Line encoding *)

Variables (descriptors : Z -> Z -> Z * list Z) (signature : Z -> Z).
Definition ProcessControlRequest : M unit :=
  USB_Device_ProcessControlRequest EVENT_USB_Device_ControlRequest EVENT_USB_Device_ConfigurationChanged descriptors signature.

Definition set_request (i : Z) : USB_Request_Header_t := mkRequest 33 CDC_REQ_SetLineEncoding 0 i 7.
Definition get_request (i : Z) : USB_Request_Header_t := mkRequest 161 CDC_REQ_GetLineEncoding 0 i 7.

Lemma line_set i e0 (s : state) evs :
  at_ep 0 (take_setup (header_bytes (set_request i)) e0) s -> EPEN e0 = true -> quiet s -> present s -> length (app s) = 7%nat ->
  Forall (sending (bank_size e0)) evs -> (7 <= length (concat (outs 0 evs)))%nat ->
  exists used later s1 e1, ProcessControlRequest s evs = Ok (tt, s1, later) /\ evs = used ++ later /\
    app s1 = take 7 (concat (outs 0 used)) /\ (7 <= length (concat (outs 0 used)))%nat /\
    at_ep 0 e1 s1 /\ quiet s1 /\ present s1 /\ EPEN e1 = true /\ STALLRQ e1 = false /\ RXSTPI e1 = false /\ received e1 = [] /\
    armed e1 = [[]] /\ filling e1 = [] /\ taken e1 = taken e0 /\ UECFG1X e1 = UECFG1X e0 /\
    USB_Device_ControlEndpointSize s1 = USB_Device_ControlEndpointSize s.
Proof.
  intros Ha Hen Hq Hp Hlen Hev Htot. destruct (clear_setup (set_request i) e0 s Ha) as [Hcs Ha1].
  set (s1 := put0 (acked e0) s <| USB_ControlRequest := set_request i |>) in *.
  destruct (control_read LE (app s) 7 s1 (acked e0) evs) as (mem' & used & later & s2 & e2 & H1 & H2 & H3 & H4 & H5 & H6 & H11 & H7 & H8 & H9 & H10);
    try done; [apply room_LE; simpl; lia|lia|].
  apply store_LE in H3; [|done]. simpl in H3. rewrite length_take, Nat.min_l, drop_ge, app_nil_r in H3 by (simpl in *; lia).
  pose proof (at_on_cur 0 e2 (s2 <| app := mem' |>) (fun e => if TXINI e then e <| armed ::= fun l => l ++ [filling e] |> <| filling := [] |> else e) H5) as Ha3.
  destruct H6 as (Q1 & Q2 & Q3 & Q4 & Q5). cbv beta in Ha3. rewrite (TXINI_free e2 Q4) in Ha3.
  set (e3 := e2 <| armed ::= fun l => l ++ [filling e2] |> <| filling := [] |>) in *.
  assert (at_ep 0 e3 (Endpoint_ClearIN (s2 <| app := mem' |>))) as Ha4 by exact Ha3.
  injection H9 as K1 K2 K3 K4 K5 K6 K7 K8 K9 K10.
  exists used, later, (Endpoint_ClearIN (s2 <| app := mem' |>)), e3.
  split.
  { eapply request_handled; [by apply setup_requested| |unfold Endpoint_IsSETUPReceived; by rewrite (at_cur _ _ _ Ha4)].
    unfold EVENT_USB_Device_ControlRequest. rewrite bind_get. change (USB_ControlRequest (loaded (set_request i) _ s)) with (set_request i).
    change (bmRequestType (set_request i)) with 33. change (bRequest (set_request i)) with 32. eqbs.
    rewrite bind_run, Hcs, bind_get. change (app s1) with (app s). unfold Endpoint_Read_Control_Stream_LE.
    by rewrite (bind_ok _ _ _ _ _ _ _ H1). }
  split; [done|]. split; [done|]. split; [lia|]. split; [done|]. split; [done|]. split; [unfold present; simpl; by rewrite K1|].
  simpl. rewrite Q4, H7, K5. by split_and!.
Qed.

Lemma line_get i e0 (s : state) evs later :
  at_ep 0 (take_setup (header_bytes (get_request i)) e0) s -> EPEN e0 = true -> sized e0 s -> quiet s -> present s ->
  length (app s) = 7%nat -> Forall is_u8 (app s) -> forallb patient evs = true ->
  exists s1 e1, ProcessControlRequest s (evs ++ Out 0 [] :: later) = Ok (tt, s1, later) /\ at_ep 0 e1 s1 /\
    STALLRQ e1 = false /\ app s1 = app s /\ taken e1 = taken e0 ++ take (ins 0 evs) [app s].
Proof.
  intros Ha Hen Hsz Hq Hp Hlen Hu Hev. destruct (clear_setup (get_request i) e0 s Ha) as [Hcs Ha1].
  set (s1 := put0 (acked e0) s <| USB_ControlRequest := get_request i |>) in *.
  destruct (control_w_delivers (app s) 7 0 s1 (acked e0) evs later) as (s2 & Hcw & e2 & Ha2 & Hc2 & Hq2 & Hx1 & Hx2 & Hx3 & Hx4 & Ht2);
    try done; [lia|].
  pose proof (at_on_cur 0 e2 s2 (fun e => e <| received ::= tail |>) Ha2) as Ha3.
  assert (at_ep 0 (e2 <| received ::= tail |>) (Endpoint_ClearOUT s2)) as Ha4 by exact Ha3.
  exists (Endpoint_ClearOUT s2), (e2 <| received ::= tail |>). split.
  { eapply request_handled; [by apply setup_requested| |unfold Endpoint_IsSETUPReceived; by rewrite (at_cur _ _ _ Ha4)].
    unfold EVENT_USB_Device_ControlRequest. rewrite bind_get. change (USB_ControlRequest (loaded (get_request i) _ s)) with (get_request i).
    change (bmRequestType (get_request i)) with 161. change (bRequest (get_request i)) with 33. eqbs.
    rewrite bind_run, Hcs, bind_get. change (app s1) with (app s). unfold Endpoint_Write_Control_Stream_LE.
    by rewrite (bind_ok _ _ _ _ _ _ _ Hcw). }
  injection Hc2 as _ _ _ _ _ _ _ _ _ Happ. split; [done|]. split; [done|]. split; [exact Happ|]. simpl. rewrite Ht2. do 2 f_equal.
  unfold asked. change (wLength (USB_ControlRequest s1)) with 7. change (Z.to_nat (Z.min 7 7)) with 7%nat.
  rewrite take_ge by lia. change (bank_size (acked e0)) with (bank_size e0). rewrite packets_unfold by apply bank_size_pos.
  rewrite (proj2 (Nat.ltb_lt _ _)); [done|]. pose proof (bank_size_8 e0). lia.
Qed.

(** The request that follows another. *)
Lemma line_get_next i e1 (s1 : state) evs later :
  at_ep 0 e1 s1 -> quiet s1 -> present s1 -> ready e1 -> sized e1 s1 -> length (app s1) = 7%nat -> Forall is_u8 (app s1) ->
  forallb patient evs = true ->
  exists s3 e3, ProcessControlRequest (tick (Setup (header_bytes (get_request i))) (tick (In 0) s1)) (evs ++ Out 0 [] :: later) = Ok (tt, s3, later) /\
    at_ep 0 e3 s3 /\ STALLRQ e3 = false /\ taken e3 = (taken e1 ++ take 1 (armed e1)) ++ take (ins 0 evs) [app s1].
Proof.
  intros Ha Hq Hp Hr Hsz Hlen Hu Hev.
  destruct (next_request (get_request i) e1 s1 Ha Hq Hr) as (e2 & Ha2 & Hc2 & Hq2 & Hen2 & Hcfg2 & Ht2).
  generalize dependent (tick (Setup (header_bytes (get_request i))) (tick (In 0) s1)). intros s2 Ha2 Hc2 Hq2.
  injection Hc2 as Kst _ _ _ Ksz _ _ _ _ Kapp.
  destruct (line_get i e2 s2 evs later) as (s3 & e3 & Hrun3 & Ha5 & Hst3 & _ & Ht3); try done.
  - destruct Hsz as [Hb Hu8]. unfold sized, bank_size in *. by rewrite Hcfg2, Ksz.
  - unfold present. by rewrite Kst.
  - by rewrite Kapp.
  - by rewrite Kapp.
  - exists s3, e3. rewrite Kapp in Ht3. rewrite Ht2 in Ht3. by split_and!.
Qed.

Lemma line_round_trip i e0 (s : state) evs evs2 later2 :
  at_ep 0 (take_setup (header_bytes (set_request i)) e0) s -> EPEN e0 = true -> sized e0 s -> quiet s -> present s -> length (app s) = 7%nat ->
  Forall (sending (bank_size e0)) evs -> Forall (Forall is_u8) (outs 0 evs) -> (7 <= length (concat (outs 0 evs)))%nat ->
  forallb patient evs2 = true ->
  exists used later s1, ProcessControlRequest s evs = Ok (tt, s1, later) /\ evs = used ++ later /\
    app s1 = take 7 (concat (outs 0 used)) /\ length (app s1) = 7%nat /\
    let s2 := tick (Setup (header_bytes (get_request i))) (tick (In 0) s1) in
    exists s3 e3, ProcessControlRequest s2 (evs2 ++ Out 0 [] :: later2) = Ok (tt, s3, later2) /\ at_ep 0 e3 s3 /\
      STALLRQ e3 = false /\ taken e3 = taken e0 ++ [[]] ++ take (ins 0 evs2) [app s1].
Proof.
  intros Ha Hen Hsz Hq Hp Hlen Hev Hbytes Htot Hev2.
  destruct (line_set i e0 s evs Ha Hen Hq Hp Hlen Hev Htot)
    as (used & later & s1 & e1 & Hrun & Hsplit & Happ & Hgot & Ha1 & Hq1 & Hp1 & Hen1 & Hst1 & Hx1 & Hr1 & Har1 & Hf1 & Ht1 & Hc1 & Hcs1).
  exists used, later, s1. split; [done|]. split; [done|]. split; [done|].
  assert (length (app s1) = 7%nat) as Hlen1 by (rewrite Happ, length_take; lia). split; [done|]. intros s2.
  destruct (line_get_next i e1 s1 evs2 later2) as (s3 & e3 & Hrun3 & Ha5 & Hst3 & Ht3); try done.
  - destruct Hsz as [Hb Hu8]. unfold sized, bank_size in *. by rewrite Hc1, Hcs1.
  - rewrite Happ. apply Forall_take, Forall_concat. eapply sublist_Forall; [|exact Hbytes].
    rewrite Hsplit, outs_app. by apply sublist_inserts_r.
  - exists s3, e3. split; [exact Hrun3|]. split; [done|]. split; [done|]. rewrite Ht3, Har1, Ht1. by rewrite <- app_assoc.
Qed.

(** ** Endpoints *)

Lemma boot_endpoints (s : state) evs : accepts -> length (eps s) = 7%nat ->
  exists s', EVENT_USB_Device_ConfigurationChanged s evs = Ok (tt, s', evs) /\ app s' = app s /\
    forall e2 e3 e4, eps s !! 2%nat = Some e2 -> eps s !! 3%nat = Some e3 -> eps s !! 4%nat = Some e4 ->
    exists e2' e3' e4', eps s' !! 2%nat = Some e2' /\ eps s' !! 3%nat = Some e3' /\ eps s' !! 4%nat = Some e4' /\
      shaped 130 3 8 1 e2 e2' /\ shaped 131 2 16 1 (moved e3) e3' /\ shaped 4 2 16 1 (moved (moved e4)) e4'.
Proof.
  intros Hacc Hlen.
  destruct (configured 130 3 8 1 s Hacc) as (s1 & R1 & E1 & L1 & P1); [lia|done|].
  destruct (configured 131 2 16 1 s1 Hacc) as (s2 & R2 & E2 & L2 & P2); [lia|done|].
  destruct (configured 4 2 16 1 s2 Hacc) as (s3 & R3 & E3 & L3 & P3); [lia|done|].
  exists s3. split; [|split].
  - unfold EVENT_USB_Device_ConfigurationChanged.
    by rewrite (bind_op _ _ _ _ _ evs R1), (bind_op _ _ _ _ _ evs R2), (bind_op _ _ _ _ _ evs R3).
  - rewrite E3. simpl. rewrite E2. simpl. by rewrite E1.
  - intros e2 e3 e4 H2 H3 H4.
    destruct (P1 _ _ H2) as (a2 & A2 & Q2), (P1 _ _ H3) as (a3 & A3 & Q3), (P1 _ _ H4) as (a4 & A4 & Q4).
    change (a3 = moved e3) in Q3. change (a4 = moved e4) in Q4. subst a3 a4.
    destruct (P2 _ _ A2) as (b2 & B2 & T2), (P2 _ _ A3) as (b3 & B3 & T3), (P2 _ _ A4) as (b4 & B4 & T4).
    change (b2 = a2) in T2. change (b4 = moved (moved e4)) in T4. subst b2 b4.
    destruct (P3 _ _ B2) as (c2 & C2 & U2), (P3 _ _ B3) as (c3 & C3 & U3), (P3 _ _ B4) as (c4 & C4 & U4).
    change (c2 = a2) in U2. change (c3 = b3) in U3. subst c2 c3. by exists a2, b3, c4.
Qed.
End BootUsb.

(** ** Theorem *)

(** The line encoding of the bootloader: a SetLineEncoding request whose data the host sends in
    any packets that fit is stored as the seven bytes sent, and a GetLineEncoding request that
    follows is answered with one packet of exactly these bytes. *)
Theorem boot_line_encoding `{UsbChip} descriptors signature i e0 (s : usb (list Z)) evs evs2 later2 :
  at_ep 0 (take_setup (header_bytes (set_request i)) e0) s -> EPEN e0 = true -> sized e0 s -> quiet s -> present s -> length (app s) = 7%nat ->
  Forall (sending (bank_size e0)) evs -> Forall (Forall is_u8) (outs 0 evs) -> (7 <= length (concat (outs 0 evs)))%nat ->
  forallb patient evs2 = true ->
  exists used later s1, ProcessControlRequest descriptors signature s evs = Ok (tt, s1, later) /\ evs = used ++ later /\
    app s1 = take 7 (concat (outs 0 used)) /\ length (app s1) = 7%nat /\
    let s2 := tick (Setup (header_bytes (get_request i))) (tick (In 0) s1) in
    exists s3 e3, ProcessControlRequest descriptors signature s2 (evs2 ++ Out 0 [] :: later2) = Ok (tt, s3, later2) /\ at_ep 0 e3 s3 /\
      STALLRQ e3 = false /\ taken e3 = taken e0 ++ [[]] ++ take (ins 0 evs2) [app s1].
Proof. apply line_round_trip. Qed.

(** 115200 baud, in two packets. *)
Definition w_boot : usb (list Z) :=
  fresh_device (take_setup (header_bytes (set_request 0)) control_endpoint) no_request LineEncoding.
Definition w_line : list bus_event := [Out 0 [0; 194; 1; 0]; Idle; Out 0 [0; 0; 8]].

Lemma boot_line_encoding_witness :
  exists used later s1, @ProcessControlRequest some_chip (fun _ _ => (0, [])) (fun _ => 0) w_boot w_line = Ok (tt, s1, later) /\
    w_line = used ++ later /\ app s1 = take 7 (concat (outs 0 used)) /\ length (app s1) = 7%nat.
Proof.
  destruct (@boot_line_encoding some_chip (fun _ _ => (0, [])) (fun _ => 0) 0 control_endpoint w_boot w_line [In 0] [])
    as (used & later & s1 & H1 & H2 & H3 & H4 & _).
  - split; reflexivity.
  - reflexivity.
  - split; [reflexivity|unfold is_u8; simpl; lia].
  - intros j _. reflexivity.
  - split; discriminate.
  - reflexivity.
  - repeat constructor; simpl; vm_compute; lia.
  - repeat constructor; unfold is_u8; lia.
  - vm_compute; lia.
  - reflexivity.
  - exists used, later, s1. split; [exact H1|]. split; [exact H2|]. split; [exact H3|exact H4].
Defined.
End BootloaderUsb.
