(* ===== verification/MassStorage.v ===== *)
(** * Mass storage class driver (MassStorageClassDevice.c)

    The bulk-only transport: the host sends a command block on the OUT endpoint, the application
    executes it, and the driver returns a status on the IN endpoint. The command block is kept as
    the 31 bytes of its packed structure, which the driver receives straight into it; the
    application's state holds it together with the rest of [USB_ClassInfo_MS_Device_t] and the
    user's own state. The handler for SCSI commands and the descriptors are the application's.

    A stream writes to the command block while requests may be served. The model puts its bytes
    there when the stream returns, so a request that resets the class state (SET_CONFIGURATION)
    in the middle of a command block is not followed to the byte. *)

From S2P Require Import Prelude.
From S2P Require Import Packed.
From S2P Require Import Usb.
From S2P Require Import UsbConfigure.
From S2P Require Import UsbStream.
From S2P Require Import UsbTransfer.
From S2P Require Import UsbPacket.
From S2P Require Import UsbDevice.
From S2P Require Import UsbDescriptors.
From Stdlib Require Import Lia ZArith.
Import Packed Usb UsbConfigure UsbStream UsbTransfer UsbPacket UsbDevice.

#[local] Open Scope Z_scope.

Module MassStorage.

(** ** Data *)

(** [MS_CommandBlockWrapper_t]: its members, by their offsets. *)
Definition sizeof_CommandBlock := 31.
Definition Signature (b : list Z) : Z := le (take 4 b).
Definition Tag (b : list Z) : Z := le (take 4 (drop 4 b)).
Definition DataTransferLength (b : list Z) : Z := le (take 4 (drop 8 b)).
Definition Flags (b : list Z) : Z := nth 12 b 0.
Definition LUN (b : list Z) : Z := nth 13 b 0.
Definition SCSICommandLength (b : list Z) : Z := nth 14 b 0.

Record MS_CommandStatusWrapper_t := mkStatus { sSignature : Z; sTag : Z; DataTransferResidue : Z; Status : Z }.
Definition sizeof_CommandStatus := 13.
Definition status_bytes (c : MS_CommandStatusWrapper_t) : list Z :=
  le32 (sSignature c) ++ le32 (sTag c) ++ le32 (DataTransferResidue c) ++ [u8 (Status c)].

(** The configuration and the state of [USB_ClassInfo_MS_Device_t], and the user's state. *)
Record ms {User : Type} := mkMs {
  InterfaceNumber : Z; DataINEndpoint : USB_Endpoint_Table_t; DataOUTEndpoint : USB_Endpoint_Table_t;
  TotalLUNs : Z;
  CommandBlock : list Z; CommandStatus : MS_CommandStatusWrapper_t; IsMassStoreReset : bool;
  user : User }.
Arguments ms User : clear implicits.
#[export] Instance eta_ms {User} : Eta (ms User) :=
  {| eta r := mkMs User (InterfaceNumber r) (DataINEndpoint r) (DataOUTEndpoint r) (TotalLUNs r) (CommandBlock r)
       (CommandStatus r) (IsMassStoreReset r) (user r); eta_id := ltac:(by intros []) |}.

Definition MS_CBW_SIGNATURE := 1128420181.
Definition MS_CSW_SIGNATURE := 1396855637.
Definition MS_COMMAND_DIR_DATA_IN := 128.
Definition MS_REQ_GetMaxLUN := 254.
Definition MS_REQ_MassStorageReset := 255.
Definition MS_SCSI_COMMAND_Pass := 0.
Definition MS_SCSI_COMMAND_Fail := 1.

Section Driver.
Context {User : Type} `{UsbChip}.
#[local] Abbreviation M := (M (App:=ms User)).
#[local] Abbreviation Op := (Op (App:=ms User)).
#[local] Abbreviation state := (usb (ms User)).

Definition on_ms (f : ms User -> ms User) (s : state) : state := s <| app ::= f |>.
Definition select (t : ms User -> USB_Endpoint_Table_t) (s : state) : state :=
  Endpoint_SelectEndpoint (Address (t (app s))) s.

(** ** Control requests *)

Definition MassStorageReset : M unit :=
  _ ← run Endpoint_ClearSETUP;
  _ ← Endpoint_ClearStatusStage;
  run (on_ms (fun a => a <| IsMassStoreReset := true |>)).
Definition GetMaxLUN : M unit :=
  _ ← run Endpoint_ClearSETUP;
  _ ← spin (fun _ s => Ok (if Endpoint_IsINReady s then inl tt else inr tt, s)) tt;
  n ← get (fun s => TotalLUNs (app s));
  _ ← op (Endpoint_Write_8 (u8 (n - 1)));
  _ ← run Endpoint_ClearIN;
  Endpoint_ClearStatusStage.

Definition MS_Device_ProcessControlRequest : M unit :=
  setup ← get Endpoint_IsSETUPReceived;
  r ← get USB_ControlRequest;
  n ← get (fun s => InterfaceNumber (app s));
  if negb setup then mret tt
  else if negb (wIndex r =? n) then mret tt
  else if bRequest r =? MS_REQ_MassStorageReset then
    if bmRequestType r =? class_request REQDIR_HOSTTODEVICE then MassStorageReset else mret tt
  else if bRequest r =? MS_REQ_GetMaxLUN then
    if bmRequestType r =? class_request REQDIR_DEVICETOHOST then GetMaxLUN else mret tt
  else mret tt.

Definition MS_Device_ConfigureEndpoints : Op bool :=
  _ ← modify (on_ms (fun a => a <| CommandBlock := replicate 31 0 |> <| CommandStatus := mkStatus 0 0 0 0 |>
                                <| IsMassStoreReset := false |>));
  _ ← modify (on_ms (fun a => a <| DataINEndpoint ::= fun t => t <| Type_ := UsbDescriptors.EP_TYPE_BULK |> |>
                                <| DataOUTEndpoint ::= fun t => t <| Type_ := UsbDescriptors.EP_TYPE_BULK |> |>));
  i ← gets (fun s => DataINEndpoint (app s));
  ok ← Endpoint_ConfigureEndpointTable [i];
  if negb ok then mret false
  else
    o ← gets (fun s => DataOUTEndpoint (app s));
    Endpoint_ConfigureEndpointTable [o].

(** ** The library with this driver *)

(** The application's handler for SCSI commands and its descriptors. *)
Variable CALLBACK_MS_Device_SCSICommandReceived : M bool.
Variable CALLBACK_USB_GetDescriptor : Z -> Z -> Z * list Z.
Variable boot_signature_byte_get : Z -> Z.

Definition EVENT_USB_Device_ConfigurationChanged : M unit := _ ← op MS_Device_ConfigureEndpoints; mret tt.
Definition ProcessControlRequest : M unit :=
  USB_Device_ProcessControlRequest MS_Device_ProcessControlRequest EVENT_USB_Device_ConfigurationChanged
    CALLBACK_USB_GetDescriptor boot_signature_byte_get.
Definition USB_USBTask : M unit :=
  USB_DeviceTask MS_Device_ProcessControlRequest EVENT_USB_Device_ConfigurationChanged
    CALLBACK_USB_GetDescriptor boot_signature_byte_get.

(** ** Commands *)

(** [while (stream(..., &BytesProcessed) == IncompleteTransfer) if (IsMassStoreReset) return;]:
    whether it returned. A stream consumes an event, so that the fuel is enough. *)
Fixpoint transfer_all (fuel : nat) (stream : option Z -> M (ep_error * option Z)) (BytesProcessed : option Z) : M bool :=
  match fuel with
  | O => fun _ _ => Hang
  | S fuel' =>
      '(err, p) ← stream BytesProcessed;
      if decide (err = IncompleteTransfer) then
        aborted ← get (fun s => IsMassStoreReset (app s));
        if aborted : bool then mret true else transfer_all fuel' stream p
      else mret false
  end.
Definition until_complete (stream : option Z -> M (ep_error * option Z)) : M bool := fun s evs =>
  transfer_all (S (length evs)) stream (Some 0) s evs.

(** [Length] bytes of the OUT endpoint, from byte [offset] of the command block on. *)
Definition read_block (offset : nat) (Length : Z) (p : option Z) : M (ep_error * option Z) :=
  block ← get (fun s => CommandBlock (app s));
  '(err, mem, p) ← Endpoint_Read_Stream_LE USB_USBTask (drop offset block) Length p;
  _ ← run (on_ms (fun a => a <| CommandBlock ::= fun b => take offset b ++ mem |>));
  mret (err, p).

Definition malformed (a : ms User) : bool :=
  let b := CommandBlock a in
  negb (Signature b =? MS_CBW_SIGNATURE) || (TotalLUNs a <=? LUN b) || negb (Z.land (Flags b) 31 =? 0) ||
  (SCSICommandLength b =? 0) || (16 <? SCSICommandLength b).

Definition MS_Device_ReadInCommandBlock : M bool :=
  _ ← run (select DataOUTEndpoint);
  aborted ← until_complete (read_block 0 (sizeof_CommandBlock - 16));
  if aborted : bool then mret false
  else
    bad ← get (fun s => malformed (app s));
    if bad : bool then
      _ ← run Endpoint_StallTransaction;
      _ ← run (select DataINEndpoint);
      _ ← run Endpoint_StallTransaction;
      mret false
    else
      n ← get (fun s => SCSICommandLength (CommandBlock (app s)));
      aborted ← until_complete (read_block 15 n);
      if aborted : bool then mret false
      else _ ← run Endpoint_ClearOUT; mret true.

(** [while (Endpoint_IsStalled()) { USB_USBTask(); if (IsMassStoreReset) return; }]: whether it
    returned. Every turn lets an event pass. *)
Fixpoint stalled_loop (fuel : nat) (s : state) (evs : list bus_event) : res (bool * state * list bus_event) :=
  match fuel with
  | O => Hang
  | S fuel' =>
      if Endpoint_IsStalled s then
        '(_, s, evs) ← USB_USBTask s evs;
        if IsMassStoreReset (app s) then Ok (true, s, evs)
        else match evs with [] => Hang | ev :: evs' => stalled_loop fuel' (tick ev s) evs' end
      else Ok (false, s, evs)
  end.
Definition wait_unstalled : M bool := fun s evs => stalled_loop (S (length evs)) s evs.

Definition write_status (p : option Z) : M (ep_error * option Z) :=
  c ← get (fun s => CommandStatus (app s));
  '(err, _, p) ← Endpoint_Write_Stream_LE USB_USBTask (status_bytes c) sizeof_CommandStatus p;
  mret (err, p).

Definition MS_Device_ReturnCommandStatus : M unit :=
  _ ← run (select DataOUTEndpoint);
  aborted ← wait_unstalled;
  if aborted : bool then mret tt
  else
    _ ← run (select DataINEndpoint);
    aborted ← wait_unstalled;
    if aborted : bool then mret tt
    else
      aborted ← until_complete write_status;
      if aborted : bool then mret tt else run Endpoint_ClearIN.

(** The status of the command that was executed with result [ok]. *)
Definition set_status (ok : bool) (a : ms User) : ms User :=
  a <| CommandStatus := mkStatus MS_CSW_SIGNATURE (Tag (CommandBlock a)) (DataTransferLength (CommandBlock a))
                          (if ok then MS_SCSI_COMMAND_Pass else MS_SCSI_COMMAND_Fail) |>.

(** What follows the handler. *)
Definition return_result (SCSICommandResult : bool) : M unit :=
  _ ← run (on_ms (set_status SCSICommandResult));
  residue ← get (fun s => DataTransferResidue (CommandStatus (app s)));
  _ ← (if negb SCSICommandResult && negb (residue =? 0) then run Endpoint_StallTransaction else mret tt);
  MS_Device_ReturnCommandStatus.
Definition run_command : M unit :=
  read ← MS_Device_ReadInCommandBlock;
  if read : bool then
    to_host ← get (fun s => negb (Z.land (Flags (CommandBlock (app s))) MS_COMMAND_DIR_DATA_IN =? 0));
    _ ← (if to_host : bool then run (select DataINEndpoint) else mret tt);
    SCSICommandResult ← CALLBACK_MS_Device_SCSICommandReceived;
    return_result SCSICommandResult
  else mret tt.

Definition reset_transport (s : state) : state :=
  let s := Endpoint_ResetEndpoint (Address (DataOUTEndpoint (app s))) s in
  let s := Endpoint_ResetEndpoint (Address (DataINEndpoint (app s))) s in
  let s := Endpoint_ResetDataToggle (Endpoint_ClearStall (select DataOUTEndpoint s)) in
  let s := Endpoint_ResetDataToggle (Endpoint_ClearStall (select DataINEndpoint s)) in
  on_ms (fun a => a <| IsMassStoreReset := false |>) s.

Definition answer_reset : M unit :=
  reset ← get (fun s => IsMassStoreReset (app s));
  if reset : bool then run reset_transport else mret tt.
Definition MS_Device_USBTask : M unit :=
  configured ← get (fun s => bool_decide (USB_DeviceState s = Configured));
  if negb configured then mret tt
  else
    _ ← run (select DataOUTEndpoint);
    out ← get Endpoint_IsOUTReceived;
    _ ← (if out : bool then run_command else mret tt);
    answer_reset.

(** ** Receiving a command *)

Lemma on_ms_ext (s : state) f g : f (app s) = g (app s) -> on_ms f s = on_ms g s.
Proof using Type. intros Hfg. unfold on_ms. destruct s. unfold set_field. simpl in *. by rewrite Hfg. Qed.

Lemma until_complete_ok (stream : option Z -> M (ep_error * option Z)) (s s' : state) evs evs' err p :
  stream (Some 0) s evs = Ok ((err, p), s', evs') -> err <> IncompleteTransfer ->
  until_complete stream s evs = Ok (false, s', evs').
Proof using Type.
  intros Hs Hne. unfold until_complete. cbn [transfer_all]. rewrite (bind_ok _ _ _ _ _ _ _ Hs). by rewrite decide_False.
Qed.

(** A part of the command block that lies in the bank at hand is received as it is. *)
Lemma read_block_head n e (s : state) ev evs offset bs rest ps :
  at_ep n e s -> 0 < n -> Z.testbit (UECFG0X e) EPDIR = false -> RXSTPI e = false -> received e = (bs ++ rest) :: ps ->
  (offset + length bs <= length (CommandBlock (app s)))%nat -> (length bs <= 31)%nat -> ev <> BusReset -> fires EORSTI s = false ->
  exists e' s', until_complete (read_block offset (Z.of_nat (length bs))) s (ev :: evs) = Ok (false, s', evs) /\
    s' = on_ms (fun a => a <| CommandBlock ::= fun b => take offset b ++ bs ++ drop (offset + length bs) b |>)
           (on_cur (fun e => e <| received := received e' |>) (tick ev s)) /\
    at_ep n e' s' /\ (exists D, received e' = rest :: ps ++ D /\ D `sublist_of` outs n [ev]) /\
    UECFG0X e' = UECFG0X e /\ UECFG1X e' = UECFG1X e /\ RXSTPI e' = false /\ STALLRQ e' = STALLRQ e.
Proof using Type.
  intros Ha Hn Hd Hx Hr Ho Hl Hev Hf.
  set (mem := drop offset (CommandBlock (app s))).
  pose proof (store_room bs mem 0 ltac:(lia)) as Hst. unfold mem in Hst at 1. rewrite length_drop in Hst. specialize (Hst ltac:(lia)).
  simpl in Hst.
  destruct (read_stream_head USB_USBTask n e s ev evs mem _ bs rest ps (Some 0) Ha Hn Hd Hx Hr Hst eq_refl ltac:(lia) Hev Hf)
    as (e' & Hrd & Ha' & HD & H1 & H2 & H3 & H4).
  eexists e', _. split; [|split; [reflexivity|]; split_and!; done].
  eapply (until_complete_ok _ _ _ _ _ NoError); [|done]. unfold read_block. rewrite bind_get, (bind_ok _ _ _ _ _ _ _ Hrd).
  set (s1 := on_cur _ _). assert (app s1 = app s) as Happ.
  { destruct (tick_steady ev s Hev Hf) as [Hk _]. injection Hk. done. }
  rewrite bind_run, (on_ms_ext s1 _ (fun a => a <| CommandBlock ::= fun b => take offset b ++ bs ++ drop (offset + length bs) b |>)); [done|].
  rewrite Happ. unfold mem. by rewrite drop_drop.
Qed.
(** *** The header of a command block *)

Lemma nth_take {A} (l : list A) i n d : (i < n)%nat -> nth i (take n l) d = nth i l d.
Proof using Type. intros Hi. rewrite !nth_lookup. by rewrite lookup_take_lt. Qed.

Lemma nth_u8 i l : Forall is_u8 l -> is_u8 (nth i l 0).
Proof using Type.
  intros Hl. rewrite nth_lookup. destruct (l !! i) as [x|] eqn:E; simpl; [|unfold is_u8; lia].
  exact (Forall_lookup_1 _ _ _ _ Hl E).
Qed.

(** Its members are in the first 15 bytes. *)
Lemma header_ext b b' : take 15 b = take 15 b' ->
  Signature b = Signature b' /\ Tag b = Tag b' /\ DataTransferLength b = DataTransferLength b' /\
  Flags b = Flags b' /\ LUN b = LUN b' /\ SCSICommandLength b = SCSICommandLength b'.
Proof using Type.
  intros Hb.
  assert (forall m, (m + 4 <= 15)%nat -> take 4 (drop m b) = take 4 (drop m b')) as Hw.
  { intros m Hm. rewrite !take_drop_commute. f_equal. replace (m + 4)%nat with ((m + 4) `min` 15)%nat by lia.
    by rewrite <- !take_take, Hb. }
  assert (forall i, (i < 15)%nat -> nth i b 0 = nth i b' 0) as Hn.
  { intros i Hi. by rewrite <- (nth_take b i 15), <- (nth_take b' i 15), Hb. }
  unfold Signature, Tag, DataTransferLength, Flags, LUN, SCSICommandLength.
  split_and!; [f_equal; apply (Hw 0%nat)|f_equal; apply Hw|f_equal; apply Hw|apply Hn..]; lia.
Qed.

Lemma malformed_ext (a a' : ms User) :
  TotalLUNs a = TotalLUNs a' -> take 15 (CommandBlock a) = take 15 (CommandBlock a') -> malformed a = malformed a'.
Proof using Type. intros Ht (H1 & _ & _ & H4 & H5 & H6)%header_ext. unfold malformed. by rewrite Ht, H1, H4, H5, H6. Qed.

(** *** The endpoints *)

(** The endpoints of the driver: an OUT and an IN endpoint, which are not the control endpoint. *)
Definition out_number (s : state) : Z := endpoint_number (DataOUTEndpoint (app s)).
Definition in_number (s : state) : Z := endpoint_number (DataINEndpoint (app s)).
Definition connected (eo ei : endpoint) (s : state) : Prop :=
  0 < out_number s /\ 0 < in_number s /\ out_number s <> in_number s /\
  eps s !! Z.to_nat (out_number s) = Some eo /\ eps s !! Z.to_nat (in_number s) = Some ei /\
  Z.testbit (UECFG0X eo) EPDIR = false /\ RXSTPI eo = false /\ Z.testbit (UECFG0X ei) EPDIR = true /\
  fires EORSTI s = false.

Lemma other_ep n (s : state) f e : UENUM s <> n -> 0 <= n -> 0 <= UENUM s -> eps s !! Z.to_nat n = Some e ->
  eps (on_cur f s) !! Z.to_nat n = Some e.
Proof using Type. intros Hne Hn Hu He. unfold on_cur, on_ep. simpl. by rewrite list_lookup_alter_ne by lia. Qed.

(** Work on one of them. *)
Lemma connected_out f eo ei (s : state) : connected eo ei s -> UENUM s = out_number s ->
  Z.testbit (UECFG0X (f eo)) EPDIR = false -> RXSTPI (f eo) = false -> connected (f eo) ei (on_cur f s).
Proof using Type.
  intros (H1 & H2 & H3 & H4 & H5 & H6 & H7 & H8 & H9) Hu Hd Hx.
  destruct (at_on_cur (out_number s) eo s f (conj Hu H4)) as [_ Ho].
  unfold connected, out_number, in_number in *. change (app (on_cur f s)) with (app s). split_and!; try done. apply (other_ep _ s); [congruence|lia..|done].
Qed.
Lemma connected_in f eo ei (s : state) : connected eo ei s -> UENUM s = in_number s ->
  Z.testbit (UECFG0X (f ei)) EPDIR = true -> connected eo (f ei) (on_cur f s).
Proof using Type.
  intros (H1 & H2 & H3 & H4 & H5 & H6 & H7 & H8 & H9) Hu Hd.
  destruct (at_on_cur (in_number s) ei s f (conj Hu H5)) as [_ Hi].
  unfold connected, out_number, in_number in *. change (app (on_cur f s)) with (app s). split_and!; try done. apply (other_ep _ s); [congruence|lia..|done].
Qed.

(** [CommandBlock] with the first [n] bytes of [cbw]. *)
Definition with_block (n : nat) (cbw : list Z) (a : ms User) : ms User :=
  a <| CommandBlock ::= fun b => take n cbw ++ drop n b |>.

(** Reading what lies in the bank of the OUT endpoint. *)
Lemma read_part (s : state) eo ei ev evs offset bs rest ps :
  connected eo ei s -> UENUM s = out_number s -> received eo = (bs ++ rest) :: ps -> (length bs <= 31)%nat ->
  (offset + length bs <= length (CommandBlock (app s)))%nat -> ev <> BusReset ->
  exists eo' s' D, until_complete (read_block offset (Z.of_nat (length bs))) s (ev :: evs) = Ok (false, s', evs) /\
    connected eo' (act (in_number s) ev ei) s' /\ UENUM s' = out_number s /\
    app s' = app s <| CommandBlock ::= fun b => take offset b ++ bs ++ drop (offset + length bs) b |> /\
    received eo' = rest :: ps ++ D /\ D `sublist_of` outs (out_number s) [ev] /\ STALLRQ eo' = STALLRQ eo.
Proof using Type.
  intros (Ho & Hi & Hne & Heo & Hei & Hdo & Hxo & Hdi & Hf) Hu Hr Hl Hb Hev.
  destruct (read_block_head (out_number s) eo s ev evs offset bs rest ps) as (eo' & s' & Hrd & -> & [Hu' Ha'] & (D & HD & HDs) & H0 & H1 & H2 & H3);
    try done.
  destruct (tick_ep _ ei ev s Hei Hev Hf) as [Hei' Hst]. injection Hst as Hu1 _ _ _ _ Happ Hf1.
  eexists eo', _, D. split; [exact Hrd|]. unfold connected, out_number, in_number in *. cbn in *. rewrite !Happ.
  destruct (act_config (endpoint_number (DataINEndpoint (app s))) ev ei Hi) as (Hc & _).
  split_and!; try done; try congruence.
  - apply (other_ep _ (tick ev s)); [congruence|lia|rewrite Hu1, Hu; apply number_small|done].
  - change (fires EORSTI (tick ev s) = false). congruence.
Qed.
Lemma run_select t (s : state) {B} (g : unit -> M B) evs : (run (select t) ≫= g) s evs = g tt (select t s) evs.
Proof using Type. done. Qed.

Lemma connected_select eo ei s t : connected eo ei s -> connected eo ei (select t s).
Proof using Type. done. Qed.

(** The 15 bytes of the header. *)
Lemma read_header_part (s : state) eo ei cbw rest ev evs :
  connected eo ei s -> received eo = cbw :: rest -> (15 <= length cbw)%nat -> length (CommandBlock (app s)) = 31%nat ->
  ev <> BusReset ->
  exists eo' s' D, until_complete (read_block 0 (sizeof_CommandBlock - 16)) (select DataOUTEndpoint s) (ev :: evs) = Ok (false, s', evs) /\
    connected eo' (act (in_number s) ev ei) s' /\ UENUM s' = out_number s /\ app s' = with_block 15 cbw (app s) /\
    received eo' = drop 15 cbw :: rest ++ D /\ D `sublist_of` outs (out_number s) [ev] /\ STALLRQ eo' = STALLRQ eo.
Proof using Type.
  intros Hc Hr Hl Hb Hev. assert (length (take 15 cbw) = 15%nat) as H15 by (rewrite length_take; lia).
  destruct (read_part (select DataOUTEndpoint s) eo ei ev evs 0 (take 15 cbw) (drop 15 cbw) rest) as
    (eo' & s' & D & Hrd & Hc' & Hu & Happ & HD & HDs & Hst); try done; [by rewrite take_drop|lia|simpl; lia|].
  rewrite H15 in Hrd. exists eo', s', D. split; [exact Hrd|]. split_and!; try done. rewrite Happ, H15. done.
Qed.

(** The whole command block, in a bank of its own: it is received, and the bank is given back. *)
Lemma read_command (s : state) eo ei cbw rest ev1 ev2 evs :
  connected eo ei s -> received eo = cbw :: rest -> length cbw = 31%nat -> Forall is_u8 cbw ->
  length (CommandBlock (app s)) = 31%nat -> malformed (with_block 15 cbw (app s)) = false -> ev1 <> BusReset -> ev2 <> BusReset ->
  exists eo' s' D, MS_Device_ReadInCommandBlock s (ev1 :: ev2 :: evs) = Ok (true, s', evs) /\
    connected eo' (act (in_number s) ev2 (act (in_number s) ev1 ei)) s' /\ UENUM s' = out_number s /\
    app s' = with_block (15 + Z.to_nat (SCSICommandLength cbw)) cbw (app s) /\
    received eo' = rest ++ D /\ D `sublist_of` outs (out_number s) [ev1; ev2] /\ STALLRQ eo' = STALLRQ eo.
Proof using Type.
  intros Hc Hr Hl H8 Hb Hm Hev1 Hev2.
  assert (SCSICommandLength (take 15 cbw ++ drop 15 (CommandBlock (app s))) = SCSICommandLength cbw) as Hlen.
  { apply header_ext. rewrite take_app_le, take_take by (rewrite length_take; lia). done. }
  assert (1 <= SCSICommandLength cbw <= 16) as Hrange.
  { unfold malformed in Hm. simpl in Hm. rewrite Hlen in Hm. apply orb_false_iff in Hm as [Hm H16]. apply orb_false_iff in Hm as [_ H0].
    apply Z.ltb_ge in H16. apply Z.eqb_neq in H0. pose proof (nth_u8 14 cbw H8) as [? ?]. unfold SCSICommandLength in *. lia. }
  destruct (read_header_part s eo ei cbw rest ev1 (ev2 :: evs)) as (e1 & s1 & D1 & Hr1 & Hc1 & Hu1 & Ha1 & HD1 & HDs1 & Hst1);
    try done; [lia|].
  set (L := Z.to_nat (SCSICommandLength cbw)).
  assert (length (take L (drop 15 cbw)) = L) as HL by (rewrite length_take, length_drop; lia).
  assert (in_number s1 = in_number s /\ out_number s1 = out_number s) as [Hin Hout] by (unfold in_number, out_number; by rewrite Ha1).
  destruct (read_part s1 e1 (act (in_number s) ev1 ei) ev2 evs 15 (take L (drop 15 cbw)) (drop L (drop 15 cbw)) (rest ++ D1))
    as (e2 & s2 & D2 & Hr2 & Hc2 & Hu2 & Ha2 & HD2 & HDs2 & Hst2); try done; try congruence.
  { by rewrite take_drop. }
  { lia. }
  { rewrite HL, Ha1. simpl. rewrite length_app, length_take, length_drop. lia. }
  pose proof Hc2 as (_ & _ & _ & _ & _ & Hd2 & Hx2 & _). rewrite Hin in Hc2.
  pose proof (connected_out (fun e => e <| received ::= tail |>) e2 _ s2 Hc2) as Hc3.
  specialize (Hc3 ltac:(rewrite Hu2; unfold out_number; by rewrite Ha2) Hd2 Hx2).
  eexists _, (Endpoint_ClearOUT s2), (D1 ++ D2). split; [|split; [exact Hc3|]].
  - unfold MS_Device_ReadInCommandBlock. rewrite run_select, (bind_ok _ _ _ _ _ _ _ Hr1). cbv iota. rewrite bind_get.
    rewrite (malformed_ext (app s1) (with_block 15 cbw (app s))), Hm by (by rewrite Ha1). cbv iota.
    rewrite bind_get. assert (SCSICommandLength (CommandBlock (app s1)) = Z.of_nat (length (take L (drop 15 cbw)))) as ->.
    { rewrite Ha1. simpl. rewrite Hlen, HL. unfold L. lia. }
    by rewrite (bind_ok _ _ _ _ _ _ _ Hr2).
  - split; [change (UENUM s2 = out_number s); congruence|]. split; [|split; [|split]].
    + change (app (Endpoint_ClearOUT s2)) with (app s2). rewrite Ha2, Ha1, HL. unfold with_block, set_field. simpl. f_equal.
      assert (length (take 15 cbw) = 15%nat) as H15 by (rewrite length_take; lia).
      rewrite take_app_le, take_take by lia. rewrite drop_app_ge by lia. rewrite drop_drop, H15.
      rewrite app_assoc. f_equal; [apply (take_take_drop cbw 15 L)|f_equal; lia].
    + change (tail (received e2) = rest ++ D1 ++ D2). rewrite HD2. symmetry. apply app_assoc.
    + rewrite (outs_cons _ ev1). apply sublist_app; [done|by rewrite <- Hout].
    + simpl. congruence.
Qed.
(** ** Returning the status *)

Lemma status_length c : length (status_bytes c) = 13%nat.
Proof using Type. done. Qed.
Lemma status_u8 c : Forall is_u8 (status_bytes c).
Proof using Type. repeat constructor; apply u8_range. Qed.

(** The IN endpoint [n] is selected, as [e0] but for packets the host has collected. *)
Definition waiting (n : Z) (e0 : endpoint) K evs (s : state) : Prop :=
  exists e, at_ep n e s /\ same_geometry e e0 /\ STALLRQ e = STALLRQ e0 /\ filling e = filling e0 /\
    packets_in e = packets_in e0 /\ steady s = K /\ fires EORSTI s = false /\ no_reset evs.

Lemma waiting_stable n e0 K : 0 < n -> stable (waiting n e0 K).
Proof using Type.
  intros Hn ev evs s (e & Ha & [Hg0 Hg1] & Hs & Hf & Hp & Hk & Hr & Hev). apply Forall_cons_1 in Hev as [Hv Hev].
  destruct (act_config n ev e Hn) as (H0 & H1 & _ & H3 & H4 & H5). destruct (tick_steady ev s Hv Hr) as [Hst _].
  exists (act n ev e). split_and!; [by apply at_tick|split; congruence|congruence|congruence|unfold packets_in in *; congruence|congruence| |done].
  injection Hst. congruence.
Qed.

Lemma not_stalled n e (s : state) evs : at_ep n e s -> STALLRQ e = false -> wait_unstalled s evs = Ok (false, s, evs).
Proof using Type. intros Ha Hs. unfold wait_unstalled, stalled_loop. unfold Endpoint_IsStalled. by rewrite (at_cur _ _ _ Ha), Hs. Qed.

(** The status goes out as one packet, unless the wait for a bank fails; it fails if the device is
    unattached or suspended, or the host collects nothing for [WAIT] frames. *)
Definition status_sent (packet : list Z) (e0 : endpoint) (since : nat) (n : Z) evs (s : state) : Prop :=
  exists e, eps s !! Z.to_nat n = Some e /\ filling e = [] /\ STALLRQ e = false /\
    (packets_in e = packets_in e0 ++ [packet] \/
     packets_in e = packets_in e0 /\
       (USB_DeviceState s = Unattached \/ USB_DeviceState s = Suspended \/ (WAIT + changes (UDFNUM s) evs <= since)%nat)).

(** After the wait, the status fits into the empty bank. *)
Lemma write_status_ready n e (s s1 : state) evs evs1 :
  Endpoint_WaitUntilReady s evs = Ok (NoError, s1, evs1) ->
  at_ep n e s1 -> Z.testbit (UECFG0X e) EPDIR = true -> TXINI e = true -> filling e = [] -> (13 <= bank_size e)%nat ->
  write_status (Some 0) s evs =
  Ok ((NoError, Some 0), on_cur (fun e => e <| filling := status_bytes (CommandStatus (app s)) |>) s1, evs1).
Proof using Type.
  intros Hw Ha Hd Ht Hf Hb. unfold write_status. rewrite bind_get. set (c := CommandStatus (app s)).
  assert (Endpoint_Write_Stream_LE USB_USBTask (status_bytes c) sizeof_CommandStatus (Some 0) s evs =
    Ok ((NoError, status_bytes c, Some 0), on_cur (fun e => e <| filling := status_bytes c |>) s1, evs1)) as Hs.
  2: { by rewrite (bind_ok _ _ _ _ _ _ _ Hs). }
  rewrite (write_stream_ready USB_USBTask n e s s1 evs evs1 (status_bytes c) 13 (Some 0)); try done; [by rewrite Hf|by rewrite Hf|].
  apply Forall_take, status_u8.
Qed.
Lemma write_status_failed (s s1 : state) evs evs1 err :
  Endpoint_WaitUntilReady s evs = Ok (err, s1, evs1) -> err <> NoError ->
  write_status (Some 0) s evs = Ok ((err, Some 0), s1, evs1).
Proof using Type.
  intros Hw Hne. unfold write_status, Endpoint_Write_Stream_LE, Stream_RW, mbind, M_bind, get. rewrite Hw. cbn [mbind res_bind].
  by rewrite decide_False.
Qed.

Lemma write_status_ok n e (s : state) evs :
  at_ep n e s -> 0 < n -> Z.testbit (UECFG0X e) EPDIR = true -> STALLRQ e = false -> filling e = [] ->
  (13 <= bank_size e)%nat -> fires EORSTI s = false -> no_reset evs ->
  within WAIT (fun _ evs' s' => app s' = app s /\ status_sent (status_bytes (CommandStatus (app s))) e (changes (UDFNUM s) evs) n evs' s') s evs
    ((aborted ← until_complete write_status; if aborted : bool then mret tt else run Endpoint_ClearIN) s evs).
Proof using Type.
  intros Ha Hn Hd Hst Hfl Hb Hf Hev. set (c := CommandStatus (app s)).
  pose proof (wait_rule (waiting n e (steady s)) s evs (waiting_stable n e _ Hn)) as Hw.
  specialize (Hw ltac:(by exists e)).
  assert (forall err s1 evs1, err <> IncompleteTransfer -> write_status (Some 0) s evs = Ok ((err, Some 0), s1, evs1) ->
    (aborted ← until_complete write_status; if aborted : bool then mret tt else run Endpoint_ClearIN) s evs = Ok (tt, Endpoint_ClearIN s1, evs1)) as Hrun.
  { intros err s1 evs1 Hne Hws. by rewrite (bind_ok _ _ _ _ _ _ _ (until_complete_ok _ _ _ _ _ err _ Hws Hne)). }
  destruct (Endpoint_WaitUntilReady s evs) as [[[err s1] evs1]| |] eqn:Ew; [|done|].
  2: { assert (write_status (Some 0) s evs = Hang) as Hh.
       { unfold write_status, Endpoint_Write_Stream_LE, Stream_RW, mbind, M_bind, get. by rewrite Ew. }
       unfold until_complete. unfold mbind at 1, M_bind at 1. cbn [transfer_all]. unfold mbind at 1, M_bind at 1. by rewrite Hh. }
  destruct Hw as (((e1 & Ha1 & [Hg0 Hg1] & Hst1 & Hf1 & Hp1 & Hk1 & Hr1 & Hev1) & [Hrdy Htold] & Hl & Ht) & Hl' & Hc).
  assert (app s1 = app s) as Happ by (injection Hk1; done).
  assert (bank_ready s1 = TXINI e1) as Hrt.
  { unfold bank_ready, Endpoint_GetEndpointDirection, Endpoint_IsINReady. by rewrite (at_cur _ _ _ Ha1), Hg0, Hd. }
  rewrite Hrt in Hrdy. rewrite Hfl in Hf1.
  destruct (decide (err = NoError)) as [->|Hne].
  - rewrite (Hrun NoError _ evs1 ltac:(done) (write_status_ready n e1 s s1 evs evs1 Ew Ha1 ltac:(by rewrite Hg0) Hrdy Hf1
      ltac:(unfold bank_size in *; by rewrite Hg1))). fold c.
    unfold Endpoint_ClearIN. rewrite on_cur_comp. apply within_done; [|done..]. split; [done|].
    set (f := fun e' : endpoint => _). pose proof (at_on_cur n e1 s1 f Ha1) as [_ Ha2]. exists (f e1). split; [exact Ha2|].
    unfold f. change (TXINI (e1 <| filling := status_bytes c |>)) with (TXINI e1). rewrite Hrdy.
    split_and!; try done; [by rewrite <- Hst, <- Hst1|]. left. unfold packets_in. simpl. rewrite app_assoc. f_equal. exact Hp1.
  - assert (TXINI e1 = false) as Ht1 by (rewrite Hrdy; by apply bool_decide_eq_false_2).
    rewrite (Hrun err s1 evs1); [|by intros ->|by apply write_status_failed].
    unfold Endpoint_ClearIN. rewrite (on_cur_id n e1 s1 _ Ha1) by (by rewrite Ht1).
    apply within_done; [|done..]. split; [done|]. exists e1. split; [apply Ha1|]. split_and!; [done|congruence|]. right. split; [done|].
    destruct err; try done; [|by left|by right; left|right; right; specialize (Ht eq_refl); lia].
    unfold Endpoint_IsStalled in Htold. rewrite (at_cur _ _ _ Ha1) in Htold. congruence.
Qed.
Lemma return_status (s : state) eo ei evs :
  connected eo ei s -> STALLRQ eo = false -> STALLRQ ei = false -> filling ei = [] -> (13 <= bank_size ei)%nat -> no_reset evs ->
  within WAIT (fun _ evs' s' => app s' = app s /\
      status_sent (status_bytes (CommandStatus (app s))) ei (changes (UDFNUM s) evs) (in_number s) evs' s') s evs
    (MS_Device_ReturnCommandStatus s evs).
Proof using Type.
  intros (H1 & H2 & H3 & H4 & H5 & H6 & H7 & H8 & H9) Hso Hsi Hf Hb Hev. unfold MS_Device_ReturnCommandStatus.
  assert (at_ep (out_number s) eo (select DataOUTEndpoint s)) as Hao by done.
  assert (at_ep (in_number s) ei (select DataINEndpoint (select DataOUTEndpoint s))) as Hai by done.
  rewrite run_select, (bind_ok _ _ _ _ _ _ _ (not_stalled _ _ _ evs Hao Hso)). cbv iota.
  rewrite run_select, (bind_ok _ _ _ _ _ _ _ (not_stalled _ _ _ evs Hai Hsi)). cbv iota.
  exact (write_status_ok _ ei _ evs Hai H2 H8 Hsi Hf Hb H9 Hev).
Qed.

(** The status as the host sees it: the signature, the tag of the command, what is left of its
    data, and the result. *)
Definition status_packet (ok : bool) (b : list Z) : list Z :=
  [85; 83; 66; 83] ++ take 4 (drop 4 b) ++ take 4 (drop 8 b) ++ [if ok then MS_SCSI_COMMAND_Pass else MS_SCSI_COMMAND_Fail].

Lemma status_packet_eq ok (a : ms User) : Forall is_u8 (CommandBlock a) -> (12 <= length (CommandBlock a))%nat ->
  status_bytes (CommandStatus (set_status ok a)) = status_packet ok (CommandBlock a).
Proof using Type.
  intros H8 Hl. set (b := CommandBlock a) in *.
  change (le32 MS_CSW_SIGNATURE ++ le32 (le (take 4 (drop 4 b))) ++ le32 (le (take 4 (drop 8 b))) ++
    [u8 (if ok then MS_SCSI_COMMAND_Pass else MS_SCSI_COMMAND_Fail)] = status_packet ok b).
  rewrite !le32_le by (rewrite ?length_take, ?length_drop; lia) || (by apply Forall_take, Forall_drop). by destruct ok.
Qed.

(** What a handler for SCSI commands has to leave when it returns: the endpoints usable, the IN
    endpoint with an empty bank that holds a status, no reset; and it must not fail with data left
    to transfer, which stalls the endpoint. *)
Definition handler_returns (ok : bool) (ei : endpoint) (s : state) evs : Prop :=
  (exists eo, connected eo ei s /\ STALLRQ eo = false) /\ STALLRQ ei = false /\ filling ei = [] /\ (13 <= bank_size ei)%nat /\
  IsMassStoreReset (app s) = false /\ Forall is_u8 (CommandBlock (app s)) /\ length (CommandBlock (app s)) = 31%nat /\
  (ok = false -> DataTransferLength (CommandBlock (app s)) = 0) /\ no_reset evs.

(** The handler is called with the command, and what it returns goes to the host. *)
Lemma command_called (s : state) eo ei cbw rest ev1 ev2 evs :
  connected eo ei s -> USB_DeviceState s = Configured -> received eo = cbw :: rest -> length cbw = 31%nat -> Forall is_u8 cbw ->
  length (CommandBlock (app s)) = 31%nat -> malformed (with_block 15 cbw (app s)) = false -> ev1 <> BusReset -> ev2 <> BusReset ->
  exists s1 eo1 D, app s1 = with_block (15 + Z.to_nat (SCSICommandLength cbw)) cbw (app s) /\
    UENUM s1 = (if Z.land (Flags cbw) MS_COMMAND_DIR_DATA_IN =? 0 then out_number s else in_number s) /\
    connected eo1 (act (in_number s) ev2 (act (in_number s) ev1 ei)) s1 /\ STALLRQ eo1 = STALLRQ eo /\
    received eo1 = rest ++ D /\ D `sublist_of` outs (out_number s) [ev1; ev2] /\
    MS_Device_USBTask s (ev1 :: ev2 :: evs) = (ok ← CALLBACK_MS_Device_SCSICommandReceived; _ ← return_result ok; answer_reset) s1 evs.
Proof using Type.
  intros Hc Hconf Hr Hl H8 Hb Hm Hev1 Hev2.
  destruct (read_command (select DataOUTEndpoint s) eo ei cbw rest ev1 ev2 evs) as (eo1 & s1 & D & Hrd & Hc1 & Hu1 & Ha1 & HD & HDs & Hst1); try done.
  set (n := (15 + Z.to_nat (SCSICommandLength cbw))%nat) in *. change (app (select DataOUTEndpoint s)) with (app s) in *.
  change (in_number (select DataOUTEndpoint s)) with (in_number s) in *. change (out_number (select DataOUTEndpoint s)) with (out_number s) in *.
  set (hb := Z.land (Flags cbw) MS_COMMAND_DIR_DATA_IN =? 0).
  assert (Flags (CommandBlock (app s1)) = Flags cbw) as Hdir.
  { rewrite Ha1. apply header_ext. simpl. rewrite take_app_le, take_take by (rewrite length_take; lia). f_equal. }
  set (s1' := if hb then s1 else select DataINEndpoint s1).
  exists s1', eo1, D. assert (app s1' = app s1 /\ connected eo1 (act (in_number s) ev2 (act (in_number s) ev1 ei)) s1') as [Ha1' Hc1'].
  { unfold s1'. by destruct hb. }
  split; [by rewrite Ha1'|]. split.
  { unfold s1'. destruct hb; [done|]. unfold select, in_number. simpl. by rewrite Ha1. }
  do 4 (split; [done|]). unfold MS_Device_USBTask. rewrite bind_get, bool_decide_eq_true_2 by done. cbn [negb]. cbv iota.
  rewrite run_select, bind_get.
  assert (Endpoint_IsOUTReceived (select DataOUTEndpoint s) = true) as ->.
  { destruct Hc as (_ & _ & _ & H4 & _). unfold Endpoint_IsOUTReceived, RXOUTI.
    rewrite (at_cur (out_number s) eo (select DataOUTEndpoint s)) by done. by rewrite Hr. }
  cbv iota. unfold mbind at 1, M_bind at 1. unfold run_command. rewrite (bind_ok _ _ _ _ _ _ _ Hrd). cbv iota. rewrite bind_get, Hdir. fold hb.
  rewrite (bind_ok _ _ s1 evs tt s1' evs) by (unfold s1'; by destruct hb).
  unfold mbind, M_bind. by destruct (CALLBACK_MS_Device_SCSICommandReceived s1' evs) as [[[ok s2] evs2]| |].
Qed.
Lemma command_cycle (s : state) eo ei cbw rest ev1 ev2 evs :
  connected eo ei s -> USB_DeviceState s = Configured -> received eo = cbw :: rest -> length cbw = 31%nat -> Forall is_u8 cbw ->
  length (CommandBlock (app s)) = 31%nat -> malformed (with_block 15 cbw (app s)) = false -> ev1 <> BusReset -> ev2 <> BusReset ->
  exists s1 eo1 D, app s1 = with_block (15 + Z.to_nat (SCSICommandLength cbw)) cbw (app s) /\
    UENUM s1 = (if Z.land (Flags cbw) MS_COMMAND_DIR_DATA_IN =? 0 then out_number s else in_number s) /\
    connected eo1 (act (in_number s) ev2 (act (in_number s) ev1 ei)) s1 /\ STALLRQ eo1 = STALLRQ eo /\
    received eo1 = rest ++ D /\ D `sublist_of` outs (out_number s) [ev1; ev2] /\
    forall ok s2 evs2 ei2, CALLBACK_MS_Device_SCSICommandReceived s1 evs = Ok (ok, s2, evs2) -> handler_returns ok ei2 s2 evs2 ->
      within WAIT (fun _ evs3 s3 => app s3 = set_status ok (app s2) /\
          status_sent (status_packet ok (CommandBlock (app s2))) ei2 (changes (UDFNUM s2) evs2) (in_number s2) evs3 s3) s2 evs2
        (MS_Device_USBTask s (ev1 :: ev2 :: evs)).
Proof using Type.
  intros Hc Hconf Hr Hl H8 Hb Hm Hev1 Hev2.
  destruct (command_called s eo ei cbw rest ev1 ev2 evs) as (s1 & eo1 & D & H1 & H2 & H3 & H4 & H5 & H6 & Hrun); try done.
  exists s1, eo1, D. do 6 (split; [done|]).
  intros ok s2 evs2 ei2 Hcb ((eo2 & Hc2 & Hso) & Hsi & Hf & Hbank & Hreset & Hb8 & Hblen & Hres & Hev).
  rewrite Hrun, (bind_ok _ _ _ _ _ _ _ Hcb). set (s3 := on_ms (set_status ok) s2).
  assert (within WAIT (fun _ evs3 s3 => app s3 = set_status ok (app s2) /\
    status_sent (status_packet ok (CommandBlock (app s2))) ei2 (changes (UDFNUM s2) evs2) (in_number s2) evs3 s3) s2 evs2
    (return_result ok s2 evs2)) as Hret.
  { unfold return_result. rewrite bind_run, bind_get. fold s3.
    assert (negb ok && negb (DataTransferResidue (CommandStatus (app s3)) =? 0) = false) as ->.
    { destruct ok; [done|]. simpl. by rewrite Hres. }
    rewrite bind_ret. apply (within_start s3); [|done].
    eapply (within_after 0); [by apply (return_status s3 eo2 ei2)|done..|].
    intros u evs4 s4 [Ha4 Hs4]. split; [done|]. change (CommandStatus (app s3)) with (CommandStatus (set_status ok (app s2))) in Hs4.
    rewrite status_packet_eq in Hs4 by (done || lia). done. }
  unfold mbind at 1, M_bind at 1. destruct (return_result ok s2 evs2) as [[[u s4] evs4]| |]; [|done..].
  destruct Hret as ([Ha4 Hs4] & Hl4 & Hc4). unfold answer_reset. rewrite bind_get, Ha4.
  change (IsMassStoreReset (set_status ok (app s2))) with (IsMassStoreReset (app s2)). rewrite Hreset. by apply within_done.
Qed.
(** ** Commands refused, and recovery *)

Lemma refused_command (s : state) eo ei cbw rest ev evs :
  connected eo ei s -> USB_DeviceState s = Configured -> received eo = cbw :: rest -> (15 <= length cbw)%nat ->
  length (CommandBlock (app s)) = 31%nat -> malformed (with_block 15 cbw (app s)) = true ->
  IsMassStoreReset (app s) = false -> ev <> BusReset ->
  exists s' eo' ei' D, MS_Device_USBTask s (ev :: evs) = Ok (tt, s', evs) /\ connected eo' ei' s' /\
    app s' = with_block 15 cbw (app s) /\ STALLRQ eo' = true /\ STALLRQ ei' = true /\
    received eo' = drop 15 cbw :: rest ++ D /\ D `sublist_of` outs (out_number s) [ev] /\ packets_in ei' = packets_in ei.
Proof using Type.
  intros Hc Hconf Hr Hl Hb Hm Hreset Hev.
  destruct (read_header_part (select DataOUTEndpoint s) eo ei cbw rest ev evs) as (e1 & s1 & D & Hr1 & Hc1 & Hu1 & Ha1 & HD & HDs & Hst1); try done.
  change (app (select DataOUTEndpoint s)) with (app s) in Ha1.
  change (in_number (select DataOUTEndpoint s)) with (in_number s) in *. change (out_number (select DataOUTEndpoint s)) with (out_number s) in *.
  assert (in_number s1 = in_number s /\ out_number s1 = out_number s) as [Hin Hout] by (unfold in_number, out_number; by rewrite Ha1).
  set (stall := fun e : endpoint => e <| STALLRQ := true |>).
  set (s2 := on_cur stall (select DataINEndpoint (on_cur stall s1))).
  pose proof Hc1 as (_ & H2 & _ & _ & _ & H6 & H7 & H8 & _).
  destruct (act_config (in_number s) ev ei) as (_ & _ & _ & _ & _ & Hp); [by rewrite <- Hin|].
  set (ei1 := act (in_number s) ev ei) in *.
  assert (connected (stall e1) (stall ei1) s2) as Hc2.
  { apply connected_in; try done. apply connected_select, connected_out; try done. congruence. }
  exists s2, (stall e1), (stall ei1), D. split; [|split; [exact Hc2|]; split_and!; done].
  unfold MS_Device_USBTask. rewrite bind_get, bool_decide_eq_true_2 by done. cbn [negb]. cbv iota.
  rewrite run_select, bind_get.
  assert (Endpoint_IsOUTReceived (select DataOUTEndpoint s) = true) as ->.
  { destruct Hc as (_ & _ & _ & H4 & _). unfold Endpoint_IsOUTReceived, RXOUTI.
    rewrite (at_cur (out_number s) eo (select DataOUTEndpoint s)) by done. by rewrite Hr. }
  assert (MS_Device_ReadInCommandBlock (select DataOUTEndpoint s) (ev :: evs) = Ok (false, s2, evs)) as Hrd.
  { unfold MS_Device_ReadInCommandBlock. rewrite run_select, (bind_ok _ _ _ _ _ _ _ Hr1). cbv iota. rewrite bind_get.
    rewrite (malformed_ext (app s1) (with_block 15 cbw (app s))), Hm by (by rewrite Ha1). cbv iota. by rewrite bind_run, run_select. }
  assert (run_command (select DataOUTEndpoint s) (ev :: evs) = Ok (tt, s2, evs)) as Hrun.
  { unfold run_command. by rewrite (bind_ok _ _ _ _ _ _ _ Hrd). }
  cbv iota. rewrite (bind_ok _ _ _ _ _ _ _ Hrun). unfold answer_reset. rewrite bind_get. change (app s2) with (app s1). rewrite Ha1. simpl. by rewrite Hreset.
Qed.

(** What the reset of the transport leaves of an endpoint. *)
Definition recovered (e : endpoint) : endpoint := reset_fifo e <| STALLRQ := false |> <| toggle := false |>.

(** An address of an endpoint that the controller has. *)
Definition has_number (t : USB_Endpoint_Table_t) : Prop := Z.land (Address t) ENDPOINT_EPNUM_MASK = endpoint_number t.

Lemma connected_ep_out f eo ei (s : state) : connected eo ei s ->
  Z.testbit (UECFG0X (f eo)) EPDIR = false -> RXSTPI (f eo) = false -> connected (f eo) ei (on_ep (out_number s) f s).
Proof using Type. intros Hc Hd Hx. by apply (connected_out f eo ei (select DataOUTEndpoint s)). Qed.
Lemma connected_ep_in f eo ei (s : state) : connected eo ei s ->
  Z.testbit (UECFG0X (f ei)) EPDIR = true -> connected eo (f ei) (on_ep (in_number s) f s).
Proof using Type. intros Hc Hd. by apply (connected_in f eo ei (select DataINEndpoint s)). Qed.

Lemma connected_app f eo ei (s : state) : connected eo ei s ->
  DataOUTEndpoint (f (app s)) = DataOUTEndpoint (app s) -> DataINEndpoint (f (app s)) = DataINEndpoint (app s) -> connected eo ei (on_ms f s).
Proof using Type. intros Hc Ho Hi. unfold connected, out_number, in_number in *. simpl. by rewrite Ho, Hi. Qed.

(** Recovery of the endpoint selected. *)
Definition unstall (s : state) : state := Endpoint_ResetDataToggle (Endpoint_ClearStall s).
Lemma connected_unstall_out eo ei (s : state) : connected (reset_fifo eo) ei s ->
  connected (recovered eo) ei (unstall (select DataOUTEndpoint s)) /\ app (unstall (select DataOUTEndpoint s)) = app s.
Proof using Type.
  intros Hc. split; [|done]. pose proof Hc as (_ & _ & _ & _ & _ & H6 & H7 & _).
  apply (connected_out (fun e => e <| toggle := false |>) (reset_fifo eo <| STALLRQ := false |>)); try done.
  by apply (connected_out (fun e => e <| STALLRQ := false |>)).
Qed.
Lemma connected_unstall_in eo ei (s : state) : connected eo (reset_fifo ei) s ->
  connected eo (recovered ei) (unstall (select DataINEndpoint s)) /\ app (unstall (select DataINEndpoint s)) = app s.
Proof using Type.
  intros Hc. split; [|done]. pose proof Hc as (_ & _ & _ & _ & _ & _ & _ & H8 & _).
  apply (connected_in (fun e => e <| toggle := false |>) eo (reset_fifo ei <| STALLRQ := false |>)); try done.
  by apply (connected_in (fun e => e <| STALLRQ := false |>)).
Qed.

Lemma reset_connected eo ei (s : state) : connected eo ei s -> has_number (DataOUTEndpoint (app s)) -> has_number (DataINEndpoint (app s)) ->
  connected (recovered eo) (recovered ei) (reset_transport s) /\ app (reset_transport s) = app s <| IsMassStoreReset := false |>.
Proof using Type.
  intros Hc Ho Hi. pose proof Hc as (_ & _ & _ & _ & _ & H6 & H7 & H8 & _).
  unfold reset_transport, Endpoint_ResetEndpoint. rewrite Ho.
  set (s1 := on_ep (endpoint_number (DataOUTEndpoint (app s))) reset_fifo s).
  assert (connected (reset_fifo eo) ei s1) as Hc1 by (by apply connected_ep_out).
  assert (app s1 = app s) as Ha1 by done. clearbody s1. rewrite <- Ha1 in Hi. rewrite Hi.
  set (s2 := on_ep (endpoint_number (DataINEndpoint (app s1))) reset_fifo s1).
  assert (connected (reset_fifo eo) (reset_fifo ei) s2) as Hc2 by (by apply (connected_ep_in reset_fifo _ _ s1)).
  assert (app s2 = app s1) as Ha2 by done. clearbody s2.
  destruct (connected_unstall_out eo (reset_fifo ei) s2 Hc2) as [Hc3 Ha3]. fold (unstall (select DataOUTEndpoint s2)).
  set (s3 := unstall (select DataOUTEndpoint s2)) in *. clearbody s3.
  destruct (connected_unstall_in (recovered eo) ei s3 Hc3) as [Hc4 Ha4]. fold (unstall (select DataINEndpoint s3)).
  set (s4 := unstall (select DataINEndpoint s3)) in *. clearbody s4.
  split; [by apply connected_app|]. change (app (on_ms ?f s4)) with (f (app s4)). cbv beta. by rewrite Ha4, Ha3, Ha2, Ha1.
Qed.

(** A reset with nothing received. *)
Lemma reset_recovers (s : state) eo ei evs :
  connected eo ei s -> USB_DeviceState s = Configured -> received eo = [] -> IsMassStoreReset (app s) = true ->
  MS_Device_USBTask s evs = Ok (tt, reset_transport (select DataOUTEndpoint s), evs).
Proof using Type.
  intros Hc Hconf Hr Hreset. unfold MS_Device_USBTask. rewrite bind_get, bool_decide_eq_true_2 by done. cbn [negb]. cbv iota.
  rewrite run_select, bind_get.
  assert (Endpoint_IsOUTReceived (select DataOUTEndpoint s) = false) as ->.
  { destruct Hc as (_ & _ & _ & H4 & _). unfold Endpoint_IsOUTReceived, RXOUTI.
    rewrite (at_cur (out_number s) eo (select DataOUTEndpoint s)) by done. by rewrite Hr. }
  rewrite bind_ret. unfold answer_reset. rewrite bind_get. change (app (select DataOUTEndpoint s)) with (app s). by rewrite Hreset.
Qed.
End Driver.

(** ** Theorems *)


(** C22: a malformed command block (of another signature, for a unit that is not there, with
    reserved flags, or without or with too long a SCSI command) stalls both endpoints, and the
    handler is not called; what follows the header stays in the bank. When the host has asked for
    a reset and nothing is received, both endpoints are empty, unstalled and start over with the
    first data packet, whatever the handler. *)
Theorem ms_refusal_and_recovery {User} `{UsbChip} (handler : M (App:=ms User) bool) descriptors signature (s : usb (ms User)) eo ei :
  connected eo ei s -> USB_DeviceState s = Configured ->
  (forall cbw rest ev evs, received eo = cbw :: rest -> (15 <= length cbw)%nat -> length (CommandBlock (app s)) = 31%nat ->
     malformed (with_block 15 cbw (app s)) = true -> IsMassStoreReset (app s) = false -> ev <> BusReset ->
     exists s' eo' ei' D, MS_Device_USBTask handler descriptors signature s (ev :: evs) = Ok (tt, s', evs) /\ connected eo' ei' s' /\
       app s' = with_block 15 cbw (app s) /\ STALLRQ eo' = true /\ STALLRQ ei' = true /\
       received eo' = drop 15 cbw :: rest ++ D /\ D `sublist_of` outs (out_number s) [ev] /\ packets_in ei' = packets_in ei) /\
  (forall evs, received eo = [] -> IsMassStoreReset (app s) = true ->
     has_number (DataOUTEndpoint (app s)) -> has_number (DataINEndpoint (app s)) ->
     exists s', MS_Device_USBTask handler descriptors signature s evs = Ok (tt, s', evs) /\
       connected (recovered eo) (recovered ei) s' /\ app s' = app s <| IsMassStoreReset := false |>).
Proof.
  intros Hc Hconf. split.
  - intros cbw rest ev evs. by apply refused_command.
  - intros evs Hr Hreset Ho Hi. eexists. split; [by eapply reset_recovers|]. by apply (reset_connected eo ei (select DataOUTEndpoint s)).
Qed.

(** *** A device for concrete runs *)

(** Bulk endpoints of 64 bytes, IN 1 and OUT 2; a handler that notes the commands it is given. *)
Definition w_in : endpoint := mkEndpoint true false false 129 (sbi (Z.shiftl 3 4) ALLOC) 0 [] [] [] [] [] false.
Definition w_out (r : list (list Z)) : endpoint := mkEndpoint true false false 128 (sbi (Z.shiftl 3 4) ALLOC) 0 [] [] [] [] r false.
Definition w_app : ms (list (list Z)) :=
  mkMs _ 0 (mkTable 129 64 2 1) (mkTable 2 64 2 1) 1 (replicate 31 0) (mkStatus 0 0 0 0) false [].
Definition w_disk (r : list (list Z)) : usb (ms (list (list Z))) :=
  fresh_device control_endpoint no_request w_app <| eps ::= fun l => <[1%nat := w_in]> (<[2%nat := w_out r]> l) |>
    <| USB_DeviceState := Configured |>.
Definition w_handler : M (App:=ms (list (list Z))) bool := fun s evs =>
  Ok (true, on_ms (fun a => a <| user ::= fun u => u ++ [CommandBlock a] |>) s, evs).
Definition w_task := @MS_Device_USBTask _ some_chip w_handler (fun _ _ => (0, [])) (fun _ => 0).
(** A header with six bytes of SCSI command, for unit [lun], and what follows it. *)
Definition w_header (lun length : Z) : list Z := [85; 83; 66; 67; 1; 2; 3; 4; 0; 2; 0; 0; 128; lun; length].
Definition w_command : list Z := w_header 0 6 ++ replicate 16 7.
Fixpoint w_frames (n : nat) : list bus_event := match n with O => [] | S n' => w_frames n' ++ [Frame (Z.of_nat n)] end.

(** C25: the rest of a refused command block is taken for the next one: when 15 bytes that are no valid
    header and, behind them, 31 bytes that are a valid block arrive as one packet, the task refuses
    the first and stalls both endpoints; but its next call, the endpoints still stalled, gives the
    second to the handler, in full up to the length of its SCSI command, as it would give a command
    that the host has sent, and returns its result ([return_result]). *)
Theorem ms_executes_refused_rest {User} `{UsbChip} (handler : M (App:=ms User) bool) descriptors signature (s : usb (ms User)) eo ei
  header block rest ev ev1 ev2 evs :
  connected eo ei s -> USB_DeviceState s = Configured -> received eo = (header ++ block) :: rest ->
  length header = 15%nat -> length block = 31%nat -> Forall is_u8 block ->
  length (CommandBlock (app s)) = 31%nat -> IsMassStoreReset (app s) = false ->
  malformed (with_block 15 header (app s)) = true -> malformed (with_block 15 block (app s)) = false ->
  ev <> BusReset -> ev1 <> BusReset -> ev2 <> BusReset ->
  exists s1, MS_Device_USBTask handler descriptors signature s (ev :: ev1 :: ev2 :: evs) = Ok (tt, s1, ev1 :: ev2 :: evs) /\
    app s1 = with_block 15 header (app s) /\
    (USB_DeviceState s1 = Configured ->
     exists s2 eo2 ei2, connected eo2 ei2 s2 /\ STALLRQ eo2 = true /\ STALLRQ ei2 = true /\
       app s2 = with_block (15 + Z.to_nat (SCSICommandLength block)) block (app s1) /\
       MS_Device_USBTask handler descriptors signature s1 (ev1 :: ev2 :: evs) =
         (ok ← handler; _ ← return_result descriptors signature ok; answer_reset) s2 evs).
Proof.
  intros Hc Hconf Hr Hlh Hlb H8 Hb Hreset Hm Hw Hev Hev1 Hev2.
  assert (take 15 (header ++ block) = header /\ drop 15 (header ++ block) = block) as [Ht Hd].
  { rewrite <- Hlh. split; [apply take_app_length|apply drop_app_length]. }
  destruct (refused_command handler descriptors signature s eo ei (header ++ block) rest ev (ev1 :: ev2 :: evs))
    as (s1 & eo1 & ei1 & D & H1 & H2 & H3 & H4 & H5 & H6 & _ & _); try done.
  { rewrite length_app. lia. }
  { rewrite (malformed_ext _ (with_block 15 header (app s))); [done|done|]. simpl. by rewrite Ht, (take_ge header) by lia. }
  assert (with_block 15 (header ++ block) (app s) = with_block 15 header (app s)) as Hwb.
  { unfold with_block. by rewrite Ht, (take_ge header) by lia. }
  rewrite Hwb in H3. exists s1. split; [done|]. split; [done|]. intros Hconf1. rewrite Hd in H6.
  assert (CommandBlock (app s1) = header ++ drop 15 (CommandBlock (app s))) as Hcb by (rewrite H3; simpl; by rewrite take_ge by lia).
  destruct (command_called handler descriptors signature s1 eo1 ei1 block (rest ++ D) ev1 ev2 evs)
    as (s2 & eo2 & D2 & K1 & K2 & K3 & K4 & _ & _ & K7); try done.
  { rewrite Hcb, length_app, length_drop. lia. }
  { rewrite (malformed_ext _ (with_block 15 block (app s))); [done|by rewrite H3|]. simpl.
    by rewrite !(take_app_le (take 15 block)) by (rewrite length_take; lia). }
  exists s2, eo2. eexists. split; [exact K3|]. split; [congruence|]. split.
  { destruct (act_config (in_number s1) ev1 ei1) as (_ & _ & _ & S1 & _); [apply H2|].
    destruct (act_config (in_number s1) ev2 (act (in_number s1) ev1 ei1)) as (_ & _ & _ & S2 & _); [apply H2|]. congruence. }
  split; [exact K1|exact K7].
Qed.
Lemma w_connected r : connected (w_out r) w_in (w_disk r).
Proof. repeat split; discriminate. Qed.
(** A block for a unit that is not there, with another block behind its header. *)
Definition w_rest : list Z := w_header 0 1 ++ [99] ++ replicate 15 0.
Lemma ms_executes_refused_rest_witness :
  exists s1 s2, w_task (w_disk [w_header 1 6 ++ w_rest]) [Idle; Idle; Idle] = Ok (tt, s1, [Idle; Idle]) /\
    (exists eo2 ei2, connected eo2 ei2 s2 /\ STALLRQ eo2 = true /\ STALLRQ ei2 = true) /\
    take 16 (CommandBlock (app s2)) = w_header 0 1 ++ [99] /\
    w_task s1 [Idle; Idle] = (ok ← w_handler; _ ← @return_result _ some_chip (fun _ _ => (0, [])) (fun _ => 0) ok; answer_reset) s2 [].
Proof.
  destruct (@ms_executes_refused_rest _ some_chip w_handler (fun _ _ => (0, [])) (fun _ => 0) (w_disk [w_header 1 6 ++ w_rest])
    (w_out [w_header 1 6 ++ w_rest]) w_in (w_header 1 6) w_rest [] Idle Idle Idle []) as (s1 & H1 & H0 & H2).
  - apply w_connected.
  - reflexivity.
  - reflexivity.
  - reflexivity.
  - reflexivity.
  - repeat constructor; unfold is_u8; lia.
  - reflexivity.
  - reflexivity.
  - reflexivity.
  - reflexivity.
  - discriminate.
  - discriminate.
  - discriminate.
  - destruct H2 as (s2 & eo2 & ei2 & C1 & C2 & C3 & C4 & C5).
    { vm_compute in H1. injection H1 as <-. reflexivity. }
    exists s1, s2. split; [exact H1|]. split; [exists eo2, ei2; split; [exact C1|split; [exact C2|exact C3]]|]. split; [rewrite C4, H0; reflexivity|exact C5].
Defined.

(** A way to execute what the host has not sent: after a command, an empty packet on the OUT endpoint
    makes the driver read until its timeout, which it does not tell from success, so that the old
    command block is executed once more. *)
Example executes_twice :
  exists s1 evs1 s2 evs2, w_task (w_disk [w_command]) [Idle; Idle; Idle] = Ok (tt, s1, evs1) /\
     w_task (@tick _ some_chip (Out 2 []) (@tick _ some_chip (In 1) s1)) (w_frames 310) = Ok (tt, s2, evs2) /\
     length (user (app s1)) = 1%nat /\ user (app s2) = user (app s1) ++ user (app s1).
Proof. do 4 eexists. split; [vm_compute; reflexivity|]. split; [vm_compute; reflexivity|]. split; reflexivity. Qed.



Lemma ms_refusal_and_recovery_witness :
  exists s' eo' ei', w_task (w_disk [w_header 1 6 ++ [5]]) [Idle] = Ok (tt, s', []) /\ connected eo' ei' s' /\
    STALLRQ eo' = true /\ STALLRQ ei' = true.
Proof.
  destruct (@ms_refusal_and_recovery _ some_chip w_handler (fun _ _ => (0, [])) (fun _ => 0) (w_disk [w_header 1 6 ++ [5]])
    (w_out [w_header 1 6 ++ [5]]) w_in) as [Hr _].
  - apply w_connected.
  - reflexivity.
  - destruct (Hr (w_header 1 6 ++ [5]) [] Idle []) as (s' & eo' & ei' & D & H1 & H2 & _ & H3 & H4 & _).
    + reflexivity.
    + simpl; lia.
    + reflexivity.
    + reflexivity.
    + reflexivity.
    + discriminate.
    + exists s', eo', ei'. split; [exact H1|]. split; [exact H2|]. split; [exact H3|exact H4].
Defined.
End MassStorage.
