(* ===== verification/UsbTyped.v ===== *)
(** * The type of the device's state

    A state of the device is well formed: its registers have their widths, there are seven
    endpoints, and the application's state satisfies an invariant of its own. All code of the device
    keeps it so whatever happens on the bus, if the application's handlers do. *)

From S2P Require Import Prelude.
From S2P Require Import Usb.
From S2P Require Import UsbStream.
From S2P Require Import UsbDevice.
From Stdlib Require Import Lia ZArith.
Import Usb UsbStream UsbDevice.

#[local] Open Scope Z_scope.

Module UsbTyped.

Section Typed.
Context {App : Type} `{UsbChip}.
#[local] Abbreviation M := (M (App:=App)).
#[local] Abbreviation Op := (Op (App:=App)).
#[local] Abbreviation state := (usb App).

(** The invariant of the application. *)
Variable P : App -> Prop.

Definition typed (s : state) : Prop :=
  length (eps s) = 7%nat /\ 0 <= UENUM s < 8 /\ is_u8 (USB_Device_ConfigurationNumber s) /\ is_u8 (UDADDR s) /\ P (app s).
Definition keeps {A} (m : M A) : Prop :=
  forall s evs, typed s -> match m s evs with Ok (_, s', _) => typed s' | _ => True end.
Definition op_keeps {A} (o : Op A) : Prop := forall s, typed s -> match o s with Ok (_, s') => typed s' | _ => True end.
Definition run_keeps (f : state -> state) : Prop := forall s, typed s -> typed (f s).
Definition turn_keeps {L A} (body : L -> state -> res ((A + L) * state)) : Prop :=
  forall l s, typed s -> match body l s with Ok (_, s') => typed s' | _ => True end.

(** ** Composition *)

Lemma keeps_ret {A} (a : A) : keeps (mret a).
Proof using Type. by intros s evs Hs. Qed.
Lemma keeps_bind {A B} (m : M A) (f : A -> M B) : keeps m -> (forall a, keeps (f a)) -> keeps (m ≫= f).
Proof using Type.
  intros Hm Hf s evs Hs. specialize (Hm s evs Hs). unfold mbind, M_bind. destruct (m s evs) as [[[a s'] evs']| |]; try done. by apply Hf.
Qed.
Lemma keeps_get {A} (f : state -> A) : keeps (get f).
Proof using Type. by intros s evs Hs. Qed.
Lemma keeps_run f : run_keeps f -> keeps (run f).
Proof using Type. intros Hf s evs Hs. by apply Hf. Qed.
Lemma keeps_op {A} (o : Op A) : op_keeps o -> keeps (op o).
Proof using Type. intros Ho s evs Hs. specialize (Ho s Hs). unfold op. by destruct (o s) as [[a s']| |]. Qed.
Lemma op_keeps_ret {A} (a : A) : op_keeps (mret a).
Proof using Type. by intros s Hs. Qed.
Lemma op_keeps_bind {A B} (m : Op A) (f : A -> Op B) : op_keeps m -> (forall a, op_keeps (f a)) -> op_keeps (m ≫= f).
Proof using Type.
  intros Hm Hf s Hs. specialize (Hm s Hs). unfold mbind, Op_bind. destruct (m s) as [[a s']| |]; try done. by apply Hf.
Qed.
Lemma op_keeps_modify f : run_keeps f -> op_keeps (modify f).
Proof using Type. intros Hf s Hs. by apply Hf. Qed.
Lemma op_keeps_gets {A} (f : state -> A) : op_keeps (gets f).
Proof using Type. by intros s Hs. Qed.

Lemma app_keeps f : (forall a, P a -> P (f a)) -> run_keeps (fun s => s <| app ::= f |>).
Proof using Type. intros Hf s (H1 & H2 & H3 & H4 & H5). exact (conj H1 (conj H2 (conj H3 (conj H4 (Hf _ H5))))). Qed.

(** ** Endpoints *)

Lemma on_ep_keeps n f : run_keeps (on_ep n f).
Proof using Type. intros s (Hl & Hs). split; [|exact Hs]. unfold on_ep. simpl. by rewrite length_alter. Qed.
Lemma on_cur_keeps f : run_keeps (on_cur f).
Proof using Type. intros s Hs. by apply on_ep_keeps. Qed.
Lemma select_keeps n : run_keeps (Endpoint_SelectEndpoint n).
Proof using Type.
  intros s (Hl & _ & Hs). split; [done|]. split; [|done]. unfold Endpoint_SelectEndpoint. simpl. change 7 with (Z.ones 3) at 1 2.
  rewrite Z.land_ones by lia. apply Z.mod_pos_bound. lia.
Qed.

Lemma read_8_keeps : op_keeps Endpoint_Read_8.
Proof using Type.
  intros s Hs. unfold Endpoint_Read_8. repeat case_match; simplify_eq; try done; by apply on_cur_keeps.
Qed.
Lemma write_8_keeps b : op_keeps (Endpoint_Write_8 b).
Proof using Type. intros s Hs. unfold Endpoint_Write_8. destruct (_ && _); [|done]. by apply on_cur_keeps. Qed.

Lemma configure_loop_keeps n : forall k Number c0 c1 s, typed s -> typed (snd (configure_loop n k Number c0 c1 s)).
Proof using Type.
  induction n as [|n IH]; intros k Number c0 c1 s Hs; simpl; [by apply select_keeps|].
  assert (typed (Endpoint_SelectEndpoint k s)) as H1 by (by apply select_keeps).
  destruct (negb _); [by apply IH|]. destruct (negb _); [|apply IH]; repeat apply on_cur_keeps; done.
Qed.
Lemma configure_keeps addr type size nbanks : op_keeps (Endpoint_ConfigureEndpoint addr type size nbanks).
Proof using Type.
  intros s Hs. unfold Endpoint_ConfigureEndpoint. cbv zeta. destruct (_ <=? _); [done|]. destruct (Endpoint_BytesToEPSizeMask size) as [mask| |]; simpl; try done.
  unfold Endpoint_ConfigureEndpoint_Prv. match goal with |- context [configure_loop ?a ?b ?c ?d ?e s] =>
    pose proof (configure_loop_keeps a b c d e s Hs) as Hc; destruct (configure_loop a b c d e s) end. exact Hc.
Qed.

(** ** Events *)

Lemma event_keeps c : run_keeps (event c).
Proof using Type. by intros s Hs. Qed.
Lemma hardware_keeps ev : run_keeps (hardware ev).
Proof using Type.
  intros s Hs. destruct ev; try exact Hs; try by apply on_ep_keeps.
  destruct Hs as (Hl & Hu & Hc & _ & Hp). split; [|done]. simpl. by rewrite length_imap.
Qed.
Lemma vect_keeps : run_keeps USB_GEN_vect.
Proof using Type.
  intros s Hs. unfold USB_GEN_vect.
  assert (run_keeps vect_sof) as H1 by (intros s1 Hs1; unfold vect_sof; by case_match).
  assert (run_keeps vect_vbus) as H2 by (intros s1 Hs1; unfold vect_vbus, USB_PLL_On, USB_PLL_Off; by repeat case_match).
  assert (run_keeps vect_suspend) as H3 by (intros s1 Hs1; unfold vect_suspend, USB_PLL_Off; by repeat case_match).
  assert (run_keeps vect_wakeup) as H4 by (intros s1 Hs1; unfold vect_wakeup, USB_PLL_On; by repeat case_match).
  assert (run_keeps vect_reset) as H5.
  { intros s1 Hs1. unfold vect_reset. case_match; [|done]. cbv zeta.
    match goal with |- context [Endpoint_ConfigureEndpoint _ _ _ _ ?s'] =>
      assert (typed s') as Hs2 by (destruct Hs1 as (A1 & A2 & _ & A4); assert (is_u8 0) as A3 by (unfold is_u8; lia); exact (conj A1 (conj A2 (conj A3 A4))));
      pose proof (configure_keeps ENDPOINT_CONTROLEP EP_TYPE_CONTROL (USB_Device_ControlEndpointSize s') 1 s' Hs2) as Hc end.
    by case_match; [case_match|..]. }
  by apply H5, H4, H3, H2, H1.
Qed.
Lemma tick_keeps ev : run_keeps (tick ev).
Proof using Type. intros s Hs. by apply vect_keeps, hardware_keeps. Qed.

Lemma keeps_spin {L A} (body : L -> state -> res ((A + L) * state)) : turn_keeps body -> forall l, keeps (spin body l).
Proof using Type.
  intros Hb l s evs. revert l s. induction evs as [|ev evs IH]; intros l s Hs; rewrite spin_eq; specialize (Hb l s Hs);
    destruct (body l s) as [[[a|l'] s']| |]; try done.
  apply IH. by apply tick_keeps.
Qed.
Lemma keeps_test {L A} (f : L -> state -> A + L) l : keeps (spin (fun l s => Ok (f l s, s)) l).
Proof using Type. apply keeps_spin. by intros l1 s Hs. Qed.

End Typed.

Create HintDb typed discriminated.
Ltac keep_typed :=
  repeat first
    [ done
    | solve [eauto with typed]
    | match goal with |- keeps _ (op _) => apply keeps_op end
    | apply keeps_bind; [|intros ?]
    | apply op_keeps_bind; [|intros ?]
    | progress cbv beta zeta
    | case_match ].
#[export] Hint Resolve keeps_ret keeps_get keeps_run keeps_op op_keeps_ret op_keeps_modify op_keeps_gets
  on_ep_keeps on_cur_keeps select_keeps read_8_keeps write_8_keeps configure_keeps keeps_test : typed.
#[export] Hint Extern 1 (run_keeps _ _) => by intros ? : typed.

Section Code.
Context {App : Type} `{UsbChip}.
Variable P : App -> Prop.
#[local] Abbreviation M := (M (App:=App)).
#[local] Abbreviation Op := (Op (App:=App)).
#[local] Abbreviation state := (usb App).
#[local] Abbreviation typed := (typed P).
#[local] Abbreviation keeps := (keeps P).
#[local] Abbreviation op_keeps := (op_keeps P).
#[local] Abbreviation run_keeps := (run_keeps P).
#[local] Abbreviation turn_keeps := (turn_keeps P).

(** ** Code that waits *)

Lemma clear_status_keeps : keeps Endpoint_ClearStatusStage.
Proof using Type. unfold Endpoint_ClearStatusStage, wait_attached. keep_typed. Qed.
Lemma wait_ready_keeps : keeps Endpoint_WaitUntilReady.
Proof using Type.
  intros s [|ev evs] Hs; simpl; [done|]. apply keeps_spin; [|by apply tick_keeps].
  intros [] s1 Hs1. unfold ready_turn. by repeat case_match; simplify_eq.
Qed.

(** ** Control streams *)

Lemma fill_bank_keeps t mem n : forall ptr k s, typed s ->
  match fill_bank t mem n ptr k s with Ok (_, s') => typed s' | _ => True end.
Proof using Type.
  induction n as [|n IH]; intros ptr k s Hs; simpl; [done|]. destruct (_ <? _); [|done].
  destruct (aget mem ptr) as [b|]; simpl; [|done]. pose proof (write_8_keeps P b s Hs) as Hw.
  destruct (Endpoint_Write_8 b s) as [[[] s']| |]; simpl; try done. by apply IH.
Qed.
Lemma control_w_turn_keeps t mem : turn_keeps (control_w_turn t mem).
Proof using Type.
  intros [[ptr n] full] s Hs. unfold control_w_turn.
  do 2 (case_decide; [done|]). destruct (Endpoint_IsSETUPReceived s); [done|].
  destruct (Endpoint_IsOUTReceived s); [done|]. destruct (Endpoint_IsINReady s); [|done].
  pose proof (fill_bank_keeps t mem n ptr (Endpoint_BytesInEndpoint s) s Hs) as Hf.
  destruct (fill_bank _ _ _ _ _ _) as [[[[n' ptr'] k] s']| |]; try done. by apply on_cur_keeps.
Qed.
Lemma control_w_keeps t mem Length : keeps (Control_W t mem Length).
Proof using Type. unfold Control_W, wait_flag. keep_typed; apply keeps_spin, control_w_turn_keeps. Qed.
Lemma empty_bank_keeps t n : forall mem ptr s, typed s ->
  match empty_bank t n mem ptr s with Ok (_, s') => typed s' | _ => True end.
Proof using Type.
  induction n as [|n IH]; intros mem ptr s Hs; simpl; [done|]. destruct (negb _); [|done].
  pose proof (read_8_keeps P s Hs) as Hr. destruct (Endpoint_Read_8 s) as [[b s']| |]; simpl; try done.
  destruct (aset mem ptr b) as [mem'|]; simpl; [|done]. by apply IH.
Qed.
Lemma control_r_turn_keeps t : turn_keeps (control_r_turn t).
Proof using Type.
  intros [[ptr n] mem'] s Hs. unfold control_r_turn.
  do 2 (case_decide; [done|]). destruct (Endpoint_IsSETUPReceived s); [done|]. destruct (Endpoint_IsOUTReceived s); [|done].
  pose proof (empty_bank_keeps t n mem' ptr s Hs) as Hf.
  destruct (empty_bank _ _ _ _ _) as [[[[n' m'] ptr'] s']| |]; try done. by apply on_cur_keeps.
Qed.
Lemma control_r_keeps t mem Length : keeps (Control_R t mem Length).
Proof using Type. unfold Control_R, wait_flag. keep_typed; apply keeps_spin, control_r_turn_keeps. Qed.
#[local] Hint Resolve clear_status_keeps wait_ready_keeps control_w_keeps control_r_keeps : typed.

(** ** Data streams *)

Section Streams.
Variable USB_USBTask : M unit.
Hypothesis task_keeps : keeps USB_USBTask.

Record transfer_keeps (x : transfer) : Prop := {
  byte_keeps : forall mem ptr, op_keeps (transfer_byte x mem ptr);
  clear_keeps : run_keeps (clear_endpoint x) }.
Lemma write_bytes_keeps : transfer_keeps write_bytes.
Proof using Type.
  split; [|apply on_cur_keeps]. intros mem ptr s Hs. simpl. destruct (aget mem ptr) as [b|]; simpl; [|done].
  pose proof (write_8_keeps P b s Hs) as Hw. by destruct (Endpoint_Write_8 b s) as [[[] s']| |].
Qed.
Lemma read_bytes_keeps : transfer_keeps read_bytes.
Proof using Type.
  split; [|apply on_cur_keeps]. intros mem ptr s Hs. simpl. pose proof (read_8_keeps P s Hs) as Hr.
  destruct (Endpoint_Read_8 s) as [[b s']| |]; simpl; try done. by destruct (aset mem ptr b).
Qed.
Lemma discard_bytes_keeps : transfer_keeps discard_bytes.
Proof using Type. split; [|apply on_cur_keeps]. intros mem ptr. simpl. unfold Endpoint_Discard_8. keep_typed. Qed.
Lemma null_bytes_keeps : transfer_keeps null_bytes.
Proof using Type. split; [|apply on_cur_keeps]. intros mem ptr. simpl. keep_typed. Qed.

Lemma rw_loop_keeps x t : transfer_keeps x -> forall fuel n ptr mem p k s evs, typed s ->
  match rw_loop USB_USBTask fuel x t n ptr mem p k s evs with Ok (_, s', _) => typed s' | _ => True end.
Proof using task_keeps.
  intros [Hx Hc]. induction fuel as [|fuel IH]; intros [|n] ptr mem p k s evs Hs; simpl; try done.
  destruct (negb _).
  - assert (keeps (if runs_task x then USB_USBTask else mret tt)) as Ht by (case_match; [done|apply keeps_ret]).
    specialize (Ht _ evs (Hc s Hs)). destruct ((if runs_task x then USB_USBTask else mret tt) (clear_endpoint x s) evs) as [[[[] s1] evs1]| |];
      simpl; try done.
    destruct p; [done|]. pose proof (wait_ready_keeps s1 evs1 Ht) as Hw.
    destruct (Endpoint_WaitUntilReady s1 evs1) as [[[err s2] evs2]| |]; simpl; try done. case_decide; [by apply IH|done].
  - pose proof (Hx mem ptr s Hs) as Hb. destruct (transfer_byte x mem ptr s) as [[mem' s1]| |]; simpl; try done. by apply IH.
Qed.
Lemma stream_keeps x t mem Length p : transfer_keeps x -> keeps (Stream_RW USB_USBTask x t mem Length p).
Proof using task_keeps.
  intros Hx s evs Hs. unfold Stream_RW. pose proof (wait_ready_keeps s evs Hs) as Hw.
  destruct (Endpoint_WaitUntilReady s evs) as [[[err s1] evs1]| |]; cbn [mbind res_bind]; try done. case_decide; [|done].
  match goal with |- context [rw_loop _ ?f ?x ?t ?n ?ptr ?mem ?p ?k s1 evs1] =>
    pose proof (rw_loop_keeps x t Hx f n ptr mem p k s1 evs1 Hw) as Hl; destruct (rw_loop USB_USBTask f x t n ptr mem p k s1 evs1) as [[[[[? ?] ?] ?] ?]| |] end; done.
Qed.
End Streams.

(** ** Requests and the task *)

Section Device.
Variable EVENT_USB_Device_ControlRequest : M unit.
Variable EVENT_USB_Device_ConfigurationChanged : M unit.
Variable CALLBACK_USB_GetDescriptor : Z -> Z -> Z * list Z.
Variable boot_signature_byte_get : Z -> Z.
Hypothesis control_keeps : keeps EVENT_USB_Device_ControlRequest.
Hypothesis changed_keeps : keeps EVENT_USB_Device_ConfigurationChanged.

Lemma answer_status_keeps w : keeps (answer_status w).
Proof using Type. unfold answer_status, Endpoint_Write_16_LE. keep_typed. Qed.
Lemma acknowledge_keeps : keeps acknowledge.
Proof using Type. unfold acknowledge. keep_typed. Qed.
Lemma halt_keeps set n : run_keeps (halt_endpoint set n).
Proof using Type.
  intros s Hs. unfold halt_endpoint. cbv zeta. pose proof (select_keeps P n s Hs) as H1.
  destruct (Endpoint_IsEnabled _); [|done]. destruct set; repeat (apply on_cur_keeps || apply on_ep_keeps); done.
Qed.
Lemma address_keeps a : run_keeps (USB_Device_SetDeviceAddress a).
Proof using Type.
  intros s (H1 & H2 & H3 & H4 & H5). split; [done|]. split; [done|]. split; [done|]. split; [|done].
  apply (lor_bound _ _ 8); [lia|by apply land_bound|]. rewrite Z.land_comm. by apply land_bound.
Qed.
Lemma enable_keeps : run_keeps USB_Device_EnableDeviceAddress.
Proof using Type.
  intros s (H1 & H2 & H3 & H4 & H5). split; [done|]. split; [done|]. split; [done|]. split; [|done]. by apply sbi_u8.
Qed.
Lemma number_keeps w : run_keeps (fun s => s <| USB_Device_ConfigurationNumber := u8 w |>).
Proof using Type. intros s (H1 & H2 & H3 & H4 & H5). split; [done|]. split; [done|]. split; [|done]. apply u8_range. Qed.
#[local] Hint Resolve answer_status_keeps acknowledge_keeps halt_keeps address_keeps enable_keeps number_keeps
  control_keeps changed_keeps : typed.

Lemma status_requests_keep : keeps USB_Device_GetStatus /\ keeps USB_Device_ClearSetFeature.
Proof using Type. unfold USB_Device_GetStatus, USB_Device_ClearSetFeature. split; keep_typed. Qed.
Lemma set_address_keeps : keeps USB_Device_SetAddress.
Proof using Type. unfold USB_Device_SetAddress. keep_typed. Qed.
Lemma configuration_keeps : keeps USB_Device_GetConfiguration /\
  keeps (USB_Device_SetConfiguration EVENT_USB_Device_ConfigurationChanged CALLBACK_USB_GetDescriptor).
Proof using changed_keeps.
  unfold USB_Device_GetConfiguration, USB_Device_SetConfiguration. split; keep_typed.
  intros s Hs. by destruct (aget _ _).
Qed.
Lemma descriptor_keeps : keeps (USB_Device_GetDescriptor CALLBACK_USB_GetDescriptor boot_signature_byte_get).
Proof using Type. unfold USB_Device_GetDescriptor, USB_Device_GetInternalSerialDescriptor,
  Endpoint_Write_Control_Stream_LE, Endpoint_Write_Control_PStream_LE. keep_typed. Qed.

Lemma dispatch_keeps :
  keeps (dispatch EVENT_USB_Device_ConfigurationChanged CALLBACK_USB_GetDescriptor boot_signature_byte_get).
Proof using changed_keeps.
  pose proof status_requests_keep. pose proof configuration_keeps. pose proof set_address_keeps. pose proof descriptor_keeps.
  unfold dispatch. destruct_and!. keep_typed.
Qed.
Lemma process_keeps : keeps (USB_Device_ProcessControlRequest EVENT_USB_Device_ControlRequest
  EVENT_USB_Device_ConfigurationChanged CALLBACK_USB_GetDescriptor boot_signature_byte_get).
Proof using control_keeps changed_keeps.
  pose proof dispatch_keeps. unfold USB_Device_ProcessControlRequest, read_header, Endpoint_Read_16_LE. keep_typed.
Qed.
(** The task keeps the type, whatever happens on the bus. *)
Lemma device_task_keeps : keeps (USB_DeviceTask EVENT_USB_Device_ControlRequest
  EVENT_USB_Device_ConfigurationChanged CALLBACK_USB_GetDescriptor boot_signature_byte_get).
Proof using control_keeps changed_keeps. pose proof process_keeps. unfold USB_DeviceTask. keep_typed. Qed.
End Device.

Lemma table_keeps table : op_keeps (Endpoint_ConfigureEndpointTable table).
Proof using Type. induction table as [|t table IH]; simpl; keep_typed. Qed.
End Code.
#[export] Hint Resolve clear_status_keeps wait_ready_keeps control_w_keeps control_r_keeps write_bytes_keeps read_bytes_keeps
  discard_bytes_keeps null_bytes_keeps stream_keeps process_keeps device_task_keeps table_keeps : typed.
End UsbTyped.
