(* ===== verification/HidDevice.v ===== *)
(** * HID class driver (HIDClassDevice.c)

    Requests for reports, the idle rate and the protocol, and the task that sends input reports.
    The application's state holds the class information and the user's own state; its callbacks
    create and process reports. [ReportData] is a list as long as the C array; a callback returns
    the array as it leaves it. Nothing bounds the sizes that callbacks and hosts give, so an access
    beyond an array is a [Fault]. [HID_Device_MillisecondElapsed] is called by the application at
    every start of frame. *)

From S2P Require Import Prelude.
From S2P Require Import Usb.
From S2P Require Import UsbConfigure.
From S2P Require Import UsbStream.
From S2P Require Import UsbTransfer.
From S2P Require Import UsbPacket.
From S2P Require Import UsbControlRead.
From S2P Require Import UsbDevice.
From S2P Require Import UsbAnswer.
From S2P Require Import UsbTyped.
From S2P Require Import UsbDescriptors.
From Stdlib Require Import Lia ZArith.
Import Usb UsbConfigure UsbStream UsbTransfer UsbPacket UsbControlRead UsbDevice UsbAnswer UsbTyped.

#[local] Open Scope Z_scope.

Module HidDevice.

(** ** Data *)

(** The configuration and the state of [USB_ClassInfo_HID_Device_t], and the user's state; the
    buffer of the previous report is [None] for the null pointer. *)
Record hid {User : Type} := mkHid {
  InterfaceNumber : Z; ReportINEndpoint : USB_Endpoint_Table_t;
  PrevReportINBuffer : option (list Z); PrevReportINBufferSize : Z;
  UsingReportProtocol : bool; PrevFrameNum : Z; IdleCount : Z; IdleMSRemaining : Z;
  user : User }.
Arguments hid User : clear implicits.
#[export] Instance eta_hid {User} : Eta (hid User) :=
  {| eta r := mkHid User (InterfaceNumber r) (ReportINEndpoint r) (PrevReportINBuffer r) (PrevReportINBufferSize r)
       (UsingReportProtocol r) (PrevFrameNum r) (IdleCount r) (IdleMSRemaining r) (user r); eta_id := ltac:(by intros []) |}.

Definition HID_REQ_GetReport := 1.
Definition HID_REQ_GetIdle := 2.
Definition HID_REQ_GetProtocol := 3.
Definition HID_REQ_SetReport := 9.
Definition HID_REQ_SetIdle := 10.
Definition HID_REQ_SetProtocol := 11.
Definition HID_REPORT_ITEM_In := 0.

Section Hid.
Context {User : Type} `{UsbChip}.
#[local] Abbreviation M := (M (App:=hid User)).
#[local] Abbreviation Op := (Op (App:=hid User)).
#[local] Abbreviation state := (usb (hid User)).

Definition on_hid (f : hid User -> hid User) (s : state) : state := s <| app ::= f |>.
Definition select (s : state) : state := Endpoint_SelectEndpoint (Address (ReportINEndpoint (app s))) s.

(** The application's callbacks: from the report's identifier, type and buffer, whether the
    report must be sent, the identifier, the buffer and the size; and the processing of a report. *)
Variable CALLBACK_HID_Device_CreateHIDReport : Z -> Z -> list Z -> Op (bool * Z * list Z * Z).
Variable CALLBACK_HID_Device_ProcessHIDReport : Z -> Z -> list Z -> Z -> Op unit.

(** ** Control requests *)

Definition report_identifier (r : USB_Request_Header_t) : Z := Z.land (wValue r) 255.
Definition report_type (r : USB_Request_Header_t) : Z := u8 (Z.shiftr (wValue r) 8 - 1).
Definition GetReport : M unit :=
  r ← get USB_ControlRequest;
  n ← get (fun s => PrevReportINBufferSize (app s));
  '(_, _, ReportData, ReportSize) ←
    op (CALLBACK_HID_Device_CreateHIDReport (report_identifier r) (report_type r) (replicate (Z.to_nat n) 0));
  _ ← run (on_hid (fun a => match PrevReportINBuffer a with
                            | Some _ => a <| PrevReportINBuffer := Some ReportData |>
                            | None => a
                            end));
  _ ← run (Endpoint_SelectEndpoint ENDPOINT_CONTROLEP);
  _ ← run Endpoint_ClearSETUP;
  _ ← Endpoint_Write_Control_Stream_LE ReportData ReportSize;
  run Endpoint_ClearOUT.
(** The array has the length of the request. An identifier is its first byte. *)
Definition SetReport : M unit :=
  r ← get USB_ControlRequest;
  _ ← run Endpoint_ClearSETUP;
  '(_, ReportData) ← Endpoint_Read_Control_Stream_LE (replicate (Z.to_nat (wLength r)) 0) (wLength r);
  _ ← run Endpoint_ClearIN;
  let skip := if report_identifier r =? 0 then 0 else 1 in
  op (CALLBACK_HID_Device_ProcessHIDReport (report_identifier r) (report_type r) (drop (Z.to_nat skip) ReportData)
        (u16 (wLength r - skip))).
(** The answer of one byte. *)
Definition send_byte (f : hid User -> Z) : M unit :=
  _ ← run Endpoint_ClearSETUP;
  _ ← spin (fun _ s => Ok (if Endpoint_IsINReady s then inl tt else inr tt, s)) tt;
  b ← get (fun s => f (app s));
  _ ← op (Endpoint_Write_8 b);
  _ ← run Endpoint_ClearIN;
  Endpoint_ClearStatusStage.
Definition GetProtocol : M unit := send_byte (fun a => if UsingReportProtocol a then 1 else 0).
Definition GetIdle : M unit := send_byte (fun a => Z.shiftr (IdleCount a) 2).
(** A value that is taken over after the status stage. *)
Definition take_value (f : Z -> hid User -> hid User) : M unit :=
  _ ← run Endpoint_ClearSETUP;
  _ ← Endpoint_ClearStatusStage;
  v ← get (fun s => wValue (USB_ControlRequest s));
  run (on_hid (f v)).
Definition SetProtocol : M unit :=
  take_value (fun v a => a <| UsingReportProtocol := negb (Z.land v 255 =? 0) |>).
Definition SetIdle : M unit := take_value (fun v a => a <| IdleCount := Z.shiftr (Z.land v 65280) 6 |>).

Definition HID_Device_ProcessControlRequest : M unit :=
  setup ← get Endpoint_IsSETUPReceived;
  r ← get USB_ControlRequest;
  n ← get (fun s => InterfaceNumber (app s));
  if negb setup then mret tt
  else if negb (wIndex r =? n) then mret tt
  else
    let to_host := bmRequestType r =? class_request REQDIR_DEVICETOHOST in
    let to_device := bmRequestType r =? class_request REQDIR_HOSTTODEVICE in
    if bRequest r =? HID_REQ_GetReport then if to_host then GetReport else mret tt
    else if bRequest r =? HID_REQ_SetReport then if to_device then SetReport else mret tt
    else if bRequest r =? HID_REQ_GetProtocol then if to_host then GetProtocol else mret tt
    else if bRequest r =? HID_REQ_SetProtocol then if to_device then SetProtocol else mret tt
    else if bRequest r =? HID_REQ_SetIdle then if to_device then SetIdle else mret tt
    else if bRequest r =? HID_REQ_GetIdle then if to_host then GetIdle else mret tt
    else mret tt.

Definition EP_TYPE_INTERRUPT := 3.
Definition HID_Device_ConfigureEndpoints : Op bool :=
  _ ← modify (on_hid (fun a => a <| UsingReportProtocol := true |> <| PrevFrameNum := 0 |> <| IdleMSRemaining := 0 |>
                                 <| IdleCount := 500 |>));
  _ ← modify (on_hid (fun a => a <| ReportINEndpoint ::= fun t => t <| Type_ := EP_TYPE_INTERRUPT |> |>));
  i ← gets (fun s => ReportINEndpoint (app s));
  Endpoint_ConfigureEndpointTable [i].

(** ** Input reports *)

Variable CALLBACK_USB_GetDescriptor : Z -> Z -> Z * list Z.
Variable boot_signature_byte_get : Z -> Z.

Definition EVENT_USB_Device_ConfigurationChanged : M unit := _ ← op HID_Device_ConfigureEndpoints; mret tt.
Definition ProcessControlRequest : M unit :=
  USB_Device_ProcessControlRequest HID_Device_ProcessControlRequest EVENT_USB_Device_ConfigurationChanged
    CALLBACK_USB_GetDescriptor boot_signature_byte_get.
Definition USB_USBTask : M unit :=
  USB_DeviceTask HID_Device_ProcessControlRequest EVENT_USB_Device_ConfigurationChanged
    CALLBACK_USB_GetDescriptor boot_signature_byte_get.

(** Whether the first [n] bytes differ. *)
Definition memcmp (a b : list Z) (n : Z) : res bool :=
  if (Z.of_nat (length a) <? n) || (Z.of_nat (length b) <? n) then Fault
  else Ok (bool_decide (take (Z.to_nat n) a <> take (Z.to_nat n) b)).

Definition compare_previous (ReportINData : list Z) (ReportINSize : Z) : M bool := fun s evs =>
  match PrevReportINBuffer (app s) with
  | None => Ok (false, s, evs)
  | Some b =>
      StatesChanged ← memcmp ReportINData b ReportINSize;
      Ok (StatesChanged, on_hid (fun a => a <| PrevReportINBuffer := Some ReportINData |>) s, evs)
  end.

Definition send_report (ReportID : Z) (ReportINData : list Z) (ReportINSize : Z) : M unit :=
  _ ← run (on_hid (fun a => a <| IdleMSRemaining := IdleCount a |>));
  _ ← run select;
  _ ← (if negb (ReportID =? 0) then op (Endpoint_Write_8 ReportID) else mret tt);
  _ ← Endpoint_Write_Stream_LE USB_USBTask ReportINData ReportINSize None;
  run Endpoint_ClearIN.

Definition HID_Device_USBTask : M unit :=
  configured ← get (fun s => bool_decide (USB_DeviceState s = Configured));
  same_frame ← get (fun s => PrevFrameNum (app s) =? UDFNUM s);
  if negb configured then mret tt
  else if same_frame : bool then mret tt
  else
    _ ← run select;
    rw ← get Endpoint_IsReadWriteAllowed;
    if rw : bool then
      n ← get (fun s => PrevReportINBufferSize (app s));
      '(ForceSend, ReportID, ReportINData, ReportINSize) ←
        op (CALLBACK_HID_Device_CreateHIDReport 0 HID_REPORT_ITEM_In (replicate (Z.to_nat n) 0));
      IdlePeriodElapsed ← get (fun s => negb (IdleCount (app s) =? 0) && (IdleMSRemaining (app s) =? 0));
      StatesChanged ← compare_previous ReportINData ReportINSize;
      _ ← (if negb (ReportINSize =? 0) && (ForceSend || StatesChanged || IdlePeriodElapsed)
           then send_report ReportID ReportINData ReportINSize else mret tt);
      run (fun s => on_hid (fun a => a <| PrevFrameNum := UDFNUM s |>) s)
    else mret tt.

Definition HID_Device_MillisecondElapsed (s : state) : state :=
  on_hid (fun a => if negb (IdleMSRemaining a =? 0) then a <| IdleMSRemaining := IdleMSRemaining a - 1 |> else a) s.
(** ** Input reports are sent *)

Definition in_number (s : state) : Z := endpoint_number (ReportINEndpoint (app s)).
(** The IN endpoint [n] is selected, its bank is empty and free. *)
Definition idle_in (n : Z) (e : endpoint) (s : state) : Prop :=
  at_ep n e s /\ Z.testbit (UECFG0X e) EPDIR = true /\ TXINI e = true /\ filling e = [] /\ fires EORSTI s = false.
(** Packets leave the state of the device alone. *)
Definition undisturbed (ev : bus_event) (s s' : state) : Prop :=
  packet_event ev = true -> quiet s -> quiet s' /\ USB_DeviceState s' = USB_DeviceState s.
(** A report on the wire. *)
Definition report_packet (ReportID : Z) (ReportINData : list Z) (size : nat) : list Z :=
  (if ReportID =? 0 then [] else [ReportID]) ++ take size ReportINData.

Lemma send_report_ok (s : state) n e ev evs ReportID ReportINData size :
  n = in_number s -> 0 < n -> idle_in n e s -> ev <> BusReset -> (size <= length ReportINData)%nat -> Z.of_nat size < 65536 ->
  (length (report_packet ReportID ReportINData size) <= bank_size e)%nat -> Forall is_u8 (report_packet ReportID ReportINData size) ->
  exists s' e', send_report ReportID ReportINData (Z.of_nat size) s (ev :: evs) = Ok (tt, s', evs) /\
    at_ep n e' s' /\ delivered [report_packet ReportID ReportINData size] e e' /\ fires EORSTI s' = false /\
    UDFNUM s' = frame_of (UDFNUM s) ev /\ undisturbed ev s s' /\ app s' = app s <| IdleMSRemaining := IdleCount (app s) |>.
Proof using Type.
  intros Hn Hpos (Ha & Hd & Ht & Hf & Hr) Hev Hsz H16 Hb Hu.
  set (s1 := select (on_hid (fun a => a <| IdleMSRemaining := IdleCount a |>) s)).
  assert (at_ep n e s1) as Ha1 by (split; [by rewrite Hn|apply Ha]).
  set (id := if ReportID =? 0 then [] else [ReportID]). unfold report_packet in *. fold id in Hb, Hu |- *. rewrite length_app in Hb. apply Forall_app in Hu as [Hu1 Hu2].
  set (e2 := e <| filling := id |>). set (s2 := on_cur (fun e => e <| filling := id |>) s1).
  assert (at_ep n e2 s2) as Ha2 by (by apply (at_on_cur n e s1 (fun e => e <| filling := id |>))).
  assert (forall evs, (if negb (ReportID =? 0) then op (Endpoint_Write_8 ReportID) else mret tt) s1 evs = Ok (tt, s2, evs)) as Hid.
  { intros evs'. subst id s2. destruct (ReportID =? 0).
    - by rewrite (on_cur_id n e s1 _ Ha1) by (destruct e; unfold set_field; simpl in *; by subst).
    - cbn [negb]. cbv iota. unfold op. apply Forall_cons_1 in Hu1 as [Hu1 _].
      rewrite (bank_write_ok n e s1 ReportID Ha1 Ht); [|rewrite Hf; pose proof (bank_size_8 e); simpl; lia|done].
      rewrite (on_cur_ext n e s1 _ (fun e => e <| filling := [ReportID] |>) Ha1); [done|].
      destruct e. unfold set_field. simpl in *. by subst. }
  pose proof (at_tick n e2 s2 ev Ha2 Hev Hr) as Ha3. set (e3 := act n ev e2) in *.
  destruct (act_config n ev e2 Hpos) as (Hc0 & Hc1 & _ & _ & Hc4 & Hc5). fold e3 in Hc0, Hc1, Hc4, Hc5.
  assert (TXINI e3 = true) as Ht3 by (by apply TXINI_act).
  pose proof (write_stream_ready USB_USBTask n e3 s2 (tick ev s2) (ev :: evs) evs ReportINData size None
    (wait_free n e2 s2 ev evs Ha2 Hpos Hd Ht Hev Hr) Ha3) as Hw.
  rewrite Hc0, Hc4 in Hw. specialize (Hw Hd Ht3 eq_refl Hsz H16).
  assert (bank_size e3 = bank_size e) as Hbk by (unfold bank_size; by rewrite Hc1).
  rewrite Hbk in Hw. specialize (Hw ltac:(simpl; rewrite length_take in Hb; lia) Hu2). change (filling e2) with id in Hw.
  destruct (tick_steady ev s2 Hev Hr) as [Hk _]. injection Hk as _ _ _ _ _ Happ Hf3.
  set (f := fun e : endpoint => if TXINI e then e <| armed ::= fun l => l ++ [filling e] |> <| filling := [] |> else e).
  pose proof (at_on_cur n e3 (tick ev s2) (fun e => e <| filling := id ++ take size ReportINData |>) Ha3) as Ha4.
  pose proof (at_on_cur n _ _ f Ha4) as Ha5.
  eexists _, _. split; [|split; [exact Ha5|]].
  - unfold send_report. rewrite !bind_run. fold s1. rewrite (bind_ok _ _ _ _ _ _ _ (Hid _)), (bind_ok _ _ _ _ _ _ _ Hw). done.
  - unfold f. change (TXINI (e3 <| filling := _ |>)) with (TXINI e3). rewrite Ht3.
    split.
    { destruct (act_config n ev e2 Hpos) as (_ & _ & _ & Hst & _). destruct (act_flags n ev e2 Hpos) as [Hen Har].
      split; [by split|]. split; [done|]. split; [unfold packets_in in *; simpl; rewrite app_assoc; f_equal; exact Hc5|].
      split; [exact Hen|]. split; [exact Hst|]. simpl. rewrite length_app. simpl. change (armed e2) with (armed e) in Har. unfold e3. lia. }
    split; [change (fires EORSTI (tick ev s2) = false); rewrite Hf3; exact Hr|].
    split; [exact (tick_UDFNUM ev s2)|]. split; [|exact Happ].
    intros Hpk Hq. destruct (tick_packet ev s2 Hpk Hq) as (Hcore & Hq' & _). split; [exact Hq'|]. injection Hcore. intros. done.
Qed.
(** Whether a report is due, and the application's state after it. *)
Definition changed (a : hid User) (ReportINData : list Z) (size : nat) : bool :=
  match PrevReportINBuffer a with Some b => bool_decide (take size ReportINData <> take size b) | None => false end.
Definition due (a : hid User) (force : bool) (ReportINData : list Z) (size : nat) : bool :=
  negb (size =? 0)%nat &&
  (force || changed a ReportINData size || (negb (IdleCount a =? 0) && (IdleMSRemaining a =? 0))).
Definition after_report (sent : bool) (ReportINData : list Z) (frame : Z) (g : User -> User) (a : hid User) : hid User :=
  a <| user ::= g |> <| PrevReportINBuffer ::= fun b => match b with Some _ => Some ReportINData | None => None end |>
    <| IdleMSRemaining := if sent then IdleCount a else IdleMSRemaining a |> <| PrevFrameNum := frame |>.

Lemma compare_previous_ok (s : state) ReportINData size evs :
  (size <= length ReportINData)%nat -> (forall b, PrevReportINBuffer (app s) = Some b -> length b = length ReportINData) ->
  compare_previous ReportINData (Z.of_nat size) s evs =
  Ok (changed (app s) ReportINData size,
      on_hid (fun a => a <| PrevReportINBuffer ::= fun b => match b with Some _ => Some ReportINData | None => None end |>) s, evs).
Proof using Type.
  intros Hsz Hb. unfold compare_previous, changed, memcmp, on_hid. destruct (PrevReportINBuffer (app s)) as [b|] eqn:E.
  - specialize (Hb b eq_refl). rewrite (proj2 (Z.ltb_ge _ _)), (proj2 (Z.ltb_ge _ _)) by lia. cbn [orb mbind res_bind].
    rewrite Nat2Z.id. do 3 f_equal. destruct s as [? ? ? ? ? ? ? ? ? ? ? ? ? ? ? ? ? ? ? a]. destruct a. unfold set_field. simpl in *. by rewrite E.
  - do 3 f_equal. destruct s as [? ? ? ? ? ? ? ? ? ? ? ? ? ? ? ? ? ? ? a]. destruct a. unfold set_field. simpl in *. by rewrite E.
Qed.

Lemma report_task (s : state) e ev evs force ReportID ReportINData size g :
  USB_DeviceState s = Configured -> PrevFrameNum (app s) <> UDFNUM s -> 0 < in_number s ->
  idle_in (in_number s) e (select s) -> ev <> BusReset ->
  CALLBACK_HID_Device_CreateHIDReport 0 HID_REPORT_ITEM_In (replicate (Z.to_nat (PrevReportINBufferSize (app s))) 0) (select s)
    = Ok ((force, ReportID, ReportINData, Z.of_nat size), on_hid (fun a => a <| user ::= g |>) (select s)) ->
  (size <= length ReportINData)%nat -> (forall b, PrevReportINBuffer (app s) = Some b -> length b = length ReportINData) ->
  Z.of_nat size < 65536 -> (length (report_packet ReportID ReportINData size) <= bank_size e)%nat ->
  Forall is_u8 (report_packet ReportID ReportINData size) ->
  let d := due (app s) force ReportINData size in
  exists s' e', HID_Device_USBTask s (ev :: evs) = Ok (tt, s', if d then evs else ev :: evs) /\
    at_ep (in_number s) e' s' /\ delivered (if d then [report_packet ReportID ReportINData size] else []) e e' /\
    fires EORSTI s' = false /\ UDFNUM s' = (if d then frame_of (UDFNUM s) ev else UDFNUM s) /\ undisturbed ev s s' /\
    app s' = after_report d ReportINData (UDFNUM s') g (app s).
Proof using Type.
  intros Hconf Hfr Hpos Hi Hev Hcb Hsz Hb H16 Hbank Hu d.
  set (s1 := on_hid (fun a => a <| user ::= g |>) (select s)) in Hcb.
  set (s2 := on_hid (fun a => a <| PrevReportINBuffer ::= fun b => match b with Some _ => Some ReportINData | None => None end |>) s1).
  assert (idle_in (in_number s) e s2) as Hi2 by done.
  assert (forall evs, HID_Device_USBTask s evs =
    (_ ← (if d then send_report ReportID ReportINData (Z.of_nat size) else mret tt);
     run (fun s => on_hid (fun a => a <| PrevFrameNum := UDFNUM s |>) s)) s2 evs) as Hrun.
  { intros evs'. unfold HID_Device_USBTask. rewrite !bind_get, bool_decide_eq_true_2 by done.
    rewrite (proj2 (Z.eqb_neq _ _) Hfr). cbn [negb]. cbv iota. rewrite bind_run, bind_get.
    assert (Endpoint_IsReadWriteAllowed (select s) = true) as ->.
    { destruct Hi as (Ha & Hd & Ht & Hf & _). unfold Endpoint_IsReadWriteAllowed, RWAL. rewrite (at_cur _ _ _ Ha), Hd, Ht, Hf.
      apply Nat.ltb_lt. apply bank_size_pos. }
    rewrite bind_get, (bind_op _ _ _ _ _ _ Hcb), bind_get, (bind_ok _ _ _ _ _ _ _ (compare_previous_ok s1 _ _ evs' Hsz Hb)). fold s2.
    assert (negb (Z.of_nat size =? 0) && (force || changed (app s1) ReportINData size ||
      (negb (IdleCount (app s1) =? 0) && (IdleMSRemaining (app s1) =? 0))) = d) as ->; [|done].
    unfold d, due. do 2 f_equal. destruct size; [done|]. apply Z.eqb_neq. lia. }
  rewrite Hrun. clear Hrun. clearbody d. destruct d.
  - destruct (send_report_ok s2 (in_number s) e ev evs ReportID ReportINData size) as (s3 & e3 & Hs3 & Ha3 & Hdl & Hr3 & Hu3 & Hun & Happ3); try done.
    rewrite (bind_ok _ _ _ _ _ _ _ Hs3). eexists _, e3. split; [reflexivity|]. split; [exact Ha3|]. split_and!; try done.
    simpl. rewrite Happ3. done.
  - eexists _, e. split; [reflexivity|]. destruct Hi2 as (Ha & Hd & Ht & Hf & Hr). split; [exact Ha|]. split; [by apply delivered_refl|]. by split_and!.
Qed.
(** Otherwise nothing is done: the application is not asked. *)
Lemma report_task_idle (s : state) evs : USB_DeviceState s <> Configured \/ PrevFrameNum (app s) = UDFNUM s ->
  HID_Device_USBTask s evs = Ok (tt, s, evs).
Proof using Type.
  intros Hs. unfold HID_Device_USBTask. rewrite !bind_get. destruct (decide (USB_DeviceState s = Configured)) as [Hc|Hc].
  - rewrite bool_decide_eq_true_2 by done. destruct Hs as [Hs|Hs]; [done|]. by rewrite Hs, Z.eqb_refl.
  - by rewrite bool_decide_eq_false_2.
Qed.
Lemma report_task_occupied (s : state) evs : USB_DeviceState s = Configured -> PrevFrameNum (app s) <> UDFNUM s ->
  Endpoint_IsReadWriteAllowed (select s) = false -> HID_Device_USBTask s evs = Ok (tt, select s, evs).
Proof using Type.
  intros Hc Hf Hs. unfold HID_Device_USBTask. rewrite !bind_get, bool_decide_eq_true_2 by done.
  rewrite (proj2 (Z.eqb_neq _ _) Hf). cbn [negb]. cbv iota. by rewrite bind_run, bind_get, Hs.
Qed.
(** ** The idle rate *)

(** A millisecond: the host collects a packet from the IN endpoint if there is one, a frame
    starts, on which the application counts the millisecond, and the task runs. *)
Definition millisecond (f : Z) (s : state) : res state :=
  '(_, s, _) ← HID_Device_USBTask (HID_Device_MillisecondElapsed (tick (Frame f) (tick (In (in_number s)) s))) [Idle]; Ok s.
Fixpoint milliseconds (fs : list Z) (s : state) : res state :=
  match fs with [] => Ok s | f :: fs' => s ← millisecond f s; milliseconds fs' s end.

(** The IN endpoint of a configured device that the host polls. *)
Definition polled (e : endpoint) (s : state) : Prop :=
  USB_DeviceState s = Configured /\ quiet s /\ 0 < in_number s /\ eps s !! Z.to_nat (in_number s) = Some e /\
  Z.testbit (UECFG0X e) EPDIR = true /\ EPEN e = true /\ STALLRQ e = false /\ (length (armed e) <= 1)%nat /\ filling e = [].
(** Consecutive frames have different numbers. *)
Fixpoint consecutive (prev : Z) (fs : list Z) : Prop := match fs with [] => True | f :: fs' => f <> prev /\ consecutive f fs' end.

(** The application has the same report at any time, which it does not force. *)
Definition repeats (ReportID : Z) (ReportINData : list Z) (size : nat) : Prop :=
  forall buffer s, CALLBACK_HID_Device_CreateHIDReport 0 HID_REPORT_ITEM_In buffer s = Ok ((false, ReportID, ReportINData, Z.of_nat size), s).

Lemma millisecond_elapsed (s : state) r : IdleMSRemaining (app s) = Z.of_nat r ->
  let s' := HID_Device_MillisecondElapsed s in
  app s' = app s <| IdleMSRemaining := Z.of_nat (pred r) |> /\ eps s' = eps s /\ UDFNUM s' = UDFNUM s /\
  USB_DeviceState s' = USB_DeviceState s /\ (quiet s -> quiet s').
Proof using Type.
  intros Hr s'. split; [|done]. unfold s', HID_Device_MillisecondElapsed, on_hid. destruct s as [? ? ? ? ? ? ? ? ? ? ? ? ? ? ? ? ? ? ? a].
  destruct a. unfold set_field. simpl in *. subst. destruct r as [|r]; [done|]. simpl negb. cbv iota. f_equal. lia.
Qed.
Lemma on_hid_same (s : state) : on_hid (fun a => a <| user ::= fun u => u |>) s = s.
Proof using Type. destruct s as [? ? ? ? ? ? ? ? ? ? ? ? ? ? ? ? ? ? ? a]. by destruct a. Qed.

Lemma collected e : EPEN e = true -> STALLRQ e = false -> (length (armed e) <= 1)%nat -> filling e = [] ->
  armed (give_in e) = [] /\ delivered [] e (give_in e).
Proof using Type.
  intros Hen Hst Har Hfl. unfold give_in. destruct (armed e) as [|p [|]] eqn:Ea; [by split; [|apply delivered_refl]| |simpl in Har; lia].
  rewrite Hen, Hst. cbn [negb andb]. cbv iota. split; [done|]. unfold delivered, packets_in. simpl. rewrite Ea, app_nil_r. by split_and!; try lia.
Qed.

Lemma collect_and_frame (s : state) e f : polled e s ->
  let s2 := tick (Frame f) (tick (In (in_number s)) s) in
  exists e1, quiet s2 /\ eps s2 !! Z.to_nat (in_number s) = Some e1 /\ UDFNUM s2 = f /\ app s2 = app s /\
    USB_DeviceState s2 = USB_DeviceState s /\ armed e1 = [] /\ delivered [] e e1.
Proof using Type.
  intros (Hconf & Hq & Hpos & He & Hd & Hen & Hst & Har & Hfl) s2. unfold s2. clear s2. set (n := in_number s) in *.
  destruct (tick_packet (In n) s eq_refl Hq) as (Hcore1 & Hq1 & Heps1). remember (tick (In n) s) as s1 eqn:E1.
  destruct (tick_packet (Frame f) s1 eq_refl Hq1) as (Hcore2 & Hq2 & Heps2). rewrite Hcore1 in Hcore2.
  destruct (collected e Hen Hst Har Hfl) as [Har1 Hdl1].
  exists (give_in e). split; [done|]. split; [|split; [apply tick_UDFNUM|]].
  - rewrite Heps2. change (eps (hardware (Frame f) s1)) with (eps s1).
    rewrite Heps1, (hardware_lookup n (In n) s e) by done. simpl. by rewrite decide_True.
  - split; [exact (core_app _ _ Hcore2)|]. split; [exact (core_state _ _ Hcore2)|]. done.
Qed.

(** The task in a new frame, when [r] milliseconds of the idle period are left. *)
Lemma idle_task (s : state) e ReportID ReportINData size c r :
  polled e s -> armed e = [] -> repeats ReportID ReportINData size -> PrevReportINBuffer (app s) = Some ReportINData ->
  (0 < size <= length ReportINData)%nat -> Z.of_nat size < 65536 ->
  (length (report_packet ReportID ReportINData size) <= bank_size e)%nat -> Forall is_u8 (report_packet ReportID ReportINData size) ->
  IdleCount (app s) = Z.of_nat c -> (0 < c)%nat -> IdleMSRemaining (app s) = Z.of_nat r -> UDFNUM s <> PrevFrameNum (app s) ->
  exists evs s' e', HID_Device_USBTask s [Idle] = Ok (tt, s', evs) /\ polled e' s' /\
    delivered (if (r =? 0)%nat then [report_packet ReportID ReportINData size] else []) e e' /\
    app s' = app s <| IdleMSRemaining := Z.of_nat (if (r =? 0)%nat then c else r) |> <| PrevFrameNum := UDFNUM s |>.
Proof using Type.
  intros (Hconf & Hq & Hpos & He & Hd & Hen & Hst & _ & Hfl) Har Hrep Hprev Hsz H16 Hb Hu Hc Hc0 Hr Hf.
  assert (idle_in (in_number s) e (select s)) as Hi.
  { split; [by split|]. split; [done|]. split; [by apply TXINI_free|]. split; [done|]. by apply Hq. }
  assert (due (app s) false ReportINData size = (r =? 0)%nat) as Hdue.
  { unfold due, changed. rewrite Hprev, Hc, Hr, bool_decide_eq_false_2 by (intros Hx; by apply Hx).
    rewrite (proj2 (Nat.eqb_neq _ _)), (proj2 (Z.eqb_neq _ _)) by lia. cbn [negb orb andb]. by destruct r. }
  destruct (report_task s e Idle [] false ReportID ReportINData size (fun u => u)) as (s4 & e4 & Hrun & Hat4 & Hdl4 & Hr4 & Hu4 & Hun4 & Ha4);
    try done; [by rewrite on_hid_same|lia|intros b Hb'; congruence|].
  rewrite Hdue in *.
  assert (UDFNUM s4 = UDFNUM s) as Huf4 by (rewrite Hu4; by destruct (r =? 0)%nat).
  assert (app s4 = app s <| IdleMSRemaining := Z.of_nat (if (r =? 0)%nat then c else r) |> <| PrevFrameNum := UDFNUM s |>) as Happ.
  { rewrite Ha4, Huf4. unfold after_report. destruct (app s) as [? ? pb ? ? ? ic ir ?]. unfold set_field. simpl in *. subst pb ic ir.
    f_equal. by destruct r. }
  eexists _, s4, e4. split; [exact Hrun|]. split; [|by split].
  destruct (Hun4 eq_refl Hq) as [Hq4 Hc4]. destruct Hdl4 as ([Hh0 Hh1] & Hf4 & Hp4 & Hen4 & Hst4 & Har4).
  unfold polled. assert (in_number s4 = in_number s) as Hn4 by (unfold in_number; by rewrite Happ). rewrite Hn4.
  split; [congruence|]. split; [done|]. split; [done|]. split; [apply Hat4|]. split_and!; try congruence.
  rewrite Har in Har4. destruct (r =? 0)%nat; simpl in Har4; lia.
Qed.
Lemma still_polled ps (s s' : state) e e' : polled e s -> quiet s' -> USB_DeviceState s' = USB_DeviceState s ->
  in_number s' = in_number s -> eps s' !! Z.to_nat (in_number s) = Some e' -> (length (armed e') <= 1)%nat ->
  delivered ps e e' -> polled e' s'.
Proof using Type.
  intros (Hconf & Hq & Hpos & He & Hd & Hen & Hst & Har & Hfl) Hq' Hc Hn He' Har' ([H0 H1] & H2 & H3 & H4 & H5 & H6).
  unfold polled. rewrite Hn. split_and!; congruence || done.
Qed.

Lemma one_millisecond (s : state) e f ReportID ReportINData size c r :
  polled e s -> repeats ReportID ReportINData size -> PrevReportINBuffer (app s) = Some ReportINData ->
  (0 < size <= length ReportINData)%nat -> Z.of_nat size < 65536 ->
  (length (report_packet ReportID ReportINData size) <= bank_size e)%nat -> Forall is_u8 (report_packet ReportID ReportINData size) ->
  IdleCount (app s) = Z.of_nat c -> (0 < c)%nat -> IdleMSRemaining (app s) = Z.of_nat r -> f <> PrevFrameNum (app s) ->
  exists s' e', millisecond f s = Ok s' /\ polled e' s' /\
    delivered (if (pred r =? 0)%nat then [report_packet ReportID ReportINData size] else []) e e' /\
    app s' = app s <| IdleMSRemaining := Z.of_nat (if (pred r =? 0)%nat then c else pred r) |> <| PrevFrameNum := f |>.
Proof using Type.
  intros Hpo Hrep Hprev Hsz H16 Hb Hu Hc Hc0 Hr Hf.
  destruct (collect_and_frame s e f Hpo) as (e1 & Hq2 & He2 & Huf & Ha2 & Hc2 & Har1 & Hdl1). unfold millisecond. cbv zeta in *.
  generalize dependent (tick (Frame f) (tick (In (in_number s)) s)). intros s2 Hq2 He2 Huf Ha2 Hc2.
  assert (in_number s2 = in_number s) as Hn2 by (unfold in_number; by rewrite Ha2).
  assert (polled e1 s2) as Hpo2 by (apply (still_polled [] s s2 e e1); try done; rewrite Har1; simpl; lia).
  destruct (millisecond_elapsed s2 r) as (Ha3 & Heps3 & Huf3 & Hst3 & Hq3); [by rewrite Ha2|].
  generalize dependent (HID_Device_MillisecondElapsed s2). intros s3 Ha3 Heps3 Huf3 Hst3 Hq3. rewrite Ha2 in Ha3.
  assert (in_number s3 = in_number s2) as Hn3 by (rewrite Hn2; unfold in_number; by rewrite Ha3).
  assert (polled e1 s3) as Hpo3.
  { apply (still_polled [] s2 s3 e1 e1); try done; [by apply Hq3|by rewrite Heps3, Hn2|rewrite Har1; simpl; lia|apply delivered_refl, Hdl1]. }
  assert (bank_size e1 = bank_size e) as Hbk by (destruct Hdl1 as ([_ Hg] & _); unfold bank_size; by rewrite Hg).
  destruct (idle_task s3 e1 ReportID ReportINData size c (pred r)) as (evs & s4 & e4 & Hrun & Hpo4 & Hdl4 & Ha4); try done.
  { by rewrite Ha3. }
  { by rewrite Hbk. }
  { by rewrite Ha3. }
  { by rewrite Ha3. }
  { rewrite Huf3, Huf, Ha3. done. }
  exists s4, e4. split; [by rewrite Hrun|]. split; [done|]. split; [by apply (delivered_trans [] _ e e1 e4)|].
  rewrite Ha4, Ha3, Huf3, Huf. done.
Qed.

(** How many of [m] milliseconds are the last of an idle period of [c], when [r] are left of the
    current one. *)
Fixpoint periods (c r m : nat) : nat :=
  match m with
  | O => O
  | S m' => if (pred r =? 0)%nat then S (periods c c m') else periods c (pred r) m'
  end.
Lemma periods_div c r m : (0 < c)%nat -> (r <= c)%nat -> periods c r m = ((m + (c - max 1 r)) / c)%nat.
Proof using Type.
  intros Hc. revert r. induction m as [|m IH]; intros r Hr; simpl periods.
  - symmetry. apply Nat.div_small. lia.
  - destruct (Nat.eqb_spec (pred r) 0).
    + rewrite IH by lia. replace (S m + (c - max 1 r))%nat with (m + (c - max 1 c) + 1 * c)%nat by lia.
      rewrite Nat.div_add by lia. lia.
    + rewrite IH by lia. f_equal. lia.
Qed.
Lemma delivered_bank ps e e' : delivered ps e e' -> bank_size e' = bank_size e.
Proof using Type. intros ([_ Hg] & _). unfold bank_size. by rewrite Hg. Qed.
Lemma idle_periods ReportID ReportINData size c : (0 < size <= length ReportINData)%nat -> Z.of_nat size < 65536 ->
  repeats ReportID ReportINData size -> (0 < c)%nat -> Forall is_u8 (report_packet ReportID ReportINData size) ->
  forall fs (s : state) e r, polled e s -> PrevReportINBuffer (app s) = Some ReportINData ->
  (length (report_packet ReportID ReportINData size) <= bank_size e)%nat ->
  IdleCount (app s) = Z.of_nat c -> IdleMSRemaining (app s) = Z.of_nat r -> consecutive (PrevFrameNum (app s)) fs ->
  exists s' e', milliseconds fs s = Ok s' /\ polled e' s' /\
    delivered (replicate (periods c r (length fs)) (report_packet ReportID ReportINData size)) e e' /\
    IdleCount (app s') = Z.of_nat c /\ user (app s') = user (app s).
Proof using Type.
  intros Hsz H16 Hrep Hc0 Hu. induction fs as [|f fs IH]; intros s e r Hpo Hprev Hb Hc Hr Hfs.
  - exists s, e. split; [done|]. split; [done|]. split; [|done]. apply delivered_refl, Hpo.
  - destruct Hfs as [Hf Hfs].
    destruct (one_millisecond s e f ReportID ReportINData size c r) as (s1 & e1 & Hrun & Hpo1 & Hdl1 & Ha1); try done.
    destruct (IH s1 e1 (if (pred r =? 0)%nat then c else pred r)) as (s2 & e2 & Hrun2 & Hpo2 & Hdl2 & Hc2 & Hu2); try (rewrite Ha1; done).
    { done. }
    { by rewrite (delivered_bank _ _ _ Hdl1). }
    exists s2, e2. split; [cbn [milliseconds]; rewrite Hrun; exact Hrun2|]. split; [done|]. split; [|split; [done|by rewrite Hu2, Ha1]].
    pose proof (delivered_trans _ _ _ _ _ Hdl1 Hdl2) as Hdl. cbn [length periods]. by destruct (pred r =? 0)%nat.
Qed.

(** ** Values that the host sets and gets *)

Lemma hid_handled r e0 (s : state) evs s1 e1 evs1 :
  requested r e0 s -> HID_Device_ProcessControlRequest (loaded r e0 s) evs = Ok (tt, s1, evs1) ->
  at_ep 0 e1 s1 -> RXSTPI e1 = false -> ProcessControlRequest s evs = Ok (tt, s1, evs1).
Proof using Type.
  intros Hq Hh Ha Hr. unfold ProcessControlRequest. eapply request_handled; [exact Hq|exact Hh|].
  unfold Endpoint_IsSETUPReceived. by rewrite (at_cur _ _ _ Ha).
Qed.

(** A value that the host sets with the request [q]. *)
Lemma value_taken q f r e0 (s : state) evs :
  (q = HID_REQ_SetIdle /\ f = (fun v a => a <| IdleCount := Z.shiftr (Z.land v 65280) 6 |>)) \/
  (q = HID_REQ_SetProtocol /\ f = (fun v a => a <| UsingReportProtocol := negb (Z.land v 255 =? 0) |>)) ->
  at_ep 0 (take_setup (header_bytes r) e0) s -> EPEN e0 = true -> quiet s -> present s ->
  bmRequestType r = class_request REQDIR_HOSTTODEVICE -> bRequest r = q -> wIndex r = InterfaceNumber (app s) ->
  exists s1 e1, ProcessControlRequest s evs = Ok (tt, s1, evs) /\
    at_ep 0 e1 s1 /\ quiet s1 /\ present s1 /\ ready e1 /\ armed e1 = [[]] /\ taken e1 = taken e0 /\ app s1 = f (wValue r) (app s).
Proof using Type.
  intros Hqf Ha Hen Hq Hp Hty Hreq Hix.
  destruct (clear_setup r e0 s Ha) as [Hcs Ha1]. set (s1 := put0 (acked e0) s <| USB_ControlRequest := r |>) in *.
  destruct (status_in (acked e0) s1 evs Ha1) as [Hst Ha2]; [done|change (Z.land (bmRequestType r) REQDIR_DEVICETOHOST = 0); by rewrite Hty|].
  eexists (on_hid (f (wValue r)) _), _. split; [|split; [exact Ha2|by split_and!]].
  eapply hid_handled; [by apply setup_requested| |exact Ha2|done].
  unfold HID_Device_ProcessControlRequest. rewrite !bind_get, (loaded_setup r _ s (setup_requested r e0 s Ha)).
  change (USB_ControlRequest (loaded r _ s)) with r. change (app (loaded r _ s)) with (app s). rewrite Hix, Z.eqb_refl, Hty, Hreq.
  assert (take_value f (loaded r (take_setup (header_bytes r) e0) s) evs =
    Ok (tt, on_hid (f (wValue r)) (put0 (acked e0 <| armed := [filling (acked e0)] |> <| filling := [] |>) s1), evs)) as Htv.
  { unfold take_value. by rewrite bind_run, Hcs, (bind_ok _ _ _ _ _ _ _ Hst), bind_get. }
  by destruct Hqf as [[-> ->]|[-> ->]].
Qed.

(** A byte that the host gets with the request [q]. *)
Lemma byte_given q f r e0 (s : state) evs later :
  (q = HID_REQ_GetIdle /\ f = (fun a => Z.shiftr (IdleCount a) 2)) \/
  (q = HID_REQ_GetProtocol /\ f = (fun a => if UsingReportProtocol a then 1 else 0)) ->
  at_ep 0 (take_setup (header_bytes r) e0) s -> EPEN e0 = true -> quiet s -> present s ->
  bmRequestType r = class_request REQDIR_DEVICETOHOST -> bRequest r = q -> wIndex r = InterfaceNumber (app s) ->
  forallb patient evs = true ->
  exists s1 e1, ProcessControlRequest s (evs ++ Out 0 [] :: later) = Ok (tt, s1, later) /\
    at_ep 0 e1 s1 /\ STALLRQ e1 = false /\ app s1 = app s /\ taken e1 = taken e0 ++ take (ins 0 evs) [[u8 (f (app s))]].
Proof using Type.
  intros Hqf Ha Hen Hq Hp Hty Hreq Hix Hev.
  destruct (clear_setup r e0 s Ha) as [Hcs Ha1]. set (s1 := put0 (acked e0) s <| USB_ControlRequest := r |>) in *.
  assert (TXINI (acked e0) = true) as Htx by (by apply TXINI_free).
  destruct (write_put (acked e0) s1 [] (f (app s)) Ha1 Htx eq_refl) as [Hw _]; [apply bank_size_pos|].
  destruct (answer_bytes (Endpoint_Write_8 (f (app s))) [u8 (f (app s))] e0 s1 evs later) as (s4 & e4 & Hans & Ha4 & Hc4 & _ & _ & Hx2 & Hx3 & _ & Ht4);
    try done; [by change (USB_ControlRequest s1) with r; rewrite Hty|].
  exists s4, e4. split; [|by split_and!; try done; rewrite (core_app _ _ Hc4)].
  eapply hid_handled; [by apply setup_requested| |exact Ha4|done].
  unfold HID_Device_ProcessControlRequest. rewrite !bind_get, (loaded_setup r _ s (setup_requested r e0 s Ha)).
  change (USB_ControlRequest (loaded r _ s)) with r. change (app (loaded r _ s)) with (app s). rewrite Hix, Z.eqb_refl, Hty, Hreq.
  assert (send_byte f (loaded r (take_setup (header_bytes r) e0) s) (evs ++ Out 0 [] :: later) = Ok (tt, s4, later)) as Hsb.
  { unfold send_byte. rewrite bind_run, Hcs.
    assert (spin in_ready_turn tt s1 (evs ++ Out 0 [] :: later) = Ok (tt, s1, evs ++ Out 0 [] :: later)) as Hsp
      by (by rewrite spin_eq, (in_ready_eq _ _ Ha1), Htx).
    unfold answer in Hans. unfold in_ready_turn in Hsp, Hans. rewrite (bind_ok _ _ _ _ _ _ _ Hsp) in Hans. rewrite (bind_ok _ _ _ _ _ _ _ Hsp), bind_get. exact Hans. }
  by destruct Hqf as [[-> ->]|[-> ->]].
Qed.

(** The idle rate in milliseconds of a request. *)
Lemma idle_value v : Z.shiftr (Z.land v 65280) 6 = 4 * ((v / 256) mod 256).
Proof using Type.
  replace 65280 with (Z.shiftl (Z.ones 8) 8) by done. change 256 with (2 ^ 8) at 1 2. rewrite <- Z.shiftr_div_pow2, <- Z.land_ones by lia.
  replace (4 * _) with (Z.shiftl (Z.land (Z.shiftr v 8) (Z.ones 8)) 2) by (rewrite Z.shiftl_mul_pow2; lia).
  apply Z.bits_inj'. intros i Hi. rewrite Z.shiftr_spec, Z.land_spec, Z.shiftl_spec by lia.
  destruct (Z_lt_le_dec i 2) as [Hlt|Hge].
  - rewrite Z.shiftl_spec_low, (Z.testbit_neg_r _ (i + 6 - 8)) by lia. by rewrite andb_false_r.
  - rewrite Z.shiftl_spec, Z.land_spec, Z.shiftr_spec by lia. by replace (i - 2 + 8) with (i + 6) by lia; replace (i + 6 - 8) with (i - 2) by lia.
Qed.

(** The requests for the idle rate on the interface [n]. *)
Definition set_idle (n v : Z) : USB_Request_Header_t := mkRequest (class_request REQDIR_HOSTTODEVICE) HID_REQ_SetIdle v n 0.
Definition get_idle (n : Z) : USB_Request_Header_t := mkRequest (class_request REQDIR_DEVICETOHOST) HID_REQ_GetIdle 0 n 1.

(** The idle rate the host sets is the one it gets: the high byte of the value, whatever the low
    byte says, which would address a report. *)
Theorem idle_round_trip v e0 (s : state) evs :
  let n := InterfaceNumber (app s) in
  at_ep 0 (take_setup (header_bytes (set_idle n v)) e0) s -> EPEN e0 = true -> quiet s -> present s -> forallb patient evs = true ->
  exists s1, ProcessControlRequest s [] = Ok (tt, s1, []) /\ IdleCount (app s1) = 4 * ((v / 256) mod 256) /\
    let s2 := tick (Setup (header_bytes (get_idle n))) (tick (In 0) s1) in
    exists s3 e3, ProcessControlRequest s2 (evs ++ [Out 0 []]) = Ok (tt, s3, []) /\ at_ep 0 e3 s3 /\ STALLRQ e3 = false /\
      taken e3 = taken e0 ++ [[]] ++ take (ins 0 evs) [[(v / 256) mod 256]].
Proof using Type.
  intros n Ha Hen Hq Hp Hev.
  destruct (value_taken HID_REQ_SetIdle (fun v a => a <| IdleCount := Z.shiftr (Z.land v 65280) 6 |>) (set_idle n v) e0 s [])
    as (s1 & e1 & Hrun & Ha1 & Hq1 & Hp1 & Hr1 & Har1 & Ht1 & Happ); try done; [by left|].
  change (wValue (set_idle n v)) with v in Happ. exists s1. split; [done|]. split; [rewrite Happ; apply idle_value|]. intros s2.
  destruct (next_request (get_idle n) e1 s1 Ha1 Hq1 Hr1) as (e2 & Ha2 & Hc2 & Hq2 & Hen2 & _ & Ht2). fold s2 in Ha2, Hc2, Hq2.
  pose proof (core_app _ _ Hc2) as Happ2. rewrite Happ in Happ2.
  destruct (byte_given HID_REQ_GetIdle (fun a => Z.shiftr (IdleCount a) 2) (get_idle n) e2 s2 evs [])
    as (s3 & e3 & Hrun3 & Ha3 & Hst3 & _ & Ht3); try done; [by left|by eapply present_core|by rewrite Happ2|].
  exists s3, e3. split; [done|]. split; [done|]. split; [done|]. rewrite Ht3, Ht2, Har1, Ht1, <- app_assoc. do 3 f_equal.
  rewrite Happ2. simpl IdleCount. rewrite idle_value, Z.mul_comm, (Z.shiftr_div_pow2 _ 2), Z.div_mul by lia.
  by rewrite u8_small by (apply Z.mod_pos_bound; lia).
Qed.

(** ** Output reports *)

(** The application processes reports in its own state. *)
Definition processes (g : Z -> Z -> list Z -> Z -> User -> User) : Prop :=
  forall id ty data size s, CALLBACK_HID_Device_ProcessHIDReport id ty data size s = Ok (tt, on_hid (fun a => a <| user ::= g id ty data size |>) s).

Lemma report_set g r e0 (s : state) evs : processes g ->
  at_ep 0 (take_setup (header_bytes r) e0) s -> EPEN e0 = true -> quiet s -> present s ->
  bmRequestType r = class_request REQDIR_HOSTTODEVICE -> bRequest r = HID_REQ_SetReport -> wIndex r = InterfaceNumber (app s) ->
  0 < wLength r < 65536 -> Forall (sending (bank_size e0)) evs -> wLength r <= Z.of_nat (length (concat (outs 0 evs))) ->
  let skip := if report_identifier r =? 0 then 0%nat else 1%nat in
  exists used later s1 e1, ProcessControlRequest s evs = Ok (tt, s1, later) /\ evs = used ++ later /\
    at_ep 0 e1 s1 /\ quiet s1 /\ ready e1 /\ armed e1 = [[]] /\ taken e1 = taken e0 /\
    app s1 = app s <| user ::= g (report_identifier r) (report_type r)
                                 (drop skip (take (Z.to_nat (wLength r)) (concat (outs 0 used)))) (wLength r - Z.of_nat skip) |>.
Proof using Type.
  intros Hg Ha Hen Hq Hp Hty Hreq Hix HL Hev Htot skip.
  destruct (clear_setup r e0 s Ha) as [Hcs Ha1]. set (s1 := put0 (acked e0) s <| USB_ControlRequest := r |>) in *.
  destruct (control_read_le (replicate (Z.to_nat (wLength r)) 0) (wLength r) s1 (acked e0) evs)
    as (used & later & s2 & e2 & Hrd & Hsp & _ & Ha2 & Ho2 & Htx & Hf2 & Ht2 & Hc2 & Hq2); try done; [rewrite length_replicate; lia|].
  rewrite drop_ge, app_nil_r in Hrd by (rewrite length_replicate; lia).
  pose proof (at_on_cur 0 e2 s2 (fun e => if TXINI e then e <| armed ::= fun l => l ++ [filling e] |> <| filling := [] |> else e) Ha2) as Ha3.
  cbv beta in Ha3. rewrite Htx, Hf2 in Ha3. destruct Ho2 as (Hx1 & Hx2 & Hx3 & Hx4 & Hx5).
  set (g1 := g (report_identifier r) (report_type r) (drop skip (take (Z.to_nat (wLength r)) (concat (outs 0 used)))) (wLength r - Z.of_nat skip)).
  eexists used, later, (on_hid (fun a => a <| user ::= g1 |>) (Endpoint_ClearIN s2)), _.
  split; [|split; [done|split; [exact Ha3|]]].
  - eapply hid_handled; [by apply setup_requested| |exact Ha3|exact Hx3].
    unfold HID_Device_ProcessControlRequest. rewrite !bind_get, (loaded_setup r _ s (setup_requested r e0 s Ha)).
    change (USB_ControlRequest (loaded r _ s)) with r. change (app (loaded r _ s)) with (app s). rewrite Hix, Z.eqb_refl, Hty, Hreq.
    change (SetReport (loaded r (take_setup (header_bytes r) e0) s) evs =
      Ok (tt, on_hid (fun a => a <| user ::= g1 |>) (Endpoint_ClearIN s2), later)).
    unfold SetReport. rewrite bind_get, bind_run, Hcs. change (USB_ControlRequest (loaded r _ s)) with r.
    rewrite (bind_ok _ _ _ _ _ _ _ Hrd), bind_run. cbv zeta. unfold op. rewrite Hg. unfold g1, skip.
    assert (u16 (wLength r - (if report_identifier r =? 0 then 0 else 1)) =
      wLength r - Z.of_nat (if report_identifier r =? 0 then 0%nat else 1%nat)) as ->.
    { unfold u16. destruct (report_identifier r =? 0); rewrite Z.mod_small by lia; lia. }
    by destruct (report_identifier r =? 0).
  - simpl. rewrite Hx4. split; [done|]. split; [done|]. split; [done|]. split; [done|]. 
    change (app s2 <| user ::= g1 |> = app s <| user ::= g1 |>). by rewrite (core_app _ _ Hc2).
Qed.

(** ** The type of the driver's state *)

Variable PrevSize : Z.
(** The previous report fills its buffer, and the idle rate is a multiple of four milliseconds, of
    which no more are left than the largest one has. *)
Definition hid_ok (a : hid User) : Prop :=
  PrevReportINBufferSize a = PrevSize /\
  (forall b, PrevReportINBuffer a = Some b -> length b = Z.to_nat PrevSize) /\
  (exists k, IdleCount a = 4 * k /\ is_u8 k) /\ 0 <= IdleMSRemaining a <= 1020.
#[local] Abbreviation typed := (typed hid_ok).
#[local] Abbreviation keeps := (keeps hid_ok).

(** The callbacks keep the type; an array keeps its length. *)
Hypothesis create_keeps : forall id ty buffer s, typed s ->
  match CALLBACK_HID_Device_CreateHIDReport id ty buffer s with
  | Ok ((_, _, ReportData, _), s') => typed s' /\ length ReportData = length buffer
  | _ => True
  end.
Hypothesis process_report_keeps : forall id ty data size, op_keeps hid_ok (CALLBACK_HID_Device_ProcessHIDReport id ty data size).

Lemma on_hid_keeps f : (forall a, hid_ok a -> hid_ok (f a)) -> run_keeps hid_ok (on_hid f).
Proof using Type. apply app_keeps. Qed.

Lemma create_then {B} id ty (k : bool * Z * list Z * Z -> M B) :
  (forall force ReportID ReportData size, length ReportData = Z.to_nat PrevSize -> keeps (k (force, ReportID, ReportData, size))) ->
  keeps (n ← get (fun s => PrevReportINBufferSize (app s));
         r ← op (CALLBACK_HID_Device_CreateHIDReport id ty (replicate (Z.to_nat n) 0)); k r).
Proof using create_keeps.
  intros Hk s evs Hs. rewrite bind_get. unfold mbind, M_bind, op.
  pose proof (create_keeps id ty (replicate (Z.to_nat (PrevReportINBufferSize (app s))) 0) s Hs) as Hc.
  destruct (CALLBACK_HID_Device_CreateHIDReport _ _ _ s) as [[[[[force ReportID] ReportData] size] s']| |]; try done.
  destruct Hc as [Hs' Hl]. apply Hk; [|done]. destruct Hs as (_ & _ & _ & _ & Hp & _). by rewrite Hl, length_replicate, Hp.
Qed.
Lemma buffer_ok a ReportData : hid_ok a -> length ReportData = Z.to_nat PrevSize -> hid_ok (a <| PrevReportINBuffer := Some ReportData |>).
Proof using Type. intros (H1 & H2 & H3 & H4) Hl. split; [done|]. split; [|done]. intros b Hb. by injection Hb as <-. Qed.

Lemma get_report_keeps : keeps GetReport.
Proof using create_keeps.
  unfold GetReport. apply keeps_bind; [apply keeps_get|]. intros r. apply create_then. intros force ReportID ReportData size Hl.
  unfold Endpoint_Write_Control_Stream_LE. keep_typed. apply keeps_run, on_hid_keeps. intros a Ha.
  destruct (PrevReportINBuffer a); [by apply buffer_ok|done].
Qed.
Lemma take_value_keeps f : (forall v a, hid_ok a -> hid_ok (f v a)) -> keeps (take_value f).
Proof using Type. intros Hf. unfold take_value. keep_typed. apply keeps_run, on_hid_keeps. apply Hf. Qed.
Lemma requests_keep : keeps HID_Device_ProcessControlRequest.
Proof using create_keeps process_report_keeps.
  pose proof get_report_keeps as HG.
  assert (keeps SetReport) as HS by (unfold SetReport, Endpoint_Read_Control_Stream_LE; keep_typed).
  assert (forall f, keeps (send_byte f)) as HB by (intros f; unfold send_byte; keep_typed).
  assert (keeps SetProtocol) as HP by (apply take_value_keeps; intros v a (H1 & H2 & H3 & H4); by split).
  assert (keeps SetIdle) as HI.
  { apply take_value_keeps. intros v a (H1 & H2 & _ & H4). split; [done|]. split; [done|]. split; [|done].
    exists ((v / 256) mod 256). split; [apply idle_value|]. apply Z.mod_pos_bound. lia. }
  unfold HID_Device_ProcessControlRequest. unfold GetProtocol, GetIdle. keep_typed.
Qed.
Lemma configure_endpoints_keep : op_keeps hid_ok HID_Device_ConfigureEndpoints.
Proof using Type.
  unfold HID_Device_ConfigureEndpoints. keep_typed; apply op_keeps_modify, on_hid_keeps; intros a (H1 & H2 & H3 & H4); try by split.
  split; [done|]. split; [done|]. split; [exists 125; split; [done|unfold is_u8; lia]|simpl; lia].
Qed.
Lemma usb_task_keeps : keeps USB_USBTask.
Proof using create_keeps process_report_keeps.
  pose proof requests_keep. pose proof configure_endpoints_keep.
  apply device_task_keeps; [done|]. unfold EVENT_USB_Device_ConfigurationChanged. keep_typed.
Qed.

Lemma compare_keeps ReportINData size : length ReportINData = Z.to_nat PrevSize -> keeps (compare_previous ReportINData size).
Proof using Type.
  intros Hl s evs Hs. unfold compare_previous. destruct (PrevReportINBuffer (app s)) as [b|]; [|done].
  destruct (memcmp ReportINData b size); simpl; try done. apply on_hid_keeps; [|done]. intros h Hh. by apply buffer_ok.
Qed.
Lemma send_report_keeps ReportID ReportINData size : keeps (send_report ReportID ReportINData size).
Proof using create_keeps process_report_keeps.
  pose proof usb_task_keeps. unfold send_report, Endpoint_Write_Stream_LE, select.
  assert (run_keeps hid_ok (on_hid (fun a => a <| IdleMSRemaining := IdleCount a |>))).
  { apply on_hid_keeps. intros a (H1 & H2 & (k & Hk & H3) & H4). split; [done|]. split; [done|]. split; [by exists k|]. simpl. unfold is_u8 in *. lia. }
  keep_typed. apply keeps_run. intros s Hs. by apply select_keeps.
Qed.
Lemma hid_task_keeps : keeps HID_Device_USBTask.
Proof using create_keeps process_report_keeps.
  pose proof compare_keeps. pose proof send_report_keeps.
  assert (keeps (run (fun s => on_hid (fun a => a <| PrevFrameNum := UDFNUM s |>) s))).
  { apply keeps_run. intros s Hs. apply on_hid_keeps; [|done]. by intros a (A1 & A2 & A3 & A4). }
  assert (keeps (run select)) by (apply keeps_run; intros s Hs; by apply select_keeps).
  unfold HID_Device_USBTask. apply keeps_bind; [apply keeps_get|]. intros c. apply keeps_bind; [apply keeps_get|]. intros f.
  destruct (negb c); [apply keeps_ret|]. destruct f; [apply keeps_ret|]. apply keeps_bind; [done|]. intros _.
  apply keeps_bind; [apply keeps_get|]. intros [|]; [|apply keeps_ret]. apply create_then. intros force ReportID ReportData size Hl. keep_typed.
Qed.
Lemma millisecond_keeps : run_keeps hid_ok HID_Device_MillisecondElapsed.
Proof using Type.
  apply on_hid_keeps. intros a (H1 & H2 & H3 & H4). destruct (Z.eqb_spec (IdleMSRemaining a) 0); [done|].
  split; [done|]. split; [done|]. split; [done|]. simpl. lia.
Qed.

(** What the application calls. *)
Inductive hid_call := CallUSBTask | CallDeviceTask | CallMillisecondElapsed | CallConfigureEndpoints.
Definition call (c : hid_call) : M unit :=
  match c with
  | CallUSBTask => USB_USBTask
  | CallDeviceTask => HID_Device_USBTask
  | CallMillisecondElapsed => run HID_Device_MillisecondElapsed
  | CallConfigureEndpoints => EVENT_USB_Device_ConfigurationChanged
  end.
Fixpoint calls (cs : list hid_call) : M unit :=
  match cs with [] => mret tt | c :: cs' => _ ← call c; calls cs' end.

Lemma calls_keep cs : keeps (calls cs).
Proof using create_keeps process_report_keeps.
  pose proof usb_task_keeps. pose proof hid_task_keeps. pose proof millisecond_keeps. pose proof configure_endpoints_keep.
  induction cs as [|[] cs IH]; simpl; unfold EVENT_USB_Device_ConfigurationChanged; keep_typed.
Qed.
End Hid.

(** ** Theorems *)

Section Theorems.
Context {User : Type} `{UsbChip}.
Variable Create : Z -> Z -> list Z -> Op (App:=hid User) (bool * Z * list Z * Z).
Variable Process : Z -> Z -> list Z -> Z -> Op (App:=hid User) unit.
Variable descriptors : Z -> Z -> Z * list Z.
Variable signature : Z -> Z.

(** C23: the task of the HID driver. Of a device that is not configured, or in a frame in which it has
    run already, it does nothing; while the bank of the endpoint is occupied it does not ask the
    application either. Otherwise, with an empty bank that the report fits, the application is asked for
    an input report, the report is remembered, and exactly one packet with its identifier and its
    bytes is given to the endpoint if and only if the report is not empty and is forced, differs
    from the previous one, or the idle period is over, which then starts again. The task waits only to
    send. *)
Theorem hid_report_task (s : usb (hid User)) :
  (forall evs, USB_DeviceState s <> Configured \/ PrevFrameNum (app s) = UDFNUM s ->
     HID_Device_USBTask Create Process descriptors signature s evs = Ok (tt, s, evs)) /\
  (forall evs, USB_DeviceState s = Configured -> PrevFrameNum (app s) <> UDFNUM s -> Endpoint_IsReadWriteAllowed (select s) = false ->
     HID_Device_USBTask Create Process descriptors signature s evs = Ok (tt, select s, evs)) /\
  (forall e ev evs force ReportID ReportINData size g,
     USB_DeviceState s = Configured -> PrevFrameNum (app s) <> UDFNUM s -> 0 < in_number s ->
     idle_in (in_number s) e (select s) -> ev <> BusReset ->
     Create 0 HID_REPORT_ITEM_In (replicate (Z.to_nat (PrevReportINBufferSize (app s))) 0) (select s)
       = Ok ((force, ReportID, ReportINData, Z.of_nat size), on_hid (fun a => a <| user ::= g |>) (select s)) ->
     (size <= length ReportINData)%nat -> (forall b, PrevReportINBuffer (app s) = Some b -> length b = length ReportINData) ->
     Z.of_nat size < 65536 -> (length (report_packet ReportID ReportINData size) <= bank_size e)%nat ->
     Forall is_u8 (report_packet ReportID ReportINData size) ->
     let d := due (app s) force ReportINData size in
     exists s' e', HID_Device_USBTask Create Process descriptors signature s (ev :: evs) = Ok (tt, s', if d then evs else ev :: evs) /\
       at_ep (in_number s) e' s' /\ delivered (if d then [report_packet ReportID ReportINData size] else []) e e' /\
       UDFNUM s' = (if d then frame_of (UDFNUM s) ev else UDFNUM s) /\
       app s' = after_report d ReportINData (UDFNUM s') g (app s)).
Proof.
  split; [intros evs; by apply report_task_idle|]. split; [intros evs; by apply report_task_occupied|].
  intros e ev evs force ReportID ReportINData size g. intros.
  destruct (report_task Create Process descriptors signature s e ev evs force ReportID ReportINData size g)
    as (s' & e' & A1 & A2 & A3 & _ & A4 & _ & A5); try done. by exists s', e'.
Qed.

(** C19: the idle rate: an application that has the same report at any time, which it does not
    force, counts every frame and runs the task; the host polls the endpoint in every frame. Of any
    number of milliseconds, the endpoint is given the report on the last one of every idle period,
    and on no other: with [c] milliseconds in a period of which [r] are left, after [m] there have
    been [(m + c - max 1 r) / c] packets. Nothing is lost, and no millisecond waits for the host. *)
Theorem hid_idle_rate ReportID ReportINData size c fs (s : usb (hid User)) e r :
  repeats Create ReportID ReportINData size -> (0 < size <= length ReportINData)%nat -> Z.of_nat size < 65536 ->
  Forall is_u8 (report_packet ReportID ReportINData size) -> polled e s -> PrevReportINBuffer (app s) = Some ReportINData ->
  (length (report_packet ReportID ReportINData size) <= bank_size e)%nat ->
  (0 < c)%nat -> (r <= c)%nat -> IdleCount (app s) = Z.of_nat c -> IdleMSRemaining (app s) = Z.of_nat r ->
  consecutive (PrevFrameNum (app s)) fs ->
  exists s' e', milliseconds Create Process descriptors signature fs s = Ok s' /\ polled e' s' /\
    packets_in e' = packets_in e ++ replicate ((length fs + (c - max 1 r)) / c) (report_packet ReportID ReportINData size).
Proof.
  intros Hrep Hsz H16 Hu Hpo Hprev Hb Hc0 Hrc Hc Hr Hfs.
  destruct (idle_periods Create Process descriptors signature ReportID ReportINData size c Hsz H16 Hrep Hc0 Hu fs s e r)
    as (s' & e' & Hrun & Hpo' & Hdl & _); try done.
  exists s', e'. split; [done|]. split; [done|]. rewrite <- periods_div by done. apply Hdl.
Qed.

(** An output report: the host sends as many bytes as its request has announced, in packets of any
    sizes that fit. The application gets exactly these bytes, without the report's identifier where there
    is one, with the identifier and the type of the request, and the status packet is given to the
    host; nothing else of the driver's state changes. *)
Theorem hid_set_report g r e0 (s : usb (hid User)) evs : processes Process g ->
  at_ep 0 (take_setup (header_bytes r) e0) s -> EPEN e0 = true -> quiet s -> present s ->
  bmRequestType r = class_request REQDIR_HOSTTODEVICE -> bRequest r = HID_REQ_SetReport -> wIndex r = InterfaceNumber (app s) ->
  0 < wLength r < 65536 -> Forall (sending (bank_size e0)) evs -> wLength r <= Z.of_nat (length (concat (outs 0 evs))) ->
  let skip := if report_identifier r =? 0 then 0%nat else 1%nat in
  exists used later s1 e1, ProcessControlRequest Create Process descriptors signature s evs = Ok (tt, s1, later) /\
    evs = used ++ later /\ at_ep 0 e1 s1 /\ armed e1 = [[]] /\ taken e1 = taken e0 /\
    app s1 = app s <| user ::= g (report_identifier r) (report_type r)
                                 (drop skip (take (Z.to_nat (wLength r)) (concat (outs 0 used)))) (wLength r - Z.of_nat skip) |>.
Proof.
  intros. destruct (report_set Create Process descriptors signature g r e0 s evs)
    as (used & later & s1 & e1 & A1 & A2 & A3 & _ & _ & A4 & A5 & A6); try done. by exists used, later, s1, e1.
Qed.

(** C20: the type of the state: whatever the host and the bus do, resets included, and whatever
    requests come in, the driver, the application's calls and the streams keep every state well formed: seven
    endpoints, a register that selects one of eight, an address and a configuration number of eight bits, a
    previous report that fills its buffer, an idle rate that is a multiple of four milliseconds of at most
    1020, and no more than 1020 milliseconds left. The callbacks are asked to keep it so. *)
Theorem hid_typed PrevSize cs (s : usb (hid User)) evs :
  (forall id ty buffer s, typed (hid_ok PrevSize) s ->
    match Create id ty buffer s with
    | Ok ((_, _, ReportData, _), s') => typed (hid_ok PrevSize) s' /\ length ReportData = length buffer
    | _ => True
    end) ->
  (forall id ty data size, op_keeps (hid_ok PrevSize) (Process id ty data size)) ->
  typed (hid_ok PrevSize) s ->
  match calls Create Process descriptors signature cs s evs with Ok (_, s', _) => typed (hid_ok PrevSize) s' | _ => True end.
Proof. intros Hc Hp Hs. by apply calls_keep. Qed.
End Theorems.

(** ** Witnesses *)

(** A mouse that does not move, on the IN endpoint 1 of eight bytes; a keyboard's lights. *)
Definition w_table : USB_Endpoint_Table_t := mkTable 129 8 3 1.
Definition w_app (left : Z) : hid (list Z) := mkHid _ 0 w_table (Some [0; 5; 0]) 3 true 0 8 left [].
Definition w_create : Z -> Z -> list Z -> Op (App:=hid (list Z)) (bool * Z * list Z * Z) :=
  fun _ _ _ s => Ok ((false, 0, [0; 5; 0], 3), s).
Definition w_process : Z -> Z -> list Z -> Z -> Op (App:=hid (list Z)) unit :=
  fun _ _ data _ s => Ok (tt, on_hid (fun a => a <| user := data |>) s).
Definition w_in : endpoint := mkEndpoint true false false 193 (BV ALLOC) 0 [] [] [] [] [] false.
Definition w_hid (left : Z) : usb (hid (list Z)) :=
  fresh_device control_endpoint no_request (w_app left) <| USB_DeviceState := Configured |> <| eps ::= <[1%nat := w_in]> |>
    <| UDFNUM := 9 |>.

(** The idle period is over. *)
Lemma hid_report_task_witness :
  exists s' e', @HID_Device_USBTask _ some_chip w_create w_process (fun _ _ => (0, [])) (fun _ => 0) (w_hid 0) [Frame 10] = Ok (tt, s', []) /\
    at_ep 1 e' s' /\ packets_in e' = [[0; 5; 0]] /\ IdleMSRemaining (app s') = 8.
Proof.
  destruct (proj2 (proj2 (@hid_report_task _ some_chip w_create w_process (fun _ _ => (0, [])) (fun _ => 0) (w_hid 0)))
    w_in (Frame 10) [] false 0 [0; 5; 0] 3%nat (fun u => u)) as (s' & e' & H1 & H2 & (_ & _ & H3 & _) & _ & H4).
  - reflexivity.
  - discriminate.
  - reflexivity.
  - repeat split.
  - discriminate.
  - reflexivity.
  - simpl; lia.
  - intros b Hb. injection Hb as <-. reflexivity.
  - reflexivity.
  - vm_compute; lia.
  - repeat constructor; unfold is_u8; lia.
  - exists s', e'. split; [exact H1|]. split; [exact H2|]. split; [exact H3|]. rewrite H4. reflexivity.
Defined.

(** Seventeen milliseconds, of which the fifth and the thirteenth end a period of eight. *)
Lemma hid_idle_rate_witness :
  exists s' e', @milliseconds _ some_chip w_create w_process (fun _ _ => (0, [])) (fun _ => 0)
      [10; 11; 12; 13; 14; 15; 16; 17; 18; 19; 20; 21; 22; 23; 24; 25; 26] (w_hid 5) = Ok s' /\
    polled e' s' /\ packets_in e' = [[0; 5; 0]; [0; 5; 0]].
Proof.
  destruct (@hid_idle_rate _ some_chip w_create w_process (fun _ _ => (0, [])) (fun _ => 0) 0 [0; 5; 0] 3 8
    [10; 11; 12; 13; 14; 15; 16; 17; 18; 19; 20; 21; 22; 23; 24; 25; 26] (w_hid 5) w_in 5) as (s' & e' & H1 & H2 & H3).
  - intros buffer s. reflexivity.
  - simpl; lia.
  - reflexivity.
  - repeat constructor; unfold is_u8; lia.
  - split; [reflexivity|]. split; [intros i _; reflexivity|]. split; [reflexivity|]. split; [reflexivity|].
    split; [reflexivity|]. split; [reflexivity|]. split; [reflexivity|]. split; [simpl; lia|reflexivity].
  - reflexivity.
  - vm_compute; lia.
  - lia.
  - lia.
  - reflexivity.
  - reflexivity.
  - repeat split; discriminate.
  - exists s', e'. split; [exact H1|]. split; [exact H2|]. rewrite H3. reflexivity.
Defined.

(** Two bytes, the first of which is the identifier 2. *)
Definition w_set_report : USB_Request_Header_t := mkRequest 33 9 514 0 2.
Definition w_requested : usb (hid (list Z)) :=
  fresh_device (take_setup (header_bytes w_set_report) control_endpoint) no_request (w_app 0).
Lemma hid_set_report_witness :
  exists s1 e1, @ProcessControlRequest _ some_chip w_create w_process (fun _ _ => (0, [])) (fun _ => 0) w_requested [Idle; Out 0 [2; 7]]
      = Ok (tt, s1, []) /\ at_ep 0 e1 s1 /\ armed e1 = [[]] /\ user (app s1) = [7].
Proof.
  destruct (@hid_set_report _ some_chip w_create w_process (fun _ _ => (0, [])) (fun _ => 0) (fun _ _ data _ _ => data) w_set_report
    control_endpoint w_requested [Idle; Out 0 [2; 7]]) as (used & later & s1 & e1 & H1 & _ & H2 & H3 & _ & H4).
  - intros id ty data size s. reflexivity.
  - split; reflexivity.
  - reflexivity.
  - intros i _. reflexivity.
  - split; discriminate.
  - reflexivity.
  - reflexivity.
  - reflexivity.
  - simpl; lia.
  - repeat constructor; vm_compute; lia.
  - vm_compute; discriminate.
  - assert (later = [] /\ user (app s1) = [7]) as [-> Hu].
    { vm_compute in H1. injection H1 as <- <-. split; reflexivity. }
    exists s1, e1. split; [exact H1|]. split; [exact H2|]. split; [exact H3|exact Hu].
Defined.

(** A request, a report and a bus reset. *)
Definition w_answers : Z -> Z -> list Z -> Op (App:=hid (list Z)) (bool * Z * list Z * Z) :=
  fun _ _ buffer s => Ok ((true, 1, map (fun _ => 7) buffer, 3), s).
Lemma hid_typed_witness :
  exists s' evs', @calls _ some_chip w_answers w_process (fun _ _ => (0, [])) (fun _ => 0)
      [CallUSBTask; CallMillisecondElapsed; CallDeviceTask] (w_hid 0 <| eps ::= <[0%nat := take_setup (header_bytes (set_idle 0 1024)) control_endpoint]> |>)
      [Idle; BusReset; Idle] = Ok (tt, s', evs') /\ typed (hid_ok 3) s' /\ IdleCount (app s') = 16.
Proof.
  pose proof (@hid_typed _ some_chip w_answers w_process (fun _ _ => (0, [])) (fun _ => 0) 3 [CallUSBTask; CallMillisecondElapsed; CallDeviceTask]
    (w_hid 0 <| eps ::= <[0%nat := take_setup (header_bytes (set_idle 0 1024)) control_endpoint]> |>) [Idle; BusReset; Idle]) as Ht.
  destruct (calls _ _ _ _ _ _ _) as [[[[] s'] evs']| |] eqn:E; [|vm_compute in E; discriminate..].
  exists s', evs'. split; [reflexivity|]. split; [apply Ht|vm_compute in E; injection E as <- _; reflexivity].
  - intros id ty buffer s Hs. split; [exact Hs|]. apply length_map.
  - intros id ty data size s Hs. apply app_keeps; [|exact Hs]. intros a Ha. exact Ha.
  - split; [reflexivity|]. split; [simpl; lia|]. split; [unfold is_u8; simpl; lia|]. split; [unfold is_u8; simpl; lia|].
    split; [reflexivity|]. split; [intros b Hb; injection Hb as <-; reflexivity|].
    split; [exists 2; split; [reflexivity|unfold is_u8; lia]|simpl; lia].
Defined.
End HidDevice.
