(* ===== verification/Enumeration.v ===== *)
(** * The life of the serial device

    From [USB_Init] to a device that transmits: power, the bus reset, the address and the
    configuration, with the controller (UsbController), the general interrupt (Usb), the request
    dispatch (UsbDevice) and the class driver (SerialDevice) together. *)

From S2P Require Import Prelude.
From S2P Require Import Usb.
From S2P Require Import UsbConfigure.
From S2P Require Import UsbController.
From S2P Require Import UsbStream.
From S2P Require Import UsbTransfer.
From S2P Require Import UsbDevice.
From S2P Require Import UsbAnswer.
From S2P Require Import UsbTyped.
From S2P Require Import UsbDescriptors.
From S2P Require Import CdcDevice.
From S2P Require Import SerialDevice.
From Stdlib Require Import Lia ZArith.
Import Usb UsbConfigure UsbController UsbStream UsbTransfer UsbDevice UsbAnswer UsbTyped CdcDevice SerialDevice.

#[local] Open Scope Z_scope.

Module Enumeration.

Section Life.
Context `{UsbChip}.
Variable signature : Z -> Z.
Implicit Types s : usb serial.

(** ** The class driver keeps its tables *)

Lemma on_app_keeps f : (forall a, serial_tables a -> serial_tables (f a)) -> run_keeps serial_tables (on_app f).
Proof using Type. apply app_keeps. Qed.
Lemma requests_keep_tables : keeps serial_tables CDC_Device_ProcessControlRequest.
Proof using Type.
  assert (forall w, keeps serial_tables (run (on_app (fun a => a <| HostToDevice := w |>)))) by (intros w; by apply keeps_run, on_app_keeps).
  assert (forall l, keeps serial_tables (run (on_app (fun a => a <| LineEncoding := l |>)))) by (intros l; by apply keeps_run, on_app_keeps).
  assert (keeps serial_tables (run EVENT_CDC_Device_ControLineStateChanged)) by (by apply keeps_run, on_app_keeps).
  unfold CDC_Device_ProcessControlRequest, GetLineEncoding, SetLineEncoding, SetControlLineState, SendBreak, wait_attached,
    read_encoding, write_encoding, Endpoint_Read_32_LE, Endpoint_Read_16_LE, Endpoint_Write_32_LE.
  keep_typed.
Qed.
Lemma endpoints_keep_tables : op_keeps serial_tables CDC_Device_ConfigureEndpoints.
Proof using Type.
  unfold CDC_Device_ConfigureEndpoints. keep_typed; apply op_keeps_modify, on_app_keeps; try done.
Qed.
Lemma task_keeps_tables : keeps serial_tables (USB_USBTask signature).
Proof using Type.
  pose proof endpoints_keep_tables as He. unfold USB_USBTask. refine (device_task_keeps _ _ _ _ _ requests_keep_tables _).
  unfold CdcDevice.EVENT_USB_Device_ConfigurationChanged. apply keeps_bind; [by apply keeps_op|]. intros _. apply keeps_ret.
Qed.

(** ** Power and reset *)

Lemma power size s0 s : initialised size s0 s ->
  let s1 := tick (Vbus true) s in
  USB_DeviceState s1 = Powered /\ eps s1 = eps s /\ UENUM s1 = 0 /\ USB_Device_ControlEndpointSize s1 = size /\
  (forall i, flag s1 i = false) /\ (forall i, enabled s1 i = enabled s i) /\ app s1 = app s0 /\
  callbacks s1 = callbacks s0 ++ [Device_Connect] /\ VBUS s1 = true.
Proof using Type.
  intros (H1 & H2 & H3 & H4 & H5 & H6 & H7 & H8 & H9 & H10 & H11 & H12 & H13 & _) s1.
  unfold s1, tick, USB_GEN_vect.
  assert (vect_sof (hardware (Vbus true) s) = hardware (Vbus true) s) as ->.
  { unfold vect_sof, fires. simpl. by rewrite H9. }
  set (s2 := event Device_Connect (USB_PLL_On (USB_INT_Clear VBUSTI (hardware (Vbus true) s)) <| USB_DeviceState := Powered |>)).
  assert (vect_vbus (hardware (Vbus true) s) = s2) as ->.
  { unfold vect_vbus, fires. simpl. by rewrite H10. }
  assert (USB_DeviceState s2 = Powered /\ eps s2 = eps s /\ UENUM s2 = 0 /\ USB_Device_ControlEndpointSize s2 = size /\
    (forall i, flag s2 i = false) /\ (forall i, enabled s2 i = enabled s i) /\ app s2 = app s0 /\
    callbacks s2 = callbacks s0 ++ [Device_Connect] /\ VBUS s2 = true) as Hs2.
  { unfold s2, USB_PLL_On. match goal with |- context [if ?b then _ else _] => destruct b end; simpl; rewrite H11, H12; split_and!; try done;
      intros i; case_decide; done. }
  assert (forall i, fires i s2 = false) as Hf by (intros i; unfold fires; by rewrite (proj1 (proj2 (proj2 (proj2 (proj2 Hs2)))))).
  unfold vect_suspend. rewrite Hf. unfold vect_wakeup. rewrite Hf. unfold vect_reset. by rewrite Hf.
Qed.

Lemma bus_reset size s : accepts -> is_u8 size -> length (eps s) = 7%nat -> USB_Device_ControlEndpointSize s = size ->
  (forall i, flag s i = false) -> enabled s EORSTI = true ->
  let s1 := tick BusReset s in
  USB_DeviceState s1 = Default /\ USB_Device_ConfigurationNumber s1 = 0 /\ UDADDR s1 = 0 /\ (forall i, flag s1 i = false) /\
  app s1 = app s /\ callbacks s1 = callbacks s ++ [Device_Reset] /\ length (eps s1) = 7%nat /\
  exists e0 e, shaped 0 EP_TYPE_CONTROL size 1 e0 e /\ at_ep 0 e s1 /\ forall e1, eps s !! 0%nat = Some e1 -> taken e0 = taken e1.
Proof using Type.
  intros Hacc Hu Hlen Hsize Hfl Hen s1. set (r := hardware BusReset s).
  assert (forall i, fires i r = bool_decide (i = EORSTI)) as Hf.
  { intros i. unfold r, fires. simpl. case_decide as Hi; [subst; by rewrite Hen|]. by rewrite Hfl, bool_decide_eq_false_2. }
  assert (s1 = vect_reset r) as ->.
  { unfold s1, tick. fold r. unfold USB_GEN_vect. unfold vect_sof. rewrite Hf. change (bool_decide (SOFI = EORSTI)) with false. cbv iota.
    unfold vect_vbus. rewrite Hf. change (bool_decide (VBUSTI = EORSTI)) with false. cbv iota.
    unfold vect_suspend. rewrite Hf. change (bool_decide (SUSPI = EORSTI)) with false. cbv iota.
    unfold vect_wakeup. by rewrite Hf. }
  unfold vect_reset. rewrite Hf. change (bool_decide (EORSTI = EORSTI)) with true. cbv iota zeta.
  match goal with |- context [Endpoint_ConfigureEndpoint _ _ _ _ ?x] => set (s2 := x) end.
  assert (length (eps s2) = 7%nat) as Hl2 by (unfold s2, r; simpl; by rewrite length_imap).
  assert (forall e0 e1, eps s2 !! 0%nat = Some e0 -> eps s !! 0%nat = Some e1 -> taken e0 = taken e1) as Htk.
  { intros e0 e1 He0 He1. unfold s2, r in He0. simpl in He0. rewrite list_lookup_imap, He1 in He0. by injection He0 as <-. }
  assert (USB_DeviceState s2 = Default /\ USB_Device_ConfigurationNumber s2 = 0 /\ UDADDR s2 = 0 /\ (forall i, flag s2 i = false) /\
    app s2 = app s /\ callbacks s2 = callbacks s /\ USB_Device_ControlEndpointSize s2 = size) as (A1 & A2 & A3 & A4 & A5 & A6 & A7).
  { unfold s2, r. simpl. split_and!; try done. intros i. simpl. repeat case_decide; done. }
  clearbody s2. pose proof (configured ENDPOINT_CONTROLEP EP_TYPE_CONTROL size 1 s2 Hacc ltac:(unfold is_u8 in Hu; lia) Hl2) as Hc.
  cbv zeta in Hc. change (Z.land ENDPOINT_CONTROLEP ENDPOINT_EPNUM_MASK) with 0 in Hc. change (0 <? 7) with true in Hc. cbv iota in Hc.
  destruct Hc as (s3 & Hrun & Heq & Hl & Hj). rewrite A7, Hrun.
  assert (USB_DeviceState s3 = USB_DeviceState s2 /\ USB_Device_ConfigurationNumber s3 = USB_Device_ConfigurationNumber s2 /\
    UDADDR s3 = UDADDR s2 /\ flag s3 = flag s2 /\ app s3 = app s2 /\ callbacks s3 = callbacks s2 /\ UENUM s3 = 0)
    as (B1 & B2 & B3 & B4 & B5 & B6 & B7) by (by rewrite Heq).
  clear Heq. destruct (lookup_lt_is_Some_2 (eps s2) 0) as [e0 He0]; [lia|]. destruct (Hj 0%nat e0 He0) as (e & He & Hs).
  change (Z.of_nat 0 <? 0) with false in Hs. change (Z.of_nat 0 =? 0) with true in Hs. cbv iota in Hs.
  split; [change (USB_DeviceState s3 = Default); congruence|]. split; [change (USB_Device_ConfigurationNumber s3 = 0); congruence|].
  split; [change (UDADDR s3 = 0); congruence|]. split; [intros i; change (flag s3 i = false); by rewrite B4|].
  split; [change (app s3 = app s); congruence|]. split; [change (callbacks s3 ++ [Device_Reset] = callbacks s ++ [Device_Reset]); congruence|].
  split; [exact Hl|]. exists e0, e. split; [done|]. split; [done|]. intros e1. by apply Htk.
Qed.

(** ** The address and the configuration *)

(** The task selects the control endpoint again. *)
Lemma select_back s0 s1 : UENUM s0 = 0 -> UENUM s1 = 0 -> Endpoint_SelectEndpoint (Endpoint_GetCurrentEndpoint s0) s1 = s1.
Proof using Type.
  intros H0 H1. unfold Endpoint_SelectEndpoint, Endpoint_GetCurrentEndpoint, Endpoint_GetEndpointDirection. rewrite H0.
  destruct (Z.testbit _ _); destruct s1; unfold set_field; simpl in *; by subst.
Qed.

Definition set_address (a : Z) : USB_Request_Header_t := mkRequest 0 REQ_SetAddress a 0 0.

Lemma addressed a e s evs : at_ep 0 e s -> quiet s -> EPEN e = true -> banks e = 1%nat -> USB_DeviceState s <> Unattached ->
  0 < a < 128 -> typed serial_tables s -> forallb patient evs = true -> ins 0 evs = 0%nat ->
  exists s1 e1, USB_USBTask signature (tick (Setup (header_bytes (set_address a))) s) (evs ++ [In 0]) = Ok (tt, s1, []) /\
    at_ep 0 e1 s1 /\ quiet s1 /\ ready e1 /\ typed serial_tables s1 /\ taken e1 = taken e ++ [[]] /\
    UDADDR s1 = 128 + a /\ USB_DeviceState s1 = Addressed /\ app s1 = app s /\
    (UDADDR s = 0 -> tokens s1 = tokens s ++ replicate (S (polls evs)) a).
Proof using Type.
  intros Ha Hq Hen Hb Hst Hrange Hty Hev Hin. set (s0 := tick (Setup (header_bytes (set_address a))) s).
  destruct (at_tick_packet 0 e s (Setup (header_bytes (set_address a))) Ha Hq eq_refl) as (Ha0 & Hc0 & Hq0). fold s0 in Ha0, Hc0, Hq0.
  change (act 0 (Setup (header_bytes (set_address a))) e) with (take_setup (header_bytes (set_address a)) e) in Ha0.
  assert (Endpoint_SelectEndpoint ENDPOINT_CONTROLEP s0 = s0) as Hsel.
  { unfold Endpoint_SelectEndpoint. destruct Ha0 as [Hu _]. destruct s0. unfold set_field. simpl in *. by subst. }
  destruct (address_served CDC_Device_ProcessControlRequest CdcDevice.EVENT_USB_Device_ConfigurationChanged
    UsbDescriptors.CALLBACK_USB_GetDescriptor signature (set_address a) e s0 evs [])
    as (_ & s1 & e1 & Hrun & Ha1 & Ht1 & Hu1 & Hst1 & _ & Hq1 & Hr1 & _ & _ & Happ1 & Htok); try done; [by apply cdc_declines|simpl; lia|].
  pose proof (core_app _ _ Hc0) as Happ0. pose proof (core_state _ _ Hc0) as Hst0.
  assert (USB_USBTask signature s0 (evs ++ [In 0]) = Ok (tt, Endpoint_SelectEndpoint (Endpoint_GetCurrentEndpoint s0) s1, [])) as Htask.
  { unfold USB_USBTask. apply (device_task_setup _ _ _ _ (set_address a) (take_setup (header_bytes (set_address a)) e)); rewrite ?Hsel;
      [by apply setup_requested|congruence|exact Hrun]. }
  assert (Endpoint_SelectEndpoint (Endpoint_GetCurrentEndpoint s0) s1 = s1) as Hback.
  { apply select_back; [apply Ha0|apply Ha1]. }
  rewrite Hback in Htask. exists s1, e1. split; [exact Htask|]. split; [done|]. split; [done|]. split; [done|].
  pose proof (task_keeps_tables s0 (evs ++ [In 0]) (tick_keeps _ _ _ Hty)) as Hty1. rewrite Htask in Hty1. split; [done|].
  simpl in Hu1, Hst1. rewrite (Z.mod_small a) in Hu1, Hst1 by lia. rewrite (proj2 (Z.eqb_neq a 0)) in Hst1 by lia.
  split; [done|]. split; [done|]. split; [done|]. split; [congruence|]. intros Hz.
  rewrite Htok. simpl. rewrite (Z.mod_small a) by lia. injection Hc0 as _ _ _ _ _ _ _ -> _ _. rewrite Hz. f_equal.
  unfold s0. rewrite tick_tokens by done. apply app_nil_r.
Qed.

Lemma select_control s0 s : UENUM s0 = 0 ->
  Endpoint_SelectEndpoint (Endpoint_GetCurrentEndpoint s0) s = s <| UENUM := 0 |>.
Proof using Type.
  intros H0. unfold Endpoint_SelectEndpoint, Endpoint_GetCurrentEndpoint, Endpoint_GetEndpointDirection. rewrite H0.
  by destruct (Z.testbit _ _).
Qed.

(** What transmission and reception start from. *)
Definition serving evs s : Prop :=
  USB_DeviceState s = Configured /\ USB_Device_ConfigurationNumber s = 1 /\
  (exists w, tx_state true 3 w (app s) evs s) /\ rx_state 4 [] (app s) s.

Lemma configured_by_host e s evs : accepts -> at_ep 0 e s -> quiet s -> USB_DeviceState s <> Unattached -> typed serial_tables s ->
  Forall (fun ev => ev <> BusReset /\ forall data, ev <> Setup data) evs ->
  exists s1, USB_USBTask signature (tick (Setup (header_bytes set_configuration)) s) evs = Ok (tt, s1, evs) /\
    serving evs s1 /\ app s1 = reset_info (app s) /\ eps s1 !! 0%nat = Some (acked e <| armed := [[]] |>).
Proof using Type.
  intros Hacc Ha Hq Hst (Hlen & _ & _ & _ & Htab) Hev. set (s0 := tick (Setup (header_bytes set_configuration)) s).
  destruct (at_tick_packet 0 e s (Setup (header_bytes set_configuration)) Ha Hq eq_refl) as (Ha0 & Hc0 & Hq0). fold s0 in Ha0, Hc0, Hq0.
  change (act 0 (Setup (header_bytes set_configuration)) e) with (take_setup (header_bytes set_configuration) e) in Ha0.
  assert (Endpoint_SelectEndpoint ENDPOINT_CONTROLEP s0 = s0) as Hsel.
  { unfold Endpoint_SelectEndpoint. destruct Ha0 as [Hu _]. destruct s0. unfold set_field. simpl in *. by subst. }
  pose proof (core_app _ _ Hc0) as Happ0. pose proof (core_state _ _ Hc0) as Hst0.
  assert (length (eps s0) = 7%nat) as Hlen0.
  { destruct (tick_packet (Setup (header_bytes set_configuration)) s eq_refl Hq) as (_ & _ & Heps). fold s0 in Heps. rewrite Heps. simpl. by rewrite length_alter. }
  destruct (configuration_done signature e s0 evs Hacc Ha0) as (s1 & Hrun & H1 & H2 & H3 & H4 & H5 & H6); try done;
    [by rewrite Happ0|by apply Hq0|].
  exists (s1 <| UENUM := 0 |>). split; [|split; [|split; [simpl; congruence|exact H4]]].
  - unfold USB_USBTask. rewrite (device_task_setup _ _ _ _ set_configuration (take_setup (header_bytes set_configuration) e) s0 evs s1 evs).
    + by rewrite select_control by apply Ha0.
    + rewrite Hsel. by apply setup_requested.
    + congruence.
    + rewrite Hsel. exact Hrun.
  - split; [done|]. split; [done|]. split; [|exact H6]. eexists.
    destruct H5 as (T1 & T2 & T3 & T4 & T5 & T6 & T7). split; [done|]. split; [exact T2|]. split; [done|]. split; [exact T4|].
    split; [exact T5|]. split; [done|]. intros Hi. destruct (T7 Hi) as (N1 & _ & N3 & N4). split; [exact N1|]. split; [simpl; lia|]. by split.
Qed.

Lemma life c Mode Options a evs1 evs2 : accepts -> as_device Mode c -> serial_tables (app (dev c)) -> 0 < a < 128 ->
  forallb patient evs1 = true -> ins 0 evs1 = 0%nat -> Forall (fun ev => ev <> BusReset /\ forall data, ev <> Setup data) evs2 ->
  exists c0, USB_Init UsbDescriptors.CALLBACK_USB_GetDescriptor Mode Options c = Ok c0 /\
    let s1 := tick BusReset (tick (Vbus true) (dev c0)) in
    USB_DeviceState s1 = Default /\ UDADDR s1 = 0 /\ callbacks s1 = callbacks (dev c) ++ [Device_Connect; Device_Reset] /\
    exists s2, USB_USBTask signature (tick (Setup (header_bytes (set_address a))) s1) (evs1 ++ [In 0]) = Ok (tt, s2, []) /\
      USB_DeviceState s2 = Addressed /\ UDADDR s2 = 128 + a /\ tokens s2 = tokens s1 ++ replicate (S (polls evs1)) a /\
      exists s3, USB_USBTask signature (tick (Setup (header_bytes set_configuration)) s2) evs2 = Ok (tt, s3, evs2) /\
        serving evs2 s3 /\ app s3 = reset_info (app (dev c)) /\
        exists e, eps s3 !! 0%nat = Some e /\ taken e = [[]] /\ armed e = [[]].
Proof using Type.
  intros Hacc Hm Htab Hrange Hev1 Hin Hev2.
  destruct (init_up UsbDescriptors.CALLBACK_USB_GetDescriptor Mode Options c 18 UsbDescriptors.DeviceDescriptor 8)
    as (c0 & Hrun & Hi & _); try done.
  exists c0. split; [done|]. intros s1.
  destruct (power _ _ _ Hi) as (P1 & P2 & P3 & P4 & P5 & P6 & P7 & P8 & P9). set (s0 := tick (Vbus true) (dev c0)) in *.
  destruct Hi as (_ & _ & _ & _ & _ & _ & _ & _ & _ & Hen & _ & _ & _ & _ & Hlen & (e1 & He1 & Hs1) & _).
  destruct (bus_reset 8 s0 Hacc) as (B1 & B2 & B3 & B4 & B5 & B6 & B7 & e0 & e & B8 & B9 & B10); try done.
  { by rewrite P2. }
  { by rewrite P6, Hen. }
  fold s1 in B1, B2, B3, B4, B5, B6, B7, B9.
  split; [done|]. split; [done|]. split; [rewrite B6, P8; by rewrite <- app_assoc|].
  assert (taken e = []) as Htk.
  { assert (taken e = taken e0) as -> by apply B8. rewrite (B10 e1) by (by rewrite P2). apply Hs1. }
  assert (typed serial_tables s1) as Hty.
  { split; [done|]. split; [rewrite (proj1 B9); lia|]. split; [rewrite B2; unfold is_u8; lia|]. split; [rewrite B3; unfold is_u8; lia|].
    by rewrite B5, P7. }
  assert (quiet s1) as Hq by (intros i _; unfold fires; by rewrite B4).
  destruct (addressed a e s1 evs1 B9 Hq) as (s2 & e2 & Hrun2 & A1 & A2 & A3 & A4 & A5 & A6 & A7 & A8 & A9); try done;
    [apply B8|apply B8|congruence|].
  exists s2. split; [done|]. split; [done|]. split; [done|]. split; [by apply A9|].
  destruct (configured_by_host e2 s2 evs2 Hacc A1 A2) as (s3 & Hrun3 & C1 & C2 & C3); try done; [congruence|].
  exists s3. split; [done|]. split; [done|]. split; [rewrite C2, A8, B5, P7; done|]. eexists. split; [exact C3|]. split; [|done].
  change (taken e2 = [[]]). by rewrite A5, Htk.
Qed.
End Life.

(** ** Theorem *)

(** C8: the life of the serial device up to its work: from any state of controller and library,
    [USB_Init] in device mode, then power and a bus reset, of which the application is told; the host
    addresses the device, which takes the address only when its empty status packet has been
    collected: whenever the host asked for a packet, the last time when it got the status packet, the
    address register held the new address but not yet the bit that enables it; and the host chooses
    the configuration. Each request is served by one call of [USB_USBTask]. While it addresses
    the device, frames pass and the host asks for packets ([patient]); while it configures it, anything
    but a bus reset or another request may happen. In the end the device is configured, has answered
    both requests with empty packets, has forgotten the line state and encoding, and is where the theorems on
    transmission and reception start. *)
Theorem serial_life `{UsbChip} signature (c : controller serial) Mode Options a evs1 evs2 :
  accepts -> as_device Mode c -> serial_tables (app (dev c)) -> 0 < a < 128 ->
  forallb patient evs1 = true -> ins 0 evs1 = 0%nat -> Forall (fun ev => ev <> BusReset /\ forall data, ev <> Setup data) evs2 ->
  exists c0, USB_Init UsbDescriptors.CALLBACK_USB_GetDescriptor Mode Options c = Ok c0 /\
    let s1 := tick BusReset (tick (Vbus true) (dev c0)) in
    USB_DeviceState s1 = Default /\ UDADDR s1 = 0 /\ callbacks s1 = callbacks (dev c) ++ [Device_Connect; Device_Reset] /\
    exists s2, USB_USBTask signature (tick (Setup (header_bytes (set_address a))) s1) (evs1 ++ [In 0]) = Ok (tt, s2, []) /\
      USB_DeviceState s2 = Addressed /\ UDADDR s2 = 128 + a /\ tokens s2 = tokens s1 ++ replicate (S (polls evs1)) a /\
      exists s3, USB_USBTask signature (tick (Setup (header_bytes set_configuration)) s2) evs2 = Ok (tt, s3, evs2) /\
        serving evs2 s3 /\ app s3 = reset_info (app (dev c)) /\
        exists e, eps s3 !! 0%nat = Some e /\ taken e = [[]] /\ armed e = [[]].
Proof. apply life. Qed.

(** The core's interface, on a part that has just been switched on. *)
Lemma serial_life_witness :
  exists c0 s2 s3, @USB_Init _ some_chip UsbDescriptors.CALLBACK_USB_GetDescriptor USB_MODE_UID 0 (w_controller VirtualSerial_CDC_Interface) = Ok c0 /\
    @USB_USBTask some_chip (fun _ => 0)
      (@tick _ some_chip (Setup [0; 5; 9; 0; 0; 0; 0; 0]) (@tick _ some_chip BusReset (@tick _ some_chip (Vbus true) (dev c0))))
      ([Idle; Frame 3] ++ [In 0]) = Ok (tt, s2, []) /\
    @USB_USBTask some_chip (fun _ => 0) (@tick _ some_chip (Setup [0; 9; 1; 0; 0; 0; 0; 0]) s2) [Frame 4] = Ok (tt, s3, [Frame 4]) /\
    UDADDR s2 = 137 /\ serving [Frame 4] s3.
Proof.
  destruct (@serial_life some_chip (fun _ => 0) (w_controller VirtualSerial_CDC_Interface) USB_MODE_UID 0 9 [Idle; Frame 3] [Frame 4])
    as (c0 & H1 & _ & _ & _ & s2 & H2 & _ & H3 & _ & s3 & H4 & H5 & _).
  - intros n c0 c1. reflexivity.
  - right. split; reflexivity.
  - repeat split.
  - lia.
  - reflexivity.
  - reflexivity.
  - repeat constructor; discriminate.
  - exists c0, s2, s3. split; [exact H1|]. split; [exact H2|]. split; [exact H4|]. split; [exact H3|exact H5].
Defined.
End Enumeration.
