(* ===== verification/SerialPort.v ===== *)
(** * The serial port that sketches use (USBSerialClass.cpp, Print.cpp)

    The class [USBSerial_] over the class driver: what its methods return, the byte that is kept
    when a sketch peeks, and sessions of calls with transmission and reception at once. *)

From S2P Require Import Prelude.
From S2P Require Import Usb.
From S2P Require Import UsbController.
From S2P Require Import UsbStream.
From S2P Require Import UsbTransfer.
From S2P Require Import UsbDevice.
From S2P Require Import UsbDescriptors.
From S2P Require Import CdcDevice.
From Stdlib Require Import Lia ZArith.
Import Usb UsbController UsbStream UsbTransfer UsbDevice CdcDevice.

#[local] Open Scope Z_scope.

Module SerialPort.

(** ** The class *)

(** The members of [USBSerial_]; the device it works on is the state of the monad. *)
Record USBSerial_ := mkPort { m_peek : Z; m_didPeek : bool }.

Section Port.
Context `{UsbChip}.
Variable signature : Z -> Z.
#[local] Abbreviation M := (M (App:=serial)).
#[local] Abbreviation state := (usb serial).
Implicit Types (s : state) (p : USBSerial_).

Definition new_port : USBSerial_ := mkPort 0 false.

(** The baud rate is ignored; the options are full speed, the regulator on and the automatic
    phase-locked loop, which are all zero. *)
Definition port_begin (p_baud : Z) (c : controller serial) : res (controller serial) :=
  USB_Init UsbDescriptors.CALLBACK_USB_GetDescriptor USB_MODE_UID 0 c.
Definition port_end (c : controller serial) : controller serial := USB_Disable c.

Definition _doTasks : M unit := _ ← CDC_Device_USBTask; USB_USBTask signature.

Definition port_available : M Z := _ ← _doTasks; CDC_Device_BytesReceived.
Definition port_accept : M unit := mret tt.
Definition port_peek p : M (Z * USBSerial_) :=
  _ ← _doTasks;
  n ← port_available;
  if 0 <? n then b ← CDC_Device_ReceiveByte; mret (b, mkPort b true)
  else mret (0, p).
(** [None]: the function ends without a value. *)
Definition port_read p : M (option Z * USBSerial_) :=
  _ ← _doTasks;
  if m_didPeek p then mret (Some (m_peek p), mkPort (m_peek p) false)
  else
    st ← get USB_DeviceState;
    if decide (st <> Configured) then mret (Some (-1), p)
    else
      n ← port_available;
      if 0 <? n then b ← CDC_Device_ReceiveByte; mret (Some b, p) else mret (None, p).
Definition port_write (p_char : Z) : M Z :=
  _ ← _doTasks;
  st ← get USB_DeviceState;
  if decide (st <> Configured) then mret 0
  else
    ret ← CDC_Device_SendByte p_char;
    mret (if decide (ret = NoError) then 1 else 0).
Definition port_flush : M unit := _ ← _doTasks; _ ← CDC_Device_Flush; mret tt.

(** What the bus does while a sketch, or a delay, takes its time. *)
Fixpoint elapse (n : nat) : M unit := fun s evs =>
  match n, evs with S n', ev :: evs' => elapse n' (tick ev s) evs' | _, _ => Ok (tt, s, evs) end.
(** The conversion to [bool], with what happens during its delay. *)
Definition port_bool (n : nat) : M bool :=
  _ ← USB_USBTask signature;
  l ← get (fun s => m_lineState (app s));
  if l =? 0 then mret false else _ ← elapse n; mret true.

(** [Print::write]: the number of bytes that were accepted, in 16 bits. *)
Fixpoint print_write (n : Z) (buffer : list Z) : M Z :=
  match buffer with
  | [] => mret n
  | c :: buffer' => r ← port_write c; print_write (u16 (n + r)) buffer'
  end.

(** ** Sessions *)

(** The calls of a sketch, and the time between them. *)
Inductive call := Available | Accept | Peek | Read | Write (b : Z) | Print (bytes : list Z) | Flush | Ready (n : nat) | Pass (n : nat).

Definition perform (c : call) p : M (option Z * USBSerial_) :=
  match c with
  | Available => n ← port_available; mret (Some n, p)
  | Accept => _ ← port_accept; mret (None, p)
  | Peek => '(b, p) ← port_peek p; mret (Some b, p)
  | Read => port_read p
  | Write b => r ← port_write b; mret (Some r, p)
  | Print bytes => r ← print_write 0 bytes; mret (Some r, p)
  | Flush => _ ← port_flush; mret (None, p)
  | Ready n => b ← port_bool n; mret (Some (if b : bool then 1 else 0), p)
  | Pass n => _ ← elapse n; mret (None, p)
  end.
Fixpoint session (calls : list call) p : M (list (option Z) * USBSerial_) :=
  match calls with
  | [] => mret ([], p)
  | c :: calls' => '(a, p) ← perform c p; '(l, p) ← session calls' p; mret (a :: l, p)
  end.

(** ** What other endpoints keep *)

(** [unmoved J m]: whatever happens, [m] keeps [J], a fact of the events to come and the state. *)
Definition unmoved {A} (J : list bus_event -> state -> Prop) (m : M A) : Prop :=
  forall s evs, J evs s -> match m s evs with Ok (_, s', evs') => J evs' s' | _ => True end.

Lemma unmoved_ret {A} J (a : A) : unmoved J (mret a).
Proof using Type. by intros s evs Hs. Qed.
Lemma unmoved_get {A} J (f : state -> A) : unmoved J (get f).
Proof using Type. by intros s evs Hs. Qed.
Lemma unmoved_run J f : (forall evs s, J evs s -> J evs (f s)) -> unmoved J (run f).
Proof using Type. intros Hf s evs Hs. by apply Hf. Qed.
Lemma unmoved_bind {A B} J (m : M A) (f : A -> M B) : unmoved J m -> (forall a, unmoved J (f a)) -> unmoved J (m ≫= f).
Proof using Type.
  intros Hm Hf s evs Hs. specialize (Hm s evs Hs). unfold mbind, M_bind. destruct (m s evs) as [[[a s'] evs']| |]; try done. by apply Hf.
Qed.
Lemma within_unmoved {A} J k (I : A -> list bus_event -> state -> Prop) (m : M A) s evs :
  within k I s evs (m s evs) -> unmoved J m -> J evs s -> within k (fun a evs s => I a evs s /\ J evs s) s evs (m s evs).
Proof using Type.
  intros Hw Hm Hs. specialize (Hm s evs Hs). destruct (m s evs) as [[[a s'] evs']| |]; try done.
  destruct Hw as (H1 & H2). by split.
Qed.

Section Frame.
(** Endpoint [n] is worked on, and [J] is about the others. *)
Variables (n : Z) (J : list bus_event -> state -> Prop).
Hypothesis J_stable : stable J.
Hypothesis J_select : forall addr evs s, J evs s -> J evs (Endpoint_SelectEndpoint addr s).
Hypothesis J_on_cur : forall f evs s, UENUM s = n -> J evs s -> J evs (on_cur f s).
Hypothesis J_steady : forall evs s, J evs s -> fires EORSTI s = false /\ no_reset evs.

Definition selected evs s : Prop := UENUM s = n /\ J evs s.
Lemma selected_stable : stable selected.
Proof using All.
  intros ev evs s [Hu Hj]. split; [|by apply J_stable]. destruct (J_steady _ _ Hj) as [Hf Hev].
  apply Forall_cons_1 in Hev as [Hv _]. destruct (tick_steady ev s Hv Hf) as [Hst _]. injection Hst. congruence.
Qed.
Lemma selected_on_cur f : unmoved selected (run (on_cur f)).
Proof using All. apply unmoved_run. intros evs s [Hu Hj]. split; [done|by apply J_on_cur]. Qed.
Lemma selected_write b : unmoved selected (op (Endpoint_Write_8 b)).
Proof using All.
  intros s evs Hs. unfold op, Endpoint_Write_8. destruct (_ && _); [|done]. destruct Hs. split; [done|by apply J_on_cur].
Qed.
Lemma selected_read : unmoved selected (op Endpoint_Read_8).
Proof using All.
  intros s evs [Hu Hj]. unfold op, Endpoint_Read_8. repeat case_match; simplify_eq; try done; (split; [done|by apply J_on_cur]).
Qed.
Lemma selected_wait : unmoved selected Endpoint_WaitUntilReady.
Proof using All.
  intros s evs Hs. pose proof (wait_rule selected s evs selected_stable Hs) as Hw. unfold within in Hw.
  destruct (Endpoint_WaitUntilReady s evs) as [[[err s'] evs']| |]; [by destruct Hw as ((H1 & _) & _)|done..].
Qed.
Lemma selected_select {A} (t : state -> USB_Endpoint_Table_t) (m : M A) :
  (forall evs s, J evs s -> endpoint_number (t s) = n) -> unmoved selected m ->
  unmoved J (_ ← run (fun s => Endpoint_SelectEndpoint (Address (t s)) s); m).
Proof using All.
  intros Ht Hm s evs Hj. rewrite bind_run.
  assert (selected evs (Endpoint_SelectEndpoint (Address (t s)) s)) as Hs.
  { split; [|by apply J_select]. by apply Ht with evs. }
  specialize (Hm _ _ Hs). destruct (m _ _) as [[[a s'] evs']| |]; [apply Hm|done..].
Qed.

(** The functions of the class driver, on the endpoint they select. *)
#[local] Ltac frame :=
  repeat first
    [ apply unmoved_ret | apply unmoved_get | apply selected_on_cur | apply selected_write | apply selected_read | apply selected_wait
    | apply unmoved_bind; [|intros ?] | case_match ].
Lemma flush_frame : (forall evs s, J evs s -> endpoint_number (DataINEndpoint (app s)) = n) -> unmoved J CDC_Device_Flush.
Proof using All.
  intros Ht. unfold CDC_Device_Flush. apply unmoved_bind; [apply unmoved_get|]. intros ok. case_match; [apply unmoved_ret|].
  apply (selected_select (fun s => DataINEndpoint (app s))); [done|]. frame.
Qed.
Lemma task_frame : (forall evs s, J evs s -> endpoint_number (DataINEndpoint (app s)) = n) -> unmoved J CDC_Device_USBTask.
Proof using All.
  intros Ht. unfold CDC_Device_USBTask. apply unmoved_bind; [apply unmoved_get|]. intros ok. case_match; [apply unmoved_ret|].
  intros s evs Hj. rewrite bind_run, bind_get.
  assert (J evs (Endpoint_SelectEndpoint (Address (DataINEndpoint (app s))) s)) as Hj1 by (by apply J_select).
  destruct (Endpoint_IsINReady _); [|done]. exact (unmoved_bind J CDC_Device_Flush (fun _ => mret tt) (flush_frame Ht) (fun _ => unmoved_ret J tt) _ evs Hj1).
Qed.
Lemma send_frame b : (forall evs s, J evs s -> endpoint_number (DataINEndpoint (app s)) = n) -> unmoved J (CDC_Device_SendByte b).
Proof using All.
  intros Ht. unfold CDC_Device_SendByte. apply unmoved_bind; [apply unmoved_get|]. intros ok. case_match; [apply unmoved_ret|].
  apply (selected_select (fun s => DataINEndpoint (app s))); [done|]. frame.
Qed.
Lemma received_frame : (forall evs s, J evs s -> endpoint_number (DataOUTEndpoint (app s)) = n) -> unmoved J CDC_Device_BytesReceived.
Proof using All.
  intros Ht. unfold CDC_Device_BytesReceived. apply unmoved_bind; [apply unmoved_get|]. intros ok. case_match; [apply unmoved_ret|].
  apply (selected_select (fun s => DataOUTEndpoint (app s))); [done|]. frame.
Qed.
Lemma receive_frame : (forall evs s, J evs s -> endpoint_number (DataOUTEndpoint (app s)) = n) -> unmoved J CDC_Device_ReceiveByte.
Proof using All.
  intros Ht. unfold CDC_Device_ReceiveByte. apply unmoved_bind; [apply unmoved_get|]. intros ok. case_match; [apply unmoved_ret|].
  apply (selected_select (fun s => DataOUTEndpoint (app s))); [done|]. frame.
Qed.
End Frame.

(** ** Both directions at once *)

Section Duplex.
(** The numbers of the two data endpoints, and the application. *)
Variables (nt nr : Z) (a : serial).
Hypothesis apart : nt <> nr.

(** Data was transmitted to [w], [r] is there to be received, the bus is not reset and no request is
    to come. *)
Definition online (w r : list Z) evs s : Prop := tx_state true nt w a evs s /\ rx_state nr r a s /\ Forall rx_event_ok evs.
(** [got] has been taken of what was there and what has arrived since. *)
Definition arrived (got r : list Z) evs0 evs s : Prop :=
  exists used P r', evs0 = used ++ evs /\ P `sublist_of` outs nr used /\ got ++ r' = r ++ concat P /\
    rx_state nr r' a s /\ Forall rx_event_ok evs.
Definition after (w got r : list Z) evs0 evs s : Prop :=
  exists used P r', evs0 = used ++ evs /\ P `sublist_of` outs nr used /\ got ++ r' = r ++ concat P /\ online w r' evs s.

Lemma rx_on_other r f s : UENUM s = nt -> rx_state nr r a s -> rx_state nr r a (on_cur f s).
Proof using All.
  intros Hu (H1 & H2 & H3 & (e & He & H4) & H5). split_and!; try done. exists e. split; [|done].
  unfold on_cur, on_ep. simpl. rewrite list_lookup_alter_ne; [done|]. lia.
Qed.
Lemma rx_steady r evs s : rx_state nr r a s -> Forall rx_event_ok evs -> fires EORSTI s = false /\ no_reset evs.
Proof using All. intros (_ & _ & _ & _ & Hf) Hev. split; [done|]. eapply Forall_impl; [|exact Hev]. by intros ev [H1 _]. Qed.
Lemma arrived_stable r evs0 : stable (arrived [] r evs0).
Proof using All.
  intros ev evs s (used & P & r' & -> & HP & Hg & Hr & Hev). apply Forall_cons_1 in Hev as [Hv Hev].
  destruct (tick_rx nr r' a ev s Hr Hv) as (P1 & HP1 & Hr1).
  exists (used ++ [ev]), (P ++ P1), (r' ++ concat P1). rewrite outs_app, concat_app. split; [by rewrite <- app_assoc|].
  split; [by apply sublist_app|]. split; [|done]. simpl in *. by rewrite Hg, app_assoc.
Qed.
Lemma tx_stable w : stable (tx_state true nt w a).
Proof using All.
  intros ev evs s (H1 & H2 & H3 & (e & He & Hf & Hw) & Hr & Hev & Hi). apply Forall_cons_1 in Hev as [Hv Hev].
  destruct (tick_steady ev s Hv Hr) as [Hst Heps]. injection Hst as _ _ _ _ _ Happ Hf'.
  destruct (act_wire nt ev e H3 Hf) as (Hw' & Hf1 & _). split; [congruence|]. split; [done|]. split; [done|]. split.
  - exists (act nt ev e). rewrite Heps. split; [by apply hardware_lookup|]. split; [done|congruence].
  - split; [congruence|]. split; [done|]. intros _. by apply no_control_stable, Hi.
Qed.
Lemma tx_select_any w addr evs s : tx_state true nt w a evs s -> tx_state true nt w a evs (Endpoint_SelectEndpoint addr s).
Proof using All.
  intros (H1 & H2 & H3 & H4 & H5 & H6 & H7). split_and!; try done. intros _. destruct (H7 eq_refl) as (N1 & _ & N3).
  split; [done|]. split; [|done]. simpl. apply (number_small (mkTable addr 0 0 0)).
Qed.
Lemma tx_on_other w f evs s : 0 < nr -> UENUM s = nr -> tx_state true nt w a evs s -> tx_state true nt w a evs (on_cur f s).
Proof using All.
  intros Hp Hu (H1 & H2 & H3 & (e & He & H4) & H5 & H6 & H7). split_and!; try done.
  - exists e. split; [|done]. unfold on_cur, on_ep. simpl. rewrite list_lookup_alter_ne; [done|]. lia.
  - intros _. apply (no_control_on_cur nr Hp); [done|]. by apply H7.
Qed.

Lemma online_after w r evs s : online w r evs s -> after w [] r evs evs s.
Proof using All. intros Ho. exists [], [], r. rewrite app_nil_r. split_and!; try done. Qed.
Lemma after_then w2 g1 g2 r evs0 u1 P1 r1 evs1 evs2 s2 : evs0 = u1 ++ evs1 -> P1 `sublist_of` outs nr u1 -> g1 ++ r1 = r ++ concat P1 ->
  after w2 g2 r1 evs1 evs2 s2 -> after w2 (g1 ++ g2) r evs0 evs2 s2.
Proof using All.
  intros -> HP1 Hg1 (u2 & P2 & r2 & -> & HP2 & Hg2 & Ho2).
  exists (u1 ++ u2), (P1 ++ P2), r2. rewrite outs_app, concat_app, app_assoc. split; [done|]. split; [by apply sublist_app|].
  split; [|done]. by rewrite <- app_assoc, Hg2, !app_assoc, Hg1.
Qed.

(** The tasks, transmission, reception. *)
Lemma in_step {A} k w r evs s (m : M A) (I : A -> list Z -> Prop) :
  online w r evs s ->
  within k (fun x evs' s' => exists f, I x f /\ tx_state true nt (w ++ f) a evs' s') s evs (m s evs) ->
  unmoved (arrived [] r evs) m ->
  within k (fun x evs' s' => exists f, I x f /\ after (w ++ f) [] r evs evs' s') s evs (m s evs).
Proof using All.
  intros (Ht & Hr & Hev) Hw Hk. assert (arrived [] r evs evs s) as Ha.
  { exists [], [], r. rewrite app_nil_r. split_and!; try done. }
  pose proof (within_unmoved _ k _ m s evs Hw Hk Ha) as Hb. eapply (within_after 0); [exact Hb|done|done|lia|].
  intros x evs' s' [(f & Hi & Ht') (used & P & r' & H1 & H2 & H3 & H4 & H5)]. exists f. split; [done|].
  exists used, P, r'. by split_and!.
Qed.

Lemma arrived_frame r evs0 : nt = endpoint_number (DataINEndpoint a) ->
  (forall addr evs s, arrived [] r evs0 evs s -> arrived [] r evs0 evs (Endpoint_SelectEndpoint addr s)) /\
  (forall f evs s, UENUM s = nt -> arrived [] r evs0 evs s -> arrived [] r evs0 evs (on_cur f s)) /\
  (forall evs s, arrived [] r evs0 evs s -> fires EORSTI s = false /\ no_reset evs) /\
  (forall evs s, arrived [] r evs0 evs s -> endpoint_number (DataINEndpoint (app s)) = nt).
Proof using All.
  intros Hn. split_and!.
  - intros addr evs s (u & P & r' & H1 & H2 & H3 & H4 & H5). exists u, P, r'. by split_and!.
  - intros f evs s Hu (u & P & r' & H1 & H2 & H3 & H4 & H5). exists u, P, r'. split_and!; try done. by apply rx_on_other.
  - intros evs s (u & P & r' & H1 & H2 & H3 & H4 & H5). by apply (rx_steady r').
  - intros evs s (u & P & r' & H1 & H2 & H3 & (-> & _) & H5). done.
Qed.

Lemma tasks_after w r evs s : online w r evs s -> within WAIT (fun _ => after w [] r evs) s evs (_doTasks s evs).
Proof using All.
  intros Ho. pose proof Ho as (Ht & Hr & Hev). destruct (arrived_frame r evs) as (F1 & F2 & F3 & F4); [apply Ht|].
  unfold _doTasks. replace WAIT with (WAIT + 0)%nat by lia. eapply within_bind.
  - apply (in_step WAIT w r evs s CDC_Device_USBTask (fun _ f => f = [])); [done| |].
    + eapply (within_after 0); [by apply (task_tx true nt w a)|done..|]. intros x evs' s' Ht'. exists []. by rewrite app_nil_r.
    + by apply (task_frame nt (arrived [] r evs) (arrived_stable r evs)).
  - intros x s1 evs1 (f & -> & Ha). rewrite app_nil_r in Ha. destruct Ha as (u & P & r' & H1 & H2 & H3 & H4).
    rewrite (task_idle signature evs1 s1) by (by apply H4). apply within_ret; [|done]. by exists u, P, r'.
Qed.
Lemma send_after b w r evs s : online w r evs s -> is_u8 b ->
  within WAIT (fun err => after (w ++ if decide (err = NoError) then [b] else []) [] r evs) s evs (CDC_Device_SendByte b s evs).
Proof using All.
  intros Ho Hb. pose proof Ho as (Ht & Hr & Hev). destruct (arrived_frame r evs) as (F1 & F2 & F3 & F4); [apply Ht|].
  pose proof (in_step WAIT w r evs s (CDC_Device_SendByte b) (fun err f => f = if decide (err = NoError) then [b] else [])) as Hs.
  eapply (within_after 0); [apply Hs; [done| |]|done..|].
  - eapply (within_after 0); [by apply (send_byte_tx true nt w a)|done..|]. intros x evs' s' Ht'. by eexists.
  - by apply (send_frame nt (arrived [] r evs) (arrived_stable r evs)).
  - intros x evs' s' (f & -> & Ha). done.
Qed.
Lemma flush_after w r evs s : online w r evs s -> within WAIT (fun _ => after w [] r evs) s evs (CDC_Device_Flush s evs).
Proof using All.
  intros Ho. pose proof Ho as (Ht & Hr & Hev). destruct (arrived_frame r evs) as (F1 & F2 & F3 & F4); [apply Ht|].
  pose proof (in_step WAIT w r evs s CDC_Device_Flush (fun _ f => f = [])) as Hs. eapply (within_after 0); [apply Hs; [done| |]|done..|].
  - eapply (within_after 0); [by apply (flush_tx true nt w a)|done..|]. intros x evs' s' Ht'. exists []. by rewrite app_nil_r.
  - by apply (flush_frame nt (arrived [] r evs) (arrived_stable r evs)).
  - intros x evs' s' (f & -> & Ha). by rewrite app_nil_r in Ha.
Qed.

(** Flushing the open port leaves nothing behind. *)
Lemma port_flush_delivers w evs s : tx_state true nt w a evs s -> open_ s = true -> unsent nt s ->
  within (2 * WAIT) (fun _ _ => delivered nt w) s evs (port_flush s evs).
Proof using All.
  intros Ht Ho Hu. unfold port_flush, _doTasks. replace (2 * WAIT)%nat with (WAIT + (WAIT + 0))%nat by lia.
  eapply (within_bind WAIT _ (fun _ evs' s' => tx_state true nt w a evs' s' /\ delivered nt w s')).
  - replace WAIT with (WAIT + 0)%nat by lia. eapply within_bind; [by apply (task_flushed true nt w a)|].
    intros u s1 evs1 [Ht1 Hd]. rewrite (task_idle signature evs1 s1) by (by apply Ht1).
    apply within_ret; [|done]. split; [done|]. apply Hd. by left.
  - intros u s1 evs1 [Ht1 Hd1]. eapply within_bind; [by apply (flush_flushed true nt w a)|].
    intros err s2 evs2 [_ Hd]. apply within_ret; [|done]. apply Hd. by right.
Qed.

(** What reception keeps; without an event, the frame number too. *)
Definition sending (w : list Z) (l : nat) (u : Z) evs s : Prop :=
  tx_state true nt w a evs s /\ (length evs <= l)%nat /\ (length evs = l -> UDFNUM s = u).
Lemma sending_stable w l u : stable (sending w l u).
Proof using All.
  intros ev evs s (H1 & H2 & _). split; [by apply (tx_stable w ev)|]. simpl in H2. split; lia.
Qed.
Lemma sending_frame w l u r evs0 s0 : rx_state nr r a s0 ->
  (forall addr evs s, sending w l u evs s -> sending w l u evs (Endpoint_SelectEndpoint addr s)) /\
  (forall f evs s, UENUM s = nr -> sending w l u evs s -> sending w l u evs (on_cur f s)) /\
  (forall evs s, sending w l u evs s -> fires EORSTI s = false /\ no_reset evs) /\
  (forall evs s, sending w l u evs s -> endpoint_number (DataOUTEndpoint (app s)) = nr) /\
  (tx_state true nt w a evs0 s0 -> l = length evs0 -> u = UDFNUM s0 -> sending w l u evs0 s0).
Proof using All.
  intros (Ha & Hn & Hpos & _). split_and!.
  - intros addr evs s (H1 & H2). split; [by apply tx_select_any|done].
  - intros f evs s Hu (H1 & H2). split; [by apply tx_on_other|done].
  - intros evs s ((_ & _ & _ & _ & H1 & H2 & _) & _). done.
  - intros evs s ((-> & _) & _). done.
  - intros Ht -> ->. split; [done|]. split; [lia|done].
Qed.
Lemma rx_bytes r s : rx_state nr r a s -> Forall is_u8 r.
Proof using All. intros (_ & _ & _ & (e & _ & _ & _ & <- & Hb) & _). by apply Forall_concat. Qed.

(** The count of the bytes that wait: if it is not zero, a byte is there to be read. *)
Definition next_byte w r evs s : Prop :=
  exists b r' s', r = b :: r' /\ is_u8 b /\ CDC_Device_ReceiveByte s evs = Ok (b, s', evs) /\ online w r' evs s' /\ UDFNUM s' = UDFNUM s.
Lemma count_after w r evs s : online w r evs s ->
  exists k s', CDC_Device_BytesReceived s evs = Ok (k, s', evs) /\ online w r evs s' /\ UDFNUM s' = UDFNUM s /\
    (0 < k -> next_byte w r evs s').
Proof using All.
  intros (Ht & Hr & Hev). destruct (sending_frame w (length evs) (UDFNUM s) r evs s Hr) as (F1 & F2 & F3 & F4 & F5).
  specialize (F5 Ht eq_refl eq_refl). pose proof (sending_stable w (length evs) (UDFNUM s)) as F0.
  pose proof (received_frame nr _ F0 F1 F2 F3 F4 s evs F5) as Hk.
  destruct (bytes_received_rx nr r a evs s Hr) as (k & s1 & Hrun & Hr1 & Hnext). rewrite Hrun in Hk.
  destruct Hk as (Ht1 & _ & Hu1). exists k, s1. split; [done|]. split; [done|]. split; [by apply Hu1|]. intros Hpos.
  destruct (Hnext Hpos) as (b & r' & s2 & -> & Hrun2 & Hr2). exists b, r', s2.
  destruct (sending_frame w (length evs) (UDFNUM s1) (b :: r') evs s1 Hr1) as (G1 & G2 & G3 & G4 & G5).
  pose proof (receive_frame nr _ (sending_stable w (length evs) (UDFNUM s1)) G1 G2 G3 G4 s1 evs (G5 Ht1 eq_refl eq_refl)) as Hk.
  rewrite Hrun2 in Hk. destruct Hk as (Ht2 & _ & Hu2). apply rx_bytes in Hr1. apply Forall_cons_1 in Hr1 as [Hb _].
  split; [done|]. split; [done|]. split; [done|]. split; [by split_and!|by apply Hu2].
Qed.

(** Time passes. *)
Lemma event_after w r ev evs s : online w r (ev :: evs) s -> after w [] r (ev :: evs) evs (tick ev s).
Proof using All.
  intros (Ht & Hr & Hev). apply (tx_stable w) in Ht.
  destruct (arrived_stable r (ev :: evs) ev evs s) as (u & P & r' & H1 & H2 & H3 & H4 & H5).
  { exists [], [], r. rewrite app_nil_r. by split_and!. }
  exists u, P, r'. by split_and!.
Qed.
Lemma elapse_after : forall n w r evs s, online w r evs s -> within n (fun _ => after w [] r evs) s evs (elapse n s evs).
Proof using All.
  induction n as [|n IH]; intros w r evs s Ho; [by apply within_ret; [apply online_after|]|].
  destruct evs as [|ev evs]; [by apply within_ret; [apply online_after|]|]. cbn [elapse].
  destruct (event_after w r ev evs s Ho) as (u & P & r' & H1 & H2 & H3 & H4).
  eapply (within_after 1); [by apply (IH w r' evs)|..]; [|simpl; lia|lia|].
  - simpl. rewrite tick_UDFNUM. pose proof (differs_le (frame_of (UDFNUM s) ev) (UDFNUM s)). lia.
  - intros x evs' s' Ha. by eapply (after_then w [] []).
Qed.

(** ** What a call does *)

(** The port as an abstract object: a call on the port [p] gives an answer, puts bytes on the wire
    and takes bytes from the queue of those that have arrived. *)
Inductive outcome p : call -> option Z -> USBSerial_ -> list Z -> list Z -> Prop :=
| counted k : outcome p Available (Some k) p [] []
| accepted_ : outcome p Accept None p [] []
| peeked b : is_u8 b -> outcome p Peek (Some b) (mkPort b true) [] [b]
| peeked_none : outcome p Peek (Some 0) p [] []
| read_peeked : m_didPeek p = true -> outcome p Read (Some (m_peek p)) (mkPort (m_peek p) false) [] []
| read_byte b : is_u8 b -> m_didPeek p = false -> outcome p Read (Some b) p [] [b]
| read_closed : m_didPeek p = false -> outcome p Read (Some (-1)) p [] []
| read_none : m_didPeek p = false -> outcome p Read None p [] []
| written b : outcome p (Write b) (Some 1) p [b] []
| not_written b : outcome p (Write b) (Some 0) p [] []
| printed bytes part : part `sublist_of` bytes -> outcome p (Print bytes) (Some (Z.of_nat (length part))) p part []
| flushed : outcome p Flush None p [] []
| ready n (b : bool) : outcome p (Ready n) (Some (if b then 1 else 0)) p [] []
| passed n : outcome p (Pass n) None p [] [].

Definition call_ok (c : call) : Prop :=
  match c with Write b => is_u8 b | Print bytes => Forall is_u8 bytes /\ Z.of_nat (length bytes) < 65536 | _ => True end.
(** The frames that a call may take. *)
Definition call_frames (c : call) : nat :=
  match c with
  | Available => WAIT | Accept => 0 | Peek | Read | Write _ | Flush => 2 * WAIT
  | Print bytes => length bytes * (2 * WAIT) | Ready n | Pass n => n
  end%nat.
(** The answer, the port and the bytes of a call that ends in the state [s'] before [evs']. *)
Definition done_call c p w r evs (res : option Z * USBSerial_) evs' s' : Prop :=
  exists f g, outcome p c (fst res) (snd res) f g /\ after (w ++ f) g r evs evs' s'.

Lemma done_here c p o p' w r evs evs' s g : outcome p c o p' [] g -> after w g r evs evs' s -> done_call c p w r evs (o, p') evs' s.
Proof using All. intros Ho Ha. exists [], g. by rewrite app_nil_r. Qed.

Section Calls.
Context {X : Type} (h : X -> option Z * USBSerial_) (c : call) (p : USBSerial_).
Lemma done_later w r evs0 u P r1 evs1 x evs s : evs0 = u ++ evs1 -> P `sublist_of` outs nr u -> r1 = r ++ concat P ->
  done_call c p w r1 evs1 x evs s -> done_call c p w r evs0 x evs s.
Proof using All.
  intros H1 H2 H3 (f & g & Ho & Ha). exists f, g. split; [done|]. by eapply (after_then (w ++ f) [] g).
Qed.
Lemma after_m {B} k1 k (m : M B) (f : B -> M X) w r evs s : within k1 (fun _ => after w [] r evs) s evs (m s evs) ->
  (forall b r1 evs1 s1, online w r1 evs1 s1 -> within k (fun x => done_call c p w r1 evs1 (h x)) s1 evs1 (f b s1 evs1)) ->
  within (k1 + k) (fun x => done_call c p w r evs (h x)) s evs ((m ≫= f) s evs).
Proof using All.
  intros Hm Hf. eapply within_bind; [exact Hm|]. intros b s1 evs1 (u & P & r1 & H1 & H2 & H3 & H4).
  eapply (within_after 0); [by apply (Hf b r1)|done..|]. intros x evs' s'. by apply (done_later w r evs u P r1).
Qed.
Lemma after_tasks k (f : unit -> M X) w r evs s : online w r evs s ->
  (forall r1 evs1 s1, online w r1 evs1 s1 -> within k (fun x => done_call c p w r1 evs1 (h x)) s1 evs1 (f tt s1 evs1)) ->
  within (WAIT + k) (fun x => done_call c p w r evs (h x)) s evs ((_doTasks ≫= f) s evs).
Proof using All. intros Ho Hf. apply after_m; [by apply tasks_after|]. intros []. by apply Hf. Qed.
Lemma after_available k (f : Z -> M X) w r evs s : online w r evs s ->
  (forall n r1 evs1 s1, online w r1 evs1 s1 -> (0 < n -> next_byte w r1 evs1 s1) ->
     within k (fun x => done_call c p w r1 evs1 (h x)) s1 evs1 (f n s1 evs1)) ->
  within (WAIT + k) (fun x => done_call c p w r evs (h x)) s evs ((port_available ≫= f) s evs).
Proof using All.
  intros Ho Hf. pose proof (after_tasks k (fun _ => CDC_Device_BytesReceived ≫= f) w r evs s Ho) as Ht.
  replace ((port_available ≫= f) s evs) with ((_doTasks ≫= (fun _ => CDC_Device_BytesReceived ≫= f)) s evs).
  2: { unfold port_available, mbind, M_bind. by destruct (_doTasks s evs) as [[[? ?] ?]| |]. }
  apply Ht. intros r1 evs1 s1 Ho1. destruct (count_after w r1 evs1 s1 Ho1) as (n & s2 & Hrun & Ho2 & Hu & Hn).
  rewrite (bind_ok _ _ _ _ _ _ _ Hrun). eapply (within_start s2); [|done]. by apply Hf.
Qed.
End Calls.

(** The byte that waits is taken. *)
Lemma take_byte {X} (h : X -> option Z * USBSerial_) c p (f : Z -> M X) w r evs s x :
  next_byte w r evs s -> (forall b s evs, f b s evs = Ok (x b, s, evs)) ->
  (forall b, is_u8 b -> outcome p c (fst (h (x b))) (snd (h (x b))) [] [b]) ->
  within 0 (fun x => done_call c p w r evs (h x)) s evs ((CDC_Device_ReceiveByte ≫= f) s evs).
Proof using All.
  intros (b & r' & s' & -> & Hb & Hrun & Ho & Hu) Hf Hout. rewrite (bind_ok _ _ _ _ _ _ _ Hrun), Hf.
  apply within_ret; [|done]. exists [], [b]. split; [by apply Hout|]. rewrite app_nil_r. exists [], [], r'. by rewrite app_nil_r.
Qed.

Lemma peek_done p w r evs s : online w r evs s ->
  within (2 * WAIT) (fun x => done_call Peek p w r evs (Some (fst x), snd x)) s evs (port_peek p s evs).
Proof using All.
  intros Ho. unfold port_peek. replace (2 * WAIT)%nat with (WAIT + (WAIT + 0))%nat by lia.
  apply (after_tasks (fun x => (Some (fst x), snd x)) Peek p); [done|]. intros r1 evs1 s1 Ho1.
  apply (after_available (fun x => (Some (fst x), snd x)) Peek p); [done|]. intros n r2 evs2 s2 Ho2 Hn.
  destruct (Z.ltb_spec 0 n).
  - apply (take_byte (fun x => (Some (fst x), snd x)) Peek p _ w r2 evs2 s2 (fun b => (b, mkPort b true))); auto. by constructor.
  - apply within_ret; [|done]. eapply done_here; [constructor|by apply online_after].
Qed.
Lemma read_done p w r evs s : online w r evs s ->
  within (2 * WAIT) (done_call Read p w r evs) s evs (port_read p s evs).
Proof using All.
  intros Ho. unfold port_read. replace (2 * WAIT)%nat with (WAIT + (WAIT + 0))%nat by lia.
  apply (after_tasks id Read p); [done|]. intros r1 evs1 s1 Ho1. destruct (m_didPeek p) eqn:Ep.
  { apply within_ret; [|done]. eapply done_here; [by constructor|by apply online_after]. }
  rewrite bind_get. destruct (decide _).
  { apply within_ret; [|done]. eapply done_here; [by constructor|by apply online_after]. }
  apply (after_available id Read p); [done|]. intros k r2 evs2 s2 Ho2 Hn. destruct (Z.ltb_spec 0 k).
  - apply (take_byte id Read p _ w r2 evs2 s2 (fun b => (Some b, p))); auto. by constructor.
  - apply within_ret; [|done]. eapply done_here; [by constructor|by apply online_after].
Qed.
Lemma write_done b w r evs s : online w r evs s -> is_u8 b ->
  within (2 * WAIT) (fun x evs' s' => exists f, (x = 1 /\ f = [b] \/ x = 0 /\ f = []) /\ after (w ++ f) [] r evs evs' s') s evs (port_write b s evs).
Proof using All.
  intros Ho Hb. unfold port_write. replace (2 * WAIT)%nat with (WAIT + (WAIT + 0))%nat by lia.
  eapply within_bind; [by apply tasks_after|]. intros u s1 evs1 (us & P & r1 & H1 & H2 & H3 & H4). rewrite bind_get.
  assert (forall f evs' s', after (w ++ f) [] r1 evs1 evs' s' -> after (w ++ f) [] r evs evs' s') as Hl.
  { intros f evs' s'. by apply (after_then (w ++ f) [] [] r evs us P r1). }
  destruct (decide _).
  { apply within_ret; [|done]. exists []. split; [by right|]. apply Hl. rewrite app_nil_r. by apply online_after. }
  eapply within_bind; [by apply send_after|]. intros err s2 evs2 Ha. apply within_ret; [|done].
  eexists. split; [|apply Hl; exact Ha]. destruct (decide (err = NoError)); auto.
Qed.

Lemma print_done : forall bytes n w r evs s, online w r evs s -> Forall is_u8 bytes -> 0 <= n -> n + Z.of_nat (length bytes) < 65536 ->
  within (length bytes * (2 * WAIT)) (fun x evs' s' => exists part, part `sublist_of` bytes /\ x = n + Z.of_nat (length part) /\
    after (w ++ part) [] r evs evs' s') s evs (print_write n bytes s evs).
Proof using All.
  induction bytes as [|b bytes IH]; intros n w r evs s Ho Hb Hn Hl.
  { apply within_ret; [|done]. exists []. split; [done|]. split; [simpl; lia|]. rewrite app_nil_r. by apply online_after. }
  apply Forall_cons_1 in Hb as [Hb Hbs]. cbn [print_write length] in *.
  replace (S (length bytes) * (2 * WAIT))%nat with (2 * WAIT + (length bytes * (2 * WAIT) + 0))%nat by lia.
  eapply within_bind; [by apply write_done|]. intros x s1 evs1 (f & Hf & (u & P & r1 & H1 & H2 & H3 & H4)).
  assert (exists k, x = Z.of_nat (length f) /\ (length f <= 1)%nat /\ f `sublist_of` [b] /\ k = n + x /\ 0 <= k /\ k + Z.of_nat (length bytes) < 65536)
    as (k & Hx & Hk & Hs & -> & Hk0 & Hk1).
  { exists (n + x). destruct Hf as [[-> ->]|[-> ->]]; simpl; split_and!; try done; try lia. apply sublist_nil_l. }
  rewrite u16_small by (unfold is_u16; lia).
  eapply (within_after 0); [by apply (IH (n + x) (w ++ f) r1 evs1 s1)|done..|lia|].
  intros y evs' s' (part & Hp & -> & Ha). exists (f ++ part). split; [by apply (sublist_app f [b])|].
  rewrite length_app. split; [lia|]. rewrite app_assoc. by eapply (after_then _ [] [] r evs u P r1).
Qed.

Lemma call_done c p w r evs s : online w r evs s -> call_ok c ->
  within (call_frames c) (done_call c p w r evs) s evs (perform c p s evs).
Proof using All.
  intros Ho Hc. destruct c as [| | | |b|bytes| |n|n]; cbn [perform call_frames].
  - replace WAIT with (WAIT + 0)%nat by lia. apply (after_available id Available p); [done|]. intros k r1 evs1 s1 Ho1 _.
    apply within_ret; [|done]. eapply done_here; [constructor|by apply online_after].
  - apply within_ret; [|done]. eapply done_here; [constructor|by apply online_after].
  - replace (2 * WAIT)%nat with (2 * WAIT + 0)%nat by lia. eapply within_bind; [by apply peek_done|].
    intros [b p'] s1 evs1 Hd. by apply within_ret.
  - by apply read_done.
  - replace (2 * WAIT)%nat with (2 * WAIT + 0)%nat by lia. eapply within_bind; [by apply write_done|].
    intros x s1 evs1 (f & Hf & Ha). apply within_ret; [|done]. exists f, []. split; [|done].
    destruct Hf as [[-> ->]|[-> ->]]; constructor.
  - destruct Hc as [Hb Hl]. replace (length bytes * _)%nat with (length bytes * (2 * WAIT) + 0)%nat by lia.
    eapply within_bind; [by apply (print_done bytes 0)|]. intros x s1 evs1 (part & Hp & -> & Ha). apply within_ret; [|done].
    exists part, []. by split; [constructor|].
  - replace (2 * WAIT)%nat with (2 * WAIT + 0)%nat by lia. eapply (within_bind (2 * WAIT) 0 (fun _ => after w [] r evs)).
    2: { intros [] s1 evs1 Ha. apply within_ret; [|done]. eapply done_here; [constructor|done]. }
    unfold port_flush. replace (2 * WAIT)%nat with (WAIT + (WAIT + 0))%nat by lia. eapply within_bind; [by apply tasks_after|].
    intros u s1 evs1 (us & P & r1 & H1 & H2 & H3 & H4). eapply within_bind; [by apply flush_after|].
    intros err s2 evs2 Ha. apply within_ret; [|done]. by eapply (after_then _ [] [] r evs us P r1).
  - pose proof (proj1 Ho) as (_ & _ & _ & _ & _ & _ & Hi).
    assert (USB_USBTask signature s evs = Ok (tt, s, evs)) as Hrun by (by apply task_idle, Hi).
    unfold mbind at 1, M_bind at 1, port_bool. rewrite (bind_ok _ _ _ _ _ _ _ Hrun), bind_get. destruct (m_lineState (app s) =? 0).
    + apply within_ret; [|done]. eapply done_here; [apply (ready p n false)|by apply online_after].
    + pose proof (elapse_after n w r evs s Ho) as He. unfold mbind, M_bind. destruct (elapse n s evs) as [[[[] s1] evs1]| |]; [|done..].
      destruct He as (Ha & Hl & Hf). split; [|done]. eapply done_here; [apply (ready p n true)|done].
  - replace n with (n + 0)%nat at 1 by lia. eapply within_bind; [by apply elapse_after|].
    intros u s1 evs1 Ha. apply within_ret; [|done]. eapply done_here; [constructor|done].
Qed.

(** A session: the outcomes of its calls, one after the other. *)
Inductive outcomes : USBSerial_ -> list call -> list (option Z) -> USBSerial_ -> list Z -> list Z -> Prop :=
| no_calls p : outcomes p [] [] p [] []
| first_call p c o p1 f g calls os p2 f2 g2 : outcome p c o p1 f g -> outcomes p1 calls os p2 f2 g2 ->
    outcomes p (c :: calls) (o :: os) p2 (f ++ f2) (g ++ g2).
Lemma session_done : forall calls p w r evs s, online w r evs s -> Forall call_ok calls ->
  within (sum_list_with call_frames calls) (fun x evs' s' => exists f g, outcomes p calls (fst x) (snd x) f g /\
    after (w ++ f) g r evs evs' s') s evs (session calls p s evs).
Proof using All.
  induction calls as [|c calls IH]; intros p w r evs s Ho Hc.
  { apply within_ret; [|done]. exists [], []. split; [constructor|]. rewrite app_nil_r. by apply online_after. }
  apply Forall_cons_1 in Hc as [Hc Hcs]. cbn [session sum_list_with].
  eapply within_bind; [by apply call_done|]. intros [o p1] s1 evs1 (f & g & Hout & (u & P & r1 & H1 & H2 & H3 & H4)).
  replace (sum_list_with call_frames calls) with (sum_list_with call_frames calls + 0)%nat by lia.
  eapply within_bind; [by apply (IH p1 (w ++ f) r1)|]. intros [os p2] s2 evs2 (f2 & g2 & Hout2 & Ha). apply within_ret; [|done].
  exists (f ++ f2), (g ++ g2). split; [by econstructor|]. rewrite app_assoc. by eapply (after_then _ g g2 r evs u P r1).
Qed.
End Duplex.

(** The byte that is kept, and the bytes that a sketch gets from its reads. *)
Definition pending p : list Z := if m_didPeek p then [m_peek p] else [].
Definition pending_ok p : Prop := m_didPeek p = true -> is_u8 (m_peek p).
Fixpoint obtained (calls : list call) (answers : list (option Z)) : list Z :=
  match calls, answers with
  | Read :: calls', Some b :: answers' => (if b <? 0 then [] else [b]) ++ obtained calls' answers'
  | _ :: calls', _ :: answers' => obtained calls' answers'
  | _, _ => []
  end.
(** No second peek before the byte of the first one is read. *)
Fixpoint careful (held : bool) (calls : list call) : bool :=
  match calls with
  | [] => true
  | Peek :: calls' => negb held && careful true calls'
  | Read :: calls' => careful false calls'
  | _ :: calls' => careful held calls'
  end.
Lemma careful_session : forall p calls os p' f g, outcomes p calls os p' f g -> forall held, careful held calls = true ->
  (m_didPeek p = true -> held = true) -> pending_ok p -> obtained calls os ++ pending p' = pending p ++ g.
Proof using Type.
  intros p calls os p' f g Ho. induction Ho as [p|p c o p1 f g calls os p2 f2 g2 Ho Hos IH]; intros held Hc Hh Hp.
  { by rewrite app_nil_r. }
  unfold pending, pending_ok in *. destruct Ho; cbn [careful obtained] in *; try (by eapply IH).
  - apply andb_prop in Hc as [Hc1 Hc]. destruct (m_didPeek p); [by rewrite (Hh eq_refl) in Hc1|]. by apply (IH true).
  - apply andb_prop in Hc as [Hc1 Hc]. by apply (IH true).
  - rewrite H0 in *. rewrite (proj2 (Z.ltb_ge _ _)) by (apply Hp; done). rewrite <- app_assoc. f_equal. by apply (IH false).
  - rewrite H1 in *. rewrite (proj2 (Z.ltb_ge _ _)) by apply H0.
    change (b :: (obtained calls os ++ (if m_didPeek p2 then [m_peek p2] else [])) = b :: g2). f_equal. by apply (IH false).
  - rewrite H0 in *. by apply (IH false).
  - rewrite H0 in *. by apply (IH false).
Qed.

(** ** On a quiet bus *)

Section Quiet.
Variable a : serial.
#[local] Abbreviation nt := (endpoint_number (DataINEndpoint a)).
#[local] Abbreviation nr := (endpoint_number (DataOUTEndpoint a)).
Hypothesis nt_pos : 0 < nt.
Hypothesis nr_pos : 0 < nr.
Hypothesis apart : nt <> nr.

(** The port is open, nothing is to be sent, no request is to come, and the packets [q] are there to
    be read. *)
Definition resting (q : list (list Z)) evs s : Prop :=
  open_ s = true /\ app s = a /\ no_control evs s /\
  (exists e, eps s !! Z.to_nat nt = Some e /\ filling e = [] /\ received e = []) /\
  (exists e, eps s !! Z.to_nat nr = Some e /\ filling e = [] /\ received e = q /\ RXSTPI e = false).

Lemma resting_select q addr evs s : resting q evs s -> resting q evs (Endpoint_SelectEndpoint addr s).
Proof using All.
  intros (H1 & H2 & (H3 & _ & H5) & H6). split; [done|]. split; [done|]. split; [|done]. split; [done|]. split; [|done].
  simpl. apply (number_small (mkTable addr 0 0 0)).
Qed.
Lemma resting_received q ps evs s : resting q evs s -> UENUM s = nr ->
  resting ps evs (on_cur (fun e => e <| received := ps |>) s).
Proof using All.
  intros (H1 & H2 & H3 & (e & He & Hf) & (e2 & He2 & Hf2 & Hr & Hx)) Hu. split; [done|]. split; [done|].
  split; [by apply (no_control_on_cur nr nr_pos)|]. unfold on_cur, on_ep. rewrite Hu. simpl. split.
  - exists e. split; [|done]. rewrite list_lookup_alter_ne; [done|]. lia.
  - exists (e2 <| received := ps |>). split; [|done]. by rewrite list_lookup_alter_eq, He2.
Qed.

Lemma tasks_resting q evs s : resting q evs s -> exists s', _doTasks s evs = Ok (tt, s', evs) /\ resting q evs s'.
Proof using All.
  intros Hr. set (s1 := Endpoint_SelectEndpoint (Address (DataINEndpoint (app s))) s).
  assert (resting q evs s1) as Hr1 by (by apply resting_select). pose proof Hr as (Ho & Ha & _ & (e & He & Hf & Hrv) & _).
  pose proof Hr1 as (Ho1 & Ha1 & _).
  assert (forall s2, app s2 = a -> eps s2 = eps s -> Endpoint_BytesInEndpoint (Endpoint_SelectEndpoint (Address (DataINEndpoint (app s2))) s2) = 0) as Hb.
  { intros s2 -> Heps. unfold Endpoint_BytesInEndpoint, cur. simpl. rewrite Heps. rewrite (nth_lookup_Some _ _ _ _ He). by rewrite Hrv, Hf. }
  assert (exists s2, CDC_Device_USBTask s evs = Ok (tt, s2, evs) /\ resting q evs s2) as (s2 & Hrun & Hr2).
  { unfold CDC_Device_USBTask. rewrite bind_get, Ho. cbn [negb]. cbv iota. rewrite bind_run, bind_get. fold s1.
    destruct (Endpoint_IsINReady s1); [|by exists s1]. unfold CDC_Device_Flush, mbind at 1, M_bind at 1. rewrite bind_get, Ho1. cbn [negb]. cbv iota.
    rewrite bind_run, bind_get, Hb by done. eexists. split; [reflexivity|]. by apply resting_select. }
  exists s2. split; [|done]. unfold _doTasks. rewrite (bind_ok _ _ _ _ _ _ _ Hrun). apply task_idle, Hr2.
Qed.

(** The bank that is read. *)
Lemma resting_out q evs s : resting q evs s -> exists e, at_ep nr e (Endpoint_SelectEndpoint (Address (DataOUTEndpoint (app s))) s) /\
  received e = q /\ filling e = [] /\ RXSTPI e = false.
Proof using All.
  intros (_ & -> & _ & _ & (e & He & Hf & Hr & Hx)). exists e. split; [|done]. split; [done|exact He].
Qed.
Lemma count_resting q evs s : resting q evs s -> head q <> Some [] ->
  exists s', CDC_Device_BytesReceived s evs = Ok (Z.of_nat (length (default [] (head q))), s', evs) /\ resting q evs s'.
Proof using All.
  intros Hr Hq. destruct (resting_out q evs s Hr) as (e & Ha & Hrc & Hf & _).
  exists (Endpoint_SelectEndpoint (Address (DataOUTEndpoint (app s))) s). split; [|by apply resting_select].
  unfold CDC_Device_BytesReceived. rewrite bind_get. rewrite (proj1 Hr). cbn [negb]. cbv iota. rewrite bind_run, bind_get.
  unfold Endpoint_IsOUTReceived, RXOUTI. rewrite (at_cur _ _ _ Ha), Hrc. destruct q as [|[|b p] ps]; [done..|].
  rewrite bind_get. unfold Endpoint_BytesInEndpoint. rewrite (at_cur _ _ _ Ha), Hrc. by rewrite (proj2 (Z.eqb_neq _ 0)) by (simpl; lia).
Qed.
Lemma take_resting b (p : list Z) ps evs s : resting ((b :: p) :: ps) evs s ->
  exists s', CDC_Device_ReceiveByte s evs = Ok (b, s', evs) /\ resting (match p with [] => ps | _ => p :: ps end) evs s'.
Proof using All.
  intros Hr. destruct (resting_out _ evs s Hr) as (e & Ha & Hrc & Hf & Hx).
  unfold CDC_Device_ReceiveByte. rewrite bind_get. rewrite (proj1 Hr). cbn [negb]. cbv iota. rewrite bind_run, bind_get.
  apply (resting_select _ (Address (DataOUTEndpoint (app s)))) in Hr. set (s1 := Endpoint_SelectEndpoint _ s) in *.
  unfold Endpoint_IsOUTReceived, RXOUTI. rewrite (at_cur _ _ _ Ha), Hrc. rewrite bind_get.
  assert (Endpoint_BytesInEndpoint s1 = Z.of_nat (length (b :: p))) as ->.
  { unfold Endpoint_BytesInEndpoint. by rewrite (at_cur _ _ _ Ha), Hrc. }
  rewrite (proj2 (Z.eqb_neq _ 0)) by (simpl; lia). cbn [negb]. cbv iota.
  assert (Endpoint_Read_8 s1 = Ok (b, on_cur (fun e => e <| received := p :: ps |>) s1)) as Hrd.
  { unfold Endpoint_Read_8. by rewrite (at_cur _ _ _ Ha), Hx, Hrc. }
  rewrite (bind_op _ _ _ _ _ _ Hrd), bind_get. pose proof (resting_received _ (p :: ps) evs s1 Hr (proj1 Ha)) as Hr2.
  pose proof (at_on_cur nr e s1 (fun e => e <| received := p :: ps |>) Ha) as Ha2. set (s2 := on_cur _ s1) in *.
  unfold Endpoint_BytesInEndpoint. rewrite (at_cur _ _ _ Ha2). cbn [received set_field].
  change (received (e <| received := p :: ps |>)) with (p :: ps). destruct p as [|c p].
  - change (Z.of_nat (length []) =? 0) with true. cbv iota. rewrite bind_run. eexists. split; [done|].
    rewrite (clear_out _ _ _ Ha2). exact (resting_received _ ps evs s2 Hr2 (proj1 Ha2)).
  - rewrite (proj2 (Z.eqb_neq _ 0)) by (simpl; lia). rewrite bind_ret. eexists. split; [done|exact Hr2].
Qed.

Definition no_empty (q : list (list Z)) : Prop := Forall (fun t => t <> []) q.
Lemma no_empty_head q : no_empty q -> head q <> Some [].
Proof using All. intros Hq. destruct q as [|p ps]; [done|]. apply Forall_cons_1 in Hq as [Hp _]. simpl. congruence. Qed.

(** The calls. *)
Lemma available_resting q evs s : resting q evs s -> no_empty q ->
  exists s', port_available s evs = Ok (Z.of_nat (length (default [] (head q))), s', evs) /\ resting q evs s'.
Proof using All.
  intros Hr Hq. destruct (tasks_resting q evs s Hr) as (s1 & H1 & Hr1).
  destruct (count_resting q evs s1 Hr1 (no_empty_head q Hq)) as (s2 & H2 & Hr2).
  exists s2. split; [|done]. unfold port_available. by rewrite (bind_ok _ _ _ _ _ _ _ H1).
Qed.
(** The first byte of the packets, and what is left. *)
Definition split_byte (q : list (list Z)) : option (Z * list (list Z)) :=
  match q with (b :: p) :: ps => Some (b, match p with [] => ps | _ => p :: ps end) | _ => None end.
Lemma peek_resting p q evs s : resting q evs s -> no_empty q ->
  exists s', port_peek p s evs = Ok (match split_byte q with Some (b, _) => (b, mkPort b true) | None => (0, p) end, s', evs) /\
    resting (match split_byte q with Some (_, q') => q' | None => q end) evs s'.
Proof using All.
  intros Hr Hq. destruct (tasks_resting q evs s Hr) as (s1 & H1 & Hr1). destruct (available_resting q evs s1 Hr1 Hq) as (s2 & H2 & Hr2).
  unfold port_peek. rewrite (bind_ok _ _ _ _ _ _ _ H1), (bind_ok _ _ _ _ _ _ _ H2).
  destruct q as [|[|b p0] ps]; [by exists s2|by apply Forall_cons_1 in Hq as [[] _]|].
  destruct (take_resting b p0 ps evs s2 Hr2) as (s3 & H3 & Hr3). exists s3. split; [|done].
  rewrite (proj2 (Z.ltb_lt 0 _)) by (simpl; lia). by rewrite (bind_ok _ _ _ _ _ _ _ H3).
Qed.
Lemma read_resting p q evs s : resting q evs s -> no_empty q ->
  exists s', port_read p s evs = Ok (if m_didPeek p then (Some (m_peek p), mkPort (m_peek p) false)
      else (fst <$> split_byte q, p), s', evs) /\
    resting (if m_didPeek p then q else match split_byte q with Some (_, q') => q' | None => q end) evs s'.
Proof using All.
  intros Hr Hq. destruct (tasks_resting q evs s Hr) as (s1 & H1 & Hr1). destruct (available_resting q evs s1 Hr1 Hq) as (s2 & H2 & Hr2).
  unfold port_read. rewrite (bind_ok _ _ _ _ _ _ _ H1). destruct (m_didPeek p); [by exists s1|]. rewrite bind_get.
  assert (USB_DeviceState s1 = Configured) as Hs1.
  { destruct Hr1 as (Ho & _). unfold open_ in Ho. by apply andb_prop in Ho as [Ho%bool_decide_eq_true _]. }
  rewrite decide_False by (intros Hn; by apply Hn). rewrite (bind_ok _ _ _ _ _ _ _ H2).
  destruct q as [|[|b p0] ps]; [by exists s2|by apply Forall_cons_1 in Hq as [[] _]|].
  destruct (take_resting b p0 ps evs s2 Hr2) as (s3 & H3 & Hr3). exists s3. split; [|done].
  rewrite (proj2 (Z.ltb_lt 0 _)) by (simpl; lia). by rewrite (bind_ok _ _ _ _ _ _ _ H3).
Qed.
Lemma session_step c o p1 p s s1 calls os p2 s2 evs evs1 evs2 : perform c p s evs = Ok ((o, p1), s1, evs1) ->
  session calls p1 s1 evs1 = Ok ((os, p2), s2, evs2) -> session (c :: calls) p s evs = Ok ((o :: os, p2), s2, evs2).
Proof using All. intros H1 H2. cbn [session]. rewrite (bind_ok _ _ _ _ _ _ _ H1). by rewrite (bind_ok _ _ _ _ _ _ _ H2). Qed.
Lemma quirks b1 b2 evs s : resting [[b1; b2]] evs s ->
  exists s', session [Peek; Available; Peek; Read; Read; Peek] new_port s evs =
    Ok ([Some b1; Some 1; Some b2; Some b2; None; Some 0], mkPort b2 false, s', evs) /\ resting [] evs s'.
Proof using All.
  intros Hr.
  destruct (peek_resting new_port [[b1; b2]] evs s Hr) as (s1 & H1 & Hr1); [by repeat constructor|].
  destruct (available_resting _ evs s1 Hr1) as (s2 & H2 & Hr2); [by repeat constructor|].
  destruct (peek_resting (mkPort b1 true) _ evs s2 Hr2) as (s3 & H3 & Hr3); [by repeat constructor|].
  destruct (read_resting (mkPort b2 true) _ evs s3 Hr3) as (s4 & H4 & Hr4); [by repeat constructor|].
  destruct (read_resting (mkPort b2 false) _ evs s4 Hr4) as (s5 & H5 & Hr5); [by repeat constructor|].
  destruct (peek_resting (mkPort b2 false) _ evs s5 Hr5) as (s6 & H6 & Hr6); [by repeat constructor|].
  exists s6. split; [|exact Hr6].
  do 6 (eapply session_step; [first [exact H4|exact H5|cbn [perform]; first
    [exact (bind_ok _ _ _ _ _ _ _ H1)|exact (bind_ok _ _ _ _ _ _ _ H2)|exact (bind_ok _ _ _ _ _ _ _ H3)|exact (bind_ok _ _ _ _ _ _ _ H6)]]|]).
  reflexivity.
Qed.
End Quiet.
End Port.

(** ** Theorems *)

(** C4: a sketch that talks to the serial port, in both directions at once, while the bus is not reset
    and no new request comes: every sequence of calls, with time between them, acts as the
    abstract port ([outcome]) does. The bytes whose writes were reported as accepted are put into the
    endpoint behind what was there or transmitted before, in order; a flush after any such session,
    of an open port to whose transmitting endpoint the host has sent nothing, leaves none of them in
    the bank that is being filled: all have been handed over to the controller, or collected; the bytes taken are, in order and once each, the first of
    those that were there and those that the controller took from the host since. If the sketch
    does not peek again before it has read what it peeked at, its reads return all of them, but
    for the one that is still kept. The calls return once the bus has seen the frames of their
    timeouts. *)
Theorem port_session `{UsbChip} signature nt nr a w r calls p (s : usb serial) evs :
  tx_state true nt w a evs s -> rx_state nr r a s -> Forall rx_event_ok evs -> nt <> nr -> Forall call_ok calls ->
  match session signature calls p s evs with
  | Fault => False
  | Hang => (changes (UDFNUM s) evs < sum_list_with call_frames calls)%nat
  | Ok (answers, p', s', evs') => exists f g, outcomes p calls answers p' f g /\ after nt nr a (w ++ f) g r evs evs' s' /\
      (pending_ok p -> careful (m_didPeek p) calls = true -> obtained calls answers ++ pending p' = pending p ++ g) /\
      (open_ s' = true -> unsent nt s' ->
         match port_flush signature s' evs' with
         | Fault => False
         | Hang => (changes (UDFNUM s') evs' < 2 * WAIT)%nat
         | Ok (_, s2, _) => delivered nt (w ++ f) s2
         end)
  end.
Proof.
  intros Ht Hr Hev Hn Hc. pose proof (session_done signature nt nr a Hn calls p w r evs s (conj Ht (conj Hr Hev)) Hc) as Hs.
  destruct (session signature calls p s evs) as [[[[answers p'] s'] evs']| |]; [|done..].
  destruct Hs as ((f & g & Ho & Ha) & _). exists f, g. split; [done|]. split; [done|]. split.
  - intros Hp Hk. by eapply careful_session.
  - intros Hop Hun. destruct Ha as (used & P & r1 & _ & _ & _ & Hon).
    pose proof (port_flush_delivers signature nt nr a Hn _ evs' s' (proj1 Hon) Hop Hun) as Hf.
    destruct (port_flush signature s' evs') as [[[u s2] evs2]| |]; [by apply Hf|done..].
Qed.

(** C36: what goes wrong in a session of six calls, while two bytes are there: a second peek does not
    return the byte again but takes the next one, and the first is lost; [available] does not
    count the byte that is kept; a read that finds nothing ends without returning a value; and a
    peek that finds nothing returns zero, as it does for a zero byte. *)
Theorem port_loses_peeked `{UsbChip} signature a b1 b2 evs (s : usb serial) :
  0 < endpoint_number (DataINEndpoint a) -> 0 < endpoint_number (DataOUTEndpoint a) ->
  endpoint_number (DataINEndpoint a) <> endpoint_number (DataOUTEndpoint a) -> resting a [[b1; b2]] evs s ->
  exists s', session signature [Peek; Available; Peek; Read; Read; Peek] new_port s evs =
      Ok ([Some b1; Some 1; Some b2; Some b2; None; Some 0], mkPort b2 false, s', evs) /\ resting a [] evs s'.
Proof. intros H1 H2 H3. by apply quirks. Qed.

(** *** Witnesses *)

(** A command arrives and is answered while it does. *)
Definition w_calls : list call := [Peek; Pass 1; Available; Read; Write 65; Read; Pass 1; Read; Flush; Ready 0; Read].
Lemma port_session_witness :
  exists answers p' s' evs' f g, @session some_chip (fun _ => 0) w_calls new_port w_receiving [Out 4 [72; 105]; In 3]
      = Ok (answers, p', s', evs') /\
    answers = [Some 0; None; Some 2; Some 72; Some 1; Some 105; None; None; None; Some 0; None] /\
    outcomes new_port w_calls answers p' f g /\ obtained w_calls answers ++ pending p' = g.
Proof.
  assert (Forall rx_event_ok [Out 4 [72; 105]; In 3]) as Hev by (repeat constructor; try discriminate; simpl; lia).
  assert (tx_state true 3 [] (app w_receiving) [Out 4 [72; 105]; In 3] w_receiving) as Ht.
  { split; [reflexivity|]. split; [reflexivity|]. split; [lia|]. split; [|split; [reflexivity|split]].
    - exists tx_bank. split; [reflexivity|]. split; [|reflexivity]. split; [reflexivity|]. split; [simpl; lia|discriminate].
    - repeat constructor; discriminate.
    - intros _. split; [by exists control_endpoint|]. split; [simpl; lia|]. split; [reflexivity|].
      repeat constructor; discriminate. }
  assert (rx_state 4 [] (app w_receiving) w_receiving) as Hr.
  { split; [reflexivity|]. split; [reflexivity|]. split; [lia|]. split; [|reflexivity].
    exists rx_bank. split; [reflexivity|]. split; [reflexivity|]. split; [reflexivity|]. split; [reflexivity|constructor]. }
  pose proof (@port_session some_chip (fun _ => 0) 3 4 _ [] [] w_calls new_port w_receiving _ Ht Hr Hev ltac:(lia)
    ltac:(repeat constructor; unfold is_u8; simpl; lia)) as Hs.
  destruct (session _ _ _ _ _) as [[[[answers p'] s'] evs']| |] eqn:Er; [|destruct Hs|vm_compute in Er; discriminate].
  destruct Hs as (f & g & H1 & _ & H2 & _). exists answers, p', s', evs', f, g. split; [reflexivity|]. split; [|split; [exact H1|]].
  - vm_compute in Er. injection Er as <- _ _ _. reflexivity.
  - apply H2; [discriminate|reflexivity].
Defined.

Lemma port_loses_peeked_witness :
  exists s', @session some_chip (fun _ => 0) [Peek; Available; Peek; Read; Read; Peek] new_port
      (w_receiving <| eps ::= <[4%nat := rx_bank <| received := [[72; 105]] |>]> |>) [] =
    Ok ([Some 72; Some 1; Some 105; Some 105; None; Some 0], mkPort 105 false, s', []) /\ resting (app w_receiving) [] [] s'.
Proof.
  apply (@port_loses_peeked some_chip); [reflexivity|reflexivity|discriminate|].
  split; [reflexivity|]. split; [reflexivity|]. split; [|split].
  - split; [by exists control_endpoint|]. split; [simpl; lia|]. split; [reflexivity|constructor].
  - exists tx_bank. by repeat split.
  - exists (rx_bank <| received := [[72; 105]] |>). by repeat split.
Defined.
End SerialPort.
