(* ===== verification/Formatting.v ===== *)
(** * Numbers on the serial port (Print.cpp)

    [Print::printNumber] with its buffer of 33 characters, the overloads of [print] and [println]
    for integers, and their output on the serial port of the sketches. *)

From S2P Require Import Prelude.
From S2P Require Import Usb.
From S2P Require Import UsbTransfer.
From S2P Require Import UsbDevice.
From S2P Require Import CdcDevice.
From S2P Require Import SerialPort.
From Stdlib Require Import Lia ZArith.
Import Usb UsbTransfer UsbDevice CdcDevice SerialPort.

#[local] Open Scope Z_scope.

Module Formatting.

(** ** Digits *)

Definition DEC := 10.
(** [char] is signed: the digits are reduced by [i8]. *)
Definition digit_char (c : Z) : Z := u8 (if c <? 10 then c + 48 else c + 65 - 10).

(** The loop of [printNumber]: [str] is an index into [buf]. *)
Fixpoint number_loop (fuel : nat) (n base str : Z) (buf : list Z) : res (Z * list Z) :=
  match fuel with
  | O => Hang
  | S fuel' =>
      let m := n in
      let n := n / base in
      let c := i8 (m - base * n) in
      let str := str - 1 in
      buf ← lift (aset buf str (digit_char c));
      if n =? 0 then Ok (str, buf) else number_loop fuel' n base str buf
  end.
(** A string ends at its first zero. *)
Fixpoint c_string (l : list Z) : option (list Z) :=
  match l with
  | [] => None
  | c :: l' => if c =? 0 then Some [] else s ← c_string l'; Some (c :: s)
  end.
(** The string that is written; [buf] is what the stack holds. *)
Definition number_string (buf : list Z) (n base : Z) : res (list Z) :=
  buf ← lift (aset buf 32 0);
  let base := if base <? 2 then 10 else base in
  '(str, buf) ← number_loop 32 n base 32 buf;
  lift (c_string (drop (Z.to_nat str) buf)).

(** ** What a number reads as *)

Definition digit_value (c : Z) : Z := if c <? 58 then c - 48 else c - 55.
Definition is_digit (base c : Z) : Prop := (48 <= c < 58 \/ 65 <= c < 91) /\ 0 <= digit_value c < base.
Definition value (base : Z) (ds : list Z) : Z := foldl (fun v c => base * v + digit_value c) 0 ds.

Lemma value_snoc base ds c : value base (ds ++ [c]) = base * value base ds + digit_value c.
Proof. unfold value. by rewrite foldl_app. Qed.
Lemma digit_char_ok base d : 2 <= base <= 36 -> 0 <= d < base ->
  is_digit base (digit_char (i8 d)) /\ digit_value (digit_char (i8 d)) = d.
Proof.
  intros Hb Hd. assert (i8 d = d) as -> by (unfold i8; rewrite Z.mod_small by lia; lia).
  unfold digit_char, is_digit, digit_value. destruct (Z.ltb_spec d 10).
  - rewrite u8_small by (unfold is_u8; lia). rewrite (proj2 (Z.ltb_lt _ 58)) by lia. lia.
  - rewrite u8_small by (unfold is_u8; lia). rewrite (proj2 (Z.ltb_ge _ 58)) by lia. lia.
Qed.

(** The loop puts the digits in front of what is there already. *)
Definition numeral (base n : Z) (ds : list Z) : Prop :=
  Forall (is_digit base) ds /\ value base ds = n /\ ds <> [] /\ (head ds = Some 48 -> n = 0 /\ ds = [48]).
Lemma number_loop_ok base : 2 <= base <= 36 -> forall fuel n str buf, (1 <= fuel)%nat -> 0 <= n < base ^ Z.of_nat fuel ->
  Z.of_nat fuel <= str -> str <= Z.of_nat (length buf) ->
  exists ds str' buf', number_loop fuel n base str buf = Ok (str', buf') /\ drop (Z.to_nat str') buf' = ds ++ drop (Z.to_nat str) buf /\
    (length ds <= fuel)%nat /\ numeral base n ds.
Proof.
  intros Hb. induction fuel as [|fuel IH]; intros n str buf Hf Hn Hs Hl; [lia|]. cbn [number_loop].
  pose proof (Z.div_mod n base ltac:(lia)) as Hdm. pose proof (Z.mod_pos_bound n base ltac:(lia)) as Hm.
  replace (n - base * (n / base)) with (n mod base) by lia.
  destruct (digit_char_ok base (n mod base) Hb Hm) as [Hd Hv]. set (c := digit_char (i8 (n mod base))) in *.
  rewrite aset_Some by lia. cbn [lift mbind res_bind]. set (buf1 := <[Z.to_nat (str - 1):=c]> buf).
  assert (drop (Z.to_nat (str - 1)) buf1 = c :: drop (Z.to_nat str) buf) as Hdrop.
  { unfold buf1. rewrite (drop_S _ c) by (apply list_lookup_insert_eq; lia). f_equal.
    replace (S (Z.to_nat (str - 1))) with (Z.to_nat str) by lia. by rewrite drop_insert_lt by lia. }
  destruct (Z.eqb_spec (n / base) 0) as [Hz|Hz].
  - exists [c], (str - 1), buf1. split; [done|]. split; [done|]. split; [simpl; lia|]. split; [constructor; [exact Hd|constructor]|].
    unfold value. simpl. split; [lia|]. split; [done|]. intros [= Hc]. rewrite Hc in Hv. change (digit_value 48) with 0 in Hv.
    split; [lia|by rewrite Hc].
  - assert (0 <= n / base < base ^ Z.of_nat fuel) as Hn'.
    { split; [apply Z.div_pos; lia|]. apply Z.div_lt_upper_bound; [lia|]. rewrite <- Z.pow_succ_r by lia.
      replace (Z.succ (Z.of_nat fuel)) with (Z.of_nat (S fuel)) by lia. lia. }
    destruct fuel as [|fuel]; [simpl in Hn'; lia|].
    destruct (IH (n / base) (str - 1) buf1) as (ds & str' & buf' & Hrun & Hdr & Hlen & Hds & Hval & Hne & Hh);
      [lia|done|lia|unfold buf1; rewrite length_insert; lia|].
    exists (ds ++ [c]), str', buf'. split; [exact Hrun|]. rewrite Hdr, Hdrop, <- app_assoc. split; [done|].
    split; [rewrite length_app; simpl; lia|]. split; [apply Forall_app; split; [done|constructor; [exact Hd|constructor]]|].
    rewrite value_snoc, Hval. split; [lia|]. split; [by destruct ds|]. intros Hhd. destruct ds as [|d ds]; [done|].
    destruct Hh as [Hq _]; [done|]. lia.
Qed.
Lemma c_string_digits base ds rest : Forall (is_digit base) ds -> c_string (ds ++ 0 :: rest) = Some ds.
Proof.
  induction 1 as [|c ds [Hc _] _ IH]; [done|]. change (c_string (c :: (ds ++ 0 :: rest)) = Some (c :: ds)).
  cbn [c_string]. rewrite (proj2 (Z.eqb_neq c 0)) by lia. by rewrite IH.
Qed.
Lemma number_string_ok buf n base : length buf = 33%nat -> is_u32 n -> 0 <= base <= 36 ->
  exists ds, number_string buf n base = Ok ds /\ numeral (if base <? 2 then 10 else base) n ds /\ (length ds <= 32)%nat.
Proof.
  intros Hl Hn Hb. unfold number_string. rewrite aset_Some by lia. cbn [lift mbind res_bind].
  assert (2 <= (if base <? 2 then 10 else base) <= 36) as Hb' by (case_if; lia). set (b := if base <? 2 then 10 else base) in *.
  destruct (number_loop_ok b Hb' 32 n 32 (<[Z.to_nat 32:=0]> buf)) as (ds & str' & buf' & -> & Hd & Hlen & Hnum);
    [lia| |lia|rewrite length_insert; lia|].
  { unfold is_u32 in Hn. split; [lia|]. apply Z.lt_le_trans with (2 ^ Z.of_nat 32); [change (2 ^ Z.of_nat 32) with 4294967296; lia|].
    apply Z.pow_le_mono_l. lia. }
  exists ds. split; [|by split]. cbn [mbind res_bind]. rewrite Hd.
  rewrite (drop_S _ 0 (Z.to_nat 32)) by (apply list_lookup_insert_eq; rewrite Hl; simpl; lia).
  by rewrite (c_string_digits b) by apply Hnum.
Qed.

(** ** The methods, on the serial port *)

Section Printing.
Context `{UsbChip}.
Variable signature : Z -> Z.
#[local] Abbreviation M := (M (App:=serial)).
(** What the stack holds where [printNumber] has its buffer. *)
Variable stack : list Z.

Definition printNumber (n base : Z) : M Z :=
  str ← op (fun s => str ← number_string stack n base; mret (str, s));
  print_write signature 0 str.
(** [print(char)] is [write]. A [long] has 32 bits, two's complement; its negation wraps around. *)
Definition print_ulong (n base : Z) : M Z :=
  if base =? 0 then port_write signature (u8 n) else printNumber n (u8 base).
Definition print_long (n base : Z) : M Z :=
  if base =? 0 then port_write signature (u8 n)
  else if base =? 10 then
    if n <? 0 then
      t ← port_write signature 45;
      r ← printNumber (u32 (- n)) 10; mret (u16 (r + t))
    else printNumber n 10
  else printNumber (u32 n) (u8 base).
Definition println : M Z :=
  n ← port_write signature 13; t ← port_write signature 10; mret (u16 (n + t)).
Definition println_ulong (num base : Z) : M Z := n ← print_ulong num base; t ← println; mret (u16 (n + t)).
Definition println_long (num base : Z) : M Z := n ← print_long num base; t ← println; mret (u16 (n + t)).

(** ** The text they write *)

(** [m] writes the text: character by character, each of which the port may refuse, and with the
    number of those that it accepted as the result. *)
Definition writes (m : M Z) (text : list Z) : Prop := forall s evs, m s evs = print_write signature 0 text s evs.

Lemma port_write_bit c s evs r s' evs' : port_write signature c s evs = Ok (r, s', evs') -> r = 0 \/ r = 1.
Proof using Type.
  unfold port_write, mbind, M_bind, get. destruct (_doTasks signature s evs) as [[[u s1] evs1]| |]; [|done..].
  destruct (decide _); [intros [= <- _ _]; by left|].
  destruct (CDC_Device_SendByte c s1 evs1) as [[[err s2] evs2]| |]; [|done..].
  intros [= <- _ _]. destruct (decide _); [by right|by left].
Qed.
Lemma print_write_app b1 b2 : forall n s evs,
  print_write signature n (b1 ++ b2) s evs = (x ← print_write signature n b1; print_write signature x b2) s evs.
Proof using Type.
  induction b1 as [|c b1 IH]; intros n s evs; [done|]. change ((c :: b1) ++ b2) with (c :: (b1 ++ b2)). cbn [print_write]. unfold mbind, M_bind in *.
  destruct (port_write signature c s evs) as [[[r s1] evs1]| |]; [exact (IH (u16 (n + r)) s1 evs1)|done..].
Qed.
Lemma print_write_range b : forall n s evs x s' evs', is_u16 n -> print_write signature n b s evs = Ok (x, s', evs') -> is_u16 x.
Proof using Type.
  induction b as [|c b IH]; intros n s evs x s' evs' Hn; cbn [print_write]; [by intros [= <- _ _]|].
  unfold mbind, M_bind. destruct (port_write signature c s evs) as [[[r s1] evs1]| |]; [|done..]. apply IH, u16_range.
Qed.
(** What was counted before is added. *)
Lemma print_write_count b : forall n s evs, is_u16 n ->
  print_write signature n b s evs = (x ← print_write signature 0 b; mret (u16 (n + x))) s evs.
Proof using Type.
  induction b as [|c b IH]; intros n s evs Hn.
  { cbn [print_write]. rewrite bind_ret, Z.add_0_r. by rewrite u16_small. }
  cbn [print_write]. unfold mbind, M_bind in *. destruct (port_write signature c s evs) as [[[r s1] evs1]| |]; [|done..].
  rewrite (IH (u16 (n + r))), (IH (u16 (0 + r))) by apply u16_range.
  destruct (print_write signature 0 b s1 evs1) as [[[x s2] evs2]| |]; [|done..]. unfold mret, M_ret. do 3 f_equal.
  unfold u16. by rewrite Z.add_0_l, !Zplus_mod_idemp_l, Zplus_mod_idemp_r, Z.add_assoc.
Qed.

Lemma writes_char c : writes (port_write signature c) [c].
Proof using Type.
  intros s evs. cbn [print_write]. unfold mbind, M_bind. destruct (port_write signature c s evs) as [[[r s1] evs1]| |] eqn:E; [|done..].
  by destruct (port_write_bit _ _ _ _ _ _ E) as [-> | ->].
Qed.
Lemma writes_then m1 m2 t1 t2 : writes m1 t1 -> writes m2 t2 -> writes (x ← m1; y ← m2; mret (u16 (x + y))) (t1 ++ t2).
Proof using Type.
  intros H1 H2 s evs. rewrite print_write_app. unfold mbind, M_bind. rewrite H1.
  destruct (print_write signature 0 t1 s evs) as [[[x s1] evs1]| |] eqn:E; [|done..]. rewrite H2, (print_write_count t2 x); [done|].
  by eapply print_write_range; [|exact E].
Qed.
Lemma writes_line m text : writes m text -> writes (n ← m; t ← println; mret (u16 (n + t))) (text ++ [13; 10]).
Proof using Type. intros Hm. apply writes_then; [done|]. by apply (writes_then _ _ [13] [10]); apply writes_char. Qed.

Hypothesis stack_size : length stack = 33%nat.
Lemma writes_number n base : is_u32 n -> 0 <= base <= 36 ->
  exists ds, numeral (if base <? 2 then 10 else base) n ds /\ (length ds <= 32)%nat /\ writes (printNumber n base) ds.
Proof using All.
  intros Hn Hb. destruct (number_string_ok stack n base stack_size Hn Hb) as (ds & Hs & Hnum & Hl). exists ds.
  split; [done|]. split; [done|]. intros s evs. unfold printNumber. by rewrite (bind_op _ _ _ ds s) by (by rewrite Hs).
Qed.
Lemma writes_ulong n base : is_u32 n -> 2 <= base <= 36 ->
  exists ds, numeral base n ds /\ (length ds <= 32)%nat /\ writes (print_ulong n base) ds.
Proof using All.
  intros Hn Hb. destruct (writes_number n base Hn) as (ds & Hnum & Hl & Hp); [lia|].
  exists ds. rewrite (proj2 (Z.ltb_ge base 2)) in Hnum by lia. split; [done|]. split; [done|].
  unfold print_ulong. rewrite (proj2 (Z.eqb_neq base 0)), u8_small by (unfold is_u8; lia). done.
Qed.

(** The text of a signed decimal, and what it reads as. *)
Definition decimal (n : Z) (text : list Z) : Prop :=
  exists ds, numeral 10 (Z.abs n) ds /\ text = (if n <? 0 then [45] else []) ++ ds.
Definition parse_long (text : list Z) : Z :=
  match text with 45 :: ds => - value 10 ds | ds => value 10 ds end.
Lemma parse_digits ds : Forall (is_digit 10) ds -> parse_long ds = value 10 ds.
Proof using Type.
  clear. intros Hd. destruct ds as [|c ds]; [done|]. apply Forall_cons_1 in Hd as [[Hc _] _].
  unfold parse_long. destruct (decide (c = 45)); [lia|]. by repeat case_match.
Qed.
Lemma parse_decimal n text : decimal n text -> parse_long text = n.
Proof using Type.
  clear. intros (ds & (Hd & Hv & _) & ->). destruct (Z.ltb_spec n 0).
  - change (- value 10 ds = n). lia.
  - change ([] ++ ds) with ds. rewrite parse_digits by done. lia.
Qed.
Lemma writes_long n : -2147483648 <= n < 2147483648 ->
  exists text, decimal n text /\ (length text <= 33)%nat /\ writes (print_long n 10) text.
Proof using All.
  intros Hn. unfold print_long, decimal. change (10 =? 0) with false. change (10 =? 10) with true. cbv iota.
  destruct (Z.ltb_spec n 0) as [Hneg|Hpos].
  - destruct (writes_number (u32 (- n)) 10) as (ds & Hnum & Hl & Hp); [apply u32_range|lia|].
    rewrite (u32_small (- n)) in * by (unfold is_u32; lia). exists ([45] ++ ds). rewrite Z.abs_neq by lia.
    split; [by exists ds|]. split; [simpl; lia|]. intros s evs.
    rewrite <- (writes_then _ _ [45] ds (writes_char 45) Hp s evs). unfold mbind, M_bind.
    destruct (port_write signature 45 s evs) as [[[x s1] e1]| |]; [|done..].
    destruct (printNumber _ _ s1 e1) as [[[y s2] e2]| |]; [|done..]. by rewrite Z.add_comm.
  - destruct (writes_number n 10) as (ds & Hnum & Hl & Hp); [unfold is_u32; lia|lia|].
    exists ds. rewrite Z.abs_eq by lia. split; [by exists ds|]. split; [lia|done].
Qed.

(** The text goes to the host, but for the characters that are refused. *)
Lemma writes_transmit nt nr a m text : nt <> nr -> writes m text -> Forall is_u8 text -> Z.of_nat (length text) < 65536 ->
  forall w r evs s, online nt nr a w r evs s ->
    within (length text * (2 * WAIT)) (fun x evs' s' => exists part, part `sublist_of` text /\ x = Z.of_nat (length part) /\
      after nt nr a (w ++ part) [] r evs evs' s') s evs (m s evs).
Proof using Type. intros Hn Hm Hb Hl w r evs s Ho. rewrite Hm. by apply (print_done signature nt nr a Hn text 0). Qed.
End Printing.

(** ** Theorem *)

(** C37: what a sketch prints as a number is written to the serial port as text that reads as this
    number: an unsigned one in any base from 2 to 36, without leading zeros, in at most 32 characters
    and without leaving the buffer of [printNumber]; a signed one in decimal, with a sign if it is
    negative, the smallest included; [println] adds the line break. To print the number is, in every
    state and on any bus, the same as to write this text character by character, with the same
    result; what becomes of the characters is what C4 says of [print_write]. *)
Theorem numbers_read_back `{UsbChip} signature stack : length stack = 33%nat ->
  (forall n base, is_u32 n -> 2 <= base <= 36 -> exists ds, numeral base n ds /\ (length ds <= 32)%nat /\
     (forall s evs, print_ulong signature stack n base s evs = print_write signature 0 ds s evs) /\
     forall s evs, println_ulong signature stack n base s evs = print_write signature 0 (ds ++ [13; 10]) s evs) /\
  (forall n, -2147483648 <= n < 2147483648 -> exists text, decimal n text /\ parse_long text = n /\
     (forall s evs, print_long signature stack n 10 s evs = print_write signature 0 text s evs) /\
     forall s evs, println_long signature stack n 10 s evs = print_write signature 0 (text ++ [13; 10]) s evs).
Proof.
  intros Hs. split.
  - intros n base Hn Hb. destruct (writes_ulong signature stack Hs n base Hn Hb) as (ds & H1 & H2 & H3).
    exists ds. split; [done|]. split; [done|]. split; [exact H3|]. apply (writes_line signature _ _ H3).
  - intros n Hn. destruct (writes_long signature stack Hs n Hn) as (text & H1 & _ & H3).
    exists text. split; [done|]. split; [by apply parse_decimal|]. split; [exact H3|]. apply (writes_line signature _ _ H3).
Qed.

(** The smallest number, on the port of the core. *)
Lemma numbers_read_back_witness :
  exists text, decimal (-2147483648) text /\ parse_long text = -2147483648 /\
    @println_long some_chip (fun _ => 0) (replicate 33 7) (-2147483648) 10 w_receiving [] =
    @print_write some_chip (fun _ => 0) 0 (text ++ [13; 10]) w_receiving [].
Proof.
  destruct (proj2 (@numbers_read_back some_chip (fun _ => 0) (replicate 33 7) eq_refl) (-2147483648)) as (text & H1 & H2 & _ & H3); [lia|].
  exists text. split; [exact H1|]. split; [exact H2|apply H3].
Defined.
End Formatting.
