(* ===== verification/MidiDevice.v ===== *)
(** * MIDI class driver (MIDIClassDevice.c)

    Event packets of four bytes over two bulk endpoints. The class has no requests; its endpoints
    and events are all there is. The application's state holds the class information and the
    user's own state. *)

From S2P Require Import Prelude.
From S2P Require Import Usb.
From S2P Require Import UsbConfigure.
From S2P Require Import UsbStream.
From S2P Require Import UsbTransfer.
From S2P Require Import UsbPacket.
From S2P Require Import UsbUnits.
From S2P Require Import UsbDevice.
From S2P Require Import UsbDescriptors.
From Stdlib Require Import Lia ZArith.
Import Usb UsbConfigure UsbStream UsbTransfer UsbPacket UsbUnits UsbDevice.

#[local] Open Scope Z_scope.

Module MidiDevice.

(** ** Data *)

Record MIDI_EventPacket_t := mkEvent { Event : Z; Data1 : Z; Data2 : Z; Data3 : Z }.
Definition sizeof_EventPacket := 4.
Definition MIDI_EVENT (virtualcable command : Z) : Z := Z.lor (Z.shiftl virtualcable 4) (Z.shiftr command 4).

(** The packed structure in memory. *)
Definition event_bytes (e : MIDI_EventPacket_t) : list Z := [Event e; Data1 e; Data2 e; Data3 e].
Definition event_of (mem : list Z) : MIDI_EventPacket_t :=
  mkEvent (nth 0 mem 0) (nth 1 mem 0) (nth 2 mem 0) (nth 3 mem 0).
(** Events are what is sent and received; a packet is not empty and not larger than a bank. *)
#[export] Instance midi_units : Units MIDI_EventPacket_t := {|
  bytes_of := event_bytes;
  open_ok size es := (length (flat_map event_bytes es) < size)%nat;
  whole size es := es <> [] /\ (length (flat_map event_bytes es) <= size)%nat |}.
Definition event_ok (e : MIDI_EventPacket_t) : Prop := Forall is_u8 (event_bytes e).

(** [USB_ClassInfo_MIDI_Device_t], and the user's state. *)
Record midi {User : Type} := mkMidi {
  StreamingInterfaceNumber : Z; DataINEndpoint : USB_Endpoint_Table_t; DataOUTEndpoint : USB_Endpoint_Table_t;
  RESERVED : Z; user : User }.
Arguments midi User : clear implicits.
#[export] Instance eta_midi {User} : Eta (midi User) :=
  {| eta r := mkMidi User (StreamingInterfaceNumber r) (DataINEndpoint r) (DataOUTEndpoint r) (RESERVED r) (user r);
     eta_id := ltac:(by intros []) |}.

Lemma stream_length (es : list MIDI_EventPacket_t) : length (stream es) = (4 * length es)%nat.
Proof. induction es as [|e es IH]; simpl; [done|]. lia. Qed.
Lemma stream_inj : forall es es' : list MIDI_EventPacket_t, stream es = stream es' -> es = es'.
Proof.
  induction es as [|[a b c d] es IH]; intros [|[a' b' c' d'] es'] Heq; try done.
  injection Heq as -> -> -> -> Heq. f_equal. by apply IH.
Qed.
(** A bank holds a whole number of events. *)
Lemma bank_events e : exists k, bank_size e = (4 * k)%nat.
Proof.
  unfold bank_size. set (k := Z.land _ 7). assert (0 <= k) as Hk by (apply Z.land_nonneg; lia).
  exists (Z.to_nat (2 * 2 ^ k)). rewrite Z.shiftl_mul_pow2 by done. pose proof (Z.pow_nonneg 2 k). lia.
Qed.

Section Midi.
Context {User : Type} `{UsbChip}.
#[local] Abbreviation M := (M (App:=midi User)).
#[local] Abbreviation Op := (Op (App:=midi User)).
#[local] Abbreviation state := (usb (midi User)).
Implicit Types (s : state) (a : midi User) (e : endpoint).

Definition on_midi (f : midi User -> midi User) s : state := s <| app ::= f |>.
Definition select (t : midi User -> USB_Endpoint_Table_t) s : state := Endpoint_SelectEndpoint (Address (t (app s))) s.

(** ** The library with this driver *)

(** The class has no requests. *)
Definition MIDI_Device_ProcessControlRequest : M unit := mret tt.

Definition MIDI_Device_ConfigureEndpoints : Op bool :=
  _ ← modify (on_midi (fun a => a <| RESERVED := 0 |>));
  _ ← modify (on_midi (fun a => a <| DataINEndpoint ::= fun t => t <| Type_ := UsbDescriptors.EP_TYPE_BULK |> |>
                                  <| DataOUTEndpoint ::= fun t => t <| Type_ := UsbDescriptors.EP_TYPE_BULK |> |>));
  i ← gets (fun s => DataINEndpoint (app s));
  ok ← Endpoint_ConfigureEndpointTable [i];
  if negb ok then mret false
  else
    o ← gets (fun s => DataOUTEndpoint (app s));
    ok ← Endpoint_ConfigureEndpointTable [o];
    if negb ok then mret false else mret true.

(** The application's descriptors; its handlers are the driver's functions. *)
Variable CALLBACK_USB_GetDescriptor : Z -> Z -> Z * list Z.
Variable boot_signature_byte_get : Z -> Z.
Definition EVENT_USB_Device_ConfigurationChanged : M unit := _ ← op MIDI_Device_ConfigureEndpoints; mret tt.
Definition USB_USBTask : M unit :=
  USB_DeviceTask MIDI_Device_ProcessControlRequest EVENT_USB_Device_ConfigurationChanged
    CALLBACK_USB_GetDescriptor boot_signature_byte_get.

(** ** Events *)

(** The guard of every function. *)
Definition configured_ s : bool := bool_decide (USB_DeviceState s = Configured).

Definition MIDI_Device_SendEventPacket (Event : MIDI_EventPacket_t) : M ep_error :=
  ok ← get configured_;
  if negb ok then mret DeviceDisconnected
  else
    _ ← run (select DataINEndpoint);
    '(ErrorCode, _, _) ← Endpoint_Write_Stream_LE USB_USBTask (event_bytes Event) sizeof_EventPacket None;
    if decide (ErrorCode <> NoError) then mret ErrorCode
    else
      rw ← get Endpoint_IsReadWriteAllowed;
      _ ← (if negb rw then run Endpoint_ClearIN else mret tt);
      mret NoError.

Definition MIDI_Device_Flush : M ep_error :=
  ok ← get configured_;
  if negb ok then mret DeviceDisconnected
  else
    _ ← run (select DataINEndpoint);
    n ← get Endpoint_BytesInEndpoint;
    if negb (n =? 0) then
      _ ← run Endpoint_ClearIN;
      ErrorCode ← Endpoint_WaitUntilReady;
      if decide (ErrorCode <> NoError) then mret ErrorCode else mret NoError
    else mret NoError.

Definition MIDI_Device_USBTask : M unit :=
  ok ← get configured_;
  if negb ok then mret tt
  else
    _ ← run (select DataINEndpoint);
    rdy ← get Endpoint_IsINReady;
    if rdy : bool then _ ← MIDI_Device_Flush; mret tt else mret tt.

(** The caller's structure holds [Event] before, and what is returned with the result after. *)
Definition MIDI_Device_ReceiveEventPacket (Event : MIDI_EventPacket_t) : M (bool * MIDI_EventPacket_t) :=
  ok ← get configured_;
  if negb ok then mret (false, Event)
  else
    _ ← run (select DataOUTEndpoint);
    rw ← get Endpoint_IsReadWriteAllowed;
    if negb rw then mret (false, Event)
    else
      '(_, mem, _) ← Endpoint_Read_Stream_LE USB_USBTask (event_bytes Event) sizeof_EventPacket None;
      rw ← get Endpoint_IsReadWriteAllowed;
      _ ← (if negb rw then run Endpoint_ClearOUT else mret tt);
      mret (true, event_of mem).

(** ** Sessions *)

(** The calls of an application, and an event that passes between them. *)
Inductive midi_call := Send (e : MIDI_EventPacket_t) | Flush | Task | Receive (old : MIDI_EventPacket_t) | Pass.
Inductive answer := Status (err : ep_error) | Got (b : bool) (e : MIDI_EventPacket_t) | Done.

Definition pass : M unit := fun s evs => match evs with ev :: evs' => Ok (tt, tick ev s, evs') | [] => Ok (tt, s, []) end.
Definition perform (c : midi_call) : M answer :=
  match c with
  | Send e => err ← MIDI_Device_SendEventPacket e; mret (Status err)
  | Flush => err ← MIDI_Device_Flush; mret (Status err)
  | Task => _ ← MIDI_Device_USBTask; mret Done
  | Receive old => '(b, e) ← MIDI_Device_ReceiveEventPacket old; mret (Got b e)
  | Pass => _ ← pass; mret Done
  end.
Fixpoint session (calls : list midi_call) : M (list answer) :=
  match calls with
  | [] => mret []
  | c :: calls' => a ← perform c; l ← session calls'; mret (a :: l)
  end.

(** The abstract device: events that are given to it are in the open packet until that is handed
    over, when it is full or by a flush; a call gives an answer, sends events and takes events from
    the queue of those that have arrived. *)
Inductive outcome (o : list MIDI_EventPacket_t) :
  midi_call -> answer -> list MIDI_EventPacket_t -> list MIDI_EventPacket_t -> list MIDI_EventPacket_t -> Prop :=
| sent (e : MIDI_EventPacket_t) : outcome o (Send e) (Status NoError) [e] [] (o ++ [e])
| sent_full (e : MIDI_EventPacket_t) : outcome o (Send e) (Status NoError) [e] [] []
| not_sent (e : MIDI_EventPacket_t) err : err <> NoError -> outcome o (Send e) (Status err) [] [] o
| flushed err : outcome o Flush (Status err) [] [] []
| not_flushed err : err <> NoError -> outcome o Flush (Status err) [] [] o
| tasked : outcome o Task Done [] [] []
| not_tasked : outcome o Task Done [] [] o
| got old (e : MIDI_EventPacket_t) : outcome o (Receive old) (Got true e) [] [e] o
| nothing old : outcome o (Receive old) (Got false old) [] [] o
| passed : outcome o Pass Done [] [] o.
Inductive played : list MIDI_EventPacket_t -> list midi_call -> list answer -> list MIDI_EventPacket_t ->
  list MIDI_EventPacket_t -> list MIDI_EventPacket_t -> Prop :=
| played_nil o : played o [] [] [] [] o
| played_cons o o1 o2 c (ans : answer) l x1 x2 y1 y2 calls :
    outcome o c ans x1 y1 o1 -> played o1 calls l x2 y2 o2 -> played o (c :: calls) (ans :: l) (x1 ++ x2) (y1 ++ y2) o2.

Definition call_ok (c : midi_call) : Prop := match c with Send e => event_ok e | _ => True end.
Definition call_frames (c : midi_call) : nat := match c with Pass => 1 | _ => WAIT end.

Section Device.
(** The numbers of the endpoints, the application, and the packets of the IN endpoint from before. *)
Variables (nt nr : Z) (a : midi User) (before : list (list Z)).
Context `{!Link nt nr}.
Hypothesis nt_in : endpoint_number (DataINEndpoint a) = nt.
Hypothesis nr_out : endpoint_number (DataOUTEndpoint a) = nr.
#[local] Set Default Proof Using "Type*".
#[local] Abbreviation tx_ok := (UsbUnits.tx_ok before).
#[local] Abbreviation online := (UsbUnits.online nt nr a before).
#[local] Abbreviation after := (UsbUnits.after nt nr a before).

(** An event fits into the bank, which is handed over when it is full. *)
Lemma tx_write given o e x : tx_ok given o e -> TXINI e = true ->
  let e' := e <| filling := filling e ++ event_bytes x |> in
  (length (filling e) + 4 <= bank_size e)%nat /\
  if RWAL e' then tx_ok (given ++ [x]) (o ++ [x]) e' else tx_ok (given ++ [x]) [] (hand_over e').
Proof.
  intros (H1 & H2 & H3 & H4 & H5 & groups & H6 & <- & H8) Ht e'. destruct (bank_events e) as [k Hk].
  change (length (stream o) < bank_size e)%nat in H3. rewrite stream_length, Hk in H3. assert (length (filling e) + 4 <= bank_size e)%nat as Hroom by (rewrite H5, stream_length, Hk; lia).
  split; [done|]. assert (TXINI e' = true) as Ht' by exact Ht. assert (bank_size e' = bank_size e) as Hb by done.
  assert (filling e' = stream (o ++ [x])) as Hfl by (unfold e'; simpl; by rewrite H5, stream_app).
  assert (length (filling e') = length (filling e) + 4)%nat as Hl by (unfold e'; simpl; rewrite length_app; simpl; lia).
  unfold RWAL. change (UECFG0X e') with (UECFG0X e). rewrite H1, Ht', Hl, Hb. cbn [andb].
  destruct (Nat.ltb_spec (length (filling e) + 4) (bank_size e)).
  - split; [done|]. split; [congruence|]. split; [change (length (stream (o ++ [x])) < bank_size e)%nat; by rewrite <- Hfl, Hl|]. split; [done|]. split; [done|].
    exists groups. by rewrite app_assoc.
  - unfold hand_over. rewrite Ht'. set (e2 := e' <| armed ::= _ |> <| filling := [] |>).
    split; [done|]. split; [done|]. split; [apply (bank_size_pos e2)|]. split; [done|]. split; [done|].
    exists (groups ++ [o ++ [x]]). split; [|split].
    + change (packets_in e2) with (taken e ++ (armed e ++ [filling e'])). rewrite Hfl, app_assoc. unfold packets_in in H6.
      by rewrite H6, map_app, app_assoc.
    + rewrite concat_app. simpl. by rewrite !app_nil_r, app_assoc.
    + apply Forall_app. split; [done|]. repeat constructor; [by destruct o|]. change (length (stream (o ++ [x])) <= bank_size e)%nat. rewrite <- Hfl, Hl. lia.
Qed.

(** Whatever is in the bank is handed over. *)
Lemma tx_flush given o e : tx_ok given o e -> o <> [] -> tx_ok given [] (hand_over e).
Proof.
  intros (H1 & H2 & H3 & H4 & H5 & groups & H6 & <- & H8) Ho.
  assert (TXINI e = true) as Ht.
  { destruct (TXINI e); [done|]. rewrite (H2 eq_refl) in H5. by destruct o. }
  unfold hand_over. rewrite Ht. set (e2 := e <| armed ::= _ |> <| filling := [] |>).
  split; [done|]. split; [done|]. split; [apply (bank_size_pos e2)|]. split; [done|]. split; [done|].
  exists (groups ++ [o]). split; [|split].
  - change (packets_in e2) with (taken e ++ (armed e ++ [filling e])). rewrite H5, app_assoc. unfold packets_in in H6.
    by rewrite H6, map_app, app_assoc.
  - rewrite concat_app. simpl. by rewrite !app_nil_r.
  - apply Forall_app. split; [done|]. repeat constructor; [done|]. apply Nat.lt_le_incl, H3.
Qed.

(** *** What the calls do *)

(** The answer of a call that ends in the state [s] before [evs]. *)
Definition done_call c (given o pend : list MIDI_EventPacket_t) evs0 (ans : answer) evs s : Prop :=
  exists o' x y, outcome o c ans x y o' /\ after (given ++ x) o' y pend evs0 evs s.
Lemma done_tx c given o o' pend x ans evs0 evs s :
  outcome o c ans x [] o' -> after (given ++ x) o' [] pend evs0 evs s -> done_call c given o pend evs0 ans evs s.
Proof. intros Ho Ha. by exists o', x, []. Qed.
Lemma done_idle c given o o' pend ans evs0 evs s :
  outcome o c ans [] [] o' -> after given o' [] pend evs0 evs s -> done_call c given o pend evs0 ans evs s.
Proof. intros Ho Ha. apply (done_tx c given o o' pend []); [done|]. by rewrite app_nil_r. Qed.
Lemma send_done x given o pend evs s : online given o pend evs s -> event_ok x ->
  within WAIT (fun err => done_call (Send x) given o pend evs (Status err)) s evs (MIDI_Device_SendEventPacket x s evs).
Proof.
  intros Ho Hx. unfold MIDI_Device_SendEventPacket. rewrite bind_get. destruct (configured_ s); cbn [negb]; cbv iota.
  2: { apply within_ret; [|done]. eapply done_idle; [by constructor|]. by apply online_now. }
  rewrite bind_run. set (s1 := select DataINEndpoint s). assert (UENUM s1 = nt) as Hu.
  { rewrite <- nt_in. destruct Ho as [<- _]. done. }
  assert (online given o pend evs s1) as Ho1 by done. apply (within_start s1); [|done].
  pose proof (wait_after _ _ _ _ _ _ Ho1 Hu) as Hw. clearbody s1.
  destruct (Endpoint_WaitUntilReady s1 evs) as [[[err s2] evs2]| |] eqn:Ew; cbn [within] in Hw; [|done|].
  2: { unfold Endpoint_Write_Stream_LE, Stream_RW, mbind, M_bind. by rewrite Ew. }
  destruct Hw as ((Hu2 & Ha2 & Ht2) & Hl2 & Hc2). destruct (after_online _ _ _ _ _ _ Ha2) as (p2 & Ho2 & Hback).
  destruct (decide (err = NoError)) as [->|Hne].
  - destruct (online_in _ _ _ _ _ Ho2 Hu2) as (e & Hat & Htx & Hupd). pose proof (told_free _ _ _ _ _ Ho2 Hu2 Ht2 e Hat) as Hfree.
    destruct (tx_write given o e x Htx Hfree) as [Hroom Hwr]. pose proof Htx as (Hd & _).
    pose proof (write_stream_ready USB_USBTask nt e s1 s2 evs evs2 (event_bytes x) 4 None Ew Hat Hd Hfree eq_refl) as Hst.
    specialize (Hst ltac:(done) ltac:(done) Hroom Hx). rewrite (bind_ok _ _ _ _ _ _ _ Hst). rewrite decide_False by (intros Hc; by apply Hc).
    change (take 4 (event_bytes x)) with (event_bytes x). set (f := fun e' : endpoint => e' <| filling := filling e ++ event_bytes x |>) in *.
    change (e <| filling := filling e ++ event_bytes x |>) with (f e) in Hwr.
    pose proof (at_on_cur nt e s2 f Hat) as Hat3. rewrite bind_get. unfold Endpoint_IsReadWriteAllowed. rewrite (at_cur _ _ _ Hat3).
    destruct (RWAL (f e)) eqn:Erw; cbn [negb]; cbv iota.
    + rewrite bind_ret. apply within_done; [|lia|change (UDFNUM (on_cur f s2)) with (UDFNUM s2); lia]. eapply done_tx; [apply sent|]. apply Hback; [|done]. by apply Hupd.
    + rewrite bind_run. apply within_done; [|lia|change (UDFNUM (Endpoint_ClearIN (on_cur f s2))) with (UDFNUM s2); lia].
      eapply done_tx; [apply sent_full|]. apply Hback; [|done]. unfold Endpoint_ClearIN. rewrite on_cur_comp. by apply Hupd.
  - assert (Endpoint_Write_Stream_LE USB_USBTask (event_bytes x) sizeof_EventPacket None s1 evs =
      Ok ((err, event_bytes x, None), s2, evs2)) as Hst.
    { unfold Endpoint_Write_Stream_LE, Stream_RW. rewrite Ew. cbn [mbind res_bind]. by rewrite decide_False. }
    rewrite (bind_ok _ _ _ _ _ _ _ Hst), decide_True by done. apply within_done; [|lia..].
    eapply done_idle; [by apply not_sent|done].
Qed.

Lemma flush_done given o pend evs s : online given o pend evs s ->
  within WAIT (fun err => done_call Flush given o pend evs (Status err)) s evs (MIDI_Device_Flush s evs).
Proof.
  intros Ho. unfold MIDI_Device_Flush. rewrite bind_get. destruct (configured_ s); cbn [negb]; cbv iota.
  2: { apply within_ret; [|done]. eapply done_idle; [by apply not_flushed|]. by apply online_now. }
  rewrite bind_run, bind_get. set (s1 := select DataINEndpoint s). assert (UENUM s1 = nt) as Hu.
  { rewrite <- nt_in. destruct Ho as [<- _]. done. }
  assert (online given o pend evs s1) as Ho1 by done. apply (within_start s1); [|done]. clearbody s1.
  destruct (online_in _ _ _ _ _ Ho1 Hu) as (e & Hat & Htx & Hupd). pose proof Htx as (_ & _ & _ & Hr & Hf & _).
  unfold Endpoint_BytesInEndpoint. rewrite (at_cur _ _ _ Hat), Hr, Hf, stream_length.
  destruct o as [|x o]; cbn [length].
  { apply within_ret; [|done]. eapply done_idle; [apply flushed|]. by apply online_now. }
  rewrite (proj2 (Z.eqb_neq _ 0)) by lia. cbn [negb]. cbv iota. rewrite bind_run.
  assert (online given [] pend evs (Endpoint_ClearIN s1)) as Ho2.
  { unfold Endpoint_ClearIN. apply Hupd. by apply (tx_flush given (x :: o)). }
  assert (UENUM (Endpoint_ClearIN s1) = nt) as Hu2 by done.
  apply (within_start (Endpoint_ClearIN s1)); [|done]. set (s2 := Endpoint_ClearIN s1) in *. clearbody s2.
  replace WAIT with (WAIT + 0)%nat by lia. eapply within_bind; [exact (wait_after _ _ _ _ _ _ Ho2 Hu2)|].
  intros err s3 evs3 (_ & Ha & _). case_decide as Hc; (apply within_ret; [|done]); (eapply done_idle; [apply flushed|]); done.
Qed.

Lemma task_done given o pend evs s : online given o pend evs s ->
  within WAIT (fun _ => done_call Task given o pend evs Done) s evs (MIDI_Device_USBTask s evs).
Proof.
  intros Ho. unfold MIDI_Device_USBTask. rewrite bind_get.
  assert (done_call Task given o pend evs Done evs s) as Hid.
  { eapply done_idle; [apply not_tasked|]. by apply online_now. }
  destruct (configured_ s); cbn [negb]; cbv iota; [|by apply within_ret].
  rewrite bind_run, bind_get. set (s1 := select DataINEndpoint s). assert (online given o pend evs s1) as Ho1 by done.
  apply (within_start s1); [|done]. assert (done_call Task given o pend evs Done evs s1) as Hid1 by exact Hid. clearbody s1.
  destruct (Endpoint_IsINReady s1); [|by apply within_ret]. replace WAIT with (WAIT + 0)%nat by lia.
  eapply within_bind; [by apply flush_done|]. intros err s2 evs2 (o' & x & y & Hout & Ha). apply within_ret; [|done].
  inversion Hout; subst; rewrite app_nil_r in Ha; (eapply done_idle; [|exact Ha]); constructor.
Qed.

Lemma event_of_bytes (x : MIDI_EventPacket_t) : event_of (event_bytes x) = x.
Proof using Type. by destruct x. Qed.

Lemma receive_next old given o x pend ev evs s :
  online given o (x :: pend) (ev :: evs) s -> configured_ s = true ->
  exists s', MIDI_Device_ReceiveEventPacket old s (ev :: evs) = Ok ((true, x), s', evs) /\
    after given o [x] (x :: pend) (ev :: evs) evs s' /\ UDFNUM s' = frame_of (UDFNUM s) ev.
Proof.
  intros Ho Hc. unfold MIDI_Device_ReceiveEventPacket. rewrite bind_get, Hc. cbn [negb]. cbv iota.
  rewrite bind_run, bind_get. set (s1 := select DataOUTEndpoint s). assert (UENUM s1 = nr) as Hu.
  { rewrite <- nr_out. destruct Ho as [<- _]. done. }
  assert (online given o (x :: pend) (ev :: evs) s1) as Ho1 by done. change (UDFNUM s) with (UDFNUM s1). clearbody s1. clear Ho Hc s.
  destruct (online_out _ _ _ _ _ Ho1 Hu) as (e & Hat & (Hd & Hx & groups & Hr & Hg & Hp) & _).
  destruct groups as [|[|y g] gs]; [done|by apply Forall_cons_1 in Hg as [? _]|]. injection Hp as -> Hp.
  apply Forall_cons_1 in Hg as [_ Hg]. cbn [map] in Hr. change (stream (x :: g)) with (event_bytes x ++ stream g) in Hr.
  assert (RWAL e = true) as Hrw by (unfold RWAL; by rewrite Hd, Hr).
  unfold Endpoint_IsReadWriteAllowed at 1. rewrite (at_cur _ _ _ Hat), Hrw. cbn [negb]. cbv iota.
  pose proof Ho1 as (_ & Hf & Hev & _). apply Forall_cons_1 in Hev as [Hv Hevs]. pose proof Hv as [Hnr _].
  destruct (read_stream_head USB_USBTask nr e s1 ev evs (event_bytes old) (event_bytes x) (event_bytes x) (stream g) (map stream gs) None)
    as (e' & Hrd & Hat' & (D & HD & HDs) & C1 & C2 & C3 & C4); try done; [exact (nr_pos (nt:=nt))|].
  change (Z.of_nat (length (event_bytes x))) with sizeof_EventPacket in Hrd.
  rewrite (bind_ok _ _ _ _ _ _ _ Hrd), bind_get. clear Hrd. set (s2 := on_cur _ _) in *.
  destruct (arrivals ev D Hv HDs) as (arr & -> & Harr).
  destruct (online_tick given o (x :: pend) ev evs s1 Ho1) as (_ & _ & p & _ & _ & _ & Ho2).
  assert (UENUM (tick ev s1) = nr) as Hu2 by apply Hat'.
  destruct (online_out _ _ _ _ _ Ho2 Hu2) as (e2 & _ & (Hd2 & Hx2 & _) & Hupd).
  unfold Endpoint_IsReadWriteAllowed, RWAL. rewrite (at_cur _ _ _ Hat'), C1, Hd, HD, event_of_bytes.
  set (rest := map stream gs ++ map stream arr) in *.
  exists (if decide (g = []) then Endpoint_ClearOUT s2 else s2). split; [by destruct g|]. split; [|by case_decide; apply tick_UDFNUM].
  exists [ev], arr, (pend ++ concat arr). split; [done|]. split; [done|]. split; [done|].
  case_decide as Hg0; [|].
  - unfold Endpoint_ClearOUT, s2. rewrite on_cur_comp. apply Hupd. split; [done|]. split; [done|]. exists (gs ++ arr).
    split; [simpl; rewrite HD, map_app; done|]. split; [by apply Forall_app|]. rewrite concat_app, <- Hp. by subst g.
  - apply Hupd. split; [done|]. split; [done|]. exists (g :: gs ++ arr).
    split; [simpl; rewrite HD, map_app; done|]. split; [constructor; [done|by apply Forall_app]|]. simpl. by rewrite concat_app, app_assoc, <- Hp.
Qed.

Lemma receive_nothing old given o evs s : online given o [] evs s -> configured_ s = true ->
  MIDI_Device_ReceiveEventPacket old s evs = Ok ((false, old), select DataOUTEndpoint s, evs).
Proof.
  intros Ho Hc. unfold MIDI_Device_ReceiveEventPacket. rewrite bind_get, Hc. cbn [negb]. cbv iota. rewrite bind_run, bind_get.
  assert (UENUM (select DataOUTEndpoint s) = nr) as Hu.
  { rewrite <- nr_out. destruct Ho as [<- _]. done. }
  destruct (online_out given o [] evs (select DataOUTEndpoint s) Ho Hu) as (e & Hat & (Hd & Hx & groups & Hr & Hg & Hp) & _).
  assert (RWAL e = false) as Hrw.
  { unfold RWAL. rewrite Hd, Hr. destruct groups as [|[|y g] gs]; [done|by apply Forall_cons_1 in Hg as [? _]|done]. }
  unfold Endpoint_IsReadWriteAllowed. by rewrite (at_cur _ _ _ Hat), Hrw.
Qed.

Lemma receive_done old given o pend evs s : online given o pend evs s ->
  within WAIT (fun r => done_call (Receive old) given o pend evs (Got (fst r) (snd r))) s evs (MIDI_Device_ReceiveEventPacket old s evs).
Proof.
  intros Ho. destruct (configured_ s) eqn:Hc.
  2: { unfold MIDI_Device_ReceiveEventPacket. rewrite bind_get, Hc. apply within_ret; [|done]. eapply done_idle; [apply nothing|].
    by apply online_now. }
  destruct pend as [|x pend].
  - rewrite (receive_nothing old given o evs s Ho Hc). apply within_ret; [|done]. eapply done_idle; [apply nothing|].
    by apply (online_now given o [] evs (select DataOUTEndpoint s)).
  - destruct evs as [|ev evs].
    + assert (MIDI_Device_ReceiveEventPacket old s [] = Hang \/ exists s', MIDI_Device_ReceiveEventPacket old s [] = Ok ((false, old), s', []) /\
        online given o (x :: pend) [] s' /\ UDFNUM s' = UDFNUM s) as [-> |(s' & -> & Ho' & Hn)].
      { unfold MIDI_Device_ReceiveEventPacket. rewrite bind_get, Hc. cbn [negb]. cbv iota. rewrite bind_run, bind_get.
        destruct (Endpoint_IsReadWriteAllowed _); [by left|right]. by eexists. }
      * simpl. unfold WAIT. lia.
      * apply within_ret; [|done]. eapply done_idle; [apply nothing|]. by apply online_now.
    + destruct (receive_next old given o x pend ev evs s Ho Hc) as (s' & Hrun & Ha & Hn). rewrite Hrun.
      apply within_done; [|simpl; lia|].
      * exists o, [], [x]. rewrite app_nil_r. split; [apply got|done].
      * rewrite Hn. simpl. pose proof (differs_le (frame_of (UDFNUM s) ev) (UDFNUM s)). unfold WAIT. lia.
Qed.

Lemma perform_done c given o pend evs s : online given o pend evs s -> call_ok c ->
  within (call_frames c) (done_call c given o pend evs) s evs (perform c s evs).
Proof.
  intros Ho Hc. destruct c as [x| | |old|]; cbn [perform call_frames]; try (replace WAIT with (WAIT + 0)%nat by lia; eapply within_bind).
  - by apply send_done.
  - intros err s2 evs2 Hd. by apply within_ret.
  - by apply flush_done.
  - intros err s2 evs2 Hd. by apply within_ret.
  - by apply task_done.
  - intros err s2 evs2 Hd. by apply within_ret.
  - by apply receive_done.
  - intros [b x] s2 evs2 Hd. by apply within_ret.
  - unfold pass, mbind, M_bind. destruct evs as [|ev evs].
    + apply within_ret; [|done]. eapply done_idle; [apply passed|]. by apply online_now.
    + apply within_done; [|simpl; lia|]. { eapply done_idle; [apply passed|]. by apply online_tick. }
      rewrite tick_UDFNUM. simpl. pose proof (differs_le (frame_of (UDFNUM s) ev) (UDFNUM s)). lia.
Qed.

(** Any session behaves as the abstract device. *)
Lemma session_played : forall calls given o pend evs s, online given o pend evs s -> Forall call_ok calls ->
  within (sum_list_with call_frames calls) (fun l evs' s' => exists o' x y, played o calls l x y o' /\
    after (given ++ x) o' y pend evs evs' s') s evs (session calls s evs).
Proof.
  induction calls as [|c calls IH]; intros given o pend evs s Ho Hok.
  { apply within_ret; [|done]. exists o, [], []. rewrite app_nil_r. split; [constructor|]. by apply online_now. }
  apply Forall_cons_1 in Hok as [Hc Hok]. cbn [session sum_list_with].
  eapply within_bind; [by apply perform_done|]. intros ans s1 evs1 (o1 & x1 & y1 & Hout & Ha).
  replace (sum_list_with call_frames calls) with (sum_list_with call_frames calls + 0)%nat by lia.
  destruct Ha as (u & arr & p & H1 & H2 & H3 & Ho1). eapply within_bind; [by apply IH|].
  intros l s2 evs2 (o2 & x2 & y2 & Hpl & Ha2). apply within_ret; [|done]. exists o2, (x1 ++ x2), (y1 ++ y2).
  split; [by eapply played_cons|]. rewrite app_assoc. by eapply events_then.
Qed.
End Device.

(** ** Configuration *)

(** The endpoints that the application declares. *)
Definition midi_tables (nt nr : Z) (a : midi User) : Prop := link_tables nt nr (DataINEndpoint a) (DataOUTEndpoint a).
Definition bulk (a : midi User) : midi User :=
  a <| RESERVED := 0 |> <| DataINEndpoint ::= fun t => t <| Type_ := UsbDescriptors.EP_TYPE_BULK |> |>
    <| DataOUTEndpoint ::= fun t => t <| Type_ := UsbDescriptors.EP_TYPE_BULK |> |>.

Lemma configured_online nt nr s evs : accepts -> midi_tables nt nr (app s) -> length (eps s) = 7%nat -> fires EORSTI s = false ->
  Forall (event_fine nt nr) evs ->
  exists s1, MIDI_Device_ConfigureEndpoints s = Ok (true, s1) /\ app s1 = bulk (app s) /\
    USB_DeviceState s1 = USB_DeviceState s /\ online nt nr (app s1) (taken (nth (Z.to_nat nt) (eps s) no_endpoint)) [] [] [] evs s1.
Proof using Type.
  intros Hacc Htab Hlen Hf Hev.
  unfold MIDI_Device_ConfigureEndpoints. rewrite (op_bind_ok (modify _) _ s tt _ eq_refl), (op_bind_ok (modify _) _ _ tt _ eq_refl).
  set (s0 := on_midi _ (on_midi _ s)).
  destruct (tables_online (nt:=nt) (nr:=nr) (a:=bulk (app s)) (before:=taken (nth (Z.to_nat nt) (eps s) no_endpoint))
    (DataINEndpoint (app s0)) (DataOUTEndpoint (app s0)) s0 evs) as (s1 & s2 & H1 & A1 & H2 & S2 & _ & Ho); try done.
  exists s2. rewrite (op_bind_ok (gets _) _ s0 _ s0 eq_refl), (op_bind_ok _ _ _ _ _ H1). cbn [negb]. cbv iota.
  rewrite (op_bind_ok (gets _) _ s1 _ s1 eq_refl), A1, (op_bind_ok _ _ _ _ _ H2). split; [done|].
  pose proof Ho as [-> _]. done.
Qed.
End Midi.

(** ** Theorems *)

(** C15: a MIDI device from its configuration on: on a controller that accepts its endpoints,
    [MIDI_Device_ConfigureEndpoints] succeeds, and then every sequence of calls, under any bus
    events without a reset in which the host sends whole events, behaves as the abstract device:
    an event that is accepted is sent once, in order, in one packet with other whole events, one
    that is not accepted leaves nothing, a flush or the task hands over what is open; the events
    received are those that arrived, in order, each once, and one that has arrived is received.
    The calls return once the bus has seen the frames of their timeouts. *)
Theorem midi_session {User} `{UsbChip} descriptors signature nt nr calls (s : usb (midi User)) evs :
  accepts -> midi_tables nt nr (app s) -> length (eps s) = 7%nat -> fires EORSTI s = false ->
  Forall (event_fine nt nr) evs -> Forall call_ok calls ->
  exists s1, MIDI_Device_ConfigureEndpoints s = Ok (true, s1) /\
    match session descriptors signature calls s1 evs with
    | Fault => False
    | Hang => (changes (UDFNUM s1) evs < sum_list_with call_frames calls)%nat
    | Ok (answers, s', evs') => exists o x y pend used arrived, played [] calls answers x y o /\
        evs = used ++ evs' /\ map stream arrived `sublist_of` outs nr used /\ y ++ pend = concat arrived /\
        online nt nr (app s1) (taken (nth (Z.to_nat nt) (eps s) no_endpoint)) x o pend evs' s' /\
        forall old z rest ev later, pend = z :: rest -> evs' = ev :: later -> USB_DeviceState s' = Configured ->
          exists s'', MIDI_Device_ReceiveEventPacket descriptors signature old s' evs' = Ok ((true, z), s'', later)
    end.
Proof.
  intros Hacc Htab Hlen Hf Hev Hok. destruct (configured_online nt nr s evs) as (s1 & H1 & Happ & Hst & Ho); try done.
  exists s1. split; [done|]. destruct (link_numbers _ _ Htab) as (Hlink & Ni & No).
  change (endpoint_number (DataINEndpoint (bulk (app s))) = nt) in Ni. change (endpoint_number (DataOUTEndpoint (bulk (app s))) = nr) in No.
  rewrite <- Happ in Ni, No.
  pose proof (session_played descriptors signature nt nr (app s1) (taken (nth (Z.to_nat nt) (eps s) no_endpoint)) Ni No
    calls [] [] [] evs s1 Ho Hok) as Hs.
  destruct (session _ _ _ _ _) as [[[l s'] evs']| |]; [|done..]. destruct Hs as ((o & x & y & Hp & u & arr & p & A1 & A2 & A3 & Ho') & _).
  exists o, x, y, p, u, arr. split_and!; try done. intros old z rest ev later -> -> Hc.
  destruct (receive_next descriptors signature nt nr (app s1) _ Ni No old _ _ z rest ev later s' Ho')
    as (s'' & Hrun & _); [by unfold configured_; rewrite Hc|by exists s''].
Qed.

(** *** A device for concrete runs *)

(** Bulk endpoints of eight bytes, IN 1 and OUT 2. *)
Definition w_app : midi unit := mkMidi _ 0 (mkTable 129 8 0 1) (mkTable 2 8 0 1) 0 tt.
Definition w_midi : usb (midi unit) := fresh_device control_endpoint no_request w_app <| USB_DeviceState := Configured |>.
Definition w_out (r : list (list Z)) : endpoint := mkEndpoint true false false 128 (BV ALLOC) 0 [] [] [] [] r false.
Definition w_held (r : list (list Z)) : usb (midi unit) := w_midi <| eps ::= <[2%nat := w_out r]> |>.
#[local] Abbreviation w_receive := (@MIDI_Device_ReceiveEventPacket unit some_chip (fun _ _ => (0, [])) (fun _ => 0)).
Definition note_on : MIDI_EventPacket_t := mkEvent (MIDI_EVENT 0 144) 144 60 64.
Definition note_off : MIDI_EventPacket_t := mkEvent (MIDI_EVENT 0 128) 128 60 64.
Fixpoint w_frames (n : nat) : list bus_event := match n with O => [] | S n' => w_frames n' ++ [Frame (Z.of_nat n)] end.

(** The stream that reads an event, whatever the packets. *)
Lemma event_read {User} `{UsbChip} descriptors signature n old e (s1 : usb (midi User)) evs : 0 < n -> at_ep n e s1 -> Z.testbit (UECFG0X e) EPDIR = false ->
  RXSTPI e = false -> fires EORSTI s1 = false -> no_reset evs -> no_control evs s1 ->
  within (WAIT * S (4 + (length (received e) + length (outs n evs))))
    (fun '(_, mem, _) evs' _ => exists used (P : list (list Z)) (part : list Z), evs = used ++ evs' /\ P `sublist_of` outs n used /\
       part `prefix_of` concat (received e) ++ concat P /\ (length part <= 4)%nat /\ mem = part ++ drop (length part) (event_bytes old)) s1 evs
    (Endpoint_Read_Stream_LE (USB_USBTask (User:=User) descriptors signature) (event_bytes old) sizeof_EventPacket None s1 evs).
Proof.
  intros Hn Ha Hd Hx Hf Hev Hc. set (q := (length (received e) + length (outs n evs))%nat).
  assert (out_state n [] (concat (received e)) evs q (steady s1) evs s1) as Hout.
  { exists e, [], []. rewrite app_nil_r. split_and!; try done. }
  pose proof (read_stream (USB_USBTask descriptors signature) no_control n Hn no_control_stable (fun f evs s _ => no_control_on_cur n Hn f evs s)
    (fun evs s Hc _ => device_task_idle _ _ descriptors signature evs s Hc) LE (event_bytes old) sizeof_EventPacket None 4
    [] (concat (received e)) evs q (steady s1) s1 evs Hout Hc) as Hr.
  specialize (Hr (room_LE (event_bytes old) 0 4 ltac:(lia) ltac:(simpl; lia)) eq_refl).
  eapply (within_after 0); [exact Hr|done|done|done|].
  intros [[err mem'] p'] evs2 s2 (bs & (e2 & used & P & _ & _ & _ & Hev2 & HP & Hgot & _) & _ & Hsto & Hbs & _). simpl in Hsto.
  apply store_LE in Hsto; [|lia]. exists used, P, bs. split_and!; try done. exists (concat (received e2)). by rewrite <- Hgot.
Qed.

(** C26: reception from packets of any lengths. An empty packet is never given back: reception answers
    [false] and leaves every endpoint as it is, whatever follows. While there is a byte, reception reports
    success, however many bytes it gets in time: the event starts with the next bytes that the
    host has sent, at most four, whatever the bounds of the packets they came in, and where they
    are fewer the rest of the event is what the caller's structure held. *)
Theorem midi_malformed_packets {User} `{UsbChip} descriptors signature old (s : usb (midi User)) e evs :
  let n := endpoint_number (DataOUTEndpoint (app s)) in
  USB_DeviceState s = Configured -> 0 < n -> eps s !! Z.to_nat n = Some e -> Z.testbit (UECFG0X e) EPDIR = false ->
  RXSTPI e = false -> fires EORSTI s = false -> no_reset evs -> no_control evs (select DataOUTEndpoint s) ->
  (forall ps, received e = [] :: ps ->
     exists s', MIDI_Device_ReceiveEventPacket descriptors signature old s evs = Ok ((false, old), s', evs) /\ eps s' = eps s) /\
  (forall b p ps, received e = (b :: p) :: ps ->
     within (WAIT * S (4 + (length (received e) + length (outs n evs))))
       (fun r evs' _ => exists used P part, evs = used ++ evs' /\ P `sublist_of` outs n used /\
          part `prefix_of` concat (received e) ++ concat P /\ (length part <= 4)%nat /\
          r = (true, event_of (part ++ drop (length part) (event_bytes old)))) s evs
       (MIDI_Device_ReceiveEventPacket descriptors signature old s evs)).
Proof.
  intros n Hst Hn He Hd Hx Hf Hev Hc. set (s1 := select DataOUTEndpoint s) in *.
  assert (at_ep n e s1) as Ha by done. assert (configured_ s = true) as Hconf by (unfold configured_; by rewrite Hst).
  split; intros; unfold MIDI_Device_ReceiveEventPacket; rewrite bind_get, Hconf; cbn [negb]; cbv iota; rewrite bind_run, bind_get; fold s1;
    unfold Endpoint_IsReadWriteAllowed at 1, RWAL; rewrite (at_cur _ _ _ Ha), Hd.
  - rewrite H0. by eexists.
  - rewrite H0. cbn [negb]. cbv iota. rewrite <- H0. set (q := (length (received e) + length (outs n evs))%nat).
    apply (within_start s1); [|done]. replace (WAIT * S (4 + q))%nat with (WAIT * S (4 + q) + 0)%nat by lia. eapply within_bind.
    + by apply (event_read descriptors signature n old e).
    + intros [[err mem'] p'] s2 evs2 (used & P & part & H1 & H2 & H3 & H4 & ->). rewrite bind_get.
      destruct (negb _); rewrite ?bind_run, ?bind_ret; (apply within_ret; [|done]); by exists used, P, part.
Qed.
(** Three bytes, and no more: the fourth of the event is the caller's. *)
Lemma w_short :
  exists s' evs', w_receive note_off (w_held [[9; 144; 60]]) (w_frames 102) = Ok ((true, mkEvent 9 144 60 64), s', evs').
Proof. eexists _, _. vm_compute. reflexivity. Qed.
Lemma midi_malformed_packets_witness :
  exists s' evs', w_receive note_off (w_held [[9; 144; 60]]) (w_frames 102) = Ok ((true, mkEvent 9 144 60 64), s', evs') /\
    exists part, part `prefix_of` [9; 144; 60] /\ mkEvent 9 144 60 64 = event_of (part ++ drop (length part) (event_bytes note_off)).
Proof.
  assert (no_control (w_frames 102) (select DataOUTEndpoint (w_held [[9; 144; 60]]))) as Hc.
  { split; [exists control_endpoint; split; reflexivity|]. split; [vm_compute; split; discriminate || reflexivity|]. split; [reflexivity|].
    repeat constructor; discriminate. }
  destruct (@midi_malformed_packets unit some_chip (fun _ _ => (0, [])) (fun _ => 0) note_off (w_held [[9; 144; 60]]) (w_out [[9; 144; 60]])
    (w_frames 102)) as [_ Hr].
  - reflexivity.
  - reflexivity.
  - reflexivity.
  - reflexivity.
  - reflexivity.
  - reflexivity.
  - repeat constructor; discriminate.
  - exact Hc.
  - specialize (Hr 9 [144; 60] [] eq_refl).
    destruct w_short as (s' & evs' & E). exists s', evs'. split; [exact E|].
    rewrite E in Hr. destruct Hr as ((used & P & part & Hu & HP & Hpre & _ & Hx) & _).
    exists part. split; [|exact (f_equal snd Hx)].
    change (endpoint_number _) with 2 in HP.
    assert (outs 2 used = []) as Ho.
    { assert (outs 2 (w_frames 102) = []) as Ho by (vm_compute; reflexivity). rewrite Hu, outs_app in Ho. by apply app_eq_nil in Ho as [Ho _]. }
    rewrite Ho in HP. apply sublist_nil_r in HP as ->. exact Hpre.
Defined.
(** When more packets come, events are taken across their bounds. *)
Example midi_shifted_event :
  exists s', w_receive note_off (w_held [[9; 144; 60]; event_bytes note_on]) [Idle; Idle] = Ok ((true, mkEvent 9 144 60 9), s', []).
Proof. eexists. vm_compute. reflexivity. Qed.

(** A host that sends one event and collects two. *)
Definition w_calls : list midi_call := [Send note_on; Send note_off; Pass; Receive note_on; Flush].
Definition w_events : list bus_event := [Idle; Out 2 (event_bytes note_off); Idle; In 1; Idle].
Lemma midi_session_witness :
  exists s1 s' evs' o x y pend, @MIDI_Device_ConfigureEndpoints unit some_chip w_midi = Ok (true, s1) /\
    @session unit some_chip (fun _ _ => (0, [])) (fun _ => 0) w_calls s1 w_events =
      Ok ([Status NoError; Status NoError; Done; Got true note_off; Status NoError], s', evs') /\
    played [] w_calls [Status NoError; Status NoError; Done; Got true note_off; Status NoError] x y o /\
    online 1 2 (app s1) [] x o pend evs' s'.
Proof.
  destruct (@midi_session unit some_chip (fun _ _ => (0, [])) (fun _ => 0) 1 2 w_calls w_midi w_events) as (s1 & H1 & H2).
  - intros n c0 c1. reflexivity.
  - split; [lia|]. split; [lia|]. split; [discriminate|]. split; [reflexivity|]. split; [reflexivity|]. split; discriminate.
  - reflexivity.
  - reflexivity.
  - repeat constructor; try discriminate. intros _. exists [note_off]. split; [discriminate|reflexivity].
  - repeat constructor; discriminate.
  - destruct (session _ _ _ _ _) as [[[l s'] evs']| |] eqn:Es; [|destruct H2|].
    + destruct H2 as (o & x & y & pend & _ & _ & Hp & _ & _ & _ & Ho & _). exists s1, s', evs', o, x, y, pend.
      vm_compute in H1. injection H1 as <-. split; [vm_compute; reflexivity|].
      pose proof Es as El. vm_compute in El. injection El as <- _ _. split; [exact Es|]. split; [exact Hp|exact Ho].
    + exfalso. vm_compute in H1. injection H1 as <-. vm_compute in Es. discriminate.
Defined.
End MidiDevice.
