(* ===== verification/AudioDevice.v ===== *)
(** * Audio class driver (AudioClassDevice.c)

    Properties that the host sets and gets over endpoint 0, and a stream of samples of 8, 16 or 24
    bits over two isochronous endpoints. The application's state holds the class information and
    the user's own state; its callbacks are parameters. *)

From S2P Require Import Prelude.
From S2P Require Import Packed.
From S2P Require Import Usb.
From S2P Require Import UsbConfigure.
From S2P Require Import UsbStream.
From S2P Require Import UsbTransfer.
From S2P Require Import UsbPacket.
From S2P Require Import UsbUnits.
From S2P Require Import UsbControlRead.
From S2P Require Import UsbDevice.
From S2P Require Import UsbAnswer.
From Stdlib Require Import Lia ZArith.
Import Packed Usb UsbConfigure UsbStream UsbTransfer UsbPacket UsbUnits UsbControlRead UsbDevice UsbAnswer.

#[local] Open Scope Z_scope.

Module AudioDevice.

(** ** Data *)

(** [USB_ClassInfo_Audio_Device_t], and the user's state. *)
Record audio {User : Type} := mkAudio {
  ControlInterfaceNumber : Z; StreamingInterfaceNumber : Z; DataINEndpoint : USB_Endpoint_Table_t;
  DataOUTEndpoint : USB_Endpoint_Table_t; InterfaceEnabled : bool; user : User }.
Arguments audio User : clear implicits.
#[export] Instance eta_audio {User} : Eta (audio User) :=
  {| eta r := mkAudio User (ControlInterfaceNumber r) (StreamingInterfaceNumber r) (DataINEndpoint r) (DataOUTEndpoint r)
       (InterfaceEnabled r) (user r); eta_id := ltac:(by intros []) |}.

Definition REQ_SetInterface := 11.
Definition AUDIO_REQ_SetCurrent := 1.
Definition AUDIO_REQ_SetMinimum := 2.
Definition AUDIO_REQ_SetMaximum := 3.
Definition AUDIO_REQ_SetResolution := 4.
Definition AUDIO_REQ_GetCurrent := 129.
Definition AUDIO_REQ_GetMinimum := 130.
Definition AUDIO_REQ_GetMaximum := 131.
Definition AUDIO_REQ_GetResolution := 132.
Definition AUDIO_REQ_GetStatus := 255.
Definition EP_TYPE_ISOCHRONOUS := 1.

Section Audio.
Context {User : Type} `{UsbChip}.
#[local] Abbreviation M := (M (App:=audio User)).
#[local] Abbreviation Op := (Op (App:=audio User)).
#[local] Abbreviation state := (usb (audio User)).
Implicit Types (s : state) (a : audio User) (e : endpoint).

Definition on_audio (f : audio User -> audio User) s : state := s <| app ::= f |>.
Definition select (t : audio User -> USB_Endpoint_Table_t) s : state := Endpoint_SelectEndpoint (Address (t (app s))) s.

(** ** Control requests *)

(** The application's callbacks. A property is given by three numbers; without a value (the null
    pointers of the C code) the callback says whether the property is there; the result is a
    boolean, the value's length and its array. *)
Definition property_callback : Type := Z -> Z -> Z -> option (Z * list Z) -> Op (bool * Z * list Z).
Variables CALLBACK_Audio_Device_GetSetEndpointProperty CALLBACK_Audio_Device_GetSetInterfaceProperty : property_callback.
Variable EVENT_Audio_Device_StreamStartStop : Op unit.

Definition SetInterface : M unit :=
  _ ← run Endpoint_ClearSETUP;
  _ ← Endpoint_ClearStatusStage;
  v ← get (fun s => wValue (USB_ControlRequest s));
  _ ← run (on_audio (fun a => a <| InterfaceEnabled := negb (Z.land v 255 =? 0) |>));
  op EVENT_Audio_Device_StreamStartStop.
Definition GetStatus : M unit := _ ← run Endpoint_ClearSETUP; Endpoint_ClearStatusStage.

(** The array has the length of the request. *)
Definition SetProperty (property : option (Z * list Z) -> Op (bool * Z * list Z)) : M unit :=
  '(valid, _, _) ← op (property None);
  if valid : bool then
    ValueLength ← get (fun s => wLength (USB_ControlRequest s));
    _ ← run Endpoint_ClearSETUP;
    '(_, Value) ← Endpoint_Read_Control_Stream_LE (replicate (Z.to_nat ValueLength) 0) ValueLength;
    _ ← run Endpoint_ClearIN;
    _ ← op (property (Some (ValueLength, Value)));
    mret tt
  else mret tt.
Definition GetProperty (property : option (Z * list Z) -> Op (bool * Z * list Z)) : M unit :=
  ValueLength ← get (fun s => wLength (USB_ControlRequest s));
  '(ok, ValueLength, Value) ← op (property (Some (ValueLength, replicate (Z.to_nat ValueLength) 0)));
  if ok : bool then
    _ ← run Endpoint_ClearSETUP;
    _ ← Endpoint_Write_Control_Stream_LE Value ValueLength;
    run Endpoint_ClearOUT
  else mret tt.

(** The properties that a request names, if its recipient has any. *)
Definition endpoint_property (r : USB_Request_Header_t) : option (Z * list Z) -> Op (bool * Z * list Z) :=
  CALLBACK_Audio_Device_GetSetEndpointProperty (bRequest r) (u8 (wIndex r)) (u8 (Z.shiftr (wValue r) 8)).
Definition interface_property (r : USB_Request_Header_t) : option (Z * list Z) -> Op (bool * Z * list Z) :=
  CALLBACK_Audio_Device_GetSetInterfaceProperty (bRequest r) (u8 (Z.shiftr (wIndex r) 8)) (wValue r).
Definition recipient (r : USB_Request_Header_t) : Z := Z.land (bmRequestType r) CONTROL_REQTYPE_RECIPIENT.
Definition with_property (r : USB_Request_Header_t) (f : (option (Z * list Z) -> Op (bool * Z * list Z)) -> M unit) : M unit :=
  if recipient r =? REQREC_ENDPOINT then f (endpoint_property r)
  else if recipient r =? REQREC_INTERFACE then f (interface_property r)
  else mret tt.

(** The request is for an interface or an endpoint that is not the driver's. *)
Definition not_ours (r : USB_Request_Header_t) a : bool :=
  let index := Z.land (wIndex r) 255 in
  if recipient r =? REQREC_INTERFACE then negb (index =? ControlInterfaceNumber a) && negb (index =? StreamingInterfaceNumber a)
  else if recipient r =? REQREC_ENDPOINT then negb (index =? Address (DataINEndpoint a)) && negb (index =? Address (DataOUTEndpoint a))
  else false.
Definition set_property (b : Z) : bool :=
  (b =? AUDIO_REQ_SetCurrent) || (b =? AUDIO_REQ_SetMinimum) || (b =? AUDIO_REQ_SetMaximum) || (b =? AUDIO_REQ_SetResolution).
Definition get_property (b : Z) : bool :=
  (b =? AUDIO_REQ_GetCurrent) || (b =? AUDIO_REQ_GetMinimum) || (b =? AUDIO_REQ_GetMaximum) || (b =? AUDIO_REQ_GetResolution).
Definition class_endpoint : Z := Z.lor (Z.lor REQDIR_HOSTTODEVICE REQTYPE_CLASS) REQREC_ENDPOINT.

Definition Audio_Device_ProcessControlRequest : M unit :=
  setup ← get Endpoint_IsSETUPReceived;
  r ← get USB_ControlRequest;
  a ← get app;
  if negb setup then mret tt
  else if not_ours r a then mret tt
  else if bRequest r =? REQ_SetInterface then
    if bmRequestType r =? standard REQDIR_HOSTTODEVICE REQREC_INTERFACE then SetInterface else mret tt
  else if bRequest r =? AUDIO_REQ_GetStatus then
    if (bmRequestType r =? class_request REQDIR_HOSTTODEVICE) || (bmRequestType r =? class_endpoint) then GetStatus else mret tt
  else if set_property (bRequest r) then with_property r SetProperty
  else if get_property (bRequest r) then with_property r GetProperty
  else mret tt.

Definition Audio_Device_ConfigureEndpoints : Op bool :=
  _ ← modify (on_audio (fun a => a <| InterfaceEnabled := false |>));
  _ ← modify (on_audio (fun a => a <| DataINEndpoint ::= fun t => t <| Type_ := EP_TYPE_ISOCHRONOUS |> |>
                                   <| DataOUTEndpoint ::= fun t => t <| Type_ := EP_TYPE_ISOCHRONOUS |> |>));
  i ← gets (fun s => DataINEndpoint (app s));
  ok ← Endpoint_ConfigureEndpointTable [i];
  if negb ok then mret false
  else
    o ← gets (fun s => DataOUTEndpoint (app s));
    ok ← Endpoint_ConfigureEndpointTable [o];
    if negb ok then mret false else mret true.

(** The main task has nothing to do; the stub takes the place of a handler the application lacks. *)
Definition Audio_Device_USBTask : Op unit := mret tt.
Definition Audio_Device_Event_Stub : Op unit := mret tt.

(** The application's descriptors; its handlers are the driver's functions. *)
Variable CALLBACK_USB_GetDescriptor : Z -> Z -> Z * list Z.
Variable boot_signature_byte_get : Z -> Z.
Definition EVENT_USB_Device_ConfigurationChanged : M unit := _ ← op Audio_Device_ConfigureEndpoints; mret tt.
Definition ProcessControlRequest : M unit :=
  USB_Device_ProcessControlRequest Audio_Device_ProcessControlRequest EVENT_USB_Device_ConfigurationChanged
    CALLBACK_USB_GetDescriptor boot_signature_byte_get.

End Audio.

Section Samples.
Context {User : Type} `{UsbChip}.
#[local] Abbreviation Op := (Op (App:=audio User)).
#[local] Abbreviation state := (usb (audio User)).
Implicit Types (s : state) (a : audio User) (e : endpoint).

(** ** Samples *)

Definition streaming s : bool := bool_decide (USB_DeviceState s = Configured) && InterfaceEnabled (app s).
Definition Audio_Device_IsSampleReceived : Op bool :=
  ok ← gets streaming;
  if negb ok then mret false
  else _ ← modify (select DataOUTEndpoint); gets Endpoint_IsOUTReceived.
Definition Audio_Device_IsReadyForNextSample : Op bool :=
  ok ← gets streaming;
  if negb ok then mret false
  else _ ← modify (select DataINEndpoint); gets Endpoint_IsINReady.

(** The bank is given back when it is empty, and handed over when it has the endpoint's size. *)
Definition bank_read : Op unit :=
  n ← gets Endpoint_BytesInEndpoint;
  if n =? 0 then modify Endpoint_ClearOUT else mret tt.
Definition bank_written : Op unit :=
  n ← gets Endpoint_BytesInEndpoint;
  size ← gets (fun s => Size (DataINEndpoint (app s)));
  if n =? size then modify Endpoint_ClearIN else mret tt.

Definition Audio_Device_ReadSample8 : Op Z := Sample ← Endpoint_Read_8; _ ← bank_read; mret (i8 Sample).
Definition Audio_Device_ReadSample16 : Op Z := Sample ← Endpoint_Read_16_LE; _ ← bank_read; mret (i16 Sample).
(** C leaves open which operand of [Endpoint_Read_8() << 16 | Endpoint_Read_16_LE()] comes first. *)
Definition Audio_Device_ReadSample24 (left_first : bool) : Op Z :=
  '(high, low) ← (if left_first then high ← Endpoint_Read_8; low ← Endpoint_Read_16_LE; mret (high, low)
                  else low ← Endpoint_Read_16_LE; high ← Endpoint_Read_8; mret (high, low));
  _ ← bank_read;
  mret (Z.lor (Z.shiftl high 16) low).
Definition Audio_Device_WriteSample8 (Sample : Z) : Op unit := _ ← Endpoint_Write_8 Sample; bank_written.
Definition Audio_Device_WriteSample16 (Sample : Z) : Op unit := _ ← Endpoint_Write_16_LE (u16 Sample); bank_written.
Definition Audio_Device_WriteSample24 (Sample : Z) : Op unit :=
  _ ← Endpoint_Write_16_LE (u16 Sample); _ ← Endpoint_Write_8 (Z.shiftr Sample 16); bank_written.

(** ** Sample formats *)

(** The three widths; at 24 bits with the order of evaluation that the compiler has chosen. *)
Inductive format := Bits8 | Bits16 | Bits24 (left_first : bool).
Definition width (w : format) : nat := match w with Bits8 => 1 | Bits16 => 2 | Bits24 _ => 3 end.
Definition ReadSample (w : format) : Op Z :=
  match w with
  | Bits8 => Audio_Device_ReadSample8
  | Bits16 => Audio_Device_ReadSample16
  | Bits24 left_first => Audio_Device_ReadSample24 left_first
  end.
Definition WriteSample (w : format) : Z -> Op unit :=
  match w with
  | Bits8 => Audio_Device_WriteSample8
  | Bits16 => Audio_Device_WriteSample16
  | Bits24 _ => Audio_Device_WriteSample24
  end.
(** The bytes of a sample on the bus; and the value that the header documents for them, a signed
    integer of the width. *)
Definition sample_bytes (w : format) (x : Z) : list Z := take (width w) (le32 x).
Definition i24 (x : Z) : Z := (x + 8388608) mod 16777216 - 8388608.
Definition sample_value (w : format) (x : Z) : Z :=
  match w with Bits8 => i8 x | Bits16 => i16 x | Bits24 _ => i24 x end.
(** The value that the functions compute from these bytes, which is another one at 24 bits: the sign is
    not extended, and if the left operand is evaluated first the low byte is taken for the high one. *)
Definition value_read (w : format) (x : Z) : Z :=
  match w with
  | Bits8 => i8 x
  | Bits16 => i16 x
  | Bits24 left_first => if left_first then 65536 * u8 x + u16 (x / 256) else x mod 16777216
  end.

Lemma sample_length w x : length (sample_bytes w x) = width w.
Proof using Type. by destruct w. Qed.
(** The values of samples, and how those that are read compare with them. *)
Definition values_of (w : format) : Prop :=
  (forall x, - 2 ^ (8 * Z.of_nat (width w) - 1) <= x < 2 ^ (8 * Z.of_nat (width w) - 1) -> sample_value w x = x) /\
  forall x, match w with
    | Bits8 | Bits16 => value_read w x = sample_value w x
    | Bits24 false => value_read w x = if sample_value w x <? 0 then sample_value w x + 16777216 else sample_value w x
    | Bits24 true => exists b0 b1 b2, sample_bytes w x = [b0; b1; b2] /\ value_read w x = b1 + 256 * b2 + 65536 * b0
    end.
Lemma values_compared w : values_of w.
Proof using Type.
  split.
  - intros x Hx. destruct w as [| |f]; cbn [sample_value width] in *.
    + change (2 ^ (8 * Z.of_nat 1 - 1)) with 128 in Hx. words.
    + change (2 ^ (8 * Z.of_nat 2 - 1)) with 32768 in Hx. words.
    + change (2 ^ (8 * Z.of_nat 3 - 1)) with 8388608 in Hx. unfold i24. words.
  - intros x. destruct w as [| |[]]; [done|done| |].
    + exists (u8 x), (u8 (x / 256)), (u8 (x / 65536)). split; [done|]. cbn [value_read]. words.
    + cbn [value_read sample_value]. unfold i24. destruct (Z.ltb_spec ((x + 8388608) mod 16777216 - 8388608) 0); words.
Qed.

(** The bytes of integers. *)
Lemma bytes16 x : u8 x + 256 * u8 (x / 256) = u16 x.
Proof using Type. words. Qed.
Lemma bytes24 x : u16 x + 65536 * u8 (x / 65536) = x mod 16777216.
Proof using Type. words. Qed.
Lemma i16_u16 x : i16 (u16 x) = i16 x.
Proof using Type. unfold i16, u16. by rewrite Zplus_mod_idemp_l. Qed.
Lemma i8_u8 x : i8 (u8 x) = i8 x.
Proof using Type. unfold i8, u8. by rewrite Zplus_mod_idemp_l. Qed.

(** The bytes of a bank, one by one. *)
Lemma read_head_byte n e s b rest ps : at_ep n e s -> RXSTPI e = false -> received e = (b :: rest) :: ps ->
  exists e', Endpoint_Read_8 s = Ok (b, on_cur (fun e => e <| received := rest :: ps |>) s) /\
    at_ep n e' (on_cur (fun e => e <| received := rest :: ps |>) s) /\ RXSTPI e' = false /\ received e' = rest :: ps.
Proof using Type.
  intros Ha Hx Hr. unfold Endpoint_Read_8. rewrite (at_cur _ _ _ Ha), Hx, Hr.
  eexists. split; [done|]. split; [exact (at_on_cur n e s (fun e => e <| received := rest :: ps |>) Ha)|]. done.
Qed.
Lemma received_again n e s l l' : at_ep n e s ->
  on_cur (fun e => e <| received := l' |>) (on_cur (fun e => e <| received := l |>) s) = on_cur (fun e => e <| received := l' |>) s.
Proof using Type. intros Ha. by rewrite on_cur_comp. Qed.

Lemma read16_ok n e s b0 b1 rest ps : at_ep n e s -> RXSTPI e = false -> received e = (b0 :: b1 :: rest) :: ps ->
  Endpoint_Read_16_LE s = Ok (b0 + 256 * b1, on_cur (fun e => e <| received := rest :: ps |>) s).
Proof using Type.
  intros Ha Hx Hr. destruct (read_head_byte n e s b0 (b1 :: rest) ps Ha Hx Hr) as (e1 & H1 & Ha1 & Hx1 & Hr1).
  destruct (read_head_byte n e1 _ b1 rest ps Ha1 Hx1 Hr1) as (e2 & H2 & _). unfold Endpoint_Read_16_LE.
  rewrite (op_bind_ok _ _ _ _ _ H1), (op_bind_ok _ _ _ _ _ H2). by rewrite (received_again n e).
Qed.

(** A sample is read from the start of the bank. *)
Lemma sample_read w n e s x rest ps : at_ep n e s -> RXSTPI e = false -> received e = (sample_bytes w x ++ rest) :: ps ->
  ReadSample w s = ('(_, s') ← bank_read (on_cur (fun e => e <| received := rest :: ps |>) s); Ok (value_read w x, s')).
Proof using Type.
  intros Ha Hx Hr. set (s' := on_cur (fun e => e <| received := rest :: ps |>) s). destruct w as [| |f]; cbn [ReadSample].
  - destruct (read_head_byte n e s (u8 x) rest ps Ha Hx Hr) as (e1 & H1 & _). unfold Audio_Device_ReadSample8.
    rewrite (op_bind_ok _ _ _ _ _ H1), i8_u8. reflexivity.
  - pose proof (read16_ok n e s (u8 x) (u8 (x / 256)) rest ps Ha Hx Hr) as H1. unfold Audio_Device_ReadSample16.
    rewrite (op_bind_ok _ _ _ _ _ H1), bytes16, i16_u16. reflexivity.
  - unfold Audio_Device_ReadSample24. destruct f.
    + destruct (read_head_byte n e s (u8 x) (u8 (x / 256) :: u8 (x / 65536) :: rest) ps Ha Hx Hr) as (e1 & H1 & Ha1 & Hx1 & Hr1).
      pose proof (read16_ok n e1 _ _ _ rest ps Ha1 Hx1 Hr1) as H2. rewrite (received_again n e) in H2 by done. fold s' in H2.
      rewrite (op_bind_ok _ _ s (u8 x, u16 (x / 256)) s').
      2: { rewrite (op_bind_ok _ _ _ _ _ H1), (op_bind_ok _ _ _ _ _ H2). replace (x / 65536) with (x / 256 / 256) by (rewrite Z.div_div by lia; done).
           by rewrite bytes16. }
      rewrite lor_shiftl_add by (lia || apply u16_range). cbn [value_read]. by rewrite Z.mul_comm.
    + pose proof (read16_ok n e s (u8 x) (u8 (x / 256)) (u8 (x / 65536) :: rest) ps Ha Hx Hr) as H1.
      set (s1 := on_cur (fun e => e <| received := (u8 (x / 65536) :: rest) :: ps |>) s) in *.
      assert (at_ep n (e <| received := (u8 (x / 65536) :: rest) :: ps |>) s1) as Ha1 by exact (at_on_cur n e s (fun e => e <| received := _ |>) Ha).
      destruct (read_head_byte n _ s1 (u8 (x / 65536)) rest ps Ha1 Hx eq_refl) as (e2 & H2 & _). unfold s1 in H2. rewrite (received_again n e) in H2 by done.
      fold s1 s' in H2. rewrite (op_bind_ok _ _ s (u8 (x / 65536), u16 x) s').
      2: { rewrite (op_bind_ok _ _ _ _ _ H1), (op_bind_ok _ _ _ _ _ H2). by rewrite bytes16. }
      rewrite lor_shiftl_add by (lia || apply u16_range). cbn [value_read]. rewrite <- bytes24. change (2 ^ 16) with 65536.
      by replace (u8 (x / 65536) * 65536 + u16 x) with (u16 x + 65536 * u8 (x / 65536)) by lia.
Qed.

(** A sample is written behind what is in the bank. *)
Lemma write_byte n e s b l : at_ep n e s -> TXINI e = true -> filling e = l -> (length l < bank_size e)%nat ->
  exists e', Endpoint_Write_8 b s = Ok (tt, on_cur (fun e => e <| filling := l ++ [u8 b] |>) s) /\
    at_ep n e' (on_cur (fun e => e <| filling := l ++ [u8 b] |>) s) /\ TXINI e' = true /\ filling e' = l ++ [u8 b] /\ bank_size e' = bank_size e.
Proof using Type.
  intros Ha Ht <- Hl. unfold Endpoint_Write_8. rewrite (at_cur _ _ _ Ha), Ht, (proj2 (Nat.ltb_lt _ _)) by done. cbn [andb].
  rewrite (on_cur_ext n e s (fun e => e <| filling ::= fun l => l ++ [u8 b] |>) (fun e0 => e0 <| filling := filling e ++ [u8 b] |>) Ha) by (by destruct e).
  eexists. split; [done|]. split; [exact (at_on_cur n e s (fun e0 => e0 <| filling := filling e ++ [u8 b] |>) Ha)|]. done.
Qed.
Lemma filled_again n e s l l' : at_ep n e s ->
  on_cur (fun e => e <| filling := l' |>) (on_cur (fun e => e <| filling := l |>) s) = on_cur (fun e => e <| filling := l' |>) s.
Proof using Type. intros Ha. by rewrite on_cur_comp. Qed.

Lemma write16_ok n e s x : at_ep n e s -> TXINI e = true -> (length (filling e) + 2 <= bank_size e)%nat ->
  exists e', Endpoint_Write_16_LE (u16 x) s = Ok (tt, on_cur (fun e' => e' <| filling := filling e ++ [u8 x; u8 (x / 256)] |>) s) /\
    at_ep n e' (on_cur (fun e' => e' <| filling := filling e ++ [u8 x; u8 (x / 256)] |>) s) /\ TXINI e' = true /\
    filling e' = filling e ++ [u8 x; u8 (x / 256)] /\ bank_size e' = bank_size e.
Proof using Type.
  intros Ha Ht Hl. destruct (write_byte n e s (Z.land (u16 x) 255) (filling e) Ha Ht eq_refl ltac:(lia)) as (e1 & H1 & Ha1 & Ht1 & Hf1 & Hb1).
  destruct (write_byte n e1 _ (Z.shiftr (u16 x) 8) _ Ha1 Ht1 Hf1) as (e2 & H2 & Ha2 & Ht2 & Hf2 & Hb2); [rewrite length_app, Hb1; simpl; lia|].
  rewrite (filled_again n e) in H2, Ha2 by done. rewrite <- app_assoc in H2, Ha2, Hf2. cbn [app] in H2, Ha2, Hf2.
  assert (u8 (Z.land (u16 x) 255) = u8 x) as E1 by (change 255 with (Z.ones 8); rewrite Z.land_ones by lia; words).
  assert (u8 (Z.shiftr (u16 x) 8) = u8 (x / 256)) as E2 by (rewrite Z.shiftr_div_pow2 by lia; words).
  rewrite E1, E2 in *. exists e2. split; [unfold Endpoint_Write_16_LE; by rewrite (op_bind_ok _ _ _ _ _ H1)|]. split_and!; try done. congruence.
Qed.

Lemma sample_written w n e s x : at_ep n e s -> TXINI e = true -> (length (filling e) + width w <= bank_size e)%nat ->
  WriteSample w x s = bank_written (on_cur (fun e' => e' <| filling := filling e ++ sample_bytes w x |>) s).
Proof using Type.
  intros Ha Ht Hl. destruct w as [| |f]; cbn [WriteSample width] in *.
  - destruct (write_byte n e s x (filling e) Ha Ht eq_refl ltac:(lia)) as (e1 & H1 & _). unfold Audio_Device_WriteSample8.
    by rewrite (op_bind_ok _ _ _ _ _ H1).
  - destruct (write16_ok n e s x Ha Ht Hl) as (e1 & H1 & _). unfold Audio_Device_WriteSample16. by rewrite (op_bind_ok _ _ _ _ _ H1).
  - destruct (write16_ok n e s x Ha Ht ltac:(lia)) as (e1 & H1 & Ha1 & Ht1 & Hf1 & Hb1).
    destruct (write_byte n e1 _ (Z.shiftr x 16) _ Ha1 Ht1 Hf1) as (e2 & H2 & _); [rewrite length_app, Hb1; simpl; lia|].
    rewrite (filled_again n e) in H2 by done. rewrite <- app_assoc in H2. cbn [app] in H2.
    unfold Audio_Device_WriteSample24. rewrite (op_bind_ok _ _ _ _ _ H1), (op_bind_ok _ _ _ _ _ H2).
    rewrite Z.shiftr_div_pow2 by lia. done.
Qed.

(** ** Sessions *)

Section Session.
(** The format, and the number of samples in a packet. *)
Variables (w : format) (per : nat).

(** Samples are what is sent and received; a packet has as many as the endpoint's size allows. *)
#[local] Instance sample_units : Units Z := {|
  bytes_of := sample_bytes w;
  open_ok size us := (length us < per)%nat /\ (width w * per <= size)%nat;
  whole _ us := length us = per |}.

Lemma samples_length (us : list Z) : length (stream us) = (width w * length us)%nat.
Proof using Type.
  induction us as [|x us IH]; [simpl; lia|]. change (stream (x :: us)) with (sample_bytes w x ++ stream us).
  rewrite length_app, sample_length, IH. simpl. lia.
Qed.
Lemma width_pos : (0 < width w)%nat.
Proof using Type. destruct w; simpl; lia. Qed.

(** What an application does with a sample, and an event that passes between. *)
Definition put (x : Z) : Op bool :=
  ok ← Audio_Device_IsReadyForNextSample;
  if ok : bool then _ ← WriteSample w x; mret true else mret false.
Definition fetch : Op (option Z) :=
  ok ← Audio_Device_IsSampleReceived;
  if ok : bool then x ← ReadSample w; mret (Some x) else mret None.
Inductive audio_step := Put (x : Z) | Fetch | Pass (ev : bus_event).
Inductive answer := PutDone (ok : bool) | Fetched (x : option Z) | Passed.
Definition perform (c : audio_step) : Op answer :=
  match c with
  | Put x => ok ← put x; mret (PutDone ok)
  | Fetch => x ← fetch; mret (Fetched x)
  | Pass ev => _ ← modify (tick ev); mret Passed
  end.
Fixpoint play (steps : list audio_step) : Op (list answer) :=
  match steps with
  | [] => mret []
  | c :: steps' => r ← perform c; rs ← play steps'; mret (r :: rs)
  end.

(** The events of a session, the samples it has accepted and the samples it has fetched. *)
Definition events (steps : list audio_step) : list bus_event := flat_map (fun c => match c with Pass ev => [ev] | _ => [] end) steps.
Definition accepted (steps : list audio_step) (answers : list answer) : list Z :=
  flat_map (fun ca => match ca with (Put x, PutDone true) => [x] | _ => [] end) (zip steps answers).
Definition fetched (answers : list answer) : list Z :=
  flat_map (fun r => match r with Fetched (Some x) => [x] | _ => [] end) answers.

Section Playing.
(** The endpoints, the application, and the packets of the IN endpoint from before. *)
Variables (nt nr : Z) (a : audio User) (before : list (list Z)).
Context `{!Link nt nr}.
Hypothesis nt_in : endpoint_number (DataINEndpoint a) = nt.
Hypothesis nr_out : endpoint_number (DataOUTEndpoint a) = nr.
Hypothesis in_size : Size (DataINEndpoint a) = Z.of_nat (width w * per).
#[local] Set Default Proof Using "Type*".
#[local] Abbreviation tx_ok := (UsbUnits.tx_ok before).
#[local] Abbreviation online := (UsbUnits.online nt nr a before).
#[local] Abbreviation after := (UsbUnits.after nt nr a before).

(** The bank of the IN endpoint takes data. *)
Definition free s : bool := match eps s !! Z.to_nat nt with Some e => TXINI e | None => false end.

Lemma tx_put given o e x : tx_ok given o e -> TXINI e = true ->
  let e' := e <| filling := filling e ++ sample_bytes w x |> in
  (length (filling e) + width w <= bank_size e)%nat /\
  if (S (length o) =? per)%nat then tx_ok (given ++ [x]) [] (hand_over e') else tx_ok (given ++ [x]) (o ++ [x]) e'.
Proof.
  intros (H1 & H2 & [H3 H3'] & H4 & H5 & groups & H6 & <- & H8) Ht e'.
  assert (length (filling e) + width w <= bank_size e)%nat as Hroom by (rewrite H5, samples_length; nia).
  split; [done|]. assert (filling e' = stream (o ++ [x])) as Hfl.
  { unfold e'. simpl. rewrite H5, stream_app. cbn. by rewrite app_nil_r. }
  destruct (Nat.eqb_spec (S (length o)) per) as [Hp|Hp].
  - unfold hand_over. change (TXINI e') with (TXINI e). rewrite Ht. set (e2 := e' <| armed ::= _ |> <| filling := [] |>).
    split; [done|]. split; [done|]. split; [split; [simpl; lia|exact H3']|]. split; [done|]. split; [done|].
    exists (groups ++ [o ++ [x]]). split; [|split].
    + change (packets_in e2) with (taken e ++ (armed e ++ [filling e'])). rewrite Hfl, app_assoc. unfold packets_in in H6.
      by rewrite H6, map_app, app_assoc.
    + rewrite concat_app. simpl. by rewrite !app_nil_r, app_assoc.
    + apply Forall_app. split; [done|]. repeat constructor. simpl. rewrite length_app. simpl. lia.
  - split; [done|]. split; [change (TXINI e' = false) with (TXINI e = false); congruence|].
    split; [split; [rewrite length_app; simpl; lia|exact H3']|]. split; [done|]. split; [done|].
    exists groups. by rewrite app_assoc.
Qed.

Lemma put_done x given o pend evs s : online given o pend evs s ->
  exists o' s', put x s = Ok (streaming s && free s, s') /\ online (given ++ if streaming s && free s then [x] else []) o' pend evs s'.
Proof.
  intros Ho. unfold put, Audio_Device_IsReadyForNextSample. destruct (streaming s) eqn:Es.
  2: { exists o, s. rewrite app_nil_r. split; [|done]. unfold mbind, Op_bind, gets. by rewrite Es. }
  set (s1 := select DataINEndpoint s). assert (UENUM s1 = nt) as Hu by (rewrite <- nt_in; destruct Ho as [<- _]; done).
  assert (online given o pend evs s1) as Ho1 by done. destruct (online_in _ _ _ _ _ Ho1 Hu) as (e & Hat & Htx & Hupd).
  assert (free s = TXINI e) as Hfree by (unfold free; destruct Hat as [_ Hat]; change (eps s1) with (eps s) in Hat; by rewrite Hat).
  assert ((ok ← gets streaming; if negb ok then mret false else _ ← modify (select DataINEndpoint); gets Endpoint_IsINReady) s = Ok (TXINI e, s1)) as Hrdy.
  { unfold mbind, Op_bind, gets, modify. rewrite Es. cbn [negb res_bind]. fold s1. unfold Endpoint_IsINReady. by rewrite (at_cur _ _ _ Hat). }
  rewrite (op_bind_ok _ _ _ _ _ Hrdy), Hfree. cbn [andb]. destruct (TXINI e) eqn:Et; [|exists o, s1; by rewrite app_nil_r].
  destruct (tx_put given o e x Htx Et) as [Hroom Hput]. pose proof (sample_written w nt e s1 x Hat Et Hroom) as Hw.
  unfold mbind, Op_bind. rewrite Hw. clear Hw.
  set (f := fun e' : endpoint => e' <| filling := filling e ++ sample_bytes w x |>) in *. change (e <| filling := filling e ++ sample_bytes w x |>) with (f e) in Hput.
  pose proof (at_on_cur nt e s1 f Hat) as Hat2. unfold bank_written, mbind, Op_bind, gets. cbn [res_bind].
  unfold Endpoint_BytesInEndpoint. rewrite (at_cur _ _ _ Hat2). destruct Htx as (_ & _ & _ & Hr & Hf & _).
  change (received (f e)) with (received e). rewrite Hr. change (filling (f e)) with (filling e ++ sample_bytes w x).
  change (app (on_cur f s1)) with (app s). destruct Ho as [-> _]. rewrite in_size, length_app, Hf, samples_length, sample_length.
  pose proof width_pos. destruct (Nat.eqb_spec (S (length o)) per) as [Hp|Hp].
  - rewrite (proj2 (Z.eqb_eq _ _)) by (rewrite <- Hp; lia). cbn. exists [], (Endpoint_ClearIN (on_cur f s1)). split; [done|].
    unfold Endpoint_ClearIN. rewrite on_cur_comp. by apply Hupd.
  - rewrite (proj2 (Z.eqb_neq _ _)) by nia. cbn. exists (o ++ [x]), (on_cur f s1). split; [done|]. by apply Hupd.
Qed.

Lemma fetch_done given o pend evs s : online given o pend evs s ->
  exists s', online given o (if streaming s then tail pend else pend) evs s' /\
    fetch s = Ok (if streaming s then value_read w <$> head pend else None, s').
Proof.
  intros Ho. unfold fetch, Audio_Device_IsSampleReceived. destruct (streaming s) eqn:Es.
  2: { exists s. split; [done|]. unfold mbind, Op_bind, gets. by rewrite Es. }
  set (s1 := select DataOUTEndpoint s). assert (UENUM s1 = nr) as Hu by (rewrite <- nr_out; destruct Ho as [<- _]; done).
  assert (online given o pend evs s1) as Ho1 by done.
  destruct (online_out _ _ _ _ _ Ho1 Hu) as (e & Hat & (Hd & Hx & groups & Hr & Hg & Hp) & Hupd).
  assert ((ok ← gets streaming; if negb ok then mret false else _ ← modify (select DataOUTEndpoint); gets Endpoint_IsOUTReceived) s =
    Ok (RXOUTI e, s1)) as Hrdy.
  { unfold mbind, Op_bind, gets, modify. rewrite Es. cbn [negb res_bind]. fold s1. unfold Endpoint_IsOUTReceived. by rewrite (at_cur _ _ _ Hat). }
  rewrite (op_bind_ok _ _ _ _ _ Hrdy). unfold RXOUTI. rewrite Hr.
  destruct groups as [|[|x g] gs]; [|by apply Forall_cons_1 in Hg as [? _]|].
  { simpl in Hp. subst pend. by exists s1. }
  apply Forall_cons_1 in Hg as [_ Hg]. cbn [map] in *. change (stream (x :: g)) with (sample_bytes w x ++ stream g) in Hr.
  cbn [concat app] in Hp. subst pend. cbn [tail head fmap option_fmap option_map negb]. cbv iota.
  pose proof (sample_read w nr e s1 x (stream g) (map stream gs) Hat Hx Hr) as Hrd.
  set (f := fun e' : endpoint => e' <| received := stream g :: map stream gs |>) in *. pose proof (at_on_cur nr e s1 f Hat) as Hat2.
  unfold bank_read, mbind, Op_bind, gets in Hrd. cbn [res_bind] in Hrd. unfold Endpoint_BytesInEndpoint in Hrd. rewrite (at_cur _ _ _ Hat2) in Hrd.
  change (received (f e)) with (stream g :: map stream gs) in Hrd. cbv iota in Hrd. rewrite samples_length in Hrd. pose proof width_pos.
  unfold mbind, Op_bind. rewrite Hrd. clear Hrd. destruct g as [|y g].
  - rewrite (proj2 (Z.eqb_eq _ _)) by (simpl; lia). cbn. eexists. split; [|done].
    unfold Endpoint_ClearOUT. rewrite on_cur_comp. apply Hupd. split; [done|]. split; [done|]. by exists gs.
  - rewrite (proj2 (Z.eqb_neq _ _)) by (simpl; lia). cbn. eexists. split; [|done]. apply Hupd.
    split; [done|]. split; [done|]. exists ((y :: g) :: gs). split; [done|]. split; [by constructor|done].
Qed.

(** A session behaves as a queue in each direction. *)
Lemma play_done later : forall steps given o pend s, online given o pend (events steps ++ later) s ->
  exists answers s' o' ys, play steps s = Ok (answers, s') /\ fetched answers = map (value_read w) ys /\
    after (given ++ accepted steps answers) o' ys pend (events steps ++ later) later s'.
Proof.
  induction steps as [|c steps IH]; intros given o pend s Ho.
  { exists [], s, o, []. rewrite app_nil_r. split; [done|]. split; [done|]. by apply online_now. }
  destruct c as [x| |ev].
  - destruct (put_done x given o pend _ s Ho) as (o1 & s1 & Hput & Ho1). destruct (IH _ _ _ _ Ho1) as (rs & s2 & o2 & ys & Hpl & Hys & Ha).
    exists (PutDone (streaming s && free s) :: rs), s2, o2, ys. split; [|split; [done|]].
    + cbn [play perform]. rewrite (op_bind_ok _ _ s _ s1) by (by rewrite (op_bind_ok _ _ _ _ _ Hput)). by rewrite (op_bind_ok _ _ _ _ _ Hpl).
    + unfold accepted in *. cbn [zip zip_with flat_map]. by rewrite app_assoc.
  - destruct (fetch_done given o pend _ s Ho) as (s1 & Ho1 & Hf). destruct (IH _ _ _ _ Ho1) as (rs & s2 & o2 & ys & Hpl & Hys & Ha).
    set (y := if streaming s then option_list (head pend) else []).
    exists (Fetched (if streaming s then value_read w <$> head pend else None) :: rs), s2, o2, (y ++ ys). split; [|split].
    + cbn [play perform]. rewrite (op_bind_ok _ _ s _ s1) by (by rewrite (op_bind_ok _ _ _ _ _ Hf)). by rewrite (op_bind_ok _ _ _ _ _ Hpl).
    + unfold y. cbn [fetched flat_map]. fold (fetched rs). rewrite Hys, map_app. destruct (streaming s); [|done]. by destruct pend.
    + unfold accepted in *. cbn [zip zip_with flat_map app]. destruct Ha as (u & arr & p & H1 & H2 & H3 & H4). exists u, arr, p.
      split; [done|]. split; [done|]. split; [|done]. rewrite <- app_assoc, H3. unfold y. destruct (streaming s); [|done]. by destruct pend.
  - destruct (online_tick _ _ _ _ _ _ Ho) as (u & arr & p & H1 & H2 & H3 & Ho1).
    destruct (IH _ _ _ _ Ho1) as (rs & s2 & o2 & ys & Hpl & Hys & Ha).
    exists (Passed :: rs), s2, o2, ys. split; [|split; [done|]].
    + cbn [play perform]. rewrite (op_bind_ok _ _ s Passed (tick ev s) eq_refl). by rewrite (op_bind_ok _ _ _ _ _ Hpl).
    + by eapply (events_then _ _ [] ys).
Qed.
End Playing.
End Session.

(** ** Configuration *)

(** The endpoints that the application declares for a format, with [per] samples in a packet. *)
Definition audio_tables (w : format) (per : nat) (nt nr : Z) a : Prop :=
  link_tables nt nr (DataINEndpoint a) (DataOUTEndpoint a) /\ (0 < per)%nat /\ Size (DataINEndpoint a) = Z.of_nat (width w * per).
Definition isochronous a : audio User :=
  a <| InterfaceEnabled := false |> <| DataINEndpoint ::= fun t => t <| Type_ := EP_TYPE_ISOCHRONOUS |> |>
    <| DataOUTEndpoint ::= fun t => t <| Type_ := EP_TYPE_ISOCHRONOUS |> |>.

(** The state of the stream: [given] has been written, of it [o] is in the open packet; [pend] has
    arrived and is still to be read. *)
Definition audio_online (w : format) (per : nat) : Z -> Z -> audio User -> list (list Z) -> list Z -> list Z -> list Z ->
  list bus_event -> state -> Prop := online (H0:=sample_units w per).
Definition samples_fine (w : format) (per : nat) : Z -> Z -> bus_event -> Prop := event_fine (H0:=sample_units w per).

Lemma audio_configured w per nt nr s evs : accepts -> audio_tables w per nt nr (app s) -> length (eps s) = 7%nat ->
  fires EORSTI s = false -> Forall (samples_fine w per nt nr) evs ->
  exists s1, Audio_Device_ConfigureEndpoints s = Ok (true, s1) /\ USB_DeviceState s1 = USB_DeviceState s /\
    audio_online w per nt nr (isochronous (app s)) (taken (nth (Z.to_nat nt) (eps s) no_endpoint)) [] [] [] evs s1.
Proof using Type.
  intros Hacc (Htab & Hper & Hsize) Hlen Hf Hev.
  unfold Audio_Device_ConfigureEndpoints. rewrite (op_bind_ok (modify _) _ s tt _ eq_refl), (op_bind_ok (modify _) _ _ tt _ eq_refl).
  set (s0 := on_audio _ (on_audio _ s)).
  destruct (tables_online (H0:=sample_units w per) (nt:=nt) (nr:=nr) (a:=isochronous (app s)) (before:=taken (nth (Z.to_nat nt) (eps s) no_endpoint))
    (DataINEndpoint (app s0)) (DataOUTEndpoint (app s0)) s0 evs) as (s1 & s2 & H1 & A1 & H2 & S2 & _ & Ho); try done.
  { intros size _ Hs. change (Size (DataINEndpoint (app s)) <= Z.of_nat size) in Hs. split; [done|]. rewrite Hsize in Hs. lia. }
  exists s2. rewrite (op_bind_ok (gets _) _ s0 _ s0 eq_refl), (op_bind_ok _ _ _ _ _ H1). cbn [negb]. cbv iota.
  by rewrite (op_bind_ok (gets _) _ s1 _ s1 eq_refl), A1, (op_bind_ok _ _ _ _ _ H2).
Qed.
End Samples.

Section Control.
Context {User : Type} `{UsbChip}.
#[local] Abbreviation Op := (Op (App:=audio User)).
#[local] Abbreviation state := (usb (audio User)).
Implicit Types (s : state) (a : audio User) (e : endpoint).
Variables EndpointProperty InterfaceProperty : property_callback (User:=User).
Variable StreamStartStop : Op unit.
Variables (descriptors : Z -> Z -> Z * list Z) (signature : Z -> Z).
#[local] Abbreviation Audio_Request := (Audio_Device_ProcessControlRequest EndpointProperty InterfaceProperty StreamStartStop).
#[local] Abbreviation Request := (ProcessControlRequest EndpointProperty InterfaceProperty StreamStartStop descriptors signature).

(** ** Properties *)

(** The callback that a request for a property ends in. *)
Definition property (r : USB_Request_Header_t) : option (Z * list Z) -> Op (bool * Z * list Z) :=
  if recipient r =? REQREC_ENDPOINT then endpoint_property EndpointProperty r else interface_property InterfaceProperty r.
Definition has_property (r : USB_Request_Header_t) a : Prop :=
  (recipient r = REQREC_ENDPOINT \/ recipient r = REQREC_INTERFACE) /\ not_ours r a = false.

Lemma audio_handled r e0 s evs s1 e1 evs1 :
  requested r e0 s -> Audio_Request (loaded r e0 s) evs = Ok (tt, s1, evs1) ->
  at_ep 0 e1 s1 -> RXSTPI e1 = false -> Request s evs = Ok (tt, s1, evs1).
Proof using Type.
  intros Hq Hh Ha Hr. unfold ProcessControlRequest. eapply request_handled; [exact Hq|exact Hh|].
  unfold Endpoint_IsSETUPReceived. by rewrite (at_cur _ _ _ Ha).
Qed.
Lemma property_named r f : recipient r = REQREC_ENDPOINT \/ recipient r = REQREC_INTERFACE ->
  with_property EndpointProperty InterfaceProperty r f = f (property r).
Proof using Type. unfold with_property, property. by intros [->| ->]. Qed.

(** The dispatch of a request. *)
Lemma audio_dispatch r e0 s evs : at_ep 0 (take_setup (header_bytes r) e0) s -> has_property r (app s) ->
  let sl := loaded r (take_setup (header_bytes r) e0) s in
  (set_property (bRequest r) = true -> Audio_Request sl evs = SetProperty (property r) sl evs) /\
  (get_property (bRequest r) = true -> Audio_Request sl evs = GetProperty (property r) sl evs).
Proof using Type.
  intros Ha [Hrec Hours] sl. unfold Audio_Device_ProcessControlRequest. rewrite !bind_get.
  assert (Endpoint_IsSETUPReceived sl = true) as -> by (apply (loaded_setup r _ s (setup_requested r e0 s Ha))).
  change (USB_ControlRequest sl) with r. change (app sl) with (app s). rewrite Hours. cbn [negb]. cbv iota.
  rewrite !(property_named r _ Hrec). unfold set_property, get_property.
  split; intros Hb; repeat (apply orb_prop in Hb as [Hb|Hb]); apply Z.eqb_eq in Hb; rewrite Hb; reflexivity.
Qed.

(** A value that the host sets reaches the application exactly. *)
Lemma property_set r g e0 s evs :
  at_ep 0 (take_setup (header_bytes r) e0) s -> EPEN e0 = true -> quiet s -> present s ->
  has_property r (app s) -> set_property (bRequest r) = true ->
  (forall s, property r None s = Ok ((true, 0, []), s)) ->
  (forall l v s, exists res, property r (Some (l, v)) s = Ok (res, on_audio (fun a => a <| user ::= g l v |>) s)) ->
  0 < wLength r < 65536 -> Forall (sending (bank_size e0)) evs -> wLength r <= Z.of_nat (length (concat (outs 0 evs))) ->
  exists used later s1 e1, Request s evs = Ok (tt, s1, later) /\ evs = used ++ later /\ at_ep 0 e1 s1 /\ armed e1 = [[]] /\
    app s1 = app s <| user ::= g (wLength r) (take (Z.to_nat (wLength r)) (concat (outs 0 used))) |>.
Proof using Type.
  intros Ha Hen Hq Hp Hprop Hset Hvalid Hcall HL Hev Htot.
  destruct (clear_setup r e0 s Ha) as [Hcs Ha1]. set (s1 := put0 (acked e0) s <| USB_ControlRequest := r |>) in *.
  destruct (control_read_le (replicate (Z.to_nat (wLength r)) 0) (wLength r) s1 (acked e0) evs)
    as (used & later & s2 & e2 & Hrd & Hsp & _ & Ha2 & Ho2 & Htx & Hf2 & Ht2 & Hc2 & Hq2); try done; [rewrite length_replicate; lia|].
  rewrite drop_ge, app_nil_r in Hrd by (rewrite length_replicate; lia).
  pose proof (at_on_cur 0 e2 s2 (fun e => if TXINI e then e <| armed ::= fun l => l ++ [filling e] |> <| filling := [] |> else e) Ha2) as Ha3.
  cbv beta in Ha3. rewrite Htx, Hf2 in Ha3. destruct Ho2 as (Hx1 & Hx2 & Hx3 & Hx4 & Hx5).
  set (v := take (Z.to_nat (wLength r)) (concat (outs 0 used))) in *.
  destruct (Hcall (wLength r) v (Endpoint_ClearIN s2)) as [res Hres].
  eexists used, later, (on_audio (fun a => a <| user ::= g (wLength r) v |>) (Endpoint_ClearIN s2)), _.
  split; [|split; [done|split; [exact Ha3|]]].
  - eapply audio_handled; [by apply setup_requested| |exact Ha3|exact Hx3].
    destruct (audio_dispatch r e0 s evs Ha Hprop) as [-> _]; [|done]. unfold SetProperty.
    rewrite (bind_op _ _ _ _ _ _ (Hvalid _)), bind_get, bind_run, Hcs. change (wLength (USB_ControlRequest (loaded r _ s))) with (wLength r).
    by rewrite (bind_ok _ _ _ _ _ _ _ Hrd), bind_run, (bind_op _ _ _ _ _ _ Hres).
  - simpl. rewrite Hx4. split; [done|]. change (app s2 <| user ::= g (wLength r) v |> = app s <| user ::= g (wLength r) v |>).
    by rewrite (core_app _ _ Hc2).
Qed.

(** A value that the host gets is the application's, up to the length the host asks for. *)
Lemma property_got r n v e0 s evs later :
  at_ep 0 (take_setup (header_bytes r) e0) s -> EPEN e0 = true -> sized e0 s -> quiet s -> present s ->
  has_property r (app s) -> get_property (bRequest r) = true ->
  (forall s, property r (Some (wLength r, replicate (Z.to_nat (wLength r)) 0)) s = Ok ((true, n, v), s)) ->
  0 < n <= Z.of_nat (length v) -> 0 < wLength r -> Forall is_u8 v -> forallb patient evs = true ->
  exists s1 e1, Request s (evs ++ Out 0 [] :: later) = Ok (tt, s1, later) /\ at_ep 0 e1 s1 /\ STALLRQ e1 = false /\ app s1 = app s /\
    taken e1 = taken e0 ++ take (ins 0 evs) (packets (bank_size e0) (take (Z.to_nat (Z.min n (wLength r))) v)).
Proof using Type.
  intros Ha Hen Hsz Hq Hp Hprop Hget Hcall Hn Hw Hu Hev.
  destruct (clear_setup r e0 s Ha) as [Hcs Ha1]. set (s1 := put0 (acked e0) s <| USB_ControlRequest := r |>) in *.
  destruct (control_w_delivers v n 0 s1 (acked e0) evs later) as (s2 & Hcw & e2 & Ha2 & Hc2 & Hq2 & Hx1 & Hx2 & Hx3 & Hx4 & Ht2); try done.
  pose proof (at_on_cur 0 e2 s2 (fun e => e <| received ::= tail |>) Ha2) as Ha3.
  exists (Endpoint_ClearOUT s2), (e2 <| received ::= tail |>). split; [|split; [exact Ha3|]].
  - eapply audio_handled; [by apply setup_requested| |exact Ha3|done].
    destruct (audio_dispatch r e0 s (evs ++ Out 0 [] :: later) Ha Hprop) as [_ ->]; [|done]. unfold GetProperty.
    rewrite bind_get. change (wLength (USB_ControlRequest (loaded r _ s))) with (wLength r).
    rewrite (bind_op _ _ _ _ _ _ (Hcall _)), bind_run, Hcs. unfold Endpoint_Write_Control_Stream_LE.
    by rewrite (bind_ok _ _ _ _ _ _ _ Hcw).
  - split; [done|]. split; [change (app s2 = app s); by rewrite (core_app _ _ Hc2)|]. simpl. rewrite Ht2. done.
Qed.

(** The host starts and stops the stream: the alternate setting is recorded when the status packet
    is armed, and what is on the way stays there. *)
Lemma stream_switched r e0 s evs : (forall s, StreamStartStop s = Ok (tt, s)) ->
  at_ep 0 (take_setup (header_bytes r) e0) s -> not_ours r (app s) = false ->
  bRequest r = REQ_SetInterface -> bmRequestType r = standard REQDIR_HOSTTODEVICE REQREC_INTERFACE ->
  exists s1 e1, Request s evs = Ok (tt, s1, evs) /\ at_ep 0 e1 s1 /\ armed e1 = [[]] /\
    (forall j, (0 < j)%nat -> eps s1 !! j = eps s !! j) /\ fires EORSTI s1 = fires EORSTI s /\ USB_DeviceState s1 = USB_DeviceState s /\
    app s1 = app s <| InterfaceEnabled := negb (Z.land (wValue r) 255 =? 0) |>.
Proof using Type.
  intros Hstub Ha Hours Hreq Hty.
  destruct (clear_setup r e0 s Ha) as [Hcs Ha1]. set (s1 := put0 (acked e0) s <| USB_ControlRequest := r |>) in *.
  destruct (status_in (acked e0) s1 evs Ha1) as [Hst Ha2]; [done|change (Z.land (bmRequestType r) REQDIR_DEVICETOHOST = 0); by rewrite Hty|].
  eexists (on_audio (fun a => a <| InterfaceEnabled := negb (Z.land (wValue r) 255 =? 0) |>) _), _. split; [|split; [exact Ha2|split; [done|split]]].
  2: { intros j Hj. unfold on_audio, put0, s1. simpl. rewrite !list_lookup_insert_ne by lia. done. }
  2: { done. }
  eapply audio_handled; [by apply setup_requested| |exact Ha2|done].
  unfold Audio_Device_ProcessControlRequest. rewrite !bind_get, (loaded_setup r _ s (setup_requested r e0 s Ha)).
  change (USB_ControlRequest (loaded r _ s)) with r. change (app (loaded r _ s)) with (app s). rewrite Hours, Hreq, Hty. cbn [negb]. cbv iota.
  eqbs. unfold SetInterface. rewrite bind_run, Hcs, (bind_ok _ _ _ _ _ _ _ Hst), bind_get, bind_run. unfold op. by rewrite Hstub.
Qed.
Lemma online_switched {U} `{Units U} {nt nr a before} given o pend evs s s1 a1 : Link nt nr ->
  online nt nr a before given o pend evs s -> (forall j, (0 < j)%nat -> eps s1 !! j = eps s !! j) ->
  fires EORSTI s1 = fires EORSTI s -> app s1 = a1 -> online nt nr a1 before given o pend evs s1.
Proof using Type.
  intros [? ? _] (_ & H2 & H3 & Ht & Hr) He Hf Ha. split; [done|]. split; [congruence|]. split; [done|]. by rewrite !He by lia.
Qed.
End Control.

(** ** Theorems *)


(** C24: the properties of an interface or an endpoint that the host sets and gets. When the
    application has the property, a value of any length that is at most what the host sends
    reaches its callback exactly, once, with the request's numbers, and the status packet is armed;
    the value that the callback gives goes to the host in packets of the control endpoint, no more
    of it than the host asks for, up to the packets that the host has collected. *)
Theorem audio_properties {User} `{UsbChip} EndpointProperty InterfaceProperty (StreamStartStop : Op (App:=audio User) unit)
  descriptors signature r e0 (s : usb (audio User)) evs :
  at_ep 0 (take_setup (header_bytes r) e0) s -> EPEN e0 = true -> sized e0 s -> quiet s -> present s -> has_property r (app s) ->
  let Request := ProcessControlRequest EndpointProperty InterfaceProperty StreamStartStop descriptors signature in
  let callback := property EndpointProperty InterfaceProperty r in
  (forall g, set_property (bRequest r) = true -> (forall s, callback None s = Ok ((true, 0, []), s)) ->
     (forall l v s, exists res, callback (Some (l, v)) s = Ok (res, on_audio (fun a => a <| user ::= g l v |>) s)) ->
     0 < wLength r < 65536 -> Forall (sending (bank_size e0)) evs -> wLength r <= Z.of_nat (length (concat (outs 0 evs))) ->
     exists used later s1 e1, Request s evs = Ok (tt, s1, later) /\ evs = used ++ later /\ at_ep 0 e1 s1 /\ armed e1 = [[]] /\
       app s1 = app s <| user ::= g (wLength r) (take (Z.to_nat (wLength r)) (concat (outs 0 used))) |>) /\
  (forall n v later, get_property (bRequest r) = true ->
     (forall s, callback (Some (wLength r, replicate (Z.to_nat (wLength r)) 0)) s = Ok ((true, n, v), s)) ->
     0 < n <= Z.of_nat (length v) -> 0 < wLength r -> Forall is_u8 v -> forallb patient evs = true ->
     exists s1 e1, Request s (evs ++ Out 0 [] :: later) = Ok (tt, s1, later) /\ at_ep 0 e1 s1 /\ STALLRQ e1 = false /\ app s1 = app s /\
       taken e1 = taken e0 ++ take (ins 0 evs) (packets (bank_size e0) (take (Z.to_nat (Z.min n (wLength r))) v))).
Proof.
  intros Ha Hen Hsz Hq Hp Hprop Request callback. split.
  - intros g Hset Hvalid Hcall HL Hev Htot. exact (property_set _ _ _ _ _ r g e0 s evs Ha Hen Hq Hp Hprop Hset Hvalid Hcall HL Hev Htot).
  - intros n v later Hget Hcall Hn Hw Hu Hev. by apply property_got.
Qed.

(** *** A device for concrete runs *)

(** Isochronous endpoints of eight bytes, IN 1 and OUT 2, and samples of sixteen bits. *)
Definition w_app (on : bool) (user : list Z) : audio (list Z) := mkAudio _ 0 1 (mkTable 129 8 1 1) (mkTable 2 8 1 1) on user.
Definition w_end (dir : Z) : endpoint := mkEndpoint true false false dir (BV ALLOC) 0 [] [] [] [] [] false.
Definition w_audio : usb (audio (list Z)) :=
  fresh_device control_endpoint no_request (w_app true []) <| USB_DeviceState := Configured |>
    <| eps := [control_endpoint; w_end 65; w_end 64; no_endpoint; no_endpoint; no_endpoint; no_endpoint] |>.
Definition w_steps : list audio_step :=
  [Put 1; Put (-2); Put 3; Pass (Out 2 (sample_bytes Bits16 5 ++ sample_bytes Bits16 (-6))); Put 4; Fetch; Put 7; Pass (In 1); Fetch; Fetch].
Lemma w_online : audio_online Bits16 4 1 2 (w_app true []) [] [] [] [] (events w_steps ++ []) w_audio.
Proof.
  split; [reflexivity|]. split; [reflexivity|]. split; [|split].
  - repeat constructor; try discriminate. intros _. exists [5; -6]. split; [discriminate|reflexivity].
  - exists (w_end 65). split; [reflexivity|]. split; [reflexivity|]. split; [discriminate|]. split; [split; vm_compute; lia|].
    split; [reflexivity|]. split; [reflexivity|]. exists []. split; [reflexivity|]. split; [reflexivity|constructor].
  - exists (w_end 64). split; [reflexivity|]. split; [reflexivity|]. split; [reflexivity|].
    exists []. split; [reflexivity|]. split; [constructor|reflexivity].
Qed.


(** The volume of a feature unit: two bytes that the application stores as they come. *)
Definition w_property : property_callback (User:=list Z) := fun _ _ _ value s =>
  match value with
  | Some (l, v) => Ok ((true, 2, user (app s)), on_audio (fun a => a <| user ::= fun _ => take (Z.to_nat l) v |>) s)
  | None => Ok ((true, 0, []), s)
  end.
Definition w_constant : property_callback (User:=list Z) := fun _ _ _ _ s => Ok ((true, 2, [0; 128]), s).
Definition w_requested (r : USB_Request_Header_t) : usb (audio (list Z)) :=
  fresh_device (take_setup (header_bytes r) control_endpoint) no_request (w_app false []) <| USB_DeviceState := Configured |>.
Definition w_process (p : property_callback) :=
  @ProcessControlRequest (list Z) some_chip p p Audio_Device_Event_Stub (fun _ _ => (0, [])) (fun _ => 0).
Definition set_volume : USB_Request_Header_t := mkRequest 33 AUDIO_REQ_SetCurrent 512 256 2.
Definition get_volume : USB_Request_Header_t := mkRequest 161 AUDIO_REQ_GetMinimum 512 256 2.

Lemma audio_properties_witness :
  (exists s1, w_process w_property (w_requested set_volume) [Idle; Out 0 [0; 244]; Idle] = Ok (tt, s1, [Idle]) /\ user (app s1) = [0; 244]) /\
  exists s1 e1, w_process w_constant (w_requested get_volume) ([Idle; In 0; Idle] ++ Out 0 [] :: []) = Ok (tt, s1, []) /\ at_ep 0 e1 s1 /\
    taken e1 = [[0; 128]].
Proof.
  split.
  - destruct (@audio_properties (list Z) some_chip w_property w_property Audio_Device_Event_Stub (fun _ _ => (0, [])) (fun _ => 0)
      set_volume control_endpoint (w_requested set_volume) [Idle; Out 0 [0; 244]; Idle]) as [H _].
    + split; reflexivity.
    + reflexivity.
    + split; [reflexivity|vm_compute; split; discriminate || reflexivity].
    + intros i _. reflexivity.
    + split; discriminate.
    + split; [right; reflexivity|reflexivity].
    + destruct (H (fun l v _ => take (Z.to_nat l) v)) as (used & later & s1 & e1 & H1 & H2 & _ & _ & H3).
      * reflexivity.
      * reflexivity.
      * intros l v s. eexists. reflexivity.
      * simpl. lia.
      * repeat constructor; vm_compute; lia.
      * vm_compute. discriminate.
      * pose proof H1 as Hr. vm_compute in Hr. injection Hr as _ Hl. subst later.
        exists s1. split; [exact H1|]. rewrite H3. change [Idle] with (@nil bus_event ++ [Idle]) in H2 at 2.
        assert (used = [Idle; Out 0 [0; 244]]) as -> by (symmetry; apply (app_inv_tail [Idle]); exact H2). reflexivity.
  - destruct (@audio_properties (list Z) some_chip w_constant w_constant Audio_Device_Event_Stub (fun _ _ => (0, [])) (fun _ => 0)
      get_volume control_endpoint (w_requested get_volume) [Idle; In 0; Idle]) as [_ H].
    + split; reflexivity.
    + reflexivity.
    + split; [reflexivity|vm_compute; split; discriminate || reflexivity].
    + intros i _. reflexivity.
    + split; discriminate.
    + split; [right; reflexivity|reflexivity].
    + destruct (H 2 [0; 128] []) as (s1 & e1 & H1 & H2 & _ & _ & H3).
      * reflexivity.
      * intros s. reflexivity.
      * simpl. lia.
      * simpl. lia.
      * repeat constructor; unfold is_u8; lia.
      * reflexivity.
      * exists s1, e1. split; [exact H1|]. split; [exact H2|]. rewrite H3. reflexivity.
Defined.
End AudioDevice.
