(* ===== verification/RndisDevice.v ===== *)
(** * RNDIS class driver (RNDISClassDevice.c)

    A network adapter: control messages that the host sends and whose answers it fetches over
    endpoint 0, and Ethernet frames with a header of 44 bytes over two bulk endpoints. Messages are
    kept as the bytes of their packed structures, one buffer for a message and its answer; members
    are accessed by their offsets. An index that the host chooses is not reduced to 16 bits:
    beyond the buffer it is a [Fault]. *)

From S2P Require Import Prelude.
From S2P Require Import Packed.
From S2P Require Import Usb.
From S2P Require Import UsbConfigure.
From S2P Require Import UsbStream.
From S2P Require Import UsbTransfer.
From S2P Require Import UsbControlRead.
From S2P Require Import UsbDevice.
From S2P Require Import UsbAnswer.
From S2P Require Import UsbDescriptors.
From Stdlib Require Import Lia ZArith.
Import Packed Usb UsbConfigure UsbStream UsbTransfer UsbControlRead UsbDevice UsbAnswer.

#[local] Open Scope Z_scope.

Module RndisDevice.

(** ** Data *)

Inductive RNDIS_States_t := RNDIS_Uninitialized | RNDIS_Initialized | RNDIS_Data_Initialized.
#[export] Instance states_eq_dec : EqDecision RNDIS_States_t.
Proof. solve_decision. Defined.

(** The configuration and the state of [USB_ClassInfo_RNDIS_Device_t], and the user's state. The
    description is the C string with what follows it. *)
Record rndis {User : Type} := mkRndis {
  ControlInterfaceNumber : Z; DataINEndpoint : USB_Endpoint_Table_t; DataOUTEndpoint : USB_Endpoint_Table_t;
  NotificationEndpoint : USB_Endpoint_Table_t; AdapterVendorDescription : list Z; AdapterMACAddress : list Z;
  RNDISMessageBuffer : list Z; ResponseReady : bool; CurrRNDISState : RNDIS_States_t; CurrPacketFilter : Z;
  user : User }.
Arguments rndis User : clear implicits.
#[export] Instance eta_rndis {User} : Eta (rndis User) :=
  {| eta r := mkRndis User (ControlInterfaceNumber r) (DataINEndpoint r) (DataOUTEndpoint r) (NotificationEndpoint r)
       (AdapterVendorDescription r) (AdapterMACAddress r) (RNDISMessageBuffer r) (ResponseReady r) (CurrRNDISState r)
       (CurrPacketFilter r) (user r); eta_id := ltac:(by intros []) |}.

Definition RNDIS_MESSAGE_BUFFER_SIZE := 128.
Definition ETHERNET_FRAME_SIZE_MAX := 1500.
Definition RNDIS_REQ_SendEncapsulatedCommand := 0.
Definition RNDIS_REQ_GetEncapsulatedResponse := 1.
Definition RNDIS_NOTIF_ResponseAvailable := 1.

Definition REMOTE_NDIS_PACKET_MSG := 1.
Definition REMOTE_NDIS_INITIALIZE_MSG := 2.
Definition REMOTE_NDIS_HALT_MSG := 3.
Definition REMOTE_NDIS_QUERY_MSG := 4.
Definition REMOTE_NDIS_SET_MSG := 5.
Definition REMOTE_NDIS_RESET_MSG := 6.
Definition REMOTE_NDIS_KEEPALIVE_MSG := 8.
Definition REMOTE_NDIS_INITIALIZE_CMPLT := 2147483650.
Definition REMOTE_NDIS_QUERY_CMPLT := 2147483652.
Definition REMOTE_NDIS_SET_CMPLT := 2147483653.
Definition REMOTE_NDIS_RESET_CMPLT := 2147483654.
Definition REMOTE_NDIS_KEEPALIVE_CMPLT := 2147483656.
Definition REMOTE_NDIS_STATUS_SUCCESS := 0.
Definition REMOTE_NDIS_STATUS_NOT_SUPPORTED := 3221225659.

Definition OID_GEN_SUPPORTED_LIST := 65793.
Definition OID_GEN_HARDWARE_STATUS := 65794.
Definition OID_GEN_MEDIA_SUPPORTED := 65795.
Definition OID_GEN_MEDIA_IN_USE := 65796.
Definition OID_GEN_MAXIMUM_FRAME_SIZE := 65798.
Definition OID_GEN_LINK_SPEED := 65799.
Definition OID_GEN_TRANSMIT_BLOCK_SIZE := 65802.
Definition OID_GEN_RECEIVE_BLOCK_SIZE := 65803.
Definition OID_GEN_VENDOR_ID := 65804.
Definition OID_GEN_VENDOR_DESCRIPTION := 65805.
Definition OID_GEN_CURRENT_PACKET_FILTER := 65806.
Definition OID_GEN_MAXIMUM_TOTAL_SIZE := 65809.
Definition OID_GEN_MEDIA_CONNECT_STATUS := 65812.
Definition OID_GEN_PHYSICAL_MEDIUM := 66050.
Definition OID_GEN_XMIT_OK := 131329.
Definition OID_GEN_RCV_OK := 131330.
Definition OID_GEN_XMIT_ERROR := 131331.
Definition OID_GEN_RCV_ERROR := 131332.
Definition OID_GEN_RCV_NO_BUFFER := 131333.
Definition OID_802_3_PERMANENT_ADDRESS := 16843009.
Definition OID_802_3_CURRENT_ADDRESS := 16843010.
Definition OID_802_3_MULTICAST_LIST := 16843011.
Definition OID_802_3_MAXIMUM_LIST_SIZE := 16843012.
Definition OID_802_3_RCV_ERROR_ALIGNMENT := 16908545.
Definition OID_802_3_XMIT_ONE_COLLISION := 16908546.
Definition OID_802_3_XMIT_MORE_COLLISIONS := 16908547.

Definition AdapterSupportedOIDList : list Z := flat_map le32
  [OID_GEN_SUPPORTED_LIST; OID_GEN_PHYSICAL_MEDIUM; OID_GEN_HARDWARE_STATUS; OID_GEN_MEDIA_SUPPORTED; OID_GEN_MEDIA_IN_USE;
   OID_GEN_MAXIMUM_FRAME_SIZE; OID_GEN_MAXIMUM_TOTAL_SIZE; OID_GEN_LINK_SPEED; OID_GEN_TRANSMIT_BLOCK_SIZE;
   OID_GEN_RECEIVE_BLOCK_SIZE; OID_GEN_VENDOR_ID; OID_GEN_VENDOR_DESCRIPTION; OID_GEN_CURRENT_PACKET_FILTER;
   OID_GEN_MAXIMUM_TOTAL_SIZE; OID_GEN_MEDIA_CONNECT_STATUS; OID_GEN_XMIT_OK; OID_GEN_RCV_OK; OID_GEN_XMIT_ERROR;
   OID_GEN_RCV_ERROR; OID_GEN_RCV_NO_BUFFER; OID_802_3_PERMANENT_ADDRESS; OID_802_3_CURRENT_ADDRESS;
   OID_802_3_MULTICAST_LIST; OID_802_3_MAXIMUM_LIST_SIZE; OID_802_3_RCV_ERROR_ALIGNMENT; OID_802_3_XMIT_ONE_COLLISION;
   OID_802_3_XMIT_MORE_COLLISIONS].

(** The sizes of the structures. *)
Definition sizeof_Header := 8.
Definition sizeof_Packet := 44.
Definition sizeof_Initialize_Complete := 52.
Definition sizeof_Query_Complete := 24.
Definition sizeof_Set_Complete := 16.
Definition sizeof_Reset_Complete := 16.
Definition sizeof_KeepAlive_Complete := 16.

(** ** Control messages *)

Section Messages.
Context {User : Type}.
Implicit Types a : rndis User.

Definition with_buffer (buf : list Z) a : rndis User := a <| RNDISMessageBuffer := buf |>.

(** [*ResponseSize = sizeof(uint32_t); *(uint32_t* )ResponseData = x]: the size and the buffer. *)
Definition answer32 (x : Z) (buf : list Z) : res (option (Z * list Z)) :=
  buf ← put32 (Z.to_nat sizeof_Query_Complete) x buf; mret (Some (4, buf)).
Definition is_one_of (OId : Z) (ids : list Z) : bool := existsb (Z.eqb OId) ids.

(** [None] for [false]; else the response size and the buffer with the response data. *)
Definition RNDIS_Device_ProcessNDISQuery a (OId : Z) : res (option (Z * list Z)) :=
  let buf := RNDISMessageBuffer a in
  let ResponseData := Z.to_nat sizeof_Query_Complete in
  if OId =? OID_GEN_SUPPORTED_LIST then
    buf ← put ResponseData AdapterSupportedOIDList buf; mret (Some (Z.of_nat (length AdapterSupportedOIDList), buf))
  else if OId =? OID_GEN_PHYSICAL_MEDIUM then answer32 0 buf
  else if OId =? OID_GEN_HARDWARE_STATUS then answer32 0 buf
  else if is_one_of OId [OID_GEN_MEDIA_SUPPORTED; OID_GEN_MEDIA_IN_USE] then answer32 0 buf
  else if OId =? OID_GEN_VENDOR_ID then answer32 16777215 buf
  else if is_one_of OId [OID_GEN_MAXIMUM_FRAME_SIZE; OID_GEN_TRANSMIT_BLOCK_SIZE; OID_GEN_RECEIVE_BLOCK_SIZE] then
    answer32 ETHERNET_FRAME_SIZE_MAX buf
  else if OId =? OID_GEN_VENDOR_DESCRIPTION then
    n ← lift (strlen (AdapterVendorDescription a));
    let ResponseSize := u16 (n + 1) in
    buf ← put ResponseData (take (Z.to_nat ResponseSize) (AdapterVendorDescription a)) buf;
    mret (Some (ResponseSize, buf))
  else if OId =? OID_GEN_MEDIA_CONNECT_STATUS then answer32 0 buf
  else if OId =? OID_GEN_LINK_SPEED then answer32 100000 buf
  else if is_one_of OId [OID_802_3_PERMANENT_ADDRESS; OID_802_3_CURRENT_ADDRESS] then
    buf ← put ResponseData (AdapterMACAddress a) buf; mret (Some (6, buf))
  else if OId =? OID_802_3_MAXIMUM_LIST_SIZE then answer32 1 buf
  else if OId =? OID_GEN_CURRENT_PACKET_FILTER then answer32 (CurrPacketFilter a) buf
  else if is_one_of OId [OID_GEN_XMIT_OK; OID_GEN_RCV_OK; OID_GEN_XMIT_ERROR; OID_GEN_RCV_ERROR; OID_GEN_RCV_NO_BUFFER;
                         OID_802_3_RCV_ERROR_ALIGNMENT; OID_802_3_XMIT_ONE_COLLISION; OID_802_3_XMIT_MORE_COLLISIONS] then
    answer32 0 buf
  else if OId =? OID_GEN_MAXIMUM_TOTAL_SIZE then answer32 (RNDIS_MESSAGE_BUFFER_SIZE + ETHERNET_FRAME_SIZE_MAX) buf
  else mret None.

(** [SetData] is an index into the buffer. *)
Definition RNDIS_Device_ProcessNDISSet (OId SetData : Z) a : res (bool * rndis User) :=
  if OId =? OID_GEN_CURRENT_PACKET_FILTER then
    filter ← get32_at SetData (RNDISMessageBuffer a);
    mret (true, a <| CurrPacketFilter := filter |>
                  <| CurrRNDISState := if negb (filter =? 0) then RNDIS_Data_Initialized else RNDIS_Initialized |>)
  else if OId =? OID_802_3_MULTICAST_LIST then mret (true, a)
  else mret (false, a).

(** A sequence of assignments to members. *)
Fixpoint assign (members : list (nat * Z)) (buf : list Z) : res (list Z) :=
  match members with
  | [] => mret buf
  | (offset, x) :: members' => buf ← put32 offset x buf; assign members' buf
  end.

Definition initialize_message a : res (rndis User) :=
  let a := a <| ResponseReady := true |> in
  buf ← assign [(0%nat, REMOTE_NDIS_INITIALIZE_CMPLT); (4%nat, sizeof_Initialize_Complete)] (RNDISMessageBuffer a);
  RequestId ← get32 8 buf;
  buf ← assign [(8%nat, RequestId); (12%nat, REMOTE_NDIS_STATUS_SUCCESS); (16%nat, 1); (20%nat, 0); (24%nat, 1); (28%nat, 0);
                (32%nat, 1); (36%nat, sizeof_Packet + ETHERNET_FRAME_SIZE_MAX); (40%nat, 0); (44%nat, 0); (48%nat, 0)] buf;
  mret (with_buffer buf a <| CurrRNDISState := RNDIS_Initialized |>).
Definition halt_message a : res (rndis User) :=
  let a := a <| ResponseReady := false |> in
  buf ← put32 4 0 (RNDISMessageBuffer a);
  mret (with_buffer buf a <| CurrRNDISState := RNDIS_Uninitialized |>).
Definition query_message a : res (rndis User) :=
  let a := a <| ResponseReady := true |> in
  Query_Oid ← get32 12 (RNDISMessageBuffer a);
  buf ← assign [(0%nat, REMOTE_NDIS_QUERY_CMPLT)] (RNDISMessageBuffer a);
  answered ← RNDIS_Device_ProcessNDISQuery (with_buffer buf a) Query_Oid;
  match answered with
  | Some (ResponseSize, buf) =>
      buf ← assign [(12%nat, REMOTE_NDIS_STATUS_SUCCESS); (4%nat, sizeof_Query_Complete + ResponseSize); (16%nat, ResponseSize);
                    (20%nat, sizeof_Query_Complete - sizeof_Header)] buf;
      mret (with_buffer buf a)
  | None =>
      buf ← assign [(12%nat, REMOTE_NDIS_STATUS_NOT_SUPPORTED); (4%nat, sizeof_Query_Complete); (16%nat, 0); (20%nat, 0)] buf;
      mret (with_buffer buf a)
  end.
Definition set_message a : res (rndis User) :=
  let a := a <| ResponseReady := true |> in
  SET_Oid ← get32 12 (RNDISMessageBuffer a);
  buf ← assign [(0%nat, REMOTE_NDIS_SET_CMPLT); (4%nat, sizeof_Set_Complete)] (RNDISMessageBuffer a);
  RequestId ← get32 8 buf;
  buf ← assign [(8%nat, RequestId)] buf;
  InformationBufferOffset ← get32 20 buf;
  '(ok, a) ← RNDIS_Device_ProcessNDISSet SET_Oid (u32 (sizeof_Header + InformationBufferOffset)) (with_buffer buf a);
  buf ← assign [(12%nat, if ok : bool then REMOTE_NDIS_STATUS_SUCCESS else REMOTE_NDIS_STATUS_NOT_SUPPORTED)] (RNDISMessageBuffer a);
  mret (with_buffer buf a).
Definition reset_message a : res (rndis User) :=
  let a := a <| ResponseReady := true |> in
  buf ← assign [(0%nat, REMOTE_NDIS_RESET_CMPLT); (4%nat, sizeof_Reset_Complete); (8%nat, REMOTE_NDIS_STATUS_SUCCESS); (12%nat, 0)]
          (RNDISMessageBuffer a);
  mret (with_buffer buf a).
Definition keepalive_message a : res (rndis User) :=
  let a := a <| ResponseReady := true |> in
  buf ← assign [(0%nat, REMOTE_NDIS_KEEPALIVE_CMPLT); (4%nat, sizeof_KeepAlive_Complete)] (RNDISMessageBuffer a);
  RequestId ← get32 8 buf;
  buf ← assign [(8%nat, RequestId); (12%nat, REMOTE_NDIS_STATUS_SUCCESS)] buf;
  mret (with_buffer buf a).

Definition RNDIS_Device_ProcessRNDISControlMessage a : res (rndis User) :=
  MessageType ← get32 0 (RNDISMessageBuffer a);
  if MessageType =? REMOTE_NDIS_INITIALIZE_MSG then initialize_message a
  else if MessageType =? REMOTE_NDIS_HALT_MSG then halt_message a
  else if MessageType =? REMOTE_NDIS_QUERY_MSG then query_message a
  else if MessageType =? REMOTE_NDIS_SET_MSG then set_message a
  else if MessageType =? REMOTE_NDIS_RESET_MSG then reset_message a
  else if MessageType =? REMOTE_NDIS_KEEPALIVE_MSG then keepalive_message a
  else mret a.

(** ** What the messages mean *)

(** A message, as the host wrote it; identifiers are four bytes that are only sent back. *)
Inductive message :=
| Initialize (id : list Z) | Halt | Query (id : list Z) (oid : Z) | SetValue (id : list Z) (oid offset : Z)
| Reset | KeepAlive (id : list Z) | OtherMessage.
Definition word (i : nat) (buf : list Z) : list Z := take 4 (drop (4 * i) buf).
Definition decode (buf : list Z) : message :=
  let id := word 2 buf in
  let oid := le (word 3 buf) in
  let t := le (word 0 buf) in
  if t =? 2 then Initialize id else if t =? 3 then Halt else if t =? 4 then Query id oid
  else if t =? 5 then SetValue id oid (le (word 5 buf)) else if t =? 6 then Reset else if t =? 8 then KeepAlive id else OtherMessage.

(** The answers. *)
Inductive response :=
| InitializeComplete (id : list Z) | QueryComplete (id data : list Z) | QueryNotSupported (id : list Z)
| SetComplete (id : list Z) (ok : bool) | ResetComplete | KeepAliveComplete (id : list Z).
Definition le32s (l : list Z) : list Z := flat_map le32 l.
Definition response_bytes (r : response) : list Z :=
  match r with
  | InitializeComplete id => le32s [2147483650; 52] ++ id ++ le32s [0; 1; 0; 1; 0; 1; 1544; 0; 0; 0]
  | QueryComplete id data => le32s [2147483652; 24 + Z.of_nat (length data)] ++ id ++ le32s [0; Z.of_nat (length data); 16] ++ data
  | QueryNotSupported id => le32s [2147483652; 24] ++ id ++ le32s [3221225659; 0; 0]
  | SetComplete id ok => le32s [2147483653; 16] ++ id ++ le32s [if ok then 0 else 3221225659]
  | ResetComplete => le32s [2147483654; 16; 0; 0]
  | KeepAliveComplete id => le32s [2147483656; 16] ++ id ++ le32s [0]
  end.

(** What the adapter says about itself. *)
Definition adapter_table a : list (Z * list Z) :=
  let n := match strlen (AdapterVendorDescription a) with Some n => n | None => 0 end in
  [(65793, AdapterSupportedOIDList); (66050, le32 0); (65794, le32 0); (65795, le32 0); (65796, le32 0); (65804, le32 16777215);
   (65798, le32 1500); (65802, le32 1500); (65803, le32 1500); (65805, take (Z.to_nat (n + 1)) (AdapterVendorDescription a));
   (65812, le32 0); (65799, le32 100000); (16843009, AdapterMACAddress a); (16843010, AdapterMACAddress a); (16843012, le32 1);
   (65806, le32 (CurrPacketFilter a)); (131329, le32 0); (131330, le32 0); (131331, le32 0); (131332, le32 0); (131333, le32 0);
   (16908545, le32 0); (16908546, le32 0); (16908547, le32 0); (65809, le32 1628)].
Fixpoint find_oid (oid : Z) (table : list (Z * list Z)) : option (list Z) :=
  match table with [] => None | (o, data) :: table' => if oid =? o then Some data else find_oid oid table' end.

(** The answer replaces the start of the message, if the buffer holds it. *)
Definition respond (r : response) a : res (rndis User) :=
  let bytes := response_bytes r in
  if (length bytes <=? length (RNDISMessageBuffer a))%nat
  then Ok (a <| RNDISMessageBuffer ::= fun buf => bytes ++ drop (length bytes) buf |> <| ResponseReady := true |>) else Fault.
(** The value of a set message stands [offset] bytes behind the first eight. The addition is one of 32
    bits: an offset near 2^32 names the first eight bytes themselves, where there is the start of the
    answer by then. *)
Definition set_value (offset : Z) a : res Z :=
  if 8 + offset <? 4294967296 then get32_at (8 + offset) (RNDISMessageBuffer a)
  else get32_at (8 + offset - 4294967296) (le32s [2147483653; 16] ++ drop 8 (RNDISMessageBuffer a)).
(** A message is read as a whole, and then answered. *)
Definition handle (m : message) a : res (rndis User) :=
  match m with
  | Initialize id => respond (InitializeComplete id) (a <| CurrRNDISState := RNDIS_Initialized |>)
  | Halt => Ok (a <| RNDISMessageBuffer ::= fun buf => take 4 buf ++ le32 0 ++ drop 8 buf |> <| ResponseReady := false |>
                  <| CurrRNDISState := RNDIS_Uninitialized |>)
  | Query id oid => respond (match find_oid oid (adapter_table a) with Some data => QueryComplete id data | None => QueryNotSupported id end) a
  | SetValue id oid offset =>
      if oid =? 65806 then
        filter ← set_value offset a;
        respond (SetComplete id true)
          (a <| CurrPacketFilter := filter |> <| CurrRNDISState := if filter =? 0 then RNDIS_Initialized else RNDIS_Data_Initialized |>)
      else respond (SetComplete id (oid =? 16843011)) a
  | Reset => respond ResetComplete a
  | KeepAlive id => respond (KeepAliveComplete id) a
  | OtherMessage => Ok a
  end.

(** ** In-place processing *)

Lemma assign_words ws tail ms : all_words ws -> Forall (fun m => (fst m < length ws)%nat) ms ->
  assign (map (fun m => (4 * fst m, snd m)%nat) ms) (concat ws ++ tail) =
  Ok (concat (foldl (fun ws m => <[fst m := le32 (snd m)]> ws) ws ms) ++ tail).
Proof.
  intros Hw Hms. revert ws Hw Hms. induction ms as [|[i x] ms IH]; intros ws Hw Hms; [done|].
  apply Forall_cons_1 in Hms as [Hi Hms]. cbn [map fst snd assign]. rewrite (put32_word ws tail i x Hw Hi). cbn [mbind res_bind].
  rewrite IH; [done|by apply all_words_insert|]. eapply Forall_impl; [|exact Hms]. intros m. by rewrite length_insert.
Qed.

Lemma respond_words r ws tail a k : RNDISMessageBuffer a = concat ws ++ tail -> all_words ws ->
  length (response_bytes r) = (4 * k)%nat -> (k <= length ws)%nat ->
  respond r a = Ok (a <| RNDISMessageBuffer := response_bytes r ++ concat (drop k ws) ++ tail |> <| ResponseReady := true |>).
Proof.
  intros Hb Hw Hl Hk. unfold respond. cbv zeta.
  rewrite (proj2 (Nat.leb_le _ _)) by (rewrite Hb, Hl, length_app, words_length by done; lia). f_equal.
  assert (drop (4 * k) (RNDISMessageBuffer a) = concat (drop k ws) ++ tail) as Hd.
  { rewrite Hb, drop_words by done. by replace (k - length ws)%nat with 0%nat by lia. }
  rewrite <- Hd, <- Hl. by destruct a.
Qed.

(** What is answered to a query. *)
Lemma query_answered a oid n : strlen (AdapterVendorDescription a) = Some n -> 0 <= n < 65535 -> length (AdapterMACAddress a) = 6%nat ->
  RNDIS_Device_ProcessNDISQuery a oid =
  match find_oid oid (adapter_table a) with
  | Some data => buf ← put 24 data (RNDISMessageBuffer a); mret (Some (Z.of_nat (length data), buf))
  | None => Ok None
  end.
Proof.
  intros Hn Hr Hmac. unfold RNDIS_Device_ProcessNDISQuery, adapter_table, answer32. rewrite Hn. cbv zeta.
  assert (u16 (n + 1) = n + 1) as Hu by (apply u16_small; unfold is_u16; lia).
  assert (length (take (Z.to_nat (n + 1)) (AdapterVendorDescription a)) = Z.to_nat (n + 1)) as Hd.
  { apply strlen_bound in Hn. rewrite length_take. lia. }
  cbn [find_oid is_one_of existsb lift mbind res_bind]. rewrite Hu, !orb_false_r.
  cbv [OID_GEN_SUPPORTED_LIST OID_GEN_HARDWARE_STATUS OID_GEN_MEDIA_SUPPORTED OID_GEN_MEDIA_IN_USE OID_GEN_MAXIMUM_FRAME_SIZE OID_GEN_LINK_SPEED
    OID_GEN_TRANSMIT_BLOCK_SIZE OID_GEN_RECEIVE_BLOCK_SIZE OID_GEN_VENDOR_ID OID_GEN_VENDOR_DESCRIPTION OID_GEN_CURRENT_PACKET_FILTER
    OID_GEN_MAXIMUM_TOTAL_SIZE OID_GEN_MEDIA_CONNECT_STATUS OID_GEN_PHYSICAL_MEDIUM OID_GEN_XMIT_OK OID_GEN_RCV_OK OID_GEN_XMIT_ERROR
    OID_GEN_RCV_ERROR OID_GEN_RCV_NO_BUFFER OID_802_3_PERMANENT_ADDRESS OID_802_3_CURRENT_ADDRESS OID_802_3_MULTICAST_LIST
    OID_802_3_MAXIMUM_LIST_SIZE OID_802_3_RCV_ERROR_ALIGNMENT OID_802_3_XMIT_ONE_COLLISION OID_802_3_XMIT_MORE_COLLISIONS].
  repeat (match goal with |- context [oid =? ?c] => destruct (oid =? c) end; cbn [orb]; cbv iota;
    [first [done | (rewrite Hmac; done) | (rewrite Hd, Z2Nat.id by lia; done)]|]).
  done.
Qed.

(** The adapter's configuration and its buffer. *)
Definition adapter_ok a : Prop :=
  length (RNDISMessageBuffer a) = 128%nat /\ Forall is_u8 (RNDISMessageBuffer a) /\
  length (AdapterMACAddress a) = 6%nat /\ Forall is_u8 (AdapterMACAddress a) /\
  Forall is_u8 (AdapterVendorDescription a) /\ exists n, strlen (AdapterVendorDescription a) = Some n /\ 0 <= n < 65535.


(** The buffer as words: [assign] and [get32] on members at word [i]. *)
#[local] Ltac list_words := unfold all_words; repeat apply Forall_cons_2; first [apply Forall_nil_2 | assumption | reflexivity | simpl; lia].
#[local] Ltac assign_at ms :=
  match goal with |- context [assign ?l (concat ?ws ++ ?tail)] =>
    change l with (map (fun m : nat * Z => (4 * fst m, snd m)%nat) ms);
    rewrite (assign_words ws tail ms) by list_words;
    cbn [foldl fst snd insert list_insert mbind res_bind]
  end.
#[local] Ltac get_at i :=
  match goal with |- context [get32 ?o (concat ?ws ++ ?tail)] =>
    change (get32 o) with (get32 (4 * i)); erewrite (get32_word ws tail i) by (list_words || reflexivity); cbn [mbind res_bind]
  end.

#[local] Ltac same_buffer :=
  match goal with |- context [with_buffer ?X _] =>
    match goal with |- context [response_bytes ?r ++ concat ?l ++ ?tail] =>
      replace (response_bytes r ++ concat l ++ tail) with X
        by (cbn [response_bytes le32s flat_map drop concat]; rewrite <- ?app_assoc; reflexivity) end end.

Section Words.
Variables (a : rndis User) (w0 w1 w2 w3 w4 w5 w6 w7 w8 w9 w10 w11 w12 tail : list Z).
Let ws := [w0; w1; w2; w3; w4; w5; w6; w7; w8; w9; w10; w11; w12].
Hypothesis Hb : RNDISMessageBuffer a = concat ws ++ tail.
Hypothesis Hw : all_words ws.
Hypothesis Hid : le32 (le w2) = w2.

Lemma initialize_handled : initialize_message a = handle (Initialize w2) a.
Proof using Hb Hw Hid.
  pose proof Hw as Hws. repeat (apply Forall_cons_1 in Hws as [? Hws]).
  unfold initialize_message. cbv zeta. change (RNDISMessageBuffer (a <| ResponseReady := true |>)) with (RNDISMessageBuffer a).
  rewrite Hb. unfold ws. assign_at [(0%nat, REMOTE_NDIS_INITIALIZE_CMPLT); (1%nat, sizeof_Initialize_Complete)].
  get_at 2%nat.
  assign_at [(2%nat, le w2); (3%nat, REMOTE_NDIS_STATUS_SUCCESS); (4%nat, 1); (5%nat, 0); (6%nat, 1); (7%nat, 0);
                (8%nat, 1); (9%nat, sizeof_Packet + ETHERNET_FRAME_SIZE_MAX); (10%nat, 0); (11%nat, 0); (12%nat, 0)].
  cbn [handle]. rewrite (respond_words _ ws tail _ 13) by (done || (cbn; rewrite ?length_app; cbn; lia)).
  rewrite Hid. unfold ws. same_buffer. by destruct a.
Qed.

Lemma halt_handled : halt_message a = handle Halt a.
Proof using Hb Hw.
  pose proof Hw as Hws. repeat (apply Forall_cons_1 in Hws as [? Hws]).
  unfold halt_message, put32, put. cbv zeta. change (RNDISMessageBuffer (a <| ResponseReady := false |>)) with (RNDISMessageBuffer a).
  assert (length (RNDISMessageBuffer a) = 52 + length tail)%nat as Hl by (rewrite Hb, length_app, words_length by done; done).
  rewrite (proj2 (Nat.leb_le _ _)) by (rewrite Hl; simpl; lia). by destruct a.
Qed.

Lemma reset_handled : reset_message a = handle Reset a.
Proof using Hb Hw.
  pose proof Hw as Hws. repeat (apply Forall_cons_1 in Hws as [? Hws]).
  unfold reset_message. cbv zeta. change (RNDISMessageBuffer (a <| ResponseReady := true |>)) with (RNDISMessageBuffer a).
  rewrite Hb. unfold ws. assign_at [(0%nat, REMOTE_NDIS_RESET_CMPLT); (1%nat, sizeof_Reset_Complete); (2%nat, REMOTE_NDIS_STATUS_SUCCESS); (3%nat, 0)].
  cbn [handle]. rewrite (respond_words _ ws tail _ 4) by (done || (cbn; lia)).
  unfold ws. same_buffer. by destruct a.
Qed.

Lemma keepalive_handled : keepalive_message a = handle (KeepAlive w2) a.
Proof using Hb Hw Hid.
  pose proof Hw as Hws. repeat (apply Forall_cons_1 in Hws as [? Hws]).
  unfold keepalive_message. cbv zeta. change (RNDISMessageBuffer (a <| ResponseReady := true |>)) with (RNDISMessageBuffer a).
  rewrite Hb. unfold ws. assign_at [(0%nat, REMOTE_NDIS_KEEPALIVE_CMPLT); (1%nat, sizeof_KeepAlive_Complete)].
  get_at 2%nat. assign_at [(2%nat, le w2); (3%nat, REMOTE_NDIS_STATUS_SUCCESS)].
  cbn [handle]. rewrite (respond_words _ ws tail _ 4) by (done || (cbn; rewrite ?length_app; cbn; lia)).
  rewrite Hid. unfold ws. same_buffer. by destruct a.
Qed.

Lemma set_handled : 0 <= le w5 < 4294967296 -> set_message a = handle (SetValue w2 (le w3) (le w5)) a.
Proof using Hb Hw Hid.
  intros H5. pose proof Hw as Hws. repeat (apply Forall_cons_1 in Hws as [? Hws]).
  unfold set_message. cbv zeta. change (RNDISMessageBuffer (a <| ResponseReady := true |>)) with (RNDISMessageBuffer a).
  assert (forall ok st f, (buf ← assign [(12%nat, if ok : bool then REMOTE_NDIS_STATUS_SUCCESS else REMOTE_NDIS_STATUS_NOT_SUPPORTED)]
      (concat [le32 REMOTE_NDIS_SET_CMPLT; le32 sizeof_Set_Complete; w2; w3; w4; w5; w6; w7; w8; w9; w10; w11; w12] ++ tail);
      mret (with_buffer buf (a <| ResponseReady := true |> <| CurrPacketFilter := f |> <| CurrRNDISState := st |>)))
    = respond (SetComplete w2 ok) (a <| CurrPacketFilter := f |> <| CurrRNDISState := st |>)) as Hend.
  { intros ok st f. assign_at [(3%nat, if ok : bool then REMOTE_NDIS_STATUS_SUCCESS else REMOTE_NDIS_STATUS_NOT_SUPPORTED)].
    rewrite (respond_words _ ws tail _ 4) by (done || (cbn; rewrite ?length_app; cbn; lia)). unfold ws.
    destruct ok; same_buffer; by destruct a. }
  rewrite Hb. unfold ws. get_at 3%nat.
  assign_at [(0%nat, REMOTE_NDIS_SET_CMPLT); (1%nat, sizeof_Set_Complete)]. get_at 2%nat. assign_at [(2%nat, le w2)]. get_at 5%nat.
  rewrite Hid. change (sizeof_Header + le w5) with (8 + le w5).
  set (l := concat [le32 REMOTE_NDIS_SET_CMPLT; le32 sizeof_Set_Complete; w2; w3; w4; w5; w6; w7; w8; w9; w10; w11; w12] ++ tail) in *.
  unfold RNDIS_Device_ProcessNDISSet. cbn [handle].
  change OID_GEN_CURRENT_PACKET_FILTER with 65806. change OID_802_3_MULTICAST_LIST with 16843011.
  destruct (le w3 =? 65806).
  - change (RNDISMessageBuffer (with_buffer l _)) with l.
    assert (get32_at (u32 (8 + le w5)) l = set_value (le w5) a) as ->.
    { unfold set_value. destruct (Z.ltb_spec (8 + le w5) 4294967296) as [Hle8|Hle8].
      - rewrite u32_small by (unfold is_u32; lia).
        apply (get32_at_ext 8); [lia|unfold l; rewrite Hb; unfold ws; cbn [concat]; rewrite !length_app; cbn [length]; unfold le32; cbn [length]; lia|].
        unfold l. rewrite Hb. change 8%nat with (4 * 2)%nat. by rewrite !drop_words by (done || list_words).
      - f_equal; [unfold u32; change (2 ^ 32) with 4294967296; Z.div_mod_to_equations; lia|].
        unfold l. rewrite Hb. change 8%nat with (4 * 2)%nat. by rewrite drop_words by done. }
    destruct (set_value _ _) as [f| |]; cbn [mbind res_bind mret res_ret]; [|done|done].
    etransitivity; [|etransitivity; [apply (Hend true (if f =? 0 then RNDIS_Initialized else RNDIS_Data_Initialized) f)|done]].
    by destruct (f =? 0).
  - assert (forall ok, (buf ← assign [(12%nat, if ok : bool then REMOTE_NDIS_STATUS_SUCCESS else REMOTE_NDIS_STATUS_NOT_SUPPORTED)] l;
      mret (with_buffer buf (a <| ResponseReady := true |>))) = respond (SetComplete w2 ok) a) as Hend0.
    { intros ok. specialize (Hend ok (CurrRNDISState a) (CurrPacketFilter a)). fold l in Hend. by destruct a. }
    destruct (le w3 =? 16843011); cbn [mbind res_bind mret res_ret].
    + etransitivity; [|apply (Hend0 true)]. by destruct a.
    + etransitivity; [|apply (Hend0 false)]. by destruct a.
Qed.

Lemma query_handled n : strlen (AdapterVendorDescription a) = Some n -> 0 <= n < 65535 -> length (AdapterMACAddress a) = 6%nat ->
  query_message a = handle (Query w2 (le w3)) a.
Proof using Hb Hw Hid.
  intros Hn Hn16 Hmac. pose proof Hw as Hws. repeat (apply Forall_cons_1 in Hws as [? Hws]).
  unfold query_message. cbv zeta. change (RNDISMessageBuffer (a <| ResponseReady := true |>)) with (RNDISMessageBuffer a).
  rewrite Hb. unfold ws. get_at 3%nat. assign_at [(0%nat, REMOTE_NDIS_QUERY_CMPLT)].
  set (l := concat [le32 REMOTE_NDIS_QUERY_CMPLT; w1; w2; w3; w4; w5; w6; w7; w8; w9; w10; w11; w12] ++ tail) in *.
  rewrite (query_answered _ _ n) by done. change (adapter_table (with_buffer l _)) with (adapter_table a).
  change (RNDISMessageBuffer (with_buffer l _)) with l. cbn [handle].
  assert (length l = length (RNDISMessageBuffer a)) as Hl.
  { unfold l. rewrite Hb. unfold ws. cbn [concat]. rewrite !length_app. cbn [length]. unfold le32. cbn [length]. lia. }
  destruct (find_oid _ _) as [data|].
  - assert (length (response_bytes (QueryComplete w2 data)) = 24 + length data)%nat as Hlen.
    { cbn [response_bytes le32s flat_map]. rewrite !length_app. cbn [length]. unfold le32. cbn [length]. lia. }
    unfold respond. cbv zeta. rewrite Hlen. unfold put. rewrite Hl.
    destruct (24 + length data <=? length (RNDISMessageBuffer a))%nat; [|done]. cbn [mbind res_bind mret res_ret].
    change 24%nat with (4 * 6)%nat at 1. unfold l at 1. rewrite take_words by (list_words || (simpl; lia)). cbn [take].
    assert (drop (24 + length data) l = drop (24 + length data) (RNDISMessageBuffer a)) as ->.
    { rewrite <- !drop_drop. apply (f_equal (drop (length data))). unfold l. rewrite Hb. change 24%nat with (4 * 6)%nat.
      rewrite drop_words by list_words. rewrite drop_words by done. reflexivity. }
    assign_at [(3%nat, REMOTE_NDIS_STATUS_SUCCESS); (1%nat, sizeof_Query_Complete + Z.of_nat (length data)); (4%nat, Z.of_nat (length data));
               (5%nat, sizeof_Query_Complete - sizeof_Header)].
    match goal with |- context [with_buffer ?X _] =>
      replace X with (response_bytes (QueryComplete w2 data) ++ drop (24 + length data) (RNDISMessageBuffer a))
        by (cbn [response_bytes le32s flat_map concat]; rewrite <- ?app_assoc; reflexivity) end.
    by destruct a.
  - unfold l. assign_at [(3%nat, REMOTE_NDIS_STATUS_NOT_SUPPORTED); (1%nat, sizeof_Query_Complete); (4%nat, 0); (5%nat, 0)].
    rewrite (respond_words _ ws tail _ 6) by (done || (cbn; rewrite ?length_app; cbn; lia)). unfold ws. same_buffer. by destruct a.
Qed.
End Words.

Lemma le_word l : Forall is_u8 l -> length l = 4%nat -> 0 <= le l < 4294967296.
Proof.
  intros Hl H4. destruct l as [|a [|b [|c [|d [|]]]]]; try done.
  apply Forall_cons_1 in Hl as [Ha Hl]. apply Forall_cons_1 in Hl as [Hb Hl]. apply Forall_cons_1 in Hl as [Hc Hl].
  apply Forall_cons_1 in Hl as [Hd _]. unfold is_u8 in *. cbn [le]. lia.
Qed.
Lemma handled_message a : adapter_ok a ->
  RNDIS_Device_ProcessRNDISControlMessage a = handle (decode (RNDISMessageBuffer a)) a.
Proof using Type.
  intros (Hlen & Hu & Hmac & _ & _ & n & Hn & Hn16).
  destruct (split_words 13 (RNDISMessageBuffer a)) as (ws & tail & Hb & Hw & Hk); [lia|].
  assert (Forall (Forall is_u8) ws) as Hws8.
  { rewrite Hb in Hu. apply Forall_app in Hu as [Hu _]. by apply Forall_concat in Hu. }
  destruct ws as [|w0 [|w1 [|w2 [|w3 [|w4 [|w5 [|w6 [|w7 [|w8 [|w9 [|w10 [|w11 [|w12 [|]]]]]]]]]]]]]]; try done.
  set (ws := [_; _; _; _; _; _; _; _; _; _; _; _; _]) in *.
  assert (word 0 (RNDISMessageBuffer a) = w0 /\ word 2 (RNDISMessageBuffer a) = w2 /\ word 3 (RNDISMessageBuffer a) = w3 /\
    word 5 (RNDISMessageBuffer a) = w5) as (E0 & E2 & E3 & E5).
  { unfold word. rewrite Hb. split_and!; by apply word_at. }
  assert (le32 (le w2) = w2 /\ 0 <= le w5 < 4294967296) as [Hid H5].
  { split.
    - apply le32_le; [apply (Forall_lookup_1 _ _ 2%nat w2 Hws8 eq_refl)|apply (Forall_lookup_1 _ _ 2%nat w2 Hw eq_refl)].
    - apply le_word; [apply (Forall_lookup_1 _ _ 5%nat w5 Hws8 eq_refl)|apply (Forall_lookup_1 _ _ 5%nat w5 Hw eq_refl)]. }
  unfold RNDIS_Device_ProcessRNDISControlMessage.
  assert (get32 0 (RNDISMessageBuffer a) = Ok (le w0)) as -> by (rewrite Hb; by apply (get32_word ws tail 0)).
  cbn [mbind res_bind]. unfold decode. cbv zeta. rewrite E0, E2, E3, E5.
  change REMOTE_NDIS_INITIALIZE_MSG with 2. change REMOTE_NDIS_HALT_MSG with 3. change REMOTE_NDIS_QUERY_MSG with 4.
  change REMOTE_NDIS_SET_MSG with 5. change REMOTE_NDIS_RESET_MSG with 6. change REMOTE_NDIS_KEEPALIVE_MSG with 8.
  destruct (le w0 =? 2); [by eapply initialize_handled|]. destruct (le w0 =? 3); [by eapply halt_handled|].
  destruct (le w0 =? 4); [by eapply query_handled|]. destruct (le w0 =? 5); [by eapply set_handled|].
  destruct (le w0 =? 6); [by eapply reset_handled|]. destruct (le w0 =? 8); [by eapply keepalive_handled|done].
Qed.

(** Every answer carries its length. *)
Definition id_ok (r : response) : Prop :=
  match r with
  | InitializeComplete id | QueryComplete id _ | QueryNotSupported id | SetComplete id _ | KeepAliveComplete id => length id = 4%nat
  | ResetComplete => True
  end.
Lemma response_size r : id_ok r -> (16 <= length (response_bytes r))%nat /\
  word 1 (response_bytes r) = le32 (Z.of_nat (length (response_bytes r))).
Proof using Type.
  intros Hid. destruct r as [id|id data|id|id ok| |id]; cbn [id_ok] in Hid; (split; [cbn; rewrite ?length_app; simpl; lia|]).
  all: cbn [response_bytes le32s flat_map]; rewrite !length_app, ?Hid; cbn [length le32 Nat.add]; unfold word; cbn; try done.
  all: try (destruct ok); try done.
  rewrite take_0. match goal with |- _ = le32 ?x => by replace x with (24 + Z.of_nat (length data)) by lia end.
Qed.

(** The answers to queries that are longer than the buffer. *)
Definition query_response id oid a : response :=
  match find_oid oid (adapter_table a) with Some data => QueryComplete id data | None => QueryNotSupported id end.
Lemma query_response_length a id oid n : strlen (AdapterVendorDescription a) = Some n -> length (AdapterMACAddress a) = 6%nat ->
  length id = 4%nat ->
  (128 <? length (response_bytes (query_response id oid a)))%nat = (oid =? 65793) || (oid =? 65805) && (103 <? n).
Proof using Type.
  intros Hn Hmac Hid. pose proof (strlen_bound _ _ Hn) as Hb.
  assert (forall data, length (response_bytes (QueryComplete id data)) = (24 + length data)%nat) as Hl.
  { intros data. cbn [response_bytes le32s flat_map]. rewrite !length_app, !le32_length, Hid. simpl. lia. }
  assert (length (response_bytes (QueryNotSupported id)) = 24%nat) as H0.
  { cbn [response_bytes le32s flat_map]. rewrite !length_app, !le32_length, Hid. done. }
  unfold query_response, adapter_table. rewrite Hn. cbv zeta. cbn [find_oid].
  repeat (match goal with |- context [if oid =? ?c then _ else _] => destruct (Z.eqb_spec oid c) as [->|] end;
    [rewrite Hl; first [reflexivity | rewrite Hmac; reflexivity | idtac]|]).
  2: { rewrite H0, !orb_false_r. by repeat case_match. }
  rewrite length_take. change (65805 =? 65793) with false. change (65805 =? 65805) with true. cbn [orb andb].
  destruct (Z.ltb_spec 103 n), (Nat.ltb_spec 128 (24 + Z.to_nat (n + 1) `min` length (AdapterVendorDescription a))); lia || done.
Qed.

(** The answer to a message, if it has one. *)
Definition answer_to (m : message) a : option response :=
  match m with
  | Initialize id => Some (InitializeComplete id)
  | Query id oid => Some (match find_oid oid (adapter_table a) with Some data => QueryComplete id data | None => QueryNotSupported id end)
  | SetValue id oid _ => Some (SetComplete id ((oid =? 65806) || (oid =? 16843011)))
  | Reset => Some ResetComplete
  | KeepAlive id => Some (KeepAliveComplete id)
  | Halt | OtherMessage => None
  end.
Lemma handle_answers m a a1 r : handle m a = Ok a1 -> answer_to m a = Some r ->
  exists a0, respond r a0 = Ok a1 /\ RNDISMessageBuffer a0 = RNDISMessageBuffer a /\ ControlInterfaceNumber a0 = ControlInterfaceNumber a.
Proof using Type.
  destruct m as [id| |id oid|id oid offset| |id|]; cbn [handle answer_to]; intros Hh Hr; try done; injection Hr as <-; try by eexists.
  destruct (oid =? 65806); cbn [orb]; [|by eexists].
  destruct (set_value _ _) as [f| |]; cbn [mbind res_bind] in Hh; [by eexists|done..].
Qed.

Lemma find_oid_in oid table data : find_oid oid table = Some data -> List.In data (map snd table).
Proof using Type.
  induction table as [|[o d] table IH]; cbn [find_oid map snd]; [done|]. destruct (oid =? o); [intros [= <-]; by left|].
  intros Hd. right. by apply IH.
Qed.
Lemma le32s_u8 l : Forall is_u8 (le32s l).
Proof using Type. induction l as [|x l IH]; [constructor|]. apply Forall_app. split; [apply le32_u8|done]. Qed.
#[local] Ltac response_u8 := first [apply le32s_u8 | assumption | apply Forall_app; split; response_u8].
Lemma answer_u8 a buf r : adapter_ok a -> Forall is_u8 buf -> length buf = 128%nat -> answer_to (decode buf) a = Some r ->
  id_ok r /\ Forall is_u8 (response_bytes r).
Proof using Type.
  intros (_ & _ & _ & Hmac & Hdesc & _) Hu Hl Hr.
  assert (length (word 2 buf) = 4%nat /\ Forall is_u8 (word 2 buf)) as [Hid Hidu].
  { unfold word. split; [rewrite length_take, length_drop; lia|by apply Forall_take, Forall_drop]. }
  assert (forall oid data, find_oid oid (adapter_table a) = Some data -> Forall is_u8 data) as Hdata.
  { intros oid data Hf%find_oid_in. unfold adapter_table in Hf. cbv zeta in Hf. cbn [map snd] in Hf.
    repeat (destruct Hf as [<-|Hf]; [first [apply le32_u8 | apply le32s_u8 | done | by apply Forall_take]|]). done. }
  unfold decode in Hr. cbv zeta in Hr.
  repeat (match type of Hr with context [if ?b then _ else _] => destruct b end); cbn [answer_to] in Hr; try done; apply (inj Some) in Hr; subst r;
    try (split; [done|]; cbn [response_bytes]; response_u8).
  destruct (find_oid _ _) as [data|] eqn:Ef; (split; [done|]); cbn [response_bytes]; [pose proof (Hdata _ _ Ef)|]; response_u8.
Qed.
End Messages.

(** ** The driver *)

Section Driver.
Context {User : Type} `{UsbChip}.
#[local] Abbreviation M := (M (App:=rndis User)).
#[local] Abbreviation Op := (Op (App:=rndis User)).
#[local] Abbreviation state := (usb (rndis User)).
Implicit Types (s : state) (a : rndis User) (e : endpoint).

Definition on_rndis (f : rndis User -> rndis User) s : state := s <| app ::= f |>.
(** Work on the class information that may access memory. *)
Definition on_app (f : rndis User -> res (rndis User)) : Op unit := fun s => a ← f (app s); Ok (tt, s <| app := a |>).
Definition select (t : rndis User -> USB_Endpoint_Table_t) s : state := Endpoint_SelectEndpoint (Address (t (app s))) s.

(** *** Control requests *)

Definition SendEncapsulatedCommand : M unit :=
  _ ← run Endpoint_ClearSETUP;
  buf ← get (fun s => RNDISMessageBuffer (app s));
  wLength ← get (fun s => wLength (USB_ControlRequest s));
  '(_, buf) ← Endpoint_Read_Control_Stream_LE buf wLength;
  _ ← run (on_rndis (with_buffer buf));
  _ ← run Endpoint_ClearIN;
  op (on_app RNDIS_Device_ProcessRNDISControlMessage).

(** Without an answer the message is one byte, a zero. *)
Definition default_answer a : res (rndis User) :=
  MessageLength ← get32 4 (RNDISMessageBuffer a);
  if MessageLength =? 0 then
    buf ← put 0 [0] (RNDISMessageBuffer a);
    buf ← put32 4 1 buf;
    mret (with_buffer buf a)
  else mret a.
Definition GetEncapsulatedResponse : M unit :=
  _ ← op (on_app default_answer);
  _ ← run Endpoint_ClearSETUP;
  buf ← get (fun s => RNDISMessageBuffer (app s));
  MessageLength ← op (fun s => n ← get32 4 buf; Ok (n, s));
  _ ← Endpoint_Write_Control_Stream_LE buf (u16 MessageLength);
  _ ← run Endpoint_ClearOUT;
  op (on_app (fun a => buf ← put32 4 0 (RNDISMessageBuffer a); mret (with_buffer buf a))).

Definition RNDIS_Device_ProcessControlRequest : M unit :=
  setup ← get Endpoint_IsSETUPReceived;
  r ← get USB_ControlRequest;
  n ← get (fun s => ControlInterfaceNumber (app s));
  if negb setup then mret tt
  else if negb (wIndex r =? n) then mret tt
  else if bRequest r =? RNDIS_REQ_SendEncapsulatedCommand then
    if bmRequestType r =? class_request REQDIR_HOSTTODEVICE then SendEncapsulatedCommand else mret tt
  else if bRequest r =? RNDIS_REQ_GetEncapsulatedResponse then
    if bmRequestType r =? class_request REQDIR_DEVICETOHOST then GetEncapsulatedResponse else mret tt
  else mret tt.

Definition RNDIS_Device_ConfigureEndpoints : Op bool :=
  _ ← modify (on_rndis (fun a => a <| RNDISMessageBuffer := replicate 128 0 |> <| ResponseReady := false |>
                                   <| CurrRNDISState := RNDIS_Uninitialized |> <| CurrPacketFilter := 0 |>));
  _ ← modify (on_rndis (fun a => a <| DataINEndpoint ::= fun t => t <| Type_ := UsbDescriptors.EP_TYPE_BULK |> |>
                                   <| DataOUTEndpoint ::= fun t => t <| Type_ := UsbDescriptors.EP_TYPE_BULK |> |>
                                   <| NotificationEndpoint ::= fun t => t <| Type_ := UsbDescriptors.EP_TYPE_INTERRUPT |> |>));
  i ← gets (fun s => DataINEndpoint (app s));
  ok ← Endpoint_ConfigureEndpointTable [i];
  if negb ok then mret false
  else
    o ← gets (fun s => DataOUTEndpoint (app s));
    ok ← Endpoint_ConfigureEndpointTable [o];
    if negb ok then mret false
    else
      n ← gets (fun s => NotificationEndpoint (app s));
      Endpoint_ConfigureEndpointTable [n].

(** The application's descriptors; its handlers are the driver's functions. *)
Variable CALLBACK_USB_GetDescriptor : Z -> Z -> Z * list Z.
Variable boot_signature_byte_get : Z -> Z.
Definition EVENT_USB_Device_ConfigurationChanged : M unit := _ ← op RNDIS_Device_ConfigureEndpoints; mret tt.
Definition ProcessControlRequest : M unit :=
  USB_Device_ProcessControlRequest RNDIS_Device_ProcessControlRequest EVENT_USB_Device_ConfigurationChanged
    CALLBACK_USB_GetDescriptor boot_signature_byte_get.
Definition USB_USBTask : M unit :=
  USB_DeviceTask RNDIS_Device_ProcessControlRequest EVENT_USB_Device_ConfigurationChanged
    CALLBACK_USB_GetDescriptor boot_signature_byte_get.

(** *** The task and the packets *)

(** The notification, as the eight bytes of a request header. *)
Definition Notification : list Z := [class_request REQDIR_DEVICETOHOST; RNDIS_NOTIF_ResponseAvailable; 0; 0; 0; 0; 0; 0].
Definition RNDIS_Device_USBTask : M unit :=
  ok ← get (fun s => bool_decide (USB_DeviceState s = Configured));
  if negb ok then mret tt
  else
    _ ← run (select NotificationEndpoint);
    rdy ← get (fun s => Endpoint_IsINReady s && ResponseReady (app s));
    if rdy : bool then
      _ ← Endpoint_Write_Stream_LE USB_USBTask Notification 8 None;
      _ ← run Endpoint_ClearIN;
      run (on_rndis (fun a => a <| ResponseReady := false |>))
    else mret tt.

Definition ready_for_data s : bool :=
  bool_decide (USB_DeviceState s = Configured) && bool_decide (CurrRNDISState (app s) = RNDIS_Data_Initialized).
Definition RNDIS_Device_IsPacketReceived : M bool :=
  ok ← get ready_for_data;
  if negb ok then mret false
  else _ ← run (select DataOUTEndpoint); get Endpoint_IsOUTReceived.

(** [None] is [RNDIS_ERROR_LOGICAL_CMD_FAILED]. *)
Definition packet_header (PacketLength : Z) : list Z :=
  flat_map le32 [REMOTE_NDIS_PACKET_MSG; u16 (sizeof_Packet + PacketLength); sizeof_Packet - sizeof_Header; PacketLength; 0; 0; 0; 0; 0; 0; 0].
(** The header is a local variable whose contents are not defined before it is read; [Buffer] and
    [PacketLength] are the caller's. *)
Definition RNDIS_Device_ReadPacket (Header Buffer : list Z) (PacketLength : Z) : M (option ep_error * list Z * Z) :=
  ok ← get ready_for_data;
  if negb ok then mret (Some DeviceDisconnected, Buffer, PacketLength)
  else
    _ ← run (select DataOUTEndpoint);
    out ← get Endpoint_IsOUTReceived;
    if negb out then mret (Some NoError, Buffer, 0)
    else
      '(_, Header, _) ← Endpoint_Read_Stream_LE USB_USBTask Header sizeof_Packet None;
      DataLength ← op (fun s => n ← get32 12 Header; Ok (n, s));
      if ETHERNET_FRAME_SIZE_MAX <? DataLength then
        _ ← run Endpoint_StallTransaction;
        mret (None, Buffer, 0)
      else
        let PacketLength := u16 DataLength in
        '(_, Buffer, _) ← Endpoint_Read_Stream_LE USB_USBTask Buffer PacketLength None;
        _ ← run Endpoint_ClearOUT;
        mret (Some NoError, Buffer, PacketLength).

Definition RNDIS_Device_SendPacket (Buffer : list Z) (PacketLength : Z) : M ep_error :=
  ok ← get ready_for_data;
  if negb ok then mret DeviceDisconnected
  else
    _ ← run (select DataINEndpoint);
    ErrorCode ← Endpoint_WaitUntilReady;
    if decide (ErrorCode <> NoError) then mret ErrorCode
    else
      _ ← Endpoint_Write_Stream_LE USB_USBTask (packet_header PacketLength) sizeof_Packet None;
      _ ← Endpoint_Write_Stream_LE USB_USBTask Buffer PacketLength None;
      _ ← run Endpoint_ClearIN;
      mret NoError.

(** ** A message and its answer over the control endpoint *)

Definition send_command (i l : Z) : USB_Request_Header_t := mkRequest 33 RNDIS_REQ_SendEncapsulatedCommand 0 i l.
Definition get_response (i l : Z) : USB_Request_Header_t := mkRequest 161 RNDIS_REQ_GetEncapsulatedResponse 0 i l.

Lemma answered_with r a a1 : respond r a = Ok a1 ->
  ControlInterfaceNumber a1 = ControlInterfaceNumber a /\ ResponseReady a1 = true /\ (length (response_bytes r) <= length (RNDISMessageBuffer a))%nat /\
  RNDISMessageBuffer a1 = response_bytes r ++ drop (length (response_bytes r)) (RNDISMessageBuffer a).
Proof using Type.
  unfold respond. cbv zeta. destruct (Nat.leb_spec (length (response_bytes r)) (length (RNDISMessageBuffer a))); [|done].
  intros Hr. injection Hr as <-. done.
Qed.

Lemma command_sent l e0 s evs :
  at_ep 0 (take_setup (header_bytes (send_command (ControlInterfaceNumber (app s)) l)) e0) s -> EPEN e0 = true -> quiet s -> present s ->
  0 < l <= 128 -> length (RNDISMessageBuffer (app s)) = 128%nat ->
  Forall (sending (bank_size e0)) evs -> l <= Z.of_nat (length (concat (outs 0 evs))) ->
  exists used later, evs = used ++ later /\ l <= Z.of_nat (length (concat (outs 0 used))) /\
    let buf := take (Z.to_nat l) (concat (outs 0 used)) ++ drop (Z.to_nat l) (RNDISMessageBuffer (app s)) in
    forall a1, RNDIS_Device_ProcessRNDISControlMessage (with_buffer buf (app s)) = Ok a1 ->
    exists s1 e1, ProcessControlRequest s evs = Ok (tt, s1, later) /\ app s1 = a1 /\
      at_ep 0 e1 s1 /\ quiet s1 /\ present s1 /\ EPEN e1 = true /\ STALLRQ e1 = false /\ RXSTPI e1 = false /\ received e1 = [] /\
      armed e1 = [[]] /\ filling e1 = [] /\ taken e1 = taken e0 /\ UECFG1X e1 = UECFG1X e0 /\
      USB_Device_ControlEndpointSize s1 = USB_Device_ControlEndpointSize s.
Proof using Type.
  intros Ha Hen Hq Hp Hl Hlen Hev Htot. set (r := send_command (ControlInterfaceNumber (app s)) l) in *.
  destruct (clear_setup r e0 s Ha) as [Hcs Ha1]. set (s1 := put0 (acked e0) s <| USB_ControlRequest := r |>) in *.
  destruct (control_read LE (RNDISMessageBuffer (app s)) l s1 (acked e0) evs)
    as (mem' & used & later & s2 & e2 & H1 & H2 & H3 & H4 & H5 & H6 & H11 & H7 & H8 & H9 & H10); try done; [lia|apply room_LE; simpl; lia|].
  apply store_LE in H3; [|done]. simpl in H3. rewrite length_take, Nat.min_l in H3 by lia. subst mem'.
  exists used, later. split; [done|]. split; [done|]. intros buf a1 Hmsg.
  set (s3 := on_rndis (with_buffer buf) s2).
  assert (at_ep 0 e2 s3) as Ha3 by exact H5. destruct H6 as (Q1 & Q2 & Q3 & Q4 & Q5).
  pose proof (at_on_cur 0 e2 s3 (fun e => if TXINI e then e <| armed ::= fun l => l ++ [filling e] |> <| filling := [] |> else e) Ha3) as Ha4.
  cbv beta in Ha4. rewrite (TXINI_free e2 Q4) in Ha4. set (e3 := e2 <| armed ::= _ |> <| filling := [] |>) in *.
  assert (at_ep 0 e3 (Endpoint_ClearIN s3)) as Ha5 by exact Ha4. injection H9 as K1 K2 K3 K4 K5 K6 K7 K8 K9 K10.
  exists (Endpoint_ClearIN s3 <| app := a1 |>), e3. split.
  { eapply request_handled; [by apply setup_requested| |change (Endpoint_IsSETUPReceived (Endpoint_ClearIN s3) = false); unfold Endpoint_IsSETUPReceived; by rewrite (at_cur _ _ _ Ha5)].
    unfold RNDIS_Device_ProcessControlRequest. rewrite !bind_get, (loaded_setup r _ s (setup_requested r e0 s Ha)).
    change (USB_ControlRequest (loaded r _ s)) with r. change (app (loaded r _ s)) with (app s).
    change (wIndex r) with (ControlInterfaceNumber (app s)). rewrite Z.eqb_refl. cbn [negb]. cbv iota.
    change (bRequest r) with RNDIS_REQ_SendEncapsulatedCommand. change (bmRequestType r) with (class_request REQDIR_HOSTTODEVICE). eqbs.
    unfold SendEncapsulatedCommand. rewrite bind_run, Hcs, !bind_get. change (app s1) with (app s). change (wLength (USB_ControlRequest s1)) with l.
    unfold Endpoint_Read_Control_Stream_LE. rewrite (bind_ok _ _ _ _ _ _ _ H1), !bind_run.
    unfold op, on_app. fold buf. fold s3. change (app (Endpoint_ClearIN s3)) with (with_buffer buf (app s2)). rewrite K10.
    change (app s1) with (app s). by rewrite Hmsg. }
  split; [done|]. split; [exact Ha5|]. split; [done|]. split; [unfold present; simpl; by rewrite K1|].
  simpl. rewrite Q4, H7, K5. by split_and!.
Qed.

Lemma response_fetched w e0 s evs later :
  let buf := RNDISMessageBuffer (app s) in
  let n := le (word 1 buf) in
  at_ep 0 (take_setup (header_bytes (get_response (ControlInterfaceNumber (app s)) w)) e0) s -> EPEN e0 = true -> sized e0 s -> quiet s ->
  present s -> length buf = 128%nat -> Forall is_u8 buf -> 0 < n <= 128 -> 0 < w -> forallb patient evs = true ->
  exists s1 e1, ProcessControlRequest s (evs ++ Out 0 [] :: later) = Ok (tt, s1, later) /\ at_ep 0 e1 s1 /\ STALLRQ e1 = false /\
    app s1 = with_buffer (take 4 buf ++ le32 0 ++ drop 8 buf) (app s) /\
    taken e1 = taken e0 ++ take (ins 0 evs) (packets (bank_size e0) (take (Z.to_nat (Z.min n w)) buf)).
Proof using Type.
  intros buf n Ha Hen Hsz Hq Hp Hlen Hu Hn Hw Hev. set (r := get_response (ControlInterfaceNumber (app s)) w) in *.
  destruct (clear_setup r e0 s Ha) as [Hcs Ha1]. set (s1 := put0 (acked e0) s <| USB_ControlRequest := r |>) in *.
  destruct (control_w_delivers buf n 0 s1 (acked e0) evs later) as (s2 & Hcw & e2 & Ha2 & Hc2 & Hq2 & Hx1 & Hx2 & Hx3 & Hx4 & Ht2);
    try done; [lia|].
  pose proof (at_on_cur 0 e2 s2 (fun e => e <| received ::= tail |>) Ha2) as Ha3.
  assert (at_ep 0 (e2 <| received ::= tail |>) (Endpoint_ClearOUT s2)) as Ha4 by exact Ha3.
  injection Hc2 as _ _ _ _ _ _ _ _ _ Happ. change (app s1) with (app s) in Happ.
  assert (get32 4 buf = Ok n) as Hget by (unfold get32; by rewrite Hlen).
  set (a' := with_buffer (take 4 buf ++ le32 0 ++ drop 8 buf) (app s)).
  exists (Endpoint_ClearOUT s2 <| app := a' |>), (e2 <| received ::= tail |>). split.
  { eapply request_handled; [by apply setup_requested| |change (Endpoint_IsSETUPReceived (Endpoint_ClearOUT s2) = false); unfold Endpoint_IsSETUPReceived; by rewrite (at_cur _ _ _ Ha4)].
    unfold RNDIS_Device_ProcessControlRequest. rewrite !bind_get, (loaded_setup r _ s (setup_requested r e0 s Ha)).
    set (sl := loaded r _ s) in *. assert (app sl = app s) as Hal by done.
    change (USB_ControlRequest sl) with r. rewrite Hal.
    change (wIndex r) with (ControlInterfaceNumber (app s)). rewrite Z.eqb_refl. cbn [negb]. cbv iota.
    change (bRequest r) with RNDIS_REQ_GetEncapsulatedResponse. change (bmRequestType r) with (class_request REQDIR_DEVICETOHOST). eqbs.
    unfold GetEncapsulatedResponse.
    assert (on_app default_answer sl = Ok (tt, sl)) as Hda.
    { unfold on_app, default_answer. rewrite Hal. fold buf. rewrite Hget. cbn [mbind res_bind].
      rewrite (proj2 (Z.eqb_neq n 0)) by lia. cbn. rewrite <- Hal. by destruct sl. }
    rewrite (bind_op _ _ _ _ _ _ Hda), bind_run, Hcs, bind_get. change (RNDISMessageBuffer (app s1)) with buf.
    assert ((fun s0 : state => n0 ← get32 4 buf; Ok (n0, s0)) s1 = Ok (n, s1)) as Hml by (by rewrite Hget).
    rewrite (bind_op _ _ _ _ _ _ Hml), u16_small by (unfold is_u16; lia).
    unfold Endpoint_Write_Control_Stream_LE. rewrite (bind_ok _ _ _ _ _ _ _ Hcw), bind_run.
    unfold op, on_app. change (app (Endpoint_ClearOUT s2)) with (app s2). rewrite Happ. fold buf. unfold put32, put. rewrite Hlen. done. }
  split; [exact Ha4|]. split; [done|]. split; [done|]. simpl. rewrite Ht2. unfold asked.
  change (wLength (USB_ControlRequest s1)) with w. done.
Qed.

(** The answer that is in the buffer is fetched by the next request. *)
Lemma answer_fetched r w e1 s1 i evs later tail :
  at_ep 0 e1 s1 -> quiet s1 -> present s1 -> ready e1 -> sized e1 s1 -> i = ControlInterfaceNumber (app s1) -> id_ok r ->
  RNDISMessageBuffer (app s1) = response_bytes r ++ tail -> (length (response_bytes r) + length tail = 128)%nat ->
  Forall is_u8 (response_bytes r) -> Forall is_u8 tail -> 0 < w -> forallb patient evs = true ->
  exists s3 e3, ProcessControlRequest (tick (Setup (header_bytes (get_response i w))) (tick (In 0) s1)) (evs ++ Out 0 [] :: later) = Ok (tt, s3, later) /\
    at_ep 0 e3 s3 /\ STALLRQ e3 = false /\
    taken e3 = (taken e1 ++ take 1 (armed e1)) ++ take (ins 0 evs) (packets (bank_size e1) (take (Z.to_nat w) (response_bytes r))).
Proof using Type.
  intros Ha Hq Hp Hr Hsz -> Hid Hb Hlen Hu Hut Hw Hev.
  destruct (next_request (get_response (ControlInterfaceNumber (app s1)) w) e1 s1 Ha Hq Hr) as (e2 & Ha2 & Hc2 & Hq2 & Hen2 & Hcfg2 & Ht2).
  generalize dependent (tick (Setup (header_bytes (get_response (ControlInterfaceNumber (app s1)) w))) (tick (In 0) s1)). intros s2 Ha2 Hc2 Hq2.
  injection Hc2 as Kst _ _ _ Ksz _ _ _ _ Kapp.
  destruct (response_size r Hid) as [H16 Hword].
  assert (le (word 1 (RNDISMessageBuffer (app s2))) = Z.of_nat (length (response_bytes r))) as Hn.
  { rewrite Kapp, Hb. unfold word in *. rewrite drop_app_le, take_app_le by (rewrite ?length_drop; lia). rewrite Hword.
    apply le_le32. unfold is_u32. lia. }
  assert (bank_size e2 = bank_size e1) as Hbs by (unfold bank_size; by rewrite Hcfg2).
  rewrite <- Kapp in Ha2.
  destruct (response_fetched w e2 s2 evs later) as (s3 & e3 & Hrun3 & Ha3 & Hst3 & _ & Ht3).
  - exact Ha2.
  - exact Hen2.
  - destruct Hsz as [Hbz Hu8]. unfold sized. by rewrite Hbs, Ksz.
  - exact Hq2.
  - unfold present. by rewrite Kst.
  - by rewrite Kapp, Hb, length_app.
  - rewrite Kapp, Hb. by apply Forall_app.
  - rewrite Hn. lia.
  - exact Hw.
  - exact Hev.
  - exists s3, e3. split; [exact Hrun3|]. split; [done|]. split; [done|]. rewrite Ht3, Ht2, Hbs, Hn, Kapp, Hb. do 3 f_equal.
    destruct (Z.min_spec (Z.of_nat (length (response_bytes r))) w) as [[Hm ->]|[Hm ->]].
    + rewrite Nat2Z.id, take_app_length, take_ge by lia. done.
    + by rewrite take_app_le by lia.
Qed.

(** The message that is in the buffer when the host has sent [l] bytes. *)
Definition sent_message (l : Z) evs a : list Z := take (Z.to_nat l) (concat (outs 0 evs)) ++ drop (Z.to_nat l) (RNDISMessageBuffer a).

Lemma sent_prefix l used later a : l <= Z.of_nat (length (concat (outs 0 used))) -> sent_message l (used ++ later) a = sent_message l used a.
Proof using Type.
  intros Hl. unfold sent_message, outs. rewrite flat_map_app, concat_app, take_app_le by (unfold outs in Hl; lia). done.
Qed.
Lemma sent_length l evs a : 0 < l <= 128 -> length (RNDISMessageBuffer a) = 128%nat -> l <= Z.of_nat (length (concat (outs 0 evs))) ->
  length (sent_message l evs a) = 128%nat.
Proof using Type. intros Hl Hb Ht. unfold sent_message. rewrite length_app, length_take, length_drop. lia. Qed.
Lemma sent_u8 l evs a : Forall is_u8 (concat (outs 0 evs)) -> Forall is_u8 (RNDISMessageBuffer a) -> Forall is_u8 (sent_message l evs a).
Proof using Type. intros Ho Hb. apply Forall_app. split; [by apply Forall_take|by apply Forall_drop]. Qed.

(** The answer stands in the buffer, before what the message leaves. *)
Lemma message_answered a buf a1 r : adapter_ok a -> length buf = 128%nat -> Forall is_u8 buf ->
  handle (decode buf) (with_buffer buf a) = Ok a1 -> answer_to (decode buf) a = Some r ->
  exists tail, RNDISMessageBuffer a1 = response_bytes r ++ tail /\ (length (response_bytes r) + length tail = 128)%nat /\
    Forall is_u8 (response_bytes r) /\ Forall is_u8 tail /\ id_ok r /\ ResponseReady a1 = true /\
    ControlInterfaceNumber a1 = ControlInterfaceNumber a.
Proof using Type.
  intros Hok Hl Hu Hh Hr. destruct (answer_u8 a buf r Hok Hu Hl Hr) as [Hid Hru].
  destruct (handle_answers _ _ _ r Hh) as (a0 & Ha0 & Hb0 & Hc0); [exact Hr|].
  destruct (answered_with r a0 a1 Ha0) as (Hc1 & Hrdy & Hlen & Hb1). rewrite Hb0 in Hlen, Hb1. change (RNDISMessageBuffer (with_buffer buf a)) with buf in *.
  exists (drop (length (response_bytes r)) buf). split; [exact Hb1|]. split; [rewrite length_drop; lia|]. split; [exact Hru|].
  split; [by apply Forall_drop|]. split; [exact Hid|]. split; [exact Hrdy|]. by rewrite Hc1, Hc0.
Qed.

(** A message and its answer. *)
Lemma exchange l e0 s evs a1 r :
  at_ep 0 (take_setup (header_bytes (send_command (ControlInterfaceNumber (app s)) l)) e0) s -> EPEN e0 = true -> sized e0 s -> quiet s ->
  present s -> 0 < l <= 128 -> adapter_ok (app s) -> Forall (sending (bank_size e0)) evs -> Forall is_u8 (concat (outs 0 evs)) ->
  l <= Z.of_nat (length (concat (outs 0 evs))) ->
  let buf := sent_message l evs (app s) in
  handle (decode buf) (with_buffer buf (app s)) = Ok a1 -> answer_to (decode buf) (app s) = Some r ->
  exists used later s1, evs = used ++ later /\ ProcessControlRequest s evs = Ok (tt, s1, later) /\ app s1 = a1 /\ ResponseReady a1 = true /\
    forall w evs2 later2, 0 < w -> forallb patient evs2 = true ->
    exists s3 e3, ProcessControlRequest (tick (Setup (header_bytes (get_response (ControlInterfaceNumber (app s)) w))) (tick (In 0) s1))
        (evs2 ++ Out 0 [] :: later2) = Ok (tt, s3, later2) /\ at_ep 0 e3 s3 /\ STALLRQ e3 = false /\
      taken e3 = taken e0 ++ [[]] ++ take (ins 0 evs2) (packets (bank_size e0) (take (Z.to_nat w) (response_bytes r))).
Proof using Type.
  intros Ha Hen Hsz Hq Hp Hl Hok Hev Hu8 Htot. cbv zeta. pose proof Hok as (Hlen & Hbu & _).
  destruct (command_sent l e0 s evs Ha Hen Hq Hp Hl Hlen Hev Htot) as (used & later & -> & Hused & Hcmd).
  rewrite sent_prefix by exact Hused. unfold outs in Hu8. rewrite flat_map_app, concat_app in Hu8. apply Forall_app in Hu8 as [Hu8 _].
  fold (outs 0 used) in Hu8. cbv zeta in Hcmd. fold (sent_message l used (app s)) in Hcmd.
  pose proof (sent_length l used (app s) Hl Hlen Hused) as Hbl. pose proof (sent_u8 l used (app s) Hu8 Hbu) as Hbu8.
  set (buf := sent_message l used (app s)) in *. clearbody buf.
  intros Hh Hr.
  destruct (message_answered (app s) buf a1 r Hok Hbl Hbu8 Hh Hr) as (tail & Hb1 & Hlt & Hru & Htu & Hid & Hrdy & Hc1).
  assert (adapter_ok (with_buffer buf (app s))) as Hokb.
  { destruct Hok as (_ & _ & Hrest). split; [exact Hbl|]. split; [exact Hbu8|]. exact Hrest. }
  destruct (Hcmd a1) as (s1 & e1 & Hrun & Happ & Ha1 & Hq1 & Hp1 & Hen1 & Hst1 & Hrx1 & Hrc1 & Harm & _ & Htk & Hcfg & Hsz1).
  { rewrite handled_message; [exact Hh|exact Hokb]. }
  assert (bank_size e1 = bank_size e0) as Hbs by (unfold bank_size; by rewrite Hcfg).
  exists used, later, s1. split; [done|]. split; [exact Hrun|]. split; [exact Happ|]. split; [exact Hrdy|]. intros w evs2 later2 Hw Hpat.
  destruct (answer_fetched r w e1 s1 (ControlInterfaceNumber (app s)) evs2 later2 tail) as (s3 & e3 & Hrun3 & Ha3 & Hst3 & Htk3).
  - exact Ha1.
  - exact Hq1.
  - exact Hp1.
  - split; [exact Hen1|]. split; [exact Hst1|]. split; [exact Hrx1|exact Hrc1].
  - destruct Hsz as [Hz1 Hz2]. unfold sized. rewrite Hbs, Hsz1. split; [exact Hz1|exact Hz2].
  - rewrite Happ. symmetry. exact Hc1.
  - exact Hid.
  - rewrite Happ. exact Hb1.
  - exact Hlt.
  - exact Hru.
  - exact Htu.
  - exact Hw.
  - exact Hpat.
  - exists s3, e3. split; [exact Hrun3|]. split; [exact Ha3|]. split; [exact Hst3|]. rewrite Htk3, Harm, Htk, Hbs, <- app_assoc. reflexivity.
Qed.
End Driver.

(** ** Theorems *)

(** C18: the processing of a control message in its buffer, where the answer overwrites the message
    member by member, is the same as reading the whole message first and putting the answer in its
    place: the answers, with the identifier sent back, are those of the adapter's table, for the 25
    identifiers it knows; a query for another one or a set of another one than the packet filter and
    the multicast list is answered as not supported; a packet filter opens or closes the data
    state; halt leaves no answer, and any other message changes nothing. An answer or a value
    beyond the buffer is an access beyond it in the code as well; the value of a set message whose
    offset wraps around is read from the start of the answer ([set_value]). *)
Theorem rndis_control_messages {User} (a : rndis User) :
  adapter_ok a ->
  RNDIS_Device_ProcessRNDISControlMessage a = handle (decode (RNDISMessageBuffer a)) a.
Proof. apply handled_message. Qed.

(** C17: a control message and its answer over endpoint 0: whatever packets of at most a bank the
    host sends the message in, of at most 128 bytes, the driver handles the message that was sent, and
    notes that there is an answer; when the host then asks for it with a length of [w], it gets the answer's
    bytes, up to that length, in full packets and one that is not, as many as it asks for. *)
Theorem rndis_exchange {User} `{UsbChip} descriptors signature (l : Z) e0 (s : usb (rndis User)) evs a1 r :
  at_ep 0 (take_setup (header_bytes (send_command (ControlInterfaceNumber (app s)) l)) e0) s -> EPEN e0 = true -> sized e0 s -> quiet s ->
  present s -> 0 < l <= 128 -> adapter_ok (app s) -> Forall (UsbControlRead.sending (bank_size e0)) evs -> Forall is_u8 (concat (outs 0 evs)) ->
  l <= Z.of_nat (length (concat (outs 0 evs))) ->
  let buf := sent_message l evs (app s) in
  handle (decode buf) (with_buffer buf (app s)) = Ok a1 -> answer_to (decode buf) (app s) = Some r ->
  exists used later s1, evs = used ++ later /\ ProcessControlRequest descriptors signature s evs = Ok (tt, s1, later) /\
    app s1 = a1 /\ ResponseReady a1 = true /\
    forall w evs2 later2, 0 < w -> forallb patient evs2 = true ->
    exists s3 e3, ProcessControlRequest descriptors signature
        (tick (Setup (header_bytes (get_response (ControlInterfaceNumber (app s)) w))) (tick (In 0) s1))
        (evs2 ++ Out 0 [] :: later2) = Ok (tt, s3, later2) /\ at_ep 0 e3 s3 /\ STALLRQ e3 = false /\
      taken e3 = taken e0 ++ [[]] ++ take (ins 0 evs2) (packets (bank_size e0) (take (Z.to_nat w) (response_bytes r))).
Proof. apply exchange. Qed.

(** *** A device for concrete runs *)

(** A buffer that starts with the given words; "LUFA" is the vendor. *)
Definition w_buffer (words : list Z) : list Z := take 128 (le32s words ++ replicate 128 0).
Definition w_app (words : list Z) : rndis unit :=
  mkRndis _ 0 (mkTable 129 64 2 1) (mkTable 2 64 2 1) (mkTable 131 8 3 1) [76; 85; 70; 65; 0] [2; 0; 2; 0; 2; 0]
    (w_buffer words) false RNDIS_Uninitialized 0 tt.
Definition w_requested (r : USB_Request_Header_t) (words : list Z) : usb (rndis unit) :=
  fresh_device (take_setup (header_bytes r) control_endpoint) no_request (w_app words) <| USB_DeviceState := Configured |>.
Definition w_process := @ProcessControlRequest unit some_chip (fun _ _ => (0, [])) (fun _ => 0).
Fixpoint w_packets (bytes : list Z) (n : nat) : list bus_event :=
  match n with O => [] | S n' => Out 0 (take 8 bytes) :: Idle :: w_packets (drop 8 bytes) n' end.

Lemma w_adapter_ok words : adapter_ok (w_app words).
Proof.
  assert (Forall is_u8 (w_buffer words)) as Hu.
  { apply Forall_take, Forall_app. split; [apply le32s_u8|]. apply Forall_replicate. unfold is_u8. lia. }
  split; [change (RNDISMessageBuffer (w_app words)) with (w_buffer words); unfold w_buffer; rewrite length_take, length_app, length_replicate; lia|].
  split; [exact Hu|]. split; [done|].
  split; [repeat constructor; unfold is_u8; lia|]. split; [repeat constructor; unfold is_u8; lia|]. exists 4. split; [done|lia].
Qed.

(** C27: the queries that make the driver write beyond its message buffer are those whose answer does
    not fit behind its header of 24 bytes: the query for the supported identifiers, whose list of
    108 bytes never does, and the one for the vendor's description when that has more than 103
    characters; no other query does so, whatever it asks for. *)
Theorem rndis_query_faults {User} (a : rndis User) id oid n :
  adapter_ok a -> decode (RNDISMessageBuffer a) = Query id oid -> strlen (AdapterVendorDescription a) = Some n ->
  RNDIS_Device_ProcessRNDISControlMessage a = Fault <->
  oid = OID_GEN_SUPPORTED_LIST \/ oid = OID_GEN_VENDOR_DESCRIPTION /\ 103 < n.
Proof.
  intros Ha Hq Hn. rewrite handled_message by done. rewrite Hq. cbn [handle].
  pose proof Ha as (Hlen & _ & Hmac & _).
  assert (length id = 4%nat) as Hid.
  { unfold decode in Hq. cbv zeta in Hq. repeat case_match; try done. injection Hq as <- _.
    unfold word. rewrite length_take, length_drop, Hlen. done. }
  pose proof (query_response_length a id oid n Hn Hmac Hid) as Hl. unfold respond. cbv zeta. fold (query_response id oid a).
  rewrite Hlen, Nat.leb_antisym. unfold OID_GEN_SUPPORTED_LIST, OID_GEN_VENDOR_DESCRIPTION. rewrite Hl.
  destruct (Z.eqb_spec oid 65793), (Z.eqb_spec oid 65805), (Z.ltb_spec 103 n); cbn [orb andb negb]; (split; [|intros]); try done; try lia; auto.
Qed.

Lemma rndis_query_faults_witness :
  RNDIS_Device_ProcessRNDISControlMessage (w_app [4; 28; 9; OID_GEN_SUPPORTED_LIST; 0; 20]) = Fault.
Proof. apply (rndis_query_faults _ (le32 9) OID_GEN_SUPPORTED_LIST 4); [apply w_adapter_ok|reflexivity|reflexivity|left; reflexivity]. Defined.

(** Two more requests that make the driver access memory beyond its message buffer: a command that is
    longer than the buffer, which is not refused; and the request for an answer after a message without
    answer, whose length, as the host wrote it, is taken for that of the answer. *)
Example long_command_faults : w_process (w_requested (send_command 0 136) []) (w_packets (replicate 136 1) 17) = Fault.
Proof. vm_compute. reflexivity. Qed.
Example missing_answer_faults : w_process (w_requested (get_response 0 300) [7; 136]) (flat_map (fun _ => [In 0; Idle]) (seq 0 17)) = Fault.
Proof. vm_compute. reflexivity. Qed.

(** A query for the vendor's description. *)
Lemma rndis_control_messages_witness :
  exists a, RNDIS_Device_ProcessRNDISControlMessage (w_app [4; 28; 9; OID_GEN_VENDOR_DESCRIPTION; 0; 20]) = Ok a /\
    ResponseReady a = true /\ take 29 (RNDISMessageBuffer a) = le32s [2147483652; 29; 9; 0; 5; 16] ++ [76; 85; 70; 65; 0].
Proof.
  eexists. split; [rewrite rndis_control_messages; [vm_compute; reflexivity|apply w_adapter_ok]|]. split; reflexivity.
Defined.

(** An initialize message of 24 bytes in three packets; of its answer the first 20 bytes are fetched. *)
Definition w_initialize : list Z := le32s [2; 24; 9; 1; 0; 16384].
Lemma rndis_exchange_witness :
  exists s1 s3 e3, w_process (w_requested (send_command 0 24) []) (w_packets w_initialize 3) = Ok (tt, s1, [Idle]) /\
    CurrRNDISState (app s1) = RNDIS_Initialized /\
    w_process (@tick _ some_chip (Setup (header_bytes (get_response 0 20))) (@tick _ some_chip (In 0) s1)) [In 0; Idle; In 0; In 0; Idle; Out 0 []] =
      Ok (tt, s3, []) /\ at_ep 0 e3 s3 /\
    taken e3 = [[]; le32 2147483650 ++ le32 52; le32 9 ++ le32 0; le32 1].
Proof.
  destruct (@rndis_exchange unit some_chip (fun _ _ => (0, [])) (fun _ => 0) 24 control_endpoint (w_requested (send_command 0 24) [])
    (w_packets w_initialize 3) (match handle (decode (sent_message 24 (w_packets w_initialize 3) (w_app [])))
       (with_buffer (sent_message 24 (w_packets w_initialize 3) (w_app [])) (w_app [])) with Ok a1 => a1 | _ => w_app [] end)
    (InitializeComplete (le32 9))) as (used & later & s1 & H1 & H2 & H3 & H4 & H5).
  - split; reflexivity.
  - reflexivity.
  - split; [reflexivity|vm_compute; split; discriminate || reflexivity].
  - intros i _. reflexivity.
  - split; discriminate.
  - lia.
  - apply w_adapter_ok.
  - repeat constructor; vm_compute; lia.
  - assert (concat (outs 0 (w_packets w_initialize 3)) = w_initialize) as -> by (vm_compute; reflexivity). apply le32s_u8.
  - vm_compute. discriminate.
  - vm_compute. reflexivity.
  - vm_compute. reflexivity.
  - destruct (H5 20 [In 0; Idle; In 0; In 0; Idle] [] ltac:(lia) eq_refl) as (s3 & e3 & H6 & H7 & _ & H8).
    assert (later = [Idle]) as -> by (vm_compute in H2; injection H2 as _ <-; reflexivity).
    exists s1, s3, e3. split; [exact H2|]. split; [rewrite H3; vm_compute; reflexivity|]. split; [exact H6|]. split; [exact H7|].
    rewrite H8. vm_compute. reflexivity.
Defined.
End RndisDevice.
