(* ===== verification/RndisPackets.v ===== *)
(** * Network packets of the RNDIS driver

    What [RNDIS_Device_SendPacket] and [RNDIS_Device_ReadPacket] move over the bulk endpoints, in
    general and when nothing disturbs the transfers; and the notification of a response. *)

From S2P Require Import Prelude.
From S2P Require Import Packed.
From S2P Require Import Usb.
From S2P Require Import UsbConfigure.
From S2P Require Import UsbStream.
From S2P Require Import UsbTransfer.
From S2P Require Import UsbPacket.
From S2P Require Import UsbDevice.
From S2P Require Import RndisDevice.
From Stdlib Require Import Lia ZArith.
Import Packed Usb UsbConfigure UsbStream UsbTransfer UsbPacket UsbDevice RndisDevice.

#[local] Open Scope Z_scope.

Module RndisPackets.
Section Packets.
Context {User : Type} `{UsbChip}.
Variable CALLBACK_USB_GetDescriptor : Z -> Z -> Z * list Z.
Variable boot_signature_byte_get : Z -> Z.
#[local] Abbreviation state := (usb (rndis User)).
#[local] Abbreviation task := (RndisDevice.USB_USBTask (User:=User) CALLBACK_USB_GetDescriptor boot_signature_byte_get).
#[local] Abbreviation SendPacket := (RNDIS_Device_SendPacket (User:=User) CALLBACK_USB_GetDescriptor boot_signature_byte_get).
#[local] Abbreviation ReadPacket := (RNDIS_Device_ReadPacket (User:=User) CALLBACK_USB_GetDescriptor boot_signature_byte_get).
Implicit Types (s : state) (a : rndis User) (e : endpoint).

(** ** What the calls do *)

(** The IN endpoint [n] of the application [a] has been given [w]. *)
Definition sending (n : Z) (w : list Z) a evs s : Prop :=
  app s = a /\ n = endpoint_number (DataINEndpoint a) /\
  (exists e, eps s !! Z.to_nat n = Some e /\ fifo_ok e /\ wire e = w) /\ fires EORSTI s = false /\ no_reset evs.
Lemma sending_leave n w f K a evs s : n = endpoint_number (DataINEndpoint a) -> in_state n w f K evs s -> K.1.2 = a -> sending n w a evs s.
Proof using Type. intros Hn (e & [_ He] & Hf & Hw & _ & <- & Hr & Hev) Ha. split; [done|]. split_and!; try done. by exists e. Qed.

(** Nothing is left in the bank that is filled: it has been handed over. *)
Definition handed_over (n : Z) s : Prop := exists e, eps s !! Z.to_nat n = Some e /\ filling e = [].
Lemma in_handed_over n w K evs s : in_state n w [] K evs s -> handed_over n s.
Proof using Type. intros (e & [_ He] & _ & _ & Hfl & _). by exists e. Qed.

(** A packet is sent: its header and its bytes, or as much of them as was given to the endpoint; all of
    them, if the way is [clear]. What was given has been handed over to the controller, if no error is
    returned. *)
Definition packet_given (clear : Prop) (n : Z) (bytes w : list Z) a (err : ep_error) evs s : Prop :=
  exists header data, let whole := packet_header (Z.of_nat (length bytes)) in
    header `prefix_of` whole /\ data `prefix_of` bytes /\ (err <> NoError -> header = [] /\ data = []) /\
    (clear -> err = NoError /\ header = whole /\ data = bytes) /\ sending n (w ++ header ++ data) a evs s /\
    (err = NoError -> handed_over n s).

(** The OUT endpoint [n] of the application holds a packet of the host's. *)
Definition receiving (n : Z) e evs s : Prop :=
  n = endpoint_number (DataOUTEndpoint (app s)) /\ eps s !! Z.to_nat n = Some e /\ Z.testbit (UECFG0X e) EPDIR = false /\
  RXSTPI e = false /\ received e <> [] /\ Forall is_u8 (concat (received e)) /\ Forall (Forall is_u8) (outs n evs) /\
  fires EORSTI s = false /\ no_reset evs.

(** A packet is read: 44 bytes of header or what came of it, in front of what the local variable
    holds; then the data, as many bytes as the header announces, if those are not too many. The rest
    of the bank is dropped. [r0] was in the banks at first, and [evs0] have come since. *)
Definition packet_taken (clear : Prop) (n : Z) (Header Buffer r0 : list Z) evs0 (q : nat) K
  (r : option ep_error * list Z * Z) evs s : Prop :=
  let '(err, Buffer', PacketLength) := r in
  exists header s2, (length header <= 44)%nat /\ (clear -> length header = 44%nat) /\
    let L := le (take 4 (drop 12 (header ++ drop (length header) Header))) in
    if 1500 <? L then
      err = None /\ Buffer' = Buffer /\ PacketLength = 0 /\ s = Endpoint_StallTransaction s2 /\ out_state n header r0 evs0 q K evs s2
    else exists data, err = Some NoError /\ PacketLength = L /\ Z.of_nat (length data) <= L /\ (clear -> Z.of_nat (length data) = L) /\
      Buffer' = data ++ drop (length data) Buffer /\ s = Endpoint_ClearOUT s2 /\ out_state n (header ++ data) r0 evs0 q K evs s2.

(** ** What a stream is told *)

(** [J] describes the transfers: without control requests, and, if [clear], without errors. *)
Record conditions (clear : Prop) (n : Z) (J : list bus_event -> state -> Prop) : Prop := {
  cond_pos : 0 < n;
  cond_stable : stable J;
  cond_on_cur : forall f evs s, (forall e, STALLRQ (f e) = STALLRQ e) -> UENUM s = n -> J evs s -> J evs (on_cur f s);
  cond_control : forall evs s, J evs s -> no_control evs s;
  cond_told : forall err evs s, clear -> UENUM s = n -> J evs s -> err <> Timeout -> told err s -> err = NoError;
  cond_late : forall evs s, clear -> J evs s -> (changes (UDFNUM s) evs < WAIT)%nat }.

Lemma any_transfer n : 0 < n -> conditions False n no_control.
Proof using Type.
  intros Hn. split; try done; [apply no_control_stable|]. intros f evs s _. by apply no_control_on_cur.
Qed.
Lemma calm_transfer n : 0 < n -> conditions True n (calm n).
Proof using Type.
  intros Hn. split; try done; [by apply calm_stable|by apply calm_on_cur|by intros evs s [? _]| |].
  - intros err evs s _ Hu Hc. by apply calm_told with n evs.
  - by intros evs s _ (_ & _ & _ & _ & Hf & _).
Qed.

Section Transfer.
Context {clear : Prop} {n : Z} {J : list bus_event -> state -> Prop} (HJ : conditions clear n J).

Lemma cond_task evs s : J evs s -> UENUM s = n -> task s evs = Ok (tt, s, evs).
Proof using HJ. intros Hc _. apply device_task_idle. by apply (cond_control _ _ _ HJ). Qed.
Lemma cond_failed err evs s : clear -> UENUM s = n -> J evs s -> err <> IncompleteTransfer -> failed J err s -> err = NoError.
Proof using HJ.
  intros Hc Hu Hj Hi Hf. destruct (decide (err = Timeout)) as [->|Hne].
  - destruct Hf as (evs0 & s0 & Hj0 & Hw). pose proof (cond_late _ _ _ HJ evs0 s0 Hc Hj0). lia.
  - eapply (cond_told _ _ _ HJ); try done. by destruct err.
Qed.

(** ** Sending *)

Lemma write_all mem bytes Length w f K s evs :
  in_state n w f K evs s -> J evs s -> bytes `prefix_of` mem -> Z.of_nat (length bytes) = Length -> Length < 65536 -> Forall is_u8 bytes ->
  within (WAIT * S (length bytes)) (fun r evs' s' => exists part f', part `prefix_of` bytes /\ (clear -> part = bytes) /\
      in_state n (w ++ part) f' K evs' s' /\ J evs' s') s evs
    (Endpoint_Write_Stream_LE task mem Length None s evs).
Proof using HJ.
  intros Hin Hj [rest ->] <- Hl Hb. unfold Endpoint_Write_Stream_LE.
  eapply (within_after 0); [apply (write_stream task J n (cond_pos _ _ _ HJ) (cond_stable _ _ _ HJ) (cond_on_cur _ _ _ HJ) cond_task
    LE (bytes ++ rest) _ None w f K s evs bytes Hin Hj)|done|done|done|].
  - pose proof (reads_LE (bytes ++ rest) 0 (length bytes) ltac:(lia)) as Hr. by rewrite drop_0, take_app_length in Hr.
  - exact Hb.
  - simpl. rewrite Z.sub_0_r, u16_small; [done|]. unfold is_u16. lia.
  - intros [[err mem'] p'] evs' s' (j & f' & Hin' & Hj' & _ & _ & Herr). exists (take j bytes), f'. split; [apply prefix_take|].
    split; [|by split]. intros Hc.
    assert (err = NoError) as ->.
    { destruct err; try done; [..|by destruct Herr as (p0 & Hp & _)]; destruct Herr as [_ Hf];
        apply (cond_failed _ evs' s' Hc); try done; by eapply in_UENUM. }
    destruct Herr as [-> _]. apply firstn_all.
Qed.

(** A network packet: the header and the bytes. *)
Lemma packet_sent bytes Buffer w a evs s :
  sending n w a evs s -> J evs (select DataINEndpoint s) -> ready_for_data s = true ->
  bytes `prefix_of` Buffer -> Z.of_nat (length bytes) < 65536 -> Forall is_u8 bytes ->
  within (WAIT * (47 + length bytes)) (packet_given clear n bytes w a) s evs (SendPacket Buffer (Z.of_nat (length bytes)) s evs).
Proof using HJ.
  intros Hs Hj Hrdy Hpre Hl Hb. set (PacketLength := Z.of_nat (length bytes)) in *. pose proof Hs as (Ha & Hn & (e & He & Hfifo & Hw) & Hr & Hev).
  unfold RNDIS_Device_SendPacket. rewrite bind_get, Hrdy. cbn [negb]. cbv iota. rewrite bind_run.
  set (s1 := select DataINEndpoint s) in *. set (K := steady s1).
  assert (in_state n w (filling e) K evs s1) as Hin by (exists e; split_and!; try done; split; [by rewrite Hn, <- Ha|done]).
  assert (K.1.2 = a) as HK by done. apply (within_start s1); [|done]. clearbody K s1.
  replace (WAIT * (47 + length bytes))%nat with (WAIT + (WAIT * 45 + (WAIT * S (length bytes) + 0)))%nat by lia.
  eapply within_bind; [exact (wait_rule _ s1 evs (stable_and _ _ (in_state_stable n w _ K (cond_pos _ _ _ HJ)) (cond_stable _ _ _ HJ)) (conj Hin Hj))|].
  intros err s2 evs2 ([Hin2 Hj2] & Htold & _ & Hlate). destruct (decide (err = NoError)) as [->|Hne].
  2: { rewrite decide_True by done. apply (within_done (A:=ep_error)); [|lia..]. exists [], []. cbv zeta. rewrite !app_nil_r.
    split; [apply prefix_nil|]. split; [apply prefix_nil|]. split; [done|]. split; [|split; [by eapply sending_leave|done]]. intros Hc.
    pose proof (cond_late _ _ _ HJ evs s1 Hc Hj). destruct (decide (err = Timeout)) as [->|Ht]; [specialize (Hlate eq_refl); lia|].
    destruct Hne. apply (cond_told _ _ _ HJ err evs2 s2 Hc); [by eapply in_UENUM|done..]. }
  rewrite decide_False by naive_solver.
  eapply within_bind; [apply (write_all (packet_header PacketLength) (packet_header PacketLength) sizeof_Packet w _ K s2 evs2 Hin2 Hj2); done || apply le32s_u8|].
  intros r1 s3 evs3 (header & f3 & Hpre1 & Hall1 & Hin3 & Hj3).
  eapply within_bind; [by apply (write_all Buffer bytes PacketLength _ f3 K s3 evs3 Hin3 Hj3)|].
  intros r2 s4 evs4 (data & f4 & Hpre2 & Hall2 & Hin4 & Hj4). rewrite bind_run. apply within_ret; [|done].
  exists header, data. cbv zeta. split; [done|]. split; [done|]. split; [done|]. split; [intros Hc; split; [done|split; [by apply Hall1|by apply Hall2]]|].
  rewrite <- app_assoc in Hin4. split; [eapply sending_leave; [done|by eapply in_clear|done]|]. intros _.
  eapply in_handed_over. by eapply in_clear.
Qed.

(** ** Receiving *)

Lemma read_some mem Length (l : nat) got r0 evs0 q K s evs :
  out_state n got r0 evs0 q K evs s -> J evs s -> Z.of_nat l = Length -> Length < 65536 -> (l <= length mem)%nat ->
  within (WAIT * S (l + q)) (fun '(_, mem', _) evs' s' => exists part, (length part <= l)%nat /\ (clear -> length part = l) /\
      mem' = part ++ drop (length part) mem /\ out_state n (got ++ part) r0 evs0 q K evs' s' /\ J evs' s') s evs
    (Endpoint_Read_Stream_LE task mem Length None s evs).
Proof using HJ.
  intros Hout Hj <- Hl Hm. unfold Endpoint_Read_Stream_LE.
  eapply (within_after 0); [apply (read_stream task J n (cond_pos _ _ _ HJ) (cond_stable _ _ _ HJ) (cond_on_cur _ _ _ HJ) cond_task
    LE mem _ None l got r0 evs0 q K s evs Hout Hj)|done|done|done|].
  - apply room_LE; simpl; lia.
  - simpl. rewrite Z.sub_0_r, u16_small; [done|]. unfold is_u16. lia.
  - intros [[err mem'] p'] evs' s' (bs & Hout' & Hj' & Hst & Hbs & Herr). exists bs. split; [done|]. split; [|split; [|by split]].
    + intros Hc. assert (err = NoError) as ->; [|by destruct Herr].
      destruct err; try done; [..|by destruct Herr as (p0 & Hp & _)]; destruct Herr as [_ Hf];
        apply (cond_failed _ evs' s' Hc); try done; by eapply out_UENUM.
    + simpl in Hst. by apply store_LE in Hst.
Qed.

(** What is read are bytes. *)
Lemma out_u8 got r0 evs0 q K evs s : out_state n got r0 evs0 q K evs s -> Forall is_u8 r0 -> Forall (Forall is_u8) (outs n evs0) -> Forall is_u8 got.
Proof using Type.
  intros (e & used & P & _ & _ & _ & -> & HP & Hgot & _) Hr Hev. rewrite outs_app in Hev. apply Forall_app in Hev as [Hev _].
  assert (Forall is_u8 (got ++ concat (received e))) as Hall; [|by apply Forall_app in Hall as [Hall _]].
  rewrite Hgot. apply Forall_app. split; [done|]. apply Forall_concat. by eapply sublist_Forall.
Qed.

(** A network packet. [Header] is what the local variable holds before. *)
Lemma packet_read Header Buffer PacketLength e0 s evs :
  let q := (length (received e0) + length (outs n evs))%nat in
  receiving n e0 evs s -> J evs (select DataOUTEndpoint s) -> ready_for_data s = true ->
  length Header = 44%nat -> Forall is_u8 Header -> (1500 <= length Buffer)%nat ->
  within (WAIT * (1546 + 2 * q))
    (packet_taken clear n Header Buffer (concat (received e0)) evs q (steady (select DataOUTEndpoint s))) s evs
    (ReadPacket Header Buffer PacketLength s evs).
Proof using HJ.
  intros q (Hn & He & Hd & Hx & Hrec & Hu0 & Hue & Hr & Hev) Hj Hrdy HH HHu HB. set (K := steady (select DataOUTEndpoint s)).
  assert (at_ep n e0 (select DataOUTEndpoint s)) as Ha by (split; [by rewrite Hn|done]).
  assert (out_state n [] (concat (received e0)) evs q K evs (select DataOUTEndpoint s)) as Hout.
  { exists e0, [], []. rewrite app_nil_r. split_and!; try done. }
  pose proof (at_cur _ _ _ Ha) as Hcur.
  unfold RNDIS_Device_ReadPacket. rewrite bind_get, Hrdy. cbn [negb]. cbv iota. rewrite bind_run, bind_get.
  set (s1 := select DataOUTEndpoint s) in *. unfold Endpoint_IsOUTReceived, RXOUTI. rewrite Hcur.
  replace (negb _) with false by (by destruct (received e0)). apply (within_start s1); [|done]. clearbody K s1 q.
  replace (WAIT * (1546 + 2 * q))%nat with (WAIT * S (44 + q) + WAIT * (1501 + q))%nat by lia.
  eapply within_bind; [by apply (read_some Header sizeof_Packet 44 [] (concat (received e0)) evs q K s1 evs); [..|rewrite HH]|].
  intros [[err1 H1] p1] s2 evs2 (header & Hh & Hch & -> & Hout2 & Hj2). set (H1 := header ++ drop (length header) Header) in *.
  assert (length H1 = 44%nat) as HH1 by (unfold H1; rewrite length_app, length_drop; lia).
  assert (get32 12 H1 = Ok (le (take 4 (drop 12 H1)))) as Hget by (unfold get32; by rewrite HH1).
  set (L := le (take 4 (drop 12 H1))) in *.
  assert ((fun s0 : state => n0 ← get32 12 H1; Ok (n0, s0)) s2 = Ok (L, s2)) as Hop by (by rewrite Hget).
  rewrite (bind_op _ _ _ _ _ _ Hop). change ETHERNET_FRAME_SIZE_MAX with 1500. destruct (1500 <? L) eqn:EL.
  - rewrite bind_run. apply within_ret; [|done]. exists header, s2. split; [done|]. split; [done|]. cbv zeta. fold H1. fold L. rewrite EL. done.
  - pose proof (proj1 (Z.ltb_ge _ _) EL) as EL'.
    assert (0 <= L) as HL.
    { apply le_nonneg, Forall_take, Forall_drop, Forall_app. split; [|by apply Forall_drop].
      by apply (out_u8 _ (concat (received e0)) evs q K evs2 s2). }
    rewrite (u16_small L) by (unfold is_u16; lia).
    eapply (within_after 0 (WAIT * S (Z.to_nat L + q) + 0) _ (packet_taken clear n Header Buffer (concat (received e0)) evs q K));
      [eapply within_bind|lia|lia|nia|done].
    + by apply (read_some Buffer L (Z.to_nat L) header (concat (received e0)) evs q K s2 evs2); [..|lia|lia|lia].
    + intros [[err2 H2] p2] s3 evs3 (data & Hd3 & Hcd & -> & Hout3 & _). rewrite bind_run. apply within_ret; [|done].
      exists header, s3. split; [done|]. split; [done|]. cbv zeta. fold H1. fold L. rewrite EL.
      exists data. split; [done|]. split; [done|]. split; [lia|]. split; [intros Hc; rewrite (Hcd Hc); lia|]. done.
Qed.
End Transfer.

(** ** The notification *)

(** When a response is ready and the bank of the interrupt endpoint is free, the host is notified once. *)
Lemma notification_sent n e ev evs s :
  at_ep n e (select NotificationEndpoint s) -> 0 < n -> USB_DeviceState s = Configured -> ResponseReady (app s) = true ->
  Z.testbit (UECFG0X e) EPDIR = true -> TXINI e = true -> filling e = [] -> fires EORSTI s = false -> ev <> BusReset ->
  exists s' e', RNDIS_Device_USBTask (User:=User) CALLBACK_USB_GetDescriptor boot_signature_byte_get s (ev :: evs) = Ok (tt, s', evs) /\
    at_ep n e' s' /\ delivered [Notification] e e' /\ app s' = app s <| ResponseReady := false |>.
Proof using Type.
  intros Ha Hn Hc Hrr Hd Ht Hf Hr Hev. set (s1 := select NotificationEndpoint s) in *.
  pose proof (at_tick n e s1 ev Ha Hev Hr) as Ha2. set (e2 := act n ev e) in *.
  destruct (act_config n ev e Hn) as (Hc0 & Hc1 & _ & Hst & Hc4 & Hc5). fold e2 in Hc0, Hc1, Hst, Hc4, Hc5.
  assert (TXINI e2 = true) as Ht2 by (by apply TXINI_act). rewrite Hf in Hc4.
  pose proof (write_stream_ready task n e2 s1 (tick ev s1) (ev :: evs) evs Notification 8 None
    (wait_free n e s1 ev evs Ha Hn Hd Ht Hev Hr) Ha2) as Hw. rewrite Hc0, Hc4 in Hw. pose proof (bank_size_8 e2).
  specialize (Hw Hd Ht2 eq_refl ltac:(simpl; lia) ltac:(lia) ltac:(simpl; lia) ltac:(repeat apply Forall_cons_2; try apply Forall_nil_2; unfold is_u8; vm_compute; by split)).
  change ([] ++ take 8 Notification) with Notification in Hw.
  destruct (tick_steady ev s1 Hev Hr) as [Hk _]. injection Hk as _ _ _ _ _ Happ _.
  generalize dependent (tick ev s1). intros s2 Ha2 Hw Happ.
  set (f := fun e : endpoint => if TXINI e then e <| armed ::= fun l => l ++ [filling e] |> <| filling := [] |> else e).
  pose proof (at_on_cur n _ _ f (at_on_cur n e2 s2 (fun e => e <| filling := Notification |>) Ha2)) as Ha5.
  set (s3 := on_cur f (on_cur (fun e => e <| filling := Notification |>) s2)) in *.
  exists (on_rndis (fun a => a <| ResponseReady := false |>) s3), (f (e2 <| filling := Notification |>)). split; [|split; [exact Ha5|]].
  - unfold RNDIS_Device_USBTask. rewrite bind_get, bool_decide_eq_true_2 by done. cbn [negb]. cbv iota. rewrite bind_run, bind_get.
    fold s1. unfold Endpoint_IsINReady. rewrite (at_cur _ _ _ Ha), Ht. change (app s1) with (app s). rewrite Hrr. cbn [andb]. cbv iota.
    rewrite (bind_ok _ _ _ _ _ _ _ Hw), bind_run. reflexivity.
  - assert (app s3 = app s) as Hs3 by exact Happ. split; [|exact (f_equal (fun a => a <| ResponseReady := false |>) Hs3)].
    unfold f. change (TXINI (e2 <| filling := _ |>)) with (TXINI e2). rewrite Ht2.
    destruct (act_flags n ev e Hn) as [Hen Har].
    split; [by split|]. split; [done|]. split; [unfold packets_in in *; simpl; rewrite app_assoc; f_equal; exact Hc5|].
    split; [exact Hen|]. split; [exact Hst|]. simpl. rewrite length_app. simpl. unfold e2. lia.
Qed.
End Packets.

(** ** Theorems *)

(** C28: the sending of a network packet, whatever happens on the bus but for control requests and
    resets: what is put into the IN endpoint is a prefix of the header, followed by a prefix of the
    packet, and the call returns within the frames of its timeouts; an error is returned only if nothing
    was put there, and otherwise all that was put there has been handed over to the controller. When
    fewer frames than a timeout takes are to come, the device stays configured and the endpoint is not stalled,
    the result is no error and these are the header and the packet in full. Unless the host has
    opened the data state the call does nothing but say so. *)
Theorem rndis_send_packet {User} `{UsbChip} descriptors signature n bytes Buffer w (a : rndis User) (s : usb (rndis User)) evs :
  0 < n -> sending n w a evs s -> no_control evs (select DataINEndpoint s) ->
  bytes `prefix_of` Buffer -> Z.of_nat (length bytes) < 65536 -> Forall is_u8 bytes ->
  let r := RNDIS_Device_SendPacket descriptors signature Buffer (Z.of_nat (length bytes)) s evs in
  if ready_for_data s then
    within (WAIT * (47 + length bytes)) (packet_given False n bytes w a) s evs r /\
    (calm n evs (select DataINEndpoint s) -> within (WAIT * (47 + length bytes)) (packet_given True n bytes w a) s evs r)
  else r = Ok (DeviceDisconnected, s, evs).
Proof.
  intros Hn Hs Hc Hpre Hl Hb r. destruct (ready_for_data s) eqn:E.
  - split; [by apply (packet_sent descriptors signature (any_transfer n Hn))|]. intros Hcalm. by apply (packet_sent descriptors signature (calm_transfer n Hn)).
  - unfold r, RNDIS_Device_SendPacket. by rewrite bind_get, E.
Qed.

(** C29: the reading of a network packet that has arrived, whatever happens on the bus but for control
    requests and resets, into a buffer of at least 1500 bytes: the call returns within the frames of its timeouts;
    it reads bytes in the order in which the controller has taken them, up to 44 of header and then
    up to the length that the header announces, which go to the start of the buffer, and nothing else
    of it changes; an announced length of more than 1500 stalls the endpoint. When nothing disturbs the
    transfer the header and the packet are complete, and the length returned is that of the packet. *)
Theorem rndis_read_packet {User} `{UsbChip} descriptors signature n Header Buffer PacketLength e (s : usb (rndis User)) evs :
  let q := (length (received e) + length (outs n evs))%nat in
  0 < n -> receiving n e evs s -> no_control evs (select DataOUTEndpoint s) -> ready_for_data s = true ->
  length Header = 44%nat -> Forall is_u8 Header -> (1500 <= length Buffer)%nat ->
  let r := RNDIS_Device_ReadPacket descriptors signature Header Buffer PacketLength s evs in
  let taken clear := packet_taken clear n Header Buffer (concat (received e)) evs q (steady (select DataOUTEndpoint s)) in
  within (WAIT * (1546 + 2 * q)) (taken False) s evs r /\
  (calm n evs (select DataOUTEndpoint s) -> within (WAIT * (1546 + 2 * q)) (taken True) s evs r).
Proof.
  intros q Hn Hs Hc Hrdy HH HHu HB r taken.
  split; [by apply (packet_read descriptors signature (any_transfer n Hn))|]. intros Hcalm. by apply (packet_read descriptors signature (calm_transfer n Hn)).
Qed.

(** *** Witnesses *)

(** Bulk endpoints of 64 bytes, IN 1 and OUT 2, of an adapter that the host has opened. *)
Definition w_in : endpoint := mkEndpoint true false false 129 (sbi (Z.shiftl 3 4) ALLOC) 0 [] [] [] [] [] false.
Definition w_out (r : list (list Z)) : endpoint := mkEndpoint true false false 128 (sbi (Z.shiftl 3 4) ALLOC) 0 [] [] [] [] r false.
Definition w_open : rndis unit := w_app [] <| CurrRNDISState := RNDIS_Data_Initialized |>.
Definition w_link (r : list (list Z)) : usb (rndis unit) :=
  fresh_device control_endpoint no_request w_open <| eps ::= fun l => <[1%nat := w_in]> (<[2%nat := w_out r]> l) |>
    <| USB_DeviceState := Configured |>.

(** Three bytes. *)
Lemma rndis_send_packet_witness :
  exists s e, @RNDIS_Device_SendPacket _ some_chip (fun _ _ => (0, [])) (fun _ => 0) [7; 8; 9] 3 (w_link []) [Idle; Idle; Idle] =
    Ok (NoError, s, []) /\ eps s !! 1%nat = Some e /\ wire e = packet_header 3 ++ [7; 8; 9] /\ filling e = [].
Proof.
  pose proof (@rndis_send_packet _ some_chip (fun _ _ => (0, [])) (fun _ => 0) 1 [7; 8; 9] [7; 8; 9] [] w_open (w_link []) [Idle; Idle; Idle]) as Hs.
  assert (no_control [Idle; Idle; Idle] (select DataINEndpoint (w_link []))) as Hc.
  { split; [exists control_endpoint; split; reflexivity|]. split; [vm_compute; split; discriminate || reflexivity|]. split; [reflexivity|].
    repeat constructor; discriminate. }
  destruct Hs as [_ Hs].
  - lia.
  - split; [reflexivity|]. split; [reflexivity|].
    split; [exists w_in; split; [reflexivity|split; [|reflexivity]]; split; [reflexivity|split; [simpl; lia|reflexivity]]|].
    split; [reflexivity|]. repeat constructor; discriminate.
  - exact Hc.
  - exists []. reflexivity.
  - simpl; lia.
  - repeat constructor; unfold is_u8; lia.
  - assert (calm 1 [Idle; Idle; Idle] (select DataINEndpoint (w_link []))) as Hcalm.
    { split; [exact Hc|]. split; [intros i _; reflexivity|]. split; [reflexivity|]. split; [reflexivity|].
      split; [vm_compute; lia|]. exists w_in. split; reflexivity. }
    specialize (Hs Hcalm). change (Z.of_nat (length [7; 8; 9])) with 3 in Hs.
    destruct (RNDIS_Device_SendPacket _ _ _ _ _ _) as [[[err s] evs]| |] eqn:E; [|vm_compute in E; discriminate..].
    destruct Hs as ((header & data & _ & _ & _ & Hall & (_ & _ & (e & He & _ & Hw) & _) & Hover) & _).
    destruct (Hall I) as (-> & -> & ->). destruct (Hover eq_refl) as (e' & He' & Hf).
    change (Z.to_nat 1) with 1%nat in *. assert (e' = e) as -> by (rewrite He in He'; by injection He').
    exists s, e. split; [|split; [exact He|split; [exact Hw|exact Hf]]].
    assert (evs = []) as -> by (vm_compute in E; injection E as _ <-; reflexivity). reflexivity.
Defined.

(** A packet of three bytes. *)
Lemma rndis_read_packet_witness :
  exists s header data s2 K, @RNDIS_Device_ReadPacket _ some_chip (fun _ _ => (0, [])) (fun _ => 0) (replicate 44 0) (replicate 1500 0) 0
      (w_link [packet_header 3 ++ [7; 8; 9]]) [Idle; Idle; Idle] = Ok ((Some NoError, [7; 8; 9] ++ replicate 1497 0, 3), s, [Idle]) /\
    length header = 44%nat /\ length data = 3%nat /\ [7; 8; 9] ++ replicate 1497 0 = data ++ drop 3 (replicate 1500 0) /\
    s = Endpoint_ClearOUT s2 /\ out_state 2 (header ++ data) (packet_header 3 ++ [7; 8; 9]) [Idle; Idle; Idle] 1 K [Idle] s2.
Proof.
  set (e := w_out [packet_header 3 ++ [7; 8; 9]]).
  pose proof (@rndis_read_packet _ some_chip (fun _ _ => (0, [])) (fun _ => 0) 2 (replicate 44 0) (replicate 1500 0) 0 e
    (w_link [packet_header 3 ++ [7; 8; 9]]) [Idle; Idle; Idle]) as Hs.
  assert (no_control [Idle; Idle; Idle] (select DataOUTEndpoint (w_link [packet_header 3 ++ [7; 8; 9]]))) as Hc.
  { split; [exists control_endpoint; split; reflexivity|]. split; [vm_compute; split; discriminate || reflexivity|]. split; [reflexivity|].
    repeat constructor; discriminate. }
  destruct Hs as [_ Hs].
  - lia.
  - split; [reflexivity|]. split; [reflexivity|]. split; [reflexivity|]. split; [reflexivity|]. split; [discriminate|].
    split; [apply Forall_app; split; [apply Forall_app; split; [apply le32s_u8|repeat constructor; unfold is_u8; lia]|constructor]|].
    split; [constructor|]. split; [reflexivity|].
    repeat constructor; discriminate.
  - exact Hc.
  - reflexivity.
  - apply length_replicate.
  - apply Forall_replicate. unfold is_u8. lia.
  - rewrite length_replicate. lia.
  - assert (calm 2 [Idle; Idle; Idle] (select DataOUTEndpoint (w_link [packet_header 3 ++ [7; 8; 9]]))) as Hcalm.
    { split; [exact Hc|]. split; [intros i _; reflexivity|]. split; [reflexivity|]. split; [reflexivity|].
      split; [vm_compute; lia|]. exists e. split; reflexivity. }
    specialize (Hs Hcalm). destruct (RNDIS_Device_ReadPacket _ _ _ _ _ _ _) as [[[[[err B] L] s] evs]| |] eqn:E; [|vm_compute in E; discriminate..].
    assert (err = Some NoError /\ B = [7; 8; 9] ++ replicate 1497 0 /\ L = 3 /\ evs = [Idle]) as (-> & -> & -> & ->).
    { vm_compute in E. injection E as <- <- <- _ <-. repeat split; reflexivity. }
    destruct Hs as ((header & s2 & _ & Hh & Hrest) & _). cbv zeta in Hrest. destruct (1500 <? _); [destruct Hrest as [Hx _]; discriminate|].
    destruct Hrest as (data & _ & HL & _ & Hd & HB & Hs2 & Hout). specialize (Hd I). rewrite <- HL in Hd.
    assert (length data = 3%nat) as Hd3 by lia. rewrite Hd3 in HB.
    exists s, header, data, s2, (steady (select DataOUTEndpoint (w_link [packet_header 3 ++ [7; 8; 9]]))).
    split; [reflexivity|]. split; [exact (Hh I)|]. split; [exact Hd3|]. split; [exact HB|]. split; [exact Hs2|]. exact Hout.
Defined.
End RndisPackets.
